(* ===== verification/_CoqProject ===== *)
-Q . S2P
Prelude.v
CTypes.v
VmlinuxBase.v
VmlinuxNet.v
VmlinuxTask.v
VmlinuxFs.v
VmlinuxBpf.v
Vmlinux.v
Bpf.v
Maps.v
Sensor.v
Xdp.v
Kernel.v
Smp.v
Text.v
Carver.v
Kp14.v
Qihse.v
Yara.v
Shell.v
Proxmox.v
Ioc.v
Pipeline.v
Daemon.v
Main.v
Agent.v
Responder.v
Deploy.v
Misp.v
Steps.v
Whole.v
Fair.v
System.v
