(* ===== verification/Prelude.v ===== *)
(** * ALPHVDR: a verification development

    ALPHVDR is an endpoint detection and response system for Linux.  This
    library translates its kernel sensor (C, [src-bpf/]) and its agent and
    analysis client (Rust, [src/]) into Rocq and proves what makes them
    correct.  This file is the prelude; the development is described here.

    ** The program

    - The sensor, [src-bpf/sensor.bpf.c], is eight BPF programs: six
      tracepoints on system calls, a kprobe on [vfs_open] and an XDP program.
      They share maps written by the
      agent (blocklist, honeytokens, decoy processes, the agent's id), maps of
      their own (two counters) and two ring buffers.  The programs judge the
      current task or packet, may send SIGSTOP, and submit records.
    - The agent, [src/main.rs], fills those maps at start-up and polls the
      rings.  For each event record it writes log lines ([src/qihse.rs]), scans
      the process ([src/yara.rs]), rolls the home dataset back when it sees
      ransomware ([src/rollback.rs]) and sends freeze orders through a bounded
      channel.  A flag read from a file (research mode) makes it ignore
      events.  A sidecar ([src/misp.rs]) feeds addresses to the blocklist.
    - The responder, a task of [src/main.rs], takes the orders: it stops the
      process, carves its memory into a blob ([src/memory_carver.rs]), routes
      the blob to an analysis VM ([src/proxmox_bridge.rs]) and starts the
      analysis over SSH.
    - The analysis client, [src/kp14_suite.rs], parses blobs, extracts
      binaries, strings and indicators of compromise, and writes them as JSON;
      it runs against a remote host or as a daemon that waits for a disk.

    ** The files

    Kernel side, in C:
    - [CTypes]: C object types and the LP64 layout algorithm (size, alignment,
      member offsets, bit-fields).
    - [VmlinuxBase], [VmlinuxNet], [VmlinuxTask], [VmlinuxFs], [VmlinuxBpf],
      [Vmlinux]: the types of [src-bpf/vmlinux.h] reachable from those the
      sensor names, member for member.
    - [Bpf]: the helpers, maps and ring buffers as classes of operations
      ([BpfMap], [RingBuf], [KernelMemory]) with classes of the documented laws;
      the state [sensor] of all maps and rings; a state monad [bpf].
      A map has elements with addresses; what is freed may be used again for
      another key.  Concrete instances discharge the laws, and the witnesses
      run on them.
    - [Maps]: the declarations of the maps with their types and sizes; what
      they promise, as the classes [KernelMap] and [KernelRing]; the values a
      map may hold ([typed_maps]); maps that behave as declared, LRU eviction
      included ([kmap]), and rings.
    - [Sensor]: [handle_execve], [kprobe_vfs_open], [handle_ptrace],
      [handle_process_vm_readv], [handle_kill], [handle_openat],
      [handle_sendto]; records are blocks of bytes written at C offsets over
      what the ring record held before.
    - [Xdp]: [xdp_c2_inspector]; a read outside the packet is [None].
    - [Kernel]: all programs on one state, in any sequence of hooks.
    - [Smp]: every program as a tree of its helper calls and of its loads
      through the addresses that lookups return ([conc]), which run in one go
      are the program of [Sensor] or [Xdp] ([collapse_hook]); [smp_step]
      interleaves the actions of any number of running programs.

    Agent and analysis side, in Rust:
    - [Text]: strings as UTF-8 bytes; lossy decoding, splitting, trimming,
      integer parsing and printing.
    - [Carver]: [MemoryCarver], the map parser and the blob writer.
    - [Kp14]: [ParsedCoreDump], the blob reader.
    - [Qihse]: [QihseClient], the append-only log.
    - [Yara]: [YaraEngine]; the entropy in binary64.
    - [Shell]: external commands as an arbitrary [world] that answers them, a
      monad [cmd] that keeps the trace, and [ZfsManager].
    - [Proxmox]: [ProxmoxBridge].
    - [Ioc]: the word matcher, deduplication and the JSON text.
    - [Pipeline]: [Kp14Client] over SSH.  [Daemon]: [Kp14Client] as a daemon.
    - [Agent]: [handle_event] and [handle_tls_event] (the callbacks of the two
      rings), research mode, the channel, and the interleavings of these with
      the responder as the relation [step].
    - [Responder]: the body of the responder's loop and the tasks it spawns;
      the abstract queue between it and the event loop.
    - [Deploy]: start-up writes to the maps and the draining of the sidecar's
      channel into the blocklist.
    - [Misp]: the threat-intelligence sidecar, turn by turn.
    - [Main]: the command-line modes that run one operation and exit.
    - [Steps]: everything at once, as the relation [does] between the states of
      the whole system: a step is one helper call or load, one record read, one effect
      of its callback, one return from [poll], one address moved, one request
      of the sidecar, one address sent or one line logged by it, one tick of
      the monitor, one backup, or one order taken or answered.
    - [Whole]: the invariant of that machine, and the operations of the
      components as executions of it ([components_are_steps]).
    - [Fair]: infinite executions, their fairness, and what they reach.
    - [System]: the sensor's records fed to the agent.

    Fallible Rust code returns [outcome]: [Ok], [Err] (an error value that the
    caller can handle) or [Panic].  Integers are [Z] with [uwrap] and [swrap]
    at their width: the release build wraps on overflow, and so does the model.

    ** The theorems

    - Layout: members are in bounds and disjoint, and reading one after a
      write gives the value written ([CTypes], [Vmlinux]); the members of the
      Ethernet, IPv4 and TCP headers are the fields of the protocols, bit-fields
      included ([Vmlinux.headers_on_the_wire]); the Rust structs have the layout
      of the C ones ([Agent]).
    - Programs of the sensor: the verdict of every program on every branch, and
      the contents of the record; what the counting programs do over any
      sequence of calls, with and without eviction of their counters; memory safety, verdict and reports of the XDP
      program; type safety of all programs together, under any sequence of
      hooks ([Kernel.kernel_type_safe]).
    - The event ring: how many unread events fit, and what a burst of
      executions leaves of the reports ([Kernel.ring_holds_885_events]).
    - Several processors: the same type safety under any interleaving of the
      helper calls and loads, with every sequential run among the executions;
      without a cause of its own a process is stopped only after all processes
      together have passed a limit ([Smp.smp_no_early_stop]), but counts are
      lost ([Smp.smp_lost_updates]), and an element that is reused makes a
      process pay for the files of another ([Smp.smp_reused_counter]).
    - Start-up and blocklist on maps of the declared sizes: what is stored,
      exactly, and what is refused ([Deploy]).
    - Blob: what is carved is parsed back, every proper prefix of a blob is
      refused, and what is accepted is bounded by the file ([Kp14]); the maps
      file is parsed back to the areas it lists ([Carver]).
    - Agent: the callback is a fixed sequence of log lines, orders and
      roll-back; refinement of a bounded queue; every accepted order is served
      under a fair scheduler; the responder never panics ([Responder]).
    - Analysis: routing gives a volume that holds the blob ([Proxmox]); the
      matcher finds exactly the words of the four kinds it knows, and every
      address with punctuation around it ([Ioc]); the wait for a disk ends
      ([Daemon]); which failures leave a volume, a remote file or an
      unreadable JSON file behind.
    - Composition: a trap in the kernel leads to a freeze order, the order to
      a stopped process and to a blob that the analysis parses, when the record
      was clear after the trap's name, and is missed when it was not
      ([System.kill_agent_to_freeze], [System.honeytoken_to_core_dump]); an
      address the intelligence server reports is dropped
      ([Misp.misp_to_xdp]).  In every interleaving of all parts only processes
      that acted at a hook are stopped, the loop gets exactly the records
      submitted, no channel overflows, the maps keep their types, the log only
      grows, and packets are dropped for the addresses reported and no others
      ([Whole.whole_system_safe], [Whole.whole_blocks]).
    - The long run: when [poll] hands over the records there are and returns,
      and every task gets its turns, every record is handled and logged, every
      process it calls for is answered by the responder unless the channel is
      found full ([Fair.records_answered]), and every reported address that
      fits into the blocklist is blocked for ever ([Fair.reports_block]).  That the loop makes room for a
      sidecar that waits follows from the loop's own phases, not from a
      hypothesis.  The proofs chain one-hop progress lemmas ([Fair.until],
      [Fair.reaches], [Fair.crossing]).

    ** Bounds and fuel

    Recursion that is not structural takes fuel: decoding and splitting of
    text take the length of the text, one unit for at least one byte, and
    lemmas show the result does not depend on more; the removal of a substring
    takes the length too.  The daemon's wait takes fuel and
    [Daemon.watch_terminates] gives the amount that suffices for a clock that
    advances.  The payload copy of the XDP program is the C loop of 128
    iterations.  The channel of freeze orders has [CHANNEL_CAPACITY] = 1000 places and
    that of addresses [MISP_CAPACITY] = 100, as
    in the source.  The theorems about several processors take executions of any
    length.  A number has at most as many digits as bits.

    ** Parameters

    Code outside the repository is a parameter with documented behaviour: the
    BPF helpers and maps ([Bpf]), the commands ([Shell.world]), what the
    operating system answers to reads ([Carver.proc], [Responder.order_env],
    the records of [Pipeline] and [Daemon]), [f64::log2] ([Yara]), the Unicode
    letter, digit and case tables beyond ASCII ([Ioc]), and [serde_json]
    ([Misp]).

    ** Not modelled

    Console output; memory exhaustion; the clock (sleeps are steps that do
    nothing); the tokio scheduler beyond the interleavings of [Agent.step] and
    [Steps.does], where one append to the log is one step, an address is taken
    out of its channel and stored in one, and the work of the responder on an
    order, once taken, is one; the end of the loop when [poll] itself fails;
    the element of an LRU map that the kernel chooses to evict (any); the types of [vmlinux.h] that the sensor's
    types do not reach (the header is generated); symbolic links in the search
    for a blob; the dashboard, the build and the install scripts.  The XDP program is
    modelled as it runs once attached; the agent itself attaches it to no
    interface. *)

From Stdlib Require Export ZArith Lia.
From stdpp Require Export base tactics option list numbers strings.
From stdpp Require Import pretty.

(** ** Scope and tactics *)

Declare Scope alphvdr_scope.
Delimit Scope alphvdr_scope with alphvdr.
Global Open Scope Z_scope.
Coercion Z.of_nat : nat >-> Z.

Create HintDb alphvdr.
Create Rewrite HintDb alphvdr_rw.

(** [bdestruct_all] turns every boolean comparison of the context and of the
    goal that is in the way of a [match] into its proposition. *)
Ltac bool_prop :=
  repeat match goal with
  | H : (_ && _)%bool = true |- _ => apply andb_true_iff in H as [? ?]
  | H : (_ && _)%bool = false |- _ => apply andb_false_iff in H
  | H : (_ || _)%bool = true |- _ => apply orb_true_iff in H
  | H : (_ || _)%bool = false |- _ => apply orb_false_iff in H as [? ?]
  | H : negb _ = true |- _ => apply negb_true_iff in H
  | H : negb _ = false |- _ => apply negb_false_iff in H
  | H : (_ =? _)%Z = true |- _ => apply Z.eqb_eq in H
  | H : (_ =? _)%Z = false |- _ => apply Z.eqb_neq in H
  | H : (_ <? _)%Z = true |- _ => apply Z.ltb_lt in H
  | H : (_ <? _)%Z = false |- _ => apply Z.ltb_ge in H
  | H : (_ <=? _)%Z = true |- _ => apply Z.leb_le in H
  | H : (_ <=? _)%Z = false |- _ => apply Z.leb_gt in H
  | H : (_ >? _)%Z = true |- _ => rewrite Z.gtb_ltb in H; apply Z.ltb_lt in H
  | H : (_ >? _)%Z = false |- _ => rewrite Z.gtb_ltb in H; apply Z.ltb_ge in H
  | H : (_ >=? _)%Z = true |- _ => rewrite Z.geb_leb in H; apply Z.leb_le in H
  | H : (_ >=? _)%Z = false |- _ => rewrite Z.geb_leb in H; apply Z.leb_gt in H
  | H : bool_decide _ = true |- _ => apply bool_decide_eq_true in H
  | H : bool_decide _ = false |- _ => apply bool_decide_eq_false in H
  end.

(** Case analysis on the scrutinee of a [match] or [if], in the goal or in a
    hypothesis, with the boolean facts turned into propositions. *)
Ltac step_case := first [case_match | case_decide]; bool_prop; simplify_eq/=.
Ltac crush := repeat step_case; bool_prop; simplify_eq/=; try done; try lia; eauto with alphvdr.

(** ** Machine integers

    A [w]-bit unsigned value is a [Z] in [0, 2^w); [uwrap] is the conversion
    the C and Rust sources perform by assignment or [as].  A signed value is a
    [Z] in [-2^(w-1), 2^(w-1)); [swrap] is the two's complement conversion. *)

Definition uwrap (w z : Z) : Z := z mod 2 ^ w.
Definition swrap (w z : Z) : Z := (z + 2 ^ (w - 1)) mod 2 ^ w - 2 ^ (w - 1).
Abbreviation u8 := (uwrap 8).
Abbreviation u16 := (uwrap 16).
Abbreviation u32 := (uwrap 32).
Abbreviation u64 := (uwrap 64).
Abbreviation i32 := (swrap 32).

Definition is_unsigned (w z : Z) : Prop := 0 <= z < 2 ^ w.
Definition is_signed (w z : Z) : Prop := - 2 ^ (w - 1) <= z < 2 ^ (w - 1).

Lemma uwrap_range w z : 0 <= w -> is_unsigned w (uwrap w z).
Proof. intros. apply Z.mod_pos_bound. by apply Z.pow_pos_nonneg. Qed.

Lemma uwrap_small w z : is_unsigned w z -> uwrap w z = z.
Proof. apply Z.mod_small. Qed.

Lemma uwrap_idemp w z : uwrap w (uwrap w z) = uwrap w z.
Proof. apply Zmod_mod. Qed.

Lemma swrap_range w z : 0 < w -> is_signed w (swrap w z).
Proof.
  intros. unfold is_signed, swrap.
  pose proof (Z.mod_pos_bound (z + 2 ^ (w - 1)) (2 ^ w) ltac:(by apply Z.pow_pos_nonneg; lia)).
  replace (2 ^ w) with (2 * 2 ^ (w - 1)) in *
    by (rewrite <- Z.pow_succ_r by lia; f_equal; lia).
  lia.
Qed.

Lemma swrap_small w z : 0 < w -> is_signed w z -> swrap w z = z.
Proof.
  intros ? Hz. unfold is_signed, swrap in *. rewrite Z.mod_small; [lia|].
  replace (2 ^ w) with (2 * 2 ^ (w - 1))
    by (rewrite <- Z.pow_succ_r by lia; f_equal; lia).
  lia.
Qed.

(** A signed value survives being stored as an unsigned one and read back. *)
Lemma swrap_uwrap w z : 0 < w -> swrap w (uwrap w z) = swrap w z.
Proof. intros. unfold swrap, uwrap. by rewrite Zplus_mod_idemp_l. Qed.

#[export] Hint Resolve uwrap_range swrap_range : alphvdr.
#[export] Hint Rewrite uwrap_idemp : alphvdr_rw.

(** ** Bytes and byte strings

    A byte is a [Z] in [0, 256); memory, packets, files and Rust strings (as
    their UTF-8 encoding) are lists of bytes. *)

Abbreviation byte := Z (only parsing).
Abbreviation bytes := (list Z) (only parsing).
Definition is_byte (b : byte) : Prop := 0 <= b < 256.
Definition is_bytes (l : bytes) : Prop := Forall is_byte l.

#[export] Instance is_byte_dec b : Decision (is_byte b).
Proof. unfold is_byte. apply _. Defined.
#[export] Instance is_bytes_dec l : Decision (is_bytes l).
Proof. unfold is_bytes. apply _. Defined.

(** The bytes of an ASCII literal of the sources. *)
Definition bs (s : string) : bytes :=
  map (fun c => Z.of_N (Ascii.N_of_ascii c)) (String.list_ascii_of_string s).

Lemma bs_is_bytes s : is_bytes (bs s).
Proof.
  apply Forall_map, Forall_true. intros c. unfold is_byte, compose.
  pose proof (Ascii.N_ascii_bounded c). lia.
Qed.

(** Little-endian encoding of the [n] low bytes of [z], and its inverse. *)
Fixpoint le_bytes (n : nat) (z : Z) : bytes :=
  match n with
  | O => []
  | S n => z mod 256 :: le_bytes n (z / 256)
  end.

Fixpoint le_val (l : bytes) : Z :=
  match l with
  | [] => 0
  | b :: l => b + 256 * le_val l
  end.

Lemma length_le_bytes n z : length (le_bytes n z) = n.
Proof. revert z; induction n; simpl; auto. Qed.

Lemma le_bytes_is_bytes n z : is_bytes (le_bytes n z).
Proof.
  revert z; induction n; intros; simpl; constructor; [|apply IHn].
  by apply Z.mod_pos_bound.
Qed.

Lemma le_val_le_bytes n z : le_val (le_bytes n z) = uwrap (8 * n) z.
Proof.
  revert z; induction n as [|n IH]; intros z.
  { unfold uwrap. simpl. by rewrite Z.mod_1_r. }
  cbn [le_bytes le_val]. rewrite IH. unfold uwrap.
  replace (8 * S n) with (8 + 8 * n) by lia.
  rewrite Z.pow_add_r by lia. change (2 ^ 8) with 256.
  rewrite Z.rem_mul_r; lia.
Qed.

Lemma le_val_range l : is_bytes l -> is_unsigned (8 * length l) (le_val l).
Proof.
  unfold is_unsigned. induction 1 as [|b l Hb Hl IH]; [simpl; lia|].
  cbn [le_val length]. replace (8 * S (length l)) with (8 + 8 * length l) by lia.
  rewrite Z.pow_add_r by lia. change (2 ^ 8) with 256. unfold is_byte in Hb. lia.
Qed.

Lemma le_bytes_le_val l : is_bytes l -> le_bytes (length l) (le_val l) = l.
Proof.
  induction 1 as [|b l Hb Hl IH]; [done|]. cbn [length le_val le_bytes].
  unfold is_byte in Hb. rewrite (Z.mul_comm 256), Z_mod_plus_full, Z.mod_small by lia.
  by rewrite Z.div_add, Z.div_small, Z.add_0_l, IH by lia.
Qed.

Lemma le_val_le_bytes_id (n : nat) z :
  is_unsigned (8 * n) z -> le_val (le_bytes n z) = z.
Proof. intros. by rewrite le_val_le_bytes, uwrap_small. Qed.

Lemma le_val_inj l1 l2 :
  is_bytes l1 -> is_bytes l2 -> length l1 = length l2 ->
  le_val l1 = le_val l2 -> l1 = l2.
Proof.
  intros H1 H2 Hlen Heq. rewrite <- (le_bytes_le_val l1), <- (le_bytes_le_val l2) by done.
  by rewrite Hlen, Heq.
Qed.

(** Big-endian (network order) value and the byte swap of [bpf_htons],
    [bpf_ntohs] and [u32::to_be] on a little-endian machine. *)
Definition be_val (l : bytes) : Z := le_val (reverse l).
Definition bswap (n : nat) (z : Z) : Z := le_val (reverse (le_bytes n z)).

Lemma is_bytes_reverse l : is_bytes l -> is_bytes (reverse l).
Proof. intros. by apply Forall_reverse. Qed.

Lemma le_bytes_bswap n z : le_bytes n (bswap n z) = reverse (le_bytes n z).
Proof.
  unfold bswap. rewrite <- (length_le_bytes n z) at 1.
  rewrite <- length_reverse. apply le_bytes_le_val.
  apply is_bytes_reverse, le_bytes_is_bytes.
Qed.

Lemma bswap_involutive (n : nat) z : is_unsigned (8 * n) z -> bswap n (bswap n z) = z.
Proof.
  intros. unfold bswap at 1. rewrite le_bytes_bswap, reverse_involutive.
  by apply le_val_le_bytes_id.
Qed.

#[export] Hint Resolve le_bytes_is_bytes bs_is_bytes is_bytes_reverse : alphvdr.
#[export] Hint Rewrite length_le_bytes : alphvdr_rw.

(** ** Blocks of memory

    [load off n m] and [store off v m] read and write a field of the byte
    block [m]; the models only use them inside the block. *)

Definition load (off n : nat) (m : bytes) : bytes := take n (drop off m).
Definition store (off : nat) (v m : bytes) : bytes :=
  take off m ++ v ++ drop (off + length v) m.

Lemma length_load off n m :
  (off + n <= length m)%nat -> length (load off n m) = n.
Proof. intros. unfold load. rewrite length_take, length_drop. lia. Qed.

Lemma length_store off v m :
  (off + length v <= length m)%nat -> length (store off v m) = length m.
Proof.
  intros. unfold store. rewrite !length_app, length_take, length_drop. lia.
Qed.

Lemma load_store_same off n v m :
  (off + length v <= length m)%nat -> n = length v -> load off n (store off v m) = v.
Proof.
  intros ? ->. unfold load, store.
  rewrite drop_app_length' by (rewrite length_take; lia).
  by rewrite take_app_length.
Qed.

Lemma load_store_below off n off' v m :
  (off + n <= off')%nat -> (off' + length v <= length m)%nat ->
  load off n (store off' v m) = load off n m.
Proof.
  intros. unfold load, store.
  rewrite drop_app_le by (rewrite length_take; lia).
  rewrite take_app_le by (rewrite length_drop, length_take; lia).
  rewrite !take_drop_commute, take_take.
  by replace ((off + n) `min` off')%nat with (off + n)%nat by lia.
Qed.

Lemma load_store_above off n off' v m :
  (off' + length v <= off)%nat -> (off' + length v <= length m)%nat ->
  load off n (store off' v m) = load off n m.
Proof.
  intros. unfold load, store. f_equal.
  rewrite app_assoc, drop_app_ge by (rewrite length_app, length_take; lia).
  rewrite drop_drop. f_equal. rewrite length_app, length_take. lia.
Qed.

Lemma load_store_other off n off' v m :
  (off + n <= off')%nat \/ (off' + length v <= off)%nat ->
  (off' + length v <= length m)%nat ->
  load off n (store off' v m) = load off n m.
Proof. intros [?|?] ?; auto using load_store_below, load_store_above. Qed.

(** Two stores side by side are one store; an empty store does nothing. *)
Lemma store_adjacent off a b m :
  (off + length a + length b <= length m)%nat ->
  store (off + length a) b (store off a m) = store off (a ++ b) m.
Proof.
  intros. unfold store. rewrite length_app, !app_assoc. f_equal.
  - f_equal. rewrite <- app_assoc, app_assoc, take_app_le by (rewrite length_app, length_take; lia).
    apply take_ge. rewrite length_app, length_take. lia.
  - rewrite drop_app_ge by (rewrite length_app, length_take; lia). rewrite drop_drop. f_equal.
    rewrite length_app, length_take. lia.
Qed.

Lemma store_nil off m : store off [] m = m.
Proof. unfold store. simpl. by rewrite Nat.add_0_r, take_drop. Qed.

(** A wider field keeps the part of it that a store inside it does not touch. *)
Lemma load_split off n1 n2 m :
  load off (n1 + n2) m = load off n1 m ++ load (off + n1) n2 m.
Proof. unfold load. by rewrite <- drop_drop, take_take_drop. Qed.

Lemma is_bytes_load off n m : is_bytes m -> is_bytes (load off n m).
Proof. intros. by apply Forall_take, Forall_drop. Qed.

Lemma is_bytes_store off v m :
  is_bytes v -> is_bytes m -> is_bytes (store off v m).
Proof.
  intros. unfold is_bytes, store. rewrite !Forall_app.
  auto using Forall_take, Forall_drop.
Qed.

#[export] Hint Resolve is_bytes_load is_bytes_store : alphvdr.

(** [mem_norm] reduces loads of a chain of stores, the side conditions being
    arithmetic on literal offsets and known lengths. *)
Ltac len_lia := rewrite ?length_store, ?length_le_bytes by len_lia; try lia.
Ltac mem_norm :=
  repeat first
    [ rewrite load_store_same by len_lia
    | rewrite load_store_other by len_lia ].

(** ** Results of fallible Rust code

    [Ok] and [Err] are the constructors of [anyhow::Result]; [Panic] is an
    unwinding panic (an out-of-range slice, an arithmetic overflow check). *)

Inductive outcome (A : Type) : Type :=
  | Ok (a : A)
  | Err (msg : string)
  | Panic.
Arguments Ok {A} a.
Arguments Err {A} msg.
Arguments Panic {A}.

#[export] Instance outcome_ret : MRet outcome := fun A a => Ok a.
#[export] Instance outcome_bind : MBind outcome := fun A B f m =>
  match m with
  | Ok a => f a
  | Err e => Err e
  | Panic => Panic
  end.

#[export] Instance outcome_eq_dec `{EqDecision A} : EqDecision (outcome A).
Proof. solve_decision. Defined.

Definition is_ok {A} (m : outcome A) : bool := if m is Ok _ then true else false.

Lemma outcome_bind_ok {A B} (m : outcome A) (f : A -> outcome B) b :
  m ≫= f = Ok b <-> exists a, m = Ok a /\ f a = Ok b.
Proof. destruct m; split; naive_solver. Qed.

(** Sequencing a fallible function over a list, stopping at the first error
    (a [for] loop whose body ends in [?]). *)
Fixpoint outcome_map {A B} (f : A -> outcome B) (l : list A) : outcome (list B) :=
  match l with
  | [] => Ok []
  | x :: l => y ← f x; ys ← outcome_map f l; Ok (y :: ys)
  end.

Lemma outcome_map_ok {A B} (f : A -> outcome B) l ys :
  outcome_map f l = Ok ys <-> Forall2 (fun x y => f x = Ok y) l ys.
Proof.
  revert ys; induction l as [|x l IH]; intros ys; simpl.
  - split; [intros [= <-]; constructor | by intros ->%Forall2_nil_inv_l].
  - rewrite outcome_bind_ok. setoid_rewrite outcome_bind_ok. setoid_rewrite IH.
    split; [naive_solver|]. inversion 1; naive_solver.
Qed.

(** ** Lists *)

(** A loop that only ever sets a flag. *)
Lemma fold_left_orb {A} (f : A -> bool) l b :
  fold_left (fun v x => v || f x) l b = true <-> b = true \/ exists x, x ∈ l /\ f x = true.
Proof.
  revert b; induction l as [|x l IH]; intros b; simpl.
  - split; [by left|]. intros [?|(?&?%elem_of_nil&_)]; done.
  - rewrite IH, orb_true_iff. setoid_rewrite elem_of_cons. naive_solver.
Qed.

(** Reading a block element by element. *)
Lemma load_nth (m : bytes) i n :
  (i + n <= length m)%nat -> load i n m = (fun k => nth (i + k) m 0) <$> seq 0 n.
Proof.
  intros. apply list_eq. intros k. unfold load. rewrite list_lookup_fmap.
  destruct (decide (k < n)%nat) as [Hk|Hk].
  - rewrite lookup_take, lookup_drop, decide_True, lookup_seq_lt by done. simpl.
    destruct (lookup_lt_is_Some_2 m (i + k)) as [x Hx]; [lia|].
    by rewrite (nth_lookup_Some _ _ _ _ Hx).
  - rewrite lookup_take, decide_False by done. by rewrite lookup_seq_ge by lia.
Qed.

Definition starts_with (p l : bytes) : Prop := take (length p) l = p.
#[export] Instance starts_with_dec p l : Decision (starts_with p l).
Proof. unfold starts_with. apply _. Defined.

(** ** Bit tests *)

(** [x & (1 << k) == 0] tests one bit. *)
Lemma land_pow2_zero x k : 0 <= k -> Z.land x (2 ^ k) = 0 <-> Z.testbit x k = false.
Proof.
  intros Hk. split.
  - intros E%(f_equal (fun z => Z.testbit z k)). 
    by rewrite Z.land_spec, Z.pow2_bits_true, andb_true_r, Z.bits_0 in E.
  - intros E. apply Z.bits_inj'. intros n Hn. rewrite Z.land_spec, Z.bits_0, Z.pow2_bits_eqb by done.
    destruct (Z.eqb_spec k n) as [<-|]; [by rewrite E|apply andb_false_r].
Qed.

(** [x & (a | b)] is zero when both parts are. *)
Lemma land_lor_zero x a b : Z.land x (Z.lor a b) = 0 <-> Z.land x a = 0 /\ Z.land x b = 0.
Proof. rewrite Z.land_lor_distr_r. apply Z.lor_eq_0_iff. Qed.
