(* ===== verification/CTypes.v ===== *)
(** * C object types and their layout

    The data types of the kernel sensor and of [vmlinux.h] as first-class
    values, with the size, alignment and member offsets the ABI of the BPF
    target gives them (LP64, little endian, System V bit-field allocation).
    The header [vmlinux.h] uses no [packed] or [aligned] attribute for the
    types translated here, so natural alignment is the whole story.

    The theorems are about the layout algorithm: members are aligned, do not
    overlap, and lie inside the object. *)

From S2P Require Import Prelude.

(** ** Types *)

#[warnings="-register-all"]
Inductive ctype : Type :=
  | CInt (signed : bool) (size : Z)
  | CEnum (tag : string) (size : Z) (consts : list (string * Z))
  | CPtr (target : string)
  | CArr (elem : ctype) (n : Z)
  | CStruct (tag : string) (ms : list (string * ctype * option Z))
  | CUnion (tag : string) (ms : list (string * ctype * option Z)).

(** A member has a name (empty for an anonymous struct or union and for an
    unnamed bit-field), a type, and a width when it is a bit-field. *)
Abbreviation member := (string * ctype * option Z)%type.
Definition fld (name : string) (t : ctype) : member := (name, t, None).
Definition bits (name : string) (t : ctype) (w : Z) : member := (name, t, Some w).

Definition enum_val (t : ctype) (name : string) : option Z :=
  match t with
  | CEnum _ _ cs => (fun p => p.2.2) <$> list_find (fun c : string * Z => c.1 = name) cs
  | _ => None
  end.

Section ctype_induction.
Context (P : ctype -> Prop).
Context (HInt : forall s n, P (CInt s n)) (HEnum : forall g n cs, P (CEnum g n cs)).
Context (HPtr : forall g, P (CPtr g)) (HArr : forall t n, P t -> P (CArr t n)).
Context (HStruct : forall g ms, Forall (fun m : member => P m.1.2) ms -> P (CStruct g ms)).
Context (HUnion : forall g ms, Forall (fun m : member => P m.1.2) ms -> P (CUnion g ms)).

(** The induction principle that reaches the types of the members. *)
Fixpoint ctype_rect' (t : ctype) : P t :=
  let members := fix members (ms : list member) : Forall (fun m : member => P m.1.2) ms :=
    match ms with
    | [] => Forall_nil_2 _
    | m :: ms => Forall_cons_2 _ _ _ (ctype_rect' m.1.2) (members ms)
    end in
  match t with
  | CInt s n => HInt s n
  | CEnum g n cs => HEnum g n cs
  | CPtr g => HPtr g
  | CArr t n => HArr t n (ctype_rect' t)
  | CStruct g ms => HStruct g ms (members ms)
  | CUnion g ms => HUnion g ms (members ms)
  end.
End ctype_induction.

(** ** The layout algorithm *)

Definition align_up (x a : Z) : Z := (x + a - 1) / a * a.

(** What the allocator needs to know of a member: its size and alignment in
    bytes, its width if it is a bit-field, and whether it has a name (an
    unnamed bit-field does not raise the alignment of the aggregate). *)
Record mreq := MReq { mq_size : Z; mq_align : Z; mq_bits : option Z; mq_named : bool }.

(** The bits [start, end) a member gets when the previous one ended at [pos]. *)
Definition place (pos : Z) (r : mreq) : Z * Z :=
  match mq_bits r with
  | None => let s := align_up pos (8 * mq_align r) in (s, s + 8 * mq_size r)
  | Some w =>
      let unit := 8 * mq_size r in
      if w =? 0 then let s := align_up pos unit in (s, s)
      else if pos / unit =? (pos + w - 1) / unit then (pos, pos + w)
      else let s := align_up pos unit in (s, s + w)
  end.

Fixpoint layout (pos : Z) (rs : list mreq) : list (Z * Z) :=
  match rs with
  | [] => []
  | r :: rs => let p := place pos r in p :: layout p.2 rs
  end.

Fixpoint layout_end (pos : Z) (rs : list mreq) : Z :=
  match rs with
  | [] => pos
  | r :: rs => layout_end (place pos r).2 rs
  end.

Definition req_align (r : mreq) : Z :=
  if mq_named r then mq_align r else match mq_bits r with None => mq_align r | Some _ => 1 end.

Definition max_align (rs : list mreq) : Z := foldr (fun r a => req_align r `max` a) 1 rs.

Definition req_bits (r : mreq) : Z :=
  match mq_bits r with None => 8 * mq_size r | Some w => w end.

(** Size and alignment of a type, in bytes. *)
Fixpoint size_align (t : ctype) : Z * Z :=
  let req (m : member) : mreq :=
    let '(n, t, w) := m in
    let sa := size_align t in MReq sa.1 sa.2 w (negb (bool_decide (n = ""))) in
  match t with
  | CInt _ n => (n, n)
  | CEnum _ n _ => (n, n)
  | CPtr _ => (8, 8)
  | CArr t n => let sa := size_align t in (n * sa.1, sa.2)
  | CStruct _ ms =>
      let rs := map req ms in
      let a := max_align rs in (align_up (layout_end 0 rs) (8 * a) / 8, a)
  | CUnion _ ms =>
      let rs := map req ms in
      let a := max_align rs in
      (align_up (foldr (fun r e => req_bits r `max` e) 0 rs) (8 * a) / 8, a)
  end.

Definition sizeof (t : ctype) : Z := (size_align t).1.
Definition alignof (t : ctype) : Z := (size_align t).2.
Definition req (m : member) : mreq :=
  MReq (sizeof m.1.2) (alignof m.1.2) m.2 (negb (bool_decide (m.1.1 = ""))).

Lemma size_align_struct g ms :
  size_align (CStruct g ms) =
  (align_up (layout_end 0 (req <$> ms)) (8 * max_align (req <$> ms)) / 8,
   max_align (req <$> ms)).
Proof.
  cbn [size_align]. replace (map _ ms) with (req <$> ms); [done|].
  apply list_fmap_ext. by intros ? [[??]?] ?.
Qed.

Lemma size_align_union g ms :
  size_align (CUnion g ms) =
  (align_up (foldr (fun r e => req_bits r `max` e) 0 (req <$> ms))
            (8 * max_align (req <$> ms)) / 8,
   max_align (req <$> ms)).
Proof.
  cbn [size_align]. replace (map _ ms) with (req <$> ms); [done|].
  apply list_fmap_ext. by intros ? [[??]?] ?.
Qed.

(** [field t f] is the member [f] of [t], found through anonymous members the
    way C finds it: its bit offset, its type, and its width if it is a
    bit-field.  Members of a union ([seq] false) all start at 0. *)
Definition walk (sub : ctype -> option (Z * ctype * option Z)) (f : string) (seq : bool) :=
  fix walk (pos : Z) (ms : list member) : option (Z * ctype * option Z) :=
    match ms with
    | [] => None
    | (n, t, w) :: ms =>
        let p := place pos (req (n, t, w)) in
        if bool_decide (n = f) then Some (p.1, t, w)
        else match (if bool_decide (n = "") then sub t else None) with
             | Some (o, t', w') => Some (p.1 + o, t', w')
             | None => walk (if seq then p.2 else 0) ms
             end
    end.

Fixpoint field (t : ctype) (f : string) : option (Z * ctype * option Z) :=
  match t with
  | CStruct _ ms => walk (fun t => field t f) f true 0 ms
  | CUnion _ ms => walk (fun t => field t f) f false 0 ms
  | _ => None
  end.

(** The byte offset and the type of a plain (not bit-field) member. *)
Definition offsetof (t : ctype) (f : string) : option Z :=
  match field t f with
  | Some (o, _, None) => Some (o / 8)
  | _ => None
  end.
Definition fieldtype (t : ctype) (f : string) : option ctype :=
  (fun p => p.1.2) <$> field t f.

(** ** Well-formed types

    Integers and enumerations have size 1, 2, 4 or 8, array lengths are not
    negative, and a bit-field has an integer type and is no wider than it. *)

Definition pow_size (n : Z) : bool := (n =? 1) || (n =? 2) || (n =? 4) || (n =? 8).

Definition scalar (t : ctype) : bool :=
  match t with CInt _ _ | CEnum _ _ _ => true | _ => false end.

Fixpoint wf (t : ctype) : bool :=
  let wf_member (m : member) :=
    let '(_, t, w) := m in
    wf t && match w with
            | None => true
            | Some w => scalar t && (0 <=? w) && (w <=? 8 * sizeof t)
            end in
  match t with
  | CInt _ n => pow_size n
  | CEnum _ n _ => pow_size n
  | CPtr _ => true
  | CArr t n => (0 <=? n) && wf t
  | CStruct _ ms => forallb wf_member ms
  | CUnion _ ms => forallb wf_member ms
  end.

Definition wf_member (m : member) : bool :=
  wf m.1.2 && match m.2 with
              | None => true
              | Some w => scalar m.1.2 && (0 <=? w) && (w <=? 8 * sizeof m.1.2)
              end.

Lemma wf_struct g ms :
  wf (CStruct g ms) = true <-> Forall (fun m => wf_member m = true) ms.
Proof.
  cbn [wf]. rewrite forallb_forall, Forall_forall. setoid_rewrite list_elem_of_In.
  split; intros H [[n t] w] Hm; apply (H _ Hm).
Qed.

Lemma wf_union g ms :
  wf (CUnion g ms) = true <-> Forall (fun m => wf_member m = true) ms.
Proof. exact (wf_struct g ms). Qed.

(** ** Properties of the allocator *)

Lemma pow_size_cases n : pow_size n = true -> n = 1 \/ n = 2 \/ n = 4 \/ n = 8.
Proof. unfold pow_size. intros. bool_prop. destruct_or!; bool_prop; lia. Qed.

Lemma pow_size_divide a b :
  pow_size a = true -> pow_size b = true -> a <= b -> (a | b).
Proof.
  intros [-> | [-> | [-> | ->]]]%pow_size_cases [-> | [-> | [-> | ->]]]%pow_size_cases ?;
    first [lia | by apply Z.mod_divide; vm_compute].
Qed.

Lemma align_up_spec x a : 0 < a -> x <= align_up x a < x + a /\ (a | align_up x a).
Proof.
  intros. unfold align_up. split; [|by eexists].
  pose proof (Z.div_mod (x + a - 1) a). pose proof (Z.mod_pos_bound (x + a - 1) a). lia.
Qed.

Lemma align_up_id x a : 0 < a -> (a | x) -> align_up x a = x.
Proof.
  intros ? [k ->]. unfold align_up. replace (k * a + a - 1) with (a - 1 + k * a) by lia.
  rewrite Z.div_add, Z.div_small by lia. lia.
Qed.

(** What the induction establishes of a type or of a member's request. *)
Definition good (t : ctype) : Prop :=
  pow_size (alignof t) = true /\ 0 <= sizeof t /\ (alignof t | sizeof t).

Definition req_good (r : mreq) : Prop :=
  pow_size (mq_align r) = true /\ 0 <= mq_size r /\
  match mq_bits r with
  | None => True
  | Some w => 0 <= w <= 8 * mq_size r /\ 0 < mq_size r
  end.

Lemma place_spec pos r :
  0 <= pos -> req_good r ->
  let p := place pos r in
  pos <= p.1 /\ p.1 + req_bits r <= p.2 \/ (mq_bits r = Some 0 /\ pos <= p.1 <= p.2).
Proof.
  intros Hpos (Ha & Hs & Hw). unfold place, req_bits.
  apply pow_size_cases in Ha.
  destruct (mq_bits r) as [w|]; simpl.
  - repeat case_match; bool_prop; simpl.
    + right. pose proof (align_up_spec pos (8 * mq_size r)). split; [congruence|lia].
    + left. lia.
    + left. pose proof (align_up_spec pos (8 * mq_size r)). lia.
  - left. pose proof (align_up_spec pos (8 * mq_align r)). lia.
Qed.

Lemma place_mono pos r :
  0 <= pos -> req_good r -> pos <= (place pos r).1 <= (place pos r).2.
Proof.
  intros Hpos Hr. pose proof (place_spec pos r Hpos Hr) as Hp. simpl in Hp.
  destruct Hr as (_ & ? & ?). unfold req_bits in Hp. destruct (mq_bits r); lia.
Qed.

Lemma layout_end_mono pos rs :
  0 <= pos -> Forall req_good rs -> pos <= layout_end pos rs.
Proof.
  intros Hpos Hrs. revert pos Hpos. induction Hrs as [|r rs Hr _ IH]; simpl; intros; [lia|].
  pose proof (place_mono pos r Hpos Hr). specialize (IH (place pos r).2). lia.
Qed.

(** Members do not overlap: a later one starts where every earlier one has
    already ended. *)
Lemma layout_sorted pos rs i j p q :
  0 <= pos -> Forall req_good rs -> (i < j)%nat ->
  layout pos rs !! i = Some p -> layout pos rs !! j = Some q -> p.2 <= q.1.
Proof.
  intros Hpos Hrs. revert pos i j Hpos.
  assert (Hlow : forall rs pos j q, 0 <= pos -> Forall req_good rs ->
    layout pos rs !! j = Some q -> pos <= q.1).
  { clear. induction rs as [|r rs IH]; intros pos [|j] q Hpos Hrs Hq; simplify_eq/=.
    - apply Forall_cons in Hrs as [Hr _]. pose proof (place_mono pos r Hpos Hr). lia.
    - apply Forall_cons in Hrs as [Hr Hrs]. pose proof (place_mono pos r Hpos Hr).
      specialize (IH (place pos r).2 j q ltac:(lia) Hrs Hq). lia. }
  induction Hrs as [|r rs Hr Hrs IH]; intros pos [|i] [|j] Hpos Hij Hp Hq;
    simplify_eq/=; try lia; pose proof (place_mono pos r Hpos Hr).
  - eapply Hlow; [|done..]. lia.
  - eapply (IH (place pos r).2 i j); [lia|lia|done..].
Qed.

Lemma layout_bound pos rs i p :
  0 <= pos -> Forall req_good rs -> layout pos rs !! i = Some p ->
  pos <= p.1 /\ p.2 <= layout_end pos rs.
Proof.
  intros Hpos Hrs. revert pos i Hpos.
  induction Hrs as [|r rs Hr Hrs IH]; intros pos [|i] Hpos Hp; simplify_eq/=;
    pose proof (place_mono pos r Hpos Hr).
  - pose proof (layout_end_mono (place pos r).2 rs ltac:(lia) Hrs). lia.
  - specialize (IH (place pos r).2 i ltac:(lia) Hp). lia.
Qed.

Lemma max_align_spec rs :
  Forall (fun r => pow_size (req_align r) = true) rs ->
  pow_size (max_align rs) = true /\ Forall (fun r => (req_align r | max_align rs)) rs.
Proof.
  induction 1 as [|r rs Hr _ [IH1 IH2]]; [by split|]. cbn [max_align foldr].
  fold (max_align rs).
  assert (Hm : pow_size (req_align r `max` max_align rs) = true)
    by (destruct (Z.max_spec (req_align r) (max_align rs)) as [[_ ->]|[_ ->]]; done).
  split; [done|]. constructor; [apply pow_size_divide; [done..|lia]|].
  eapply Forall_impl; [exact IH2|]. intros q Hq. etrans; [exact Hq|].
  apply pow_size_divide; [done..|lia].
Qed.

Lemma wf_member_req m :
  wf_member m = true -> good m.1.2 -> req_good (req m) /\ pow_size (req_align (req m)) = true.
Proof.
  intros Hwf (Ha & Hs & Hd). unfold wf_member in Hwf. apply andb_true_iff in Hwf as [Ht Hw].
  split; unfold req_good, req_align; simpl.
  - split_and!; [done|done|]. destruct m.2; [|done]. bool_prop.
    destruct m.1.2; try done; unfold sizeof in *; simpl in *;
      apply pow_size_cases in Ht; lia.
  - destruct (negb _); [done|]. by destruct m.2.
Qed.

Lemma aggregate_size e a :
  0 <= e -> pow_size a = true ->
  e <= 8 * (align_up e (8 * a) / 8) /\ (a | align_up e (8 * a) / 8).
Proof.
  intros He Ha. apply pow_size_cases in Ha.
  destruct (align_up_spec e (8 * a)) as [Hle [k Hk]]; [lia|]. rewrite Hk in *.
  replace (k * (8 * a)) with (k * a * 8) in * by lia. rewrite Z.div_mul by lia.
  split; [lia|by exists k].
Qed.

Lemma union_end_bound rs :
  0 <= foldr (fun r e => req_bits r `max` e) 0 rs /\
  Forall (fun r => req_bits r <= foldr (fun r e => req_bits r `max` e) 0 rs) rs.
Proof.
  induction rs as [|r rs [IH1 IH2]]; simpl; [by split|]. split; [lia|].
  constructor; [lia|]. eapply Forall_impl; [exact IH2|]. simpl. lia.
Qed.

Lemma members_good ms :
  Forall (fun m : member => wf m.1.2 = true -> good m.1.2) ms ->
  Forall (fun m => wf_member m = true) ms ->
  Forall req_good (req <$> ms) /\
  Forall (fun r => pow_size (req_align r) = true) (req <$> ms).
Proof.
  intros IH Hwf. rewrite !Forall_fmap, <- Forall_and.
  eapply Forall_impl; [apply Forall_and; split; [exact IH|exact Hwf]|].
  intros m [Hg Hm]. apply wf_member_req; [done|].
  apply Hg. by apply andb_true_iff in Hm as [??].
Qed.

(** Every well-formed type has a power-of-two alignment that divides its size. *)
Lemma wf_good t : wf t = true -> good t.
Proof.
  induction t as [? n|? n ?|?|t n IH|g ms IH|g ms IH] using ctype_rect'; intros Hwf;
    unfold good, sizeof, alignof.
  1-2: simpl in *; pose proof (pow_size_cases _ Hwf); split_and!; [done|lia|done].
  - simpl. split_and!; [done|lia|apply Z.divide_refl].
  - simpl in *. bool_prop. destruct IH as (?&?&?); [done|].
    unfold sizeof, alignof in *. split_and!; [done|nia|by apply Z.divide_mul_r].
  - apply wf_struct in Hwf. destruct (members_good ms IH Hwf) as [Hg Hp].
    rewrite size_align_struct; simpl. destruct (max_align_spec _ Hp) as [Hm _].
    pose proof (layout_end_mono 0 _ ltac:(lia) Hg).
    destruct (aggregate_size (layout_end 0 (req <$> ms)) (max_align (req <$> ms))) as [? ?];
      [lia|done|]. split_and!; [done|lia|done].
  - apply wf_union in Hwf. destruct (members_good ms IH Hwf) as [Hg Hp].
    rewrite size_align_union; simpl. destruct (max_align_spec _ Hp) as [Hm _].
    pose proof (union_end_bound (req <$> ms)) as [? _].
    edestruct aggregate_size as [? ?]; [|exact Hm|split_and!; [done| |done]]; [done|lia].
Qed.

(** Finding a member: its bits lie inside the object, and a plain member is
    aligned for its type. *)
Definition field_ok (t : ctype) (r : Z * ctype * option Z) : Prop :=
  let '(o, t', w) := r in
  wf t' = true /\ 0 <= o /\
  o + req_bits (MReq (sizeof t') (alignof t') w true) <= 8 * sizeof t /\
  (w = None -> (alignof t' | alignof t) /\ (8 * alignof t' | o)).

Lemma place_zero r : req_good r -> (place 0 r).1 = 0.
Proof.
  intros (Ha & Hs & Hw). apply pow_size_cases in Ha. unfold place.
  destruct (mq_bits r) as [w|]; repeat case_match; simpl; try done; unfold align_up;
    match goal with |- ?x / ?y * _ = 0 => rewrite (Z.div_small x y) by lia end; lia.
Qed.

(** The bits of the member that is placed next lie inside the aggregate. *)
Lemma place_in pos r rs (seq : bool) size :
  0 <= pos -> (seq = false -> pos = 0) -> Forall req_good (r :: rs) ->
  (if seq then layout_end pos (r :: rs) <= 8 * size
   else Forall (fun r => req_bits r <= 8 * size) (r :: rs)) ->
  0 <= (place pos r).1 /\ (place pos r).1 + req_bits r <= 8 * size.
Proof.
  intros Hpos Hseq Hrs Hend. apply Forall_cons in Hrs as [Hr Hrs].
  pose proof (place_mono pos r Hpos Hr) as Hmono. split; [lia|]. destruct seq.
  - simpl in Hend. pose proof (layout_end_mono (place pos r).2 rs ltac:(lia) Hrs).
    destruct (place_spec pos r Hpos Hr) as [?|[E ?]]; [lia|]. unfold req_bits. rewrite E. lia.
  - apply Forall_cons in Hend as [? _]. rewrite Hseq, place_zero by done. lia.
Qed.

Lemma place_aligned pos r :
  req_good r -> mq_bits r = None -> (8 * mq_align r | (place pos r).1).
Proof.
  intros (Ha & _) E. apply pow_size_cases in Ha. unfold place. rewrite E. simpl.
  apply align_up_spec. lia.
Qed.

(** The same for a member reached while walking the members of an aggregate
    of size [size] and alignment [a]. *)
Definition walk_result (size a : Z) (r : Z * ctype * option Z) : Prop :=
  let '(o, t, w) := r in
  wf t = true /\ 0 <= o /\ o + req_bits (MReq (sizeof t) (alignof t) w true) <= 8 * size /\
  (w = None -> (alignof t | a) /\ (8 * alignof t | o)).

Lemma walk_ok (sub : ctype -> option (Z * ctype * option Z)) f seq size a ms :
  Forall (fun m : member => wf m.1.2 = true -> forall r, sub m.1.2 = Some r -> field_ok m.1.2 r) ms ->
  Forall (fun m => wf_member m = true) ms ->
  Forall (fun r => (req_align r | a)) (req <$> ms) ->
  (forall t, scalar t = true -> sub t = None) ->
  forall pos, 0 <= pos -> (seq = false -> pos = 0) ->
  (if seq then layout_end pos (req <$> ms) <= 8 * size
   else Forall (fun r => req_bits r <= 8 * size) (req <$> ms)) ->
  forall r, walk sub f seq pos ms = Some r -> walk_result size a r.
Proof.
  induction ms as [|[[n t] w] ms IH]; intros Hsub Hwf Hal Hsc pos Hpos Hseq Hend r Hwalk; [done|].
  pose proof (members_good ((n, t, w) :: ms)
    ltac:(apply Forall_true; intros; by apply wf_good) Hwf)
    as [Hgoods _].
  rewrite fmap_cons in *.
  destruct (place_in pos _ _ seq size Hpos Hseq Hgoods Hend) as [Hp0 Hp1].
  apply Forall_cons in Hsub as [Hsub Hsubs]. apply Forall_cons in Hwf as [Hwf Hwfs].
  apply Forall_cons in Hal as [Hda Hal]. apply Forall_cons in Hgoods as [Hreq Hgoods].
  assert (Hwt : wf t = true) by (by apply andb_true_iff in Hwf as [??]).
  pose proof (place_mono pos _ Hpos Hreq) as Hmono.
  simpl in Hwalk. case_bool_decide as Hn.
  { simplify_eq. split_and!; [done|done|exact Hp1|]. intros ->.
    split; [|by apply place_aligned]. revert Hda. unfold req_align. simpl. by destruct (negb _). }
  destruct (if bool_decide (n = "") then sub t else None) as [[[o' t'] w']|] eqn:Esub.
  - case_bool_decide; [|done]. simplify_eq.
    destruct (Hsub Hwt _ Esub) as (Hwt' & Ho & Hin & Hal'). cbn [fst snd] in *.
    assert (w = None \/ is_Some w) as [-> | [w0 ->]] by (destruct w; eauto).
    + change (req_bits (req ("", t, None))) with (8 * sizeof t) in Hp1.
      split_and!; [done|lia|lia|]. intros ->.
      destruct Hal' as [Hd1 Hd2]; [done|]. simpl in Hda.
      split; [by etrans; [exact Hd1|]|]. apply Z.divide_add_r; [|done].
      etrans; [|by apply place_aligned]. by apply Z.mul_divide_mono_l.
    + unfold wf_member in Hwf. simpl in Hwf. bool_prop. rewrite Hsc in Esub; done.
  - refine (IH Hsubs Hwfs Hal Hsc _ _ _ _ r Hwalk); [destruct seq; lia|by intros ->|].
    destruct seq; [exact Hend|by apply Forall_cons in Hend as [_ ?]].
Qed.

Lemma field_scalar f t : scalar t = true -> field t f = None.
Proof. by destruct t. Qed.

(** A member of a well-formed type lies inside it, at an aligned offset. *)
Theorem field_sound t f r : wf t = true -> field t f = Some r -> field_ok t r.
Proof.
  intros Hwf. revert Hwf r.
  induction t as [? n|? n ?|?|t n IH|g ms IH|g ms IH] using ctype_rect';
    intros Hwf r Hf; try done.
  - apply wf_struct in Hwf.
    destruct (members_good ms ltac:(apply Forall_true; intros; by apply wf_good) Hwf) as [Hg Hp].
    destruct (max_align_spec _ Hp) as [Hm Hd]. simpl in Hf.
    eapply walk_ok in Hf; [|exact IH|exact Hwf|exact Hd|apply field_scalar|done|done|].
    2:{ instantiate (1 := sizeof (CStruct g ms)). unfold sizeof. rewrite size_align_struct. simpl.
        apply aggregate_size; [by apply layout_end_mono|done]. }
    destruct r as [[o t'] w]. unfold field_ok.
    by replace (alignof (CStruct g ms)) with (max_align (req <$> ms))
      by (unfold alignof; by rewrite size_align_struct).
  - apply wf_union in Hwf.
    destruct (members_good ms ltac:(apply Forall_true; intros; by apply wf_good) Hwf) as [Hg Hp].
    destruct (max_align_spec _ Hp) as [Hm Hd]. simpl in Hf.
    destruct (union_end_bound (req <$> ms)) as [Hu0 Hu].
    eapply walk_ok in Hf; [|exact IH|exact Hwf|exact Hd|apply field_scalar|done|done|].
    2:{ instantiate (1 := sizeof (CUnion g ms)). unfold sizeof. rewrite size_align_union. simpl.
        destruct (aggregate_size _ _ Hu0 Hm) as [? _].
        eapply Forall_impl; [exact Hu|]. simpl. lia. }
    destruct r as [[o t'] w]. unfold field_ok.
    by replace (alignof (CUnion g ms)) with (max_align (req <$> ms))
      by (unfold alignof; by rewrite size_align_union).
Qed.

(** Two distinct members of a well-formed struct never overlap. *)
Theorem members_disjoint g ms i j p q :
  wf (CStruct g ms) = true -> (i < j)%nat ->
  layout 0 (req <$> ms) !! i = Some p -> layout 0 (req <$> ms) !! j = Some q ->
  0 <= p.1 /\ p.2 <= q.1 /\ q.2 <= 8 * sizeof (CStruct g ms).
Proof.
  intros Hwf Hij Hp Hq. apply wf_struct in Hwf.
  destruct (members_good ms ltac:(apply Forall_true; intros; by apply wf_good) Hwf) as [Hg Hpw].
  destruct (max_align_spec _ Hpw) as [Hm _].
  pose proof (layout_sorted 0 _ i j p q ltac:(lia) Hg Hij Hp Hq).
  pose proof (layout_bound 0 _ i p ltac:(lia) Hg Hp).
  pose proof (layout_bound 0 _ j q ltac:(lia) Hg Hq).
  unfold sizeof. rewrite size_align_struct. simpl.
  pose proof (layout_end_mono 0 _ ltac:(lia) Hg).
  destruct (aggregate_size (layout_end 0 (req <$> ms)) _ ltac:(done) Hm) as [? _]. lia.
Qed.

#[export] Hint Resolve wf_good field_sound : alphvdr.
