(* ===== verification/VmlinuxBase.v ===== *)
(** * Kernel types shared by the other [Vmlinux] files

    Each definition is the declaration of [src-bpf/vmlinux.h] with the same
    tag ([struct_], [union_], [enum_]) or typedef name ([typedef_]), member
    for member; a pointer keeps only the spelling of its target.  Declarations
    come in dependency order: a type embedded by value is defined before its
    user. *)

From S2P Require Import Prelude CTypes.

Definition typedef___u16 : ctype :=
  CInt false 2.

Definition typedef___u32 : ctype :=
  CInt false 4.

Definition typedef___u8 : ctype :=
  CInt false 1.

Definition typedef_u32 : ctype :=
  typedef___u32.

Definition typedef___u64 : ctype :=
  CInt false 8.

Definition typedef_u64 : ctype :=
  typedef___u64.

Definition typedef_u16 : ctype :=
  typedef___u16.

Definition struct_llist_node : ctype :=
  CStruct "llist_node" [
    fld "next" (CPtr "struct llist_node")
  ].

Definition typedef_atomic_t : ctype :=
  CStruct "" [
    fld "counter" (CInt true 4)
  ].

Definition struct_callback_head : ctype :=
  CStruct "callback_head" [
    fld "next" (CPtr "struct callback_head");
    fld "func" (CPtr "function")
  ].

Definition struct_hlist_head : ctype :=
  CStruct "hlist_head" [
    fld "first" (CPtr "struct hlist_node")
  ].

Definition struct_hlist_node : ctype :=
  CStruct "hlist_node" [
    fld "next" (CPtr "struct hlist_node");
    fld "pprev" (CPtr "struct hlist_node *")
  ].

Definition struct_list_head : ctype :=
  CStruct "list_head" [
    fld "next" (CPtr "struct list_head");
    fld "prev" (CPtr "struct list_head")
  ].

Definition struct_llist_head : ctype :=
  CStruct "llist_head" [
    fld "first" (CPtr "struct llist_node")
  ].

Definition struct_optimistic_spin_queue : ctype :=
  CStruct "optimistic_spin_queue" [
    fld "tail" typedef_atomic_t
  ].

Definition typedef___s64 : ctype :=
  CInt true 8.

Definition typedef_s64 : ctype :=
  typedef___s64.

Definition typedef_atomic64_t : ctype :=
  CStruct "" [
    fld "counter" typedef_s64
  ].

Definition typedef_atomic_long_t : ctype :=
  typedef_atomic64_t.

Definition typedef_u8 : ctype :=
  typedef___u8.

Definition struct_qspinlock : ctype :=
  CStruct "qspinlock" [
    fld "" (CUnion "" [
      fld "val" typedef_atomic_t;
      fld "" (CStruct "" [
        fld "locked" typedef_u8;
        fld "pending" typedef_u8
      ]);
      fld "" (CStruct "" [
        fld "locked_pending" typedef_u16;
        fld "tail" typedef_u16
      ])
    ])
  ].

Definition typedef_arch_spinlock_t : ctype :=
  struct_qspinlock.

Definition struct_raw_spinlock : ctype :=
  CStruct "raw_spinlock" [
    fld "raw_lock" typedef_arch_spinlock_t
  ].

Definition typedef_raw_spinlock_t : ctype :=
  struct_raw_spinlock.

Definition struct_mutex : ctype :=
  CStruct "mutex" [
    fld "owner" typedef_atomic_long_t;
    fld "wait_lock" typedef_raw_spinlock_t;
    fld "osq" struct_optimistic_spin_queue;
    fld "wait_list" struct_list_head
  ].

Definition struct_rb_root : ctype :=
  CStruct "rb_root" [
    fld "rb_node" (CPtr "struct rb_node")
  ].

Definition struct_rb_root_cached : ctype :=
  CStruct "rb_root_cached" [
    fld "rb_root" struct_rb_root;
    fld "rb_leftmost" (CPtr "struct rb_node")
  ].

Definition struct_rb_node : ctype :=
  CStruct "rb_node" [
    fld "__rb_parent_color" (CInt false 8);
    fld "rb_right" (CPtr "struct rb_node");
    fld "rb_left" (CPtr "struct rb_node")
  ].

Definition typedef_bool : ctype :=
  CInt false 1.

Definition typedef___s32 : ctype :=
  CInt true 4.

Definition struct_seqcount : ctype :=
  CStruct "seqcount" [
    fld "sequence" (CInt false 4)
  ].

Definition typedef_seqcount_t : ctype :=
  struct_seqcount.

Definition typedef___kernel_uid32_t : ctype :=
  CInt false 4.

Definition typedef_uid_t : ctype :=
  typedef___kernel_uid32_t.

Definition typedef_kuid_t : ctype :=
  CStruct "" [
    fld "val" typedef_uid_t
  ].

Definition struct_refcount_struct : ctype :=
  CStruct "refcount_struct" [
    fld "refs" typedef_atomic_t
  ].

Definition typedef_refcount_t : ctype :=
  struct_refcount_struct.

Definition struct_seqcount_spinlock : ctype :=
  CStruct "seqcount_spinlock" [
    fld "seqcount" typedef_seqcount_t
  ].

Definition typedef_seqcount_spinlock_t : ctype :=
  struct_seqcount_spinlock.

Definition struct_spinlock : ctype :=
  CStruct "spinlock" [
    fld "" (CUnion "" [
      fld "rlock" struct_raw_spinlock
    ])
  ].

Definition typedef_spinlock_t : ctype :=
  struct_spinlock.

Definition typedef___kernel_gid32_t : ctype :=
  CInt false 4.

Definition typedef_gid_t : ctype :=
  typedef___kernel_gid32_t.

Definition typedef_kgid_t : ctype :=
  CStruct "" [
    fld "val" typedef_gid_t
  ].

Definition struct_rw_semaphore : ctype :=
  CStruct "rw_semaphore" [
    fld "count" typedef_atomic_long_t;
    fld "owner" typedef_atomic_long_t;
    fld "osq" struct_optimistic_spin_queue;
    fld "wait_lock" typedef_raw_spinlock_t;
    fld "wait_list" struct_list_head
  ].

Definition struct_wait_queue_head : ctype :=
  CStruct "wait_queue_head" [
    fld "lock" typedef_spinlock_t;
    fld "head" struct_list_head
  ].

Definition typedef_wait_queue_head_t : ctype :=
  struct_wait_queue_head.

Definition struct_percpu_counter : ctype :=
  CStruct "percpu_counter" [
    fld "lock" typedef_raw_spinlock_t;
    fld "count" typedef_s64;
    fld "list" struct_list_head;
    fld "counters" (CPtr "s32")
  ].

Definition struct_rcuwait : ctype :=
  CStruct "rcuwait" [
    fld "task" (CPtr "struct task_struct")
  ].

Definition typedef_work_func_t : ctype :=
  CPtr "function".

Definition struct_work_struct : ctype :=
  CStruct "work_struct" [
    fld "data" typedef_atomic_long_t;
    fld "entry" struct_list_head;
    fld "func" typedef_work_func_t
  ].

Definition typedef___s16 : ctype :=
  CInt true 2.

Definition typedef_vm_flags_t : ctype :=
  CInt false 8.

Definition struct_path : ctype :=
  CStruct "path" [
    fld "mnt" (CPtr "struct vfsmount");
    fld "dentry" (CPtr "struct dentry")
  ].

(** Every type of the file, under its C name. *)
Definition base_types : list (string * ctype) :=
  [("__u16", typedef___u16);
   ("__u32", typedef___u32);
   ("__u8", typedef___u8);
   ("u32", typedef_u32);
   ("__u64", typedef___u64);
   ("u64", typedef_u64);
   ("u16", typedef_u16);
   ("struct llist_node", struct_llist_node);
   ("atomic_t", typedef_atomic_t);
   ("struct callback_head", struct_callback_head);
   ("struct hlist_head", struct_hlist_head);
   ("struct hlist_node", struct_hlist_node);
   ("struct list_head", struct_list_head);
   ("struct llist_head", struct_llist_head);
   ("struct optimistic_spin_queue", struct_optimistic_spin_queue);
   ("__s64", typedef___s64);
   ("s64", typedef_s64);
   ("atomic64_t", typedef_atomic64_t);
   ("atomic_long_t", typedef_atomic_long_t);
   ("u8", typedef_u8);
   ("struct qspinlock", struct_qspinlock);
   ("arch_spinlock_t", typedef_arch_spinlock_t);
   ("struct raw_spinlock", struct_raw_spinlock);
   ("raw_spinlock_t", typedef_raw_spinlock_t);
   ("struct mutex", struct_mutex);
   ("struct rb_root", struct_rb_root);
   ("struct rb_root_cached", struct_rb_root_cached);
   ("struct rb_node", struct_rb_node);
   ("bool", typedef_bool);
   ("__s32", typedef___s32);
   ("struct seqcount", struct_seqcount);
   ("seqcount_t", typedef_seqcount_t);
   ("__kernel_uid32_t", typedef___kernel_uid32_t);
   ("uid_t", typedef_uid_t);
   ("kuid_t", typedef_kuid_t);
   ("struct refcount_struct", struct_refcount_struct);
   ("refcount_t", typedef_refcount_t);
   ("struct seqcount_spinlock", struct_seqcount_spinlock);
   ("seqcount_spinlock_t", typedef_seqcount_spinlock_t);
   ("struct spinlock", struct_spinlock);
   ("spinlock_t", typedef_spinlock_t);
   ("__kernel_gid32_t", typedef___kernel_gid32_t);
   ("gid_t", typedef_gid_t);
   ("kgid_t", typedef_kgid_t);
   ("struct rw_semaphore", struct_rw_semaphore);
   ("struct wait_queue_head", struct_wait_queue_head);
   ("wait_queue_head_t", typedef_wait_queue_head_t);
   ("struct percpu_counter", struct_percpu_counter);
   ("struct rcuwait", struct_rcuwait);
   ("work_func_t", typedef_work_func_t);
   ("struct work_struct", struct_work_struct);
   ("__s16", typedef___s16);
   ("vm_flags_t", typedef_vm_flags_t);
   ("struct path", struct_path)].
