(* ===== verification/VmlinuxNet.v ===== *)
(** * Network types of [vmlinux.h]: packet headers and XDP contexts

    Each definition is the declaration of [src-bpf/vmlinux.h] with the same
    tag ([struct_], [union_], [enum_]) or typedef name ([typedef_]), member
    for member; a pointer keeps only the spelling of its target.  Declarations
    come in dependency order: a type embedded by value is defined before its
    user. *)

From S2P Require Import Prelude CTypes VmlinuxBase.

Definition enum_xdp_action : ctype :=
  CEnum "xdp_action" 4 [
    ("XDP_ABORTED", 0);
    ("XDP_DROP", 1);
    ("XDP_PASS", 2);
    ("XDP_TX", 3);
    ("XDP_REDIRECT", 4)
  ].

Definition typedef___be16 : ctype :=
  typedef___u16.

Definition struct_ethhdr : ctype :=
  CStruct "ethhdr" [
    fld "h_dest" (CArr (CInt false 1) 6);
    fld "h_source" (CArr (CInt false 1) 6);
    fld "h_proto" typedef___be16
  ].

Definition typedef___be32 : ctype :=
  typedef___u32.

Definition typedef___sum16 : ctype :=
  typedef___u16.

Definition struct_iphdr : ctype :=
  CStruct "iphdr" [
    bits "ihl" typedef___u8 4;
    bits "version" typedef___u8 4;
    fld "tos" typedef___u8;
    fld "tot_len" typedef___be16;
    fld "id" typedef___be16;
    fld "frag_off" typedef___be16;
    fld "ttl" typedef___u8;
    fld "protocol" typedef___u8;
    fld "check" typedef___sum16;
    fld "" (CUnion "" [
      fld "" (CStruct "" [
        fld "saddr" typedef___be32;
        fld "daddr" typedef___be32
      ]);
      fld "addrs" (CStruct "" [
        fld "saddr" typedef___be32;
        fld "daddr" typedef___be32
      ])
    ])
  ].

Definition struct_tcphdr : ctype :=
  CStruct "tcphdr" [
    fld "source" typedef___be16;
    fld "dest" typedef___be16;
    fld "seq" typedef___be32;
    fld "ack_seq" typedef___be32;
    bits "ae" typedef___u16 1;
    bits "res1" typedef___u16 3;
    bits "doff" typedef___u16 4;
    bits "fin" typedef___u16 1;
    bits "syn" typedef___u16 1;
    bits "rst" typedef___u16 1;
    bits "psh" typedef___u16 1;
    bits "ack" typedef___u16 1;
    bits "urg" typedef___u16 1;
    bits "ece" typedef___u16 1;
    bits "cwr" typedef___u16 1;
    fld "window" typedef___be16;
    fld "check" typedef___sum16;
    fld "urg_ptr" typedef___be16
  ].

Definition struct_xdp_md : ctype :=
  CStruct "xdp_md" [
    fld "data" typedef___u32;
    fld "data_end" typedef___u32;
    fld "data_meta" typedef___u32;
    fld "ingress_ifindex" typedef___u32;
    fld "rx_queue_index" typedef___u32;
    fld "egress_ifindex" typedef___u32
  ].

Definition struct_xdp_buff : ctype :=
  CStruct "xdp_buff" [
    fld "data" (CPtr "void");
    fld "data_end" (CPtr "void");
    fld "data_meta" (CPtr "void");
    fld "data_hard_start" (CPtr "void");
    fld "rxq" (CPtr "struct xdp_rxq_info");
    fld "txq" (CPtr "struct xdp_txq_info");
    fld "frame_sz" typedef_u32;
    fld "flags" typedef_u32
  ].

Definition struct_xdp_mem_info : ctype :=
  CStruct "xdp_mem_info" [
    fld "type" typedef_u32;
    fld "id" typedef_u32
  ].

Definition struct_xdp_rxq_info : ctype :=
  CStruct "xdp_rxq_info" [
    fld "dev" (CPtr "struct net_device");
    fld "queue_index" typedef_u32;
    fld "reg_state" typedef_u32;
    fld "mem" struct_xdp_mem_info;
    fld "frag_size" typedef_u32;
    bits "" (CInt true 8) 64;
    bits "" (CInt true 8) 64;
    bits "" (CInt true 8) 64;
    bits "" (CInt true 8) 64
  ].

(** Every type of the file, under its C name. *)
Definition net_types : list (string * ctype) :=
  [("enum xdp_action", enum_xdp_action);
   ("__be16", typedef___be16);
   ("struct ethhdr", struct_ethhdr);
   ("__be32", typedef___be32);
   ("__sum16", typedef___sum16);
   ("struct iphdr", struct_iphdr);
   ("struct tcphdr", struct_tcphdr);
   ("struct xdp_md", struct_xdp_md);
   ("struct xdp_buff", struct_xdp_buff);
   ("struct xdp_mem_info", struct_xdp_mem_info);
   ("struct xdp_rxq_info", struct_xdp_rxq_info)].
