(* ===== verification/VmlinuxTask.v ===== *)
(** * Task types of [vmlinux.h]: [task_struct] and what it embeds or points to

    Each definition is the declaration of [src-bpf/vmlinux.h] with the same
    tag ([struct_], [union_], [enum_]) or typedef name ([typedef_]), member
    for member; a pointer keeps only the spelling of its target.  Declarations
    come in dependency order: a type embedded by value is defined before its
    user. *)

From S2P Require Import Prelude CTypes VmlinuxBase.

Definition struct_fred_cs : ctype :=
  CStruct "fred_cs" [
    bits "cs" typedef_u64 16;
    bits "sl" typedef_u64 2;
    bits "wfe" typedef_u64 1
  ].

Definition struct_fred_ss : ctype :=
  CStruct "fred_ss" [
    bits "ss" typedef_u64 16;
    bits "sti" typedef_u64 1;
    bits "swevent" typedef_u64 1;
    bits "nmi" typedef_u64 1;
    bits "" (CInt true 4) 13;
    bits "vector" typedef_u64 8;
    bits "" (CInt true 2) 8;
    bits "type" typedef_u64 4;
    bits "" (CInt true 1) 4;
    bits "enclave" typedef_u64 1;
    bits "lm" typedef_u64 1;
    bits "nested" typedef_u64 1;
    bits "" (CInt true 1) 1;
    bits "insnlen" typedef_u64 4
  ].

Definition struct_pt_regs : ctype :=
  CStruct "pt_regs" [
    fld "r15" (CInt false 8);
    fld "r14" (CInt false 8);
    fld "r13" (CInt false 8);
    fld "r12" (CInt false 8);
    fld "bp" (CInt false 8);
    fld "bx" (CInt false 8);
    fld "r11" (CInt false 8);
    fld "r10" (CInt false 8);
    fld "r9" (CInt false 8);
    fld "r8" (CInt false 8);
    fld "ax" (CInt false 8);
    fld "cx" (CInt false 8);
    fld "dx" (CInt false 8);
    fld "si" (CInt false 8);
    fld "di" (CInt false 8);
    fld "orig_ax" (CInt false 8);
    fld "ip" (CInt false 8);
    fld "" (CUnion "" [
      fld "cs" typedef_u16;
      fld "csx" typedef_u64;
      fld "fred_cs" struct_fred_cs
    ]);
    fld "flags" (CInt false 8);
    fld "sp" (CInt false 8);
    fld "" (CUnion "" [
      fld "ss" typedef_u16;
      fld "ssx" typedef_u64;
      fld "fred_ss" struct_fred_ss
    ])
  ].

Definition struct_trace_entry : ctype :=
  CStruct "trace_entry" [
    fld "type" (CInt false 2);
    fld "flags" (CInt false 1);
    fld "preempt_count" (CInt false 1);
    fld "pid" (CInt true 4)
  ].

Definition struct_trace_event_raw_sys_enter : ctype :=
  CStruct "trace_event_raw_sys_enter" [
    fld "ent" struct_trace_entry;
    fld "id" (CInt true 8);
    fld "args" (CArr (CInt false 8) 6);
    fld "__data" (CArr (CInt true 1) 0)
  ].

Definition struct___call_single_node : ctype :=
  CStruct "__call_single_node" [
    fld "llist" struct_llist_node;
    fld "" (CUnion "" [
      fld "u_flags" (CInt false 4);
      fld "a_flags" typedef_atomic_t
    ]);
    fld "src" typedef_u16;
    fld "dst" typedef_u16
  ].

Definition struct_kmap_ctrl : ctype :=
  CStruct "kmap_ctrl" [].

Definition struct_latency_record : ctype :=
  CStruct "latency_record" [
    fld "backtrace" (CArr (CInt false 8) 12);
    fld "count" (CInt false 4);
    fld "time" (CInt false 8);
    fld "max" (CInt false 8)
  ].

Definition struct_page_frag : ctype :=
  CStruct "page_frag" [
    fld "page" (CPtr "struct page");
    fld "offset" typedef___u32;
    fld "size" typedef___u32
  ].

Definition struct_plist_node : ctype :=
  CStruct "plist_node" [
    fld "prio" (CInt true 4);
    fld "prio_list" struct_list_head;
    fld "node_list" struct_list_head
  ].

Definition struct_timerqueue_head : ctype :=
  CStruct "timerqueue_head" [
    fld "rb_root" struct_rb_root_cached
  ].

Definition struct_posix_cputimer_base : ctype :=
  CStruct "posix_cputimer_base" [
    fld "nextevt" typedef_u64;
    fld "tqhead" struct_timerqueue_head
  ].

Definition struct_posix_cputimers : ctype :=
  CStruct "posix_cputimers" [
    fld "bases" (CArr struct_posix_cputimer_base 3);
    fld "timers_active" (CInt false 4);
    fld "expiry_active" (CInt false 4)
  ].

Definition struct_posix_cputimers_work : ctype :=
  CStruct "posix_cputimers_work" [
    fld "work" struct_callback_head;
    fld "mutex" struct_mutex;
    fld "scheduled" (CInt false 4)
  ].

Definition struct_prev_cputime : ctype :=
  CStruct "prev_cputime" [
    fld "utime" typedef_u64;
    fld "stime" typedef_u64;
    fld "lock" typedef_raw_spinlock_t
  ].

Definition enum_timespec_type : ctype :=
  CEnum "timespec_type" 4 [
    ("TT_NONE", 0);
    ("TT_NATIVE", 1);
    ("TT_COMPAT", 2)
  ].

Definition typedef___kernel_clockid_t : ctype :=
  CInt true 4.

Definition typedef_clockid_t : ctype :=
  typedef___kernel_clockid_t.

Definition struct_restart_block : ctype :=
  CStruct "restart_block" [
    fld "arch_data" (CInt false 8);
    fld "fn" (CPtr "function");
    fld "" (CUnion "" [
      fld "futex" (CStruct "" [
        fld "uaddr" (CPtr "u32");
        fld "val" typedef_u32;
        fld "flags" typedef_u32;
        fld "bitset" typedef_u32;
        fld "time" typedef_u64;
        fld "uaddr2" (CPtr "u32")
      ]);
      fld "nanosleep" (CStruct "" [
        fld "clockid" typedef_clockid_t;
        fld "type" enum_timespec_type;
        fld "" (CUnion "" [
          fld "rmtp" (CPtr "struct __kernel_timespec");
          fld "compat_rmtp" (CPtr "struct old_timespec32")
        ]);
        fld "expires" typedef_u64
      ]);
      fld "poll" (CStruct "" [
        fld "ufds" (CPtr "struct pollfd");
        fld "nfds" (CInt true 4);
        fld "has_timeout" (CInt true 4);
        fld "tv_sec" (CInt false 8);
        fld "tv_nsec" (CInt false 8)
      ])
    ])
  ].

Definition typedef_ktime_t : ctype :=
  typedef_s64.

Definition struct_timerqueue_node : ctype :=
  CStruct "timerqueue_node" [
    fld "node" struct_rb_node;
    fld "expires" typedef_ktime_t
  ].

Definition struct_hrtimer : ctype :=
  CStruct "hrtimer" [
    fld "node" struct_timerqueue_node;
    fld "_softexpires" typedef_ktime_t;
    fld "function" (CPtr "function");
    fld "base" (CPtr "struct hrtimer_clock_base");
    fld "state" typedef_u8;
    fld "is_rel" typedef_u8;
    fld "is_soft" typedef_u8;
    fld "is_hard" typedef_u8
  ].

Definition typedef_dl_server_pick_f : ctype :=
  CPtr "function".

Definition struct_sched_dl_entity : ctype :=
  CStruct "sched_dl_entity" [
    fld "rb_node" struct_rb_node;
    fld "dl_runtime" typedef_u64;
    fld "dl_deadline" typedef_u64;
    fld "dl_period" typedef_u64;
    fld "dl_bw" typedef_u64;
    fld "dl_density" typedef_u64;
    fld "runtime" typedef_s64;
    fld "deadline" typedef_u64;
    fld "flags" (CInt false 4);
    bits "dl_throttled" (CInt false 4) 1;
    bits "dl_yielded" (CInt false 4) 1;
    bits "dl_non_contending" (CInt false 4) 1;
    bits "dl_overrun" (CInt false 4) 1;
    bits "dl_server" (CInt false 4) 1;
    bits "dl_server_active" (CInt false 4) 1;
    bits "dl_defer" (CInt false 4) 1;
    bits "dl_defer_armed" (CInt false 4) 1;
    bits "dl_defer_running" (CInt false 4) 1;
    fld "dl_timer" struct_hrtimer;
    fld "inactive_timer" struct_hrtimer;
    fld "rq" (CPtr "struct rq");
    fld "server_pick_task" typedef_dl_server_pick_f;
    fld "pi_se" (CPtr "struct sched_dl_entity")
  ].

Definition struct_load_weight : ctype :=
  CStruct "load_weight" [
    fld "weight" (CInt false 8);
    fld "inv_weight" typedef_u32
  ].

Definition struct_sched_avg : ctype :=
  CStruct "sched_avg" [
    fld "last_update_time" typedef_u64;
    fld "load_sum" typedef_u64;
    fld "runnable_sum" typedef_u64;
    fld "util_sum" typedef_u32;
    fld "period_contrib" typedef_u32;
    fld "load_avg" (CInt false 8);
    fld "runnable_avg" (CInt false 8);
    fld "util_avg" (CInt false 8);
    fld "util_est" (CInt false 4)
  ].

Definition struct_sched_entity : ctype :=
  CStruct "sched_entity" [
    fld "load" struct_load_weight;
    fld "run_node" struct_rb_node;
    fld "deadline" typedef_u64;
    fld "min_vruntime" typedef_u64;
    fld "min_slice" typedef_u64;
    fld "group_node" struct_list_head;
    fld "on_rq" (CInt false 1);
    fld "sched_delayed" (CInt false 1);
    fld "rel_deadline" (CInt false 1);
    fld "custom_slice" (CInt false 1);
    fld "exec_start" typedef_u64;
    fld "sum_exec_runtime" typedef_u64;
    fld "prev_sum_exec_runtime" typedef_u64;
    fld "vruntime" typedef_u64;
    fld "" (CUnion "" [
      fld "vlag" typedef_s64;
      fld "vprot" typedef_u64
    ]);
    fld "slice" typedef_u64;
    fld "nr_migrations" typedef_u64;
    fld "depth" (CInt true 4);
    fld "parent" (CPtr "struct sched_entity");
    fld "cfs_rq" (CPtr "struct cfs_rq");
    fld "my_q" (CPtr "struct cfs_rq");
    fld "runnable_weight" (CInt false 8);
    bits "" (CInt true 8) 64;
    fld "avg" struct_sched_avg
  ].

Definition struct_scx_dsq_list_node : ctype :=
  CStruct "scx_dsq_list_node" [
    fld "node" struct_list_head;
    fld "flags" typedef_u32;
    fld "priv" typedef_u32
  ].

Definition typedef_s32 : ctype :=
  typedef___s32.

Definition struct_sched_ext_entity : ctype :=
  CStruct "sched_ext_entity" [
    fld "dsq" (CPtr "struct scx_dispatch_q");
    fld "dsq_list" struct_scx_dsq_list_node;
    fld "dsq_priq" struct_rb_node;
    fld "dsq_seq" typedef_u32;
    fld "dsq_flags" typedef_u32;
    fld "flags" typedef_u32;
    fld "weight" typedef_u32;
    fld "sticky_cpu" typedef_s32;
    fld "holding_cpu" typedef_s32;
    fld "selected_cpu" typedef_s32;
    fld "kf_mask" typedef_u32;
    fld "kf_tasks" (CArr (CPtr "struct task_struct") 2);
    fld "ops_state" typedef_atomic_long_t;
    fld "runnable_node" struct_list_head;
    fld "runnable_at" (CInt false 8);
    fld "core_sched_at" typedef_u64;
    fld "ddsp_dsq_id" typedef_u64;
    fld "ddsp_enq_flags" typedef_u64;
    fld "slice" typedef_u64;
    fld "dsq_vtime" typedef_u64;
    fld "disallow" typedef_bool;
    fld "cgrp_moving_from" (CPtr "struct cgroup");
    fld "tasks_node" struct_list_head
  ].

Definition struct_sched_info : ctype :=
  CStruct "sched_info" [
    fld "pcount" (CInt false 8);
    fld "run_delay" (CInt false 8);
    fld "max_run_delay" (CInt false 8);
    fld "min_run_delay" (CInt false 8);
    fld "last_arrival" (CInt false 8);
    fld "last_queued" (CInt false 8)
  ].

Definition struct_sched_rt_entity : ctype :=
  CStruct "sched_rt_entity" [
    fld "run_list" struct_list_head;
    fld "timeout" (CInt false 8);
    fld "watchdog_stamp" (CInt false 8);
    fld "time_slice" (CInt false 4);
    fld "on_rq" (CInt false 2);
    fld "on_list" (CInt false 2);
    fld "back" (CPtr "struct sched_rt_entity")
  ].

Definition struct_sched_statistics : ctype :=
  CStruct "sched_statistics" [
    fld "wait_start" typedef_u64;
    fld "wait_max" typedef_u64;
    fld "wait_count" typedef_u64;
    fld "wait_sum" typedef_u64;
    fld "iowait_count" typedef_u64;
    fld "iowait_sum" typedef_u64;
    fld "sleep_start" typedef_u64;
    fld "sleep_max" typedef_u64;
    fld "sum_sleep_runtime" typedef_s64;
    fld "block_start" typedef_u64;
    fld "block_max" typedef_u64;
    fld "sum_block_runtime" typedef_s64;
    fld "exec_max" typedef_s64;
    fld "slice_max" typedef_u64;
    fld "nr_migrations_cold" typedef_u64;
    fld "nr_failed_migrations_affine" typedef_u64;
    fld "nr_failed_migrations_running" typedef_u64;
    fld "nr_failed_migrations_hot" typedef_u64;
    fld "nr_forced_migrations" typedef_u64;
    fld "nr_wakeups" typedef_u64;
    fld "nr_wakeups_sync" typedef_u64;
    fld "nr_wakeups_migrate" typedef_u64;
    fld "nr_wakeups_local" typedef_u64;
    fld "nr_wakeups_remote" typedef_u64;
    fld "nr_wakeups_affine" typedef_u64;
    fld "nr_wakeups_affine_attempts" typedef_u64;
    fld "nr_wakeups_passive" typedef_u64;
    fld "nr_wakeups_idle" typedef_u64;
    fld "core_forceidle_sum" typedef_u64;
    bits "" (CInt true 8) 64;
    bits "" (CInt true 8) 64;
    bits "" (CInt true 8) 64
  ].

Definition struct_seccomp : ctype :=
  CStruct "seccomp" [
    fld "mode" (CInt true 4);
    fld "filter_count" typedef_atomic_t;
    fld "filter" (CPtr "struct seccomp_filter")
  ].

Definition typedef_sigset_t : ctype :=
  CStruct "" [
    fld "sig" (CArr (CInt false 8) 1)
  ].

Definition struct_sigpending : ctype :=
  CStruct "sigpending" [
    fld "list" struct_list_head;
    fld "signal" typedef_sigset_t
  ].

Definition struct_syscall_user_dispatch : ctype :=
  CStruct "syscall_user_dispatch" [
    fld "selector" (CPtr "char");
    fld "offset" (CInt false 8);
    fld "len" (CInt false 8);
    fld "on_dispatch" typedef_bool
  ].

Definition struct_sysv_sem : ctype :=
  CStruct "sysv_sem" [
    fld "undo_list" (CPtr "struct sem_undo_list")
  ].

Definition struct_sysv_shm : ctype :=
  CStruct "sysv_shm" [
    fld "shm_clist" struct_list_head
  ].

Definition struct_task_io_accounting : ctype :=
  CStruct "task_io_accounting" [
    fld "rchar" typedef_u64;
    fld "wchar" typedef_u64;
    fld "syscr" typedef_u64;
    fld "syscw" typedef_u64;
    fld "read_bytes" typedef_u64;
    fld "write_bytes" typedef_u64;
    fld "cancelled_write_bytes" typedef_u64
  ].

Definition struct_thread_info : ctype :=
  CStruct "thread_info" [
    fld "flags" (CInt false 8);
    fld "syscall_work" (CInt false 8);
    fld "status" typedef_u32;
    fld "cpu" typedef_u32
  ].

Definition struct_desc_struct : ctype :=
  CStruct "desc_struct" [
    fld "limit0" typedef_u16;
    fld "base0" typedef_u16;
    bits "base1" typedef_u16 8;
    bits "type" typedef_u16 4;
    bits "s" typedef_u16 1;
    bits "dpl" typedef_u16 2;
    bits "p" typedef_u16 1;
    bits "limit1" typedef_u16 4;
    bits "avl" typedef_u16 1;
    bits "l" typedef_u16 1;
    bits "d" typedef_u16 1;
    bits "g" typedef_u16 1;
    bits "base2" typedef_u16 8
  ].

Definition struct_thread_shstk : ctype :=
  CStruct "thread_shstk" [
    fld "base" typedef_u64;
    fld "size" typedef_u64
  ].

Definition struct_thread_struct : ctype :=
  CStruct "thread_struct" [
    fld "tls_array" (CArr struct_desc_struct 3);
    fld "sp" (CInt false 8);
    fld "es" (CInt false 2);
    fld "ds" (CInt false 2);
    fld "fsindex" (CInt false 2);
    fld "gsindex" (CInt false 2);
    fld "fsbase" (CInt false 8);
    fld "gsbase" (CInt false 8);
    fld "ptrace_bps" (CArr (CPtr "struct perf_event") 4);
    fld "virtual_dr6" (CInt false 8);
    fld "ptrace_dr7" (CInt false 8);
    fld "cr2" (CInt false 8);
    fld "trap_nr" (CInt false 8);
    fld "error_code" (CInt false 8);
    fld "io_bitmap" (CPtr "struct io_bitmap");
    fld "iopl_emul" (CInt false 8);
    bits "iopl_warn" (CInt false 4) 1;
    fld "pkru" typedef_u32;
    fld "features" (CInt false 8);
    fld "features_locked" (CInt false 8);
    fld "shstk" struct_thread_shstk
  ].

Definition struct_timer_list : ctype :=
  CStruct "timer_list" [
    fld "entry" struct_hlist_node;
    fld "expires" (CInt false 8);
    fld "function" (CPtr "function");
    fld "flags" typedef_u32
  ].

Definition struct_cpumask : ctype :=
  CStruct "cpumask" [
    fld "bits" (CArr (CInt false 8) 128)
  ].

Definition struct_arch_tlbflush_unmap_batch : ctype :=
  CStruct "arch_tlbflush_unmap_batch" [
    fld "cpumask" struct_cpumask;
    fld "unmapped_pages" typedef_bool
  ].

Definition struct_tlbflush_unmap_batch : ctype :=
  CStruct "tlbflush_unmap_batch" [
    fld "arch" struct_arch_tlbflush_unmap_batch;
    fld "flush_required" typedef_bool;
    fld "writable" typedef_bool
  ].

Definition struct_uclamp_se : ctype :=
  CStruct "uclamp_se" [
    bits "value" (CInt false 4) 11;
    bits "bucket_id" (CInt false 4) 3;
    bits "active" (CInt false 4) 1;
    bits "user_defined" (CInt false 4) 1
  ].

Definition enum_vtime_state : ctype :=
  CEnum "vtime_state" 4 [
    ("VTIME_INACTIVE", 0);
    ("VTIME_IDLE", 1);
    ("VTIME_SYS", 2);
    ("VTIME_USER", 3);
    ("VTIME_GUEST", 4)
  ].

Definition struct_vtime : ctype :=
  CStruct "vtime" [
    fld "seqcount" typedef_seqcount_t;
    fld "starttime" (CInt false 8);
    fld "state" enum_vtime_state;
    fld "cpu" (CInt false 4);
    fld "utime" typedef_u64;
    fld "stime" typedef_u64;
    fld "gtime" typedef_u64
  ].

Definition struct_wake_q_node : ctype :=
  CStruct "wake_q_node" [
    fld "next" (CPtr "struct wake_q_node")
  ].

Definition typedef_cpumask_t : ctype :=
  struct_cpumask.

Definition typedef_nodemask_t : ctype :=
  CStruct "" [
    fld "bits" (CArr (CInt false 8) 16)
  ].

Definition typedef___kernel_pid_t : ctype :=
  CInt true 4.

Definition typedef_pid_t : ctype :=
  typedef___kernel_pid_t.

Definition typedef___kernel_ulong_t : ctype :=
  CInt false 8.

Definition typedef___kernel_size_t : ctype :=
  typedef___kernel_ulong_t.

Definition typedef_size_t : ctype :=
  typedef___kernel_size_t.

Definition union_rcu_special : ctype :=
  CUnion "rcu_special" [
    fld "b" (CStruct "" [
      fld "blocked" typedef_u8;
      fld "need_qs" typedef_u8;
      fld "exp_hint" typedef_u8;
      fld "need_mb" typedef_u8
    ]);
    fld "s" typedef_u32
  ].

Definition struct_da_monitor : ctype :=
  CStruct "da_monitor" [
    fld "monitoring" typedef_bool;
    fld "curr_state" (CInt false 4)
  ].

Definition struct_ltl_monitor : ctype :=
  CStruct "ltl_monitor" [].

Definition union_rv_task_monitor : ctype :=
  CUnion "rv_task_monitor" [
    fld "da_mon" struct_da_monitor;
    fld "ltl_mon" struct_ltl_monitor
  ].

Definition struct_task_struct_part1 : list member :=
  [
    fld "thread_info" struct_thread_info;
    fld "__state" (CInt false 4);
    fld "saved_state" (CInt false 4);
    fld "stack" (CPtr "void");
    fld "usage" typedef_refcount_t;
    fld "flags" (CInt false 4);
    fld "ptrace" (CInt false 4);
    fld "on_cpu" (CInt true 4);
    fld "wake_entry" struct___call_single_node;
    fld "wakee_flips" (CInt false 4);
    fld "wakee_flip_decay_ts" (CInt false 8);
    fld "last_wakee" (CPtr "struct task_struct");
    fld "recent_used_cpu" (CInt true 4);
    fld "wake_cpu" (CInt true 4);
    fld "on_rq" (CInt true 4);
    fld "prio" (CInt true 4);
    fld "static_prio" (CInt true 4);
    fld "normal_prio" (CInt true 4);
    fld "rt_priority" (CInt false 4);
    fld "se" struct_sched_entity;
    fld "rt" struct_sched_rt_entity;
    fld "dl" struct_sched_dl_entity;
    fld "dl_server" (CPtr "struct sched_dl_entity");
    fld "scx" struct_sched_ext_entity;
    fld "sched_class" (CPtr "struct sched_class");
    fld "core_node" struct_rb_node;
    fld "core_cookie" (CInt false 8);
    fld "core_occupation" (CInt false 4);
    fld "sched_task_group" (CPtr "struct task_group");
    fld "uclamp_req" (CArr struct_uclamp_se 2);
    fld "uclamp" (CArr struct_uclamp_se 2);
    fld "stats" struct_sched_statistics;
    fld "preempt_notifiers" struct_hlist_head;
    fld "btrace_seq" (CInt false 4);
    fld "policy" (CInt false 4);
    fld "max_allowed_capacity" (CInt false 8);
    fld "nr_cpus_allowed" (CInt true 4);
    fld "cpus_ptr" (CPtr "cpumask_t");
    fld "user_cpus_ptr" (CPtr "cpumask_t");
    fld "cpus_mask" typedef_cpumask_t;
    fld "migration_pending" (CPtr "void");
    fld "migration_disabled" (CInt false 2);
    fld "migration_flags" (CInt false 2);
    fld "rcu_read_lock_nesting" (CInt true 4);
    fld "rcu_read_unlock_special" union_rcu_special;
    fld "rcu_node_entry" struct_list_head;
    fld "rcu_blocked_node" (CPtr "struct rcu_node");
    fld "rcu_tasks_nvcsw" (CInt false 8);
    fld "rcu_tasks_holdout" typedef_u8;
    fld "rcu_tasks_idx" typedef_u8;
    fld "rcu_tasks_idle_cpu" (CInt true 4);
    fld "rcu_tasks_holdout_list" struct_list_head;
    fld "rcu_tasks_exit_cpu" (CInt true 4);
    fld "rcu_tasks_exit_list" struct_list_head;
    fld "trc_reader_nesting" (CInt true 4);
    fld "trc_ipi_to_cpu" (CInt true 4);
    fld "trc_reader_special" union_rcu_special;
    fld "trc_holdout_list" struct_list_head;
    fld "trc_blkd_node" struct_list_head;
    fld "trc_blkd_cpu" (CInt true 4);
    fld "sched_info" struct_sched_info;
    fld "tasks" struct_list_head;
    fld "pushable_tasks" struct_plist_node;
    fld "pushable_dl_tasks" struct_rb_node;
    fld "mm" (CPtr "struct mm_struct");
    fld "active_mm" (CPtr "struct mm_struct");
    fld "faults_disabled_mapping" (CPtr "struct address_space");
    fld "exit_state" (CInt true 4);
    fld "exit_code" (CInt true 4);
    fld "exit_signal" (CInt true 4);
    fld "pdeath_signal" (CInt true 4);
    fld "jobctl" (CInt false 8);
    fld "personality" (CInt false 4);
    bits "sched_reset_on_fork" (CInt false 4) 1;
    bits "sched_contributes_to_load" (CInt false 4) 1;
    bits "sched_migrated" (CInt false 4) 1;
    bits "sched_task_hot" (CInt false 4) 1;
    bits "" (CInt true 8) 28;
    bits "sched_remote_wakeup" (CInt false 4) 1;
    bits "sched_rt_mutex" (CInt false 4) 1;
    bits "user_dumpable" (CInt false 4) 1;
    bits "in_execve" (CInt false 4) 1;
    bits "in_iowait" (CInt false 4) 1;
    bits "restore_sigmask" (CInt false 4) 1;
    bits "in_user_fault" (CInt false 4) 1;
    bits "in_lru_fault" (CInt false 4) 1;
    bits "no_cgroup_migration" (CInt false 4) 1;
    bits "frozen" (CInt false 4) 1;
    bits "use_memdelay" (CInt false 4) 1;
    bits "in_memstall" (CInt false 4) 1;
    bits "in_eventfd" (CInt false 4) 1;
    bits "pasid_activated" (CInt false 4) 1;
    bits "reported_split_lock" (CInt false 4) 1;
    bits "in_thrashing" (CInt false 4) 1;
    bits "in_nf_duplicate" (CInt false 4) 1;
    fld "atomic_flags" (CInt false 8);
    fld "restart_block" struct_restart_block;
    fld "pid" typedef_pid_t;
    fld "tgid" typedef_pid_t;
    fld "stack_canary" (CInt false 8);
    fld "real_parent" (CPtr "struct task_struct");
    fld "parent" (CPtr "struct task_struct");
    fld "children" struct_list_head;
    fld "sibling" struct_list_head;
    fld "group_leader" (CPtr "struct task_struct");
    fld "ptraced" struct_list_head;
    fld "ptrace_entry" struct_list_head;
    fld "thread_pid" (CPtr "struct pid");
    fld "pid_links" (CArr struct_hlist_node 4);
    fld "thread_node" struct_list_head;
    fld "vfork_done" (CPtr "struct completion");
    fld "set_child_tid" (CPtr "int");
    fld "clear_child_tid" (CPtr "int");
    fld "worker_private" (CPtr "void");
    fld "utime" typedef_u64;
    fld "stime" typedef_u64;
    fld "gtime" typedef_u64;
    fld "prev_cputime" struct_prev_cputime;
    fld "vtime" struct_vtime;
    fld "tick_dep_mask" typedef_atomic_t;
    fld "nvcsw" (CInt false 8);
    fld "nivcsw" (CInt false 8);
    fld "start_time" typedef_u64;
    fld "start_boottime" typedef_u64;
    fld "min_flt" (CInt false 8);
    fld "maj_flt" (CInt false 8);
    fld "posix_cputimers" struct_posix_cputimers;
    fld "posix_cputimers_work" struct_posix_cputimers_work;
    fld "ptracer_cred" (CPtr "struct cred");
    fld "real_cred" (CPtr "struct cred");
    fld "cred" (CPtr "struct cred");
    fld "cached_requested_key" (CPtr "struct key");
    fld "comm" (CArr (CInt true 1) 16);
    fld "nameidata" (CPtr "struct nameidata");
    fld "sysvsem" struct_sysv_sem;
    fld "sysvshm" struct_sysv_shm;
    fld "last_switch_count" (CInt false 8);
    fld "last_switch_time" (CInt false 8);
    fld "fs" (CPtr "struct fs_struct");
    fld "files" (CPtr "struct files_struct");
    fld "io_uring" (CPtr "struct io_uring_task");
    fld "nsproxy" (CPtr "struct nsproxy");
    fld "signal" (CPtr "struct signal_struct");
    fld "sighand" (CPtr "struct sighand_struct");
    fld "blocked" typedef_sigset_t;
    fld "real_blocked" typedef_sigset_t;
    fld "saved_sigmask" typedef_sigset_t;
    fld "pending" struct_sigpending;
    fld "sas_ss_sp" (CInt false 8);
    fld "sas_ss_size" typedef_size_t
  ].

Definition struct_task_struct_part2 : list member :=
  [
    fld "sas_ss_flags" (CInt false 4);
    fld "task_works" (CPtr "struct callback_head");
    fld "audit_context" (CPtr "struct audit_context");
    fld "loginuid" typedef_kuid_t;
    fld "sessionid" (CInt false 4);
    fld "seccomp" struct_seccomp;
    fld "syscall_dispatch" struct_syscall_user_dispatch;
    fld "parent_exec_id" typedef_u64;
    fld "self_exec_id" typedef_u64;
    fld "alloc_lock" typedef_spinlock_t;
    fld "pi_lock" typedef_raw_spinlock_t;
    fld "wake_q" struct_wake_q_node;
    fld "pi_waiters" struct_rb_root_cached;
    fld "pi_top_task" (CPtr "struct task_struct");
    fld "pi_blocked_on" (CPtr "struct rt_mutex_waiter");
    fld "blocked_on" (CPtr "struct mutex");
    fld "blocker" (CInt false 8);
    fld "in_ubsan" (CInt false 4);
    fld "journal_info" (CPtr "void");
    fld "bio_list" (CPtr "struct bio_list");
    fld "plug" (CPtr "struct blk_plug");
    fld "reclaim_state" (CPtr "struct reclaim_state");
    fld "io_context" (CPtr "struct io_context");
    fld "capture_control" (CPtr "struct capture_control");
    fld "ptrace_message" (CInt false 8);
    fld "last_siginfo" (CPtr "kernel_siginfo_t");
    fld "ioac" struct_task_io_accounting;
    fld "psi_flags" (CInt false 4);
    fld "acct_rss_mem1" typedef_u64;
    fld "acct_vm_mem1" typedef_u64;
    fld "acct_timexpd" typedef_u64;
    fld "mems_allowed" typedef_nodemask_t;
    fld "mems_allowed_seq" typedef_seqcount_spinlock_t;
    fld "cpuset_mem_spread_rotor" (CInt true 4);
    fld "cgroups" (CPtr "struct css_set");
    fld "cg_list" struct_list_head;
    fld "closid" typedef_u32;
    fld "rmid" typedef_u32;
    fld "robust_list" (CPtr "struct robust_list_head");
    fld "compat_robust_list" (CPtr "struct compat_robust_list_head");
    fld "pi_state_list" struct_list_head;
    fld "pi_state_cache" (CPtr "struct futex_pi_state");
    fld "futex_exit_mutex" struct_mutex;
    fld "futex_state" (CInt false 4);
    fld "perf_recursion" (CArr typedef_u8 4);
    fld "perf_event_ctxp" (CPtr "struct perf_event_context");
    fld "perf_event_mutex" struct_mutex;
    fld "perf_event_list" struct_list_head;
    fld "perf_ctx_data" (CPtr "struct perf_ctx_data");
    fld "mempolicy" (CPtr "struct mempolicy");
    fld "il_prev" (CInt true 2);
    fld "il_weight" typedef_u8;
    fld "pref_node_fork" (CInt true 2);
    fld "numa_scan_seq" (CInt true 4);
    fld "numa_scan_period" (CInt false 4);
    fld "numa_scan_period_max" (CInt false 4);
    fld "numa_preferred_nid" (CInt true 4);
    fld "numa_migrate_retry" (CInt false 8);
    fld "node_stamp" typedef_u64;
    fld "last_task_numa_placement" typedef_u64;
    fld "last_sum_exec_runtime" typedef_u64;
    fld "numa_work" struct_callback_head;
    fld "numa_group" (CPtr "struct numa_group");
    fld "numa_faults" (CPtr "long unsigned int");
    fld "total_numa_faults" (CInt false 8);
    fld "numa_faults_locality" (CArr (CInt false 8) 3);
    fld "numa_pages_migrated" (CInt false 8);
    fld "rseq" (CPtr "struct rseq");
    fld "rseq_len" typedef_u32;
    fld "rseq_sig" typedef_u32;
    fld "rseq_event_mask" (CInt false 8);
    fld "mm_cid" (CInt true 4);
    fld "last_mm_cid" (CInt true 4);
    fld "migrate_from_cpu" (CInt true 4);
    fld "mm_cid_active" (CInt true 4);
    fld "cid_work" struct_callback_head;
    fld "tlb_ubc" struct_tlbflush_unmap_batch;
    fld "splice_pipe" (CPtr "struct pipe_inode_info");
    fld "task_frag" struct_page_frag;
    fld "delays" (CPtr "struct task_delay_info");
    fld "nr_dirtied" (CInt true 4);
    fld "nr_dirtied_pause" (CInt true 4);
    fld "dirty_paused_when" (CInt false 8);
    fld "latency_record_count" (CInt true 4);
    fld "latency_record" (CArr struct_latency_record 32);
    fld "timer_slack_ns" typedef_u64;
    fld "default_timer_slack_ns" typedef_u64;
    fld "curr_ret_stack" (CInt true 4);
    fld "curr_ret_depth" (CInt true 4);
    fld "ret_stack" (CPtr "long unsigned int");
    fld "ftrace_timestamp" (CInt false 8);
    fld "ftrace_sleeptime" (CInt false 8);
    fld "trace_overrun" typedef_atomic_t;
    fld "tracing_graph_pause" typedef_atomic_t;
    fld "trace_recursion" (CInt false 8);
    fld "memcg_in_oom" (CPtr "struct mem_cgroup");
    fld "memcg_nr_pages_over_high" (CInt false 4);
    fld "active_memcg" (CPtr "struct mem_cgroup");
    fld "objcg" (CPtr "struct obj_cgroup");
    fld "throttle_disk" (CPtr "struct gendisk");
    fld "utask" (CPtr "struct uprobe_task");
    fld "sequential_io" (CInt false 4);
    fld "sequential_io_avg" (CInt false 4);
    fld "kmap_ctrl" struct_kmap_ctrl;
    fld "rcu" struct_callback_head;
    fld "rcu_users" typedef_refcount_t;
    fld "pagefault_disabled" (CInt true 4);
    fld "oom_reaper_list" (CPtr "struct task_struct");
    fld "oom_reaper_timer" struct_timer_list;
    fld "stack_vm_area" (CPtr "struct vm_struct");
    fld "stack_refcount" typedef_refcount_t;
    fld "patch_state" (CInt true 4);
    fld "security" (CPtr "void");
    fld "bpf_storage" (CPtr "struct bpf_local_storage");
    fld "bpf_ctx" (CPtr "struct bpf_run_ctx");
    fld "bpf_net_context" (CPtr "struct bpf_net_context");
    fld "mce_vaddr" (CPtr "void");
    fld "mce_kflags" typedef___u64;
    fld "mce_addr" typedef_u64;
    bits "mce_ripv" typedef___u64 1;
    bits "mce_whole_page" typedef___u64 1;
    bits "__mce_reserved" typedef___u64 62;
    fld "mce_kill_me" struct_callback_head;
    fld "mce_count" (CInt true 4);
    fld "kretprobe_instances" struct_llist_head;
    fld "rethooks" struct_llist_head;
    fld "l1d_flush_kill" struct_callback_head;
    fld "rv" (CArr union_rv_task_monitor 2);
    fld "user_event_mm" (CPtr "struct user_event_mm");
    fld "thread" struct_thread_struct;
    bits "" (CInt true 8) 64
  ].

Definition struct_task_struct : ctype :=
  CStruct "task_struct" (struct_task_struct_part1 ++ struct_task_struct_part2).

Definition typedef_kernel_cap_t : ctype :=
  CStruct "" [
    fld "val" typedef_u64
  ].

Definition struct_cred : ctype :=
  CStruct "cred" [
    fld "usage" typedef_atomic_long_t;
    fld "uid" typedef_kuid_t;
    fld "gid" typedef_kgid_t;
    fld "suid" typedef_kuid_t;
    fld "sgid" typedef_kgid_t;
    fld "euid" typedef_kuid_t;
    fld "egid" typedef_kgid_t;
    fld "fsuid" typedef_kuid_t;
    fld "fsgid" typedef_kgid_t;
    fld "securebits" (CInt false 4);
    fld "cap_inheritable" typedef_kernel_cap_t;
    fld "cap_permitted" typedef_kernel_cap_t;
    fld "cap_effective" typedef_kernel_cap_t;
    fld "cap_bset" typedef_kernel_cap_t;
    fld "cap_ambient" typedef_kernel_cap_t;
    fld "jit_keyring" (CInt false 1);
    fld "session_keyring" (CPtr "struct key");
    fld "process_keyring" (CPtr "struct key");
    fld "thread_keyring" (CPtr "struct key");
    fld "request_key_auth" (CPtr "struct key");
    fld "security" (CPtr "void");
    fld "user" (CPtr "struct user_struct");
    fld "user_ns" (CPtr "struct user_namespace");
    fld "ucounts" (CPtr "struct ucounts");
    fld "group_info" (CPtr "struct group_info");
    fld "" (CUnion "" [
      fld "non_rcu" (CInt true 4);
      fld "rcu" struct_callback_head
    ])
  ].

Definition struct_cpu_itimer : ctype :=
  CStruct "cpu_itimer" [
    fld "expires" typedef_u64;
    fld "incr" typedef_u64
  ].

Definition struct_pacct_struct : ctype :=
  CStruct "pacct_struct" [
    fld "ac_flag" (CInt true 4);
    fld "ac_exitcode" (CInt true 8);
    fld "ac_mem" (CInt false 8);
    fld "ac_utime" typedef_u64;
    fld "ac_stime" typedef_u64;
    fld "ac_minflt" (CInt false 8);
    fld "ac_majflt" (CInt false 8)
  ].

Definition struct_rlimit : ctype :=
  CStruct "rlimit" [
    fld "rlim_cur" typedef___kernel_ulong_t;
    fld "rlim_max" typedef___kernel_ulong_t
  ].

Definition struct_task_cputime_atomic : ctype :=
  CStruct "task_cputime_atomic" [
    fld "utime" typedef_atomic64_t;
    fld "stime" typedef_atomic64_t;
    fld "sum_exec_runtime" typedef_atomic64_t
  ].

Definition struct_thread_group_cputimer : ctype :=
  CStruct "thread_group_cputimer" [
    fld "cputime_atomic" struct_task_cputime_atomic
  ].

Definition typedef_seqlock_t : ctype :=
  CStruct "" [
    fld "seqcount" typedef_seqcount_spinlock_t;
    fld "lock" typedef_spinlock_t
  ].

Definition struct_signal_struct : ctype :=
  CStruct "signal_struct" [
    fld "sigcnt" typedef_refcount_t;
    fld "live" typedef_atomic_t;
    fld "nr_threads" (CInt true 4);
    fld "quick_threads" (CInt true 4);
    fld "thread_head" struct_list_head;
    fld "wait_chldexit" typedef_wait_queue_head_t;
    fld "curr_target" (CPtr "struct task_struct");
    fld "shared_pending" struct_sigpending;
    fld "multiprocess" struct_hlist_head;
    fld "group_exit_code" (CInt true 4);
    fld "notify_count" (CInt true 4);
    fld "group_exec_task" (CPtr "struct task_struct");
    fld "group_stop_count" (CInt true 4);
    fld "flags" (CInt false 4);
    fld "core_state" (CPtr "struct core_state");
    bits "is_child_subreaper" (CInt false 4) 1;
    bits "has_child_subreaper" (CInt false 4) 1;
    bits "timer_create_restore_ids" (CInt false 4) 1;
    fld "next_posix_timer_id" typedef_atomic_t;
    fld "posix_timers" struct_hlist_head;
    fld "ignored_posix_timers" struct_hlist_head;
    fld "real_timer" struct_hrtimer;
    fld "it_real_incr" typedef_ktime_t;
    fld "it" (CArr struct_cpu_itimer 2);
    fld "cputimer" struct_thread_group_cputimer;
    fld "posix_cputimers" struct_posix_cputimers;
    fld "pids" (CArr (CPtr "struct pid") 4);
    fld "tick_dep_mask" typedef_atomic_t;
    fld "tty_old_pgrp" (CPtr "struct pid");
    fld "leader" (CInt true 4);
    fld "tty" (CPtr "struct tty_struct");
    fld "autogroup" (CPtr "struct autogroup");
    fld "stats_lock" typedef_seqlock_t;
    fld "utime" typedef_u64;
    fld "stime" typedef_u64;
    fld "cutime" typedef_u64;
    fld "cstime" typedef_u64;
    fld "gtime" typedef_u64;
    fld "cgtime" typedef_u64;
    fld "prev_cputime" struct_prev_cputime;
    fld "nvcsw" (CInt false 8);
    fld "nivcsw" (CInt false 8);
    fld "cnvcsw" (CInt false 8);
    fld "cnivcsw" (CInt false 8);
    fld "min_flt" (CInt false 8);
    fld "maj_flt" (CInt false 8);
    fld "cmin_flt" (CInt false 8);
    fld "cmaj_flt" (CInt false 8);
    fld "inblock" (CInt false 8);
    fld "oublock" (CInt false 8);
    fld "cinblock" (CInt false 8);
    fld "coublock" (CInt false 8);
    fld "maxrss" (CInt false 8);
    fld "cmaxrss" (CInt false 8);
    fld "ioac" struct_task_io_accounting;
    fld "sum_sched_runtime" (CInt false 8);
    fld "rlim" (CArr struct_rlimit 16);
    fld "pacct" struct_pacct_struct;
    fld "stats" (CPtr "struct taskstats");
    fld "audit_tty" (CInt false 4);
    fld "tty_audit_buf" (CPtr "struct tty_audit_buf");
    fld "oom_flag_origin" typedef_bool;
    fld "oom_score_adj" (CInt true 2);
    fld "oom_score_adj_min" (CInt true 2);
    fld "oom_mm" (CPtr "struct mm_struct");
    fld "cred_guard_mutex" struct_mutex;
    fld "exec_update_lock" struct_rw_semaphore
  ].

Definition typedef___sighandler_t : ctype :=
  CPtr "__signalfn_t".

Definition typedef___sigrestore_t : ctype :=
  CPtr "__restorefn_t".

Definition struct_sigaction : ctype :=
  CStruct "sigaction" [
    fld "sa_handler" typedef___sighandler_t;
    fld "sa_flags" (CInt false 8);
    fld "sa_restorer" typedef___sigrestore_t;
    fld "sa_mask" typedef_sigset_t
  ].

Definition struct_k_sigaction : ctype :=
  CStruct "k_sigaction" [
    fld "sa" struct_sigaction
  ].

Definition struct_sighand_struct : ctype :=
  CStruct "sighand_struct" [
    fld "siglock" typedef_spinlock_t;
    fld "count" typedef_refcount_t;
    fld "signalfd_wqh" typedef_wait_queue_head_t;
    fld "action" (CArr struct_k_sigaction 64)
  ].

Definition typedef_lockdep_map_p : ctype :=
  CStruct "" [].

Definition struct_maple_tree : ctype :=
  CStruct "maple_tree" [
    fld "" (CUnion "" [
      fld "ma_lock" typedef_spinlock_t;
      fld "ma_external_lock" typedef_lockdep_map_p
    ]);
    fld "ma_flags" (CInt false 4);
    fld "ma_root" (CPtr "void")
  ].

Definition struct_uprobes_state : ctype :=
  CStruct "uprobes_state" [
    fld "xol_area" (CPtr "struct xol_area")
  ].

Definition typedef_s16 : ctype :=
  typedef___s16.

Definition typedef_mm_context_t : ctype :=
  CStruct "" [
    fld "ctx_id" typedef_u64;
    fld "tlb_gen" typedef_atomic64_t;
    fld "next_trim_cpumask" (CInt false 8);
    fld "ldt_usr_sem" struct_rw_semaphore;
    fld "ldt" (CPtr "struct ldt_struct");
    fld "flags" (CInt false 8);
    fld "lock" struct_mutex;
    fld "vdso" (CPtr "void");
    fld "vdso_image" (CPtr "struct vdso_image");
    fld "perf_rdpmc_allowed" typedef_atomic_t;
    fld "pkey_allocation_map" typedef_u16;
    fld "execute_only_pkey" typedef_s16;
    fld "global_asid" typedef_u16;
    fld "asid_transition" typedef_bool
  ].

Definition typedef_mm_id_t : ctype :=
  CInt false 4.

Definition struct_mm_struct : ctype :=
  CStruct "mm_struct" [
    fld "" (CStruct "" [
      fld "" (CStruct "" [
        fld "mm_count" typedef_atomic_t;
        bits "" (CInt true 8) 64;
        bits "" (CInt true 8) 64;
        bits "" (CInt true 8) 64;
        bits "" (CInt true 8) 64;
        bits "" (CInt true 8) 64;
        bits "" (CInt true 8) 64;
        bits "" (CInt true 8) 64
      ]);
      fld "mm_mt" struct_maple_tree;
      fld "mmap_base" (CInt false 8);
      fld "mmap_legacy_base" (CInt false 8);
      fld "mmap_compat_base" (CInt false 8);
      fld "mmap_compat_legacy_base" (CInt false 8);
      fld "task_size" (CInt false 8);
      fld "pgd" (CPtr "pgd_t");
      fld "membarrier_state" typedef_atomic_t;
      fld "mm_users" typedef_atomic_t;
      fld "pcpu_cid" (CPtr "struct mm_cid");
      fld "mm_cid_next_scan" (CInt false 8);
      fld "nr_cpus_allowed" (CInt false 4);
      fld "max_nr_cid" typedef_atomic_t;
      fld "cpus_allowed_lock" typedef_raw_spinlock_t;
      fld "pgtables_bytes" typedef_atomic_long_t;
      fld "map_count" (CInt true 4);
      fld "page_table_lock" typedef_spinlock_t;
      fld "mmap_lock" struct_rw_semaphore;
      fld "mmlist" struct_list_head;
      fld "vma_writer_wait" struct_rcuwait;
      fld "mm_lock_seq" typedef_seqcount_t;
      fld "futex_hash_lock" struct_mutex;
      fld "futex_phash" (CPtr "struct futex_private_hash");
      fld "futex_phash_new" (CPtr "struct futex_private_hash");
      fld "futex_batches" (CInt false 8);
      fld "futex_rcu" struct_callback_head;
      fld "futex_atomic" typedef_atomic_long_t;
      fld "futex_ref" (CPtr "unsigned int");
      fld "hiwater_rss" (CInt false 8);
      fld "hiwater_vm" (CInt false 8);
      fld "total_vm" (CInt false 8);
      fld "locked_vm" (CInt false 8);
      fld "pinned_vm" typedef_atomic64_t;
      fld "data_vm" (CInt false 8);
      fld "exec_vm" (CInt false 8);
      fld "stack_vm" (CInt false 8);
      fld "def_flags" typedef_vm_flags_t;
      fld "write_protect_seq" typedef_seqcount_t;
      fld "arg_lock" typedef_spinlock_t;
      fld "start_code" (CInt false 8);
      fld "end_code" (CInt false 8);
      fld "start_data" (CInt false 8);
      fld "end_data" (CInt false 8);
      fld "start_brk" (CInt false 8);
      fld "brk" (CInt false 8);
      fld "start_stack" (CInt false 8);
      fld "arg_start" (CInt false 8);
      fld "arg_end" (CInt false 8);
      fld "env_start" (CInt false 8);
      fld "env_end" (CInt false 8);
      fld "saved_auxv" (CArr (CInt false 8) 52);
      fld "rss_stat" (CArr struct_percpu_counter 4);
      fld "binfmt" (CPtr "struct linux_binfmt");
      fld "context" typedef_mm_context_t;
      fld "flags" (CInt false 8);
      fld "ioctx_lock" typedef_spinlock_t;
      fld "ioctx_table" (CPtr "struct kioctx_table");
      fld "owner" (CPtr "struct task_struct");
      fld "user_ns" (CPtr "struct user_namespace");
      fld "exe_file" (CPtr "struct file");
      fld "notifier_subscriptions" (CPtr "struct mmu_notifier_subscriptions");
      fld "numa_next_scan" (CInt false 8);
      fld "numa_scan_offset" (CInt false 8);
      fld "numa_scan_seq" (CInt true 4);
      fld "tlb_flush_pending" typedef_atomic_t;
      fld "tlb_flush_batched" typedef_atomic_t;
      fld "uprobes_state" struct_uprobes_state;
      fld "hugetlb_usage" typedef_atomic_long_t;
      fld "async_put_work" struct_work_struct;
      fld "iommu_mm" (CPtr "struct iommu_mm_data");
      fld "ksm_merging_pages" (CInt false 8);
      fld "ksm_rmap_items" (CInt false 8);
      fld "ksm_zero_pages" typedef_atomic_long_t;
      fld "lru_gen" (CStruct "" [
        fld "list" struct_list_head;
        fld "bitmap" (CInt false 8);
        fld "memcg" (CPtr "struct mem_cgroup")
      ]);
      fld "mm_id" typedef_mm_id_t;
      bits "" (CInt true 8) 64;
      bits "" (CInt true 8) 64;
      bits "" (CInt true 8) 64
    ]);
    fld "cpu_bitmap" (CArr (CInt false 8) 0)
  ].

Definition struct_fdtable : ctype :=
  CStruct "fdtable" [
    fld "max_fds" (CInt false 4);
    fld "fd" (CPtr "struct file *");
    fld "close_on_exec" (CPtr "long unsigned int");
    fld "open_fds" (CPtr "long unsigned int");
    fld "full_fds_bits" (CPtr "long unsigned int");
    fld "rcu" struct_callback_head
  ].

Definition struct_files_struct : ctype :=
  CStruct "files_struct" [
    fld "count" typedef_atomic_t;
    fld "resize_in_progress" typedef_bool;
    fld "resize_wait" typedef_wait_queue_head_t;
    fld "fdt" (CPtr "struct fdtable");
    fld "fdtab" struct_fdtable;
    bits "" (CInt true 8) 64;
    bits "" (CInt true 8) 64;
    bits "" (CInt true 8) 64;
    bits "" (CInt true 8) 64;
    fld "file_lock" typedef_spinlock_t;
    fld "next_fd" (CInt false 4);
    fld "close_on_exec_init" (CArr (CInt false 8) 1);
    fld "open_fds_init" (CArr (CInt false 8) 1);
    fld "full_fds_bits_init" (CArr (CInt false 8) 1);
    fld "fd_array" (CArr (CPtr "struct file") 64);
    bits "" (CInt true 8) 64;
    bits "" (CInt true 8) 64;
    bits "" (CInt true 8) 64;
    bits "" (CInt true 8) 64
  ].

Definition struct_fs_struct : ctype :=
  CStruct "fs_struct" [
    fld "users" (CInt true 4);
    fld "seq" typedef_seqlock_t;
    fld "umask" (CInt true 4);
    fld "in_exec" (CInt true 4);
    fld "root" struct_path;
    fld "pwd" struct_path
  ].

Definition struct_nsproxy : ctype :=
  CStruct "nsproxy" [
    fld "count" typedef_refcount_t;
    fld "uts_ns" (CPtr "struct uts_namespace");
    fld "ipc_ns" (CPtr "struct ipc_namespace");
    fld "mnt_ns" (CPtr "struct mnt_namespace");
    fld "pid_ns_for_children" (CPtr "struct pid_namespace");
    fld "net_ns" (CPtr "struct net");
    fld "time_ns" (CPtr "struct time_namespace");
    fld "time_ns_for_children" (CPtr "struct time_namespace");
    fld "cgroup_ns" (CPtr "struct cgroup_namespace")
  ].

Definition struct_upid : ctype :=
  CStruct "upid" [
    fld "nr" (CInt true 4);
    fld "ns" (CPtr "struct pid_namespace")
  ].

Definition struct_pid : ctype :=
  CStruct "pid" [
    fld "count" typedef_refcount_t;
    fld "level" (CInt false 4);
    fld "lock" typedef_spinlock_t;
    fld "" (CStruct "" [
      fld "ino" typedef_u64;
      fld "pidfs_node" struct_rb_node;
      fld "stashed" (CPtr "struct dentry");
      fld "attr" (CPtr "struct pidfs_attr")
    ]);
    fld "tasks" (CArr struct_hlist_head 4);
    fld "inodes" struct_hlist_head;
    fld "wait_pidfd" typedef_wait_queue_head_t;
    fld "rcu" struct_callback_head;
    fld "numbers" (CArr struct_upid 0)
  ].

Definition typedef___kernel_long_t : ctype :=
  CInt true 8.

Definition typedef___kernel_clock_t : ctype :=
  typedef___kernel_long_t.

Definition typedef___kernel_timer_t : ctype :=
  CInt true 4.

Definition union_sigval : ctype :=
  CUnion "sigval" [
    fld "sival_int" (CInt true 4);
    fld "sival_ptr" (CPtr "void")
  ].

Definition typedef_sigval_t : ctype :=
  union_sigval.

Definition union___sifields : ctype :=
  CUnion "__sifields" [
    fld "_kill" (CStruct "" [
      fld "_pid" typedef___kernel_pid_t;
      fld "_uid" typedef___kernel_uid32_t
    ]);
    fld "_timer" (CStruct "" [
      fld "_tid" typedef___kernel_timer_t;
      fld "_overrun" (CInt true 4);
      fld "_sigval" typedef_sigval_t;
      fld "_sys_private" (CInt true 4)
    ]);
    fld "_rt" (CStruct "" [
      fld "_pid" typedef___kernel_pid_t;
      fld "_uid" typedef___kernel_uid32_t;
      fld "_sigval" typedef_sigval_t
    ]);
    fld "_sigchld" (CStruct "" [
      fld "_pid" typedef___kernel_pid_t;
      fld "_uid" typedef___kernel_uid32_t;
      fld "_status" (CInt true 4);
      fld "_utime" typedef___kernel_clock_t;
      fld "_stime" typedef___kernel_clock_t
    ]);
    fld "_sigfault" (CStruct "" [
      fld "_addr" (CPtr "void");
      fld "" (CUnion "" [
        fld "_trapno" (CInt true 4);
        fld "_addr_lsb" (CInt true 2);
        fld "_addr_bnd" (CStruct "" [
          fld "_dummy_bnd" (CArr (CInt true 1) 8);
          fld "_lower" (CPtr "void");
          fld "_upper" (CPtr "void")
        ]);
        fld "_addr_pkey" (CStruct "" [
          fld "_dummy_pkey" (CArr (CInt true 1) 8);
          fld "_pkey" typedef___u32
        ]);
        fld "_perf" (CStruct "" [
          fld "_data" (CInt false 8);
          fld "_type" typedef___u32;
          fld "_flags" typedef___u32
        ])
      ])
    ]);
    fld "_sigpoll" (CStruct "" [
      fld "_band" (CInt true 8);
      fld "_fd" (CInt true 4)
    ]);
    fld "_sigsys" (CStruct "" [
      fld "_call_addr" (CPtr "void");
      fld "_syscall" (CInt true 4);
      fld "_arch" (CInt false 4)
    ])
  ].

Definition struct_kernel_siginfo : ctype :=
  CStruct "kernel_siginfo" [
    fld "" (CStruct "" [
      fld "si_signo" (CInt true 4);
      fld "si_errno" (CInt true 4);
      fld "si_code" (CInt true 4);
      fld "_sifields" union___sifields
    ])
  ].

Definition struct_css_set : ctype :=
  CStruct "css_set" [
    fld "subsys" (CArr (CPtr "struct cgroup_subsys_state") 15);
    fld "refcount" typedef_refcount_t;
    fld "dom_cset" (CPtr "struct css_set");
    fld "dfl_cgrp" (CPtr "struct cgroup");
    fld "nr_tasks" (CInt true 4);
    fld "tasks" struct_list_head;
    fld "mg_tasks" struct_list_head;
    fld "dying_tasks" struct_list_head;
    fld "task_iters" struct_list_head;
    fld "e_cset_node" (CArr struct_list_head 15);
    fld "threaded_csets" struct_list_head;
    fld "threaded_csets_node" struct_list_head;
    fld "hlist" struct_hlist_node;
    fld "cgrp_links" struct_list_head;
    fld "mg_src_preload_node" struct_list_head;
    fld "mg_dst_preload_node" struct_list_head;
    fld "mg_node" struct_list_head;
    fld "mg_src_cgrp" (CPtr "struct cgroup");
    fld "mg_dst_cgrp" (CPtr "struct cgroup");
    fld "mg_dst_cset" (CPtr "struct css_set");
    fld "dead" typedef_bool;
    fld "callback_head" struct_callback_head
  ].

Definition struct_cfs_bandwidth : ctype :=
  CStruct "cfs_bandwidth" [
    fld "lock" typedef_raw_spinlock_t;
    fld "period" typedef_ktime_t;
    fld "quota" typedef_u64;
    fld "runtime" typedef_u64;
    fld "burst" typedef_u64;
    fld "runtime_snap" typedef_u64;
    fld "hierarchical_quota" typedef_s64;
    fld "idle" typedef_u8;
    fld "period_active" typedef_u8;
    fld "slack_started" typedef_u8;
    fld "period_timer" struct_hrtimer;
    fld "slack_timer" struct_hrtimer;
    fld "throttled_cfs_rq" struct_list_head;
    fld "nr_periods" (CInt true 4);
    fld "nr_throttled" (CInt true 4);
    fld "nr_burst" (CInt true 4);
    fld "throttled_time" typedef_u64;
    fld "burst_time" typedef_u64
  ].

Definition struct_percpu_ref : ctype :=
  CStruct "percpu_ref" [
    fld "percpu_count_ptr" (CInt false 8);
    fld "data" (CPtr "struct percpu_ref_data")
  ].

Definition struct_rcu_work : ctype :=
  CStruct "rcu_work" [
    fld "work" struct_work_struct;
    fld "rcu" struct_callback_head;
    fld "wq" (CPtr "struct workqueue_struct")
  ].

Definition struct_cgroup_subsys_state : ctype :=
  CStruct "cgroup_subsys_state" [
    fld "cgroup" (CPtr "struct cgroup");
    fld "ss" (CPtr "struct cgroup_subsys");
    fld "refcnt" struct_percpu_ref;
    fld "rstat_cpu" (CPtr "struct css_rstat_cpu");
    fld "sibling" struct_list_head;
    fld "children" struct_list_head;
    fld "id" (CInt true 4);
    fld "flags" (CInt false 4);
    fld "serial_nr" typedef_u64;
    fld "online_cnt" typedef_atomic_t;
    fld "destroy_work" struct_work_struct;
    fld "destroy_rwork" struct_rcu_work;
    fld "parent" (CPtr "struct cgroup_subsys_state");
    fld "nr_descendants" (CInt true 4);
    fld "rstat_flush_next" (CPtr "struct cgroup_subsys_state")
  ].

Definition struct_scx_task_group : ctype :=
  CStruct "scx_task_group" [
    fld "flags" typedef_u32;
    fld "weight" typedef_u32;
    fld "bw_period_us" typedef_u64;
    fld "bw_quota_us" typedef_u64;
    fld "bw_burst_us" typedef_u64
  ].

Definition struct_task_group : ctype :=
  CStruct "task_group" [
    fld "css" struct_cgroup_subsys_state;
    fld "idle" (CInt true 4);
    fld "se" (CPtr "struct sched_entity *");
    fld "cfs_rq" (CPtr "struct cfs_rq *");
    fld "shares" (CInt false 8);
    bits "" (CInt true 8) 64;
    bits "" (CInt true 8) 64;
    fld "load_avg" typedef_atomic_long_t;
    fld "scx" struct_scx_task_group;
    fld "rcu" struct_callback_head;
    fld "list" struct_list_head;
    fld "parent" (CPtr "struct task_group");
    fld "siblings" struct_list_head;
    fld "children" struct_list_head;
    fld "autogroup" (CPtr "struct autogroup");
    fld "cfs_bandwidth" struct_cfs_bandwidth;
    fld "uclamp_pct" (CArr (CInt false 4) 2);
    fld "uclamp_req" (CArr struct_uclamp_se 2);
    fld "uclamp" (CArr struct_uclamp_se 2)
  ].

Definition struct_ctl_table_header : ctype :=
  CStruct "ctl_table_header" [
    fld "" (CUnion "" [
      fld "" (CStruct "" [
        fld "ctl_table" (CPtr "struct ctl_table");
        fld "ctl_table_size" (CInt true 4);
        fld "used" (CInt true 4);
        fld "count" (CInt true 4);
        fld "nreg" (CInt true 4)
      ]);
      fld "rcu" struct_callback_head
    ]);
    fld "unregistering" (CPtr "struct completion");
    fld "ctl_table_arg" (CPtr "struct ctl_table");
    fld "root" (CPtr "struct ctl_table_root");
    fld "set" (CPtr "struct ctl_table_set");
    fld "parent" (CPtr "struct ctl_dir");
    fld "node" (CPtr "struct ctl_node");
    fld "inodes" struct_hlist_head;
    fld "type" (CEnum "" 4 [
      ("SYSCTL_TABLE_TYPE_DEFAULT", 0);
      ("SYSCTL_TABLE_TYPE_PERMANENTLY_EMPTY", 1)
    ])
  ].

Definition struct_ctl_dir : ctype :=
  CStruct "ctl_dir" [
    fld "header" struct_ctl_table_header;
    fld "root" struct_rb_root
  ].

Definition struct_ctl_table_set : ctype :=
  CStruct "ctl_table_set" [
    fld "is_seen" (CPtr "function");
    fld "dir" struct_ctl_dir
  ].

Definition struct_ns_common : ctype :=
  CStruct "ns_common" [
    fld "stashed" (CPtr "struct dentry");
    fld "ops" (CPtr "struct proc_ns_operations");
    fld "inum" (CInt false 4);
    fld "count" typedef_refcount_t
  ].

Definition struct_uid_gid_extent : ctype :=
  CStruct "uid_gid_extent" [
    fld "first" typedef_u32;
    fld "lower_first" typedef_u32;
    fld "count" typedef_u32
  ].

Definition struct_uid_gid_map : ctype :=
  CStruct "uid_gid_map" [
    fld "" (CUnion "" [
      fld "" (CStruct "" [
        fld "extent" (CArr struct_uid_gid_extent 5);
        fld "nr_extents" typedef_u32
      ]);
      fld "" (CStruct "" [
        fld "forward" (CPtr "struct uid_gid_extent");
        fld "reverse" (CPtr "struct uid_gid_extent")
      ])
    ])
  ].

Definition struct_user_namespace : ctype :=
  CStruct "user_namespace" [
    fld "uid_map" struct_uid_gid_map;
    fld "gid_map" struct_uid_gid_map;
    fld "projid_map" struct_uid_gid_map;
    fld "parent" (CPtr "struct user_namespace");
    fld "level" (CInt true 4);
    fld "owner" typedef_kuid_t;
    fld "group" typedef_kgid_t;
    fld "ns" struct_ns_common;
    fld "flags" (CInt false 8);
    fld "parent_could_setfcap" typedef_bool;
    fld "keyring_name_list" struct_list_head;
    fld "user_keyring_register" (CPtr "struct key");
    fld "keyring_sem" struct_rw_semaphore;
    fld "persistent_keyring_register" (CPtr "struct key");
    fld "work" struct_work_struct;
    fld "set" struct_ctl_table_set;
    fld "sysctls" (CPtr "struct ctl_table_header");
    fld "ucounts" (CPtr "struct ucounts");
    fld "ucount_max" (CArr (CInt true 8) 12);
    fld "rlimit_max" (CArr (CInt true 8) 4);
    fld "binfmt_misc" (CPtr "struct binfmt_misc")
  ].

(** Every type of the file, under its C name. *)
Definition task_types : list (string * ctype) :=
  [("struct fred_cs", struct_fred_cs);
   ("struct fred_ss", struct_fred_ss);
   ("struct pt_regs", struct_pt_regs);
   ("struct trace_entry", struct_trace_entry);
   ("struct trace_event_raw_sys_enter", struct_trace_event_raw_sys_enter);
   ("struct __call_single_node", struct___call_single_node);
   ("struct kmap_ctrl", struct_kmap_ctrl);
   ("struct latency_record", struct_latency_record);
   ("struct page_frag", struct_page_frag);
   ("struct plist_node", struct_plist_node);
   ("struct timerqueue_head", struct_timerqueue_head);
   ("struct posix_cputimer_base", struct_posix_cputimer_base);
   ("struct posix_cputimers", struct_posix_cputimers);
   ("struct posix_cputimers_work", struct_posix_cputimers_work);
   ("struct prev_cputime", struct_prev_cputime);
   ("enum timespec_type", enum_timespec_type);
   ("__kernel_clockid_t", typedef___kernel_clockid_t);
   ("clockid_t", typedef_clockid_t);
   ("struct restart_block", struct_restart_block);
   ("ktime_t", typedef_ktime_t);
   ("struct timerqueue_node", struct_timerqueue_node);
   ("struct hrtimer", struct_hrtimer);
   ("dl_server_pick_f", typedef_dl_server_pick_f);
   ("struct sched_dl_entity", struct_sched_dl_entity);
   ("struct load_weight", struct_load_weight);
   ("struct sched_avg", struct_sched_avg);
   ("struct sched_entity", struct_sched_entity);
   ("struct scx_dsq_list_node", struct_scx_dsq_list_node);
   ("s32", typedef_s32);
   ("struct sched_ext_entity", struct_sched_ext_entity);
   ("struct sched_info", struct_sched_info);
   ("struct sched_rt_entity", struct_sched_rt_entity);
   ("struct sched_statistics", struct_sched_statistics);
   ("struct seccomp", struct_seccomp);
   ("sigset_t", typedef_sigset_t);
   ("struct sigpending", struct_sigpending);
   ("struct syscall_user_dispatch", struct_syscall_user_dispatch);
   ("struct sysv_sem", struct_sysv_sem);
   ("struct sysv_shm", struct_sysv_shm);
   ("struct task_io_accounting", struct_task_io_accounting);
   ("struct thread_info", struct_thread_info);
   ("struct desc_struct", struct_desc_struct);
   ("struct thread_shstk", struct_thread_shstk);
   ("struct thread_struct", struct_thread_struct);
   ("struct timer_list", struct_timer_list);
   ("struct cpumask", struct_cpumask);
   ("struct arch_tlbflush_unmap_batch", struct_arch_tlbflush_unmap_batch);
   ("struct tlbflush_unmap_batch", struct_tlbflush_unmap_batch);
   ("struct uclamp_se", struct_uclamp_se);
   ("enum vtime_state", enum_vtime_state);
   ("struct vtime", struct_vtime);
   ("struct wake_q_node", struct_wake_q_node);
   ("cpumask_t", typedef_cpumask_t);
   ("nodemask_t", typedef_nodemask_t);
   ("__kernel_pid_t", typedef___kernel_pid_t);
   ("pid_t", typedef_pid_t);
   ("__kernel_ulong_t", typedef___kernel_ulong_t);
   ("__kernel_size_t", typedef___kernel_size_t);
   ("size_t", typedef_size_t);
   ("union rcu_special", union_rcu_special);
   ("struct da_monitor", struct_da_monitor);
   ("struct ltl_monitor", struct_ltl_monitor);
   ("union rv_task_monitor", union_rv_task_monitor);
   ("struct task_struct", struct_task_struct);
   ("kernel_cap_t", typedef_kernel_cap_t);
   ("struct cred", struct_cred);
   ("struct cpu_itimer", struct_cpu_itimer);
   ("struct pacct_struct", struct_pacct_struct);
   ("struct rlimit", struct_rlimit);
   ("struct task_cputime_atomic", struct_task_cputime_atomic);
   ("struct thread_group_cputimer", struct_thread_group_cputimer);
   ("seqlock_t", typedef_seqlock_t);
   ("struct signal_struct", struct_signal_struct);
   ("__sighandler_t", typedef___sighandler_t);
   ("__sigrestore_t", typedef___sigrestore_t);
   ("struct sigaction", struct_sigaction);
   ("struct k_sigaction", struct_k_sigaction);
   ("struct sighand_struct", struct_sighand_struct);
   ("lockdep_map_p", typedef_lockdep_map_p);
   ("struct maple_tree", struct_maple_tree);
   ("struct uprobes_state", struct_uprobes_state);
   ("s16", typedef_s16);
   ("mm_context_t", typedef_mm_context_t);
   ("mm_id_t", typedef_mm_id_t);
   ("struct mm_struct", struct_mm_struct);
   ("struct fdtable", struct_fdtable);
   ("struct files_struct", struct_files_struct);
   ("struct fs_struct", struct_fs_struct);
   ("struct nsproxy", struct_nsproxy);
   ("struct upid", struct_upid);
   ("struct pid", struct_pid);
   ("__kernel_long_t", typedef___kernel_long_t);
   ("__kernel_clock_t", typedef___kernel_clock_t);
   ("__kernel_timer_t", typedef___kernel_timer_t);
   ("union sigval", union_sigval);
   ("sigval_t", typedef_sigval_t);
   ("union __sifields", union___sifields);
   ("struct kernel_siginfo", struct_kernel_siginfo);
   ("struct css_set", struct_css_set);
   ("struct cfs_bandwidth", struct_cfs_bandwidth);
   ("struct percpu_ref", struct_percpu_ref);
   ("struct rcu_work", struct_rcu_work);
   ("struct cgroup_subsys_state", struct_cgroup_subsys_state);
   ("struct scx_task_group", struct_scx_task_group);
   ("struct task_group", struct_task_group);
   ("struct ctl_table_header", struct_ctl_table_header);
   ("struct ctl_dir", struct_ctl_dir);
   ("struct ctl_table_set", struct_ctl_table_set);
   ("struct ns_common", struct_ns_common);
   ("struct uid_gid_extent", struct_uid_gid_extent);
   ("struct uid_gid_map", struct_uid_gid_map);
   ("struct user_namespace", struct_user_namespace)].
