(* ===== verification/VmlinuxFs.v ===== *)
(** * VFS types of [vmlinux.h]: [file], [inode], [path] and what they embed or point to

    Each definition is the declaration of [src-bpf/vmlinux.h] with the same
    tag ([struct_], [union_], [enum_]) or typedef name ([typedef_]), member
    for member; a pointer keeps only the spelling of its target.  Declarations
    come in dependency order: a type embedded by value is defined before its
    user. *)

From S2P Require Import Prelude CTypes VmlinuxBase.

Definition typedef___kernel_loff_t : ctype :=
  CInt true 8.

Definition typedef_loff_t : ctype :=
  typedef___kernel_loff_t.

Definition struct_file_ra_state : ctype :=
  CStruct "file_ra_state" [
    fld "start" (CInt false 8);
    fld "size" (CInt false 4);
    fld "async_size" (CInt false 4);
    fld "ra_pages" (CInt false 4);
    fld "order" (CInt false 2);
    fld "mmap_miss" (CInt false 2);
    fld "prev_pos" typedef_loff_t
  ].

Definition typedef_errseq_t : ctype :=
  typedef_u32.

Definition typedef_file_ref_t : ctype :=
  CStruct "" [
    fld "refcnt" typedef_atomic64_t
  ].

Definition typedef_fmode_t : ctype :=
  CInt false 4.

Definition typedef_freeptr_t : ctype :=
  CStruct "" [
    fld "v" (CInt false 8)
  ].

Definition struct_file : ctype :=
  CStruct "file" [
    fld "f_lock" typedef_spinlock_t;
    fld "f_mode" typedef_fmode_t;
    fld "f_op" (CPtr "struct file_operations");
    fld "f_mapping" (CPtr "struct address_space");
    fld "private_data" (CPtr "void");
    fld "f_inode" (CPtr "struct inode");
    fld "f_flags" (CInt false 4);
    fld "f_iocb_flags" (CInt false 4);
    fld "f_cred" (CPtr "struct cred");
    fld "f_owner" (CPtr "struct fown_struct");
    fld "f_path" struct_path;
    fld "" (CUnion "" [
      fld "f_pos_lock" struct_mutex;
      fld "f_pipe" typedef_u64
    ]);
    fld "f_pos" typedef_loff_t;
    fld "f_security" (CPtr "void");
    fld "f_wb_err" typedef_errseq_t;
    fld "f_sb_err" typedef_errseq_t;
    fld "f_ep" (CPtr "struct hlist_head");
    fld "" (CUnion "" [
      fld "f_task_work" struct_callback_head;
      fld "f_llist" struct_llist_node;
      fld "f_ra" struct_file_ra_state;
      fld "f_freeptr" typedef_freeptr_t
    ]);
    fld "f_ref" typedef_file_ref_t
  ].

Definition enum_rw_hint : ctype :=
  CEnum "rw_hint" 1 [
    ("WRITE_LIFE_NOT_SET", 0);
    ("WRITE_LIFE_NONE", 1);
    ("WRITE_LIFE_SHORT", 2);
    ("WRITE_LIFE_MEDIUM", 3);
    ("WRITE_LIFE_LONG", 4);
    ("WRITE_LIFE_EXTREME", 5)
  ].

Definition typedef_gfp_t : ctype :=
  CInt false 4.

Definition struct_xarray : ctype :=
  CStruct "xarray" [
    fld "xa_lock" typedef_spinlock_t;
    fld "xa_flags" typedef_gfp_t;
    fld "xa_head" (CPtr "void")
  ].

Definition struct_address_space : ctype :=
  CStruct "address_space" [
    fld "host" (CPtr "struct inode");
    fld "i_pages" struct_xarray;
    fld "invalidate_lock" struct_rw_semaphore;
    fld "gfp_mask" typedef_gfp_t;
    fld "i_mmap_writable" typedef_atomic_t;
    fld "i_mmap" struct_rb_root_cached;
    fld "nrpages" (CInt false 8);
    fld "writeback_index" (CInt false 8);
    fld "a_ops" (CPtr "struct address_space_operations");
    fld "flags" (CInt false 8);
    fld "wb_err" typedef_errseq_t;
    fld "i_private_lock" typedef_spinlock_t;
    fld "i_private_list" struct_list_head;
    fld "i_mmap_rwsem" struct_rw_semaphore;
    fld "i_private_data" (CPtr "void")
  ].

Definition typedef_blkcnt_t : ctype :=
  typedef_u64.

Definition typedef___kernel_dev_t : ctype :=
  typedef_u32.

Definition typedef_dev_t : ctype :=
  typedef___kernel_dev_t.

Definition typedef_time64_t : ctype :=
  typedef___s64.

Definition typedef_umode_t : ctype :=
  CInt false 2.

Definition struct_inode : ctype :=
  CStruct "inode" [
    fld "i_mode" typedef_umode_t;
    fld "i_opflags" (CInt false 2);
    fld "i_uid" typedef_kuid_t;
    fld "i_gid" typedef_kgid_t;
    fld "i_flags" (CInt false 4);
    fld "i_acl" (CPtr "struct posix_acl");
    fld "i_default_acl" (CPtr "struct posix_acl");
    fld "i_op" (CPtr "struct inode_operations");
    fld "i_sb" (CPtr "struct super_block");
    fld "i_mapping" (CPtr "struct address_space");
    fld "i_security" (CPtr "void");
    fld "i_ino" (CInt false 8);
    fld "" (CUnion "" [
      fld "i_nlink" (CInt false 4);
      fld "__i_nlink" (CInt false 4)
    ]);
    fld "i_rdev" typedef_dev_t;
    fld "i_size" typedef_loff_t;
    fld "i_atime_sec" typedef_time64_t;
    fld "i_mtime_sec" typedef_time64_t;
    fld "i_ctime_sec" typedef_time64_t;
    fld "i_atime_nsec" typedef_u32;
    fld "i_mtime_nsec" typedef_u32;
    fld "i_ctime_nsec" typedef_u32;
    fld "i_generation" typedef_u32;
    fld "i_lock" typedef_spinlock_t;
    fld "i_bytes" (CInt false 2);
    fld "i_blkbits" typedef_u8;
    fld "i_write_hint" enum_rw_hint;
    fld "i_blocks" typedef_blkcnt_t;
    fld "i_state" typedef_u32;
    fld "i_rwsem" struct_rw_semaphore;
    fld "dirtied_when" (CInt false 8);
    fld "dirtied_time_when" (CInt false 8);
    fld "i_hash" struct_hlist_node;
    fld "i_io_list" struct_list_head;
    fld "i_wb" (CPtr "struct bdi_writeback");
    fld "i_wb_frn_winner" (CInt true 4);
    fld "i_wb_frn_avg_time" typedef_u16;
    fld "i_wb_frn_history" typedef_u16;
    fld "i_lru" struct_list_head;
    fld "i_sb_list" struct_list_head;
    fld "i_wb_list" struct_list_head;
    fld "" (CUnion "" [
      fld "i_dentry" struct_hlist_head;
      fld "i_rcu" struct_callback_head
    ]);
    fld "i_version" typedef_atomic64_t;
    fld "i_sequence" typedef_atomic64_t;
    fld "i_count" typedef_atomic_t;
    fld "i_dio_count" typedef_atomic_t;
    fld "i_writecount" typedef_atomic_t;
    fld "i_readcount" typedef_atomic_t;
    fld "" (CUnion "" [
      fld "i_fop" (CPtr "struct file_operations");
      fld "free_inode" (CPtr "function")
    ]);
    fld "i_flctx" (CPtr "struct file_lock_context");
    fld "i_data" struct_address_space;
    fld "" (CUnion "" [
      fld "i_devices" struct_list_head;
      fld "i_linklen" (CInt true 4)
    ]);
    fld "" (CUnion "" [
      fld "i_pipe" (CPtr "struct pipe_inode_info");
      fld "i_cdev" (CPtr "struct cdev");
      fld "i_link" (CPtr "char");
      fld "i_dir_seq" (CInt false 4)
    ]);
    fld "i_fsnotify_mask" typedef___u32;
    fld "i_fsnotify_marks" (CPtr "struct fsnotify_mark_connector");
    fld "i_crypt_info" (CPtr "struct fscrypt_inode_info");
    fld "i_verity_info" (CPtr "struct fsverity_info");
    fld "i_private" (CPtr "void")
  ].

Definition struct_hlist_bl_node : ctype :=
  CStruct "hlist_bl_node" [
    fld "next" (CPtr "struct hlist_bl_node");
    fld "pprev" (CPtr "struct hlist_bl_node *")
  ].

Definition struct_lockref : ctype :=
  CStruct "lockref" [
    fld "" (CUnion "" [
      fld "lock_count" typedef___u64;
      fld "" (CStruct "" [
        fld "lock" typedef_spinlock_t;
        fld "count" (CInt true 4)
      ])
    ])
  ].

Definition struct_qstr : ctype :=
  CStruct "qstr" [
    fld "" (CUnion "" [
      fld "" (CStruct "" [
        fld "hash" typedef_u32;
        fld "len" typedef_u32
      ]);
      fld "hash_len" typedef_u64
    ]);
    fld "name" (CPtr "unsigned char")
  ].

Definition union_shortname_store : ctype :=
  CUnion "shortname_store" [
    fld "string" (CArr (CInt false 1) 40);
    fld "words" (CArr (CInt false 8) 5)
  ].

Definition struct_dentry : ctype :=
  CStruct "dentry" [
    fld "d_flags" (CInt false 4);
    fld "d_seq" typedef_seqcount_spinlock_t;
    fld "d_hash" struct_hlist_bl_node;
    fld "d_parent" (CPtr "struct dentry");
    fld "d_name" struct_qstr;
    fld "d_inode" (CPtr "struct inode");
    fld "d_shortname" union_shortname_store;
    fld "d_op" (CPtr "struct dentry_operations");
    fld "d_sb" (CPtr "struct super_block");
    fld "d_time" (CInt false 8);
    fld "d_fsdata" (CPtr "void");
    fld "d_lockref" struct_lockref;
    fld "" (CUnion "" [
      fld "d_lru" struct_list_head;
      fld "d_wait" (CPtr "wait_queue_head_t")
    ]);
    fld "d_sib" struct_hlist_node;
    fld "d_children" struct_hlist_head;
    fld "d_u" (CUnion "" [
      fld "d_alias" struct_hlist_node;
      fld "d_in_lookup_hash" struct_hlist_bl_node;
      fld "d_rcu" struct_callback_head
    ])
  ].

Definition struct_vfsmount : ctype :=
  CStruct "vfsmount" [
    fld "mnt_root" (CPtr "struct dentry");
    fld "mnt_sb" (CPtr "struct super_block");
    fld "mnt_flags" (CInt true 4);
    fld "mnt_idmap" (CPtr "struct mnt_idmap")
  ].

Definition struct_hlist_bl_head : ctype :=
  CStruct "hlist_bl_head" [
    fld "first" (CPtr "struct hlist_bl_node")
  ].

Definition struct_list_lru : ctype :=
  CStruct "list_lru" [
    fld "node" (CPtr "struct list_lru_node");
    fld "list" struct_list_head;
    fld "shrinker_id" (CInt true 4);
    fld "memcg_aware" typedef_bool;
    fld "xa" struct_xarray
  ].

Definition typedef_qsize_t : ctype :=
  CInt true 8.

Definition struct_mem_dqinfo : ctype :=
  CStruct "mem_dqinfo" [
    fld "dqi_format" (CPtr "struct quota_format_type");
    fld "dqi_fmt_id" (CInt true 4);
    fld "dqi_dirty_list" struct_list_head;
    fld "dqi_flags" (CInt false 8);
    fld "dqi_bgrace" (CInt false 4);
    fld "dqi_igrace" (CInt false 4);
    fld "dqi_max_spc_limit" typedef_qsize_t;
    fld "dqi_max_ino_limit" typedef_qsize_t;
    fld "dqi_priv" (CPtr "void")
  ].

Definition struct_quota_info : ctype :=
  CStruct "quota_info" [
    fld "flags" (CInt false 4);
    fld "dqio_sem" struct_rw_semaphore;
    fld "files" (CArr (CPtr "struct inode") 3);
    fld "info" (CArr struct_mem_dqinfo 3);
    fld "ops" (CArr (CPtr "struct quota_format_ops") 3)
  ].

Definition struct_rcu_sync : ctype :=
  CStruct "rcu_sync" [
    fld "gp_state" (CInt true 4);
    fld "gp_count" (CInt true 4);
    fld "gp_wait" typedef_wait_queue_head_t;
    fld "cb_head" struct_callback_head
  ].

Definition struct_percpu_rw_semaphore : ctype :=
  CStruct "percpu_rw_semaphore" [
    fld "rss" struct_rcu_sync;
    fld "read_count" (CPtr "unsigned int");
    fld "writer" struct_rcuwait;
    fld "waiters" typedef_wait_queue_head_t;
    fld "block" typedef_atomic_t
  ].

Definition struct_sb_writers : ctype :=
  CStruct "sb_writers" [
    fld "frozen" (CInt false 2);
    fld "freeze_kcount" (CInt true 4);
    fld "freeze_ucount" (CInt true 4);
    fld "freeze_owner" (CPtr "void");
    fld "rw_sem" (CArr struct_percpu_rw_semaphore 3)
  ].

Definition typedef_uuid_t : ctype :=
  CStruct "" [
    fld "b" (CArr typedef___u8 16)
  ].

Definition struct_super_block : ctype :=
  CStruct "super_block" [
    fld "s_list" struct_list_head;
    fld "s_dev" typedef_dev_t;
    fld "s_blocksize_bits" (CInt false 1);
    fld "s_blocksize" (CInt false 8);
    fld "s_maxbytes" typedef_loff_t;
    fld "s_type" (CPtr "struct file_system_type");
    fld "s_op" (CPtr "struct super_operations");
    fld "dq_op" (CPtr "struct dquot_operations");
    fld "s_qcop" (CPtr "struct quotactl_ops");
    fld "s_export_op" (CPtr "struct export_operations");
    fld "s_flags" (CInt false 8);
    fld "s_iflags" (CInt false 8);
    fld "s_magic" (CInt false 8);
    fld "s_root" (CPtr "struct dentry");
    fld "s_umount" struct_rw_semaphore;
    fld "s_count" (CInt true 4);
    fld "s_active" typedef_atomic_t;
    fld "s_security" (CPtr "void");
    fld "s_xattr" (CPtr "struct xattr_handler *");
    fld "s_cop" (CPtr "struct fscrypt_operations");
    fld "s_master_keys" (CPtr "struct fscrypt_keyring");
    fld "s_vop" (CPtr "struct fsverity_operations");
    fld "s_encoding" (CPtr "struct unicode_map");
    fld "s_encoding_flags" typedef___u16;
    fld "s_roots" struct_hlist_bl_head;
    fld "s_mounts" struct_list_head;
    fld "s_bdev" (CPtr "struct block_device");
    fld "s_bdev_file" (CPtr "struct file");
    fld "s_bdi" (CPtr "struct backing_dev_info");
    fld "s_mtd" (CPtr "struct mtd_info");
    fld "s_instances" struct_hlist_node;
    fld "s_quota_types" (CInt false 4);
    fld "s_dquot" struct_quota_info;
    fld "s_writers" struct_sb_writers;
    fld "s_fs_info" (CPtr "void");
    fld "s_time_gran" typedef_u32;
    fld "s_time_min" typedef_time64_t;
    fld "s_time_max" typedef_time64_t;
    fld "s_fsnotify_mask" typedef_u32;
    fld "s_fsnotify_info" (CPtr "struct fsnotify_sb_info");
    fld "s_id" (CArr (CInt true 1) 32);
    fld "s_uuid" typedef_uuid_t;
    fld "s_uuid_len" typedef_u8;
    fld "s_sysfs_name" (CArr (CInt true 1) 37);
    fld "s_max_links" (CInt false 4);
    fld "s_d_flags" (CInt false 4);
    fld "s_vfs_rename_mutex" struct_mutex;
    fld "s_subtype" (CPtr "char");
    fld "__s_d_op" (CPtr "struct dentry_operations");
    fld "s_shrink" (CPtr "struct shrinker");
    fld "s_remove_count" typedef_atomic_long_t;
    fld "s_readonly_remount" (CInt true 4);
    fld "s_wb_err" typedef_errseq_t;
    fld "s_dio_done_wq" (CPtr "struct workqueue_struct");
    fld "s_pins" struct_hlist_head;
    fld "s_user_ns" (CPtr "struct user_namespace");
    fld "s_dentry_lru" struct_list_lru;
    fld "s_inode_lru" struct_list_lru;
    fld "rcu" struct_callback_head;
    fld "destroy_work" struct_work_struct;
    fld "s_sync_lock" struct_mutex;
    fld "s_stack_depth" (CInt true 4);
    bits "" (CInt true 8) 0;
    fld "s_inode_list_lock" typedef_spinlock_t;
    fld "s_inodes" struct_list_head;
    fld "s_inode_wblist_lock" typedef_spinlock_t;
    fld "s_inodes_wb" struct_list_head;
    bits "" (CInt true 8) 64;
    bits "" (CInt true 8) 64
  ].

Definition typedef_fop_flags_t : ctype :=
  CInt false 4.

Definition struct_file_operations : ctype :=
  CStruct "file_operations" [
    fld "owner" (CPtr "struct module");
    fld "fop_flags" typedef_fop_flags_t;
    fld "llseek" (CPtr "function");
    fld "read" (CPtr "function");
    fld "write" (CPtr "function");
    fld "read_iter" (CPtr "function");
    fld "write_iter" (CPtr "function");
    fld "iopoll" (CPtr "function");
    fld "iterate_shared" (CPtr "function");
    fld "poll" (CPtr "function");
    fld "unlocked_ioctl" (CPtr "function");
    fld "compat_ioctl" (CPtr "function");
    fld "mmap" (CPtr "function");
    fld "open" (CPtr "function");
    fld "flush" (CPtr "function");
    fld "release" (CPtr "function");
    fld "fsync" (CPtr "function");
    fld "fasync" (CPtr "function");
    fld "lock" (CPtr "function");
    fld "get_unmapped_area" (CPtr "function");
    fld "check_flags" (CPtr "function");
    fld "flock" (CPtr "function");
    fld "splice_write" (CPtr "function");
    fld "splice_read" (CPtr "function");
    fld "splice_eof" (CPtr "function");
    fld "setlease" (CPtr "function");
    fld "fallocate" (CPtr "function");
    fld "show_fdinfo" (CPtr "function");
    fld "copy_file_range" (CPtr "function");
    fld "remap_file_range" (CPtr "function");
    fld "fadvise" (CPtr "function");
    fld "uring_cmd" (CPtr "function");
    fld "uring_cmd_iopoll" (CPtr "function");
    fld "mmap_prepare" (CPtr "function")
  ].

Definition struct_inode_operations : ctype :=
  CStruct "inode_operations" [
    fld "lookup" (CPtr "function");
    fld "get_link" (CPtr "function");
    fld "permission" (CPtr "function");
    fld "get_inode_acl" (CPtr "function");
    fld "readlink" (CPtr "function");
    fld "create" (CPtr "function");
    fld "link" (CPtr "function");
    fld "unlink" (CPtr "function");
    fld "symlink" (CPtr "function");
    fld "mkdir" (CPtr "function");
    fld "rmdir" (CPtr "function");
    fld "mknod" (CPtr "function");
    fld "rename" (CPtr "function");
    fld "setattr" (CPtr "function");
    fld "getattr" (CPtr "function");
    fld "listxattr" (CPtr "function");
    fld "fiemap" (CPtr "function");
    fld "update_time" (CPtr "function");
    fld "atomic_open" (CPtr "function");
    fld "tmpfile" (CPtr "function");
    fld "get_acl" (CPtr "function");
    fld "set_acl" (CPtr "function");
    fld "fileattr_set" (CPtr "function");
    fld "fileattr_get" (CPtr "function");
    fld "get_offset_ctx" (CPtr "function");
    bits "" (CInt true 8) 64;
    bits "" (CInt true 8) 64;
    bits "" (CInt true 8) 64;
    bits "" (CInt true 8) 64;
    bits "" (CInt true 8) 64;
    bits "" (CInt true 8) 64;
    bits "" (CInt true 8) 64
  ].

Definition struct_vm_userfaultfd_ctx : ctype :=
  CStruct "vm_userfaultfd_ctx" [
    fld "ctx" (CPtr "struct userfaultfd_ctx")
  ].

Definition typedef_pgprotval_t : ctype :=
  CInt false 8.

Definition struct_pgprot : ctype :=
  CStruct "pgprot" [
    fld "pgprot" typedef_pgprotval_t
  ].

Definition typedef_pgprot_t : ctype :=
  struct_pgprot.

Definition struct_vm_area_struct : ctype :=
  CStruct "vm_area_struct" [
    fld "" (CUnion "" [
      fld "" (CStruct "" [
        fld "vm_start" (CInt false 8);
        fld "vm_end" (CInt false 8)
      ]);
      fld "vm_freeptr" typedef_freeptr_t
    ]);
    fld "vm_mm" (CPtr "struct mm_struct");
    fld "vm_page_prot" typedef_pgprot_t;
    fld "" (CUnion "" [
      fld "vm_flags" typedef_vm_flags_t;
      fld "__vm_flags" typedef_vm_flags_t
    ]);
    fld "vm_lock_seq" (CInt false 4);
    fld "anon_vma_chain" struct_list_head;
    fld "anon_vma" (CPtr "struct anon_vma");
    fld "vm_ops" (CPtr "struct vm_operations_struct");
    fld "vm_pgoff" (CInt false 8);
    fld "vm_file" (CPtr "struct file");
    fld "vm_private_data" (CPtr "void");
    fld "swap_readahead_info" typedef_atomic_long_t;
    fld "vm_policy" (CPtr "struct mempolicy");
    fld "numab_state" (CPtr "struct vma_numab_state");
    fld "vm_refcnt" typedef_refcount_t;
    fld "shared" (CStruct "" [
      fld "rb" struct_rb_node;
      fld "rb_subtree_last" (CInt false 8)
    ]);
    fld "anon_name" (CPtr "struct anon_vma_name");
    fld "vm_userfaultfd_ctx" struct_vm_userfaultfd_ctx;
    fld "pfnmap_track_ctx" (CPtr "struct pfnmap_track_ctx")
  ].

(** Every type of the file, under its C name. *)
Definition fs_types : list (string * ctype) :=
  [("__kernel_loff_t", typedef___kernel_loff_t);
   ("loff_t", typedef_loff_t);
   ("struct file_ra_state", struct_file_ra_state);
   ("errseq_t", typedef_errseq_t);
   ("file_ref_t", typedef_file_ref_t);
   ("fmode_t", typedef_fmode_t);
   ("freeptr_t", typedef_freeptr_t);
   ("struct file", struct_file);
   ("enum rw_hint", enum_rw_hint);
   ("gfp_t", typedef_gfp_t);
   ("struct xarray", struct_xarray);
   ("struct address_space", struct_address_space);
   ("blkcnt_t", typedef_blkcnt_t);
   ("__kernel_dev_t", typedef___kernel_dev_t);
   ("dev_t", typedef_dev_t);
   ("time64_t", typedef_time64_t);
   ("umode_t", typedef_umode_t);
   ("struct inode", struct_inode);
   ("struct hlist_bl_node", struct_hlist_bl_node);
   ("struct lockref", struct_lockref);
   ("struct qstr", struct_qstr);
   ("union shortname_store", union_shortname_store);
   ("struct dentry", struct_dentry);
   ("struct vfsmount", struct_vfsmount);
   ("struct hlist_bl_head", struct_hlist_bl_head);
   ("struct list_lru", struct_list_lru);
   ("qsize_t", typedef_qsize_t);
   ("struct mem_dqinfo", struct_mem_dqinfo);
   ("struct quota_info", struct_quota_info);
   ("struct rcu_sync", struct_rcu_sync);
   ("struct percpu_rw_semaphore", struct_percpu_rw_semaphore);
   ("struct sb_writers", struct_sb_writers);
   ("uuid_t", typedef_uuid_t);
   ("struct super_block", struct_super_block);
   ("fop_flags_t", typedef_fop_flags_t);
   ("struct file_operations", struct_file_operations);
   ("struct inode_operations", struct_inode_operations);
   ("struct vm_userfaultfd_ctx", struct_vm_userfaultfd_ctx);
   ("pgprotval_t", typedef_pgprotval_t);
   ("struct pgprot", struct_pgprot);
   ("pgprot_t", typedef_pgprot_t);
   ("struct vm_area_struct", struct_vm_area_struct)].
