(* ===== verification/VmlinuxBpf.v ===== *)
(** * BPF types of [vmlinux.h]: helper and map enumerations, map and program objects

    Each definition is the declaration of [src-bpf/vmlinux.h] with the same
    tag ([struct_], [union_], [enum_]) or typedef name ([typedef_]), member
    for member; a pointer keeps only the spelling of its target.  Declarations
    come in dependency order: a type embedded by value is defined before its
    user. *)

From S2P Require Import Prelude CTypes VmlinuxBase.

Definition enum_bpf_map_type : ctype :=
  CEnum "bpf_map_type" 4 [
    ("BPF_MAP_TYPE_UNSPEC", 0);
    ("BPF_MAP_TYPE_HASH", 1);
    ("BPF_MAP_TYPE_ARRAY", 2);
    ("BPF_MAP_TYPE_PROG_ARRAY", 3);
    ("BPF_MAP_TYPE_PERF_EVENT_ARRAY", 4);
    ("BPF_MAP_TYPE_PERCPU_HASH", 5);
    ("BPF_MAP_TYPE_PERCPU_ARRAY", 6);
    ("BPF_MAP_TYPE_STACK_TRACE", 7);
    ("BPF_MAP_TYPE_CGROUP_ARRAY", 8);
    ("BPF_MAP_TYPE_LRU_HASH", 9);
    ("BPF_MAP_TYPE_LRU_PERCPU_HASH", 10);
    ("BPF_MAP_TYPE_LPM_TRIE", 11);
    ("BPF_MAP_TYPE_ARRAY_OF_MAPS", 12);
    ("BPF_MAP_TYPE_HASH_OF_MAPS", 13);
    ("BPF_MAP_TYPE_DEVMAP", 14);
    ("BPF_MAP_TYPE_SOCKMAP", 15);
    ("BPF_MAP_TYPE_CPUMAP", 16);
    ("BPF_MAP_TYPE_XSKMAP", 17);
    ("BPF_MAP_TYPE_SOCKHASH", 18);
    ("BPF_MAP_TYPE_CGROUP_STORAGE_DEPRECATED", 19);
    ("BPF_MAP_TYPE_CGROUP_STORAGE", 19);
    ("BPF_MAP_TYPE_REUSEPORT_SOCKARRAY", 20);
    ("BPF_MAP_TYPE_PERCPU_CGROUP_STORAGE_DEPRECATED", 21);
    ("BPF_MAP_TYPE_PERCPU_CGROUP_STORAGE", 21);
    ("BPF_MAP_TYPE_QUEUE", 22);
    ("BPF_MAP_TYPE_STACK", 23);
    ("BPF_MAP_TYPE_SK_STORAGE", 24);
    ("BPF_MAP_TYPE_DEVMAP_HASH", 25);
    ("BPF_MAP_TYPE_STRUCT_OPS", 26);
    ("BPF_MAP_TYPE_RINGBUF", 27);
    ("BPF_MAP_TYPE_INODE_STORAGE", 28);
    ("BPF_MAP_TYPE_TASK_STORAGE", 29);
    ("BPF_MAP_TYPE_BLOOM_FILTER", 30);
    ("BPF_MAP_TYPE_USER_RINGBUF", 31);
    ("BPF_MAP_TYPE_CGRP_STORAGE", 32);
    ("BPF_MAP_TYPE_ARENA", 33);
    ("__MAX_BPF_MAP_TYPE", 34)
  ].

Definition enum_bpf_prog_type : ctype :=
  CEnum "bpf_prog_type" 4 [
    ("BPF_PROG_TYPE_UNSPEC", 0);
    ("BPF_PROG_TYPE_SOCKET_FILTER", 1);
    ("BPF_PROG_TYPE_KPROBE", 2);
    ("BPF_PROG_TYPE_SCHED_CLS", 3);
    ("BPF_PROG_TYPE_SCHED_ACT", 4);
    ("BPF_PROG_TYPE_TRACEPOINT", 5);
    ("BPF_PROG_TYPE_XDP", 6);
    ("BPF_PROG_TYPE_PERF_EVENT", 7);
    ("BPF_PROG_TYPE_CGROUP_SKB", 8);
    ("BPF_PROG_TYPE_CGROUP_SOCK", 9);
    ("BPF_PROG_TYPE_LWT_IN", 10);
    ("BPF_PROG_TYPE_LWT_OUT", 11);
    ("BPF_PROG_TYPE_LWT_XMIT", 12);
    ("BPF_PROG_TYPE_SOCK_OPS", 13);
    ("BPF_PROG_TYPE_SK_SKB", 14);
    ("BPF_PROG_TYPE_CGROUP_DEVICE", 15);
    ("BPF_PROG_TYPE_SK_MSG", 16);
    ("BPF_PROG_TYPE_RAW_TRACEPOINT", 17);
    ("BPF_PROG_TYPE_CGROUP_SOCK_ADDR", 18);
    ("BPF_PROG_TYPE_LWT_SEG6LOCAL", 19);
    ("BPF_PROG_TYPE_LIRC_MODE2", 20);
    ("BPF_PROG_TYPE_SK_REUSEPORT", 21);
    ("BPF_PROG_TYPE_FLOW_DISSECTOR", 22);
    ("BPF_PROG_TYPE_CGROUP_SYSCTL", 23);
    ("BPF_PROG_TYPE_RAW_TRACEPOINT_WRITABLE", 24);
    ("BPF_PROG_TYPE_CGROUP_SOCKOPT", 25);
    ("BPF_PROG_TYPE_TRACING", 26);
    ("BPF_PROG_TYPE_STRUCT_OPS", 27);
    ("BPF_PROG_TYPE_EXT", 28);
    ("BPF_PROG_TYPE_LSM", 29);
    ("BPF_PROG_TYPE_SK_LOOKUP", 30);
    ("BPF_PROG_TYPE_SYSCALL", 31);
    ("BPF_PROG_TYPE_NETFILTER", 32);
    ("__MAX_BPF_PROG_TYPE", 33)
  ].

Definition enum_bpf_attach_type : ctype :=
  CEnum "bpf_attach_type" 4 [
    ("BPF_CGROUP_INET_INGRESS", 0);
    ("BPF_CGROUP_INET_EGRESS", 1);
    ("BPF_CGROUP_INET_SOCK_CREATE", 2);
    ("BPF_CGROUP_SOCK_OPS", 3);
    ("BPF_SK_SKB_STREAM_PARSER", 4);
    ("BPF_SK_SKB_STREAM_VERDICT", 5);
    ("BPF_CGROUP_DEVICE", 6);
    ("BPF_SK_MSG_VERDICT", 7);
    ("BPF_CGROUP_INET4_BIND", 8);
    ("BPF_CGROUP_INET6_BIND", 9);
    ("BPF_CGROUP_INET4_CONNECT", 10);
    ("BPF_CGROUP_INET6_CONNECT", 11);
    ("BPF_CGROUP_INET4_POST_BIND", 12);
    ("BPF_CGROUP_INET6_POST_BIND", 13);
    ("BPF_CGROUP_UDP4_SENDMSG", 14);
    ("BPF_CGROUP_UDP6_SENDMSG", 15);
    ("BPF_LIRC_MODE2", 16);
    ("BPF_FLOW_DISSECTOR", 17);
    ("BPF_CGROUP_SYSCTL", 18);
    ("BPF_CGROUP_UDP4_RECVMSG", 19);
    ("BPF_CGROUP_UDP6_RECVMSG", 20);
    ("BPF_CGROUP_GETSOCKOPT", 21);
    ("BPF_CGROUP_SETSOCKOPT", 22);
    ("BPF_TRACE_RAW_TP", 23);
    ("BPF_TRACE_FENTRY", 24);
    ("BPF_TRACE_FEXIT", 25);
    ("BPF_MODIFY_RETURN", 26);
    ("BPF_LSM_MAC", 27);
    ("BPF_TRACE_ITER", 28);
    ("BPF_CGROUP_INET4_GETPEERNAME", 29);
    ("BPF_CGROUP_INET6_GETPEERNAME", 30);
    ("BPF_CGROUP_INET4_GETSOCKNAME", 31);
    ("BPF_CGROUP_INET6_GETSOCKNAME", 32);
    ("BPF_XDP_DEVMAP", 33);
    ("BPF_CGROUP_INET_SOCK_RELEASE", 34);
    ("BPF_XDP_CPUMAP", 35);
    ("BPF_SK_LOOKUP", 36);
    ("BPF_XDP", 37);
    ("BPF_SK_SKB_VERDICT", 38);
    ("BPF_SK_REUSEPORT_SELECT", 39);
    ("BPF_SK_REUSEPORT_SELECT_OR_MIGRATE", 40);
    ("BPF_PERF_EVENT", 41);
    ("BPF_TRACE_KPROBE_MULTI", 42);
    ("BPF_LSM_CGROUP", 43);
    ("BPF_STRUCT_OPS", 44);
    ("BPF_NETFILTER", 45);
    ("BPF_TCX_INGRESS", 46);
    ("BPF_TCX_EGRESS", 47);
    ("BPF_TRACE_UPROBE_MULTI", 48);
    ("BPF_CGROUP_UNIX_CONNECT", 49);
    ("BPF_CGROUP_UNIX_SENDMSG", 50);
    ("BPF_CGROUP_UNIX_RECVMSG", 51);
    ("BPF_CGROUP_UNIX_GETPEERNAME", 52);
    ("BPF_CGROUP_UNIX_GETSOCKNAME", 53);
    ("BPF_NETKIT_PRIMARY", 54);
    ("BPF_NETKIT_PEER", 55);
    ("BPF_TRACE_KPROBE_SESSION", 56);
    ("BPF_TRACE_UPROBE_SESSION", 57);
    ("__MAX_BPF_ATTACH_TYPE", 58)
  ].

Definition enum_bpf_cmd : ctype :=
  CEnum "bpf_cmd" 4 [
    ("BPF_MAP_CREATE", 0);
    ("BPF_MAP_LOOKUP_ELEM", 1);
    ("BPF_MAP_UPDATE_ELEM", 2);
    ("BPF_MAP_DELETE_ELEM", 3);
    ("BPF_MAP_GET_NEXT_KEY", 4);
    ("BPF_PROG_LOAD", 5);
    ("BPF_OBJ_PIN", 6);
    ("BPF_OBJ_GET", 7);
    ("BPF_PROG_ATTACH", 8);
    ("BPF_PROG_DETACH", 9);
    ("BPF_PROG_TEST_RUN", 10);
    ("BPF_PROG_RUN", 10);
    ("BPF_PROG_GET_NEXT_ID", 11);
    ("BPF_MAP_GET_NEXT_ID", 12);
    ("BPF_PROG_GET_FD_BY_ID", 13);
    ("BPF_MAP_GET_FD_BY_ID", 14);
    ("BPF_OBJ_GET_INFO_BY_FD", 15);
    ("BPF_PROG_QUERY", 16);
    ("BPF_RAW_TRACEPOINT_OPEN", 17);
    ("BPF_BTF_LOAD", 18);
    ("BPF_BTF_GET_FD_BY_ID", 19);
    ("BPF_TASK_FD_QUERY", 20);
    ("BPF_MAP_LOOKUP_AND_DELETE_ELEM", 21);
    ("BPF_MAP_FREEZE", 22);
    ("BPF_BTF_GET_NEXT_ID", 23);
    ("BPF_MAP_LOOKUP_BATCH", 24);
    ("BPF_MAP_LOOKUP_AND_DELETE_BATCH", 25);
    ("BPF_MAP_UPDATE_BATCH", 26);
    ("BPF_MAP_DELETE_BATCH", 27);
    ("BPF_LINK_CREATE", 28);
    ("BPF_LINK_UPDATE", 29);
    ("BPF_LINK_GET_FD_BY_ID", 30);
    ("BPF_LINK_GET_NEXT_ID", 31);
    ("BPF_ENABLE_STATS", 32);
    ("BPF_ITER_CREATE", 33);
    ("BPF_LINK_DETACH", 34);
    ("BPF_PROG_BIND_MAP", 35);
    ("BPF_TOKEN_CREATE", 36);
    ("BPF_PROG_STREAM_READ_BY_FD", 37);
    ("__MAX_BPF_CMD", 38)
  ].

Definition enum_bpf_func_id_part1 : list (string * Z) :=
  [
    ("BPF_FUNC_unspec", 0);
    ("BPF_FUNC_map_lookup_elem", 1);
    ("BPF_FUNC_map_update_elem", 2);
    ("BPF_FUNC_map_delete_elem", 3);
    ("BPF_FUNC_probe_read", 4);
    ("BPF_FUNC_ktime_get_ns", 5);
    ("BPF_FUNC_trace_printk", 6);
    ("BPF_FUNC_get_prandom_u32", 7);
    ("BPF_FUNC_get_smp_processor_id", 8);
    ("BPF_FUNC_skb_store_bytes", 9);
    ("BPF_FUNC_l3_csum_replace", 10);
    ("BPF_FUNC_l4_csum_replace", 11);
    ("BPF_FUNC_tail_call", 12);
    ("BPF_FUNC_clone_redirect", 13);
    ("BPF_FUNC_get_current_pid_tgid", 14);
    ("BPF_FUNC_get_current_uid_gid", 15);
    ("BPF_FUNC_get_current_comm", 16);
    ("BPF_FUNC_get_cgroup_classid", 17);
    ("BPF_FUNC_skb_vlan_push", 18);
    ("BPF_FUNC_skb_vlan_pop", 19);
    ("BPF_FUNC_skb_get_tunnel_key", 20);
    ("BPF_FUNC_skb_set_tunnel_key", 21);
    ("BPF_FUNC_perf_event_read", 22);
    ("BPF_FUNC_redirect", 23);
    ("BPF_FUNC_get_route_realm", 24);
    ("BPF_FUNC_perf_event_output", 25);
    ("BPF_FUNC_skb_load_bytes", 26);
    ("BPF_FUNC_get_stackid", 27);
    ("BPF_FUNC_csum_diff", 28);
    ("BPF_FUNC_skb_get_tunnel_opt", 29);
    ("BPF_FUNC_skb_set_tunnel_opt", 30);
    ("BPF_FUNC_skb_change_proto", 31);
    ("BPF_FUNC_skb_change_type", 32);
    ("BPF_FUNC_skb_under_cgroup", 33);
    ("BPF_FUNC_get_hash_recalc", 34);
    ("BPF_FUNC_get_current_task", 35);
    ("BPF_FUNC_probe_write_user", 36);
    ("BPF_FUNC_current_task_under_cgroup", 37);
    ("BPF_FUNC_skb_change_tail", 38);
    ("BPF_FUNC_skb_pull_data", 39);
    ("BPF_FUNC_csum_update", 40);
    ("BPF_FUNC_set_hash_invalid", 41);
    ("BPF_FUNC_get_numa_node_id", 42);
    ("BPF_FUNC_skb_change_head", 43);
    ("BPF_FUNC_xdp_adjust_head", 44);
    ("BPF_FUNC_probe_read_str", 45);
    ("BPF_FUNC_get_socket_cookie", 46);
    ("BPF_FUNC_get_socket_uid", 47);
    ("BPF_FUNC_set_hash", 48);
    ("BPF_FUNC_setsockopt", 49);
    ("BPF_FUNC_skb_adjust_room", 50);
    ("BPF_FUNC_redirect_map", 51);
    ("BPF_FUNC_sk_redirect_map", 52);
    ("BPF_FUNC_sock_map_update", 53);
    ("BPF_FUNC_xdp_adjust_meta", 54);
    ("BPF_FUNC_perf_event_read_value", 55);
    ("BPF_FUNC_perf_prog_read_value", 56);
    ("BPF_FUNC_getsockopt", 57);
    ("BPF_FUNC_override_return", 58);
    ("BPF_FUNC_sock_ops_cb_flags_set", 59);
    ("BPF_FUNC_msg_redirect_map", 60);
    ("BPF_FUNC_msg_apply_bytes", 61);
    ("BPF_FUNC_msg_cork_bytes", 62);
    ("BPF_FUNC_msg_pull_data", 63);
    ("BPF_FUNC_bind", 64);
    ("BPF_FUNC_xdp_adjust_tail", 65);
    ("BPF_FUNC_skb_get_xfrm_state", 66);
    ("BPF_FUNC_get_stack", 67);
    ("BPF_FUNC_skb_load_bytes_relative", 68);
    ("BPF_FUNC_fib_lookup", 69);
    ("BPF_FUNC_sock_hash_update", 70);
    ("BPF_FUNC_msg_redirect_hash", 71);
    ("BPF_FUNC_sk_redirect_hash", 72);
    ("BPF_FUNC_lwt_push_encap", 73);
    ("BPF_FUNC_lwt_seg6_store_bytes", 74);
    ("BPF_FUNC_lwt_seg6_adjust_srh", 75);
    ("BPF_FUNC_lwt_seg6_action", 76);
    ("BPF_FUNC_rc_repeat", 77);
    ("BPF_FUNC_rc_keydown", 78);
    ("BPF_FUNC_skb_cgroup_id", 79);
    ("BPF_FUNC_get_current_cgroup_id", 80);
    ("BPF_FUNC_get_local_storage", 81);
    ("BPF_FUNC_sk_select_reuseport", 82);
    ("BPF_FUNC_skb_ancestor_cgroup_id", 83);
    ("BPF_FUNC_sk_lookup_tcp", 84);
    ("BPF_FUNC_sk_lookup_udp", 85);
    ("BPF_FUNC_sk_release", 86);
    ("BPF_FUNC_map_push_elem", 87);
    ("BPF_FUNC_map_pop_elem", 88);
    ("BPF_FUNC_map_peek_elem", 89);
    ("BPF_FUNC_msg_push_data", 90);
    ("BPF_FUNC_msg_pop_data", 91);
    ("BPF_FUNC_rc_pointer_rel", 92);
    ("BPF_FUNC_spin_lock", 93);
    ("BPF_FUNC_spin_unlock", 94);
    ("BPF_FUNC_sk_fullsock", 95);
    ("BPF_FUNC_tcp_sock", 96);
    ("BPF_FUNC_skb_ecn_set_ce", 97);
    ("BPF_FUNC_get_listener_sock", 98);
    ("BPF_FUNC_skc_lookup_tcp", 99);
    ("BPF_FUNC_tcp_check_syncookie", 100);
    ("BPF_FUNC_sysctl_get_name", 101);
    ("BPF_FUNC_sysctl_get_current_value", 102);
    ("BPF_FUNC_sysctl_get_new_value", 103);
    ("BPF_FUNC_sysctl_set_new_value", 104);
    ("BPF_FUNC_strtol", 105);
    ("BPF_FUNC_strtoul", 106);
    ("BPF_FUNC_sk_storage_get", 107);
    ("BPF_FUNC_sk_storage_delete", 108);
    ("BPF_FUNC_send_signal", 109);
    ("BPF_FUNC_tcp_gen_syncookie", 110);
    ("BPF_FUNC_skb_output", 111);
    ("BPF_FUNC_probe_read_user", 112);
    ("BPF_FUNC_probe_read_kernel", 113);
    ("BPF_FUNC_probe_read_user_str", 114);
    ("BPF_FUNC_probe_read_kernel_str", 115);
    ("BPF_FUNC_tcp_send_ack", 116);
    ("BPF_FUNC_send_signal_thread", 117);
    ("BPF_FUNC_jiffies64", 118);
    ("BPF_FUNC_read_branch_records", 119);
    ("BPF_FUNC_get_ns_current_pid_tgid", 120);
    ("BPF_FUNC_xdp_output", 121);
    ("BPF_FUNC_get_netns_cookie", 122);
    ("BPF_FUNC_get_current_ancestor_cgroup_id", 123);
    ("BPF_FUNC_sk_assign", 124);
    ("BPF_FUNC_ktime_get_boot_ns", 125);
    ("BPF_FUNC_seq_printf", 126);
    ("BPF_FUNC_seq_write", 127);
    ("BPF_FUNC_sk_cgroup_id", 128);
    ("BPF_FUNC_sk_ancestor_cgroup_id", 129);
    ("BPF_FUNC_ringbuf_output", 130);
    ("BPF_FUNC_ringbuf_reserve", 131);
    ("BPF_FUNC_ringbuf_submit", 132);
    ("BPF_FUNC_ringbuf_discard", 133);
    ("BPF_FUNC_ringbuf_query", 134);
    ("BPF_FUNC_csum_level", 135);
    ("BPF_FUNC_skc_to_tcp6_sock", 136);
    ("BPF_FUNC_skc_to_tcp_sock", 137);
    ("BPF_FUNC_skc_to_tcp_timewait_sock", 138);
    ("BPF_FUNC_skc_to_tcp_request_sock", 139);
    ("BPF_FUNC_skc_to_udp6_sock", 140);
    ("BPF_FUNC_get_task_stack", 141);
    ("BPF_FUNC_load_hdr_opt", 142);
    ("BPF_FUNC_store_hdr_opt", 143);
    ("BPF_FUNC_reserve_hdr_opt", 144);
    ("BPF_FUNC_inode_storage_get", 145);
    ("BPF_FUNC_inode_storage_delete", 146);
    ("BPF_FUNC_d_path", 147);
    ("BPF_FUNC_copy_from_user", 148);
    ("BPF_FUNC_snprintf_btf", 149)
  ].

Definition enum_bpf_func_id_part2 : list (string * Z) :=
  [
    ("BPF_FUNC_seq_printf_btf", 150);
    ("BPF_FUNC_skb_cgroup_classid", 151);
    ("BPF_FUNC_redirect_neigh", 152);
    ("BPF_FUNC_per_cpu_ptr", 153);
    ("BPF_FUNC_this_cpu_ptr", 154);
    ("BPF_FUNC_redirect_peer", 155);
    ("BPF_FUNC_task_storage_get", 156);
    ("BPF_FUNC_task_storage_delete", 157);
    ("BPF_FUNC_get_current_task_btf", 158);
    ("BPF_FUNC_bprm_opts_set", 159);
    ("BPF_FUNC_ktime_get_coarse_ns", 160);
    ("BPF_FUNC_ima_inode_hash", 161);
    ("BPF_FUNC_sock_from_file", 162);
    ("BPF_FUNC_check_mtu", 163);
    ("BPF_FUNC_for_each_map_elem", 164);
    ("BPF_FUNC_snprintf", 165);
    ("BPF_FUNC_sys_bpf", 166);
    ("BPF_FUNC_btf_find_by_name_kind", 167);
    ("BPF_FUNC_sys_close", 168);
    ("BPF_FUNC_timer_init", 169);
    ("BPF_FUNC_timer_set_callback", 170);
    ("BPF_FUNC_timer_start", 171);
    ("BPF_FUNC_timer_cancel", 172);
    ("BPF_FUNC_get_func_ip", 173);
    ("BPF_FUNC_get_attach_cookie", 174);
    ("BPF_FUNC_task_pt_regs", 175);
    ("BPF_FUNC_get_branch_snapshot", 176);
    ("BPF_FUNC_trace_vprintk", 177);
    ("BPF_FUNC_skc_to_unix_sock", 178);
    ("BPF_FUNC_kallsyms_lookup_name", 179);
    ("BPF_FUNC_find_vma", 180);
    ("BPF_FUNC_loop", 181);
    ("BPF_FUNC_strncmp", 182);
    ("BPF_FUNC_get_func_arg", 183);
    ("BPF_FUNC_get_func_ret", 184);
    ("BPF_FUNC_get_func_arg_cnt", 185);
    ("BPF_FUNC_get_retval", 186);
    ("BPF_FUNC_set_retval", 187);
    ("BPF_FUNC_xdp_get_buff_len", 188);
    ("BPF_FUNC_xdp_load_bytes", 189);
    ("BPF_FUNC_xdp_store_bytes", 190);
    ("BPF_FUNC_copy_from_user_task", 191);
    ("BPF_FUNC_skb_set_tstamp", 192);
    ("BPF_FUNC_ima_file_hash", 193);
    ("BPF_FUNC_kptr_xchg", 194);
    ("BPF_FUNC_map_lookup_percpu_elem", 195);
    ("BPF_FUNC_skc_to_mptcp_sock", 196);
    ("BPF_FUNC_dynptr_from_mem", 197);
    ("BPF_FUNC_ringbuf_reserve_dynptr", 198);
    ("BPF_FUNC_ringbuf_submit_dynptr", 199);
    ("BPF_FUNC_ringbuf_discard_dynptr", 200);
    ("BPF_FUNC_dynptr_read", 201);
    ("BPF_FUNC_dynptr_write", 202);
    ("BPF_FUNC_dynptr_data", 203);
    ("BPF_FUNC_tcp_raw_gen_syncookie_ipv4", 204);
    ("BPF_FUNC_tcp_raw_gen_syncookie_ipv6", 205);
    ("BPF_FUNC_tcp_raw_check_syncookie_ipv4", 206);
    ("BPF_FUNC_tcp_raw_check_syncookie_ipv6", 207);
    ("BPF_FUNC_ktime_get_tai_ns", 208);
    ("BPF_FUNC_user_ringbuf_drain", 209);
    ("BPF_FUNC_cgrp_storage_get", 210);
    ("BPF_FUNC_cgrp_storage_delete", 211);
    ("__BPF_FUNC_MAX_ID", 212)
  ].

Definition enum_bpf_func_id : ctype :=
  CEnum "bpf_func_id" 4 (enum_bpf_func_id_part1 ++ enum_bpf_func_id_part2).

Definition union_bpf_attr_part1 : list member :=
  [
    fld "" (CStruct "" [
      fld "map_type" typedef___u32;
      fld "key_size" typedef___u32;
      fld "value_size" typedef___u32;
      fld "max_entries" typedef___u32;
      fld "map_flags" typedef___u32;
      fld "inner_map_fd" typedef___u32;
      fld "numa_node" typedef___u32;
      fld "map_name" (CArr (CInt true 1) 16);
      fld "map_ifindex" typedef___u32;
      fld "btf_fd" typedef___u32;
      fld "btf_key_type_id" typedef___u32;
      fld "btf_value_type_id" typedef___u32;
      fld "btf_vmlinux_value_type_id" typedef___u32;
      fld "map_extra" typedef___u64;
      fld "value_type_btf_obj_fd" typedef___s32;
      fld "map_token_fd" typedef___s32
    ]);
    fld "" (CStruct "" [
      fld "map_fd" typedef___u32;
      fld "key" typedef___u64;
      fld "" (CUnion "" [
        fld "value" typedef___u64;
        fld "next_key" typedef___u64
      ]);
      fld "flags" typedef___u64
    ]);
    fld "batch" (CStruct "" [
      fld "in_batch" typedef___u64;
      fld "out_batch" typedef___u64;
      fld "keys" typedef___u64;
      fld "values" typedef___u64;
      fld "count" typedef___u32;
      fld "map_fd" typedef___u32;
      fld "elem_flags" typedef___u64;
      fld "flags" typedef___u64
    ]);
    fld "" (CStruct "" [
      fld "prog_type" typedef___u32;
      fld "insn_cnt" typedef___u32;
      fld "insns" typedef___u64;
      fld "license" typedef___u64;
      fld "log_level" typedef___u32;
      fld "log_size" typedef___u32;
      fld "log_buf" typedef___u64;
      fld "kern_version" typedef___u32;
      fld "prog_flags" typedef___u32;
      fld "prog_name" (CArr (CInt true 1) 16);
      fld "prog_ifindex" typedef___u32;
      fld "expected_attach_type" typedef___u32;
      fld "prog_btf_fd" typedef___u32;
      fld "func_info_rec_size" typedef___u32;
      fld "func_info" typedef___u64;
      fld "func_info_cnt" typedef___u32;
      fld "line_info_rec_size" typedef___u32;
      fld "line_info" typedef___u64;
      fld "line_info_cnt" typedef___u32;
      fld "attach_btf_id" typedef___u32;
      fld "" (CUnion "" [
        fld "attach_prog_fd" typedef___u32;
        fld "attach_btf_obj_fd" typedef___u32
      ]);
      fld "core_relo_cnt" typedef___u32;
      fld "fd_array" typedef___u64;
      fld "core_relos" typedef___u64;
      fld "core_relo_rec_size" typedef___u32;
      fld "log_true_size" typedef___u32;
      fld "prog_token_fd" typedef___s32;
      fld "fd_array_cnt" typedef___u32
    ]);
    fld "" (CStruct "" [
      fld "pathname" typedef___u64;
      fld "bpf_fd" typedef___u32;
      fld "file_flags" typedef___u32;
      fld "path_fd" typedef___s32
    ]);
    fld "" (CStruct "" [
      fld "" (CUnion "" [
        fld "target_fd" typedef___u32;
        fld "target_ifindex" typedef___u32
      ]);
      fld "attach_bpf_fd" typedef___u32;
      fld "attach_type" typedef___u32;
      fld "attach_flags" typedef___u32;
      fld "replace_bpf_fd" typedef___u32;
      fld "" (CUnion "" [
        fld "relative_fd" typedef___u32;
        fld "relative_id" typedef___u32
      ]);
      fld "expected_revision" typedef___u64
    ]);
    fld "test" (CStruct "" [
      fld "prog_fd" typedef___u32;
      fld "retval" typedef___u32;
      fld "data_size_in" typedef___u32;
      fld "data_size_out" typedef___u32;
      fld "data_in" typedef___u64;
      fld "data_out" typedef___u64;
      fld "repeat" typedef___u32;
      fld "duration" typedef___u32;
      fld "ctx_size_in" typedef___u32;
      fld "ctx_size_out" typedef___u32;
      fld "ctx_in" typedef___u64;
      fld "ctx_out" typedef___u64;
      fld "flags" typedef___u32;
      fld "cpu" typedef___u32;
      fld "batch_size" typedef___u32
    ]);
    fld "" (CStruct "" [
      fld "" (CUnion "" [
        fld "start_id" typedef___u32;
        fld "prog_id" typedef___u32;
        fld "map_id" typedef___u32;
        fld "btf_id" typedef___u32;
        fld "link_id" typedef___u32
      ]);
      fld "next_id" typedef___u32;
      fld "open_flags" typedef___u32;
      fld "fd_by_id_token_fd" typedef___s32
    ]);
    fld "info" (CStruct "" [
      fld "bpf_fd" typedef___u32;
      fld "info_len" typedef___u32;
      fld "info" typedef___u64
    ]);
    fld "query" (CStruct "" [
      fld "" (CUnion "" [
        fld "target_fd" typedef___u32;
        fld "target_ifindex" typedef___u32
      ]);
      fld "attach_type" typedef___u32;
      fld "query_flags" typedef___u32;
      fld "attach_flags" typedef___u32;
      fld "prog_ids" typedef___u64;
      fld "" (CUnion "" [
        fld "prog_cnt" typedef___u32;
        fld "count" typedef___u32
      ]);
      fld "prog_attach_flags" typedef___u64;
      fld "link_ids" typedef___u64;
      fld "link_attach_flags" typedef___u64;
      fld "revision" typedef___u64
    ]);
    fld "raw_tracepoint" (CStruct "" [
      fld "name" typedef___u64;
      fld "prog_fd" typedef___u32;
      fld "cookie" typedef___u64
    ])
  ].

Definition union_bpf_attr_part2 : list member :=
  [
    fld "" (CStruct "" [
      fld "btf" typedef___u64;
      fld "btf_log_buf" typedef___u64;
      fld "btf_size" typedef___u32;
      fld "btf_log_size" typedef___u32;
      fld "btf_log_level" typedef___u32;
      fld "btf_log_true_size" typedef___u32;
      fld "btf_flags" typedef___u32;
      fld "btf_token_fd" typedef___s32
    ]);
    fld "task_fd_query" (CStruct "" [
      fld "pid" typedef___u32;
      fld "fd" typedef___u32;
      fld "flags" typedef___u32;
      fld "buf_len" typedef___u32;
      fld "buf" typedef___u64;
      fld "prog_id" typedef___u32;
      fld "fd_type" typedef___u32;
      fld "probe_offset" typedef___u64;
      fld "probe_addr" typedef___u64
    ]);
    fld "link_create" (CStruct "" [
      fld "" (CUnion "" [
        fld "prog_fd" typedef___u32;
        fld "map_fd" typedef___u32
      ]);
      fld "" (CUnion "" [
        fld "target_fd" typedef___u32;
        fld "target_ifindex" typedef___u32
      ]);
      fld "attach_type" typedef___u32;
      fld "flags" typedef___u32;
      fld "" (CUnion "" [
        fld "target_btf_id" typedef___u32;
        fld "" (CStruct "" [
          fld "iter_info" typedef___u64;
          fld "iter_info_len" typedef___u32
        ]);
        fld "perf_event" (CStruct "" [
          fld "bpf_cookie" typedef___u64
        ]);
        fld "kprobe_multi" (CStruct "" [
          fld "flags" typedef___u32;
          fld "cnt" typedef___u32;
          fld "syms" typedef___u64;
          fld "addrs" typedef___u64;
          fld "cookies" typedef___u64
        ]);
        fld "tracing" (CStruct "" [
          fld "target_btf_id" typedef___u32;
          fld "cookie" typedef___u64
        ]);
        fld "netfilter" (CStruct "" [
          fld "pf" typedef___u32;
          fld "hooknum" typedef___u32;
          fld "priority" typedef___s32;
          fld "flags" typedef___u32
        ]);
        fld "tcx" (CStruct "" [
          fld "" (CUnion "" [
            fld "relative_fd" typedef___u32;
            fld "relative_id" typedef___u32
          ]);
          fld "expected_revision" typedef___u64
        ]);
        fld "uprobe_multi" (CStruct "" [
          fld "path" typedef___u64;
          fld "offsets" typedef___u64;
          fld "ref_ctr_offsets" typedef___u64;
          fld "cookies" typedef___u64;
          fld "cnt" typedef___u32;
          fld "flags" typedef___u32;
          fld "pid" typedef___u32
        ]);
        fld "netkit" (CStruct "" [
          fld "" (CUnion "" [
            fld "relative_fd" typedef___u32;
            fld "relative_id" typedef___u32
          ]);
          fld "expected_revision" typedef___u64
        ]);
        fld "cgroup" (CStruct "" [
          fld "" (CUnion "" [
            fld "relative_fd" typedef___u32;
            fld "relative_id" typedef___u32
          ]);
          fld "expected_revision" typedef___u64
        ])
      ])
    ]);
    fld "link_update" (CStruct "" [
      fld "link_fd" typedef___u32;
      fld "" (CUnion "" [
        fld "new_prog_fd" typedef___u32;
        fld "new_map_fd" typedef___u32
      ]);
      fld "flags" typedef___u32;
      fld "" (CUnion "" [
        fld "old_prog_fd" typedef___u32;
        fld "old_map_fd" typedef___u32
      ])
    ]);
    fld "link_detach" (CStruct "" [
      fld "link_fd" typedef___u32
    ]);
    fld "enable_stats" (CStruct "" [
      fld "type" typedef___u32
    ]);
    fld "iter_create" (CStruct "" [
      fld "link_fd" typedef___u32;
      fld "flags" typedef___u32
    ]);
    fld "prog_bind_map" (CStruct "" [
      fld "prog_fd" typedef___u32;
      fld "map_fd" typedef___u32;
      fld "flags" typedef___u32
    ]);
    fld "token_create" (CStruct "" [
      fld "flags" typedef___u32;
      fld "bpffs_fd" typedef___u32
    ]);
    fld "prog_stream_read" (CStruct "" [
      fld "stream_buf" typedef___u64;
      fld "stream_buf_len" typedef___u32;
      fld "stream_id" typedef___u32;
      fld "prog_fd" typedef___u32
    ])
  ].

Definition union_bpf_attr : ctype :=
  CUnion "bpf_attr" (union_bpf_attr_part1 ++ union_bpf_attr_part2).

Definition struct_bpf_insn : ctype :=
  CStruct "bpf_insn" [
    fld "code" typedef___u8;
    bits "dst_reg" typedef___u8 4;
    bits "src_reg" typedef___u8 4;
    fld "off" typedef___s16;
    fld "imm" typedef___s32
  ].

Definition struct_bpf_map : ctype :=
  CStruct "bpf_map" [
    fld "ops" (CPtr "struct bpf_map_ops");
    fld "inner_map_meta" (CPtr "struct bpf_map");
    fld "security" (CPtr "void");
    fld "map_type" enum_bpf_map_type;
    fld "key_size" typedef_u32;
    fld "value_size" typedef_u32;
    fld "max_entries" typedef_u32;
    fld "map_extra" typedef_u64;
    fld "map_flags" typedef_u32;
    fld "id" typedef_u32;
    fld "record" (CPtr "struct btf_record");
    fld "numa_node" (CInt true 4);
    fld "btf_key_type_id" typedef_u32;
    fld "btf_value_type_id" typedef_u32;
    fld "btf_vmlinux_value_type_id" typedef_u32;
    fld "btf" (CPtr "struct btf");
    fld "objcg" (CPtr "struct obj_cgroup");
    fld "name" (CArr (CInt true 1) 16);
    fld "freeze_mutex" struct_mutex;
    fld "refcnt" typedef_atomic64_t;
    fld "usercnt" typedef_atomic64_t;
    fld "" (CUnion "" [
      fld "work" struct_work_struct;
      fld "rcu" struct_callback_head
    ]);
    fld "writecnt" typedef_atomic64_t;
    fld "owner_lock" typedef_spinlock_t;
    fld "owner" (CPtr "struct bpf_map_owner");
    fld "bypass_spec_v1" typedef_bool;
    fld "frozen" typedef_bool;
    fld "free_after_mult_rcu_gp" typedef_bool;
    fld "free_after_rcu_gp" typedef_bool;
    fld "sleepable_refcnt" typedef_atomic64_t;
    fld "elem_count" (CPtr "s64");
    fld "cookie" typedef_u64
  ].

Definition struct_bpf_lru_list : ctype :=
  CStruct "bpf_lru_list" [
    fld "lists" (CArr struct_list_head 3);
    fld "counts" (CArr (CInt false 4) 2);
    fld "next_inactive_rotation" (CPtr "struct list_head");
    fld "lock" typedef_raw_spinlock_t;
    bits "" (CInt true 8) 64;
    bits "" (CInt true 8) 64;
    bits "" (CInt true 8) 64;
    bits "" (CInt true 8) 64;
    bits "" (CInt true 8) 64;
    bits "" (CInt true 8) 64;
    bits "" (CInt true 8) 64
  ].

Definition struct_bpf_common_lru : ctype :=
  CStruct "bpf_common_lru" [
    fld "lru_list" struct_bpf_lru_list;
    fld "local_list" (CPtr "struct bpf_lru_locallist");
    bits "" (CInt true 8) 64;
    bits "" (CInt true 8) 64;
    bits "" (CInt true 8) 64;
    bits "" (CInt true 8) 64;
    bits "" (CInt true 8) 64;
    bits "" (CInt true 8) 64;
    bits "" (CInt true 8) 64
  ].

Definition typedef_del_from_htab_func : ctype :=
  CPtr "function".

Definition struct_bpf_lru : ctype :=
  CStruct "bpf_lru" [
    fld "" (CUnion "" [
      fld "common_lru" struct_bpf_common_lru;
      fld "percpu_lru" (CPtr "struct bpf_lru_list")
    ]);
    fld "del_from_htab" typedef_del_from_htab_func;
    fld "del_arg" (CPtr "void");
    fld "hash_offset" (CInt false 4);
    fld "target_free" (CInt false 4);
    fld "nr_scans" (CInt false 4);
    fld "percpu" typedef_bool;
    bits "" (CInt true 8) 64;
    bits "" (CInt true 8) 64;
    bits "" (CInt true 8) 64;
    bits "" (CInt true 8) 64
  ].

Definition struct_bpf_mem_alloc : ctype :=
  CStruct "bpf_mem_alloc" [
    fld "caches" (CPtr "struct bpf_mem_caches");
    fld "cache" (CPtr "struct bpf_mem_cache");
    fld "objcg" (CPtr "struct obj_cgroup");
    fld "percpu" typedef_bool;
    fld "work" struct_work_struct
  ].

Definition struct_pcpu_freelist : ctype :=
  CStruct "pcpu_freelist" [
    fld "freelist" (CPtr "struct pcpu_freelist_head")
  ].

Definition struct_bpf_htab : ctype :=
  CStruct "bpf_htab" [
    fld "map" struct_bpf_map;
    fld "ma" struct_bpf_mem_alloc;
    fld "pcpu_ma" struct_bpf_mem_alloc;
    fld "buckets" (CPtr "struct bucket");
    fld "elems" (CPtr "void");
    bits "" (CInt true 8) 64;
    bits "" (CInt true 8) 64;
    bits "" (CInt true 8) 64;
    bits "" (CInt true 8) 64;
    bits "" (CInt true 8) 64;
    bits "" (CInt true 8) 64;
    bits "" (CInt true 8) 64;
    fld "" (CUnion "" [
      fld "freelist" struct_pcpu_freelist;
      fld "lru" struct_bpf_lru
    ]);
    fld "extra_elems" (CPtr "struct htab_elem *");
    fld "pcount" struct_percpu_counter;
    fld "count" typedef_atomic_t;
    fld "use_percpu_counter" typedef_bool;
    fld "n_buckets" typedef_u32;
    fld "elem_size" typedef_u32;
    fld "hashrnd" typedef_u32;
    bits "" (CInt true 8) 64;
    bits "" (CInt true 8) 64;
    bits "" (CInt true 8) 64;
    bits "" (CInt true 8) 64;
    bits "" (CInt true 8) 64;
    bits "" (CInt true 8) 64;
    bits "" (CInt true 8) 64
  ].

Definition struct_bpf_lru_node : ctype :=
  CStruct "bpf_lru_node" [
    fld "list" struct_list_head;
    fld "cpu" typedef_u16;
    fld "type" typedef_u8;
    fld "ref" typedef_u8
  ].

Definition struct_hlist_nulls_node : ctype :=
  CStruct "hlist_nulls_node" [
    fld "next" (CPtr "struct hlist_nulls_node");
    fld "pprev" (CPtr "struct hlist_nulls_node *")
  ].

Definition struct_pcpu_freelist_node : ctype :=
  CStruct "pcpu_freelist_node" [
    fld "next" (CPtr "struct pcpu_freelist_node")
  ].

Definition struct_htab_elem : ctype :=
  CStruct "htab_elem" [
    fld "" (CUnion "" [
      fld "hash_node" struct_hlist_nulls_node;
      fld "" (CStruct "" [
        fld "padding" (CPtr "void");
        fld "" (CUnion "" [
          fld "fnode" struct_pcpu_freelist_node;
          fld "batch_flink" (CPtr "struct htab_elem")
        ])
      ])
    ]);
    fld "" (CUnion "" [
      fld "ptr_to_pptr" (CPtr "void");
      fld "lru_node" struct_bpf_lru_node
    ]);
    fld "hash" typedef_u32;
    bits "" (CInt true 8) 0;
    fld "key" (CArr (CInt true 1) 0)
  ].

Definition struct_bpf_array : ctype :=
  CStruct "bpf_array" [
    fld "map" struct_bpf_map;
    fld "elem_size" typedef_u32;
    fld "index_mask" typedef_u32;
    fld "aux" (CPtr "struct bpf_array_aux");
    fld "" (CUnion "" [
      fld "" (CStruct "" [
        fld "__empty_value" (CStruct "" []);
        fld "value" (CArr (CInt true 1) 0)
      ]);
      fld "" (CStruct "" [
        fld "__empty_ptrs" (CStruct "" []);
        fld "ptrs" (CArr (CPtr "void") 0)
      ]);
      fld "" (CStruct "" [
        fld "__empty_pptrs" (CStruct "" []);
        fld "pptrs" (CArr (CPtr "void") 0)
      ])
    ])
  ].

Definition struct_bpf_ringbuf_hdr : ctype :=
  CStruct "bpf_ringbuf_hdr" [
    fld "len" typedef_u32;
    fld "pg_off" typedef_u32
  ].

Definition struct_sock_filter : ctype :=
  CStruct "sock_filter" [
    fld "code" typedef___u16;
    fld "jt" typedef___u8;
    fld "jf" typedef___u8;
    fld "k" typedef___u32
  ].

Definition struct_bpf_prog : ctype :=
  CStruct "bpf_prog" [
    fld "pages" typedef_u16;
    bits "jited" typedef_u16 1;
    bits "jit_requested" typedef_u16 1;
    bits "gpl_compatible" typedef_u16 1;
    bits "cb_access" typedef_u16 1;
    bits "dst_needed" typedef_u16 1;
    bits "blinding_requested" typedef_u16 1;
    bits "blinded" typedef_u16 1;
    bits "is_func" typedef_u16 1;
    bits "kprobe_override" typedef_u16 1;
    bits "has_callchain_buf" typedef_u16 1;
    bits "enforce_expected_attach_type" typedef_u16 1;
    bits "call_get_stack" typedef_u16 1;
    bits "call_get_func_ip" typedef_u16 1;
    bits "tstamp_type_access" typedef_u16 1;
    bits "sleepable" typedef_u16 1;
    fld "type" enum_bpf_prog_type;
    fld "expected_attach_type" enum_bpf_attach_type;
    fld "len" typedef_u32;
    fld "jited_len" typedef_u32;
    fld "tag" (CArr typedef_u8 8);
    fld "stats" (CPtr "struct bpf_prog_stats");
    fld "active" (CPtr "int");
    fld "bpf_func" (CPtr "function");
    fld "aux" (CPtr "struct bpf_prog_aux");
    fld "orig_prog" (CPtr "struct sock_fprog_kern");
    fld "" (CUnion "" [
      fld "" (CStruct "" [
        fld "__empty_insns" (CStruct "" []);
        fld "insns" (CArr struct_sock_filter 0)
      ]);
      fld "" (CStruct "" [
        fld "__empty_insnsi" (CStruct "" []);
        fld "insnsi" (CArr struct_bpf_insn 0)
      ])
    ])
  ].

Definition struct_latch_tree_node : ctype :=
  CStruct "latch_tree_node" [
    fld "node" (CArr struct_rb_node 2)
  ].

Definition struct_bpf_ksym : ctype :=
  CStruct "bpf_ksym" [
    fld "start" (CInt false 8);
    fld "end" (CInt false 8);
    fld "name" (CArr (CInt true 1) 512);
    fld "lnode" struct_list_head;
    fld "tnode" struct_latch_tree_node;
    fld "prog" typedef_bool
  ].

Definition struct_bpf_stream : ctype :=
  CStruct "bpf_stream" [
    fld "capacity" typedef_atomic_t;
    fld "log" struct_llist_head;
    fld "lock" struct_mutex;
    fld "backlog_head" (CPtr "struct llist_node");
    fld "backlog_tail" (CPtr "struct llist_node")
  ].

Definition struct_bpf_prog_aux : ctype :=
  CStruct "bpf_prog_aux" [
    fld "refcnt" typedef_atomic64_t;
    fld "used_map_cnt" typedef_u32;
    fld "used_btf_cnt" typedef_u32;
    fld "max_ctx_offset" typedef_u32;
    fld "max_pkt_offset" typedef_u32;
    fld "max_tp_access" typedef_u32;
    fld "stack_depth" typedef_u32;
    fld "id" typedef_u32;
    fld "func_cnt" typedef_u32;
    fld "real_func_cnt" typedef_u32;
    fld "func_idx" typedef_u32;
    fld "attach_btf_id" typedef_u32;
    fld "attach_st_ops_member_off" typedef_u32;
    fld "ctx_arg_info_size" typedef_u32;
    fld "max_rdonly_access" typedef_u32;
    fld "max_rdwr_access" typedef_u32;
    fld "attach_btf" (CPtr "struct btf");
    fld "ctx_arg_info" (CPtr "struct bpf_ctx_arg_aux");
    fld "priv_stack_ptr" (CPtr "void");
    fld "dst_mutex" struct_mutex;
    fld "dst_prog" (CPtr "struct bpf_prog");
    fld "dst_trampoline" (CPtr "struct bpf_trampoline");
    fld "saved_dst_prog_type" enum_bpf_prog_type;
    fld "saved_dst_attach_type" enum_bpf_attach_type;
    fld "verifier_zext" typedef_bool;
    fld "dev_bound" typedef_bool;
    fld "offload_requested" typedef_bool;
    fld "attach_btf_trace" typedef_bool;
    fld "attach_tracing_prog" typedef_bool;
    fld "func_proto_unreliable" typedef_bool;
    fld "tail_call_reachable" typedef_bool;
    fld "xdp_has_frags" typedef_bool;
    fld "exception_cb" typedef_bool;
    fld "exception_boundary" typedef_bool;
    fld "is_extended" typedef_bool;
    fld "jits_use_priv_stack" typedef_bool;
    fld "priv_stack_requested" typedef_bool;
    fld "changes_pkt_data" typedef_bool;
    fld "might_sleep" typedef_bool;
    fld "prog_array_member_cnt" typedef_u64;
    fld "ext_mutex" struct_mutex;
    fld "arena" (CPtr "struct bpf_arena");
    fld "recursion_detected" (CPtr "function");
    fld "attach_func_proto" (CPtr "struct btf_type");
    fld "attach_func_name" (CPtr "char");
    fld "func" (CPtr "struct bpf_prog *");
    fld "jit_data" (CPtr "void");
    fld "poke_tab" (CPtr "struct bpf_jit_poke_descriptor");
    fld "kfunc_tab" (CPtr "struct bpf_kfunc_desc_tab");
    fld "kfunc_btf_tab" (CPtr "struct bpf_kfunc_btf_tab");
    fld "size_poke_tab" typedef_u32;
    fld "ksym" struct_bpf_ksym;
    fld "ops" (CPtr "struct bpf_prog_ops");
    fld "st_ops" (CPtr "struct bpf_struct_ops");
    fld "used_maps" (CPtr "struct bpf_map *");
    fld "used_maps_mutex" struct_mutex;
    fld "used_btfs" (CPtr "struct btf_mod_pair");
    fld "prog" (CPtr "struct bpf_prog");
    fld "user" (CPtr "struct user_struct");
    fld "load_time" typedef_u64;
    fld "verified_insns" typedef_u32;
    fld "cgroup_atype" (CInt true 4);
    fld "cgroup_storage" (CArr (CPtr "struct bpf_map") 2);
    fld "name" (CArr (CInt true 1) 16);
    fld "bpf_exception_cb" (CPtr "function");
    fld "security" (CPtr "void");
    fld "token" (CPtr "struct bpf_token");
    fld "offload" (CPtr "struct bpf_prog_offload");
    fld "btf" (CPtr "struct btf");
    fld "func_info" (CPtr "struct bpf_func_info");
    fld "func_info_aux" (CPtr "struct bpf_func_info_aux");
    fld "linfo" (CPtr "struct bpf_line_info");
    fld "jited_linfo" (CPtr "void *");
    fld "func_info_cnt" typedef_u32;
    fld "nr_linfo" typedef_u32;
    fld "linfo_idx" typedef_u32;
    fld "mod" (CPtr "struct module");
    fld "num_exentries" typedef_u32;
    fld "extable" (CPtr "struct exception_table_entry");
    fld "" (CUnion "" [
      fld "work" struct_work_struct;
      fld "rcu" struct_callback_head
    ]);
    fld "stream" (CArr struct_bpf_stream 2)
  ].

(** Every type of the file, under its C name. *)
Definition bpf_types : list (string * ctype) :=
  [("enum bpf_map_type", enum_bpf_map_type);
   ("enum bpf_prog_type", enum_bpf_prog_type);
   ("enum bpf_attach_type", enum_bpf_attach_type);
   ("enum bpf_cmd", enum_bpf_cmd);
   ("enum bpf_func_id", enum_bpf_func_id);
   ("union bpf_attr", union_bpf_attr);
   ("struct bpf_insn", struct_bpf_insn);
   ("struct bpf_map", struct_bpf_map);
   ("struct bpf_lru_list", struct_bpf_lru_list);
   ("struct bpf_common_lru", struct_bpf_common_lru);
   ("del_from_htab_func", typedef_del_from_htab_func);
   ("struct bpf_lru", struct_bpf_lru);
   ("struct bpf_mem_alloc", struct_bpf_mem_alloc);
   ("struct pcpu_freelist", struct_pcpu_freelist);
   ("struct bpf_htab", struct_bpf_htab);
   ("struct bpf_lru_node", struct_bpf_lru_node);
   ("struct hlist_nulls_node", struct_hlist_nulls_node);
   ("struct pcpu_freelist_node", struct_pcpu_freelist_node);
   ("struct htab_elem", struct_htab_elem);
   ("struct bpf_array", struct_bpf_array);
   ("struct bpf_ringbuf_hdr", struct_bpf_ringbuf_hdr);
   ("struct sock_filter", struct_sock_filter);
   ("struct bpf_prog", struct_bpf_prog);
   ("struct latch_tree_node", struct_latch_tree_node);
   ("struct bpf_ksym", struct_bpf_ksym);
   ("struct bpf_stream", struct_bpf_stream);
   ("struct bpf_prog_aux", struct_bpf_prog_aux)].
