(* ===== verification/Vmlinux.v ===== *)
(** * The kernel types as a whole

    Collects the types of the [Vmlinux] files, checks them well-formed, and
    states where the members that the sensor reads by CO-RE live.  The sensor
    model reads kernel objects through [offsetof] on these types, so its
    addresses are those the declarations of [vmlinux.h] give.  The headers that
    the XDP program reads are compared with the protocols. *)

From S2P Require Import Prelude CTypes.
From S2P Require Import VmlinuxBase VmlinuxNet VmlinuxTask VmlinuxFs VmlinuxBpf.

Definition kernel_types : list (string * ctype) :=
  base_types ++ net_types ++ task_types ++ fs_types ++ bpf_types.

Lemma kernel_types_wf name t : (name, t) ∈ kernel_types -> wf t = true.
Proof.
  intros Hin. assert (H : forallb (fun p => wf p.2) kernel_types = true) by (by vm_compute).
  rewrite forallb_forall in H. by apply (H (name, t)), list_elem_of_In.
Qed.

(** A byte offset as the [nat] that [load] and [store] take; the models only
    use it for members that exist. *)
Definition off (t : ctype) (f : string) : nat := Z.to_nat (default 0 (offsetof t f)).
Definition size (t : ctype) : nat := Z.to_nat (sizeof t).
Definition fsize (t : ctype) (f : string) : nat := size (default (CInt false 1) (fieldtype t f)).

(** Reading and writing a member of an object held as bytes. *)
Definition get_field (t : ctype) (f : string) (m : bytes) : bytes := load (off t f) (fsize t f) m.
Definition set_field (t : ctype) (f : string) (v m : bytes) : bytes := store (off t f) v m.
Definition set_int (t : ctype) (f : string) (v : Z) (m : bytes) : bytes :=
  set_field t f (le_bytes (fsize t f) v) m.

(** Where a member is, and that it is all inside the object. *)
Lemma kernel_member_at name t f o t' :
  (name, t) ∈ kernel_types -> field t f = Some (o, t', None) ->
  offsetof t f = Some (o / 8) /\ o = 8 * (o / 8) /\ 0 <= o / 8 /\
    o / 8 + sizeof t' <= sizeof t /\ (alignof t' | o / 8) /\ 0 <= sizeof t'.
Proof.
  intros Hin Hf. pose proof (kernel_types_wf _ _ Hin) as Hwf.
  destruct (field_sound _ _ _ Hwf Hf) as (Hwf' & Ho & Hb & Hal).
  destruct Hal as [_ [k Hk]]; [done|]. unfold req_bits in Hb. simpl in Hb.
  assert (E : o / 8 = k * alignof t').
  { rewrite Hk. replace (k * (8 * alignof t')) with (k * alignof t' * 8) by lia. by rewrite Z.div_mul. }
  destruct (wf_good t' Hwf') as (_ & Hs & _). unfold offsetof. rewrite Hf.
  split_and!; [done|lia|lia|lia|by exists k|done].
Qed.

(** The same as [nat] offsets and sizes. *)
Lemma kernel_member_off name t f o t' :
  (name, t) ∈ kernel_types -> field t f = Some (o, t', None) ->
  off t f = Z.to_nat (o / 8) /\ fsize t f = size t' /\ o = 8 * off t f /\
  (off t f + size t' <= size t)%nat /\ sizeof t' = size t'.
Proof.
  intros Hin Hf. destruct (kernel_member_at _ _ _ _ _ Hin Hf) as (E & Ho & H0 & Hb & _ & Hs).
  unfold off, fsize, size, fieldtype. rewrite E, Hf. cbn. split_and!; try done; lia.
Qed.

(** Of every type taken from vmlinux.h, every addressable member that
    the layout algorithm finds lies at a byte offset inside the object and is
    aligned for its type. *)
Theorem kernel_members_in_bounds name t f o t' :
  (name, t) ∈ kernel_types -> field t f = Some (o, t', None) ->
  exists byte, offsetof t f = Some byte /\ o = 8 * byte /\ 0 <= byte /\
    byte + sizeof t' <= sizeof t /\ (alignof t' | byte).
Proof.
  intros Hin Hf. destruct (kernel_member_at _ _ _ _ _ Hin Hf) as (E & Ho & H0 & Hb & Hd & _). by exists (o / 8).
Qed.

Lemma kernel_members_in_bounds_witness :
  exists byte, offsetof struct_task_struct "real_parent" = Some byte /\
    byte + 8 <= sizeof struct_task_struct /\ (8 | byte).
Proof.
  destruct (kernel_members_in_bounds "struct task_struct" struct_task_struct "real_parent"
    (8 * 2720) (CPtr "struct task_struct")) as (b & Hb & _ & _ & Hs & Hd).
  - apply (list_elem_of_lookup_2 _ 128). vm_compute. reflexivity.
  - vm_compute. reflexivity.
  - exists b. split_and!; [exact Hb|exact Hs|exact Hd].
Defined.

(** Members are variables: in an object of any type taken from
    vmlinux.h, a value of its size written to an addressable member is what is
    then read from it, the object keeps its size, and every member that does
    not share its bytes keeps its value. *)
Theorem kernel_members_roundtrip name t f o t' v m :
  (name, t) ∈ kernel_types -> field t f = Some (o, t', None) ->
  length m = size t -> length v = size t' ->
  get_field t f (set_field t f v m) = v /\ length (set_field t f v m) = size t /\
  forall g o2 t2, field t g = Some (o2, t2, None) ->
    o2 + 8 * sizeof t2 <= o \/ o + 8 * sizeof t' <= o2 ->
    get_field t g (set_field t f v m) = get_field t g m.
Proof.
  intros Hin Hf Hm Hv. destruct (kernel_member_off _ _ _ _ _ Hin Hf) as (_ & Hn & Ho & Hb & Hs).
  unfold get_field, set_field. split_and!.
  - apply load_store_same; lia.
  - rewrite length_store; lia.
  - intros g o2 t2 Hg Hd. destruct (kernel_member_off _ _ _ _ _ Hin Hg) as (_ & Hn2 & Ho2 & Hb2 & Hs2).
    apply load_store_other; [|lia]. rewrite Hn2. lia.
Qed.

Lemma kernel_members_roundtrip_witness :
  let m := replicate (size struct_iphdr) 0 in
  get_field struct_iphdr "daddr" (set_field struct_iphdr "saddr" [10; 0; 0; 1] m) = get_field struct_iphdr "daddr" m.
Proof.
  destruct (kernel_members_roundtrip "struct iphdr" struct_iphdr "saddr" 96 typedef___be32 [10; 0; 0; 1]
    (replicate (size struct_iphdr) 0)) as (_ & _ & H).
  - apply (list_elem_of_lookup_2 _ 59). vm_compute. reflexivity.
  - vm_compute. reflexivity.
  - vm_compute. reflexivity.
  - vm_compute. reflexivity.
  - apply (H "daddr" 128 typedef___be32); [vm_compute; reflexivity|right; vm_compute; congruence].
Defined.

(** Two distinct members of a struct taken from vmlinux.h never share a
    bit, and both lie inside the struct. *)
Theorem kernel_members_disjoint name g ms i j p q :
  (name, CStruct g ms) ∈ kernel_types -> (i < j)%nat ->
  layout 0 (req <$> ms) !! i = Some p -> layout 0 (req <$> ms) !! j = Some q ->
  0 <= p.1 /\ p.2 <= q.1 /\ q.2 <= 8 * sizeof (CStruct g ms).
Proof. intros Hin%kernel_types_wf. by apply members_disjoint. Qed.

Lemma kernel_members_disjoint_witness :
  let ms := if struct_iphdr is CStruct _ ms then ms else [] in
  exists p q, layout 0 (req <$> ms) !! 0%nat = Some p /\
    layout 0 (req <$> ms) !! 1%nat = Some q /\ p.2 <= q.1.
Proof.
  intros ms. exists (0, 4), (4, 8).
  assert (H0 : layout 0 (req <$> ms) !! 0%nat = Some (0, 4)) by (vm_compute; reflexivity).
  assert (H1 : layout 0 (req <$> ms) !! 1%nat = Some (4, 8)) by (vm_compute; reflexivity).
  split; [exact H0|]. split; [exact H1|].
  refine (proj1 (proj2 (kernel_members_disjoint "struct iphdr" "iphdr" ms 0 1 _ _ _ _ H0 H1)));
    [|lia].
  apply (list_elem_of_lookup_2 _ 59). vm_compute. reflexivity.
Defined.

(** ** Headers on the wire

    The formats of RFC 894, RFC 791 and RFC 9293 (with the AE bit of RFC 9768):
    the fields in the order of transmission, with their widths in bits.  A
    field is a number, most significant bit first. *)

Definition wire_format : Type := list (string * Z).
Definition format_bits (f : wire_format) : Z := foldr (fun x n => x.2 + n) 0 f.
Fixpoint wire_field (f : wire_format) (name : string) (m : bytes) : option Z :=
  match f with
  | [] => None
  | (n, w) :: f =>
      if bool_decide (n = name) then Some (Z.shiftr (be_val m) (format_bits f) mod 2 ^ w)
      else wire_field f name m
  end.

Definition ethernet : wire_format := [("h_dest", 48); ("h_source", 48); ("h_proto", 16)].
Definition ipv4 : wire_format :=
  [("version", 4); ("ihl", 4); ("tos", 8); ("tot_len", 16); ("id", 16); ("frag_off", 16);
   ("ttl", 8); ("protocol", 8); ("check", 16); ("saddr", 32); ("daddr", 32)].
Definition tcp : wire_format :=
  [("source", 16); ("dest", 16); ("seq", 32); ("ack_seq", 32); ("doff", 4); ("res1", 3); ("ae", 1);
   ("cwr", 1); ("ece", 1); ("urg", 1); ("ack", 1); ("psh", 1); ("rst", 1); ("syn", 1); ("fin", 1);
   ("window", 16); ("check", 16); ("urg_ptr", 16)].

(** What a C program on a little-endian machine finds in a member: the bytes of
    a plain one in network order, as [ntohs] and [ntohl] give them; the bits of
    a bit-field, least significant first, in the unit of its type. *)
Definition member_value (t : ctype) (f : string) (m : bytes) : option Z :=
  match field t f with
  | Some (_, _, None) => Some (be_val (get_field t f m))
  | Some (o, t', Some w) =>
      let unit := load (Z.to_nat (o / (8 * sizeof t') * sizeof t')) (size t') m in
      Some (Z.shiftr (le_val unit) (o mod (8 * sizeof t')) mod 2 ^ w)
  | None => None
  end.

Lemma be_val_app l1 l2 : be_val (l1 ++ l2) = be_val l1 * 2 ^ (8 * length l2) + be_val l2.
Proof.
  unfold be_val. rewrite reverse_app. generalize (reverse l1). intros k.
  rewrite <- (length_reverse l2). induction (reverse l2) as [|b l IH]; cbn [app le_val length]; [simpl; lia|].
  rewrite IH. replace (8 * S (length l)) with (8 + 8 * length l) by lia. rewrite Z.pow_add_r by lia. lia.
Qed.
Lemma be_val_range l : is_bytes l -> is_unsigned (8 * length l) (be_val l).
Proof. intros Hl. unfold be_val. rewrite <- (length_reverse l). by apply le_val_range, is_bytes_reverse. Qed.

(** Whole bytes of a header, and some bits of one byte. *)
Lemma wire_load m (k n : nat) s w :
  is_bytes m -> 8 * length m = 8 * k + w + s -> w = 8 * n -> 0 <= s ->
  Z.shiftr (be_val m) s mod 2 ^ w = be_val (load k n m).
Proof.
  intros Hm Hs -> H0. unfold load.
  assert (E : m = take k m ++ take n (drop k m) ++ drop n (drop k m)) by by rewrite !take_drop.
  assert (H2 : length (take n (drop k m)) = n) by (rewrite length_take, length_drop; lia).
  assert (B3 := be_val_range (drop n (drop k m)) ltac:(by apply Forall_drop, Forall_drop)).
  assert (B2 := be_val_range (take n (drop k m)) ltac:(by apply Forall_take, Forall_drop)).
  assert (Es : 8 * length (drop n (drop k m)) = s) by (rewrite !length_drop; lia).
  unfold is_unsigned in *. rewrite Es in B3. rewrite H2 in B2.
  rewrite E at 1. rewrite app_assoc, be_val_app, Es, be_val_app, H2, Z.shiftr_div_pow2 by lia.
  rewrite Z.div_add_l, (Z.div_small _ _ B3), Z.add_0_r by lia.
  by rewrite Z.add_comm, Z_mod_plus_full, Z.mod_small.
Qed.

Lemma shiftr_bits x b j w : 0 <= j -> 0 <= w -> j + w <= 8 ->
  Z.shiftr (b + 256 * x) j mod 2 ^ w = Z.shiftr b j mod 2 ^ w.
Proof.
  intros Hj Hw Hjw. rewrite !Z.shiftr_div_pow2 by done. change 256 with (2 ^ 8).
  replace 8 with (j + w + (8 - j - w)) by lia. rewrite !Z.pow_add_r by lia.
  replace (b + 2 ^ j * 2 ^ w * 2 ^ (8 - j - w) * x) with (b + x * 2 ^ (8 - j - w) * 2 ^ w * 2 ^ j) by lia.
  by rewrite Z.div_add, Z_mod_plus_full by lia.
Qed.

Lemma wire_bits m (k : nat) j s w :
  is_bytes m -> 0 <= j -> 0 <= w -> j + w <= 8 -> 8 * length m = 8 * k + 8 - j + s -> j <= s ->
  Z.shiftr (be_val m) s mod 2 ^ w = Z.shiftr (nth k m 0) j mod 2 ^ w.
Proof.
  intros Hm Hj Hw Hjw Hs H0. destruct (nth_lookup_or_length m k 0) as [Hk|Hk]; [|lia].
  rewrite <- (take_drop_middle m k _ Hk) at 1. rewrite be_val_app.
  replace s with ((s - j) + j) by lia. rewrite <- Z.shiftr_shiftr by lia.
  change (nth k m 0 :: drop (S k) m) with ([nth k m 0] ++ drop (S k) m). rewrite be_val_app.
  assert (El : 8 * length (drop (S k) m) = s - j) by (rewrite length_drop; lia).
  assert (B := be_val_range (drop (S k) m) ltac:(by apply Forall_drop)). unfold is_unsigned in B.
  cbn [app length]. replace (8 * S (length (drop (S k) m))) with (8 + (s - j)) by lia. rewrite El in *.
  rewrite (Z.shiftr_div_pow2 _ (s - j)), Z.pow_add_r by lia. change (be_val [nth k m 0]) with (nth k m 0 + 256 * 0).
  replace (be_val (take k m) * (2 ^ 8 * 2 ^ (s - j)) + ((nth k m 0 + 256 * 0) * 2 ^ (s - j) + be_val (drop (S k) m)))
    with ((nth k m 0 + 256 * be_val (take k m)) * 2 ^ (s - j) + be_val (drop (S k) m)) by lia.
  rewrite Z.div_add_l, (Z.div_small _ _ B), Z.add_0_r by lia. by apply shiftr_bits.
Qed.

(** A bit-field in a unit of one byte, and in one of two. *)
Lemma unit_byte m k j w : (k < length m)%nat ->
  Z.shiftr (le_val (load k 1 m)) j mod 2 ^ w = Z.shiftr (nth k m 0) j mod 2 ^ w.
Proof.
  intros Hk. destruct (nth_lookup_or_length m k 0) as [E|]; [|lia]. unfold load.
  rewrite (drop_S _ _ _ E). cbn [take le_val]. by rewrite Z.mul_0_r, Z.add_0_r.
Qed.
Lemma unit_low m k j w : (S k < length m)%nat -> 0 <= j -> 0 <= w -> j + w <= 8 ->
  Z.shiftr (le_val (load k 2 m)) j mod 2 ^ w = Z.shiftr (nth k m 0) j mod 2 ^ w.
Proof.
  intros Hk Hj Hw Hjw. destruct (nth_lookup_or_length m k 0) as [E|]; [|lia]. unfold load.
  rewrite (drop_S _ _ _ E). cbn [take le_val]. by apply shiftr_bits.
Qed.
Lemma unit_high m k j w : is_bytes m -> (S k < length m)%nat -> 0 <= j ->
  Z.shiftr (le_val (load k 2 m)) (8 + j) mod 2 ^ w = Z.shiftr (nth (S k) m 0) j mod 2 ^ w.
Proof.
  intros Hm Hk Hj. destruct (nth_lookup_or_length m k 0) as [E|]; [|lia].
  destruct (nth_lookup_or_length m (S k) 0) as [E'|]; [|lia]. unfold load.
  pose proof (Forall_lookup_1 _ _ _ _ Hm E) as Hb. unfold is_byte in Hb. cbv beta in Hb.
  rewrite (drop_S _ _ _ E), (drop_S _ _ _ E'). cbn [take le_val]. rewrite Z.mul_0_r, Z.add_0_r.
  rewrite <- Z.shiftr_shiftr, (Z.shiftr_div_pow2 _ 8) by lia. change (2 ^ 8) with 256.
  by rewrite (Z.mul_comm 256), Z.div_add, Z.div_small, Z.add_0_l by lia.
Qed.

(** One member of a header of [L] bytes, where its bytes or its bits are: [k]
    is the byte, [n] the number of bytes, [j] the lowest bit in the byte. *)
Ltac is_bytes_at m Hm L k n :=
  exact (f_equal Some (eq_sym (wire_load m k n (8 * L - 8 * Z.of_nat k - 8 * Z.of_nat n) (8 * Z.of_nat n) Hm
    ltac:(lia) ltac:(lia) ltac:(lia)))).
Ltac is_bits_at unit m Hm L k j w :=
  exact (f_equal Some (eq_trans unit (eq_sym (wire_bits m k j (8 * L - 8 * Z.of_nat k - 8 + j) w Hm
    ltac:(lia) ltac:(lia) ltac:(lia) ltac:(lia) ltac:(lia))))).
Ltac each_field Hn :=
  repeat (apply elem_of_cons in Hn as [Hn|Hn]; [injection Hn as -> ->; split; [by eexists|]|]);
  [..|by apply elem_of_nil in Hn].

Section headers.
Context (name : string) (w : Z) (m : bytes) (Hm : is_bytes m).

Lemma ethernet_fields : (name, w) ∈ ethernet -> length m = 14%nat ->
  is_Some (wire_field ethernet name m) /\ member_value struct_ethhdr name m = wire_field ethernet name m.
Proof.
  intros Hn Hl. each_field Hn.
  - is_bytes_at m Hm 14 0%nat 6%nat.
  - is_bytes_at m Hm 14 6%nat 6%nat.
  - is_bytes_at m Hm 14 12%nat 2%nat.
Qed.

Lemma ipv4_fields : (name, w) ∈ ipv4 -> length m = 20%nat ->
  is_Some (wire_field ipv4 name m) /\ member_value struct_iphdr name m = wire_field ipv4 name m.
Proof.
  intros Hn Hl. each_field Hn.
  - is_bits_at (unit_byte m 0 4 4 ltac:(lia)) m Hm 20 0%nat 4 4.
  - is_bits_at (unit_byte m 0 0 4 ltac:(lia)) m Hm 20 0%nat 0 4.
  - is_bytes_at m Hm 20 1%nat 1%nat.
  - is_bytes_at m Hm 20 2%nat 2%nat.
  - is_bytes_at m Hm 20 4%nat 2%nat.
  - is_bytes_at m Hm 20 6%nat 2%nat.
  - is_bytes_at m Hm 20 8%nat 1%nat.
  - is_bytes_at m Hm 20 9%nat 1%nat.
  - is_bytes_at m Hm 20 10%nat 2%nat.
  - is_bytes_at m Hm 20 12%nat 4%nat.
  - is_bytes_at m Hm 20 16%nat 4%nat.
Qed.

Lemma tcp_fields : (name, w) ∈ tcp -> length m = 20%nat ->
  is_Some (wire_field tcp name m) /\ member_value struct_tcphdr name m = wire_field tcp name m.
Proof.
  intros Hn Hl.
  assert (Hlow : forall j w, 0 <= j -> 0 <= w -> j + w <= 8 ->
    Z.shiftr (le_val (load 12 2 m)) j mod 2 ^ w = Z.shiftr (nth 12 m 0) j mod 2 ^ w)
    by (intros; apply unit_low; lia).
  assert (Hhigh : forall j w, 0 <= j ->
    Z.shiftr (le_val (load 12 2 m)) (8 + j) mod 2 ^ w = Z.shiftr (nth 13 m 0) j mod 2 ^ w)
    by (intros; apply unit_high; (done || lia)).
  each_field Hn.
  - is_bytes_at m Hm 20 0%nat 2%nat.
  - is_bytes_at m Hm 20 2%nat 2%nat.
  - is_bytes_at m Hm 20 4%nat 4%nat.
  - is_bytes_at m Hm 20 8%nat 4%nat.
  - is_bits_at (Hlow 4 4 ltac:(lia) ltac:(lia) ltac:(lia)) m Hm 20 12%nat 4 4.
  - is_bits_at (Hlow 1 3 ltac:(lia) ltac:(lia) ltac:(lia)) m Hm 20 12%nat 1 3.
  - is_bits_at (Hlow 0 1 ltac:(lia) ltac:(lia) ltac:(lia)) m Hm 20 12%nat 0 1.
  - is_bits_at (Hhigh 7 1 ltac:(lia)) m Hm 20 13%nat 7 1.
  - is_bits_at (Hhigh 6 1 ltac:(lia)) m Hm 20 13%nat 6 1.
  - is_bits_at (Hhigh 5 1 ltac:(lia)) m Hm 20 13%nat 5 1.
  - is_bits_at (Hhigh 4 1 ltac:(lia)) m Hm 20 13%nat 4 1.
  - is_bits_at (Hhigh 3 1 ltac:(lia)) m Hm 20 13%nat 3 1.
  - is_bits_at (Hhigh 2 1 ltac:(lia)) m Hm 20 13%nat 2 1.
  - is_bits_at (Hhigh 1 1 ltac:(lia)) m Hm 20 13%nat 1 1.
  - is_bits_at (Hhigh 0 1 ltac:(lia)) m Hm 20 13%nat 0 1.
  - is_bytes_at m Hm 20 14%nat 2%nat.
  - is_bytes_at m Hm 20 16%nat 2%nat.
  - is_bytes_at m Hm 20 18%nat 2%nat.
Qed.
End headers.

(** C37: the members of [ethhdr], [iphdr] and [tcphdr] are the fields of
    the protocols: whatever the bytes of a header, every member, bit-fields
    included, has the value that the protocol's standard gives to the field of
    its name, and the header is as long as the standard says. *)
Theorem headers_on_the_wire t f name w m :
  (t, f) ∈ [(struct_ethhdr, ethernet); (struct_iphdr, ipv4); (struct_tcphdr, tcp)] ->
  (name, w) ∈ f -> is_bytes m -> length m = size t ->
  format_bits f = 8 * sizeof t /\
  is_Some (wire_field f name m) /\ member_value t name m = wire_field f name m.
Proof.
  intros Ht Hn Hm Hl. repeat apply elem_of_cons in Ht as [Ht|Ht]; [injection Ht as -> ->..|by apply elem_of_nil in Ht];
    (split; [vm_compute; reflexivity|]).
  - by apply (ethernet_fields name w).
  - by apply (ipv4_fields name w).
  - by apply (tcp_fields name w).
Qed.

(** A SYN to port 443. *)
Lemma headers_on_the_wire_witness :
  member_value struct_tcphdr "dest" ([192; 1; 1; 187] ++ replicate 8 0 ++ [80; 2] ++ replicate 6 0) = Some 443 /\
  member_value struct_tcphdr "doff" ([192; 1; 1; 187] ++ replicate 8 0 ++ [80; 2] ++ replicate 6 0) = Some 5.
Proof.
  set (m := [192; 1; 1; 187] ++ replicate 8 0 ++ [80; 2] ++ replicate 6 0).
  assert (Hm : is_bytes m) by (apply (bool_decide_unpack _); vm_compute; exact I).
  assert (Ht : (struct_tcphdr, tcp) ∈ [(struct_ethhdr, ethernet); (struct_iphdr, ipv4); (struct_tcphdr, tcp)])
    by (apply (list_elem_of_lookup_2 _ 2); vm_compute; reflexivity).
  destruct (headers_on_the_wire struct_tcphdr tcp "dest" 16 m Ht) as (_ & _ & E1);
    [apply (list_elem_of_lookup_2 _ 1); vm_compute; reflexivity|exact Hm|vm_compute; reflexivity|].
  destruct (headers_on_the_wire struct_tcphdr tcp "doff" 4 m Ht) as (_ & _ & E2);
    [apply (list_elem_of_lookup_2 _ 4); vm_compute; reflexivity|exact Hm|vm_compute; reflexivity|].
  rewrite E1, E2. split; vm_compute; reflexivity.
Defined.
