(* ===== verification/Bpf.v ===== *)
(** * The kernel interface of the BPF programs

    The helpers, maps and ring buffers that [sensor.bpf.c] calls are kernel
    code.  They appear here as interfaces: a class of operations and a class
    of the laws their documentation (bpf-helpers(7), the kernel's
    Documentation/bpf) states.  The programs are translated against the
    operations and the theorems use the laws.  Concrete instances at the end
    of the file show that the laws can hold; the witnesses run on them. *)

From stdpp Require Import gmap.
From S2P Require Import Prelude CTypes.

(** ** The task a program runs on behalf of *)

Record task := Task {
  tk_pid_tgid : Z;  (* bpf_get_current_pid_tgid() : u64 *)
  tk_uid_gid : Z;   (* bpf_get_current_uid_gid() : u64 *)
  tk_comm : bytes;  (* what bpf_get_current_comm stores *)
  tk_task : Z       (* bpf_get_current_task() : address of the task_struct *)
}.

Record task_wf (tk : task) : Prop := {
  task_pid_tgid : is_unsigned 64 (tk_pid_tgid tk);
  task_uid_gid : is_unsigned 64 (tk_uid_gid tk);
  task_comm_length : length (tk_comm tk) = 16%nat;
  task_comm_bytes : is_bytes (tk_comm tk);
}.

(** The process id ([tgid]) of the task, as every program computes it. *)
Definition tgid (tk : task) : Z := u32 (Z.shiftr (tk_pid_tgid tk) 32).

Lemma tgid_shift tk : task_wf tk -> Z.shiftr (tk_pid_tgid tk) 32 = tgid tk.
Proof.
  intros [H _ _ _]. unfold tgid. rewrite uwrap_small; [done|].
  unfold is_unsigned in *. rewrite Z.shiftr_div_pow2 by lia.
  split; [apply Z.div_pos; lia|]. apply Z.div_lt_upper_bound; lia.
Qed.

(** ** Memory the probe helpers read *)

Class KernelMemory := {
  (* the [n] bytes bpf_probe_read_kernel leaves in its destination *)
  probe_read_kernel : Z -> nat -> bytes;
  (* the destination after bpf_probe_read_user_str(dst, sizeof dst, ptr) *)
  probe_read_user_str : bytes -> Z -> bytes;
  (* the NUL-free string at a user address, if it is readable *)
  user_cstr : Z -> option bytes
}.

Class KernelMemoryLaws `{KernelMemory} : Prop := {
  probe_read_kernel_length a n : length (probe_read_kernel a n) = n;
  probe_read_kernel_bytes a n : is_bytes (probe_read_kernel a n);
  probe_read_user_str_length dst p : length (probe_read_user_str dst p) = length dst;
  probe_read_user_str_bytes dst p : is_bytes dst -> is_bytes (probe_read_user_str dst p);
  (* a string is truncated to size - 1 bytes and NUL-terminated; the bytes of
     the destination after the NUL are not touched *)
  probe_read_user_str_ok dst p s :
    user_cstr p = Some s -> dst <> [] ->
    let t := take (pred (length dst)) s in
    probe_read_user_str dst p = t ++ 0 :: drop (S (length t)) dst
}.

(** ** Maps

    Keys and values are integers.  A lookup returns the address of the element
    that holds the key's value, and a program loads the value from there;
    [bpf_map_lookup_elem] is the two in one.  [bpf_map_update_elem] returns 0
    or a negative error. *)

Class BpfMap (M : Type) := {
  bpf_map_lookup_elem : M -> Z -> option Z;
  bpf_map_update_elem : M -> Z -> Z -> M * Z;
  (* the address of the element of a key, and what an element holds *)
  element : M -> Z -> option Z;
  load_element : M -> Z -> Z
}.

Class BpfMapLaws (M : Type) `{BpfMap M} : Prop := {
  map_update_same m k v :
    (bpf_map_update_elem m k v).2 = 0 ->
    bpf_map_lookup_elem (bpf_map_update_elem m k v).1 k = Some v;
  map_update_failed m k v k' :
    (bpf_map_update_elem m k v).2 <> 0 ->
    bpf_map_lookup_elem (bpf_map_update_elem m k v).1 k' = bpf_map_lookup_elem m k';
  (* an LRU map may evict another key to make room *)
  map_update_other m k v k' :
    k' <> k ->
    bpf_map_lookup_elem (bpf_map_update_elem m k v).1 k' = bpf_map_lookup_elem m k' \/
    bpf_map_lookup_elem (bpf_map_update_elem m k v).1 k' = None;
  lookup_element m k : bpf_map_lookup_elem m k = load_element m <$> element m k;
  (* an update stores its value in one element and no other; the element may
     be one that an earlier update or an eviction has freed, and an address
     that was looked up before then stays valid and reads the new value *)
  update_element m k v a :
    load_element (bpf_map_update_elem m k v).1 a = load_element m a \/
    load_element (bpf_map_update_elem m k v).1 a = v
}.

(** ** Ring buffers

    [bpf_ringbuf_reserve] hands out a record of the requested size, or NULL
    when the buffer is full.  Its contents are whatever the ring last held
    there: the kernel does not clear a reserved record. *)

Class RingBuf (R : Type) := {
  bpf_ringbuf_reserve : R -> nat -> option bytes * R;
  bpf_ringbuf_submit : R -> bytes -> R;
  records : R -> list bytes
}.

Class RingBufLaws (R : Type) `{RingBuf R} : Prop := {
  reserve_length r n e r' :
    bpf_ringbuf_reserve r n = (Some e, r') -> length e = n /\ is_bytes e;
  reserve_records r n : records (bpf_ringbuf_reserve r n).2 = records r;
  submit_records r e : records (bpf_ringbuf_submit r e) = records r ++ [e]
}.

(** ** Program state and monad

    The maps and ring buffers of [sensor.bpf.c], and the signals the programs
    have sent (the process and the signal number, oldest first). *)

Record sensor {M R : Type} := Sensor {
  c2_blocklist : M;
  honeytokens : M;
  ghost_pids : M;
  agent_pid : M;
  file_creation_counts : M;
  journal_spam_counts : M;
  events : R;
  tls_events : R;
  signals : list (Z * Z)
}.
Arguments sensor : clear implicits.
Arguments Sensor {M R}.

Definition bpf (M R A : Type) : Type := sensor M R -> A * sensor M R.

Section monad.
Context {M R : Type}.
#[export] Instance bpf_ret : MRet (bpf M R) := fun A a s => (a, s).
#[export] Instance bpf_bind : MBind (bpf M R) := fun A B f m s =>
  let r := m s in f r.1 r.2.
Definition gets {A} (f : sensor M R -> A) : bpf M R A := fun s => (f s, s).

Definition set_events (r : R) (s : sensor M R) : sensor M R :=
  Sensor (c2_blocklist s) (honeytokens s) (ghost_pids s) (agent_pid s)
    (file_creation_counts s) (journal_spam_counts s) r (tls_events s) (signals s).
Definition set_tls_events (r : R) (s : sensor M R) : sensor M R :=
  Sensor (c2_blocklist s) (honeytokens s) (ghost_pids s) (agent_pid s)
    (file_creation_counts s) (journal_spam_counts s) (events s) r (signals s).
Definition set_file_creation_counts (m : M) (s : sensor M R) : sensor M R :=
  Sensor (c2_blocklist s) (honeytokens s) (ghost_pids s) (agent_pid s)
    m (journal_spam_counts s) (events s) (tls_events s) (signals s).
Definition set_journal_spam_counts (m : M) (s : sensor M R) : sensor M R :=
  Sensor (c2_blocklist s) (honeytokens s) (ghost_pids s) (agent_pid s)
    (file_creation_counts s) m (events s) (tls_events s) (signals s).
Definition add_signal (p : Z * Z) (s : sensor M R) : sensor M R :=
  Sensor (c2_blocklist s) (honeytokens s) (ghost_pids s) (agent_pid s)
    (file_creation_counts s) (journal_spam_counts s) (events s) (tls_events s)
    (signals s ++ [p]).

(** [bpf_send_signal(sig)] signals the current process. *)
Definition bpf_send_signal (tk : task) (sig : Z) : bpf M R unit :=
  fun s => (tt, add_signal (tgid tk, sig) s).
End monad.

(** ** Instances *)

(** An unbounded map, in which every key has an element of its own. *)
#[export] Instance gmap_map : BpfMap (gmap Z Z) := {
  bpf_map_lookup_elem m k := m !! k;
  bpf_map_update_elem m k v := (<[k := v]> m, 0);
  element m k := (fun _ => k) <$> m !! k;
  load_element m a := default 0 (m !! a)
}.
#[export] Instance gmap_map_laws : BpfMapLaws (gmap Z Z).
Proof.
  split; intros *; simpl; intros; try done.
  - by rewrite lookup_insert_eq.
  - left. by rewrite lookup_insert_ne.
  - by destruct (m !! k) eqn:E; simpl; rewrite ?E.
  - destruct (decide (a = k)) as [->|Hne]; [right; by rewrite lookup_insert_eq|left; by rewrite lookup_insert_ne].
Qed.

(** A preallocated hash map: a key has one of the elements of a pool, an
    update stores into a free element and frees the element that the key had
    before, and the next update may use that one again at once.  Without a
    free element the update fails with -ENOMEM (-12). *)
Record pool := Pool { pool_index : gmap Z Z; pool_memory : gmap Z Z; pool_free : list Z }.
Definition pool_update (m : pool) (k v : Z) : pool * Z :=
  match list_find (fun a => a ∉ (map_to_list (pool_index m)).*2) (pool_free m) with
  | Some (i, a) =>
      (Pool (<[k := a]> (pool_index m)) (<[a := v]> (pool_memory m))
         (delete i (pool_free m) ++ option_list (pool_index m !! k)), 0)
  | None => (m, -12)
  end.
Definition pool_load (m : pool) (a : Z) : Z := default 0 (pool_memory m !! a).
#[export] Instance pool_map : BpfMap pool := {
  bpf_map_lookup_elem m k := pool_load m <$> pool_index m !! k;
  bpf_map_update_elem := pool_update;
  element m k := pool_index m !! k;
  load_element := pool_load
}.
#[export] Instance pool_laws : BpfMapLaws pool.
Proof.
  split; intros *; cbn; unfold pool_update; [..|done|];
    destruct (list_find _ _) as [[i q]|] eqn:Ef; cbn; intros; auto; try done.
  - rewrite lookup_insert_eq. cbn. unfold pool_load. cbn. by rewrite lookup_insert_eq.
  - rewrite lookup_insert_ne by done. left. destruct (pool_index m !! k') as [a'|] eqn:E; [|done]. cbn. f_equal.
    unfold pool_load. cbn. rewrite lookup_insert_ne; [done|]. intros ->.
    apply list_find_Some in Ef as (_ & Hn & _). apply Hn. apply list_elem_of_fmap. exists (k', a').
    split; [done|]. by apply elem_of_map_to_list.
  - unfold pool_load. cbn. destruct (decide (a = q)) as [->|Hne];
      [right; by rewrite lookup_insert_eq|left; by rewrite lookup_insert_ne].
Qed.

(** A ring buffer as the queue of the blocks it will hand out, each with its
    stale contents, and the records submitted so far. *)
Record ring := Ring { ring_free : list bytes; ring_out : list bytes }.
#[export] Instance ring_buf : RingBuf ring := {
  bpf_ringbuf_reserve r n :=
    match ring_free r with
    | e :: l => if decide (length e = n /\ is_bytes e) then (Some e, Ring l (ring_out r))
                else (None, r)
    | [] => (None, r)
    end;
  bpf_ringbuf_submit r e := Ring (ring_free r) (ring_out r ++ [e]);
  records := ring_out
}.
#[export] Instance ring_laws : RingBufLaws ring.
Proof.
  split; intros *; simpl; [|by repeat case_match|done].
  repeat case_match; intros; by simplify_eq.
Qed.

(** Kernel and user memory as finite tables: objects at their addresses, and
    user strings at theirs.  A read outside the table gives zeros, as a failed
    probe read does. *)
Record kmem := KMem { km_objects : list (Z * bytes); km_strings : list (Z * bytes) }.

Definition table_find (l : list (Z * bytes)) (a : Z) : option bytes :=
  (fun p => p.2.2) <$> list_find (fun p => p.1 = a) l.

(** A table entry that is not made of bytes is no string. *)
Definition string_at (k : kmem) (p : Z) : option bytes :=
  match table_find (km_strings k) p with
  | Some s => if decide (is_bytes s) then Some s else None
  | None => None
  end.

Definition kmem_memory (k : kmem) : KernelMemory := {|
  probe_read_kernel a n :=
    match table_find (km_objects k) a with
    | Some v => if decide (is_bytes v) then take n (v ++ replicate n 0) else replicate n 0
    | None => replicate n 0
    end;
  probe_read_user_str dst p :=
    match string_at k p with
    | Some s => match dst with
                | [] => []
                | _ => let t := take (pred (length dst)) s in t ++ 0 :: drop (S (length t)) dst
                end
    | None => replicate (length dst) 0
    end;
  user_cstr p := string_at k p
|}.

Lemma kmem_memory_laws k : @KernelMemoryLaws (kmem_memory k).
Proof.
  split; simpl.
  - intros a n. repeat case_match; rewrite ?length_replicate; try done.
    case_decide; rewrite ?length_replicate; [|done].
    rewrite length_take, length_app, length_replicate. lia.
  - intros a n. assert (is_bytes (replicate n 0)) by (apply Forall_replicate; unfold is_byte; lia).
    repeat case_match; try done. case_decide; [|done]. by apply Forall_take, Forall_app.
  - intros dst p. repeat case_match; rewrite ?length_replicate; try done.
    rewrite length_app. simpl. rewrite length_drop, length_take. simpl. lia.
  - intros dst p Hd. assert (is_bytes (replicate (length dst) 0))
      by (apply Forall_replicate; unfold is_byte; lia).
    unfold string_at. repeat case_match; try done. simplify_eq. apply Forall_app. split; [by apply Forall_take|].
    constructor; [unfold is_byte; lia|]. by apply Forall_drop.
  - intros dst p s Hs Hne. simpl in Hs. rewrite Hs. by destruct dst.
Qed.

Create Rewrite HintDb bpf.

Lemma run_bind {M R A B} (m : bpf M R A) (f : A -> bpf M R B) s :
  (m ≫= f) s = f (m s).1 (m s).2.
Proof. reflexivity. Qed.
Lemma run_ret {M R A} (a : A) (s : sensor M R) : (mret a : bpf M R A) s = (a, s).
Proof. reflexivity. Qed.
Lemma run_gets {M R A} (f : sensor M R -> A) s : gets f s = (f s, s).
Proof. reflexivity. Qed.
Lemma run_signal {M R} tk sig (s : sensor M R) :
  bpf_send_signal tk sig s = (tt, add_signal (tgid tk, sig) s).
Proof. reflexivity. Qed.

(** Run a program: the monadic plumbing is rewritten away. *)
#[export] Hint Rewrite @run_bind @run_ret @run_gets @run_signal : bpf.
Ltac run := repeat (autorewrite with bpf; cbv beta; cbn [fst snd]).
