(* ===== verification/Maps.v ===== *)
(** * The maps that [sensor.bpf.c] declares

    The declarations of the [.maps] section as data, with the kernel's types;
    what the type and the size of a map promise of its updates, as an
    interface; the values a map may hold; and maps that behave as declared. *)

From stdpp Require Import gmap.
From S2P Require Import Prelude CTypes VmlinuxBase VmlinuxBpf Bpf.

(** ** Declarations

    [__uint(type, ..)], [__uint(max_entries, ..)] and [__type(key, ..)],
    [__type(value, ..)]; a ring buffer has neither key nor value. *)

Record map_def := MapDef {
  map_type : Z;
  max_entries : Z;
  map_key : option ctype;
  map_value : option ctype
}.

Definition bpf_map_type (name : string) : Z := default 0 (enum_val enum_bpf_map_type name).
Definition BPF_MAP_TYPE_HASH : Z := bpf_map_type "BPF_MAP_TYPE_HASH".
Definition BPF_MAP_TYPE_ARRAY : Z := bpf_map_type "BPF_MAP_TYPE_ARRAY".
Definition BPF_MAP_TYPE_LRU_HASH : Z := bpf_map_type "BPF_MAP_TYPE_LRU_HASH".
Definition BPF_MAP_TYPE_RINGBUF : Z := bpf_map_type "BPF_MAP_TYPE_RINGBUF".

Module decl.
Definition c2_blocklist : map_def :=
  MapDef BPF_MAP_TYPE_HASH 100000 (Some typedef___u32) (Some typedef___u8).
Definition events : map_def := MapDef BPF_MAP_TYPE_RINGBUF (256 * 1024) None None.
Definition tls_events : map_def := MapDef BPF_MAP_TYPE_RINGBUF (256 * 1024) None None.
Definition honeytokens : map_def := MapDef BPF_MAP_TYPE_HASH 256 (Some typedef___u64) (Some typedef___u8).
Definition ghost_pids : map_def := MapDef BPF_MAP_TYPE_HASH 256 (Some typedef___u32) (Some typedef___u8).
Definition agent_pid : map_def := MapDef BPF_MAP_TYPE_ARRAY 1 (Some typedef___u32) (Some typedef___u32).
Definition file_creation_counts : map_def :=
  MapDef BPF_MAP_TYPE_LRU_HASH 10240 (Some typedef___u32) (Some typedef___u64).
Definition journal_spam_counts : map_def :=
  MapDef BPF_MAP_TYPE_LRU_HASH 10240 (Some typedef___u32) (Some typedef___u64).
End decl.

(** ** What a declaration promises

    The kernel's documentation of the map types: an update of a hash map is
    refused exactly when the key is new and the map is full, and touches no
    other key; an array takes every index below its size.  ([keys] is what a
    walk of the map would find.) *)

Class KernelMap (M : Type) `{BpfMap M} := {
  definition : M -> map_def;
  keys : M -> gset Z
}.

Class KernelMapLaws (M : Type) `{KernelMap M} : Prop := {
  update_definition m k v : definition (bpf_map_update_elem m k v).1 = definition m;
  keys_lookup m k : k ∈ keys m <-> is_Some (bpf_map_lookup_elem m k);
  hash_update m k v :
    map_type (definition m) = BPF_MAP_TYPE_HASH ->
    ((bpf_map_update_elem m k v).2 = 0 <-> k ∈ keys m \/ size (keys m) < max_entries (definition m));
  hash_other m k v k' :
    map_type (definition m) = BPF_MAP_TYPE_HASH -> k' <> k ->
    bpf_map_lookup_elem (bpf_map_update_elem m k v).1 k' = bpf_map_lookup_elem m k';
  array_update m k v :
    map_type (definition m) = BPF_MAP_TYPE_ARRAY -> 0 <= k < max_entries (definition m) ->
    (bpf_map_update_elem m k v).2 = 0
}.

(** ** The values a map may hold *)

(** [v] is a value of the declared type. *)
Definition has_type (t : option ctype) (v : Z) : Prop :=
  match t with Some t => is_unsigned (8 * sizeof t) v | None => False end.

Section typed.
Context {M R : Type} `{HBM : BpfMap M, HBL : !BpfMapLaws M}.
Implicit Types (m : M) (s : sensor M R).

Definition typed_map (d : map_def) m : Prop := forall k v,
  bpf_map_lookup_elem m k = Some v -> has_type (map_key d) k /\ has_type (map_value d) v.

Record typed_maps s : Prop := {
  typed_blocklist : typed_map decl.c2_blocklist (c2_blocklist s);
  typed_honeytokens : typed_map decl.honeytokens (honeytokens s);
  typed_ghosts : typed_map decl.ghost_pids (ghost_pids s);
  typed_agent : typed_map decl.agent_pid (agent_pid s);
  typed_files : typed_map decl.file_creation_counts (file_creation_counts s);
  typed_journal : typed_map decl.journal_spam_counts (journal_spam_counts s)
}.

(** An update in range, whether or not it is refused, and whatever it evicts. *)
Lemma typed_map_update d m k v :
  has_type (map_key d) k -> has_type (map_value d) v -> typed_map d m ->
  typed_map d (bpf_map_update_elem m k v).1.
Proof.
  intros Hk Hv Hm k' v' E. destruct (decide (k' = k)) as [->|Hne].
  - destruct (decide ((bpf_map_update_elem m k v).2 = 0)) as [E0|E0].
    + rewrite map_update_same in E by done. by injection E as <-.
    + rewrite map_update_failed in E by done. by apply (Hm k).
  - destruct (map_update_other m k v k' Hne) as [E'|E']; rewrite E' in E; [by apply (Hm k')|done].
Qed.
End typed.

(** ** The size of a hash map *)

Section hash.
Context {M : Type} `{HKM : KernelMap M, HBL : !BpfMapLaws M, HKL : !KernelMapLaws M}.
Implicit Types m : M.

Definition is_hash m : Prop := map_type (definition m) = BPF_MAP_TYPE_HASH.
Definition room m : Z := max_entries (definition m) - size (keys m).

Lemma keys_ext m m' : (forall k, bpf_map_lookup_elem m k = bpf_map_lookup_elem m' k) -> keys m = keys m'.
Proof. intros E. apply set_eq. intros k. by rewrite !keys_lookup, E. Qed.

Lemma hash_full m k v : is_hash m -> k ∉ keys m -> room m <= 0 -> (bpf_map_update_elem m k v).2 <> 0.
Proof. intros Hh Hk Hr [?|?]%hash_update; [done|unfold room in Hr; lia|done]. Qed.
Lemma hash_room m k v : is_hash m -> k ∈ keys m \/ 0 < room m -> (bpf_map_update_elem m k v).2 = 0.
Proof. intros Hh Hk. apply hash_update; [done|]. unfold room in Hk. destruct Hk; [by left|right; lia]. Qed.

Lemma update_is_hash m k v : is_hash m -> is_hash (bpf_map_update_elem m k v).1.
Proof. unfold is_hash. by rewrite update_definition. Qed.

(** The keys after an update. *)
Lemma hash_keys m k v : is_hash m ->
  keys (bpf_map_update_elem m k v).1 =
    if decide (k ∈ keys m \/ 0 < room m) then {[k]} ∪ keys m else keys m.
Proof.
  intros Hh. case_decide as Hk.
  - pose proof (hash_room m k v Hh Hk) as E. apply set_eq. intros k'. rewrite elem_of_union, elem_of_singleton.
    rewrite !keys_lookup. destruct (decide (k' = k)) as [->|Hne].
    + rewrite map_update_same by done. naive_solver.
    + rewrite hash_other by done. naive_solver.
  - apply keys_ext. intros k'. apply map_update_failed. apply hash_full; [done|tauto|lia].
Qed.
Lemma hash_room_update m k v : is_hash m -> 0 <= room m -> room m - 1 <= room (bpf_map_update_elem m k v).1.
Proof.
  intros Hh Hr. unfold room in *. rewrite update_definition, hash_keys by done. unfold room in *.
  case_decide; [|lia]. pose proof (size_union_alt {[k]} (keys m)) as E. rewrite size_singleton in E.
  pose proof (subseteq_size (keys m ∖ {[k]}) (keys m) ltac:(set_solver)). lia.
Qed.
End hash.

(** ** The size of a ring buffer

    A record takes its own size and a header of eight bytes, rounded up to a
    multiple of eight, until the consumer has read it; a reservation is
    granted exactly when the bytes in use stay below the size of the ring. *)

Definition BPF_RINGBUF_HDR_SZ : Z := 8.
Definition ring_need (n : nat) : Z := align_up (n + BPF_RINGBUF_HDR_SZ) 8.

Class KernelRing (R : Type) `{RingBuf R} := {
  ring_definition : R -> map_def;
  in_use : R -> Z
}.

Class KernelRingLaws (R : Type) `{KernelRing R} : Prop := {
  reserve_definition r n : ring_definition (bpf_ringbuf_reserve r n).2 = ring_definition r;
  submit_definition r e : ring_definition (bpf_ringbuf_submit r e) = ring_definition r;
  reserve_granted r n :
    is_Some (bpf_ringbuf_reserve r n).1 <-> in_use r + ring_need n < max_entries (ring_definition r);
  reserve_in_use r n :
    in_use (bpf_ringbuf_reserve r n).2 =
      in_use r + (if (bpf_ringbuf_reserve r n).1 is Some _ then ring_need n else 0);
  submit_in_use r e : in_use (bpf_ringbuf_submit r e) = in_use r
}.

(** The records of [n] bytes that an empty ring takes. *)
Definition ring_capacity (d : map_def) (n : nat) : Z := (max_entries d - 1) / ring_need n.

(** ** Maps that behave as declared *)

Record kmap := KMap {
  kmap_def : map_def;
  kmap_entries : gmap Z Z;
  kmap_evicted : gmap Z Z  (* what the elements of the keys dropped still hold *)
}.

(** A full LRU map makes room by dropping an entry. *)
Definition evict (m : kmap) : kmap :=
  match map_to_list (kmap_entries m) with
  | (k, v) :: _ => KMap (kmap_def m) (delete k (kmap_entries m)) (<[k := v]> (kmap_evicted m))
  | [] => m
  end.

Definition kmap_insert (m : kmap) (k v : Z) : kmap := KMap (kmap_def m) (<[k := v]> (kmap_entries m)) (kmap_evicted m).
Definition kmap_update (m : kmap) (k v : Z) : kmap * Z :=
  let l := kmap_entries m in
  let fits := bool_decide (is_Some (l !! k) \/ size l < max_entries (kmap_def m)) in
  let t := map_type (kmap_def m) in
  if t =? BPF_MAP_TYPE_ARRAY then
    if (0 <=? k) && (k <? max_entries (kmap_def m)) then (kmap_insert m k v, 0) else (m, -7)
  else if fits then (kmap_insert m k v, 0)
  else if t =? BPF_MAP_TYPE_LRU_HASH then (kmap_insert (evict m) k v, 0)
  else (m, -7).

#[export] Instance kmap_map : BpfMap kmap := {
  bpf_map_lookup_elem m k := kmap_entries m !! k;
  bpf_map_update_elem := kmap_update;
  element m k := (fun _ => k) <$> kmap_entries m !! k;
  load_element m a := default (default 0 (kmap_evicted m !! a)) (kmap_entries m !! a)
}.
#[export] Instance kmap_kernel : KernelMap kmap := {
  definition := kmap_def;
  keys m := dom (kmap_entries m)
}.

Lemma evict_lookup m k : kmap_entries (evict m) !! k = kmap_entries m !! k \/ kmap_entries (evict m) !! k = None.
Proof.
  unfold evict. destruct (map_to_list _) as [|[q v] r]; [by left|]. cbn.
  destruct (decide (k = q)) as [->|Hne]; [right; apply lookup_delete_eq|left; by apply lookup_delete_ne].
Qed.
Lemma evict_load m a : load_element (evict m) a = load_element m a.
Proof.
  unfold evict. destruct (map_to_list _) as [|[q v] r] eqn:E; [done|]. cbn.
  destruct (decide (a = q)) as [->|Hne]; [|by rewrite lookup_delete_ne, lookup_insert_ne by done].
  rewrite lookup_delete_eq, lookup_insert_eq. cbn.
  assert (kmap_entries m !! q = Some v) as ->; [|done]. apply elem_of_map_to_list. rewrite E. left.
Qed.
Lemma insert_load m k v a : load_element (kmap_insert m k v) a = load_element m a \/ load_element (kmap_insert m k v) a = v.
Proof.
  cbn. destruct (decide (a = k)) as [->|Hne]; [right; by rewrite lookup_insert_eq|left; by rewrite lookup_insert_ne].
Qed.

#[export] Instance kmap_laws : BpfMapLaws kmap.
Proof.
  split; [..|intros m k; cbn; destruct (kmap_entries m !! k) eqn:E; cbn; by rewrite ?E|].
  1-3: intros *; cbn; unfold kmap_update; repeat case_match; cbn; intros; try done;
    rewrite ?lookup_insert_eq, ?lookup_insert_ne by done; auto using evict_lookup.
  intros m k v a. cbn [bpf_map_update_elem kmap_map]. unfold kmap_update.
  repeat case_match; cbn [fst]; auto using insert_load. rewrite <- (evict_load m a). apply insert_load.
Qed.
Lemma hash_not_array : (BPF_MAP_TYPE_HASH =? BPF_MAP_TYPE_ARRAY) = false.
Proof. by vm_compute. Qed.
#[local] Opaque bpf_map_type.

#[export] Instance kmap_kernel_laws : KernelMapLaws kmap.
Proof.
  split; cbn.
  - intros m k v. unfold kmap_update, evict. by repeat case_match.
  - intros m k. apply elem_of_dom.
  - intros m k v E. unfold kmap_update. rewrite E, hash_not_array, elem_of_dom, size_dom.
    case_bool_decide; [tauto|].
    split; [done|tauto].
  - intros m k v k' E Hne. unfold kmap_update. rewrite E, hash_not_array.
    cbv beta iota zeta. case_bool_decide; [|done].
    exact (lookup_insert_ne _ _ _ _ (not_eq_sym Hne)).
  - intros m k v E Hk. unfold kmap_update. rewrite E, Z.eqb_refl.
    rewrite (proj2 (Z.leb_le _ _)), (proj2 (Z.ltb_lt _ _)) by lia. done.
Qed.

(** A ring that behaves as declared, and hands out cleared records. *)
Record kring := KRing { kring_def : map_def; kring_used : Z; kring_out : list bytes }.
#[export] Instance kring_buf : RingBuf kring := {
  bpf_ringbuf_reserve r n :=
    if kring_used r + ring_need n <? max_entries (kring_def r)
    then (Some (replicate n 0), KRing (kring_def r) (kring_used r + ring_need n) (kring_out r)) else (None, r);
  bpf_ringbuf_submit r e := KRing (kring_def r) (kring_used r) (kring_out r ++ [e]);
  records := kring_out
}.
#[export] Instance kring_laws : RingBufLaws kring.
Proof.
  split; cbn; [|intros; by case_match|done].
  intros r n e r'. case_match; [|done]. intros [= <- _]. rewrite length_replicate. split; [done|].
  apply Forall_replicate. unfold is_byte. lia.
Qed.
#[export] Instance kring_ring : KernelRing kring := { ring_definition := kring_def; in_use := kring_used }.
#[export] Instance kring_ring_laws : KernelRingLaws kring.
Proof.
  split; cbn; intros; try done; try (case_match; cbn; done || lia).
  case_match; bool_prop; cbn; [split; [done|by eexists]|]. split; [by intros [??]|lia].
Qed.
