(* ===== verification/Sensor.v ===== *)
(** * The tracepoint and kprobe programs of [src-bpf/sensor.bpf.c]

    Each program is a function of the current task and of its context that
    runs in the state of the maps and ring buffers ([Bpf.sensor]).  The event
    record of [common.h] is a block of bytes, written member by member at the
    offsets of its C layout, over the stale contents of the reserved record. *)

From stdpp Require Import gmap.
From S2P Require Import Prelude CTypes VmlinuxTask VmlinuxFs Vmlinux Bpf Maps.

(** ** [common.h] *)

Definition MAX_FILENAME_LEN : Z := 256.

Definition struct_event : ctype :=
  CStruct "event" [
    fld "pid" (CInt true 4);
    fld "ppid" (CInt true 4);
    fld "uid" (CInt true 4);
    fld "comm" (CArr (CInt true 1) 16);
    fld "filename" (CArr (CInt true 1) MAX_FILENAME_LEN)
  ].

Definition struct_tls_hello_event : ctype :=
  CStruct "tls_hello_event" [
    fld "saddr" (CInt false 4);
    fld "daddr" (CInt false 4);
    fld "dport" (CInt false 2);
    fld "payload_len" (CInt false 2);
    fld "payload" (CArr (CInt false 1) 128)
  ].

(** [const char msg[] = s]: the characters and the terminating NUL. *)
Definition c_str (s : string) : bytes := bs s ++ [0].

(** A character of [comm], 0 outside it, and a character constant. *)
Definition ch (m : bytes) (i : nat) : Z := nth i m 0.
Definition c (s : string) : Z := ch (bs s) 0.

(** [ctx->args[i]] of a [sys_enter] tracepoint: an unsigned long. *)
Definition args (ctx : bytes) (i : nat) : Z :=
  le_val (load (off struct_trace_event_raw_sys_enter "args" + 8 * i) 8 ctx).

Section programs.
Context {M R : Type} `{BpfMap M, RingBuf R, KernelMemory}.
Implicit Types (tk : task) (s : sensor M R).

(** ** Ring buffer and map access of the programs *)

Definition reserve_event : bpf M R (option bytes) := fun s =>
  let r := bpf_ringbuf_reserve (events s) (size struct_event) in (r.1, set_events r.2 s).
Definition submit_event (e : bytes) : bpf M R unit := fun s =>
  (tt, set_events (bpf_ringbuf_submit (events s) e) s).

Definition update_file_creation_counts (k v : Z) : bpf M R unit := fun s =>
  (tt, set_file_creation_counts (bpf_map_update_elem (file_creation_counts s) k v).1 s).
Definition update_journal_spam_counts (k v : Z) : bpf M R unit := fun s =>
  (tt, set_journal_spam_counts (bpf_map_update_elem (journal_spam_counts s) k v).1 s).

(** The stores every trap performs on its reserved event: [pid], [ppid],
    [uid], [comm], then the trap name at the start of [filename]. *)
Definition fill_trap (pid ppid uid : Z) (comm : bytes) (msg : string) (e : bytes) : bytes :=
  let e := set_int struct_event "pid" pid e in
  let e := set_int struct_event "ppid" ppid e in
  let e := set_int struct_event "uid" uid e in
  let e := set_field struct_event "comm" comm e in
  set_field struct_event "filename" (c_str msg) e.

(** Reserve, fill and submit a trap event; nothing when the ring is full. *)
Definition emit_trap (pid ppid uid : Z) (comm : bytes) (msg : string) : bpf M R unit :=
  r ← reserve_event;
  match r with
  | Some e => submit_event (fill_trap pid ppid uid comm msg e)
  | None => mret tt
  end.

(** ** [handle_execve] *)

Definition is_unauthorized_tool (comm : bytes) : bool :=
  (ch comm 0 =? c "p") && (ch comm 1 =? c "o") && (ch comm 2 =? c "d")
  && (ch comm 3 =? c "m") && (ch comm 4 =? c "a") && (ch comm 5 =? c "n").

(** The five-character tests of the browsers and messengers, in order. *)
Definition app_prefix (comm : bytes) (a b d e f : string) : bool :=
  (ch comm 0 =? c a) && (ch comm 1 =? c b) && (ch comm 2 =? c d)
  && (ch comm 3 =? c e) && (ch comm 4 =? c f).

Definition is_vuln_app (comm : bytes) : bool :=
  let v := app_prefix comm "f" "i" "r" "e" "f" in
  let v := v || app_prefix comm "c" "h" "r" "o" "m" in
  let v := v || app_prefix comm "s" "i" "g" "n" "a" in
  let v := v || app_prefix comm "t" "e" "l" "e" "g" in
  (* for (i = 0; i < 12; i++) *)
  fold_left (fun v i => v ||
      ((ch comm i =? c "g") && (ch comm (i + 1) =? c "r")
       && (ch comm (i + 2) =? c "a") && (ch comm (i + 3) =? c "m")))
    (seq 0 12) v.

(** [bpf_core_read] of a pointer or integer member of a kernel object. *)
Definition core_read (t : ctype) (f : string) (obj : Z) : bytes :=
  probe_read_kernel (obj + Z.of_nat (off t f)) (fsize t f).

Definition handle_execve (tk : task) (ctx : bytes) : bpf M R Z :=
  let uid_gid := tk_uid_gid tk in
  let uid := u32 (Z.land uid_gid 0xFFFFFFFF) in
  let comm := tk_comm tk in
  if is_unauthorized_tool comm then
    bpf_send_signal tk 19 ;;
    emit_trap (Z.shiftr (tk_pid_tgid tk) 32) (-4) uid comm "UNAUTHORIZED_EXEC_TRAP" ;;
    mret 0
  else if (uid =? 0) && is_vuln_app comm then
    bpf_send_signal tk 19 ;;
    emit_trap (Z.shiftr (tk_pid_tgid tk) 32) (-3) uid comm "PRIVILEGE_ESCALATION_TRAP" ;;
    mret 0
  else
    r ← reserve_event;
    match r with
    | None => mret 0
    | Some e =>
        let task := tk_task tk in
        let e := set_int struct_event "pid" (Z.shiftr (tk_pid_tgid tk) 32) e in
        let e := set_int struct_event "uid" (Z.land (tk_uid_gid tk) 0xFFFFFFFF) e in
        let real_parent := le_val (core_read struct_task_struct "real_parent" task) in
        let e := set_field struct_event "ppid"
                   (core_read struct_task_struct "tgid" real_parent) e in
        let e := set_field struct_event "comm" comm e in
        let filename_ptr := args ctx 0 in
        let e := set_field struct_event "filename"
                   (probe_read_user_str (get_field struct_event "filename" e) filename_ptr) e in
        submit_event e ;;
        mret 0
    end.

(** ** [kprobe_vfs_open] *)

Definition kprobe_vfs_open (tk : task) (path file : Z) : bpf M R Z :=
  let inode := le_val (core_read struct_file "f_inode" file) in
  let ino := u64 (le_val (core_read struct_inode "i_ino" inode)) in
  is_honey ← gets (fun s => bpf_map_lookup_elem (honeytokens s) ino);
  match is_honey with
  | None => mret 0
  | Some h =>
      let trigger :=
        if h =? 1 then true
        else if h =? 2 then
          let f_flags := le_val (core_read struct_file "f_flags" file) in
          negb (Z.land f_flags 3 =? 0) || negb (Z.land f_flags 1024 =? 0)
        else false in
      (if (trigger : bool) then
         emit_trap (Z.shiftr (tk_pid_tgid tk) 32) (-1) (tk_uid_gid tk) (tk_comm tk)
           "HONEYTOKEN_TRIGGERED"
       else mret tt) ;;
      mret 0
  end.

(** ** [handle_ptrace], [handle_process_vm_readv] *)

Definition is_ghost (target_pid : Z) : bpf M R bool :=
  gets (fun s => bool_decide (bpf_map_lookup_elem (ghost_pids s) target_pid = Some 1)).

Definition handle_ptrace (tk : task) (ctx : bytes) : bpf M R Z :=
  let target_pid := u32 (args ctx 1) in
  ghost ← is_ghost target_pid;
  (if (ghost : bool) then
     emit_trap (Z.shiftr (tk_pid_tgid tk) 32) (-2) (tk_uid_gid tk) (tk_comm tk)
       "GHOST_PROCESS_TRAP"
   else mret tt) ;;
  mret 0.

Definition handle_process_vm_readv (tk : task) (ctx : bytes) : bpf M R Z :=
  let target_pid := u32 (args ctx 0) in
  ghost ← is_ghost target_pid;
  (if (ghost : bool) then
     emit_trap (Z.shiftr (tk_pid_tgid tk) 32) (-2) (tk_uid_gid tk) (tk_comm tk)
       "GHOST_PROCESS_TRAP"
   else mret tt) ;;
  mret 0.

(** ** [handle_kill] *)

Definition handle_kill (tk : task) (ctx : bytes) : bpf M R Z :=
  let target_pid := u32 (args ctx 0) in
  my_pid ← gets (fun s => bpf_map_lookup_elem (agent_pid s) 0);
  (if bool_decide (my_pid = Some target_pid) then
     bpf_send_signal tk 19 ;;
     emit_trap (Z.shiftr (tk_pid_tgid tk) 32) target_pid (tk_uid_gid tk) (tk_comm tk)
       "SELF_DEFENSE_TRAP"
   else mret tt) ;;
  mret 0.

(** ** [handle_openat] *)

Definition handle_openat (tk : task) (ctx : bytes) : bpf M R Z :=
  let flags := i32 (args ctx 2) in
  if negb (Z.land flags 64 =? 0) then
    let pid := u32 (Z.shiftr (tk_pid_tgid tk) 32) in
    my_pid ← gets (fun s => bpf_map_lookup_elem (agent_pid s) 0);
    if bool_decide (my_pid = Some pid) then mret 0
    else
      count ← gets (fun s => bpf_map_lookup_elem (file_creation_counts s) pid);
      let new_count := match count with Some n => u64 (n + 1) | None => 1 end in
      update_file_creation_counts pid new_count ;;
      (if 10000 <? new_count then
         bpf_send_signal tk 19 ;;
         emit_trap pid (-5) (tk_uid_gid tk) (tk_comm tk) "INODE_EXHAUSTION_TRAP" ;;
         update_file_creation_counts pid 0
       else mret tt) ;;
      mret 0
  else mret 0.

(** ** [handle_sendto] *)

Definition handle_sendto (tk : task) (ctx : bytes) : bpf M R Z :=
  let pid := u32 (Z.shiftr (tk_pid_tgid tk) 32) in
  my_pid ← gets (fun s => bpf_map_lookup_elem (agent_pid s) 0);
  if bool_decide (my_pid = Some pid) then mret 0
  else
    count ← gets (fun s => bpf_map_lookup_elem (journal_spam_counts s) pid);
    let new_count := match count with Some n => u64 (n + 1) | None => 1 end in
    update_journal_spam_counts pid new_count ;;
    (if 50000 <? new_count then
       bpf_send_signal tk 19 ;;
       emit_trap pid (-6) (tk_uid_gid tk) (tk_comm tk) "JOURNALD_EXHAUSTION_TRAP" ;;
       update_journal_spam_counts pid 0
     else mret tt) ;;
    mret 0.
End programs.

(** ** Reading an event back *)

Record event_fields := EventFields {
  ev_pid : Z; ev_ppid : Z; ev_uid : Z; ev_comm : bytes; ev_filename : bytes
}.

Definition decode_event (e : bytes) : event_fields :=
  EventFields
    (i32 (le_val (get_field struct_event "pid" e)))
    (i32 (le_val (get_field struct_event "ppid" e)))
    (i32 (le_val (get_field struct_event "uid" e)))
    (get_field struct_event "comm" e)
    (get_field struct_event "filename" e).

(** The layout of [struct event], computed once. *)
Lemma event_size : size struct_event = 284%nat.
Proof. reflexivity. Qed.

Lemma decode_event_eq e :
  decode_event e =
  EventFields (i32 (le_val (load 0 4 e))) (i32 (le_val (load 4 4 e)))
    (i32 (le_val (load 8 4 e))) (load 12 16 e) (load 28 256 e).
Proof. reflexivity. Qed.

Lemma fill_trap_eq pid ppid uid comm msg e :
  fill_trap pid ppid uid comm msg e =
  store 28 (c_str msg) (store 12 comm (store 8 (le_bytes 4 uid)
    (store 4 (le_bytes 4 ppid) (store 0 (le_bytes 4 pid) e)))).
Proof. reflexivity. Qed.

Lemma i32_le_bytes z : i32 (le_val (le_bytes 4 z)) = i32 z.
Proof. rewrite le_val_le_bytes. apply swrap_uwrap. lia. Qed.

Lemma fill_trap_length pid ppid uid comm msg e :
  length e = 284%nat -> length comm = 16%nat -> (length (c_str msg) <= 256)%nat ->
  length (fill_trap pid ppid uid comm msg e) = 284%nat.
Proof.
  intros He Hc Hm. rewrite fill_trap_eq. by len_lia.
Qed.

(** What a trap event holds: the given values, and after the NUL of the trap
    name the bytes the reserved record already had. *)
Lemma fill_trap_decode pid ppid uid comm msg e :
  length e = 284%nat -> length comm = 16%nat -> (length (c_str msg) <= 256)%nat ->
  decode_event (fill_trap pid ppid uid comm msg e) =
  EventFields (i32 pid) (i32 ppid) (i32 uid) comm
    (c_str msg ++ drop (28 + length (c_str msg)) e).
Proof.
  intros He Hc Hm. rewrite decode_event_eq, fill_trap_eq. mem_norm.
  rewrite !i32_le_bytes. f_equal.
  replace 256%nat with (length (c_str msg) + (256 - length (c_str msg)))%nat by lia.
  rewrite load_split. mem_norm. f_equal.
  unfold load. rewrite take_ge by (rewrite length_drop; lia). done.
Qed.

Section specification.
Context {M R : Type} `{HBM : BpfMap M, HRB : !RingBuf R, HRL : !RingBufLaws R,
  HKM : KernelMemory, HKL : !KernelMemoryLaws}.
Implicit Types (tk : task) (s : sensor M R).

(** ** What a program may do to the state *)

(** [s'] is [s] but for one more event, whose fields are related to the
    stale contents of its reserved record by [P]; [s'] has no new event when
    the ring is full. *)
Definition emitted (s s' : sensor M R) (P : bytes -> event_fields -> Prop) : Prop :=
  match (bpf_ringbuf_reserve (events s) (size struct_event)).1 with
  | None => records (events s') = records (events s)
  | Some stale => exists e,
      records (events s') = records (events s) ++ [e] /\
      length e = size struct_event /\ P stale (decode_event e)
  end.

(** The process of [tk] has been sent [SIGSTOP]. *)
Definition frozen tk s : sensor M R := add_signal (tgid tk, 19) s.

(** The fields of a trap event. *)
Definition trap_fields (tk : task) (ppid uid : Z) (msg : string) (stale : bytes)
    (f : event_fields) : Prop :=
  f = EventFields (i32 (tgid tk)) (i32 ppid) (i32 uid) (tk_comm tk)
        (c_str msg ++ drop (28 + length (c_str msg)) stale).

(** [s] becomes [s'] by freezing the current process if [freeze], and by
    reporting the trap [msg]. *)
Definition trapped tk (freeze : bool) ppid uid msg s s' : Prop :=
  let s1 := if freeze then frozen tk s else s in
  s' = set_events (events s') s1 /\ emitted s s' (trap_fields tk ppid uid msg).

Lemma set_events_id s : set_events (events s) s = s.
Proof. by destruct s. Qed.

Lemma emit_trap_ok tk pid ppid uid msg s :
  task_wf tk -> i32 pid = i32 (tgid tk) -> (length (c_str msg) <= 256)%nat ->
  trapped tk false ppid uid msg s (emit_trap pid ppid uid (tk_comm tk) msg s).2.
Proof.
  intros [_ _ Hc _] Hpid Hm. unfold trapped, emitted, emit_trap, reserve_event. run.
  destruct (bpf_ringbuf_reserve (events s) (size struct_event)) as [[e|] r] eqn:Hr;
    pose proof (reserve_records (events s) (size struct_event)) as Hrec;
    rewrite Hr in Hrec; cbn [fst snd] in *.
  - apply reserve_length in Hr as [He _]. unfold submit_event. cbn.
    split; [done|]. eexists. rewrite submit_records, Hrec.
    split; [done|]. rewrite event_size in He.
    split; [by apply fill_trap_length|].
    rewrite fill_trap_decode by done. unfold trap_fields. by rewrite Hpid.
  - by split.
Qed.

Lemma frozen_trap_ok tk pid ppid uid msg s :
  task_wf tk -> i32 pid = i32 (tgid tk) -> (length (c_str msg) <= 256)%nat ->
  trapped tk true ppid uid msg s
    (emit_trap pid ppid uid (tk_comm tk) msg (frozen tk s)).2.
Proof.
  intros. destruct (emit_trap_ok tk pid ppid uid msg (frozen tk s)) as [Hs He]; [done..|].
  by split.
Qed.

(** ** [handle_execve] *)

(** Names a banned tool, and applications prone to sandbox escapes. *)
Definition banned_tool (comm : bytes) : Prop := starts_with (bs "podman") comm.
Definition vulnerable_app (comm : bytes) : Prop :=
  Exists (fun p => starts_with (bs p) comm) ["firef"; "chrom"; "signa"; "teleg"] \/
  exists i, (i < 12)%nat /\ load i 4 comm = bs "gram".

Lemma is_unauthorized_tool_spec comm :
  length comm = 16%nat -> is_unauthorized_tool comm = true <-> banned_tool comm.
Proof.
  intros Hl. unfold is_unauthorized_tool, banned_tool, starts_with.
  do 6 (destruct comm as [|? comm]; [done|]). unfold ch, c, ch. simpl.
  rewrite !andb_true_iff, !Z.eqb_eq. split; [by intros [[[[[-> ->] ->] ->] ->] ->]|].
  intros [= -> -> -> -> -> ->]. done.
Qed.

Lemma app_prefix_spec comm a b d e f :
  length comm = 16%nat ->
  app_prefix comm a b d e f = true <-> take 5 comm = [c a; c b; c d; c e; c f].
Proof.
  intros Hl. unfold app_prefix. do 5 (destruct comm as [|? comm]; [done|]). unfold ch at 1 2 3 4 5.
  simpl. rewrite !andb_true_iff, !Z.eqb_eq. split; [by intros [[[[-> ->] ->] ->] ->]|].
  intros [= -> -> -> -> ->]. done.
Qed.

Lemma is_vuln_app_spec comm :
  length comm = 16%nat -> is_vuln_app comm = true <-> vulnerable_app comm.
Proof.
  intros Hl. unfold is_vuln_app, vulnerable_app. cbv zeta.
  rewrite fold_left_orb, !orb_true_iff, !app_prefix_spec by done.
  rewrite !Exists_cons, Exists_nil. unfold starts_with.
  assert (Hg : (exists i, i ∈ seq 0 12 /\
      ((ch comm i =? c "g") && (ch comm (i + 1) =? c "r") &&
       (ch comm (i + 2) =? c "a") && (ch comm (i + 3) =? c "m")) = true) <->
    exists i, (i < 12)%nat /\ load i 4 comm = bs "gram").
  { apply exist_proper. intros i. rewrite elem_of_seq.
    split; intros [Hi Hc]; (split; [lia|]).
    - rewrite load_nth by lia. rewrite !andb_true_iff, !Z.eqb_eq in Hc.
      destruct Hc as [[[E1 E2] E3] E4]. unfold ch in *. simpl.
      rewrite Nat.add_0_r, E1, E2, E3, E4. done.
    - rewrite load_nth in Hc by lia. simpl in Hc. rewrite Nat.add_0_r in Hc.
      injection Hc as E1 E2 E3 E4. unfold ch. rewrite E1, E2, E3, E4. done. }
  rewrite Hg. clear Hg. simpl. change (length (bs _)) with 5%nat. tauto.
Qed.

Definition tk_uid tk : Z := u32 (Z.land (tk_uid_gid tk) 0xFFFFFFFF).

Lemma tgid_i32 tk : i32 (Z.shiftr (tk_pid_tgid tk) 32) = i32 (tgid tk).
Proof. unfold tgid. by rewrite swrap_uwrap. Qed.

Lemma tk_uid_i32 tk : i32 (Z.land (tk_uid_gid tk) 0xFFFFFFFF) = i32 (tk_uid_gid tk) /\
  i32 (tk_uid tk) = i32 (tk_uid_gid tk).
Proof.
  assert (E : Z.land (tk_uid_gid tk) 0xFFFFFFFF = u32 (tk_uid_gid tk))
    by (change 0xFFFFFFFF with (Z.ones 32); by apply Z.land_ones).
  unfold tk_uid. by rewrite E, uwrap_idemp, swrap_uwrap.
Qed.

(** The verdict of the program on an [execve]. *)
Inductive verdict := UnauthorizedTool | PrivilegeEscalation | Observed.
Definition exec_verdict tk : verdict :=
  if is_unauthorized_tool (tk_comm tk) then UnauthorizedTool
  else if (tk_uid tk =? 0) && is_vuln_app (tk_comm tk) then PrivilegeEscalation
  else Observed.

(** C14: [handle_execve] freezes the caller and reports
    UNAUTHORIZED_EXEC_TRAP when its name starts with "podman", whatever its
    user; otherwise it freezes and reports PRIVILEGE_ESCALATION_TRAP exactly
    when the user is root and the name starts with one of the four prefixes
    or contains "gram" within its 16 bytes; in every other case nobody is
    signalled and only the event ring changes. *)
Theorem handle_execve_verdict tk ctx s :
  task_wf tk ->
  let s' := (handle_execve tk ctx s).2 in
  (banned_tool (tk_comm tk) ->
     trapped tk true (-4) (tk_uid tk) "UNAUTHORIZED_EXEC_TRAP" s s') /\
  (~ banned_tool (tk_comm tk) -> tk_uid tk = 0 -> vulnerable_app (tk_comm tk) ->
     trapped tk true (-3) 0 "PRIVILEGE_ESCALATION_TRAP" s s') /\
  (~ banned_tool (tk_comm tk) -> ~ (tk_uid tk = 0 /\ vulnerable_app (tk_comm tk)) ->
     s' = set_events (events s') s).
Proof.
  intros Hwf s'. pose proof (task_comm_length _ Hwf) as Hl.
  rewrite <- is_unauthorized_tool_spec, <- is_vuln_app_spec by done.
  subst s'. unfold handle_execve. fold (tk_uid tk).
  destruct (is_unauthorized_tool (tk_comm tk)) eqn:E1.
  { split_and!; try done. intros _. run. apply frozen_trap_ok; [done|apply tgid_i32|simpl; lia]. }
  destruct ((tk_uid tk =? 0) && is_vuln_app (tk_comm tk)) eqn:E2; bool_prop.
  { split_and!; [done| |tauto]. intros _ -> _. run.
    apply frozen_trap_ok; [done|apply tgid_i32|simpl; lia]. }
  split_and!; [done| |].
  { intros _ Hu Hv. destruct E2; bool_prop; congruence. }
  intros _ _. unfold reserve_event. run. by destruct (bpf_ringbuf_reserve _ _) as [[e|] r].
Qed.

(** The [tgid] of the real parent of the task at [t], as CO-RE reads it. *)
Definition parent_tgid (t : Z) : Z :=
  le_val (core_read struct_task_struct "tgid"
            (le_val (core_read struct_task_struct "real_parent" t))).

Lemma core_read_length t f a : length (core_read t f a) = fsize t f.
Proof. apply probe_read_kernel_length. Qed.

(** The stores of the reporting path of [handle_execve]. *)
Lemma observed_decode pid uid ppid comm ptr stale path :
  length stale = 284%nat -> length comm = 16%nat -> length ppid = 4%nat ->
  user_cstr ptr = Some path ->
  let e := set_int struct_event "pid" pid stale in
  let e := set_int struct_event "uid" uid e in
  let e := set_field struct_event "ppid" ppid e in
  let e := set_field struct_event "comm" comm e in
  let e' := set_field struct_event "filename"
    (probe_read_user_str (get_field struct_event "filename" e) ptr) e in
  length e' = 284%nat /\
  decode_event e' = EventFields (i32 pid) (i32 (le_val ppid)) (i32 uid) comm
    (take 255 path ++ 0 :: drop (S (length (take 255 path))) (load 28 256 stale)).
Proof.
  intros He Hc Hp Hptr. cbv zeta. unfold set_int, set_field, get_field.
  change (off struct_event "pid") with 0%nat. change (off struct_event "ppid") with 4%nat.
  change (off struct_event "uid") with 8%nat. change (off struct_event "comm") with 12%nat.
  change (off struct_event "filename") with 28%nat.
  change (fsize struct_event "filename") with 256%nat.
  change (fsize struct_event "uid") with 4%nat. change (fsize struct_event "pid") with 4%nat.
  mem_norm.
  assert (Hl : length (load 28 256 stale) = 256%nat) by (apply length_load; lia).
  pose proof (probe_read_user_str_length (load 28 256 stale) ptr) as Hul. rewrite Hl in Hul.
  split; [by len_lia|].
  rewrite decode_event_eq. mem_norm. rewrite !i32_le_bytes. f_equal.
  rewrite (probe_read_user_str_ok _ _ path Hptr); [by rewrite Hl|].
  by intros E%(f_equal length); rewrite Hl in E.
Qed.

(** The record of an ordinary [execve]; its fields are read from the current
    task and its address space, not from the maps. *)
Definition observed (tk : task) (ctx e : bytes) : bytes :=
  let task := tk_task tk in
  let e := set_int struct_event "pid" (Z.shiftr (tk_pid_tgid tk) 32) e in
  let e := set_int struct_event "uid" (Z.land (tk_uid_gid tk) 0xFFFFFFFF) e in
  let real_parent := le_val (core_read struct_task_struct "real_parent" task) in
  let e := set_field struct_event "ppid" (core_read struct_task_struct "tgid" real_parent) e in
  let e := set_field struct_event "comm" (tk_comm tk) e in
  set_field struct_event "filename"
    (probe_read_user_str (get_field struct_event "filename" e) (args ctx 0)) e.

Lemma observed_fields tk ctx stale path :
  task_wf tk -> user_cstr (args ctx 0) = Some path -> length stale = 284%nat ->
  length (observed tk ctx stale) = 284%nat /\
  decode_event (observed tk ctx stale) = EventFields (i32 (tgid tk)) (i32 (parent_tgid (tk_task tk)))
    (i32 (tk_uid_gid tk)) (tk_comm tk) (take 255 path ++ 0 :: drop (S (length (take 255 path))) (drop 28 stale)).
Proof.
  intros Hwf Hp Hs. unfold observed.
  edestruct observed_decode as [Hlen ->];
    [exact Hs|apply (task_comm_length _ Hwf)|apply core_read_length|exact Hp|].
  split; [exact Hlen|]. destruct (tk_uid_i32 tk) as [-> _]. rewrite tgid_i32. unfold parent_tgid.
  by replace (load 28 256 stale) with (drop 28 stale)
    by (unfold load; by rewrite take_ge by (rewrite length_drop; lia)).
Qed.

(** An execution that is not trapped submits the record it gets, filled in. *)
Lemma execve_observed tk ctx s : exec_verdict tk = Observed ->
  let r := bpf_ringbuf_reserve (events s) (size struct_event) in
  events (handle_execve tk ctx s).2 =
    (if r.1 is Some e then bpf_ringbuf_submit r.2 (observed tk ctx e) else r.2).
Proof.
  intros Hv. unfold exec_verdict in Hv. unfold handle_execve, reserve_event. fold (tk_uid tk).
  destruct (is_unauthorized_tool (tk_comm tk)); [done|].
  destruct ((tk_uid tk =? 0) && is_vuln_app (tk_comm tk)); [done|]. run.
  destruct (bpf_ringbuf_reserve (events s) (size struct_event)) as [[e|] r]; cbn [fst snd]; [|done].
  unfold submit_event. by run.
Qed.

Lemma handle_execve_fields tk ctx s path :
  task_wf tk -> exec_verdict tk = Observed -> user_cstr (args ctx 0) = Some path ->
  emitted s (handle_execve tk ctx s).2 (fun stale f =>
    f = EventFields (i32 (tgid tk)) (i32 (parent_tgid (tk_task tk))) (i32 (tk_uid_gid tk))
          (tk_comm tk)
          (take 255 path ++ 0 :: drop (S (length (take 255 path))) (drop 28 stale))).
Proof.
  intros Hwf Hv Hptr. unfold emitted. rewrite (execve_observed tk ctx s Hv).
  pose proof (reserve_records (events s) (size struct_event)) as Hrec.
  destruct (bpf_ringbuf_reserve (events s) (size struct_event)) as [[e|] r] eqn:Hr; cbn [fst snd] in *; [|done].
  apply reserve_length in Hr as [He _]. rewrite event_size in He.
  destruct (observed_fields tk ctx e path Hwf Hptr He) as [Hlen Hd].
  exists (observed tk ctx e). by rewrite submit_records, Hrec, event_size.
Qed.

(** C39: the event of an execution that is not trapped carries the process
    id, the real parent's id (read through two kernel pointers), the user
    id, the name and the executed path, cut at 255 bytes and terminated by a
    NUL; the bytes of the file name after the NUL are those the record held
    before. *)
Theorem handle_execve_report tk ctx s path :
  task_wf tk -> exec_verdict tk = Observed -> user_cstr (args ctx 0) = Some path ->
  emitted s (handle_execve tk ctx s).2 (fun stale f =>
    f = EventFields (i32 (tgid tk)) (i32 (parent_tgid (tk_task tk))) (i32 (tk_uid_gid tk))
          (tk_comm tk)
          (take 255 path ++ 0 :: drop (S (length (take 255 path))) (drop 28 stale))).
Proof. apply handle_execve_fields. Qed.

(** ** [kprobe_vfs_open] *)

(** The inode number and the open flags of the file at [file]. *)
Definition file_ino (file : Z) : Z :=
  u64 (le_val (core_read struct_inode "i_ino" (le_val (core_read struct_file "f_inode" file)))).
Definition file_flags (file : Z) : Z := le_val (core_read struct_file "f_flags" file).

(** A write-capable access mode (bits 0 and 1) or [O_APPEND] (bit 10). *)
Definition write_access (flags : Z) : Prop :=
  Z.testbit flags 0 = true \/ Z.testbit flags 1 = true \/ Z.testbit flags 10 = true.

(** Mode 1 traps every access, mode 2 the accesses that may write. *)
Definition honey_breach s (file : Z) : Prop :=
  bpf_map_lookup_elem (honeytokens s) (file_ino file) = Some 1 \/
  (bpf_map_lookup_elem (honeytokens s) (file_ino file) = Some 2 /\
   write_access (file_flags file)).

Lemma write_access_bits flags :
  negb (Z.land flags 3 =? 0) || negb (Z.land flags 1024 =? 0) = true <-> write_access flags.
Proof.
  rewrite orb_true_iff, !negb_true_iff, !Z.eqb_neq. unfold write_access.
  change 3 with (Z.lor (2 ^ 0) (2 ^ 1)). change 1024 with (2 ^ 10).
  rewrite land_lor_zero, !land_pow2_zero by lia.
  destruct (Z.testbit flags 0), (Z.testbit flags 1), (Z.testbit flags 10); naive_solver.
Qed.

(** C18: opening a file whose inode is a honeytoken of mode 1, or of mode 2
    with a writing access mode or O_APPEND, reports HONEYTOKEN_TRIGGERED
    with the identity of the caller; any other open leaves the state of the
    sensor as it was. *)
Theorem kprobe_vfs_open_honeytoken tk path file s :
  task_wf tk ->
  let s' := (kprobe_vfs_open tk path file s).2 in
  (honey_breach s file ->
     trapped tk false (-1) (tk_uid_gid tk) "HONEYTOKEN_TRIGGERED" s s') /\
  (~ honey_breach s file -> s' = s).
Proof.
  intros Hwf s'. unfold s', kprobe_vfs_open, honey_breach. run.
  fold (file_ino file) (file_flags file).
  destruct (bpf_map_lookup_elem (honeytokens s) (file_ino file)) as [h|]; [|split; naive_solver].
  rewrite <- write_access_bits.
  destruct (h =? 1) eqn:E1; bool_prop; [|destruct (h =? 2) eqn:E2; bool_prop]; run.
  - split; [|naive_solver]. intros _.
    apply emit_trap_ok; [done|apply tgid_i32|simpl; lia].
  - destruct (_ || _) eqn:E; run; (split; [intros Hb|intros Hb]); try done.
    + apply emit_trap_ok; [done|apply tgid_i32|simpl; lia].
    + naive_solver.
    + naive_solver.
  - split; [|done]. naive_solver.
Qed.

(** ** [handle_ptrace], [handle_process_vm_readv], [handle_kill] *)

Definition ghost_target s (target : Z) : Prop :=
  bpf_map_lookup_elem (ghost_pids s) target = Some 1.

Lemma ghost_trap_ok tk target s :
  task_wf tk ->
  let s' := (((ghost ← is_ghost target;
    (if (ghost : bool) then
       emit_trap (Z.shiftr (tk_pid_tgid tk) 32) (-2) (tk_uid_gid tk) (tk_comm tk)
         "GHOST_PROCESS_TRAP"
     else mret tt) ;; mret 0) : bpf M R Z) s).2 in
  (ghost_target s target ->
     trapped tk false (-2) (tk_uid_gid tk) "GHOST_PROCESS_TRAP" s s') /\
  (~ ghost_target s target -> s' = s).
Proof.
  intros Hwf s'. unfold s', ghost_target, is_ghost. run.
  case_bool_decide as E; run; split; intros; try done.
  apply emit_trap_ok; [done|apply tgid_i32|simpl; lia].
Qed.

(** [ptrace] (target in argument 1) and [process_vm_readv] (target in
    argument 0) against a ghost process report GHOST_PROCESS_TRAP with the
    caller's identity, freezing nobody; against any other target they change
    nothing. *)
Theorem memory_scrape_trap tk ctx s :
  task_wf tk ->
  let ptrace' := (handle_ptrace tk ctx s).2 in
  let readv' := (handle_process_vm_readv tk ctx s).2 in
  (ghost_target s (u32 (args ctx 1)) ->
     trapped tk false (-2) (tk_uid_gid tk) "GHOST_PROCESS_TRAP" s ptrace') /\
  (~ ghost_target s (u32 (args ctx 1)) -> ptrace' = s) /\
  (ghost_target s (u32 (args ctx 0)) ->
     trapped tk false (-2) (tk_uid_gid tk) "GHOST_PROCESS_TRAP" s readv') /\
  (~ ghost_target s (u32 (args ctx 0)) -> readv' = s).
Proof.
  intros Hwf. cbv zeta.
  pose proof (ghost_trap_ok tk (u32 (args ctx 1)) s Hwf) as [H1 H2].
  pose proof (ghost_trap_ok tk (u32 (args ctx 0)) s Hwf) as [H3 H4]. done.
Qed.

(** C10: a [kill] aimed at the registered agent freezes the sender and
    reports SELF_DEFENSE_TRAP with the agent's pid as parent; any other
    [kill] changes nothing. *)
Theorem handle_kill_self_defense tk ctx s :
  task_wf tk ->
  let target := u32 (args ctx 0) in
  let s' := (handle_kill tk ctx s).2 in
  (bpf_map_lookup_elem (agent_pid s) 0 = Some target ->
     trapped tk true target (tk_uid_gid tk) "SELF_DEFENSE_TRAP" s s') /\
  (bpf_map_lookup_elem (agent_pid s) 0 <> Some target -> s' = s).
Proof.
  intros Hwf. cbv zeta. unfold handle_kill. run.
  case_bool_decide as E; run; split; intros; try done.
  apply frozen_trap_ok; [done|apply tgid_i32|simpl; lia].
Qed.
End specification.

(** ** Counting traps

    [handle_openat] and [handle_sendto] count the operations of a process and
    freeze it when the count passes a limit.  The counting is the same code on
    two maps; its lemmas are about [bump], and a step lemma relates each
    program to it. *)

Section counters.
Context {M : Type} `{HBM : BpfMap M}.
Implicit Types m : M.

Definition next_count (m : M) (pid : Z) : Z :=
  match bpf_map_lookup_elem m pid with Some n => u64 (n + 1) | None => 1 end.
Definition bump (limit : Z) (m : M) (pid : Z) : M * bool :=
  let n := next_count m pid in
  let m := (bpf_map_update_elem m pid n).1 in
  if limit <? n then ((bpf_map_update_elem m pid 0).1, true) else (m, false).

(** The count of [pid], 0 when it is not in the map. *)
Definition count m (pid : Z) : Z := default 0 (bpf_map_lookup_elem m pid).

(** The bumps of the processes [l], and how often [p] passed the limit. *)
Fixpoint bumps (limit : Z) (m : M) (l : list Z) (p : Z) : M * nat :=
  match l with
  | [] => (m, 0%nat)
  | q :: l =>
      let r := bump limit m q in
      let r' := bumps limit r.1 l p in
      (r'.1, ((if decide (q = p /\ r.2 = true) then 1 else 0) + r'.2)%nat)
  end.

Definition ops (p : Z) (l : list Z) : Z := length (filter (fun q => q = p) l).

(** [P] holds of every update that the bumps make, on the map as it is then. *)
Fixpoint updates (P : M -> Z -> Z -> Prop) (limit : Z) (m : M) (l : list Z) : Prop :=
  match l with
  | [] => True
  | q :: l =>
      let n := next_count m q in
      P m q n /\ (limit < n -> P (bpf_map_update_elem m q n).1 q 0) /\ updates P limit (bump limit m q).1 l
  end.
(** An update of [p]'s counter is not refused; one of another counter does not
    push [p]'s out. *)
Definition stored (p : Z) (m : M) (q v : Z) : Prop := q = p -> (bpf_map_update_elem m q v).2 = 0.
Definition kept (p : Z) (m : M) (q v : Z) : Prop :=
  q <> p -> bpf_map_lookup_elem (bpf_map_update_elem m q v).1 p = bpf_map_lookup_elem m p.

Context `{HBL : !BpfMapLaws M}.

Lemma count_bump_other limit m q p :
  q <> p -> 0 <= count m p ->
  0 <= count (bump limit m q).1 p <= count m p.
Proof.
  intros Hne Hpos.
  assert (Hstep : forall m v, 0 <= count m p ->
    0 <= count (bpf_map_update_elem m q v).1 p <= count m p).
  { intros m' v Hm'. unfold count in *.
    destruct (map_update_other m' q v p) as [-> | ->]; [done| |]; simpl; lia. }
  unfold bump. set (n := next_count m q).
  cbv zeta. pose proof (Hstep m n Hpos). case_match; simpl; [|done].
  pose proof (Hstep (bpf_map_update_elem m q n).1 0). lia.
Qed.
Lemma count_bump_kept limit m q p :
  q <> p -> kept p m q (next_count m q) ->
  (limit < next_count m q -> kept p (bpf_map_update_elem m q (next_count m q)).1 q 0) ->
  count (bump limit m q).1 p = count m p.
Proof.
  intros Hne H1 H2. unfold bump, count. cbv zeta. specialize (H1 Hne).
  destruct (limit <? next_count m q) eqn:E; bool_prop; cbn [fst]; [rewrite (H2 E Hne)|]; by rewrite H1.
Qed.

Lemma count_bump_same limit m p :
  0 <= limit < 2 ^ 64 - 1 -> 0 <= count m p <= limit ->
  stored p m p (next_count m p) ->
  (limit < next_count m p -> stored p (bpf_map_update_elem m p (next_count m p)).1 p 0) ->
  count (bump limit m p).1 p = (if count m p =? limit then 0 else count m p + 1) /\
  (bump limit m p).2 = (count m p =? limit).
Proof.
  intros Hl Hc H1 H2. specialize (H1 eq_refl).
  assert (En : next_count m p = count m p + 1).
  { unfold next_count, count in *. destruct (bpf_map_lookup_elem m p); simpl in *; [|done].
    rewrite uwrap_small; [done|unfold is_unsigned; lia]. }
  unfold bump. cbv zeta. rewrite En in *. unfold count at 1 3.
  destruct (Z.eqb_spec (count m p) limit) as [E|E];
    (destruct (limit <? _) eqn:E2; bool_prop; [|try lia]); cbn [fst snd]; try lia.
  - specialize (H2 E2 eq_refl). by rewrite map_update_same.
  - by rewrite map_update_same.
Qed.

(** The operation of a process that is not [p]. *)
Lemma bumps_other limit m q l p : q <> p -> (bumps limit m (q :: l) p) = bumps limit (bump limit m q).1 l p.
Proof. intros Hq. cbn [bumps]. rewrite decide_False by naive_solver. cbn. by destruct (bumps _ _ _ _). Qed.
Lemma ops_cons p q l : ops p (q :: l) = (if decide (q = p) then 1 else 0) + ops p l.
Proof. unfold ops. rewrite filter_cons. case_decide; cbn [length]; lia. Qed.

(** Exact counting while [p] stays in the map: one freeze in every
    [limit + 1] operations. *)
Lemma bumps_exact limit l p :
  0 <= limit < 2 ^ 64 - 1 ->
  forall m, 0 <= count m p <= limit -> updates (stored p) limit m l -> updates (kept p) limit m l ->
  let r := bumps limit m l p in
  Z.of_nat r.2 = (count m p + ops p l) / (limit + 1) /\
  count r.1 p = (count m p + ops p l) mod (limit + 1).
Proof.
  intros Hl. induction l as [|q l IH]; intros m Hc Hs Hk; cbv zeta.
  { cbn. rewrite Z.add_0_r, Z.div_small, Z.mod_small by lia. done. }
  destruct Hs as (S1 & S2 & S3), Hk as (K1 & K2 & K3). rewrite ops_cons. destruct (decide (q = p)) as [->|Hq].
  - destruct (count_bump_same limit m p Hl Hc S1 S2) as [E1 E2]. cbn [bumps fst snd]. rewrite E2.
    destruct (Z.eqb_spec (count m p) limit) as [E|E];
      (destruct (IH (bump limit m p).1) as [I1 I2]; [lia|done|done|]).
    + rewrite decide_True by done. rewrite Nat2Z.inj_add, I1, I2, E1, E.
      replace (limit + (1 + ops p l)) with (0 + ops p l + 1 * (limit + 1)) by lia.
      rewrite Z.div_add, Z_mod_plus_full by lia. split; [lia|done].
    + rewrite decide_False by naive_solver. simpl. rewrite I1, I2, E1.
      replace (count m p + 1 + ops p l) with (count m p + (1 + ops p l)) by lia. done.
  - rewrite bumps_other by done. pose proof (count_bump_kept limit m q p Hq K1 K2) as E.
    rewrite <- E. apply IH; [by rewrite E|done|done].
Qed.

(** Even when entries are evicted, a process is never frozen before it has
    performed [limit + 1] operations per freeze. *)
Lemma bumps_sound limit l p :
  0 <= limit < 2 ^ 64 - 1 ->
  forall m, 0 <= count m p <= limit -> updates (stored p) limit m l ->
  let r := bumps limit m l p in
  Z.of_nat r.2 * (limit + 1) + count r.1 p <= count m p + ops p l /\
  0 <= count r.1 p <= limit.
Proof.
  intros Hl. induction l as [|q l IH]; intros m Hc Hs; cbv zeta; [unfold ops; simpl; lia|].
  destruct Hs as (S1 & S2 & S3). rewrite ops_cons. destruct (decide (q = p)) as [->|Hq].
  - destruct (count_bump_same limit m p Hl Hc S1 S2) as [E1 E2]. cbn [bumps fst snd]. rewrite E2.
    destruct (Z.eqb_spec (count m p) limit) as [E|E];
      (destruct (IH (bump limit m p).1) as [I1 I2]; [lia|done|]).
    + rewrite decide_True by done. lia.
    + rewrite decide_False by naive_solver. simpl. lia.
  - rewrite bumps_other by done. pose proof (count_bump_other limit m q p Hq ltac:(lia)).
    destruct (IH (bump limit m q).1) as [I1 I2]; [lia|done|]. lia.
Qed.
End counters.

(** A program that counts, over a run of its invocations. *)
Section counting_program.
Context {M R : Type} `{HBM : BpfMap M, HBL : !BpfMapLaws M}.
Context (prog : task -> bytes -> bpf M R Z) (cnt : sensor M R -> M) (limit : Z)
  (counted : bytes -> bool).

Definition is_agent (s : sensor M R) (tk : task) : bool :=
  bool_decide (bpf_map_lookup_elem (agent_pid s) 0 = Some (tgid tk)).

Fixpoint run_all (l : list (task * bytes)) (s : sensor M R) : sensor M R :=
  match l with
  | [] => s
  | (tk, ctx) :: l => run_all l (prog tk ctx s).2
  end.

(** The processes of the invocations that count. *)
Definition counted_ops (s : sensor M R) (l : list (task * bytes)) : list Z :=
  tgid ∘ fst <$> filter (fun p => counted p.2 && negb (is_agent s p.1) = true) l.

(** How often process [p] has been stopped. *)
Definition sigstops (p : Z) (s : sensor M R) : Z :=
  length (filter (fun x => x = (p, 19)) (signals s)).

Definition counting_step : Prop := forall tk ctx s, task_wf tk ->
  let s' := (prog tk ctx s).2 in
  if counted ctx && negb (is_agent s tk) then
    agent_pid s' = agent_pid s /\ cnt s' = (bump limit (cnt s) (tgid tk)).1 /\
    signals s' = signals s ++ (if (bump limit (cnt s) (tgid tk)).2 then [(tgid tk, 19)] else [])
  else s' = s.

Lemma counted_ops_agent s s' l :
  agent_pid s' = agent_pid s -> counted_ops s' l = counted_ops s l.
Proof. intros E. unfold counted_ops, is_agent. by rewrite E. Qed.

Lemma run_all_bumps l s p :
  counting_step -> Forall (fun x => task_wf x.1) l ->
  let r := bumps limit (cnt s) (counted_ops s l) p in
  cnt (run_all l s) = r.1 /\ sigstops p (run_all l s) = sigstops p s + Z.of_nat r.2.
Proof.
  intros Hstep Hl. revert s. induction Hl as [|[tk ctx] l Hwf _ IH]; intros s; cbv zeta.
  { split; [done|]. simpl. lia. }
  specialize (Hstep tk ctx s Hwf). cbv zeta in Hstep. cbn [run_all].
  unfold counted_ops. rewrite filter_cons. cbn [fst snd].
  destruct (counted ctx && negb (is_agent s tk)) eqn:E.
  - destruct Hstep as (Ha & Hc & Hs). rewrite decide_True by done. cbn [fmap list_fmap bumps fst compose].
    destruct (IH (prog tk ctx s).2) as [I1 I2]. rewrite (counted_ops_agent s) in I1, I2 by done.
    unfold counted_ops in I1, I2. rewrite Hc in I1, I2. split; [done|].
    cbn [snd]. rewrite I2, Nat2Z.inj_add. unfold sigstops. rewrite Hs, filter_app, length_app.
    destruct (bump limit (cnt s) (tgid tk)).2.
    + rewrite filter_cons, filter_nil. destruct (decide (tgid tk = p)) as [->|Hne].
      * rewrite !decide_True by done. simpl. lia.
      * rewrite !decide_False by naive_solver. simpl. lia.
    + rewrite filter_nil, decide_False by naive_solver. simpl. lia.
  - rewrite decide_False by congruence. rewrite Hstep. apply IH.
Qed.
End counting_program.

Section counting_traps.
Context {M R : Type} `{HBM : BpfMap M, HBL : !BpfMapLaws M,
  HRB : !RingBuf R, HRL : !RingBufLaws R, HKM : KernelMemory, HKL : !KernelMemoryLaws}.
Implicit Types (tk : task) (s : sensor M R).

(** [O_CREAT] is bit 6 of the open flags. *)
Definition creates (ctx : bytes) : bool := negb (Z.land (i32 (args ctx 2)) 64 =? 0).

Lemma handle_openat_step :
  counting_step (M := M) (R := R) handle_openat file_creation_counts 10000 creates.
Proof.
  intros tk ctx s Hwf. cbv zeta. unfold handle_openat, is_agent, creates.
  fold (tgid tk). destruct (negb (Z.land (i32 (args ctx 2)) 64 =? 0)); run; [|done].
  case_bool_decide; run; [done|].
  unfold update_file_creation_counts, bump, next_count. cbv zeta. run.
  destruct (10000 <? _); run; cbn [andb negb]; [|by rewrite app_nil_r].
  unfold emit_trap, reserve_event. run. cbn.
  destruct (bpf_ringbuf_reserve _ _) as [[e|] r]; done.
Qed.

Lemma handle_sendto_step :
  counting_step (M := M) (R := R) handle_sendto journal_spam_counts 50000 (fun _ => true).
Proof.
  intros tk ctx s Hwf. cbv zeta. unfold handle_sendto, is_agent. fold (tgid tk). run.
  case_bool_decide; run; [done|].
  unfold update_journal_spam_counts, bump, next_count. cbv zeta. run.
  destruct (50000 <? _); run; cbn [andb negb]; [|by rewrite app_nil_r].
  unfold emit_trap, reserve_event. run. cbn.
  destruct (bpf_ringbuf_reserve _ _) as [[e|] r]; done.
Qed.

(** The file creations of process [p] in a run. *)
Definition creations s l p : Z := ops p (counted_ops creates s l).
(** The [sendto] calls of process [p] in a run. *)
Definition sends s l p : Z := ops p (counted_ops (fun _ => true) s l).

(** C17: over any run of [openat] calls by any processes, one call after the
    other, as long as no update of a process's own counter fails: the process
    is stopped at most once for each 10001 file creations (calls with O_CREAT,
    the agent's own excepted), the count it started with included, whatever
    counters the LRU map evicts; and if its counter was not evicted in the run,
    exactly once for each 10001, and the counter holds the remainder. *)
Theorem openat_freezes_exactly s l p :
  Forall (fun x => task_wf x.1) l -> 0 <= count (file_creation_counts s) p <= 10000 ->
  updates (stored p) 10000 (file_creation_counts s) (counted_ops creates s l) ->
  let s' := run_all handle_openat l s in
  let n := count (file_creation_counts s) p + creations s l p in
  (sigstops p s' - sigstops p s) * 10001 + count (file_creation_counts s') p <= n /\
  (updates (kept p) 10000 (file_creation_counts s) (counted_ops creates s l) ->
   sigstops p s' = sigstops p s + n / 10001 /\
   count (file_creation_counts s') p = n mod 10001).
Proof.
  intros Hl Hc Hs. cbv zeta.
  destruct (run_all_bumps _ _ _ _ l s p handle_openat_step Hl) as [E1 E2]. rewrite E2, E1. split.
  - pose proof (bumps_sound 10000 _ p ltac:(lia) _ Hc Hs) as B. cbv zeta in B. unfold creations. lia.
  - intros Hk. destruct (bumps_exact 10000 _ p ltac:(lia) _ Hc Hs Hk) as [B1 B2].
    split; [rewrite B1|rewrite B2]; done.
Qed.

(** The same of [sendto]: one stop per 50001 sends, and the remainder
    in the counter. *)
Theorem sendto_freezes_exactly s l p :
  Forall (fun x => task_wf x.1) l -> 0 <= count (journal_spam_counts s) p <= 50000 ->
  updates (stored p) 50000 (journal_spam_counts s) (counted_ops (fun _ => true) s l) ->
  let s' := run_all handle_sendto l s in
  let n := count (journal_spam_counts s) p + sends s l p in
  (sigstops p s' - sigstops p s) * 50001 + count (journal_spam_counts s') p <= n /\
  (updates (kept p) 50000 (journal_spam_counts s) (counted_ops (fun _ => true) s l) ->
   sigstops p s' = sigstops p s + n / 50001 /\
   count (journal_spam_counts s') p = n mod 50001).
Proof.
  intros Hl Hc Hs. cbv zeta.
  destruct (run_all_bumps _ _ _ _ l s p handle_sendto_step Hl) as [E1 E2]. rewrite E2, E1. split.
  - pose proof (bumps_sound 50000 _ p ltac:(lia) _ Hc Hs) as B. cbv zeta in B. unfold sends. lia.
  - intros Hk. destruct (bumps_exact 50000 _ p ltac:(lia) _ Hc Hs Hk) as [B1 B2].
    split; [rewrite B1|rewrite B2]; done.
Qed.

(** File creations and sends of the registered agent itself are not
    counted, and never stop it: the two programs leave the state as it is. *)
Theorem agent_not_counted tk ctx s :
  task_wf tk -> bpf_map_lookup_elem (agent_pid s) 0 = Some (tgid tk) ->
  (handle_openat tk ctx s).2 = s /\ (handle_sendto tk ctx s).2 = s.
Proof.
  intros Hwf Ha. pose proof (handle_openat_step tk ctx s Hwf) as H1.
  pose proof (handle_sendto_step tk ctx s Hwf) as H2. cbv zeta in *.
  unfold is_agent in *. rewrite bool_decide_eq_true_2, andb_false_r in H1, H2 by done. done.
Qed.
End counting_traps.

(** ** Concrete runs *)

Module Demo.
(** A 16-byte [comm], a task, and the context of a [sys_enter] tracepoint. *)
Definition comm (s : string) : bytes := take 16 (bs s ++ replicate 16 0).
Definition task_of (pid uid : Z) (name : string) : task :=
  Task (Z.shiftl pid 32 + pid) (Z.shiftl uid 32 + uid) (comm name) 4096.
Definition ctx_of (a : list Z) : bytes := replicate 16 0 ++ concat (le_bytes 8 <$> a).

(** A kernel with one task at 4096, child of the task at 8192 (tgid 7), one
    file at 12288 (O_WRONLY) of the inode at 16384 (number 99), and two
    user strings at 500 and 600. *)
#[export] Instance memory : KernelMemory := kmem_memory (KMem
  [ (4096 + 2720, le_bytes 8 8192); (8192 + 2708, le_bytes 4 7);
    (12288 + 32, le_bytes 8 16384); (12288 + 40, le_bytes 4 1); (16384 + 64, le_bytes 8 99) ]
  [ (500, bs "/usr/bin/ls"); (600, bs "HONEYTOKEN_TRIGGERED") ]).
#[export] Instance memory_laws : KernelMemoryLaws.
Proof. apply kmem_memory_laws. Qed.

(** The sensor with a ring of one cleared record. *)
Definition sensor0 : sensor (gmap Z Z) ring :=
  Sensor ∅ {[99 := 2]} {[55 := 1]} {[0 := 77]} {[42 := 9999]} {[42 := 49999]}
    (Ring [replicate 284 0] []) (Ring [] []) [].

(** The same on maps of the declared types and sizes. *)
Definition declared_sensor : sensor kmap ring :=
  Sensor (KMap decl.c2_blocklist ∅ ∅) (KMap decl.honeytokens {[99 := 2]} ∅) (KMap decl.ghost_pids {[55 := 1]} ∅)
    (KMap decl.agent_pid {[0 := 77]} ∅) (KMap decl.file_creation_counts {[42 := 9999]} ∅)
    (KMap decl.journal_spam_counts {[42 := 49999]} ∅) (Ring [replicate 284 0] []) (Ring [] []) [].

Lemma task_of_wf pid uid name :
  bool_decide (0 <= pid < 2 ^ 31) && bool_decide (0 <= uid < 2 ^ 31)
    && bool_decide (length (comm name) = 16%nat) = true ->
  task_wf (task_of pid uid name).
Proof.
  intros E. bool_prop. unfold task_of. split; simpl; unfold is_unsigned.
  1-2: rewrite Z.shiftl_mul_pow2 by lia; lia.
  - done.
  - apply Forall_take, Forall_app. split; [apply bs_is_bytes|].
    apply Forall_replicate. unfold is_byte. lia.
Qed.
#[export] Hint Extern 1 (task_wf _) => (apply task_of_wf; vm_compute; reflexivity) : alphvdr.
End Demo.

Section witnesses.
Import Demo.

Lemma handle_execve_verdict_witness :
  banned_tool (comm "podman") /\
  trapped (task_of 42 1000 "podman") true (-4) 1000 "UNAUTHORIZED_EXEC_TRAP" sensor0
    (handle_execve (task_of 42 1000 "podman") (ctx_of [500]) sensor0).2.
Proof.
  assert (Hb : banned_tool (comm "podman")) by (vm_compute; reflexivity).
  split; [exact Hb|].
  exact (proj1 (handle_execve_verdict (task_of 42 1000 "podman") (ctx_of [500]) sensor0
    ltac:(auto with alphvdr)) Hb).
Defined.

Lemma handle_execve_report_witness :
  emitted sensor0 (handle_execve (task_of 42 1000 "bash") (ctx_of [500]) sensor0).2
    (fun stale f => f = EventFields 42 7 1000 (comm "bash")
       (bs "/usr/bin/ls" ++ 0 :: drop 12 (drop 28 stale))).
Proof.
  exact (handle_execve_report (task_of 42 1000 "bash") (ctx_of [500]) sensor0 (bs "/usr/bin/ls")
    ltac:(auto with alphvdr) ltac:(vm_compute; reflexivity) ltac:(vm_compute; reflexivity)).
Defined.

Lemma kprobe_vfs_open_honeytoken_witness :
  honey_breach sensor0 12288 /\
  trapped (task_of 42 1000 "cat") false (-1) (tk_uid_gid (task_of 42 1000 "cat"))
    "HONEYTOKEN_TRIGGERED" sensor0
    (kprobe_vfs_open (task_of 42 1000 "cat") 0 12288 sensor0).2.
Proof.
  assert (Hb : honey_breach sensor0 12288).
  { right. split; [vm_compute; reflexivity|left; vm_compute; reflexivity]. }
  split; [exact Hb|].
  exact (proj1 (kprobe_vfs_open_honeytoken (task_of 42 1000 "cat") 0 12288 sensor0
    ltac:(auto with alphvdr)) Hb).
Defined.

Lemma memory_scrape_trap_witness :
  ghost_target sensor0 55 /\
  trapped (task_of 42 0 "gdb") false (-2) 0 "GHOST_PROCESS_TRAP" sensor0
    (handle_ptrace (task_of 42 0 "gdb") (ctx_of [16; 55]) sensor0).2.
Proof.
  assert (Hg : ghost_target sensor0 55) by (vm_compute; reflexivity).
  split; [exact Hg|].
  exact (proj1 (memory_scrape_trap (task_of 42 0 "gdb") (ctx_of [16; 55]) sensor0
    ltac:(auto with alphvdr)) Hg).
Defined.

Lemma handle_kill_self_defense_witness :
  trapped (task_of 42 0 "bash") true 77 0 "SELF_DEFENSE_TRAP" sensor0
    (handle_kill (task_of 42 0 "bash") (ctx_of [77; 9]) sensor0).2.
Proof.
  exact (proj1 (handle_kill_self_defense (task_of 42 0 "bash") (ctx_of [77; 9]) sensor0
    ltac:(auto with alphvdr)) ltac:(vm_compute; reflexivity)).
Defined.

(** Two creations by the process 42, one by 43 and one by the agent 77. *)
Definition creating : list (task * bytes) :=
  [(task_of 42 0 "dd", ctx_of [0; 0; 64]); (task_of 77 0 "edr", ctx_of [0; 0; 64]);
   (task_of 43 0 "cp", ctx_of [0; 0; 64]); (task_of 42 0 "dd", ctx_of [0; 0; 64])].
Lemma creating_wf : Forall (fun x => task_wf x.1) creating.
Proof.
  repeat (apply Forall_cons; split; [apply task_of_wf; vm_compute; reflexivity|]).
  by apply Forall_nil.
Qed.

Lemma openat_freezes_exactly_witness :
  sigstops 42 (run_all handle_openat creating declared_sensor) = 1 /\
  count (file_creation_counts (run_all handle_openat creating declared_sensor)) 42 = 0.
Proof.
  assert (E : counted_ops creates declared_sensor creating = [42; 43; 42]) by (vm_compute; reflexivity).
  refine (proj2 (openat_freezes_exactly declared_sensor creating 42 creating_wf _ _) _); rewrite ?E.
  - vm_compute. split; discriminate.
  - repeat split; intros; vm_compute; reflexivity.
  - repeat split; intros; first [vm_compute; reflexivity|congruence].
Defined.

Lemma sendto_freezes_exactly_witness :
  sigstops 42 (run_all handle_sendto creating declared_sensor) = 1 /\
  count (journal_spam_counts (run_all handle_sendto creating declared_sensor)) 42 = 0.
Proof.
  assert (E : counted_ops (fun _ => true) declared_sensor creating = [42; 43; 42]) by (vm_compute; reflexivity).
  refine (proj2 (sendto_freezes_exactly declared_sensor creating 42 creating_wf _ _) _); rewrite ?E.
  - vm_compute. split; discriminate.
  - repeat split; intros; vm_compute; reflexivity.
  - repeat split; intros; first [vm_compute; reflexivity|congruence].
Defined.

Lemma agent_not_counted_witness :
  (handle_openat (task_of 77 0 "edr") (ctx_of [0; 0; 64]) sensor0).2 = sensor0 /\
  (handle_sendto (task_of 77 0 "edr") (ctx_of []) sensor0).2 = sensor0.
Proof.
  split.
  - exact (proj1 (agent_not_counted (task_of 77 0 "edr") (ctx_of [0; 0; 64]) sensor0
      ltac:(auto with alphvdr) ltac:(vm_compute; reflexivity))).
  - exact (proj2 (agent_not_counted (task_of 77 0 "edr") (ctx_of []) sensor0
      ltac:(auto with alphvdr) ltac:(vm_compute; reflexivity))).
Defined.
End witnesses.
