(* ===== verification/Xdp.v ===== *)
(** * The XDP program [xdp_c2_inspector] of [src-bpf/sensor.bpf.c]

    The packet is a block of bytes; pointers are offsets from [ctx->data], and
    [data_end] is the length of the packet.  A read outside the packet makes
    the program [None], so memory safety is the statement that it never is. *)

From stdpp Require Import gmap.
From S2P Require Import Prelude CTypes VmlinuxNet Vmlinux Bpf Sensor.

(** Programs that read packet memory. *)
Definition xdp (M R A : Type) : Type := sensor M R -> option (A * sensor M R).

#[export] Instance xdp_ret {M R} : MRet (xdp M R) := fun A a s => Some (a, s).
#[export] Instance xdp_bind {M R} : MBind (xdp M R) := fun A B f m s =>
  match m s with
  | Some (a, s) => f a s
  | None => None
  end.
Definition lift_bpf {M R A} (m : bpf M R A) : xdp M R A := fun s => Some (m s).

(** [bpf_htons] and [bpf_ntohs] on a little-endian machine. *)
Definition bpf_htons (z : Z) : Z := bswap 2 (u16 z).
Definition bpf_ntohs (z : Z) : Z := bswap 2 (u16 z).

Definition ETH_P_IP : Z := 0x0800.
Definition XDP_PASS : Z := default 0 (enum_val enum_xdp_action "XDP_PASS").
Definition XDP_DROP : Z := default 0 (enum_val enum_xdp_action "XDP_DROP").

Section program.
Context {M R : Type} `{HBM : BpfMap M, HRB : RingBuf R}.

(** [n] bytes of the packet at offset [p]. *)
Definition read (pkt : bytes) (p : Z) (n : nat) : xdp M R bytes := fun s =>
  if (0 <=? p) && (p + Z.of_nat n <=? length pkt) then Some (load (Z.to_nat p) n pkt, s)
  else None.

(** A byte, and an integer member of a header at offset [p]. *)
Definition read_byte (pkt : bytes) (p : Z) : xdp M R Z :=
  b ← read pkt p 1; mret (le_val b).
Definition read_member (pkt : bytes) (t : ctype) (f : string) (p : Z) : xdp M R Z :=
  b ← read pkt (p + Z.of_nat (off t f)) (fsize t f); mret (le_val b).

(** [for (i = 0; i < 128; i++)]: [n] iterations are left, the next is [i]. *)
Fixpoint copy_payload (n i : nat) (pkt : bytes) (data_end payload : Z) (e : bytes)
    : xdp M R bytes :=
  match n with
  | O => mret e
  | S n =>
      if data_end <? payload + i + 1 then mret e
      else
        b ← read_byte pkt (payload + i);
        copy_payload n (S i) pkt data_end payload
          (store (off struct_tls_hello_event "payload" + i) (le_bytes 1 b) e)
  end.

Definition reserve_tls_event : xdp M R (option bytes) := fun s =>
  let r := bpf_ringbuf_reserve (tls_events s) (size struct_tls_hello_event) in
  Some (r.1, set_tls_events r.2 s).
Definition submit_tls_event (e : bytes) : xdp M R unit := fun s =>
  Some (tt, set_tls_events (bpf_ringbuf_submit (tls_events s) e) s).

Definition xdp_c2_inspector (pkt : bytes) : xdp M R Z :=
  let data := 0 in
  let data_end : Z := length pkt in
  let eth := data in
  if data_end <? eth + sizeof struct_ethhdr then mret XDP_PASS else
  h_proto ← read_member pkt struct_ethhdr "h_proto" eth;
  if negb (h_proto =? bpf_htons ETH_P_IP) then mret XDP_PASS else
  let ip := eth + sizeof struct_ethhdr in
  if data_end <? ip + sizeof struct_iphdr then mret XDP_PASS else
  dest_ip ← read_member pkt struct_iphdr "daddr" ip;
  is_blocked ← lift_bpf (gets (fun s => bpf_map_lookup_elem (c2_blocklist s) dest_ip));
  if bool_decide (is_blocked = Some 1) then mret XDP_DROP else
  protocol ← read_member pkt struct_iphdr "protocol" ip;
  if negb (protocol =? 6) then mret XDP_PASS else
  b ← read_byte pkt ip;
  let ip_header_len := Z.land b 0x0F in
  let tcp := ip + ip_header_len * 4 in
  if data_end <? tcp + sizeof struct_tcphdr then mret XDP_PASS else
  dest ← read_member pkt struct_tcphdr "dest" tcp;
  if dest =? bpf_htons 443 then
    b ← read_byte pkt (tcp + 12);
    let data_offset := Z.shiftr b 4 in
    let payload := tcp + data_offset * 4 in
    if data_end <? payload + 3 then mret XDP_PASS else
    p0 ← read_byte pkt payload;
    p1 ← (if p0 =? 0x16 then read_byte pkt (payload + 1) else mret 0);
    if (p0 =? 0x16) && (p1 =? 0x03) then
      e ← reserve_tls_event;
      match e with
      | None => mret XDP_PASS
      | Some e =>
          saddr ← read_member pkt struct_iphdr "saddr" ip;
          let e := set_int struct_tls_hello_event "saddr" saddr e in
          daddr ← read_member pkt struct_iphdr "daddr" ip;
          let e := set_int struct_tls_hello_event "daddr" daddr e in
          let e := set_int struct_tls_hello_event "dport" (bpf_ntohs dest) e in
          let len := i32 (data_end - payload) in
          let len := if 128 <? len then 128 else len in
          e ← copy_payload 128 0 pkt data_end payload e;
          let e := set_int struct_tls_hello_event "payload_len" len e in
          submit_tls_event e ;;
          mret XDP_PASS
      end
    else mret XDP_PASS
  else mret XDP_PASS.
End program.

(** ** Specification

    What the program looks for in a packet, as a parser of the whole packet. *)

(** The destination of an IPv4 packet, as the 32-bit integer its four bytes
    make in memory: 14 bytes of Ethernet and 20 of IPv4 header, EtherType
    0x0800. *)
Definition ipv4_dst (pkt : bytes) : option Z :=
  if decide (34 <= Z.of_nat (length pkt) /\ load 12 2 pkt = [8; 0])
  then Some (le_val (load 30 4 pkt)) else None.

Definition tcp_offset (pkt : bytes) : nat := 14 + 4 * Z.to_nat (Z.land (ch pkt 14) 15).
Definition payload_offset (pkt : bytes) : nat :=
  tcp_offset pkt + 4 * Z.to_nat (Z.shiftr (ch pkt (tcp_offset pkt + 12)) 4).

(** The TCP payload of a packet to port 443 that starts like a TLS handshake
    record (0x16 0x03). *)
Definition client_hello (pkt : bytes) : option bytes :=
  let payload := drop (payload_offset pkt) pkt in
  if decide (ch pkt 23 = 6 /\ (tcp_offset pkt + 20 <= length pkt)%nat /\
             load (tcp_offset pkt + 2) 2 pkt = [1; 187] /\
             (3 <= length payload)%nat /\ load 0 2 payload = [0x16; 0x03])
  then Some payload else None.

(** The record the program submits for a handshake, over the stale contents
    of the reserved one. *)
Definition hello_event (pkt payload stale : bytes) : bytes :=
  store 10 (le_bytes 2 (Z.min 128 (i32 (length payload))))
    (store 12 (take 128 payload)
       (store 8 (le_bytes 2 443)
          (store 4 (load 30 4 pkt) (store 0 (load 26 4 pkt) stale)))).

Section correctness.
Context {M R : Type} `{HBM : BpfMap M, HRB : !RingBuf R, HRL : !RingBufLaws R}.
Implicit Types s : sensor M R.

Definition report_hello (pkt payload : bytes) s : sensor M R :=
  let r := bpf_ringbuf_reserve (tls_events s) 140 in
  match r.1 with
  | None => set_tls_events r.2 s
  | Some stale =>
      set_tls_events (bpf_ringbuf_submit r.2 (hello_event pkt payload stale)) s
  end.

(** The abstract program: the action and the new state. *)
Definition inspect (pkt : bytes) s : Z * sensor M R :=
  match ipv4_dst pkt with
  | None => (XDP_PASS, s)
  | Some d =>
      if decide (bpf_map_lookup_elem (c2_blocklist s) d = Some 1) then (XDP_DROP, s)
      else match client_hello pkt with
           | None => (XDP_PASS, s)
           | Some payload => (XDP_PASS, report_hello pkt payload s)
           end
  end.

Lemma xdp_run_bind {A B} (m : xdp M R A) (f : A -> xdp M R B) s a s' :
  m s = Some (a, s') -> (m ≫= f) s = f a s'.
Proof. intros E. unfold mbind, xdp_bind. by rewrite E. Qed.

Lemma read_ok pkt p n s :
  0 <= p -> p + Z.of_nat n <= length pkt ->
  read (M := M) (R := R) pkt p n s = Some (load (Z.to_nat p) n pkt, s).
Proof.
  intros. unfold read. by rewrite (proj2 (Z.leb_le 0 p)), (proj2 (Z.leb_le _ _)) by lia.
Qed.

Lemma load_one (m : bytes) i : (i < length m)%nat -> load i 1 m = [ch m i].
Proof. intros. rewrite load_nth by lia. simpl. by rewrite Nat.add_0_r. Qed.

Lemma read_byte_ok pkt p s :
  0 <= p < length pkt ->
  read_byte (M := M) (R := R) pkt p s = Some (ch pkt (Z.to_nat p), s).
Proof.
  intros. unfold read_byte. erewrite xdp_run_bind by (apply read_ok; lia).
  rewrite load_one by lia. simpl. by rewrite Z.add_0_r.
Qed.

Lemma read_member_ok pkt t f p s :
  0 <= p -> p + Z.of_nat (off t f) + Z.of_nat (fsize t f) <= length pkt ->
  read_member (M := M) (R := R) pkt t f p s =
    Some (le_val (load (Z.to_nat p + off t f) (fsize t f) pkt), s).
Proof.
  intros. unfold read_member. erewrite xdp_run_bind by (apply read_ok; lia).
  by replace (Z.to_nat (p + Z.of_nat (off t f))) with (Z.to_nat p + off t f)%nat by lia.
Qed.

Lemma ch_is_byte pkt i : is_bytes pkt -> is_byte (ch pkt i).
Proof.
  intros Hb. unfold ch. destruct (decide (i < length pkt)%nat) as [Hi|Hi].
  - destruct (lookup_lt_is_Some_2 pkt i Hi) as [x Hx]. rewrite (nth_lookup_Some _ _ _ _ Hx).
    by eapply Forall_lookup_1.
  - rewrite nth_overflow by lia. unfold is_byte. lia.
Qed.

Lemma copy_payload_ok pkt payload n i e s :
  is_bytes pkt -> (payload <= length pkt)%nat -> (i + n = 128)%nat -> length e = 140%nat ->
  copy_payload (M := M) (R := R) n i pkt (length pkt) payload e s =
    Some (store (12 + i) (take n (drop i (drop payload pkt))) e, s).
Proof.
  intros Hb Hp. revert i e. induction n as [|n IH]; intros i e Hi He.
  { simpl. by rewrite store_nil. }
  cbn [copy_payload]. destruct (Z.ltb_spec (length pkt) (payload + i + 1)).
  { rewrite drop_drop, drop_ge by lia. simpl. by rewrite store_nil. }
  erewrite xdp_run_bind by (apply read_byte_ok; lia).
  replace (Z.to_nat (payload + i)) with (payload + i)%nat by lia.
  change (off struct_tls_hello_event "payload") with 12%nat.
  rewrite IH by first [lia | len_lia].
  pose proof (ch_is_byte pkt (payload + i) Hb) as Hc.
  assert (Ed : drop i (drop payload pkt) = ch pkt (payload + i) :: drop (S i) (drop payload pkt)).
  { rewrite !drop_drop. unfold ch. destruct (lookup_lt_is_Some_2 pkt (payload + i)) as [x Hx]; [lia|].
    rewrite (nth_lookup_Some _ _ _ _ Hx). rewrite (drop_S pkt x) by done.
    do 2 f_equal. lia. }
  rewrite Ed. cbn [take]. unfold is_byte in Hc.
  assert (Eb : le_bytes 1 (ch pkt (payload + i)) = [ch pkt (payload + i)])
    by (cbn [le_bytes]; by rewrite Z.mod_small by lia).
  rewrite Eb. replace (12 + S i)%nat with (12 + i + length [ch pkt (payload + i)])%nat by (simpl; lia).
  rewrite store_adjacent; [done|]. rewrite length_take. simpl. lia.
Qed.

(** The two comparisons with constants in network order. *)
Lemma le_val_eq (l k : bytes) :
  is_bytes l -> is_bytes k -> length l = length k ->
  (le_val l =? le_val k) = bool_decide (l = k).
Proof.
  intros Hl Hk E. apply eq_bool_prop_intro. rewrite Is_true_true, Z.eqb_eq.
  rewrite bool_decide_spec. split; [by apply le_val_inj|by intros ->].
Qed.

Lemma member_eq pkt i n (k : bytes) :
  is_bytes pkt -> is_bytes k -> length k = n -> (i + n <= length pkt)%nat ->
  (le_val (load i n pkt) =? le_val k) = bool_decide (load i n pkt = k).
Proof. intros ? ? <- ?. apply le_val_eq; auto with alphvdr. by rewrite length_load. Qed.

(** The tail of the program, for a packet to port 443 that carries a
    handshake: the record it submits. *)
Lemma reserve_tls_run s :
  reserve_tls_event s =
    Some ((bpf_ringbuf_reserve (tls_events s) 140).1,
          set_tls_events (bpf_ringbuf_reserve (tls_events s) 140).2 s).
Proof. reflexivity. Qed.

(** A 32-bit member copied from the packet into the record. *)
Lemma set_int_load t f pkt (i n o : nat) e :
  is_bytes pkt -> fsize t f = n -> off t f = o -> (i + n <= length pkt)%nat ->
  set_int t f (le_val (load i n pkt)) e = store o (load i n pkt) e.
Proof.
  intros Hb Hn Ho Hi. unfold set_int, set_field. rewrite Hn, Ho. f_equal.
  rewrite <- (length_load i n pkt) at 1 by done. apply le_bytes_le_val; auto with alphvdr.
Qed.

Lemma payload_len_min n : (if 128 <? i32 n then 128 else i32 n) = Z.min 128 (i32 n).
Proof. destruct (Z.ltb_spec 128 (i32 n)); lia. Qed.

Lemma load_is_drop (pkt : bytes) (p n : nat) : load p n pkt = load 0 n (drop p pkt).
Proof. done. Qed.

Lemma load_two (m : bytes) i : (i + 2 <= length m)%nat -> load i 2 m = [ch m i; ch m (S i)].
Proof. intros. rewrite load_nth by lia. simpl. unfold ch. repeat f_equal; lia. Qed.

Lemma read_member_at pkt t f p s (q o n : nat) :
  0 <= p -> off t f = o -> fsize t f = n -> (Z.to_nat p + o)%nat = q ->
  q + n <= length pkt ->
  read_member (M := M) (R := R) pkt t f p s = Some (le_val (load q n pkt), s).
Proof. intros ? Ho Hn <- ?. rewrite read_member_ok; [by rewrite Ho, Hn|done|lia]. Qed.

Ltac lit_bytes := apply (bool_decide_unpack (is_bytes _)); vm_compute; exact I.
Ltac read_at q n :=
  erewrite xdp_run_bind by
    (eapply (read_member_at _ _ _ _ _ q _ n);
      [lia|vm_compute; reflexivity|reflexivity|lia|lia]).
Ltac read_byte_at := erewrite xdp_run_bind by (apply read_byte_ok; lia).

Lemma tcp_offset_bounds pkt :
  is_bytes pkt -> 0 <= Z.land (ch pkt 14) 15 < 16 /\
  0 <= Z.shiftr (ch pkt (tcp_offset pkt + 12)) 4 < 16.
Proof.
  intros Hb. change 15 with (Z.ones 4). rewrite Z.land_ones by lia. split.
  - by apply Z.mod_pos_bound.
  - pose proof (ch_is_byte pkt (tcp_offset pkt + 12) Hb) as Hc. unfold is_byte in Hc.
    rewrite Z.shiftr_div_pow2 by lia. split; [apply Z.div_pos; lia|].
    apply Z.div_lt_upper_bound; lia.
Qed.

(** The record built from the packet. *)
Lemma report_hello_run pkt (payload : nat) s :
  is_bytes pkt -> 34 <= length pkt -> (payload <= length pkt)%nat ->
  (e ← reserve_tls_event (M := M) (R := R);
   match e with
   | None => mret XDP_PASS
   | Some e =>
       saddr ← read_member pkt struct_iphdr "saddr" (0 + 14);
       daddr ← read_member pkt struct_iphdr "daddr" (0 + 14);
       e ← copy_payload 128 0 pkt (length pkt) payload
             (set_int struct_tls_hello_event "dport" (bpf_ntohs (le_val [1; 187]))
                (set_int struct_tls_hello_event "daddr" daddr
                   (set_int struct_tls_hello_event "saddr" saddr e)));
       submit_tls_event
         (set_int struct_tls_hello_event "payload_len"
            (Z.min 128 (i32 (length pkt - payload))) e) ;;
       mret XDP_PASS
   end) s = Some (XDP_PASS, report_hello pkt (drop payload pkt) s).
Proof.
  intros Hb Hl Hp. erewrite xdp_run_bind by apply reserve_tls_run.
  unfold report_hello. destruct (bpf_ringbuf_reserve (tls_events s) 140) as [o r] eqn:Er. cbn [fst snd].
  destruct o as [e|]; [|done]. destruct (reserve_length _ _ _ _ Er) as [He _].
  read_at 26%nat 4%nat. read_at 30%nat 4%nat.
  rewrite (set_int_load _ "saddr" pkt 26 4 0), (set_int_load _ "daddr" pkt 30 4 4)
    by first [exact Hb | vm_compute; reflexivity | lia].
  change (set_int struct_tls_hello_event "dport" (bpf_ntohs (le_val [1; 187])))
    with (store 8 (le_bytes 2 443)).
  assert (length (load 26 4 pkt) = 4%nat) by (apply length_load; lia).
  assert (length (load 30 4 pkt) = 4%nat) by (apply length_load; lia).
  erewrite xdp_run_bind; [|apply copy_payload_ok; [done|done|lia|len_lia]].
  rewrite drop_0, Nat.add_0_r. unfold hello_event. rewrite length_drop.
  replace (Z.of_nat (length pkt - payload)) with (length pkt - payload) by lia. done.
Qed.

(** The program runs as [inspect] on every packet. *)
Lemma xdp_c2_inspector_run pkt s :
  is_bytes pkt -> xdp_c2_inspector pkt s = Some (inspect pkt s).
Proof.
  intros Hb. unfold xdp_c2_inspector, inspect, ipv4_dst. cbv beta zeta.
  change (sizeof struct_ethhdr) with 14. change (sizeof struct_iphdr) with 20.
  change (sizeof struct_tcphdr) with 20.
  destruct (Z.ltb_spec (length pkt) (0 + 14)); [rewrite decide_False by lia; done|].
  read_at 12%nat 2%nat.
  change (bpf_htons ETH_P_IP) with (le_val [8; 0]).
  rewrite (member_eq pkt 12 2 [8; 0]) by first [lit_bytes | done | lia].
  destruct (bool_decide_reflect (load 12 2 pkt = [8; 0])); cbn [negb];
    [|rewrite decide_False by naive_solver; done].
  destruct (Z.ltb_spec (length pkt) (0 + 14 + 20)); [rewrite decide_False by lia; done|].
  rewrite decide_True by (split; [lia|done]). read_at 30%nat 4%nat.
  erewrite xdp_run_bind by reflexivity. cbn [gets fst].
  destruct (bool_decide_reflect
    (bpf_map_lookup_elem (c2_blocklist s) (le_val (load 30 4 pkt)) = Some 1));
    [by rewrite decide_True|rewrite decide_False by done].
  read_at 23%nat 1%nat. rewrite load_one by lia. cbn [le_val]. rewrite Z.mul_0_r, Z.add_0_r.
  unfold client_hello.
  destruct (Z.eqb_spec (ch pkt 23) 6); cbn [negb]; [|by rewrite decide_False by tauto].
  read_byte_at. change (Z.to_nat (0 + 14)) with 14%nat.
  destruct (tcp_offset_bounds pkt Hb) as [Hi Hd].
  replace (0 + 14 + Z.land (ch pkt 14) 15 * 4) with (Z.of_nat (tcp_offset pkt))
    by (unfold tcp_offset; lia).
  destruct (Z.ltb_spec (length pkt) (tcp_offset pkt + 20));
    [by rewrite decide_False by lia|].
  read_at (tcp_offset pkt + 2)%nat 2%nat.
  change (bpf_htons 443) with (le_val [1; 187]).
  rewrite (member_eq pkt _ 2 [1; 187]) by first [lit_bytes | done | lia].
  destruct (bool_decide_reflect (load (tcp_offset pkt + 2) 2 pkt = [1; 187])) as [->|];
    [|by rewrite decide_False by tauto].
  read_byte_at. replace (Z.to_nat (tcp_offset pkt + 12)) with (tcp_offset pkt + 12)%nat by lia.
  replace (tcp_offset pkt + Z.shiftr (ch pkt (tcp_offset pkt + 12)) 4 * 4)
    with (Z.of_nat (payload_offset pkt)) by (unfold payload_offset; lia).
  rewrite length_drop, <- load_is_drop.
  destruct (Z.ltb_spec (length pkt) (payload_offset pkt + 3));
    [by rewrite decide_False by lia|].
  read_byte_at. rewrite Nat2Z.id, load_two by lia.
  destruct (Z.eqb_spec (ch pkt (payload_offset pkt)) 22) as [E0|];
    [|erewrite xdp_run_bind by reflexivity; rewrite decide_False by naive_solver; done].
  read_byte_at. replace (Z.to_nat (payload_offset pkt + 1)) with (S (payload_offset pkt)) by lia.
  destruct (Z.eqb_spec (ch pkt (S (payload_offset pkt))) 3) as [E1|]; cbn [andb];
    [|rewrite decide_False by naive_solver; done].
  rewrite decide_True by (rewrite E0, E1; split_and!; first [done|lia]).
  rewrite payload_len_min. apply report_hello_run; first [done|lia].
Qed.

(** C15: whatever the packet (no length or header field is assumed well
    formed), the program never reads outside it, and its result is
    [XDP_PASS] or [XDP_DROP]; apart from the TLS ring it changes no state. *)
Theorem xdp_memory_safe pkt s :
  is_bytes pkt ->
  exists action s', xdp_c2_inspector pkt s = Some (action, s') /\
    (action = XDP_PASS \/ action = XDP_DROP) /\
    s' = set_tls_events (tls_events s') s.
Proof.
  intros Hb. exists (inspect pkt s).1, (inspect pkt s).2.
  rewrite xdp_c2_inspector_run by done. unfold inspect, report_hello.
  destruct s. repeat case_match; simpl; auto.
Qed.

(** The verdict on a packet with a whole IPv4 header. *)
Lemma ipv4_drop_iff pkt s :
  is_bytes pkt -> 34 <= length pkt -> load 12 2 pkt = [8; 0] ->
  (fst <$> xdp_c2_inspector pkt s = Some XDP_DROP <->
   bpf_map_lookup_elem (c2_blocklist s) (le_val (load 30 4 pkt)) = Some 1).
Proof.
  intros Hb Hl Hip. rewrite xdp_c2_inspector_run by done. unfold inspect, ipv4_dst.
  rewrite decide_True by done. case_decide; simpl; [naive_solver|].
  destruct (client_hello pkt); simpl; naive_solver.
Qed.

(** C13: a packet is dropped exactly when it is an Ethernet frame with
    EtherType IPv4, long enough for an IPv4 header, whose destination
    address is in the blocklist with value 1. *)
Theorem xdp_drops_exactly_blocked pkt s :
  is_bytes pkt ->
  (fst <$> xdp_c2_inspector pkt s = Some XDP_DROP <->
   34 <= length pkt /\ load 12 2 pkt = [8; 0] /\
   bpf_map_lookup_elem (c2_blocklist s) (le_val (load 30 4 pkt)) = Some 1).
Proof.
  intros Hb. rewrite xdp_c2_inspector_run by done. unfold inspect, ipv4_dst.
  destruct (decide (34 <= length pkt /\ load 12 2 pkt = [8; 0])) as [|].
  - case_decide; simpl; [naive_solver|]. destruct (client_hello pkt); simpl; naive_solver.
  - simpl. naive_solver.
Qed.

Lemma app_singleton_ne {A} (l : list A) x : l ++ [x] <> l.
Proof. intros E%(f_equal length). rewrite length_app in E. simpl in E. lia. Qed.

Lemma report_hello_records pkt payload s :
  records (tls_events (report_hello pkt payload s)) =
    records (tls_events s) ++
      (if (bpf_ringbuf_reserve (tls_events s) 140).1 is Some stale
       then [hello_event pkt payload stale] else []).
Proof.
  unfold report_hello. pose proof (reserve_records (tls_events s) 140) as Hr.
  destruct (bpf_ringbuf_reserve (tls_events s) 140) as [[stale|] r]; cbn in Hr |- *.
  - by rewrite submit_records, Hr.
  - by rewrite app_nil_r.
Qed.

(** The reports of a run. *)
Lemma inspect_records pkt s :
  records (tls_events (inspect pkt s).2) = records (tls_events s) ++
    match ipv4_dst pkt, client_hello pkt, (bpf_ringbuf_reserve (tls_events s) 140).1 with
    | Some d, Some payload, Some stale =>
        if decide (bpf_map_lookup_elem (c2_blocklist s) d = Some 1) then []
        else [hello_event pkt payload stale]
    | _, _, _ => []
    end.
Proof.
  unfold inspect. destruct (ipv4_dst pkt); [|by rewrite app_nil_r].
  case_decide; [by repeat case_match; rewrite app_nil_r|].
  destruct (client_hello pkt); [|by rewrite app_nil_r].
  cbn [snd]. rewrite report_hello_records. by case_match.
Qed.

Lemma take_load n o k (m : bytes) : take n (load o k m) = load o (n `min` k) m.
Proof. unfold load. by rewrite take_take. Qed.

(** What the fields of a submitted record decode to. *)
Lemma hello_event_fields pkt payload stale :
  34 <= length pkt -> length stale = 140%nat -> length payload < 2 ^ 31 ->
  let e := hello_event pkt payload stale in
  let n := length (take 128 payload) in
  get_field struct_tls_hello_event "saddr" e = load 26 4 pkt /\
  get_field struct_tls_hello_event "daddr" e = load 30 4 pkt /\
  le_val (get_field struct_tls_hello_event "dport" e) = 443 /\
  le_val (get_field struct_tls_hello_event "payload_len" e) = n /\
  take n (get_field struct_tls_hello_event "payload" e) = take 128 payload.
Proof.
  intros Hp Hs Hl. cbv zeta. unfold hello_event, get_field.
  assert (length (load 26 4 pkt) = 4%nat) by (apply length_load; lia).
  assert (length (load 30 4 pkt) = 4%nat) by (apply length_load; lia).
  assert (Et : length (take 128 payload) = (128 `min` length payload)%nat) by (by rewrite length_take).
  change (off struct_tls_hello_event "saddr") with 0%nat.
  change (off struct_tls_hello_event "daddr") with 4%nat.
  change (off struct_tls_hello_event "dport") with 8%nat.
  change (off struct_tls_hello_event "payload_len") with 10%nat.
  change (off struct_tls_hello_event "payload") with 12%nat.
  change (fsize struct_tls_hello_event "saddr") with 4%nat.
  change (fsize struct_tls_hello_event "daddr") with 4%nat.
  change (fsize struct_tls_hello_event "dport") with 2%nat.
  change (fsize struct_tls_hello_event "payload_len") with 2%nat.
  change (fsize struct_tls_hello_event "payload") with 128%nat.
  split_and!; mem_norm; try done.
  - rewrite le_val_le_bytes, swrap_small by (unfold is_signed; lia).
    rewrite uwrap_small by (unfold is_unsigned; lia). lia.
  - rewrite take_load, Nat.min_l by lia. apply load_store_same; len_lia.
Qed.

(** The record of a reported packet holds its source and destination
    address as they are in the packet, port 443, and as [payload_len] the
    payload's length or 128 if it is longer; its payload starts with that
    many bytes of the packet's. *)
Theorem xdp_report_contents pkt s a s' e :
  is_bytes pkt -> length pkt < 2 ^ 31 ->
  xdp_c2_inspector pkt s = Some (a, s') ->
  records (tls_events s') = records (tls_events s) ++ [e] ->
  exists payload n, client_hello pkt = Some payload /\
    n = (128 `min` length payload)%nat /\
    get_field struct_tls_hello_event "saddr" e = load 26 4 pkt /\
    get_field struct_tls_hello_event "daddr" e = load 30 4 pkt /\
    le_val (get_field struct_tls_hello_event "dport" e) = 443 /\
    le_val (get_field struct_tls_hello_event "payload_len" e) = n /\
    take n (get_field struct_tls_hello_event "payload" e) = take n payload.
Proof.
  intros Hb Hl. rewrite xdp_c2_inspector_run by done. intros [= Ei].
  replace s' with (inspect pkt s).2 by (by rewrite Ei). rewrite inspect_records.
  intros E%app_inv_head. unfold ipv4_dst in E. case_decide as Hlen; [|done].
  destruct (client_hello pkt) as [pl|] eqn:Ec; [|done].
  destruct (bpf_ringbuf_reserve _ _) as [[stale|] r] eqn:Er; [|done]. cbn [fst] in E.
  case_decide; [done|]. injection E as <-. destruct (reserve_length _ _ _ _ Er) as [Hs _].
  assert (length pl <= length pkt).
  { unfold client_hello in Ec. case_decide; [|done]. injection Ec as <-. rewrite length_drop. lia. }
  exists pl, (length (take 128 pl)). split; [done|]. split; [by rewrite length_take|].
  replace (take (length (take 128 pl)) pl) with (take 128 pl)
    by (rewrite length_take; destruct (decide (128 <= length pl)%nat);
        [by rewrite Nat.min_l by lia | by rewrite Nat.min_r, !take_ge by lia]).
  apply hello_event_fields; [lia|done|lia].
Qed.
(** C36: a TLS report is submitted exactly for an IPv4 packet that is not
    dropped, carries TCP to port 443 with a payload that starts 0x16 0x03,
    when the ring can reserve a record; and then one record is submitted, which
    holds the packet's source and destination address as they are in it, port
    443, as [payload_len] the payload's length or 128 if it is longer, and that
    many bytes of the payload. *)
Theorem xdp_reports_exactly pkt s a s' :
  is_bytes pkt -> length pkt < 2 ^ 31 -> xdp_c2_inspector pkt s = Some (a, s') ->
  (records (tls_events s') <> records (tls_events s) <->
   exists d payload, ipv4_dst pkt = Some d /\
     bpf_map_lookup_elem (c2_blocklist s) d <> Some 1 /\
     client_hello pkt = Some payload /\
     is_Some (bpf_ringbuf_reserve (tls_events s) 140).1) /\
  (records (tls_events s') <> records (tls_events s) ->
   exists e payload n, records (tls_events s') = records (tls_events s) ++ [e] /\
     client_hello pkt = Some payload /\ n = (128 `min` length payload)%nat /\
     get_field struct_tls_hello_event "saddr" e = load 26 4 pkt /\
     get_field struct_tls_hello_event "daddr" e = load 30 4 pkt /\
     le_val (get_field struct_tls_hello_event "dport" e) = 443 /\
     le_val (get_field struct_tls_hello_event "payload_len" e) = n /\
     take n (get_field struct_tls_hello_event "payload" e) = take n payload).
Proof.
  intros Hb Hl Hx. assert (Hr : records (tls_events s') = records (tls_events (inspect pkt s).2)).
  { rewrite xdp_c2_inspector_run in Hx by done. by injection Hx as ->. }
  split.
  - rewrite Hr, inspect_records. split.
    + repeat case_match; rewrite ?app_nil_r; naive_solver.
    + intros (d & pl & -> & ? & -> & [e ->]). rewrite decide_False by done. apply app_singleton_ne.
  - intros Hne. assert (He : exists e, records (tls_events s') = records (tls_events s) ++ [e]).
    { rewrite Hr, inspect_records in Hne |- *. repeat case_match; rewrite ?app_nil_r in *; by eauto. }
    destruct He as [e He]. destruct (xdp_report_contents pkt s a s' e Hb Hl Hx He) as (pl & n & H).
    by exists e, pl, n.
Qed.
End correctness.

(** ** Witnesses *)

Section witnesses.
(** A frame from 10.0.0.1 to [dst] carrying a TLS handshake to port 443. *)
Definition demo_packet (dst : bytes) (payload : bytes) : bytes :=
  replicate 12 0 ++ [8; 0] ++
  [0x45; 0; 0; 60; 0; 0; 0; 0; 64; 6; 0; 0; 10; 0; 0; 1] ++ dst ++
  [200; 0; 1; 187; 0; 0; 0; 0; 0; 0; 0; 0; 0x50; 24; 0; 0; 0; 0; 0; 0] ++ payload.

(** 203.0.113.9 is blocked. *)
Definition demo_sensor : sensor (gmap Z Z) ring :=
  Sensor {[ le_val [203; 0; 113; 9] := 1 ]} ∅ ∅ ∅ ∅ ∅ (Ring [] [])
    (Ring [replicate 140 170] []) [].

Lemma xdp_memory_safe_witness :
  exists action s', xdp_c2_inspector (take 53 (demo_packet [10; 0; 0; 2] [])) demo_sensor =
    Some (action, s') /\ (action = XDP_PASS \/ action = XDP_DROP) /\
    s' = set_tls_events (tls_events s') demo_sensor.
Proof. apply xdp_memory_safe. apply (bool_decide_unpack _). vm_compute. exact I. Defined.

Lemma xdp_drops_exactly_blocked_witness :
  fst <$> xdp_c2_inspector (demo_packet [203; 0; 113; 9] []) demo_sensor = Some XDP_DROP.
Proof.
  apply xdp_drops_exactly_blocked.
  - apply (bool_decide_unpack _). vm_compute. exact I.
  - split_and!; by vm_compute.
Defined.

Lemma xdp_reports_exactly_witness :
  exists a s', xdp_c2_inspector (demo_packet [10; 0; 0; 2] [22; 3; 1]) demo_sensor = Some (a, s') /\
    records (tls_events s') <> [].
Proof.
  eexists _, _. split; [vm_compute; reflexivity|].
  refine (proj2 (proj1 (xdp_reports_exactly (demo_packet [10; 0; 0; 2] [22; 3; 1]) demo_sensor
    XDP_PASS _ _ _ _)) _);
    [apply (bool_decide_unpack _); vm_compute; exact I|vm_compute; reflexivity|vm_compute; reflexivity|].
  exists (le_val [10; 0; 0; 2]), [22; 3; 1].
  split_and!; [by vm_compute|by vm_compute|by vm_compute|by eexists; vm_compute].
Defined.

Lemma xdp_report_contents_witness :
  exists e payload, records (tls_events (default (0, demo_sensor)
      (xdp_c2_inspector (demo_packet [10; 0; 0; 2] [22; 3; 1; 9]) demo_sensor)).2) = [e] /\
    client_hello (demo_packet [10; 0; 0; 2] [22; 3; 1; 9]) = Some payload /\
    le_val (get_field struct_tls_hello_event "payload_len" e) = 4.
Proof.
  eexists _, _. split; [vm_compute; reflexivity|]. 
  edestruct (xdp_report_contents (demo_packet [10; 0; 0; 2] [22; 3; 1; 9]) demo_sensor)
    as (pl & n & H1 & H2 & _ & _ & _ & H3 & _).
  - apply (bool_decide_unpack _). vm_compute. exact I.
  - by vm_compute.
  - vm_compute. reflexivity.
  - vm_compute. reflexivity.
  - vm_compute in H1. injection H1 as <-. split; [vm_compute; reflexivity|].
    rewrite H2 in H3. exact H3.
Defined.
End witnesses.
