(* ===== verification/Kernel.v ===== *)
(** * The kernel side as a whole: [src-bpf/sensor.bpf.c]

    All programs of the sensor run on the same maps and rings.  This file runs
    any sequence of them and shows the types of what they share: which maps
    only user space writes, what a submitted record is, and what the counting
    maps and the signals hold. *)

From stdpp Require Import gmap.
From S2P Require Import Prelude CTypes VmlinuxTask VmlinuxFs Vmlinux Bpf Maps Sensor Xdp.

(** ** The programs and what starts them *)

Inductive hook :=
  | Execve (tk : task) (ctx : bytes)
  | VfsOpen (tk : task) (path file : Z)
  | Ptrace (tk : task) (ctx : bytes)
  | ProcessVmReadv (tk : task) (ctx : bytes)
  | Kill (tk : task) (ctx : bytes)
  | Openat (tk : task) (ctx : bytes)
  | Sendto (tk : task) (ctx : bytes)
  | Packet (pkt : bytes).

(** The current task is well formed, a packet is made of bytes. *)
Definition hook_wf (h : hook) : Prop :=
  match h with
  | Execve tk _ | VfsOpen tk _ _ | Ptrace tk _ | ProcessVmReadv tk _ | Kill tk _ | Openat tk _ | Sendto tk _ =>
      task_wf tk
  | Packet pkt => is_bytes pkt
  end.

(** The task a hook runs in; a packet is processed outside any. *)
Definition hook_task (h : hook) : option task :=
  match h with
  | Execve tk _ | VfsOpen tk _ _ | Ptrace tk _ | ProcessVmReadv tk _ | Kill tk _ | Openat tk _ | Sendto tk _ =>
      Some tk
  | Packet _ => None
  end.

Section kernel.
Context {M R : Type} `{HBM : BpfMap M, HBL : !BpfMapLaws M, HRB : !RingBuf R, HRL : !RingBufLaws R,
  HKM : KernelMemory, HKL : !KernelMemoryLaws}.
Implicit Types (tk : task) (s : sensor M R).

(** The program attached to a hook; [None] is an access outside the packet. *)
Definition run_hook (h : hook) s : option (sensor M R) :=
  match h with
  | Execve tk ctx => Some (handle_execve tk ctx s).2
  | VfsOpen tk path file => Some (kprobe_vfs_open tk path file s).2
  | Ptrace tk ctx => Some (handle_ptrace tk ctx s).2
  | ProcessVmReadv tk ctx => Some (handle_process_vm_readv tk ctx s).2
  | Kill tk ctx => Some (handle_kill tk ctx s).2
  | Openat tk ctx => Some (handle_openat tk ctx s).2
  | Sendto tk ctx => Some (handle_sendto tk ctx s).2
  | Packet pkt => snd <$> xdp_c2_inspector pkt s
  end.

Fixpoint run_hooks (hs : list hook) s : option (sensor M R) :=
  match hs with
  | [] => Some s
  | h :: hs => s ← run_hook h s; run_hooks hs s
  end.

(** ** Types of the shared state *)

Definition raw_event (e : bytes) : Prop := length e = size struct_event /\ is_bytes e.
Definition typed_tls_event (e : bytes) : Prop := length e = size struct_tls_hello_event /\ is_bytes e.

(** [who] are the processes that act, as the signed ids of a record: a record
    names one of them, and a signal is SIGSTOP to one of them. *)
Context (who : Z -> Prop).

Definition typed_event (e : bytes) : Prop := raw_event e /\ who (ev_pid (decode_event e)).
Definition typed_signal (p : Z * Z) : Prop := is_unsigned 32 p.1 /\ who (i32 p.1) /\ p.2 = 19.
Definition actor (tk : task) : Prop := task_wf tk /\ who (i32 (tgid tk)).

(** From [s] to [s'] only typed things were added, and the maps that user
    space owns are the same. *)
Record evolves (s s' : sensor M R) : Prop := {
  ev_maps : c2_blocklist s' = c2_blocklist s /\ honeytokens s' = honeytokens s /\
            ghost_pids s' = ghost_pids s /\ agent_pid s' = agent_pid s;
  ev_events : exists l, records (events s') = records (events s) ++ l /\ Forall typed_event l;
  ev_tls : exists l, records (tls_events s') = records (tls_events s) ++ l /\ Forall typed_tls_event l;
  ev_signals : exists l, signals s' = signals s ++ l /\ Forall typed_signal l;
  ev_files : typed_map decl.file_creation_counts (file_creation_counts s) ->
             typed_map decl.file_creation_counts (file_creation_counts s');
  ev_journal : typed_map decl.journal_spam_counts (journal_spam_counts s) ->
               typed_map decl.journal_spam_counts (journal_spam_counts s')
}.

Lemma added_nil {A} (P : A -> Prop) (l : list A) : exists r, l = l ++ r /\ Forall P r.
Proof. exists []. by rewrite app_nil_r. Qed.
Lemma added_trans {A} (P : A -> Prop) (a b c : list A) :
  (exists r, b = a ++ r /\ Forall P r) -> (exists r, c = b ++ r /\ Forall P r) ->
  exists r, c = a ++ r /\ Forall P r.
Proof.
  intros (r1 & -> & H1) (r2 & -> & H2). exists (r1 ++ r2). rewrite app_assoc. split; [done|by apply Forall_app].
Qed.

#[export] Instance evolves_preorder : PreOrder evolves.
Proof.
  split.
  - intros s. split; auto using added_nil.
  - intros s1 s2 s3 [M1 E1 T1 S1 F1 J1] [M2 E2 T2 S2 F2 J2]. split; eauto using added_trans.
    destruct M1 as (-> & -> & -> & ->) in M2 |- *. done.
Qed.

Lemma evolves_typed s s' : evolves s s' -> typed_maps s -> typed_maps s'.
Proof. intros [(E1 & E2 & E3 & E4) _ _ _ Hf Hj] []. split; rewrite ?E1, ?E2, ?E3, ?E4; auto. Qed.

(** ** The primitives *)

(** A computation that only evolves the state. *)
Definition typed_prog {A} (m : bpf M R A) : Prop := forall s, evolves s (m s).2.

Lemma typed_ret {A} (a : A) : typed_prog (mret a).
Proof. intros s. done. Qed.
Lemma typed_gets {A} (f : sensor M R -> A) : typed_prog (gets f).
Proof. intros s. done. Qed.
Lemma typed_bind {A B} (m : bpf M R A) (f : A -> bpf M R B) :
  typed_prog m -> (forall a, typed_prog (f a)) -> typed_prog (m ≫= f).
Proof. intros Hm Hf s. rewrite run_bind. etrans; [apply Hm|apply Hf]. Qed.

Lemma tgid_range tk : is_unsigned 32 (tgid tk).
Proof. apply uwrap_range. lia. Qed.

(** Changing the event ring by reserving in it, and by submitting to it. *)
Lemma evolves_reserve s n : evolves s (set_events (bpf_ringbuf_reserve (events s) n).2 s).
Proof.
  split; cbn; auto using added_nil. rewrite reserve_records. apply added_nil.
Qed.
Lemma evolves_submit s e : typed_event e -> evolves s (set_events (bpf_ringbuf_submit (events s) e) s).
Proof.
  intros He. split; cbn; auto using added_nil. exists [e]. rewrite submit_records. split; [done|by constructor].
Qed.
Lemma evolves_tls_reserve s n : evolves s (set_tls_events (bpf_ringbuf_reserve (tls_events s) n).2 s).
Proof. split; cbn; auto using added_nil. rewrite reserve_records. apply added_nil. Qed.
Lemma evolves_tls_submit s e :
  typed_tls_event e -> evolves s (set_tls_events (bpf_ringbuf_submit (tls_events s) e) s).
Proof.
  intros He. split; cbn; auto using added_nil. exists [e]. rewrite submit_records. split; [done|by constructor].
Qed.

(** [reserve_event], then a typed record from whatever was reserved. *)
Lemma typed_emit {A} (fill : bytes -> bytes) (a b : A) :
  (forall e, raw_event e -> typed_event (fill e)) ->
  typed_prog (r ← reserve_event; match r with
                                 | None => mret a
                                 | Some e => submit_event (fill e) ;; mret b
                                 end).
Proof.
  intros Hfill s. rewrite run_bind. unfold reserve_event. cbn [fst snd].
  pose proof (evolves_reserve s (size struct_event)) as He.
  destruct (bpf_ringbuf_reserve (events s) (size struct_event)) as [[e|] r] eqn:Er; cbn [fst snd] in *; [|done].
  rewrite run_bind. etrans; [exact He|]. apply (evolves_submit (set_events r s)), Hfill.
  by apply reserve_length in Er.
Qed.

Lemma typed_signal_prog tk : actor tk -> typed_prog (bpf_send_signal tk 19).
Proof.
  intros [Hwf Hw] s. split; cbn; auto using added_nil. exists [(tgid tk, 19)]. split; [done|].
  constructor; [|done]. split; [apply tgid_range|done].
Qed.

Lemma typed_update_files k v :
  is_unsigned 32 k -> is_unsigned 64 v -> typed_prog (update_file_creation_counts k v).
Proof.
  intros Hk Hv s. split; cbn; auto using added_nil. intros H. by apply typed_map_update.
Qed.
Lemma typed_update_journal k v :
  is_unsigned 32 k -> is_unsigned 64 v -> typed_prog (update_journal_spam_counts k v).
Proof.
  intros Hk Hv s. split; cbn; auto using added_nil. intros H. by apply typed_map_update.
Qed.

(** ** The records *)

Lemma raw_set_field f v e :
  raw_event e -> is_bytes v -> (off struct_event f + length v <= size struct_event)%nat ->
  raw_event (set_field struct_event f v e).
Proof.
  intros [Hl Hb] Hv Ho. unfold set_field. split.
  - rewrite length_store; [done|]. by rewrite Hl.
  - by apply is_bytes_store.
Qed.
Lemma raw_set_int f v e :
  raw_event e -> (off struct_event f + fsize struct_event f <= size struct_event)%nat ->
  raw_event (set_int struct_event f v e).
Proof.
  intros He Ho. apply raw_set_field; [done|apply le_bytes_is_bytes|]. by rewrite length_le_bytes.
Qed.

Lemma raw_trap pid ppid uid comm msg e :
  length comm = 16%nat -> is_bytes comm -> (length (c_str msg) <= 256)%nat ->
  raw_event e -> raw_event (fill_trap pid ppid uid comm msg e).
Proof.
  intros Hl Hc Hm He. unfold fill_trap.
  assert (Hs : is_bytes (c_str msg)).
  { apply Forall_app. split; [apply bs_is_bytes|]. constructor; [unfold is_byte; lia|done]. }
  apply raw_set_field; [|done|rewrite event_size; change (off struct_event "filename") with 28%nat; lia].
  apply raw_set_field; [|done|rewrite event_size, Hl; vm_compute; lia].
  repeat (apply raw_set_int; [|vm_compute; lia]). done.
Qed.

Lemma typed_emit_trap tk pid ppid uid msg :
  actor tk -> i32 pid = i32 (tgid tk) -> (length (c_str msg) <= 256)%nat ->
  typed_prog (emit_trap pid ppid uid (tk_comm tk) msg).
Proof.
  intros [[_ _ Hl Hc] Hw] Hp Hm s. unfold emit_trap. rewrite run_bind. unfold reserve_event. cbn [fst snd].
  pose proof (evolves_reserve s (size struct_event)) as He.
  destruct (bpf_ringbuf_reserve (events s) (size struct_event)) as [[e|] r] eqn:Er; cbn [fst snd] in *; [|done].
  etrans; [exact He|]. apply reserve_length in Er as Hraw.
  apply (evolves_submit (set_events r s)). split; [by apply raw_trap|].
  rewrite fill_trap_decode; [|by rewrite <- event_size; apply Hraw|done|done]. cbn [ev_pid]. by rewrite Hp.
Qed.

Lemma core_read_bytes t f a : is_bytes (core_read t f a).
Proof. apply probe_read_kernel_bytes. Qed.

(** The ordinary event of an [execve]. *)
Lemma typed_observed tk pid uid ppid comm ptr e :
  actor tk -> i32 pid = i32 (tgid tk) ->
  length comm = 16%nat -> is_bytes comm -> length ppid = 4%nat -> is_bytes ppid -> raw_event e ->
  let e := set_int struct_event "pid" pid e in
  let e := set_int struct_event "uid" uid e in
  let e := set_field struct_event "ppid" ppid e in
  let e := set_field struct_event "comm" comm e in
  typed_event (set_field struct_event "filename"
    (probe_read_user_str (get_field struct_event "filename" e) ptr) e).
Proof.
  intros [_ Hw] Hpid Hl Hc Hpl Hp He. cbv zeta.
  set (e1 := set_int struct_event "pid" pid e).
  set (e' := set_field struct_event "comm" comm (set_field struct_event "ppid" ppid
    (set_int struct_event "uid" uid e1))).
  assert (H1 : raw_event e1) by (apply raw_set_int; [done|vm_compute; lia]).
  assert (Hf : raw_event e').
  { apply raw_set_field; [|done|rewrite event_size, Hl; vm_compute; lia].
    apply raw_set_field; [|done|rewrite event_size, Hpl; vm_compute; lia].
    apply raw_set_int; [done|vm_compute; lia]. }
  set (name := probe_read_user_str _ ptr).
  assert (Hn : length name = 256%nat).
  { unfold name. rewrite probe_read_user_str_length. unfold get_field.
    change (off struct_event "filename") with 28%nat. change (fsize struct_event "filename") with 256%nat.
    apply length_load. destruct Hf as [Hf _]. rewrite event_size in Hf. lia. }
  split.
  - apply raw_set_field; [done| |rewrite Hn, event_size; vm_compute; lia].
    unfold name. apply probe_read_user_str_bytes, is_bytes_load, Hf.
  - rewrite decode_event_eq. cbn [ev_pid]. destruct He as [He _], H1 as [H1 _]. rewrite event_size in *.
    unfold e', e1, set_int, set_field in *. clearbody name. clear e1 e' Hf.
    change (off struct_event "filename") with 28%nat. change (off struct_event "comm") with 12%nat.
    change (off struct_event "ppid") with 4%nat. change (off struct_event "uid") with 8%nat in *.
    change (off struct_event "pid") with 0%nat in *. change (fsize struct_event "uid") with 4%nat.
    change (fsize struct_event "pid") with 4%nat in *.
    mem_norm. rewrite i32_le_bytes. by rewrite Hpid.
Qed.

(** ** The programs *)

Lemma handle_execve_typed tk ctx : actor tk -> typed_prog (handle_execve tk ctx).
Proof.
  intros Hwf. pose proof Hwf as [[_ _ Hl Hc] _]. unfold handle_execve.
  assert (Hmsg : forall m : string, m = "UNAUTHORIZED_EXEC_TRAP" \/ m = "PRIVILEGE_ESCALATION_TRAP" ->
    (length (c_str m) <= 256)%nat) by (intros m [-> | ->]; vm_compute; lia).
  destruct (is_unauthorized_tool _); [|destruct (_ && _)].
  - apply typed_bind; [by apply typed_signal_prog|]. intros _.
    apply typed_bind; [apply typed_emit_trap; auto using tgid_i32|intros; apply typed_ret].
  - apply typed_bind; [by apply typed_signal_prog|]. intros _.
    apply typed_bind; [apply typed_emit_trap; auto using tgid_i32|intros; apply typed_ret].
  - apply (typed_emit (fun e => set_field struct_event "filename" _ _)). intros e He.
    apply (typed_observed tk); try done; [apply tgid_i32|apply core_read_length|apply core_read_bytes].
Qed.

(** Send the trap, or do nothing. *)
Lemma typed_trap_if tk (b : bool) pid ppid uid msg :
  actor tk -> i32 pid = i32 (tgid tk) -> (length (c_str msg) <= 256)%nat ->
  typed_prog (if b then emit_trap pid ppid uid (tk_comm tk) msg else mret tt).
Proof. intros. destruct b; [by apply typed_emit_trap|apply typed_ret]. Qed.

Lemma kprobe_vfs_open_typed tk path file : actor tk -> typed_prog (kprobe_vfs_open tk path file).
Proof.
  intros Hwf. unfold kprobe_vfs_open. apply typed_bind; [apply typed_gets|]. intros [h|]; [|apply typed_ret].
  apply typed_bind; [|intros; apply typed_ret]. apply typed_trap_if; [done|apply tgid_i32|vm_compute; lia].
Qed.

Lemma handle_ptrace_typed tk ctx : actor tk -> typed_prog (handle_ptrace tk ctx).
Proof.
  intros Hwf. unfold handle_ptrace, is_ghost. apply typed_bind; [apply typed_gets|]. intros b.
  apply typed_bind; [|intros; apply typed_ret]. apply typed_trap_if; [done|apply tgid_i32|vm_compute; lia].
Qed.
Lemma handle_process_vm_readv_typed tk ctx : actor tk -> typed_prog (handle_process_vm_readv tk ctx).
Proof.
  intros Hwf. unfold handle_process_vm_readv, is_ghost. apply typed_bind; [apply typed_gets|]. intros b.
  apply typed_bind; [|intros; apply typed_ret]. apply typed_trap_if; [done|apply tgid_i32|vm_compute; lia].
Qed.

Lemma handle_kill_typed tk ctx : actor tk -> typed_prog (handle_kill tk ctx).
Proof.
  intros Hwf. unfold handle_kill. apply typed_bind; [apply typed_gets|]. intros b.
  apply typed_bind; [|intros; apply typed_ret]. destruct (bool_decide _); [|apply typed_ret].
  apply typed_bind; [by apply typed_signal_prog|]. intros _. apply typed_emit_trap; [done|apply tgid_i32|vm_compute; lia].
Qed.

Lemma new_count_typed (count : option Z) :
  is_unsigned 64 (match count with Some n => u64 (n + 1) | None => 1 end).
Proof. destruct count; [apply uwrap_range; lia|]. unfold is_unsigned. lia. Qed.

(** The body of a counting trap, over the update of its own map. *)
Lemma typed_counting tk (update : Z -> Z -> bpf M R unit) (limit : Z) pid ppid msg (count : option Z) :
  actor tk -> pid = tgid tk -> (length (c_str msg) <= 256)%nat ->
  (forall k v, is_unsigned 32 k -> is_unsigned 64 v -> typed_prog (update k v)) ->
  let new_count := match count with Some n => u64 (n + 1) | None => 1 end in
  typed_prog (update pid new_count ;;
    (if limit <? new_count then
       bpf_send_signal tk 19 ;; emit_trap pid ppid (tk_uid_gid tk) (tk_comm tk) msg ;; update pid 0
     else mret tt) ;;
    (mret 0 : bpf M R Z)).
Proof.
  intros Hwf -> Hm Hu. cbv zeta. apply typed_bind; [apply Hu; [apply tgid_range|apply new_count_typed]|]. intros _.
  apply typed_bind; [|intros; apply typed_ret]. destruct (limit <? _); [|apply typed_ret].
  apply typed_bind; [by apply typed_signal_prog|]. intros _.
  apply typed_bind; [by apply typed_emit_trap|]. intros _. apply Hu; [apply tgid_range|]. unfold is_unsigned. lia.
Qed.

Lemma handle_openat_typed tk ctx : actor tk -> typed_prog (handle_openat tk ctx).
Proof.
  intros Hwf. unfold handle_openat. destruct (negb _); [|apply typed_ret].
  apply typed_bind; [apply typed_gets|]. intros p. destruct (bool_decide _); [apply typed_ret|].
  apply typed_bind; [apply typed_gets|]. intros count.
  apply typed_counting; [done|done|vm_compute; lia|apply typed_update_files].
Qed.
Lemma handle_sendto_typed tk ctx : actor tk -> typed_prog (handle_sendto tk ctx).
Proof.
  intros Hwf. unfold handle_sendto.
  apply typed_bind; [apply typed_gets|]. intros p. destruct (bool_decide _); [apply typed_ret|].
  apply typed_bind; [apply typed_gets|]. intros count.
  apply typed_counting; [done|done|vm_compute; lia|apply typed_update_journal].
Qed.

(** A TLS report: every member is written from bytes of the packet. *)
Lemma hello_event_typed pkt payload stale :
  is_bytes pkt -> is_bytes payload -> (34 <= length pkt)%nat -> (length stale = 140)%nat -> is_bytes stale ->
  typed_tls_event (hello_event pkt payload stale).
Proof.
  intros Hb Hp Hl Hs Hsb. unfold typed_tls_event, hello_event. change (size struct_tls_hello_event) with 140%nat.
  assert (length (load 26 4 pkt) = 4%nat) by (apply length_load; lia).
  assert (length (load 30 4 pkt) = 4%nat) by (apply length_load; lia).
  assert (length (take 128 payload) <= 128)%nat by (rewrite length_take; lia).
  split; [by len_lia|].
  repeat apply is_bytes_store; auto with alphvdr. by apply Forall_take.
Qed.

Lemma packet_typed pkt s : is_bytes pkt ->
  exists s', run_hook (Packet pkt) s = Some s' /\ evolves s s'.
Proof.
  intros Hb. cbn [run_hook]. rewrite xdp_c2_inspector_run by done. eexists. split; [reflexivity|].
  unfold inspect, ipv4_dst. case_decide as Hd; [|done]. case_decide; [done|].
  destruct (client_hello pkt) as [payload|] eqn:Ec; [|done]. cbn [snd].
  assert (Hp : is_bytes payload).
  { unfold client_hello in Ec. case_decide; [|done]. injection Ec as <-. by apply Forall_drop. }
  unfold report_hello. pose proof (evolves_tls_reserve s 140) as He.
  destruct (bpf_ringbuf_reserve (tls_events s) 140) as [[stale|] r] eqn:Er; cbn [fst snd] in *; [|done].
  apply reserve_length in Er as [Hl Hsb]. etrans; [exact He|].
  apply (evolves_tls_submit (set_tls_events r s)), hello_event_typed; try done. lia.
Qed.

Definition hook_actor (h : hook) : Prop :=
  hook_wf h /\ (if hook_task h is Some tk then who (i32 (tgid tk)) else True).

Lemma run_hook_typed h s : hook_actor h -> exists s', run_hook h s = Some s' /\ evolves s s'.
Proof.
  intros [Hh Hw]. destruct h; [..|by apply packet_typed]; (eexists; split; [reflexivity|]).
  - by apply handle_execve_typed.
  - by apply kprobe_vfs_open_typed.
  - by apply handle_ptrace_typed.
  - by apply handle_process_vm_readv_typed.
  - by apply handle_kill_typed.
  - by apply handle_openat_typed.
  - by apply handle_sendto_typed.
Qed.

Lemma run_hooks_typed hs s : Forall hook_actor hs ->
  exists s', run_hooks hs s = Some s' /\ evolves s s'.
Proof.
  intros Hhs. revert s. induction Hhs as [|h hs Hh Hhs IH]; intros s; [by exists s|]. cbn [run_hooks].
  destruct (run_hook_typed h s Hh) as (s1 & -> & H1). cbn. destruct (IH s1) as (s' & E & H2).
  exists s'. split; [done|]. by etrans.
Qed.
End kernel.

(** The processes that act in a sequence of hooks. *)
Definition actors (hs : list hook) (pid : Z) : Prop :=
  exists h tk, h ∈ hs /\ hook_task h = Some tk /\ pid = i32 (tgid tk).

Lemma actors_hooks hs : Forall hook_wf hs -> Forall (hook_actor (actors hs)) hs.
Proof.
  rewrite !Forall_forall. intros Hwf h Hh. split; [by apply Hwf|].
  destruct (hook_task h) as [tk|] eqn:E; [|done]. by exists h, tk.
Qed.

Section type_safety.
Context {M R : Type} `{HBM : BpfMap M, HBL : !BpfMapLaws M, HRB : !RingBuf R, HRL : !RingBufLaws R,
  HKM : KernelMemory, HKL : !KernelMemoryLaws}.
Implicit Types s : sensor M R.

(** The sensor is type safe: from any state, whatever hooks fire with
    well-formed tasks and packets of any bytes, in any order, all programs run
    to their end without leaving a packet; the blocklist, the honeytokens, the
    decoys and the agent's id are never written; every record added to the
    event ring is a complete [struct event] that names a process at one of
    the hooks, and every one added to the TLS ring a complete
    [struct tls_hello_event]; every signal is a SIGSTOP to a process at one
    of the hooks; and the counters keep the key and value types that
    their maps declare. *)
Theorem kernel_type_safe hs s : Forall hook_wf hs ->
  exists s', run_hooks hs s = Some s' /\ evolves (actors hs) s s'.
Proof. intros Hhs. by apply run_hooks_typed, actors_hooks. Qed.
End type_safety.

(** ** How many reports the ring takes *)

Section capacity.
Context {M R : Type} `{HBM : BpfMap M, HKR : KernelRing R, HRL : !RingBufLaws R, HKRL : !KernelRingLaws R,
  HKM : KernelMemory}.
Implicit Types (tk : task) (s : sensor M R) (r : R).

(** The bytes of one event in the ring. *)
Definition event_need : Z := ring_need (size struct_event).

Lemma event_need_eq : event_need = 296.
Proof. by vm_compute. Qed.

(** The program takes room for at most [n] events. *)
Definition takes (n : Z) {A} (m : bpf M R A) : Prop := forall s,
  ring_definition (events (m s).2) = ring_definition (events s) /\
  in_use (events (m s).2) <= in_use (events s) + n * event_need.

Lemma takes_le {A} n n' (m : bpf M R A) : n <= n' -> takes n m -> takes n' m.
Proof. intros Hn Hm s. destruct (Hm s) as [H1 H2]. split; [done|]. rewrite event_need_eq in *. lia. Qed.
Lemma takes_bind {A B} n n' (m : bpf M R A) (f : A -> bpf M R B) :
  takes n m -> (forall a, takes n' (f a)) -> takes (n + n') (m ≫= f).
Proof.
  intros Hm Hf s. rewrite run_bind. destruct (Hm s) as [H1 H2]. destruct (Hf (m s).1 (m s).2) as [H3 H4].
  split; [congruence|lia].
Qed.
Lemma takes_none {A} (m : bpf M R A) : (forall s, events (m s).2 = events s) -> takes 0 m.
Proof. intros Hm s. rewrite Hm. split; [done|lia]. Qed.

Lemma takes_reserve : takes 1 reserve_event.
Proof.
  intros s. unfold reserve_event. cbn [fst snd set_events events].
  rewrite reserve_definition, reserve_in_use. split; [done|]. fold event_need.
  rewrite event_need_eq. case_match; lia.
Qed.
Lemma takes_submit e : takes 0 (submit_event e).
Proof.
  intros s. unfold submit_event. cbn [fst snd set_events events]. rewrite submit_definition, submit_in_use.
  split; [done|lia].
Qed.

(** The text of a program, call by call. *)
Ltac takes_calls :=
  repeat first
    [ apply (takes_bind 1 0); [apply takes_reserve|intros ?]
    | apply (takes_bind 0 1); [by apply takes_none|intros ?]
    | apply (takes_bind 0 0); [first [apply takes_submit|by apply takes_none]|intros ?]
    | apply takes_submit
    | by apply takes_none
    | match goal with |- takes _ (match ?x with _ => _ end) => destruct x end ].

Lemma takes_trap pid ppid uid comm msg : takes 1 (emit_trap pid ppid uid comm msg).
Proof. unfold emit_trap. takes_calls. Qed.

(** A trap, and then nothing more in the ring. *)
Lemma takes_trap_then {A} pid ppid uid comm msg (f : unit -> bpf M R A) :
  (forall a, takes 0 (f a)) -> takes 1 (emit_trap pid ppid uid comm msg ≫= f).
Proof. intros Hf. apply (takes_bind 1 0); [apply takes_trap|done]. Qed.
Lemma takes_then_ret {A} (m : bpf M R A) (z : Z) : takes 1 m -> takes 1 (m ;; mret z).
Proof. intros Hm. apply (takes_bind 1 0); [done|intros ?; by apply takes_none]. Qed.
Lemma takes_trap_if (b : bool) pid ppid uid comm msg :
  takes 1 (if b then emit_trap pid ppid uid comm msg else mret tt).
Proof. destruct b; [apply takes_trap|]. by eapply (takes_le 0), takes_none. Qed.

Lemma takes_counting tk (update : Z -> Z -> bpf M R unit) limit (count : option Z) pid ppid uid comm msg :
  (forall k v, takes 0 (update k v)) ->
  let new_count := match count with Some n => u64 (n + 1) | None => 1 end in
  takes 1 (update pid new_count ;;
    (if limit <? new_count then
       bpf_send_signal tk 19 ;; emit_trap pid ppid uid comm msg ;; update pid 0
     else mret tt) ;;
    (mret 0 : bpf M R Z)).
Proof.
  intros Hu. cbv zeta. apply (takes_bind 0 1); [apply Hu|intros _]. apply takes_then_ret.
  destruct (limit <? _); [|by eapply (takes_le 0), takes_none].
  apply (takes_bind 0 1); [by apply takes_none|intros _]. by apply takes_trap_then.
Qed.

Lemma run_hook_takes h s s' : hook_wf h -> run_hook h s = Some s' ->
  ring_definition (events s') = ring_definition (events s) /\ in_use (events s') <= in_use (events s) + event_need.
Proof.
  assert (Hrun : forall m : bpf M R Z, takes 1 m -> Some (m s).2 = Some s' ->
    ring_definition (events s') = ring_definition (events s) /\ in_use (events s') <= in_use (events s) + event_need).
  { intros m Hm [= <-]. destruct (Hm s). split; [done|lia]. }
  intros Hwf. destruct h as [tk ctx|tk path file|tk ctx|tk ctx|tk ctx|tk ctx|tk ctx|pkt]; cbn [run_hook];
    [apply Hrun..|].
  - unfold handle_execve. destruct (is_unauthorized_tool _); [|destruct (_ && _)].
    + apply (takes_bind 0 1); [by apply takes_none|intros _]. apply takes_then_ret, takes_trap.
    + apply (takes_bind 0 1); [by apply takes_none|intros _]. apply takes_then_ret, takes_trap.
    + takes_calls.
  - unfold kprobe_vfs_open. apply (takes_bind 0 1); [by apply takes_none|]. intros [h|];
      [|by eapply (takes_le 0), takes_none]. apply takes_then_ret, takes_trap_if.
  - unfold handle_ptrace, is_ghost. apply (takes_bind 0 1); [by apply takes_none|]. intros b.
    apply takes_then_ret, takes_trap_if.
  - unfold handle_process_vm_readv, is_ghost. apply (takes_bind 0 1); [by apply takes_none|]. intros b.
    apply takes_then_ret, takes_trap_if.
  - unfold handle_kill. apply (takes_bind 0 1); [by apply takes_none|]. intros b. apply takes_then_ret.
    destruct (bool_decide _); [|by eapply (takes_le 0), takes_none].
    apply (takes_bind 0 1); [by apply takes_none|intros _]. apply takes_trap.
  - unfold handle_openat. destruct (negb _); [|by eapply (takes_le 0), takes_none].
    apply (takes_bind 0 1); [by apply takes_none|]. intros p. destruct (bool_decide _);
      [by eapply (takes_le 0), takes_none|].
    apply (takes_bind 0 1); [by apply takes_none|]. intros count. apply takes_counting. intros. by apply takes_none.
  - unfold handle_sendto.
    apply (takes_bind 0 1); [by apply takes_none|]. intros p. destruct (bool_decide _);
      [by eapply (takes_le 0), takes_none|].
    apply (takes_bind 0 1); [by apply takes_none|]. intros count. apply takes_counting. intros. by apply takes_none.
  - rewrite xdp_c2_inspector_run by done. intros [= <-]. rewrite event_need_eq.
    assert (E : events (inspect pkt s).2 = events s)
      by (unfold inspect, report_hello; repeat case_match; done).
    rewrite E. split; [done|lia].
Qed.

(** An empty ring as it is declared. *)
Definition empty_ring r : Prop := ring_definition r = decl.events /\ in_use r = 0.

(** The ring holds [k] unread events at most. *)
Definition holds (k : nat) r : Prop := ring_definition r = decl.events /\ in_use r <= k * event_need.

Lemma holds_room k r : holds k r -> (k < 885)%nat -> is_Some (bpf_ringbuf_reserve r (size struct_event)).1.
Proof.
  intros [Hd Hu] Hk. apply reserve_granted. rewrite Hd. fold event_need. rewrite event_need_eq in *.
  change (max_entries decl.events) with 262144. lia.
Qed.

Lemma run_hooks_holds hs k s s' : Forall hook_wf hs -> run_hooks hs s = Some s' ->
  holds k (events s) -> holds (k + length hs) (events s').
Proof.
  intros Hhs. revert k s. induction Hhs as [|h hs Hh _ IH]; intros k s Hrun Hk; cbn [run_hooks] in Hrun.
  { injection Hrun as <-. by rewrite Nat.add_0_r. }
  destruct (run_hook h s) as [s1|] eqn:E; [|done]. cbn in Hrun.
  replace (k + length (h :: hs))%nat with (S k + length hs)%nat by (cbn; lia). apply (IH (S k) s1 Hrun).
  destruct (run_hook_takes h s s1 Hh E) as [E1 E2]. destruct Hk as [Hd Hu]. rewrite event_need_eq in *.
  split; [congruence|]. rewrite event_need_eq. lia.
Qed.

(** An execution takes a record if there is one, and submits it. *)
Lemma execve_ring tk ctx s :
  let granted := (bpf_ringbuf_reserve (events s) (size struct_event)).1 in
  let r' := events (handle_execve tk ctx s).2 in
  ring_definition r' = ring_definition (events s) /\
  in_use r' = in_use (events s) + (if granted is Some _ then event_need else 0) /\
  length (records r') = (length (records (events s)) + (if granted is Some _ then 1 else 0))%nat.
Proof.
  cbv zeta.
  pose proof (reserve_definition (events s) (size struct_event)) as Hd.
  pose proof (reserve_in_use (events s) (size struct_event)) as Hu. fold event_need in Hu.
  pose proof (reserve_records (events s) (size struct_event)) as Hr.
  assert (Hout : forall e r, r = (bpf_ringbuf_reserve (events s) (size struct_event)).2 ->
    ring_definition (bpf_ringbuf_submit r e) = ring_definition (events s) /\
    in_use (bpf_ringbuf_submit r e) = in_use r /\
    length (records (bpf_ringbuf_submit r e)) = (length (records (events s)) + 1)%nat).
  { intros e r ->. by rewrite submit_definition, submit_in_use, submit_records, length_app, Hr, Hd. }
  unfold handle_execve, emit_trap, reserve_event, submit_event.
  destruct (is_unauthorized_tool _); [|destruct (_ && _)]; run; cbn [add_signal events fst snd];
    destruct (bpf_ringbuf_reserve (events s) (size struct_event)) as [[e|] r] eqn:E; run;
    cbn [events set_events fst snd] in *; rewrite ?Z.add_0_r, ?Nat.add_0_r; rewrite ?Hr;
    first
      [ match goal with |- context [bpf_ringbuf_submit _ ?x] => destruct (Hout x r eq_refl) as (-> & -> & ->) end;
        split_and!; [done|lia|done]
      | split_and!; [done|lia|done] ].
Qed.

Definition is_execve (h : hook) : Prop := if h is Execve _ _ then True else False.

Lemma execve_burst_from hs k s : Forall is_execve hs -> (k <= 885)%nat ->
  ring_definition (events s) = decl.events -> in_use (events s) = k * event_need ->
  exists s', run_hooks hs s = Some s' /\
    length (records (events s')) = (length (records (events s)) + length hs `min` (885 - k))%nat.
Proof.
  intros Hhs. revert k s. induction Hhs as [|h hs Hh _ IH]; intros k s Hk Hd Hu; cbn [run_hooks].
  { exists s. split; [done|]. cbn. lia. }
  destruct h as [tk ctx| | | | | | |]; try done. cbn [run_hook mbind option_bind].
  destruct (execve_ring tk ctx s) as (E1 & E2 & E3).
  pose proof (reserve_granted (events s) (size struct_event)) as Hg. fold event_need in Hg.
  rewrite Hd, Hu, event_need_eq in Hg. change (max_entries decl.events) with 262144 in Hg.
  rewrite Hd, Hu in *. rewrite event_need_eq in *.
  destruct (decide (k < 885)%nat) as [Hlt|Hge].
  - destruct (proj2 Hg ltac:(lia)) as [e Ee]. rewrite Ee in *.
    destruct (IH (S k) (handle_execve tk ctx s).2) as (s' & E & El); [lia|congruence|lia|].
    exists s'. split; [done|]. rewrite El, E3. cbn [length]. lia.
  - assert (En : (bpf_ringbuf_reserve (events s) (size struct_event)).1 = None).
    { apply eq_None_not_Some. intros Hs%Hg. lia. }
    rewrite En in *.
    destruct (IH k (handle_execve tk ctx s).2) as (s' & E & El); [lia|congruence|lia|].
    exists s'. split; [done|]. rewrite El, E3. cbn [length]. lia.
Qed.

(** C35: the event ring holds 885 unread events: from an empty ring, as long
    as fewer than 885 hooks of any kind have fired, the next program that wants
    to report gets a record, so nothing is lost; and of any number of programs
    executed before the agent reads again, exactly the first 885 are reported:
    what comes after, traps included, is dropped without a trace. *)
Theorem ring_holds_885_events hs s :
  empty_ring (events s) -> Forall hook_wf hs ->
  (forall s', (length hs < 885)%nat -> run_hooks hs s = Some s' ->
     is_Some (bpf_ringbuf_reserve (events s') (size struct_event)).1) /\
  (Forall is_execve hs -> exists s', run_hooks hs s = Some s' /\
     length (records (events s')) = (length (records (events s)) + length hs `min` 885)%nat).
Proof.
  intros [Hd Hu] Hwf. split.
  - intros s' Hl Hrun. apply (holds_room (length hs)); [|done].
    apply (run_hooks_holds hs 0 s s' Hwf Hrun). split; [done|lia].
  - intros He. apply (execve_burst_from hs 0 s He); [lia|done|lia].
Qed.
End capacity.

(** ** A concrete run *)

Section witnesses.
Import Sensor.Demo.

Definition busy_day : list hook :=
  [Execve (task_of 42 1000 "podman") (ctx_of [500]); Packet (replicate 20 255);
   Openat (task_of 42 0 "dd") (ctx_of [0; 0; 64]); Kill (task_of 43 0 "rootkit") (ctx_of [77; 9])].

(** A sensor with rings as they are declared. *)
Definition ringed : sensor (gmap Z Z) kring :=
  Sensor ∅ ∅ ∅ ∅ ∅ ∅ (KRing decl.events 0 []) (KRing decl.tls_events 0 []) [].

Lemma ring_holds_885_events_witness :
  exists s', run_hooks (replicate 1000 (Execve (task_of 42 1000 "podman") (ctx_of [500]))) ringed = Some s' /\
    length (records (events s')) = 885%nat.
Proof.
  assert (Hwf : task_wf (task_of 42 1000 "podman")) by (apply task_of_wf; vm_compute; reflexivity).
  destruct (ring_holds_885_events (replicate 1000 (Execve (task_of 42 1000 "podman") (ctx_of [500]))) ringed)
    as [_ H].
  - split; reflexivity.
  - apply Forall_replicate. exact Hwf.
  - destruct H as (s' & E & El); [apply Forall_replicate; exact I|].
    exists s'. split; [exact E|]. rewrite El. reflexivity.
Defined.

Lemma kernel_type_safe_witness :
  exists s', run_hooks busy_day sensor0 = Some s' /\ evolves (actors busy_day) sensor0 s' /\
    length (signals s') = 2%nat.
Proof.
  destruct (kernel_type_safe busy_day sensor0) as (s' & E & H).
  { apply Forall_cons; split; [apply task_of_wf; vm_compute; reflexivity|].
    apply Forall_cons; split; [apply (bool_decide_unpack (is_bytes _)); vm_compute; exact I|].
    do 2 (apply Forall_cons; split; [apply task_of_wf; vm_compute; reflexivity|]). by apply Forall_nil. }
  exists s'. split; [exact E|]. split; [exact H|].
  assert (E' : option_map (fun s => length (signals s)) (run_hooks busy_day sensor0) = Some 2%nat)
    by (vm_compute; reflexivity).
  rewrite E in E'. by injection E'.
Defined.
End witnesses.
