(* ===== verification/Smp.v ===== *)
(** * The sensor on several processors: [src-bpf/sensor.bpf.c]

    The kernel runs the programs of the sensor on every processor at once: each
    call of a helper is atomic (maps and rings have their own locks), and
    between two calls of one program any other program may run.  A program is
    here the sequence of its calls, each an atomic action on the shared state,
    with the computation between them; running its actions without
    interruption gives back the program of [Sensor] or [Xdp].  A lookup returns
    the address of an element, and each load through it is an action of its
    own: between the two another processor may have freed the element and
    stored the value of another key in it. *)

From stdpp Require Import gmap relations.
From S2P Require Import Prelude CTypes VmlinuxTask Vmlinux Bpf Maps Sensor Xdp Kernel.

(** ** Programs as sequences of atomic actions *)

Section concurrent.
Context {M R : Type}.

Inductive conc (A : Type) : Type :=
  | Ret (a : A)
  | Act {X : Type} (op : bpf M R X) (k : X -> conc A).
Arguments Ret {A} a.
Arguments Act {A X} op k.

Fixpoint conc_bind_fix {A B} (f : A -> conc B) (c : conc A) : conc B :=
  match c with
  | Ret a => f a
  | Act op k => Act op (fun x => conc_bind_fix f (k x))
  end.

#[export] Instance conc_ret : MRet conc := fun A => Ret.
#[export] Instance conc_bind : MBind conc := fun A B => conc_bind_fix.
Definition atomic {A} (op : bpf M R A) : conc A := Act op Ret.

(** All actions of a program in a row. *)
Fixpoint collapse {A} (c : conc A) : bpf M R A :=
  match c with
  | Ret a => mret a
  | Act op k => x ← op; collapse (k x)
  end.

Lemma collapse_bind {A B} (c : conc A) (f : A -> conc B) s :
  collapse (c ≫= f) s = (x ← collapse c; collapse (f x)) s.
Proof.
  revert s. induction c as [a|X op k IH]; intros s; [done|].
  cbn. rewrite !run_bind. apply IH.
Qed.
Lemma collapse_atomic {A} (op : bpf M R A) s : collapse (atomic op) s = op s.
Proof. unfold atomic. cbn. rewrite run_bind, run_ret. by destruct (op s). Qed.
Lemma collapse_ret {A} (a : A) s : collapse (mret a) s = (a, s).
Proof. done. Qed.
End concurrent.
Arguments conc : clear implicits.
Arguments Ret {M R A} a.
Arguments Act {M R A X} op k.

#[export] Hint Rewrite @collapse_bind @collapse_atomic @collapse_ret : bpf.

(** ** The programs *)

Section programs.
Context {M R : Type} `{HBM : BpfMap M, HRB : RingBuf R, HKM : KernelMemory}.
Implicit Types (tk : task) (s : sensor M R).

(** [bpf_map_lookup_elem]: the address of the element, or NULL. *)
Definition look (map : sensor M R -> M) (k : Z) : conc M R (option Z) :=
  atomic (gets (fun s => element (map s) k)).
(** The load through the address. *)
Definition deref (map : sensor M R -> M) (a : Z) : conc M R Z :=
  atomic (gets (fun s => load_element (map s) a)).
(** [q && *q == v]. *)
Definition points_to (map : sensor M R -> M) (q : option Z) (v : Z) : conc M R bool :=
  match q with
  | Some a => x ← deref map a; mret (bool_decide (x = v))
  | None => mret false
  end.

Definition emit_trap_c (pid ppid uid : Z) (comm : bytes) (msg : string) : conc M R unit :=
  r ← atomic reserve_event;
  match r with
  | Some e => atomic (submit_event (fill_trap pid ppid uid comm msg e))
  | None => mret tt
  end.

Definition handle_execve_c tk (ctx : bytes) : conc M R Z :=
  let uid := u32 (Z.land (tk_uid_gid tk) 0xFFFFFFFF) in
  let comm := tk_comm tk in
  if is_unauthorized_tool comm then
    atomic (bpf_send_signal tk 19) ;;
    emit_trap_c (Z.shiftr (tk_pid_tgid tk) 32) (-4) uid comm "UNAUTHORIZED_EXEC_TRAP" ;;
    mret 0
  else if (uid =? 0) && is_vuln_app comm then
    atomic (bpf_send_signal tk 19) ;;
    emit_trap_c (Z.shiftr (tk_pid_tgid tk) 32) (-3) uid comm "PRIVILEGE_ESCALATION_TRAP" ;;
    mret 0
  else
    r ← atomic reserve_event;
    match r with
    | None => mret 0
    | Some e => atomic (submit_event (observed tk ctx e)) ;; mret 0
    end.

Definition kprobe_vfs_open_c tk (path file : Z) : conc M R Z :=
  let inode := le_val (core_read VmlinuxFs.struct_file "f_inode" file) in
  let ino := u64 (le_val (core_read VmlinuxFs.struct_inode "i_ino" inode)) in
  is_honey ← look honeytokens ino;
  match is_honey with
  | None => mret 0
  | Some a =>
      h ← deref honeytokens a;
      trigger ←
        (if h =? 1 then mret true
         else
           h ← deref honeytokens a;
           if h =? 2 then
             let f_flags := le_val (core_read VmlinuxFs.struct_file "f_flags" file) in
             mret (negb (Z.land f_flags 3 =? 0) || negb (Z.land f_flags 1024 =? 0))
           else mret false);
      (if (trigger : bool) then
         emit_trap_c (Z.shiftr (tk_pid_tgid tk) 32) (-1) (tk_uid_gid tk) (tk_comm tk)
           "HONEYTOKEN_TRIGGERED"
       else mret tt) ;;
      mret 0
  end.

(** [handle_ptrace] and [handle_process_vm_readv], on their target. *)
Definition ghost_trap_c tk (target_pid : Z) : conc M R Z :=
  is_ghost ← look ghost_pids target_pid;
  ghost ← points_to ghost_pids is_ghost 1;
  (if (ghost : bool) then
     emit_trap_c (Z.shiftr (tk_pid_tgid tk) 32) (-2) (tk_uid_gid tk) (tk_comm tk) "GHOST_PROCESS_TRAP"
   else mret tt) ;;
  mret 0.

Definition handle_kill_c tk (ctx : bytes) : conc M R Z :=
  let target_pid := u32 (args ctx 0) in
  my_pid ← look agent_pid 0;
  attack ← points_to agent_pid my_pid target_pid;
  (if (attack : bool) then
     atomic (bpf_send_signal tk 19) ;;
     emit_trap_c (Z.shiftr (tk_pid_tgid tk) 32) target_pid (tk_uid_gid tk) (tk_comm tk) "SELF_DEFENSE_TRAP"
   else mret tt) ;;
  mret 0.

(** [new_count]: one more than what the element holds when it is read. *)
Definition next_count_c (map : sensor M R -> M) (count : option Z) : conc M R Z :=
  match count with
  | Some a => n ← deref map a; mret (u64 (n + 1))
  | None => mret 1
  end.

(** The rest of the two programs, from the update on. *)
Definition store_count_c tk (update : Z -> Z -> bpf M R unit) (limit pid ppid : Z) (msg : string)
    (new_count : Z) : conc M R Z :=
  atomic (update pid new_count) ;;
  (if limit <? new_count then
     atomic (bpf_send_signal tk 19) ;;
     emit_trap_c pid ppid (tk_uid_gid tk) (tk_comm tk) msg ;;
     atomic (update pid 0)
   else mret tt) ;;
  mret 0.

(** The body that [handle_openat] and [handle_sendto] share: the counter is
    looked up by one call, read after it and written by another call. *)
Definition count_c tk (map : sensor M R -> M) (update : Z -> Z -> bpf M R unit) (limit ppid : Z)
    (msg : string) : conc M R Z :=
  let pid := u32 (Z.shiftr (tk_pid_tgid tk) 32) in
  my_pid ← look agent_pid 0;
  agent ← points_to agent_pid my_pid pid;
  if (agent : bool) then mret 0
  else
    count ← look map pid;
    new_count ← next_count_c map count;
    store_count_c tk update limit pid ppid msg new_count.

Definition handle_openat_c tk (ctx : bytes) : conc M R Z :=
  if negb (Z.land (i32 (args ctx 2)) 64 =? 0)
  then count_c tk file_creation_counts update_file_creation_counts 10000 (-5) "INODE_EXHAUSTION_TRAP"
  else mret 0.
Definition handle_sendto_c tk (ctx : bytes) : conc M R Z :=
  count_c tk journal_spam_counts update_journal_spam_counts 50000 (-6) "JOURNALD_EXHAUSTION_TRAP".

(** The calls of [xdp_c2_inspector]; the packet belongs to the processor that
    received it, so what is read from it is computed between them. *)
Definition reserve_tls : bpf M R (option bytes) := fun s =>
  let r := bpf_ringbuf_reserve (tls_events s) (size struct_tls_hello_event) in (r.1, set_tls_events r.2 s).
Definition submit_tls (e : bytes) : bpf M R unit := fun s =>
  (tt, set_tls_events (bpf_ringbuf_submit (tls_events s) e) s).
Definition xdp_c2_inspector_c (pkt : bytes) : conc M R Z :=
  match ipv4_dst pkt with
  | None => mret XDP_PASS
  | Some dest_ip =>
      is_blocked ← look c2_blocklist dest_ip;
      blocked ← points_to c2_blocklist is_blocked 1;
      if (blocked : bool) then mret XDP_DROP else
      match client_hello pkt with
      | None => mret XDP_PASS
      | Some payload =>
          r ← atomic reserve_tls;
          match r with
          | None => mret XDP_PASS
          | Some e => atomic (submit_tls (hello_event pkt payload e)) ;; mret XDP_PASS
          end
      end
  end.

Definition conc_of (h : hook) : conc M R Z :=
  match h with
  | Execve tk ctx => handle_execve_c tk ctx
  | VfsOpen tk path file => kprobe_vfs_open_c tk path file
  | Ptrace tk ctx => ghost_trap_c tk (u32 (args ctx 1))
  | ProcessVmReadv tk ctx => ghost_trap_c tk (u32 (args ctx 0))
  | Kill tk ctx => handle_kill_c tk ctx
  | Openat tk ctx => handle_openat_c tk ctx
  | Sendto tk ctx => handle_sendto_c tk ctx
  | Packet pkt => xdp_c2_inspector_c pkt
  end.

(** ** Uninterrupted, they are the programs *)

Context `{HBL : !BpfMapLaws M}.

Lemma collapse_emit_trap pid ppid uid comm msg s :
  collapse (emit_trap_c pid ppid uid comm msg) s = emit_trap pid ppid uid comm msg s.
Proof.
  unfold emit_trap_c, emit_trap. run. by destruct (reserve_event s).1; run.
Qed.
(** A lookup and the load after it are the lookup of [Bpf]. *)
Lemma collapse_points_to map k v s :
  collapse (points_to map (element (map s) k) v) s =
    (bool_decide (bpf_map_lookup_elem (map s) k = Some v), s).
Proof.
  rewrite lookup_element. unfold points_to, deref. destruct (element (map s) k); run; [|done].
  cbn. f_equal. apply bool_decide_ext. naive_solver.
Qed.
Lemma collapse_look map k s : collapse (look map k) s = (element (map s) k, s).
Proof. unfold look. by run. Qed.
Lemma collapse_deref map a s : collapse (deref map a) s = (load_element (map s) a, s).
Proof. unfold deref. by run. Qed.
#[local] Hint Rewrite @collapse_emit_trap @collapse_points_to @collapse_look @collapse_deref : bpf.

Lemma collapse_execve tk ctx s : collapse (handle_execve_c tk ctx) s = handle_execve tk ctx s.
Proof.
  unfold handle_execve_c, handle_execve. repeat case_match; run; try done.
  by destruct (reserve_event s).1; run.
Qed.
Lemma collapse_vfs_open tk path file s :
  collapse (kprobe_vfs_open_c tk path file) s = kprobe_vfs_open tk path file s.
Proof.
  unfold kprobe_vfs_open_c, kprobe_vfs_open. run. rewrite lookup_element.
  destruct (element _ _) as [a|]; cbn [fmap option_fmap option_map]; run; [|done].
  destruct (_ =? 1) eqn:E1; run; rewrite ?E1; run; [done|].
  destruct (_ =? 2) eqn:E2; run; [|done]. by case_match; run.
Qed.
Lemma collapse_ghost tk target s :
  collapse (ghost_trap_c tk target) s =
    (ghost ← is_ghost target;
     (if (ghost : bool) then emit_trap (Z.shiftr (tk_pid_tgid tk) 32) (-2) (tk_uid_gid tk) (tk_comm tk)
        "GHOST_PROCESS_TRAP" else mret tt) ;; mret 0) s.
Proof. unfold ghost_trap_c, is_ghost. run. by case_match; run. Qed.
Lemma collapse_kill tk ctx s : collapse (handle_kill_c tk ctx) s = handle_kill tk ctx s.
Proof. unfold handle_kill_c, handle_kill. run. by case_match; run. Qed.
Lemma collapse_count map k s :
  collapse (next_count_c map (element (map s) k)) s =
    (next_count (map s) k, s).
Proof. unfold next_count_c, next_count. rewrite lookup_element. by destruct (element _ _); run. Qed.
#[local] Hint Rewrite @collapse_count : bpf.
Lemma collapse_openat tk ctx s : collapse (handle_openat_c tk ctx) s = handle_openat tk ctx s.
Proof.
  unfold handle_openat_c, count_c, store_count_c, handle_openat. destruct (negb _); run; [|done]. case_bool_decide; run; [done|].
  unfold next_count. by destruct (10000 <? _); run.
Qed.
Lemma collapse_sendto tk ctx s : collapse (handle_sendto_c tk ctx) s = handle_sendto tk ctx s.
Proof.
  unfold handle_sendto_c, count_c, store_count_c, handle_sendto. run. case_bool_decide; run; [done|].
  unfold next_count. by destruct (50000 <? _); run.
Qed.

Lemma collapse_packet `{HRL : !RingBufLaws R} pkt s :
  is_bytes pkt -> Some (collapse (xdp_c2_inspector_c pkt) s) = xdp_c2_inspector pkt s.
Proof.
  intros Hb. rewrite xdp_c2_inspector_run by done. f_equal. unfold xdp_c2_inspector_c, inspect.
  destruct (ipv4_dst pkt); [|done]. run. case_bool_decide; [by rewrite decide_True|rewrite decide_False by done].
  destruct (client_hello pkt) as [payload|]; [|done]. run. unfold report_hello, reserve_tls, submit_tls. cbn [fst snd].
  change (size struct_tls_hello_event) with 140%nat.
  by destruct (bpf_ringbuf_reserve (tls_events s) 140) as [[e|] r]; run.
Qed.

(** Every hook's actions in a row do what the hook does. *)
Lemma collapse_hook `{HRL : !RingBufLaws R} h s :
  hook_wf h -> run_hook h s = Some (collapse (conc_of h) s).2.
Proof.
  intros Hh. destruct h; cbn [run_hook conc_of]; f_equal; try symmetry.
  - by rewrite collapse_execve.
  - by rewrite collapse_vfs_open.
  - by rewrite collapse_ghost.
  - by rewrite collapse_ghost.
  - by rewrite collapse_kill.
  - by rewrite collapse_openat.
  - by rewrite collapse_sendto.
  - by rewrite <- collapse_packet.
Qed.

(** ** The machine

    The shared state and the programs that have started, each with what is
    left of it; a program that has ended stays as [Ret]. *)

Record machine := Machine {
  shared : sensor M R;
  threads : list (hook * conc M R Z)
}.

Inductive smp_step : machine -> machine -> Prop :=
  | smp_enter h s ts : smp_step (Machine s ts) (Machine s (ts ++ [(h, conc_of h)]))
  | smp_act i h X (op : bpf M R X) k s ts :
      ts !! i = Some (h, Act op k) ->
      smp_step (Machine s ts) (Machine (op s).2 (<[i := (h, k (op s).1)]> ts)).

(** The hooks that have fired, in the order in which their programs started. *)
Definition fired (m : machine) : list hook := (threads m).*1.

Lemma fired_act i h (c c' : conc M R Z) (ts : list (hook * conc M R Z)) :
  ts !! i = Some (h, c) -> (<[i := (h, c')]> ts).*1 = ts.*1.
Proof.
  intros Hi. rewrite list_fmap_insert. cbn. apply list_insert_id. by rewrite list_lookup_fmap, Hi.
Qed.

(** An invariant of what the threads do to the state: [P] on a thread holds
    when it starts and is kept by its own actions. *)
Lemma smp_threads (P : hook -> conc M R Z -> Prop) (Q : sensor M R -> sensor M R -> Prop) m m' :
  PreOrder Q -> rtc smp_step m m' ->
  (forall h, h ∈ fired m' -> P h (conc_of h)) ->
  (forall h X (op : bpf M R X) k s, P h (Act op k) -> Q s (op s).2 /\ P h (k (op s).1)) ->
  Forall (fun t => P t.1 t.2) (threads m) ->
  Q (shared m) (shared m') /\ Forall (fun t => P t.1 t.2) (threads m').
Proof.
  intros HQ Hrun Hnew Hact. induction Hrun as [m|m1 m2 m3 Hstep Hrun IH]; intros Hm; [by split|].
  assert (Hfired : forall h, h ∈ fired m2 -> h ∈ fired m3).
  { clear -Hrun. induction Hrun as [|? ? ? [h s ts|i h X op k s ts Hi] _ IH]; [done|..]; intros h' Hh'; apply IH.
    - unfold fired in *. cbn [threads] in *. rewrite fmap_app. apply elem_of_app. by left.
    - unfold fired in *. cbn [threads] in *. by rewrite (fired_act _ _ _ _ _ Hi). }
  destruct Hstep as [h s ts|i h X op k s ts Hi]; cbn [threads shared] in *.
  - apply IH; [done|]. apply Forall_app. split; [done|]. constructor; [|done]. apply Hnew, Hfired.
    unfold fired. cbn [threads]. rewrite fmap_app. apply elem_of_app. right. left.
  - pose proof (Forall_lookup_1 _ _ _ _ Hm Hi) as HP. cbn [fst snd] in HP. apply (Hact _ _ _ _ s) in HP as [H1 H2].
    destruct IH as [H3 H4]; [done|by apply Forall_insert|]. split; [by etrans|done].
Qed.

(** ** One after the other *)

(** The machine can run one program to its end. *)
Lemma run_thread ts h (c : conc M R Z) s :
  rtc smp_step (Machine s (ts ++ [(h, c)]))
    (Machine (collapse c s).2 (ts ++ [(h, Ret (collapse c s).1)])).
Proof.
  revert s. induction c as [a|X op k IH]; intros s; [done|]. cbn [collapse]. rewrite run_bind.
  eapply rtc_l; [|apply IH].
  pose proof (smp_act (length ts) h X op k s (ts ++ [(h, Act op k)])) as H.
  rewrite list_lookup_middle in H by done. specialize (H eq_refl).
  by rewrite insert_app_r_alt, Nat.sub_diag in H by lia.
Qed.
End programs.

(** ** Type safety on any number of processors *)

Section type_safety.
Context {M R : Type} `{HBM : BpfMap M, HBL : !BpfMapLaws M, HRB : !RingBuf R, HRL : !RingBufLaws R,
  HKM : KernelMemory, HKL : !KernelMemoryLaws}.
Context (who : Z -> Prop).
Implicit Types (tk : task) (s : sensor M R).

(** Each action of the program only evolves the state, whatever the state is
    that the other processors have left. *)
Fixpoint typed_conc {A} (c : conc M R A) : Prop :=
  match c with
  | Ret _ => True
  | Act op k => forall s, evolves who s (op s).2 /\ typed_conc (k (op s).1)
  end.

Lemma typed_conc_bind {A B} (c : conc M R A) (f : A -> conc M R B) :
  typed_conc c -> (forall a, typed_conc (f a)) -> typed_conc (c ≫= f).
Proof.
  intros Hc Hf. induction c as [a|X op k IH]; cbn; [apply Hf|]. intros s. destruct (Hc s) as [H1 H2].
  split; [done|]. by apply IH.
Qed.
Lemma typed_conc_atomic {A} (op : bpf M R A) : typed_prog who op -> typed_conc (atomic op).
Proof. intros H s. by split; [apply H|]. Qed.
Lemma typed_conc_look map k : typed_conc (look map k).
Proof. apply typed_conc_atomic, typed_gets. Qed.
Lemma typed_conc_deref map a : typed_conc (deref map a).
Proof. apply typed_conc_atomic, typed_gets. Qed.
Lemma typed_conc_points_to map q v : typed_conc (points_to map q v).
Proof. destruct q; [|done]. by apply typed_conc_bind; [apply typed_conc_deref|]. Qed.
Lemma typed_conc_next {A} map q (f : Z -> conc M R A) :
  (forall n, is_unsigned 64 n -> typed_conc (f n)) -> typed_conc (next_count_c map q ≫= f).
Proof.
  intros Hf. assert (is_unsigned 64 1) by (unfold is_unsigned; lia). destruct q as [a|]; [|by apply Hf].
  intros s. split; [done|]. apply Hf, uwrap_range. lia.
Qed.

Lemma typed_conc_emit {A} (fill : bytes -> bytes) (a b : conc M R A) :
  (forall e, raw_event e -> typed_event who (fill e)) -> typed_conc a -> typed_conc b ->
  typed_conc (r ← atomic reserve_event; match r with
                                        | None => a
                                        | Some e => atomic (submit_event (fill e)) ;; b
                                        end).
Proof.
  intros Hfill Ha Hb s. unfold reserve_event. cbn [fst snd].
  pose proof (evolves_reserve who s (size struct_event)) as He.
  destruct (bpf_ringbuf_reserve (events s) (size struct_event)) as [[e|] r] eqn:Er; cbn [fst snd] in *;
    (split; [done|]); [|done].
  apply typed_conc_bind; [|done]. apply typed_conc_atomic. intros s'. apply evolves_submit, Hfill.
  by apply reserve_length in Er.
Qed.

Lemma typed_conc_trap tk pid ppid uid msg :
  actor who tk -> i32 pid = i32 (tgid tk) -> (length (c_str msg) <= 256)%nat ->
  typed_conc (emit_trap_c pid ppid uid (tk_comm tk) msg).
Proof.
  intros [[_ _ Hl Hc] Hw] Hp Hm s. unfold reserve_event. cbn [fst snd].
  pose proof (evolves_reserve who s (size struct_event)) as He.
  destruct (bpf_ringbuf_reserve (events s) (size struct_event)) as [[e|] r] eqn:Er; cbn [fst snd] in *;
    (split; [done|]); [|done].
  apply reserve_length in Er as Hraw. apply typed_conc_atomic. intros s'. apply evolves_submit.
  split; [by apply raw_trap|].
  rewrite fill_trap_decode; [|by rewrite <- event_size; apply Hraw|done|done]. cbn [ev_pid]. by rewrite Hp.
Qed.
Lemma typed_conc_signal tk : actor who tk -> typed_conc (atomic (bpf_send_signal tk 19)).
Proof. intros. by apply typed_conc_atomic, typed_signal_prog. Qed.

(** The whole text of a program: its calls, tests and returns. *)
Ltac typed_calls :=
  repeat first
    [ done
    | apply typed_conc_look
    | apply typed_conc_deref
    | apply typed_conc_points_to
    | by apply typed_conc_signal
    | apply typed_conc_trap; [done|apply tgid_i32|vm_compute; lia]
    | apply typed_conc_bind; [|intros ?]
    | match goal with |- typed_conc (match ?x with _ => _ end) => destruct x end ].

Lemma typed_count_c tk map update limit ppid msg :
  actor who tk -> (length (c_str msg) <= 256)%nat ->
  (forall k v, is_unsigned 32 k -> is_unsigned 64 v -> typed_prog who (update k v)) ->
  typed_conc (count_c tk map update limit ppid msg).
Proof.
  intros Ha Hm Hu. unfold count_c. apply typed_conc_bind; [apply typed_conc_look|]. intros my_pid.
  apply typed_conc_bind; [apply typed_conc_points_to|]. intros [|]; [done|].
  apply typed_conc_bind; [apply typed_conc_look|]. intros count. apply typed_conc_next. intros n Hn.
  unfold store_count_c. apply typed_conc_bind; [apply typed_conc_atomic, Hu; [apply tgid_range|done]|]. intros _.
  apply typed_conc_bind; [|done]. destruct (limit <? _); [|done].
  apply typed_conc_bind; [by apply typed_conc_signal|]. intros _.
  apply typed_conc_bind; [by apply typed_conc_trap|]. intros _.
  apply typed_conc_atomic, Hu; [apply tgid_range|]. unfold is_unsigned. lia.
Qed.

Lemma typed_xdp_c pkt : is_bytes pkt -> typed_conc (xdp_c2_inspector_c pkt).
Proof.
  intros Hb. unfold xdp_c2_inspector_c. destruct (ipv4_dst pkt) eqn:Ed; [|done].
  apply typed_conc_bind; [apply typed_conc_look|]. intros b.
  apply typed_conc_bind; [apply typed_conc_points_to|]. intros [|]; [done|].
  destruct (client_hello pkt) as [payload|] eqn:Ec; [|done].
  assert (Hp : is_bytes payload).
  { unfold client_hello in Ec. case_decide; [|done]. injection Ec as <-. by apply Forall_drop. }
  assert (Hl : (34 <= length pkt)%nat) by (unfold ipv4_dst in Ed; case_decide; [lia|done]).
  intros s. unfold reserve_tls. change (size struct_tls_hello_event) with 140%nat. cbn [fst snd].
  pose proof (evolves_tls_reserve who s 140) as He.
  destruct (bpf_ringbuf_reserve (tls_events s) 140) as [[stale|] r] eqn:Er; cbn [fst snd] in *;
    (split; [done|]); [|done].
  apply reserve_length in Er as [Hs Hsb]. apply typed_conc_bind; [|done].
  apply typed_conc_atomic. intros s'. by apply evolves_tls_submit, hello_event_typed.
Qed.

Lemma typed_conc_of h : hook_actor who h -> typed_conc (conc_of (M := M) (R := R) h).
Proof.
  intros [Hh Hw]. destruct h as [tk ctx|tk path file|tk ctx|tk ctx|tk ctx|tk ctx|tk ctx|pkt]; cbn [conc_of];
    [..|by apply typed_xdp_c]; cbn in Hw; assert (Ha : actor who tk) by done.
  - pose proof Hh as [_ _ Hl Hc]. unfold handle_execve_c. destruct (is_unauthorized_tool _); [typed_calls|].
    destruct (_ && _); [typed_calls|]. apply (typed_conc_emit (observed tk ctx)); [|done..]. intros e He.
    apply (typed_observed who tk); try done; [apply tgid_i32|apply core_read_length|apply core_read_bytes].
  - unfold kprobe_vfs_open_c. typed_calls.
  - unfold ghost_trap_c. typed_calls.
  - unfold ghost_trap_c. typed_calls.
  - unfold handle_kill_c. typed_calls.
  - unfold handle_openat_c. destruct (negb _); [|done].
    apply typed_count_c; [done|vm_compute; lia|apply typed_update_files].
  - apply typed_count_c; [done|vm_compute; lia|apply typed_update_journal].
Qed.
End type_safety.

(** ** Counting under races *)

(** [p] starts a program that stops it for what it does: a program it may not
    execute, or a signal to the agent. *)
Definition springs_trap {M} `{BpfMap M} (p : Z) (agents : M) (h : hook) : Prop :=
  match h with
  | Execve tk _ => tgid tk = p /\ exec_verdict tk <> Observed
  | Kill tk ctx => tgid tk = p /\ bpf_map_lookup_elem agents 0 = Some (u32 (args ctx 0))
  | _ => False
  end.

(** The invocations that count, of each kind: those of any process but the
    agent. *)
Definition counting {M} `{BpfMap M} (files : bool) (agents : M) (h : hook) : Prop :=
  match h with
  | Openat tk ctx => files = true /\ creates ctx = true /\ bpf_map_lookup_elem agents 0 <> Some (tgid tk)
  | Sendto tk _ => files = false /\ bpf_map_lookup_elem agents 0 <> Some (tgid tk)
  | _ => False
  end.
#[export] Instance counting_dec {M} `{BpfMap M} files (agents : M) h : Decision (counting files agents h).
Proof. destruct h; apply _. Defined.
Definition invocations {M} `{BpfMap M} (files : bool) (agents : M) (hs : list hook) : Z :=
  length (filter (counting files agents) hs).

Section counting.
Context {M R : Type} `{HBM : BpfMap M, HBL : !BpfMapLaws M, HRB : !RingBuf R, HRL : !RingBufLaws R,
  HKM : KernelMemory, HKL : !KernelMemoryLaws}.
Implicit Types (tk : task) (s : sensor M R) (m : M).

(** The process watched, how often it had been stopped at the start, the map
    of the agent, and another reason to stop the process. *)
Context (p : Z) (stops0 : Z) (agents : M) (cause : Prop).

(** What the counters are bounded by, whichever element holds them: [B] is
    what they started with and the invocations that have written them. *)
Definition bounded (B : Z * Z) s : Prop :=
  agent_pid s = agents /\
  (forall a, 0 <= load_element (file_creation_counts s) a <= B.1) /\
  (forall a, 0 <= load_element (journal_spam_counts s) a <= B.2) /\
  (sigstops p s <> stops0 -> cause \/ 10000 < B.1 \/ 50000 < B.2).

(** A thread has a token for the write of a counter that it has not done yet;
    the bound grows by the token when it does. *)
Fixpoint paced (t B : Z * Z) (c : conc M R Z) : Prop :=
  match c with
  | Ret _ => True
  | Act op k => forall B' s, B.1 <= B'.1 -> B.2 <= B'.2 -> B'.1 + t.1 < 2 ^ 64 -> B'.2 + t.2 < 2 ^ 64 ->
      bounded B' s ->
      exists t', (t' = t \/ t' = (0, 0)) /\
        let B'' := (B'.1 + t.1 - t'.1, B'.2 + t.2 - t'.2) in
        bounded B'' (op s).2 /\ paced t' B'' (k (op s).1)
  end.

Lemma paced_mono t B B' c : B.1 <= B'.1 -> B.2 <= B'.2 -> paced t B c -> paced t B' c.
Proof. destruct c; [done|]. intros H1 H2 Hc B2 s' H3 H4. apply Hc; lia. Qed.

(** An action that keeps the counters and the stops within the bound. *)
Lemma paced_act t B {X} (op : bpf M R X) k :
  (forall s B', B.1 <= B'.1 -> B.2 <= B'.2 -> bounded B' s -> bounded B' (op s).2 /\ paced t B' (k (op s).1)) ->
  paced t B (Act op k).
Proof.
  intros H B' s H1 H2 _ _ Hb. exists t. split; [by left|]. cbv zeta. rewrite !Z.add_simpl_r.
  rewrite <- surjective_pairing. by apply H.
Qed.

(** A program that leaves the counters alone, and does not stop [p] without
    the other reason. *)
Fixpoint quiet {A} (c : conc M R A) : Prop :=
  match c with
  | Ret _ => True
  | Act op k => forall s, agent_pid s = agents ->
      file_creation_counts (op s).2 = file_creation_counts s /\
      journal_spam_counts (op s).2 = journal_spam_counts s /\
      agent_pid (op s).2 = agent_pid s /\
      (sigstops p (op s).2 = sigstops p s \/ cause) /\ quiet (k (op s).1)
  end.

Lemma quiet_bounded B s s' :
  file_creation_counts s' = file_creation_counts s -> journal_spam_counts s' = journal_spam_counts s ->
  agent_pid s' = agent_pid s -> sigstops p s' = sigstops p s \/ cause -> bounded B s -> bounded B s'.
Proof. intros E1 E2 E3 E4 (H1 & H2 & H3 & H4). unfold bounded. rewrite E1, E2, E3. naive_solver. Qed.

Lemma quiet_paced B c : quiet c -> paced (0, 0) B c.
Proof.
  revert B. induction c as [a|X op k IH]; intros B Hc; [done|]. apply paced_act. intros s B' _ _ Hb.
  pose proof (Hc s (proj1 Hb)) as (Q1 & Q2 & Q3 & Q4 & Q5). split; [|by apply IH]. by eapply quiet_bounded.
Qed.

Lemma quiet_bind {A B} (c : conc M R A) (f : A -> conc M R B) :
  quiet c -> (forall a, quiet (f a)) -> quiet (c ≫= f).
Proof.
  intros Hc Hf. induction c as [a|X op k IH]; cbn; [apply Hf|]. intros s Ha.
  destruct (Hc s Ha) as (H1 & H2 & H3 & H4 & H5). split_and!; auto.
Qed.
Lemma quiet_atomic {A} (op : bpf M R A) :
  (forall s, file_creation_counts (op s).2 = file_creation_counts s /\
             journal_spam_counts (op s).2 = journal_spam_counts s /\ agent_pid (op s).2 = agent_pid s /\
             signals (op s).2 = signals s) ->
  quiet (atomic op).
Proof. intros H s _. destruct (H s) as (E1 & E2 & E3 & E4). unfold sigstops. rewrite E4. by split_and!; [..|left|]. Qed.
Lemma quiet_look map k : quiet (look map k).
Proof. by apply quiet_atomic. Qed.
Lemma quiet_deref map a : quiet (deref map a).
Proof. by apply quiet_atomic. Qed.
Lemma quiet_points_to map q v : quiet (points_to map q v).
Proof. destruct q; [|done]. by apply quiet_bind; [apply quiet_deref|]. Qed.
Lemma quiet_reserve : quiet (atomic reserve_event).
Proof. by apply quiet_atomic. Qed.
Lemma quiet_submit e : quiet (atomic (submit_event e)).
Proof. by apply quiet_atomic. Qed.
Lemma quiet_trap pid ppid uid comm msg : quiet (emit_trap_c pid ppid uid comm msg).
Proof. apply quiet_bind; [apply quiet_reserve|]. intros [e|]; [apply quiet_submit|done]. Qed.

Lemma sigstops_signal tk s :
  sigstops p (add_signal (tgid tk, 19) s) = sigstops p s + (if decide (tgid tk = p) then 1 else 0).
Proof.
  unfold sigstops. cbn [add_signal signals]. rewrite filter_app, length_app, filter_cons, filter_nil.
  case_decide as E1; case_decide as E2; simpl; [lia|by simplify_eq|by subst|lia].
Qed.
(** A signal to another process, or for the other reason. *)
Lemma quiet_signal tk : (tgid tk = p -> cause) -> quiet (atomic (bpf_send_signal tk 19)).
Proof.
  intros Hp s _. split_and!; [done..| |done]. cbn [bpf_send_signal snd]. rewrite sigstops_signal.
  case_decide; [right; auto|left; lia].
Qed.

(** Who the agent is does not change while the programs run. *)
Lemma quiet_agent {A} v (f : bool -> conc M R A) :
  quiet (f (bool_decide (bpf_map_lookup_elem agents 0 = Some v))) ->
  quiet (q ← look agent_pid 0; b ← points_to agent_pid q v; f b).
Proof.
  intros Hf s Ha. split_and!; [done..|by left|]. cbn [gets fst]. rewrite lookup_element, <- Ha in Hf.
  destruct (element (agent_pid s) 0) as [a|]; [|exact Hf]. intros s' Ha'. split_and!; [done..|by left|].
  change (quiet (f (bool_decide (load_element (agent_pid s') a = v)))). rewrite Ha', <- Ha. cbn in Hf.
  rewrite (bool_decide_ext _ (Some (load_element (agent_pid s) a) = Some v)); [exact Hf|]. naive_solver.
Qed.

#[local] Hint Resolve quiet_look quiet_deref quiet_points_to quiet_reserve quiet_submit quiet_trap quiet_signal : core.
Ltac quiet_calls :=
  repeat first
    [ done
    | by eauto
    | apply quiet_bind; [|intros ?]
    | match goal with |- quiet (match ?x with _ => _ end) => destruct x end ].

Lemma quiet_execve tk ctx : (tgid tk = p -> exec_verdict tk <> Observed -> cause) -> quiet (handle_execve_c tk ctx).
Proof.
  unfold handle_execve_c, exec_verdict. fold (tk_uid tk). intros Hp.
  destruct (is_unauthorized_tool _); [quiet_calls; apply quiet_signal; auto|].
  destruct (_ && _); quiet_calls; apply quiet_signal; auto.
Qed.
Lemma quiet_kill tk ctx :
  (tgid tk = p -> bpf_map_lookup_elem agents 0 = Some (u32 (args ctx 0)) -> cause) -> quiet (handle_kill_c tk ctx).
Proof.
  intros Hp. unfold handle_kill_c. apply quiet_agent. case_bool_decide; quiet_calls.
Qed.
Lemma quiet_count_agent tk map update limit ppid msg :
  bpf_map_lookup_elem agents 0 = Some (tgid tk) -> quiet (count_c tk map update limit ppid msg).
Proof. intros Ha. unfold count_c. fold (tgid tk). apply quiet_agent. by rewrite bool_decide_eq_true_2. Qed.

(** The programs that do not count. *)
Lemma quiet_conc_of h :
  (springs_trap p agents h -> cause) -> ~ counting true agents h -> ~ counting false agents h ->
  quiet (conc_of (M := M) (R := R) h).
Proof.
  destruct h as [tk ctx|tk path file|tk ctx|tk ctx|tk ctx|tk ctx|tk ctx|pkt];
    cbn [conc_of springs_trap counting]; intros Hs Ht Hf.
  - apply quiet_execve. auto.
  - unfold kprobe_vfs_open_c. quiet_calls.
  - unfold ghost_trap_c. quiet_calls.
  - unfold ghost_trap_c. quiet_calls.
  - apply quiet_kill. auto.
  - unfold handle_openat_c. fold (creates ctx). destruct (creates ctx) eqn:E; [|done]. apply quiet_count_agent.
    destruct (decide (bpf_map_lookup_elem agents 0 = Some (tgid tk))); [done|]. by destruct Ht.
  - apply quiet_count_agent. destruct (decide (bpf_map_lookup_elem agents 0 = Some (tgid tk))); [done|]. by destruct Hf.
  - unfold xdp_c2_inspector_c. destruct (ipv4_dst pkt); [|done]. apply quiet_bind; [done|]. intros b.
    apply quiet_bind; [done|]. intros [|]; [done|]. destruct (client_hello pkt); [|done].
    apply quiet_bind; [by apply quiet_atomic|]. intros [e|]; [|done].
    apply quiet_bind; [by apply quiet_atomic|done].
Qed.

Lemma paced_quiet_bind {A D} B (c : conc M R A) (f : A -> conc M R D) (g : D -> conc M R Z) :
  quiet c -> (forall a B', B.1 <= B'.1 -> B.2 <= B'.2 -> paced (0, 0) B' (f a ≫= g)) ->
  paced (0, 0) B ((c ≫= f) ≫= g).
Proof.
  revert B; induction c as [a|X op k IH]; intros B Hc Hf; [by apply Hf|].
  apply paced_act. intros s B' H1 H2 Hb. pose proof (Hc s (proj1 Hb)) as (Q1 & Q2 & Q3 & Q4 & Q5).
  split; [by eapply quiet_bounded|]. apply IH; [done|]. intros a B2 H3 H4. apply Hf; lia.
Qed.

(** The two counters. *)
Definition token (files : bool) : Z * Z := if files then (1, 0) else (0, 1).
Definition the_map (files : bool) : sensor M R -> M := if files then file_creation_counts else journal_spam_counts.
Definition the_update (files : bool) : Z -> Z -> bpf M R unit :=
  if files then update_file_creation_counts else update_journal_spam_counts.
Definition the_limit (files : bool) : Z := if files then 10000 else 50000.
Definition part (files : bool) (B : Z * Z) : Z := if files then B.1 else B.2.

(** An update stores its value in one element, whichever. *)
Lemma bounded_update files q v B s :
  bounded B s -> 0 <= v <= part files B -> bounded B (the_update files q v s).2.
Proof.
  intros (H1 & H2 & H3 & H4) Hv. unfold bounded, the_update, part in *.
  destruct files; cbn; (split_and!; [done| | |exact H4]); try done; intros a.
  - destruct (update_element (file_creation_counts s) q v a) as [-> | ->]; auto.
  - destruct (update_element (journal_spam_counts s) q v a) as [-> | ->]; auto.
Qed.

Lemma bounded_weaken B B' s : bounded B s -> B.1 <= B'.1 -> B.2 <= B'.2 -> bounded B' s.
Proof.
  intros (H1 & H2 & H3 & H4) ? ?. split_and!; [done|..].
  - intros a. specialize (H2 a). lia.
  - intros a. specialize (H3 a). lia.
  - intros Hs. destruct (H4 Hs) as [?|[?|?]]; [by left|right; lia..].
Qed.

Lemma bounded_load files a B s : bounded B s -> 0 <= load_element (the_map files s) a <= part files B.
Proof. intros (_ & H1 & H2 & _). destruct files; [apply H1|apply H2]. Qed.

(** The end of a counting program, that has read [x] or no element. *)
Lemma paced_store files tk pid ppid msg x B :
  0 <= x <= part files B ->
  paced (token files) B (store_count_c tk (the_update files) (the_limit files) pid ppid msg (u64 (x + 1))).
Proof.
  intros Hx. unfold store_count_c. intros B3 s3 H1 H2 H3 H4 Hb3. exists (0, 0). split; [by right|]. cbv zeta.
  set (B4 := (B3.1 + (token files).1 - (0, 0).1, B3.2 + (token files).2 - (0, 0).2)).
  assert (Hn : 1 <= u64 (x + 1) <= part files B4 /\ B3.1 <= B4.1 /\ B3.2 <= B4.2).
  { unfold B4. destruct files; cbn in *; rewrite ?uwrap_small by (unfold is_unsigned; lia); lia. }
  destruct Hn as (Hn & HB1 & HB2). set (n := u64 (x + 1)) in *. clearbody n B4.
  split; [apply bounded_update; [by eapply bounded_weaken|lia]|].
  destruct (the_limit files <? n) eqn:El; bool_prop; [|done].
  apply paced_act. intros s4 B5 H5 H6 (G1 & G2 & G3 & _). split.
  { split; [exact G1|]. split; [exact G2|]. split; [exact G3|]. intros _. right.
    unfold the_limit, part in *. destruct files; lia. }
  apply paced_quiet_bind; [apply quiet_trap|]. intros [] B6 H7 H8. apply paced_act.
  intros s5 B7 _ _ Hb7. split; [|done]. apply bounded_update; [done|].
  pose proof (bounded_load files 0 B7 s5 Hb7). lia.
Qed.

Lemma paced_points_to t B map q v f :
  (forall b, paced t B (f b)) -> paced t B (points_to map q v ≫= f).
Proof.
  intros Hf. destruct q as [a|]; [|apply Hf]. apply paced_act. intros s B' H1 H2 Hb. split; [done|].
  by eapply paced_mono, Hf.
Qed.

Lemma paced_count_c files tk B ppid msg :
  paced (token files) B (count_c tk (the_map files) (the_update files) (the_limit files) ppid msg).
Proof.
  unfold count_c. apply paced_act. intros s B1 _ _ Hb. split; [done|].
  apply (paced_points_to _ _ agent_pid). intros [|]; [done|].
  apply paced_act. intros s2 B2 _ _ Hb2. split; [done|]. cbn [gets fst].
  destruct (element (the_map files s2) _) as [a|].
  - apply paced_act. intros s3 B3 _ _ Hb3. split; [done|]. by apply paced_store, bounded_load.
  - apply (paced_store files tk _ ppid msg 0). pose proof (bounded_load files 0 B2 s2 Hb2). lia.
Qed.
End counting.

(** The tokens that are left. *)
Definition total (f : Z * Z -> Z) (l : list (Z * Z)) : Z := foldr (fun t z => f t + z) 0 l.

Lemma total_app f l1 l2 : total f (l1 ++ l2) = total f l1 + total f l2.
Proof. induction l1 as [|t l1 IH]; cbn; [done|]. unfold total in *. lia. Qed.
Lemma total_insert f l i t t' :
  l !! i = Some t -> total f (<[i := t']> l) = total f l - f t + f t'.
Proof.
  intros Hi. rewrite <- (take_drop_middle l i t Hi) at 2. rewrite insert_take_drop by by eapply lookup_lt_Some.
  rewrite !total_app. cbn. lia.
Qed.
Lemma total_lookup f l i t : Forall (fun t => 0 <= f t) l -> l !! i = Some t -> 0 <= f t <= total f l.
Proof.
  intros Hl. revert i; induction Hl as [|t' l Ht Hl IH]; intros [|i]; cbn; [done|done|..].
  - intros [= ->]. assert (0 <= total f l); [|unfold total in *; lia].
    clear -Hl. induction Hl; cbn; [done|]. unfold total in *. lia.
  - intros Hi. specialize (IH _ Hi). unfold total in *. lia.
Qed.

Section no_early_stop.
Context {M R : Type} `{HBM : BpfMap M, HBL : !BpfMapLaws M, HRB : !RingBuf R, HRL : !RingBufLaws R,
  HKM : KernelMemory, HKL : !KernelMemoryLaws}.
Context (p stops0 : Z) (agents : M) (cause : Prop) (c1 c2 : Z).
Implicit Types (m : machine (M := M) (R := R)).

(** The counters are within what the finished writes account for, and the
    writes that are due are those of invocations that have started. *)
Definition paced_machine m : Prop := exists B tokens,
  Forall2 (fun t th => 0 <= t.1 /\ 0 <= t.2 /\ paced p stops0 agents cause t B th.2) tokens (threads m) /\
  bounded p stops0 agents cause B (shared m) /\
  B.1 + total fst tokens <= c1 + invocations true agents (fired m) /\
  B.2 + total snd tokens <= c2 + invocations false agents (fired m).

Lemma invocations_app files hs1 hs2 :
  invocations files agents (hs1 ++ hs2) = invocations files agents hs1 + invocations files agents hs2.
Proof. unfold invocations. rewrite filter_app, length_app. lia. Qed.

(** A thread as it starts. *)
Lemma paced_new h B : (springs_trap p agents h -> cause) ->
  exists t, 0 <= t.1 /\ 0 <= t.2 /\ paced p stops0 agents cause t B (conc_of (M := M) (R := R) h) /\
    t.1 <= invocations true agents [h] /\ t.2 <= invocations false agents [h].
Proof.
  intros Hh. unfold invocations. rewrite !filter_cons, !filter_nil.
  destruct (decide (counting true agents h)) as [Ht|Ht].
  { destruct h as [| | | | |tk ctx|tk ctx|]; try done; [|by destruct Ht]. destruct Ht as (_ & Hc & _).
    exists (1, 0). cbn [fst snd]. split_and!; [lia|lia| |simpl; lia|].
    - cbn [conc_of]. unfold handle_openat_c. fold (creates ctx). rewrite Hc. by apply (paced_count_c p stops0 agents cause true).
    - case_decide; simpl; lia. }
  destruct (decide (counting false agents h)) as [Hf|Hf].
  { destruct h as [| | | | |tk ctx|tk ctx|]; try done; [by destruct Hf|].
    exists (0, 1). cbn [fst snd]. split_and!; [lia|lia| |simpl; lia|simpl; lia].
    cbn [conc_of]. by apply (paced_count_c p stops0 agents cause false). }
  exists (0, 0). cbn. split_and!; [lia|lia| |lia|lia]. by apply quiet_paced, quiet_conc_of.
Qed.

Lemma paced_step m m' : smp_step m m' -> Forall (fun h => springs_trap p agents h -> cause) (fired m') ->
  c1 + invocations true agents (fired m') < 2 ^ 64 -> c2 + invocations false agents (fired m') < 2 ^ 64 ->
  paced_machine m -> paced_machine m'.
Proof.
  intros [h s ts|i h X op k s ts Hi] Hh N1 N2 (B & tokens & Ht & Hb & H1 & H2);
    unfold fired in *; cbn [threads shared] in *.
  - rewrite fmap_app in *. cbn [fmap list_fmap fst] in *. rewrite !invocations_app in *.
    apply Forall_app in Hh as [_ Hh]. apply Forall_cons in Hh as [Hh _].
    destruct (paced_new h B Hh) as (t & T1 & T2 & Hp & T3 & T4).
    exists B, (tokens ++ [t]). unfold fired. cbn [threads shared]. rewrite !total_app, fmap_app, !invocations_app.
    cbn [total foldr fmap list_fmap fst]. split_and!; [|done|lia|lia]. apply Forall2_app; [done|]. by constructor.
  - rewrite (fired_act _ _ _ _ _ Hi) in *.
    destruct (Forall2_lookup_r _ _ _ _ _ Ht Hi) as (t & Hti & T1 & T2 & Hp). cbn [snd] in Hp.
    assert (Hpos : Forall (fun t => 0 <= t.1) tokens /\ Forall (fun t => 0 <= t.2) tokens).
    { split; eapply Forall2_Forall_l; try exact Ht; apply Forall_true; naive_solver. }
    destruct Hpos as [Hpos1 Hpos2].
    pose proof (total_lookup fst tokens i t Hpos1 Hti). pose proof (total_lookup snd tokens i t Hpos2 Hti).
    destruct (Hp B s ltac:(lia) ltac:(lia) ltac:(lia) ltac:(lia) Hb) as (t' & Et & Hb' & Hp').
    eexists _, (<[i := t']> tokens). unfold fired. cbn [threads shared]. rewrite (fired_act _ _ _ _ _ Hi).
    split_and!; [|exact Hb'|cbn [fst snd]; rewrite (total_insert _ _ _ t) by done; lia..].
    apply Forall2_insert.
    + eapply Forall2_impl; [exact Ht|]. cbn. intros t2 th (Q1 & Q2 & Q3). split_and!; [done|done|].
      eapply paced_mono; [| |exact Q3]; cbn; destruct Et as [-> | ->]; cbn; lia.
    + cbn [fst snd]. split_and!; [destruct Et as [-> | ->]; cbn; lia..|done].
Qed.

Lemma fired_grows m m' : rtc smp_step m m' -> fired m `prefix_of` fired m'.
Proof.
  induction 1 as [m|m1 m2 m3 Hs _ IH]; [done|]. etrans; [|exact IH].
  destruct Hs as [h s ts|i h X op k s ts Hi]; unfold fired; cbn [threads].
  - rewrite fmap_app. by apply prefix_app_r.
  - by rewrite (fired_act _ _ _ _ _ Hi).
Qed.

Lemma paced_run m m' : rtc smp_step m m' -> Forall (fun h => springs_trap p agents h -> cause) (fired m') ->
  c1 + invocations true agents (fired m') < 2 ^ 64 -> c2 + invocations false agents (fired m') < 2 ^ 64 ->
  paced_machine m -> paced_machine m'.
Proof.
  intros Hrun. revert m' Hrun. refine (rtc_ind_r _ _ _ _); [done|]. intros m1 m2 Hrun Hs IH Hh N1 N2 Hm.
  apply (paced_step m1); [done..|].
  assert (Hpre : fired m1 `prefix_of` fired m2) by by apply fired_grows, rtc_once.
  destruct Hpre as [l El]. rewrite El, !invocations_app in *. apply Forall_app in Hh as [Hh _].
  assert (0 <= invocations true agents l /\ 0 <= invocations false agents l) by (unfold invocations; lia).
  apply IH; [done|lia|lia|done].
Qed.
End no_early_stop.

(** The calls of [p] that count. *)
Definition counts_as (files : bool) (p : Z) (h : hook) : Prop :=
  match h with
  | Openat tk ctx => files = true /\ tgid tk = p /\ creates ctx = true
  | Sendto tk _ => files = false /\ tgid tk = p
  | _ => False
  end.

Section smp.
Context {M R : Type} `{HBM : BpfMap M, HBL : !BpfMapLaws M, HRB : !RingBuf R, HRL : !RingBufLaws R,
  HKM : KernelMemory, HKL : !KernelMemoryLaws}.
Implicit Types (s : sensor M R) (m : machine (M := M) (R := R)).

(** C6: what the sensor promises of one processor it keeps on many: take
    any interleaving of the helper calls of any programs, started at any time
    and possibly not finished; the maps of user space are never written, every
    record added is complete and names a process at one of the hooks, every
    signal is a SIGSTOP to such a process, and the counters keep the types that
    their maps declare.  And every sequence of hooks that run one after the other is one
    of these executions, with the result of [Kernel.run_hooks]. *)
Theorem smp_type_safe s :
  (forall m', rtc smp_step (Machine s []) m' -> Forall hook_wf (fired m') ->
     evolves (actors (fired m')) s (shared m')) /\
  (forall hs, Forall hook_wf hs -> exists m', rtc smp_step (Machine s []) m' /\
     run_hooks hs s = Some (shared m') /\ fired m' = hs /\ Forall (fun t => exists a, t.2 = Ret a) (threads m')).
Proof.
  split.
  - intros m' Hrun Hwf.
    destruct (smp_threads (fun _ c => typed_conc (actors (fired m')) c) (evolves (actors (fired m')))
      (Machine s []) m' _ Hrun) as [H _]; [|by intros h X op k s1 H; apply H|by constructor|done].
    intros h Hh. apply typed_conc_of. pose proof (actors_hooks _ Hwf) as Ha. rewrite Forall_forall in Ha. by apply Ha.
  - intros hs Hwf.
    assert (H : forall hs s ts, Forall hook_wf hs -> exists m', rtc smp_step (Machine s ts) m' /\
      run_hooks hs s = Some (shared m') /\ exists done, threads m' = ts ++ done /\ done.*1 = hs /\
      Forall (fun t => exists a, t.2 = Ret a) done).
    { clear s hs Hwf. induction hs as [|h hs IH]; intros s ts Hwf.
      { exists (Machine s ts). split; [done|]. split; [done|]. exists []. by rewrite app_nil_r. }
      apply Forall_cons in Hwf as [Hh Hwf].
      destruct (IH (collapse (conc_of h) s).2 (ts ++ [(h, Ret (collapse (conc_of h) s).1)]) Hwf)
        as (m' & Hrun & E & d & Ed & Ef & Hd).
      exists m'. split; [|split].
      - eapply rtc_l; [apply smp_enter|]. etrans; [apply run_thread|exact Hrun].
      - cbn [run_hooks]. by rewrite (collapse_hook h s Hh).
      - eexists ((h, _) :: d). rewrite Ed, <- app_assoc. cbn. split; [done|]. rewrite Ef. split; [done|].
        constructor; [by eexists|done]. }
    destruct (H hs s [] Hwf) as (m' & Hrun & E & d & Ed & Ef & Hd). exists m'.
    unfold fired. rewrite Ed. cbn [app]. by split_and!.
Qed.

(** C7: no process is stopped early: take any interleaving of the helper
    calls and the loads of any programs, with elements of the counting maps
    reused by any process between a lookup and its load, and start with no
    element of the two maps above [c1] and [c2].  If a process has been stopped
    once more, then it has itself started a program that it may not execute or
    sent a signal to the agent, or the file creations of all processes but the
    agent have passed 10000, [c1] included, or their sends 50000, [c2]
    included. *)
Theorem smp_no_early_stop p c1 c2 s m' :
  rtc smp_step (Machine s []) m' ->
  (forall a, 0 <= load_element (file_creation_counts s) a <= c1) ->
  (forall a, 0 <= load_element (journal_spam_counts s) a <= c2) ->
  sigstops p (shared m') <> sigstops p s ->
  Exists (springs_trap p (agent_pid s)) (fired m') \/
  10000 < c1 + invocations true (agent_pid s) (fired m') \/
  50000 < c2 + invocations false (agent_pid s) (fired m').
Proof.
  intros Hrun H1 H2 Hstop.
  set (cause := Exists (springs_trap p (agent_pid s)) (fired m')).
  destruct (decide (c1 + invocations true (agent_pid s) (fired m') < 2 ^ 64)); [|right; left; lia].
  destruct (decide (c2 + invocations false (agent_pid s) (fired m') < 2 ^ 64)); [|right; right; lia].
  assert (H0 : paced_machine p (sigstops p s) (agent_pid s) cause c1 c2 (Machine s [])).
  { exists (c1, c2), []. split; [by apply Forall2_nil|]. split; [by split_and!|].
    unfold invocations, total, fired. simpl. lia. }
  assert (Hc : Forall (fun h => springs_trap p (agent_pid s) h -> cause) (fired m')).
  { apply Forall_forall. intros h Hh Hs. apply Exists_exists. by exists h. }
  destruct (paced_run _ _ _ _ _ _ _ _ Hrun Hc ltac:(done) ltac:(done) H0)
    as (B & tokens & Ht & (_ & _ & _ & Hb) & B1 & B2).
  assert (Hpos : 0 <= total fst tokens /\ 0 <= total snd tokens).
  { clear -Ht. induction Ht as [|t th l ths (T1 & T2 & _) _ IH]; cbn; [done|]. unfold total in *. lia. }
  destruct (Hb Hstop) as [?|[?|?]]; [by left|right; left; lia|right; right; lia].
Qed.

(** ** Updates are lost *)

(** A program that has read the counter and not yet written it. *)
Definition pending (p v : Z) (h : hook) (t : hook * conc M R Z) : Prop :=
  exists k, t = (h, Act (update_file_creation_counts p v) k) /\ forall x, k x = Ret 0.

Lemma act_last ts h X (op : bpf M R X) k s :
  rtc smp_step (Machine s (ts ++ [(h, Act op k)])) (Machine (op s).2 (ts ++ [(h, k (op s).1)])).
Proof.
  apply rtc_once. pose proof (smp_act (length ts) h X op k s _ (list_lookup_middle ts [] _ (length ts) eq_refl)) as H.
  by rewrite insert_app_r_alt, Nat.sub_diag in H by lia.
Qed.

(** The last thread runs the first part of its program. *)
Lemma run_part {A} ts h (c : conc M R A) (f : A -> conc M R Z) s :
  rtc smp_step (Machine s (ts ++ [(h, c ≫= f)]))
    (Machine (collapse c s).2 (ts ++ [(h, f (collapse c s).1)])).
Proof.
  revert s. induction c as [a|X op k IH]; intros s; [done|]. cbn [collapse]. rewrite run_bind.
  etrans; [apply (act_last ts h X op (fun x => k x ≫= f))|apply IH].
Qed.

(** A call of [openat] by a process that is not the agent, up to the lookup
    of its counter. *)
Lemma open_looks p h s (ts : list (hook * conc M R Z)) :
  counts_as true p h -> bpf_map_lookup_elem (agent_pid s) 0 <> Some p ->
  exists tk, tgid tk = p /\ hook_task h = Some tk /\
  rtc smp_step (Machine s ts) (Machine s (ts ++ [(h,
    n ← next_count_c file_creation_counts (element (file_creation_counts s) p);
    store_count_c tk update_file_creation_counts 10000 p (-5) "INODE_EXHAUSTION_TRAP" n)])).
Proof.
  intros Hh Hpid. destruct h as [| | | | |tk ctx| |]; try done; [|by destruct Hh]. destruct Hh as (_ & Hp & Hcr).
  exists tk. split; [done|]. split; [done|].
  eapply rtc_l; [apply (smp_enter (Openat tk ctx))|]. cbn [conc_of]. unfold handle_openat_c.
  fold (creates ctx). rewrite Hcr. unfold count_c. fold (tgid tk). rewrite Hp.
  etrans; [apply run_part|]. rewrite collapse_look. cbn [fst snd].
  etrans; [apply run_part|]. rewrite collapse_points_to. cbn [fst snd]. rewrite bool_decide_eq_false_2 by done.
  etrans; [apply run_part|]. by rewrite collapse_look.
Qed.

Lemma open_reads p h s (ts : list (hook * conc M R Z)) :
  counts_as true p h -> bpf_map_lookup_elem (agent_pid s) 0 <> Some p ->
  0 <= count (file_creation_counts s) p < 10000 ->
  exists t, pending p (count (file_creation_counts s) p + 1) h t /\
    rtc smp_step (Machine s ts) (Machine s (ts ++ [t])).
Proof.
  intros Hh Hpid Hc. destruct (open_looks p h s ts Hh Hpid) as (tk & _ & _ & Hrun).
  assert (En : next_count (file_creation_counts s) p = count (file_creation_counts s) p + 1).
  { unfold next_count, count in *. destruct (bpf_map_lookup_elem _ p); cbn in *; [|done].
    rewrite uwrap_small; [done|unfold is_unsigned; lia]. }
  eexists. split; [|etrans; [exact Hrun|]; etrans; [apply run_part|]; rewrite collapse_count; cbn [fst snd];
    rewrite En; reflexivity].
  eexists. split; [reflexivity|]. intros []. cbn [conc_bind_fix]. by rewrite (proj2 (Z.ltb_ge _ _)) by lia.
Qed.

Lemma opens_read p hs s ts :
  Forall (counts_as true p) hs -> bpf_map_lookup_elem (agent_pid s) 0 <> Some p ->
  0 <= count (file_creation_counts s) p < 10000 ->
  exists l, Forall2 (pending p (count (file_creation_counts s) p + 1)) hs l /\
    rtc smp_step (Machine s ts) (Machine s (ts ++ l)).
Proof.
  intros Hhs Hpid Hc. revert ts. induction Hhs as [|h hs Hh _ IH]; intros ts.
  { exists []. rewrite app_nil_r. by split. }
  destruct (open_reads p h s ts Hh Hpid Hc) as (t & Ht & H1). destruct (IH (ts ++ [t])) as (l & Hl & H2).
  exists (t :: l). split; [by constructor|]. etrans; [exact H1|]. by rewrite <- app_assoc in H2.
Qed.

(** The map after [i] updates of [p] to [v]. *)
Definition updated (p v : Z) (map : M) (i : nat) : M := Nat.iter i (fun map => (bpf_map_update_elem map p v).1) map.

Lemma pending_write p v hs l s ts :
  (forall i, (bpf_map_update_elem (updated p v (file_creation_counts s) i) p v).2 = 0) ->
  Forall2 (pending p v) hs l -> (l = [] -> count (file_creation_counts s) p = v) ->
  exists s', rtc smp_step (Machine s (ts ++ l)) (Machine s' (ts ++ map (fun h => (h, Ret 0)) hs)) /\
    count (file_creation_counts s') p = v.
Proof.
  intros Hok Hl. revert s ts Hok.
  induction Hl as [|h t hs l (k & -> & Hk) Hl IH]; intros s ts Hok Hs; [exists s; split; [done|by apply Hs]|].
  destruct (IH (update_file_creation_counts p v s).2 (ts ++ [(h, Ret 0)])) as (s' & Hrun & E).
  { intros i. cbn. rewrite <- (Hok (S i)). unfold updated. by rewrite Nat.iter_succ_r. }
  { intros _. cbn. unfold count. rewrite map_update_same; [done|]. apply (Hok 0%nat). }
  exists s'. split; [|done]. rewrite <- !app_assoc in Hrun. eapply rtc_l; [|exact Hrun].
  pose proof (smp_act (length ts) h unit (update_file_creation_counts p v) k s _
    (list_lookup_middle ts l _ (length ts) eq_refl)) as H.
  by rewrite insert_app_r_alt, Nat.sub_diag, Hk in H by lia.
Qed.

(** C22: updates of a counter are lost: the counter is read by one action
    and written by another, so any number of file creations of a process on
    different processors can leave its counter only one higher.  (No update
    of the counter is refused.) *)
Theorem smp_lost_updates p hs s :
  let n := count (file_creation_counts s) p in
  hs <> [] -> Forall (counts_as true p) hs -> bpf_map_lookup_elem (agent_pid s) 0 <> Some p ->
  (forall i, (bpf_map_update_elem (updated p (n + 1) (file_creation_counts s) i) p (n + 1)).2 = 0) ->
  0 <= n < 10000 ->
  exists s', rtc smp_step (Machine s []) (Machine s' (map (fun h => (h, Ret 0)) hs)) /\
    count (file_creation_counts s') p = n + 1.
Proof.
  intros n Hne Hhs Hpid Hok Hc. destruct (opens_read p hs s [] Hhs Hpid Hc) as (l & Hl & H1).
  destruct (pending_write p (n + 1) hs l s []) as (s' & H2 & E).
  - exact Hok.
  - exact Hl.
  - intros ->. by apply Forall2_nil_inv_r in Hl.
  - exists s'. split; [by etrans|done].
Qed.
End smp.

(** ** An element is reused *)

Section reuse.
Context {R : Type} `{HRB : !RingBuf R, HRL : !RingBufLaws R, HKM : KernelMemory, HKL : !KernelMemoryLaws}.
Implicit Types (s : sensor pool R) (ts : list (hook * conc pool R Z)).

(** The update takes the first free element that no key has. *)
Lemma pool_update_head index memory c free k v :
  (forall k', index !! k' <> Some c) ->
  pool_update (Pool index memory (c :: free)) k v =
    (Pool (<[k := c]> index) (<[c := v]> memory) (free ++ option_list (index !! k)), 0).
Proof.
  intros Hc. unfold pool_update. cbn. rewrite decide_True; [done|].
  intros ([k' c'] & -> & Hk)%list_elem_of_fmap. by apply elem_of_map_to_list, Hc in Hk.
Qed.

(** A thread anywhere in the list runs to its end. *)
Lemma run_thread_at ts i h (c : conc pool R Z) s :
  ts !! i = Some (h, c) ->
  rtc smp_step (Machine s ts) (Machine (collapse c s).2 (<[i := (h, Ret (collapse c s).1)]> ts)).
Proof.
  revert s ts. induction c as [a|X op k IH]; intros s ts Hi; [by rewrite list_insert_id|].
  cbn [collapse]. rewrite run_bind. eapply rtc_l; [by apply smp_act|].
  specialize (IH (op s).1 (op s).2 (<[i := (h, k (op s).1)]> ts)). rewrite list_insert_insert_eq in IH. apply IH.
  apply list_lookup_insert_eq. by eapply lookup_lt_Some.
Qed.

(** A file creation from start to end, below the limit. *)
Lemma open_below p h s ts n :
  hook_wf h -> counts_as true p h -> bpf_map_lookup_elem (agent_pid s) 0 <> Some p ->
  bpf_map_lookup_elem (file_creation_counts s) p = Some n -> 0 <= n < 10000 ->
  exists s' v, rtc smp_step (Machine s ts) (Machine s' (ts ++ [(h, Ret v)])) /\
    agent_pid s' = agent_pid s /\ signals s' = signals s /\
    file_creation_counts s' = (pool_update (file_creation_counts s) p (n + 1)).1.
Proof.
  intros Hwf Hh Ha E Hn. destruct h as [| | | | |tk ctx| |]; try done; [|by destruct Hh].
  destruct Hh as (_ & Hp & Hc). pose proof (handle_openat_step (R := R) tk ctx s Hwf) as Hstep.
  cbv zeta in Hstep. unfold is_agent in Hstep. rewrite Hc, Hp, bool_decide_eq_false_2 in Hstep by done.
  destruct Hstep as (E1 & E2 & E3). unfold bump, next_count in E2, E3. rewrite E in E2, E3. cbv zeta in E2, E3.
  rewrite uwrap_small in E2, E3 by (unfold is_unsigned; lia).
  rewrite (proj2 (Z.ltb_ge _ _)) in E2, E3 by lia. rewrite app_nil_r in E3.
  do 2 eexists. split; [eapply rtc_l; [apply smp_enter|apply run_thread]|].
  cbn [conc_of]. by rewrite collapse_openat.
Qed.

(** Above the limit the caller is stopped. *)
Lemma store_stops p tk pid ppid msg n s :
  (10000 <? n) = true ->
  sigstops p (collapse (store_count_c tk update_file_creation_counts 10000 pid ppid msg n) s).2 =
    sigstops p s + (if decide (tgid tk = p) then 1 else 0).
Proof.
  intros Hl. rewrite <- sigstops_signal. unfold store_count_c. run. rewrite Hl. run. rewrite collapse_emit_trap.
  unfold emit_trap, reserve_event. run. cbn. by destruct (bpf_ringbuf_reserve _ _) as [[e|] r].
Qed.

(** C21: a process can be stopped for the files of another: after the lookup
    of its counter the element may be freed by an update of the same counter
    and reused for the counter of another process before the load.  Two file
    creations of [p], that has created [n] files, and one of [q], that has
    created 9999, can stop [p], however small [n] is. *)
Theorem smp_reused_counter p q n h1 h2 h3 s :
  p <> q -> 0 <= n < 10000 -> Forall hook_wf [h1; h2; h3] ->
  counts_as true p h1 -> counts_as true p h2 -> counts_as true q h3 ->
  bpf_map_lookup_elem (agent_pid s) 0 <> Some p -> bpf_map_lookup_elem (agent_pid s) 0 <> Some q ->
  file_creation_counts s = Pool {[p := 0; q := 1]} {[0 := n; 1 := 9999]} [2] ->
  exists m', rtc smp_step (Machine s []) m' /\ fired m' = [h1; h2; h3] /\
    Forall (fun t => exists a, t.2 = Ret a) (threads m') /\ sigstops p (shared m') = sigstops p s + 1.
Proof.
  intros Hpq Hn Hwf Hh1 Hh2 Hh3 Hap Haq Em. rewrite !Forall_cons in Hwf. destruct Hwf as (W1 & W2 & W3 & _).
  (* the first creation looks up its counter *)
  destruct (open_looks p h1 s [] Hh1 Hap) as (tk & Hp & _ & Hrun1). cbn [app] in Hrun1.
  set (waiting := next_count_c _ _ ≫= _) in Hrun1.
  (* the second stores its own in the free element, and frees the first *)
  destruct (open_below p h2 s [(h1, waiting)] n) as (s2 & v2 & Hrun2 & A2 & S2 & M2); [done..| |lia|].
  { rewrite Em. cbn. by rewrite lookup_insert_eq. }
  rewrite Em in M2. cbn [bpf_map_update_elem pool_map] in M2. rewrite pool_update_head in M2; [|].
  2: { intros k' [[_ ?]|[_ [_ ?]%lookup_singleton_Some]]%lookup_insert_Some; lia. }
  rewrite lookup_insert_eq in M2. cbn [fst app option_list option_rect] in M2.
  (* the file of the other process goes into the element that was freed *)
  destruct (open_below q h3 s2 [(h1, waiting); (h2, Ret v2)] 9999) as (s3 & v3 & Hrun3 & A3 & S3 & M3);
    [done|done|by rewrite A2| |lia|].
  { rewrite M2. cbn. rewrite lookup_insert_ne, lookup_insert_ne, lookup_singleton_eq by done. done. }
  rewrite M2 in M3. cbn [bpf_map_update_elem pool_map] in M3. rewrite pool_update_head in M3.
  2: { intros k' [[_ ?]|[? [[? ?]|[_ [_ ?]%lookup_singleton_Some]]%lookup_insert_Some]]%lookup_insert_Some; congruence || lia. }
  (* and there the first creation reads it *)
  eexists. split; [etrans; [exact Hrun1|]; etrans; [exact Hrun2|]; etrans; [exact Hrun3|];
    by apply (run_thread_at _ 0)|].
  split; [done|]. split; [repeat constructor; by eexists|]. cbn [shared].
  unfold waiting. rewrite Em. cbn [element pool_map pool_index]. rewrite lookup_insert_eq. cbn [next_count_c].
  run. rewrite !collapse_deref. cbn [fst snd]. rewrite M3. cbn [fst load_element pool_map pool_load pool_memory].
  unfold pool_load. cbn [pool_memory]. rewrite lookup_insert_eq. cbn [default].
  rewrite store_stops by (vm_compute; reflexivity). unfold sigstops. rewrite S3, S2. by rewrite decide_True.
Qed.
End reuse.

(** ** Concrete runs *)

Section witnesses.
Import Sensor.Demo.

Definition creation : hook := Openat (task_of 42 0 "dd") (ctx_of [0; 0; 64]).
(** Process 42 has created 10000 files. *)
Definition busy : sensor (gmap Z Z) ring :=
  set_file_creation_counts {[42 := 10000]} sensor0.

Lemma creation_wf : hook_wf creation.
Proof. apply task_of_wf. vm_compute. reflexivity. Qed.
Lemma creation_counts : counts_as true 42 creation.
Proof. by vm_compute. Qed.

Definition stopped_machine : machine :=
  Machine (collapse (conc_of creation) busy).2 [(creation, Ret (collapse (conc_of creation) busy).1)].
Lemma creation_runs : rtc smp_step (Machine busy []) stopped_machine.
Proof. eapply rtc_l; [apply (smp_enter creation)|]. apply (run_thread [] creation (conc_of creation) busy). Qed.

Lemma smp_type_safe_witness :
  evolves (actors [creation]) busy (shared stopped_machine) /\
  exists m', rtc smp_step (Machine busy []) m' /\ run_hooks [creation; creation] busy = Some (shared m').
Proof.
  split.
  - apply (proj1 (smp_type_safe busy) stopped_machine creation_runs).
    apply Forall_cons. split; [exact creation_wf|by apply Forall_nil].
  - destruct (proj2 (smp_type_safe busy) [creation; creation]) as (m' & H1 & H2 & _).
    { apply Forall_cons. split; [exact creation_wf|]. apply Forall_cons. split; [exact creation_wf|by apply Forall_nil]. }
    exists m'. exact (conj H1 H2).
Defined.

Lemma smp_no_early_stop_witness :
  Exists (springs_trap 42 (agent_pid busy)) [creation] \/ 10000 < 10000 + 1 \/ 50000 < 49999 + 0.
Proof.
  refine (smp_no_early_stop 42 10000 49999 busy stopped_machine creation_runs _ _ _).
  - intros a. change (0 <= default 0 (({[42 := 10000]} : gmap Z Z) !! a) <= 10000).
    rewrite lookup_singleton. case_decide; cbn; lia.
  - intros a. change (0 <= default 0 (({[42 := 49999]} : gmap Z Z) !! a) <= 49999).
    rewrite lookup_singleton. case_decide; cbn; lia.
  - apply (bool_decide_unpack _). vm_compute. exact I.
Defined.

(** An LRU map refuses no update. *)
Lemma lru_updated p v map i :
  kmap_def map = decl.file_creation_counts ->
  kmap_def (updated p v map i) = decl.file_creation_counts /\ (bpf_map_update_elem (updated p v map i) p v).2 = 0.
Proof.
  assert (H : forall m, kmap_def m = decl.file_creation_counts ->
    kmap_def (kmap_update m p v).1 = decl.file_creation_counts /\ (kmap_update m p v).2 = 0).
  { intros m Hm. unfold kmap_update. rewrite Hm. cbn [map_type decl.file_creation_counts].
    rewrite (eq_refl : (BPF_MAP_TYPE_LRU_HASH =? BPF_MAP_TYPE_ARRAY) = false), Z.eqb_refl.
    unfold evict. by repeat case_match. }
  intros Hm. assert (E : kmap_def (updated p v map i) = decl.file_creation_counts).
  { induction i as [|i IH]; [done|]. by apply (H (updated p v map i)). }
  split; [done|]. by apply H.
Qed.

Lemma smp_lost_updates_witness :
  exists s', rtc smp_step (Machine declared_sensor []) (Machine s' [(creation, Ret 0); (creation, Ret 0); (creation, Ret 0)]) /\
    count (file_creation_counts s') 42 = 10000.
Proof.
  refine (smp_lost_updates 42 [creation; creation; creation] declared_sensor _ _ _ _ _);
    [discriminate| |vm_compute; congruence|intros i; exact (proj2 (lru_updated 42 _ (file_creation_counts declared_sensor) i eq_refl))|vm_compute; split; congruence].
  do 3 (apply Forall_cons; split; [exact creation_counts|]). by apply Forall_nil.
Defined.

(** Two creations of 42, which has created one file, and one of 43. *)
Definition other_creation : hook := Openat (task_of 43 0 "cp") (ctx_of [0; 0; 64]).
Definition reusing : sensor pool ring :=
  Sensor (Pool ∅ ∅ []) (Pool ∅ ∅ []) (Pool ∅ ∅ []) (Pool {[0 := 0]} {[0 := 77]} [])
    (Pool {[42 := 0; 43 := 1]} {[0 := 1; 1 := 9999]} [2]) (Pool ∅ ∅ []) (Ring [] []) (Ring [] []) [].

Lemma smp_reused_counter_witness :
  exists m', rtc smp_step (Machine reusing []) m' /\ fired m' = [creation; creation; other_creation] /\
    Forall (fun t => exists a, t.2 = Ret a) (threads m') /\ sigstops 42 (shared m') = 0 + 1.
Proof.
  refine (smp_reused_counter 42 43 1 creation creation other_creation reusing _ _ _ _ _ _ _ _ _);
    [discriminate|split; [discriminate|reflexivity]| |exact creation_counts|exact creation_counts|
     by vm_compute|vm_compute; congruence|vm_compute; congruence|reflexivity].
  do 2 (apply Forall_cons; split; [exact creation_wf|]). apply Forall_cons. split; [|by apply Forall_nil].
  apply task_of_wf. vm_compute. reflexivity.
Defined.
End witnesses.
