(* ===== verification/Text.v ===== *)
(** * Rust strings

    A [String] or [&str] is the list of its UTF-8 bytes.  This file models
    what the agent uses of [std::str] and [std::fmt]: lossy decoding, the
    splitting and trimming of text, and reading and printing integers. *)

From S2P Require Import Prelude.

(** ** UTF-8

    [utf8_chunk l] looks at the start of [l] as [core::str::lossy] does: the
    number of bytes of a character that is there, or the length of the longest
    prefix that is the start of one (at least 1). *)

Definition is_cont (b : byte) : bool := (0x80 <=? b) && (b <=? 0xBF).
Definition between (lo hi b : byte) : bool := (lo <=? b) && (b <=? hi).

(** The bytes allowed after the first byte of a three- or four-byte character. *)
Definition second3 (b0 b1 : byte) : bool :=
  if b0 =? 0xE0 then between 0xA0 0xBF b1
  else if b0 =? 0xED then between 0x80 0x9F b1
  else is_cont b1.
Definition second4 (b0 b1 : byte) : bool :=
  if b0 =? 0xF0 then between 0x90 0xBF b1
  else if b0 =? 0xF4 then between 0x80 0x8F b1
  else is_cont b1.

(** [valid.get(i).unwrap_or(0)]: 0 is no continuation byte. *)
Definition utf8_chunk (l : bytes) : bool * nat :=
  let b i := nth i l 0 in
  if b 0%nat <? 0x80 then (true, 1%nat)
  else if between 0xC2 0xDF (b 0%nat) then
    if is_cont (b 1%nat) then (true, 2%nat) else (false, 1%nat)
  else if between 0xE0 0xEF (b 0%nat) then
    if second3 (b 0%nat) (b 1%nat) then
      if is_cont (b 2%nat) then (true, 3%nat) else (false, 2%nat)
    else (false, 1%nat)
  else if between 0xF0 0xF4 (b 0%nat) then
    if second4 (b 0%nat) (b 1%nat) then
      if is_cont (b 2%nat) then
        if is_cont (b 3%nat) then (true, 4%nat) else (false, 3%nat)
      else (false, 2%nat)
    else (false, 1%nat)
  else (false, 1%nat).

(** U+FFFD. *)
Definition replacement : bytes := [0xEF; 0xBF; 0xBD].

Fixpoint lossy (fuel : nat) (l : bytes) : bytes :=
  match fuel, l with
  | S fuel, _ :: _ =>
      let r := utf8_chunk l in
      (if r.1 then take r.2 l else replacement) ++ lossy fuel (drop r.2 l)
  | _, _ => []
  end.

(** [String::from_utf8_lossy]; a chunk is at least one byte, so the length is
    fuel enough. *)
Definition from_utf8_lossy (l : bytes) : bytes := lossy (length l) l.

(** [str::from_utf8(l).is_ok()]. *)
Fixpoint valid_from (fuel : nat) (l : bytes) : bool :=
  match fuel, l with
  | S fuel, _ :: _ => let r := utf8_chunk l in r.1 && valid_from fuel (drop r.2 l)
  | _, _ => true
  end.
Definition valid_utf8 (l : bytes) : bool := valid_from (length l) l.

Lemma utf8_chunk_len l : (1 <= (utf8_chunk l).2 <= 4)%nat.
Proof. unfold utf8_chunk. repeat case_match; simpl; lia. Qed.

Lemma cont_in_range l i : is_cont (nth i l 0) = true -> (i < length l)%nat.
Proof.
  intros Hc. destruct (decide (i < length l)%nat); [done|].
  by rewrite nth_overflow in Hc by lia.
Qed.

Lemma second_cont b0 b1 : (second3 b0 b1 || second4 b0 b1) = true -> is_cont b1 = true.
Proof.
  unfold second3, second4, is_cont, between. intros; repeat case_match; bool_prop;
    apply andb_true_iff; split; apply Z.leb_le; lia.
Qed.

(** A chunk lies inside a non-empty string. *)
Lemma utf8_chunk_in l : l <> [] -> ((utf8_chunk l).2 <= length l)%nat.
Proof.
  intros Hl. assert (1 <= length l)%nat by (destruct l; [done|simpl; lia]).
  pose proof (second_cont (nth 0 l 0) (nth 1 l 0)) as Hs.
  assert (H1 : second3 (nth 0 l 0) (nth 1 l 0) || second4 (nth 0 l 0) (nth 1 l 0) = true ->
    (1 < length l)%nat) by eauto using cont_in_range.
  unfold utf8_chunk. repeat case_match; simpl;
    repeat match goal with H : is_cont _ = true |- _ => apply cont_in_range in H end;
    try lia; rewrite ?orb_true_l, ?orb_true_r in H1; specialize (H1 eq_refl); lia.
Qed.

(** A character is recognised by its own bytes, whatever follows. *)
Lemma utf8_chunk_prefix l r n :
  l <> [] -> utf8_chunk l = (true, n) -> utf8_chunk (take n l ++ r) = (true, n).
Proof.
  intros Hl E. pose proof (utf8_chunk_in l Hl) as Hn. rewrite E in Hn. cbn [snd] in Hn.
  assert (Hnth : forall i, (i < n)%nat -> nth i (take n l ++ r) 0 = nth i l 0).
  { intros i Hi. rewrite app_nth1 by (rewrite length_take; lia).
    rewrite <- (take_drop n l) at 2. by rewrite app_nth1 by (rewrite length_take; lia). }
  unfold utf8_chunk in *. revert E.
  repeat case_match; intros [= <-]; rewrite !Hnth in * by lia; congruence.
Qed.

(** Fuel: any amount from the length up gives the same result. *)
Lemma fuel_step {l : bytes} {f : nat} :
  (length l <= S f)%nat -> l <> [] -> (length (drop (utf8_chunk l).2 l) <= f)%nat.
Proof. intros. pose proof (utf8_chunk_len l). rewrite length_drop. lia. Qed.

Lemma lossy_fuel f1 f2 l :
  (length l <= f1)%nat -> (length l <= f2)%nat -> lossy f1 l = lossy f2 l.
Proof.
  revert f2 l; induction f1 as [|f1 IH]; intros [|f2] [|b l] H1 H2; try done; try (simpl in *; lia).
  cbn [lossy]. f_equal. apply IH; by apply fuel_step.
Qed.

Lemma valid_fuel f1 f2 l :
  (length l <= f1)%nat -> (length l <= f2)%nat -> valid_from f1 l = valid_from f2 l.
Proof.
  revert f2 l; induction f1 as [|f1 IH]; intros [|f2] [|b l] H1 H2; try done; try (simpl in *; lia).
  cbn [valid_from]. f_equal. apply IH; by apply fuel_step.
Qed.

Lemma from_utf8_lossy_step l :
  l <> [] -> from_utf8_lossy l =
    (if (utf8_chunk l).1 then take (utf8_chunk l).2 l else replacement)
      ++ from_utf8_lossy (drop (utf8_chunk l).2 l).
Proof.
  intros Hl. unfold from_utf8_lossy at 1. destruct l as [|b l]; [done|].
  cbn [lossy length]. f_equal. apply lossy_fuel; [by apply (@fuel_step (b :: l))|done].
Qed.

Lemma valid_utf8_step l :
  l <> [] -> valid_utf8 l = (utf8_chunk l).1 && valid_utf8 (drop (utf8_chunk l).2 l).
Proof.
  intros Hl. unfold valid_utf8 at 1. destruct l as [|b l]; [done|].
  cbn [valid_from length]. f_equal. apply valid_fuel; [by apply (@fuel_step (b :: l))|done].
Qed.

(** Induction on a string, chunk by chunk. *)
Lemma chunk_ind (P : bytes -> Prop) :
  P [] -> (forall l, l <> [] -> P (drop (utf8_chunk l).2 l) -> P l) -> forall l, P l.
Proof.
  intros H0 HS l. remember (length l) as n eqn:Hn. revert l Hn.
  induction (lt_wf n) as [n _ IH]. intros l ->. destruct l as [|b l]; [done|].
  apply HS; [done|]. eapply IH; [|done]. rewrite length_drop.
  pose proof (utf8_chunk_len (b :: l)). simpl length. lia.
Qed.

(** Text that is UTF-8 already is not changed. *)
Lemma from_utf8_lossy_id l : valid_utf8 l = true -> from_utf8_lossy l = l.
Proof.
  induction l as [|l Hl IH] using chunk_ind; [done|].
  rewrite valid_utf8_step, from_utf8_lossy_step by done. intros [-> Hv]%andb_true_iff.
  rewrite IH by done. apply take_drop.
Qed.

Lemma valid_utf8_app l1 l2 : valid_utf8 l1 = true -> valid_utf8 l2 = true -> valid_utf8 (l1 ++ l2) = true.
Proof.
  induction l1 as [|l Hl IH] using chunk_ind; [done|].
  rewrite valid_utf8_step by done. intros [Hc Hv]%andb_true_iff H2.
  destruct (utf8_chunk l) as [[|] n] eqn:E; [|done]. cbn [fst snd] in *.
  pose proof (utf8_chunk_prefix l (drop n l ++ l2) n Hl E) as Ep.
  rewrite app_assoc, take_drop in Ep. rewrite valid_utf8_step by by destruct l.
  rewrite Ep. cbn [fst snd]. pose proof (utf8_chunk_in l Hl) as Hn. rewrite E in Hn.
  rewrite drop_app_le by done. auto.
Qed.

(** Whatever the bytes, the result of a lossy decoding is UTF-8. *)
Lemma from_utf8_lossy_valid l : valid_utf8 (from_utf8_lossy l) = true.
Proof.
  induction l as [|l Hl IH] using chunk_ind; [done|].
  rewrite from_utf8_lossy_step by done. apply valid_utf8_app; [|done].
  destruct (utf8_chunk l) as [[|] n] eqn:E; [|done]. cbn [fst snd].
  pose proof (utf8_chunk_prefix l [] n Hl E) as Ep. rewrite app_nil_r in Ep.
  pose proof (utf8_chunk_len l) as Hn. rewrite E in Hn. cbn [snd] in Hn.
  rewrite valid_utf8_step by (destruct l, n; simpl in *; (lia || done)).
  rewrite Ep. cbn [fst snd]. rewrite drop_ge by (rewrite length_take; lia). done.
Qed.

Lemma valid_utf8_ascii l : Forall (fun b => 0 <= b < 128) l -> valid_utf8 l = true.
Proof.
  induction 1 as [|b l Hb Hl IH]; [done|]. rewrite valid_utf8_step by done.
  assert (E : utf8_chunk (b :: l) = (true, 1%nat)).
  { unfold utf8_chunk. cbn [nth]. by rewrite (proj2 (Z.ltb_lt b 0x80)) by lia. }
  by rewrite E.
Qed.

(** Seven-bit text in front of anything is kept. *)
Lemma from_utf8_lossy_ascii_app l r :
  Forall (fun b => 0 <= b < 128) l -> from_utf8_lossy (l ++ r) = l ++ from_utf8_lossy r.
Proof.
  induction 1 as [|b l Hb Hl IH]; [done|]. cbn [app]. rewrite from_utf8_lossy_step by done.
  assert (E : utf8_chunk (b :: l ++ r) = (true, 1%nat)).
  { unfold utf8_chunk. cbn [nth]. by rewrite (proj2 (Z.ltb_lt b 0x80)) by lia. }
  rewrite E. cbn [fst snd]. change (drop 1 (b :: l ++ r)) with (l ++ r). by rewrite IH.
Qed.

(** What is not only NULs is not decoded to only NULs. *)
Lemma from_utf8_lossy_nonzero l :
  (exists b, b ∈ l /\ b <> 0) -> exists b, b ∈ from_utf8_lossy l /\ b <> 0.
Proof.
  induction l as [|l Hl IH] using chunk_ind; [by intros (b & ?%elem_of_nil & _)|].
  intros (b & Hb & Hne). rewrite from_utf8_lossy_step by done. setoid_rewrite elem_of_app.
  rewrite <- (take_drop (utf8_chunk l).2 l) in Hb. apply elem_of_app in Hb as [Hb|Hb].
  - destruct (utf8_chunk l).1; [by exists b; split; [left|]|]. exists 0xEF. split; [|lia]. left. by left.
  - destruct IH as (c & Hc & Hnc); [by exists b|]. exists c. auto.
Qed.

#[export] Hint Resolve from_utf8_lossy_valid valid_utf8_app : alphvdr.

(** ** Searching and splitting *)

(** [str::chars], each character as its encoding. *)
Fixpoint chars_from (fuel : nat) (l : bytes) : list bytes :=
  match fuel, l with
  | S fuel, _ :: _ => let n := (utf8_chunk l).2 in take n l :: chars_from fuel (drop n l)
  | _, _ => []
  end.
Definition chars (l : bytes) : list bytes := chars_from (length l) l.

Definition newline : byte := 10.

Fixpoint find_byte (c : byte) (l : bytes) : option nat :=
  match l with
  | [] => None
  | b :: l => if b =? c then Some 0%nat else S <$> find_byte c l
  end.

(** [str::split(c)] *)
Fixpoint split (c : byte) (l : bytes) : list bytes :=
  match l with
  | [] => [[]]
  | b :: l =>
      if b =? c then [] :: split c l
      else match split c l with
           | [] => [[b]]
           | w :: ws => (b :: w) :: ws
           end
  end.

(** [str::splitn(n, c)]: at most [n] pieces, the last one unsplit. *)
Fixpoint splitn (n : nat) (c : byte) (l : bytes) : list bytes :=
  match n with
  | O => []
  | S O => [l]
  | S n => match find_byte c l with
           | None => [l]
           | Some i => take i l :: splitn n c (drop (S i) l)
           end
  end.

(** [str::lines]: a line loses its ["\n"] and then a ["\r"] before it; a last
    line without a terminator is kept when it is not empty. *)
Definition strip_cr (l : bytes) : bytes :=
  match last l with Some 13 => removelast l | _ => l end.
Definition lines (l : bytes) : list bytes :=
  let ls := split newline l in
  map strip_cr (removelast ls) ++ (if last ls is Some (b :: r) then [b :: r] else []).

Fixpoint drop_while {A} (p : A -> bool) (l : list A) : list A :=
  match l with
  | [] => []
  | b :: r => if p b then drop_while p r else l
  end.

Fixpoint take_while (p : byte -> bool) (l : bytes) : bytes :=
  match l with
  | [] => []
  | b :: r => if p b then b :: take_while p r else []
  end.

(** [str::trim_end_matches(c)] *)
Definition trim_end_byte (c : byte) (l : bytes) : bytes :=
  reverse (drop_while (fun b => b =? c) (reverse l)).

(** [str::trim_start_matches("0x")]: every leading "0x" goes. *)
Fixpoint trim_0x (l : bytes) : bytes :=
  match l with
  | 48 :: 120 :: r => trim_0x r
  | _ => l
  end.

Definition ends_with (p l : bytes) : Prop := starts_with (reverse p) (reverse l).
#[export] Instance ends_with_dec p l : Decision (ends_with p l).
Proof. unfold ends_with. apply _. Defined.

(** [str::contains(p)] *)
Fixpoint contains (p l : bytes) : bool :=
  bool_decide (starts_with p l) || match l with [] => false | _ :: l => contains p l end.

(** [str::trim]: the White_Space characters of Unicode, as their encodings. *)
Definition white_space : list bytes :=
  [[9]; [10]; [11]; [12]; [13]; [32]; [0xC2; 0x85]; [0xC2; 0xA0]; [0xE1; 0x9A; 0x80];
   [0xE2; 0x80; 0x80]; [0xE2; 0x80; 0x81]; [0xE2; 0x80; 0x82]; [0xE2; 0x80; 0x83];
   [0xE2; 0x80; 0x84]; [0xE2; 0x80; 0x85]; [0xE2; 0x80; 0x86]; [0xE2; 0x80; 0x87];
   [0xE2; 0x80; 0x88]; [0xE2; 0x80; 0x89]; [0xE2; 0x80; 0x8A]; [0xE2; 0x80; 0xA8];
   [0xE2; 0x80; 0xA9]; [0xE2; 0x80; 0xAF]; [0xE2; 0x81; 0x9F]; [0xE3; 0x80; 0x80]].

(** Drop the characters of [cs] that [l] starts with; each is at least one
    byte, so the length is fuel enough. *)
Fixpoint trim_chars (cs : list bytes) (fuel : nat) (l : bytes) : bytes :=
  match fuel with
  | O => l
  | S fuel =>
      match list_find (fun c => starts_with c l) cs with
      | Some (_, c) => trim_chars cs fuel (drop (length c) l)
      | None => l
      end
  end.
Definition trim_start (l : bytes) : bytes := trim_chars white_space (length l) l.
Definition trim_end (l : bytes) : bytes :=
  reverse (trim_chars (reverse <$> white_space) (length l) (reverse l)).
Definition trim (l : bytes) : bytes := trim_end (trim_start l).

Lemma find_byte_app c l r : c ∉ l -> find_byte c (l ++ c :: r) = Some (length l).
Proof.
  induction l as [|b l IH]; simpl; [by rewrite Z.eqb_refl|]. intros [Hne Hl]%not_elem_of_cons.
  rewrite (proj2 (Z.eqb_neq b c)) by done. by rewrite IH.
Qed.

Lemma find_byte_none c l : c ∉ l -> find_byte c l = None.
Proof.
  induction l as [|b l IH]; simpl; [done|]. intros [Hne Hl]%not_elem_of_cons.
  rewrite (proj2 (Z.eqb_neq b c)) by done. by rewrite IH.
Qed.

Lemma splitn_app n c l r :
  c ∉ l -> splitn (S (S n)) c (l ++ c :: r) = l :: splitn (S n) c r.
Proof.
  intros Hl. cbn [splitn]. rewrite find_byte_app by done.
  rewrite take_app_length, cons_middle, app_assoc.
  by rewrite drop_app_length' by (rewrite length_app; simpl; lia).
Qed.

Lemma split_one c l : c ∉ l -> split c l = [l].
Proof.
  induction l as [|b l IH]; simpl; [done|]. intros [Hne Hl]%not_elem_of_cons.
  rewrite (proj2 (Z.eqb_neq b c)) by done. by rewrite IH.
Qed.

Lemma split_app c l r : c ∉ l -> split c (l ++ c :: r) = l :: split c r.
Proof.
  induction l as [|b l IH]; simpl; [by rewrite Z.eqb_refl|]. intros [Hne Hl]%not_elem_of_cons.
  rewrite (proj2 (Z.eqb_neq b c)) by done. by rewrite IH.
Qed.

(** Trimming trailing NULs. *)
Lemma drop_while_head {A} (p : A -> bool) b l : p b = false -> drop_while p (b :: l) = b :: l.
Proof. simpl. by intros ->. Qed.

Lemma drop_while_app {A} (p : A -> bool) l r :
  Forall (fun b => p b = true) l -> (if head r is Some b then p b = false else True) ->
  drop_while p (l ++ r) = r.
Proof.
  intros Hl Hr. induction Hl as [|b l Hb Hl IH]; cbn [app drop_while].
  - destruct r as [|b r]; [done|]. cbn [drop_while head] in *. by rewrite Hr.
  - by rewrite Hb.
Qed.

Lemma drop_while_replicate {A} (p : A -> bool) b n l : p b = true -> drop_while p (replicate n b ++ l) = drop_while p l.
Proof. intros Hb. induction n; simpl; [done|]. by rewrite Hb. Qed.

Lemma trim_end_byte_app c s b n :
  b <> c -> trim_end_byte c (s ++ [b] ++ replicate n c) = s ++ [b].
Proof.
  intros Hb. unfold trim_end_byte. rewrite !reverse_app, reverse_replicate, <- app_assoc.
  rewrite drop_while_replicate by apply Z.eqb_refl. cbn [reverse rev_append app].
  rewrite drop_while_head by (by apply Z.eqb_neq).
  by rewrite reverse_cons, reverse_involutive.
Qed.

(** ** Integers *)

Definition digit_char (d : Z) : byte := if d <? 10 then 48 + d else 87 + d.

(** The digits of [n], most significant first. *)
Fixpoint digits (fuel : nat) (radix n : Z) : bytes :=
  match fuel with
  | O => []
  | S fuel =>
      if n <? radix then [digit_char n]
      else digits fuel radix (n / radix) ++ [digit_char (n mod radix)]
  end.

(** [{}] and [{:x}] of a non-negative integer; a number has no more digits
    than bits, and one when it is 0. *)
Definition show_radix (radix n : Z) : bytes := digits (S (Z.to_nat (Z.log2 n))) radix n.
(** [{}] of a signed integer. *)
Definition show (n : Z) : bytes := if n <? 0 then 45 :: show_radix 10 (- n) else show_radix 10 n.
Definition show_hex (n : Z) : bytes := show_radix 16 n.

Definition to_digit (radix : Z) (b : byte) : option Z :=
  let d := if between 48 57 b then b - 48
           else if between 97 122 b then b - 87
           else if between 65 90 b then b - 55
           else radix in
  if d <? radix then Some d else None.

(** The loop of [from_str_radix]: checked multiplication and addition on [w]
    bits. *)
Fixpoint parse_digits (radix w acc : Z) (l : bytes) : option Z :=
  match l with
  | [] => Some acc
  | b :: l =>
      d ← to_digit radix b;
      if (acc * radix <? 2 ^ w) && (acc * radix + d <? 2 ^ w)
      then parse_digits radix w (acc * radix + d) l
      else None
  end.

(** [uN::from_str_radix(l, radix)], and [l.parse::<uN>()] when the radix is
    10: no digits or a lone sign is an error, a leading ["+"] is skipped. *)
Definition from_str_radix (radix w : Z) (l : bytes) : option Z :=
  match l with
  | [] | [43] | [45] => None
  | 43 :: r => parse_digits radix w 0 r
  | _ => parse_digits radix w 0 l
  end.
Definition parse_uint (w : Z) (l : bytes) : option Z := from_str_radix 10 w l.

Lemma to_digit_char radix d :
  0 <= d < radix -> radix <= 36 -> to_digit radix (digit_char d) = Some d.
Proof.
  intros. unfold to_digit, digit_char, between.
  destruct (Z.ltb_spec d 10).
  - rewrite (proj2 (Z.leb_le 48 _)), (proj2 (Z.leb_le _ 57)) by lia. simpl.
    by rewrite (proj2 (Z.ltb_lt _ _)), Z.add_simpl_l by lia.
  - rewrite (proj2 (Z.leb_gt (87 + d) 57)), andb_false_r by lia.
    rewrite (proj2 (Z.leb_le 97 _)), (proj2 (Z.leb_le _ 122)) by lia. simpl.
    by rewrite (proj2 (Z.ltb_lt _ _)), Z.add_simpl_l by lia.
Qed.

Lemma parse_digits_app radix w acc l b :
  parse_digits radix w acc (l ++ [b]) =
    (a ← parse_digits radix w acc l; parse_digits radix w a [b]).
Proof.
  revert acc; induction l as [|x l IH]; intros acc; [done|]. cbn [app parse_digits].
  destruct (to_digit radix x); simpl; [|done]. case_match; [apply IH|done].
Qed.

Lemma parse_digits_digits (fuel : nat) radix w n :
  2 <= radix <= 36 -> 0 <= n < 2 ^ w -> n < 2 ^ fuel -> (0 < fuel)%nat ->
  parse_digits radix w 0 (digits fuel radix n) = Some n.
Proof.
  intros Hr. revert n; induction fuel as [|fuel IH]; intros n Hn Hf Hpos; [lia|].
  assert (Hdm : n = radix * (n / radix) + n mod radix) by (apply Z.div_mod; lia).
  pose proof (Z.mod_pos_bound n radix ltac:(lia)).
  cbn [digits]. destruct (Z.ltb_spec n radix).
  - cbn [parse_digits]. rewrite to_digit_char by lia. cbn.
    by rewrite (proj2 (Z.ltb_lt 0 _)), (proj2 (Z.ltb_lt n _)) by lia.
  - rewrite parse_digits_app.
    assert (Hd : 0 <= n / radix) by (apply Z.div_pos; lia).
    assert (1 <= n / radix) by (apply Z.div_le_lower_bound; lia).
    assert (Hlt : n / radix < 2 ^ fuel).
    { apply Z.div_lt_upper_bound; [lia|]. 
      replace (Z.of_nat (S fuel)) with (Z.succ fuel) in Hf by lia.
      rewrite Z.pow_succ_r in Hf by lia. nia. }
    rewrite IH; [|split; [done|nia]|done|destruct fuel; [simpl in Hlt; lia|lia]].
    cbn. rewrite to_digit_char by lia. cbn.
    rewrite (proj2 (Z.ltb_lt _ _)), (proj2 (Z.ltb_lt _ _)) by lia. simpl. f_equal. lia.
Qed.

Lemma show_radix_fuel n : 0 <= n -> n < 2 ^ S (Z.to_nat (Z.log2 n)).
Proof.
  intros Hn. rewrite Nat2Z.inj_succ, Z2Nat.id by apply Z.log2_nonneg.
  destruct (decide (n = 0)) as [->|]; [done|]. apply Z.log2_spec. lia.
Qed.

(** What is printed is never empty and has no sign. *)
Lemma digits_chars (fuel : nat) radix n :
  2 <= radix <= 16 -> 0 <= n ->
  Forall (fun b => 48 <= b <= 57 \/ 97 <= b <= 102) (digits fuel radix n).
Proof.
  intros Hr. revert n; induction fuel as [|fuel IH]; intros n Hn; [constructor|].
  assert (Hc : forall d, 0 <= d < radix -> 48 <= digit_char d <= 57 \/ 97 <= digit_char d <= 102).
  { intros d Hd. unfold digit_char. destruct (Z.ltb_spec d 10); lia. }
  cbn [digits]. destruct (Z.ltb_spec n radix); [constructor; [apply Hc; lia|constructor]|].
  apply Forall_app. split; [by apply IH, Z.div_pos; lia|].
  constructor; [|constructor]. apply Hc, Z.mod_pos_bound. lia.
Qed.

Lemma digits_nonempty fuel radix n : digits (S fuel) radix n <> [].
Proof. cbn [digits]. case_match; [done|]. by intros []%app_eq_nil. Qed.

(** Reading back a printed number. *)
Lemma from_str_radix_show radix w n :
  2 <= radix <= 16 -> 0 <= n < 2 ^ w -> from_str_radix radix w (show_radix radix n) = Some n.
Proof.
  intros Hr Hn. unfold from_str_radix.
  pose proof (parse_digits_digits (S (Z.to_nat (Z.log2 n))) radix w n ltac:(lia) Hn
    (show_radix_fuel n ltac:(lia)) ltac:(lia)) as Hp.
  pose proof (digits_chars (S (Z.to_nat (Z.log2 n))) radix n Hr ltac:(lia)) as Hc.
  pose proof (digits_nonempty (Z.to_nat (Z.log2 n)) radix n) as Hne.
  unfold show_radix in *. destruct (digits _ radix n) as [|b l]; [done|].
  apply Forall_cons in Hc as [Hb _].
  repeat case_match; simplify_eq; try lia; done.
Qed.

(** ** More on trimming, lines and leading zeros *)

Lemma trim_0x_id l : 120 ∉ l -> trim_0x l = l.
Proof.
  intros Hl. destruct l as [|b [|c l]]; cbn [trim_0x]; repeat case_match; simplify_eq; try done.
  destruct Hl. right. left.
Qed.

Lemma trim_chars_fuel cs f1 f2 l :
  Forall (fun c => c <> []) cs -> (length l <= f1)%nat -> (length l <= f2)%nat ->
  trim_chars cs f1 l = trim_chars cs f2 l.
Proof.
  intros Hcs. assert (Hnil : list_find (fun c => starts_with c []) cs = None).
  { apply list_find_None, (Forall_impl _ _ _ Hcs). intros [|b c] Hc; [done|].
    unfold starts_with. by rewrite take_nil. }
  assert (H0 : forall f, trim_chars cs f [] = []) by (intros [|f]; cbn [trim_chars]; by rewrite ?Hnil). clear Hnil.
  revert f2 l; induction f1 as [|f1 IH]; intros [|f2] [|b l] H1 H2;
    rewrite ?H0; try done; try (simpl in *; lia).
  cbn [trim_chars]. destruct (list_find _ _) as [[i c]|] eqn:E; [|done].
  apply list_find_Some in E as (Hi & _ & _).
  assert (c <> []) by (eapply Forall_lookup_1 in Hcs; eauto).
  apply IH; rewrite length_drop; simpl in *; destruct c; done || (simpl; lia).
Qed.

Lemma white_space_nonempty : Forall (fun c => c <> []) white_space.
Proof. repeat constructor; done. Qed.

Lemma trim_start_spaces n l : trim_start (replicate n 32 ++ l) = trim_start l.
Proof.
  unfold trim_start. induction n as [|n IH]; [done|]. cbn [replicate app length trim_chars].
  assert (E : list_find (fun c => starts_with c (32 :: replicate n 32 ++ l)) white_space
              = Some (5%nat, [32])) by (vm_compute; reflexivity).
  rewrite E. exact IH.
Qed.

Lemma trim_spaces n l : trim (replicate n 32 ++ l) = trim l.
Proof. unfold trim. by rewrite trim_start_spaces. Qed.

(** Splitting a file into the lines it was made of. *)
Lemma split_not_nil c l : split c l <> [].
Proof. destruct l as [|b l]; simpl; [done|]. repeat case_match; done. Qed.

Lemma lines_app l r :
  newline ∉ l -> last l <> Some 13 -> lines (l ++ newline :: r) = l :: lines r.
Proof.
  intros Hn Hc. unfold lines. rewrite split_app by done.
  pose proof (split_not_nil newline r). destruct (split newline r) as [|w ws]; [done|].
  cbn [removelast map app]. f_equal.
  unfold strip_cr. by destruct (last l) as [b|] eqn:E; [|done]; repeat case_match.
Qed.

Lemma lines_concat (ls : list bytes) :
  Forall (fun l => (newline ∉ l) /\ last l <> Some 13) ls ->
  lines (concat (map (fun l => l ++ [newline]) ls)) = ls.
Proof.
  induction 1 as [|l ls [Hn Hc] Hls IH]; [done|]. cbn [map concat].
  rewrite <- app_assoc. cbn [app]. by rewrite lines_app, IH.
Qed.

Lemma parse_digits_zeros radix w k l :
  2 <= radix <= 36 -> 0 < w ->
  parse_digits radix w 0 (replicate k 48 ++ l) = parse_digits radix w 0 l.
Proof.
  intros Hr Hw. induction k as [|k IH]; [done|]. cbn [replicate app parse_digits].
  assert (E : to_digit radix 48 = Some 0) by (apply (to_digit_char radix 0); lia).
  rewrite E. cbn. rewrite !Z.mul_0_l, Z.add_0_r.
  by rewrite (proj2 (Z.ltb_lt 0 _)) by (apply Z.pow_pos_nonneg; lia).
Qed.

(** A number printed with leading zeros. *)
Lemma from_str_radix_padded radix w k n :
  2 <= radix <= 16 -> 0 < w -> 0 <= n < 2 ^ w ->
  from_str_radix radix w (replicate k 48 ++ show_radix radix n) = Some n.
Proof.
  intros Hr Hw Hn. pose proof (from_str_radix_show radix w n Hr Hn) as E.
  destruct k as [|k]; [done|].
  transitivity (parse_digits radix w 0 (replicate (S k) 48 ++ show_radix radix n)); [done|].
  rewrite parse_digits_zeros by lia.
  apply parse_digits_digits; [lia|done|apply show_radix_fuel; lia|lia].
Qed.

Lemma show_radix_chars radix n k :
  2 <= radix <= 16 -> 0 <= n ->
  Forall (fun b => 48 <= b <= 57 \/ 97 <= b <= 102) (replicate k 48 ++ show_radix radix n).
Proof.
  intros. apply Forall_app. split; [apply Forall_replicate; lia|by apply digits_chars].
Qed.

Lemma not_in_digits c l :
  Forall (fun b => 48 <= b <= 57 \/ 97 <= b <= 102) l ->
  bool_decide (c < 48 \/ 57 < c < 97 \/ 102 < c) = true -> c ∉ l.
Proof. rewrite Forall_forall. intros Hl Hc Hin%Hl. bool_prop. lia. Qed.

Lemma show_digits n : 0 <= n -> Forall (fun b => between 48 57 b = true) (show n).
Proof.
  intros Hn. unfold show. rewrite (proj2 (Z.ltb_ge n 0)) by lia. unfold show_radix.
  generalize (S (Z.to_nat (Z.log2 n))) as fuel. intros fuel. revert n Hn.
  assert (Hc : forall d, 0 <= d < 10 -> between 48 57 (digit_char d) = true).
  { intros d Hd. unfold digit_char, between. rewrite (proj2 (Z.ltb_lt d 10)) by lia.
    apply andb_true_iff. rewrite !Z.leb_le. lia. }
  induction fuel as [|fuel IH]; intros n Hn; [constructor|]. cbn [digits].
  destruct (Z.ltb_spec n 10); [constructor; [apply Hc; lia|constructor]|].
  apply Forall_app. split; [by apply IH, Z.div_pos; lia|].
  constructor; [|constructor]. apply Hc, Z.mod_pos_bound. lia.
Qed.

Lemma parse_uint_show w n : is_unsigned w n -> parse_uint w (show n) = Some n.
Proof.
  unfold is_unsigned. intros Hn. unfold parse_uint, show. rewrite (proj2 (Z.ltb_ge n 0)) by lia.
  apply from_str_radix_show; [lia|done].
Qed.

Lemma take_while_app p l r :
  Forall (fun b => p b = true) l -> (if head r is Some b then p b = false else True) ->
  take_while p (l ++ r) = l.
Proof.
  intros Hl Hr. induction Hl as [|b l Hb Hl IH]; cbn [app take_while].
  - destruct r as [|b r]; [done|]. cbn [take_while head] in *. by rewrite Hr.
  - by rewrite Hb, IH.
Qed.

(** The text of an IPv4 address. *)
Definition dotted (a b c d : Z) : bytes :=
  show a ++ 46 :: show b ++ 46 :: show c ++ 46 :: show d.

Lemma split_dotted a b c d :
  0 <= a -> 0 <= b -> 0 <= c -> 0 <= d ->
  split 46 (dotted a b c d) = [show a; show b; show c; show d].
Proof.
  intros Ha Hb Hc Hd.
  assert (Hn : forall n, 0 <= n -> 46 ∉ show n).
  { intros n Hn Hin. pose proof (show_digits n Hn) as Hs. rewrite Forall_forall in Hs. by apply Hs in Hin. }
  unfold dotted. by rewrite !split_app, split_one by auto.
Qed.

(** ** Characters *)

Lemma chars_fuel f1 f2 l : (length l <= f1)%nat -> (length l <= f2)%nat -> chars_from f1 l = chars_from f2 l.
Proof.
  revert f2 l. induction f1 as [|f1 IH]; intros f2 l H1 H2; destruct l as [|b l]; try (simpl in *; lia).
  - by destruct f2.
  - by destruct f2.
  - destruct f2 as [|f2]; [simpl in *; lia|]. cbn [chars_from]. f_equal.
    apply IH; apply (@fuel_step (b :: l)); done.
Qed.

Lemma chars_step l :
  l <> [] -> chars l = take (utf8_chunk l).2 l :: chars (drop (utf8_chunk l).2 l).
Proof.
  intros Hl. unfold chars at 1. destruct l as [|b l]; [done|]. cbn [chars_from length]. f_equal.
  apply chars_fuel; [by apply (@fuel_step (b :: l))|done].
Qed.

Lemma concat_chars l : concat (chars l) = l.
Proof.
  induction l as [|l Hl IH] using chunk_ind; [done|]. rewrite chars_step by done. cbn [concat].
  rewrite IH. apply take_drop.
Qed.

Lemma chars_app l r : valid_utf8 l = true -> chars (l ++ r) = chars l ++ chars r.
Proof.
  induction l as [|l Hl IH] using chunk_ind; [done|].
  rewrite valid_utf8_step by done. intros [E Hv]%andb_true_iff.
  destruct (utf8_chunk l) as [b n] eqn:El. cbn [fst snd] in *. subst b.
  pose proof (utf8_chunk_prefix l (drop n l ++ r) n Hl El) as Ep.
  rewrite app_assoc, take_drop in Ep. rewrite (chars_step (l ++ r)), (chars_step l) by by destruct l.
  rewrite Ep, El. cbn [fst snd]. pose proof (utf8_chunk_in l Hl) as Hn. rewrite El in Hn.
  rewrite drop_app_le, take_app_le by done. cbn [app]. by rewrite IH.
Qed.

Lemma chars_ascii l : Forall (fun b => 0 <= b < 128) l -> chars l = map (fun b => [b]) l.
Proof.
  induction 1 as [|b l Hb Hl IH]; [done|]. rewrite chars_step by done.
  assert (E : utf8_chunk (b :: l) = (true, 1%nat)).
  { unfold utf8_chunk. cbn [nth]. by rewrite (proj2 (Z.ltb_lt b 0x80)) by lia. }
  rewrite E. change (drop (true, 1%nat).2 (b :: l)) with l. by rewrite IH.
Qed.

(** ** Cutting UTF-8 at character boundaries *)

Lemma chunk_conts l n i :
  utf8_chunk l = (true, n) -> (1 <= i < n)%nat -> is_cont (nth i l 0) = true.
Proof.
  intros E Hi. pose proof (second_cont (nth 0 l 0) (nth 1 l 0)) as Hs. revert E.
  unfold utf8_chunk. repeat case_match; intros [= <-]; try lia;
    (assert (i = 1%nat \/ i = 2%nat \/ i = 3%nat) as [->|[->| ->]] by lia); try done; try lia;
    apply Hs; by rewrite ?orb_true_r.
Qed.

Lemma valid_cut l1 b l2 :
  is_cont b = false -> valid_utf8 (l1 ++ b :: l2) = true ->
  valid_utf8 l1 = true /\ valid_utf8 (b :: l2) = true.
Proof.
  intros Hb. remember (l1 ++ b :: l2) as l eqn:El. revert l1 El.
  induction l as [|l Hl IH] using chunk_ind; intros l1 El; [by destruct l1|].
  destruct (decide (l1 = [])) as [->|H1]; [by intros; simplify_eq/=|].
  rewrite valid_utf8_step by done. intros [Hc Hv]%andb_true_iff.
  destruct (utf8_chunk l) as [[|] n] eqn:E; [|done]. cbn [fst snd] in *.
  assert (Hn : (n <= length l1)%nat).
  { destruct (decide (n <= length l1)%nat) as [|Hn]; [done|].
    assert (1 <= length l1)%nat by (destruct l1; [done|simpl; lia]).
    pose proof (chunk_conts l n (length l1) E ltac:(lia)) as Hx.
    rewrite El, nth_middle in Hx. congruence. }
  pose proof (utf8_chunk_prefix l (drop n l1) n Hl E) as Ep.
  rewrite El, take_app_le, take_drop in Ep by done.
  destruct (IH (drop n l1)) as [Hv1 Hv2]; [by rewrite El, drop_app_le|done|].
  split; [|done]. rewrite valid_utf8_step by done. by rewrite Ep.
Qed.

(** What follows a valid prefix is valid. *)
Lemma valid_drop_prefix c l : valid_utf8 c = true -> valid_utf8 (c ++ l) = true -> valid_utf8 l = true.
Proof.
  induction c as [|c Hc IH] using chunk_ind; [done|].
  rewrite valid_utf8_step by done. intros [H1 H2]%andb_true_iff.
  destruct (utf8_chunk c) as [[|] n] eqn:E; [|done]. cbn [fst snd] in *.
  pose proof (utf8_chunk_prefix c (drop n c ++ l) n Hc E) as Ep.
  rewrite app_assoc, take_drop in Ep. pose proof (utf8_chunk_in c Hc) as Hn. rewrite E in Hn.
  rewrite valid_utf8_step by by destruct c. rewrite Ep. cbn [fst snd].
  rewrite drop_app_le by done. eauto.
Qed.

Definition ascii (b : byte) : Prop := 0 <= b < 128.

Lemma valid_ascii_cut l1 b l2 :
  ascii b -> valid_utf8 (l1 ++ b :: l2) = true -> valid_utf8 l1 = true /\ valid_utf8 l2 = true.
Proof.
  unfold ascii. intros Hb Hv. apply valid_cut in Hv as [H1 H2].
  - split; [done|]. apply (valid_drop_prefix [b]); [|done].
    apply valid_utf8_ascii. by constructor.
  - unfold is_cont. apply andb_false_iff. left. apply Z.leb_gt. lia.
Qed.

Lemma in_cut (c : byte) l : c ∈ l -> exists l1 l2, l = l1 ++ c :: l2 /\ c ∉ l1.
Proof.
  induction l as [|b l IH]; [by intros ?%elem_of_nil|]. intros Hin.
  destruct (decide (b = c)) as [->|Hne]; [by exists [], l; split; [|apply not_elem_of_nil]|].
  apply elem_of_cons in Hin as [->|Hin]; [done|].
  destruct (IH Hin) as (l1 & l2 & -> & Hn). exists (b :: l1), l2. split; [done|].
  by apply not_elem_of_cons.
Qed.

Lemma valid_split c l : ascii c -> valid_utf8 l = true -> Forall (fun w => valid_utf8 w = true) (split c l).
Proof.
  intros Hc. remember (length l) as n eqn:Hn. revert l Hn.
  induction (lt_wf n) as [n _ IH]. intros l -> Hv. destruct (decide (c ∈ l)) as [Hin|Hin].
  - destruct (in_cut c l Hin) as (l1 & l2 & -> & Hn1). apply valid_ascii_cut in Hv as [H1 H2]; [|done].
    rewrite split_app by done. constructor; [done|]. eapply IH; [|done|done].
    rewrite length_app. simpl. lia.
  - rewrite split_one by done. by constructor.
Qed.

Lemma valid_splitn n c l : ascii c -> valid_utf8 l = true -> Forall (fun w => valid_utf8 w = true) (splitn n c l).
Proof.
  intros Hc. revert l; induction n as [|n IH]; intros l Hv; [constructor|].
  destruct n as [|n]; [by constructor|]. destruct (decide (c ∈ l)) as [Hin|Hin].
  - destruct (in_cut c l Hin) as (l1 & l2 & -> & Hn1). apply valid_ascii_cut in Hv as [H1 H2]; [|done].
    rewrite splitn_app by done. constructor; auto.
  - cbn [splitn]. rewrite find_byte_none by done. by constructor.
Qed.

Lemma valid_strip_cr l : valid_utf8 l = true -> valid_utf8 (strip_cr l) = true.
Proof.
  intros Hv. unfold strip_cr. destruct (last l) as [b|] eqn:El; [|done].
  apply last_Some in El as [x ->]. rewrite removelast_last.
  destruct (decide (b = 13)) as [->|]; [|by repeat case_match].
  by apply valid_ascii_cut in Hv as [? _].
Qed.

Lemma valid_lines l : valid_utf8 l = true -> Forall (fun w => valid_utf8 w = true) (lines l).
Proof.
  intros Hv. unfold lines. pose proof (valid_split newline l ltac:(unfold ascii, newline; lia) Hv) as Hs.
  destruct (last (split newline l)) as [z|] eqn:El.
  - apply last_Some in El as [x E]. rewrite E in *. rewrite removelast_last.
    apply Forall_app in Hs as [Hs Hz]. rewrite Forall_singleton in Hz. apply Forall_app. split.
    + apply Forall_map. eapply Forall_impl; [exact Hs|]. intros w Hw. by apply valid_strip_cr.
    + destruct z as [|b z]; cbn; [constructor|constructor; [exact Hz|constructor]].
  - apply last_None in El. by destruct (split_not_nil newline l).
Qed.

(** The white-space characters are valid, and start with a byte that is not a
    continuation. *)
Lemma white_space_ok c :
  c ∈ white_space -> valid_utf8 c = true /\ exists b r, c = b :: r /\ is_cont b = false.
Proof.
  assert (H : Forall (fun c => valid_utf8 c = true /\ is_cont (hd 0 c) = false /\ c <> []) white_space)
    by (repeat constructor; done).
  rewrite Forall_forall in H. intros Hin. destruct (H c Hin) as (H1 & H2 & H3).
  split; [done|]. destruct c as [|b r]; [done|]. by exists b, r.
Qed.

Lemma starts_with_split p l : starts_with p l -> l = p ++ drop (length p) l.
Proof. unfold starts_with. intros E. rewrite <- E at 1. by rewrite take_drop. Qed.

Lemma valid_trim_start l : valid_utf8 l = true -> valid_utf8 (trim_start l) = true.
Proof.
  unfold trim_start. generalize (length l) as n. intros n. revert l.
  induction n as [|n IH]; intros l Hv; [done|]. cbn [trim_chars].
  destruct (list_find _ _) as [[i c]|] eqn:E; [|done].
  apply list_find_Some in E as (Hi & Hs & _). apply IH.
  apply list_elem_of_lookup_2, white_space_ok in Hi as [Hc _].
  apply (valid_drop_prefix c); [done|]. by rewrite <- starts_with_split.
Qed.

Lemma valid_trim_end l : valid_utf8 l = true -> valid_utf8 (trim_end l) = true.
Proof.
  unfold trim_end. generalize (length l) as n. intros n Hv.
  rewrite <- (reverse_involutive l) in Hv. revert Hv. generalize (reverse l). clear l.
  induction n as [|n IH]; intros l Hv; [done|]. cbn [trim_chars].
  destruct (list_find _ _) as [[i c]|] eqn:E; [|done].
  apply list_find_Some in E as (Hi & Hs & _). apply IH.
  rewrite list_lookup_fmap in Hi. destruct (white_space !! i) as [w|] eqn:Ew; [|done].
  injection Hi as <-. apply list_elem_of_lookup_2, white_space_ok in Ew as (_ & b & r & -> & Hb).
  rewrite (starts_with_split _ _ Hs), reverse_app, reverse_involutive in Hv.
  by apply valid_cut in Hv as [? _].
Qed.

Lemma valid_trim l : valid_utf8 l = true -> valid_utf8 (trim l) = true.
Proof. intros. by apply valid_trim_end, valid_trim_start. Qed.

(** A number that is read fits its width. *)
Lemma parse_digits_range radix w acc l n :
  0 <= radix -> 0 <= acc < 2 ^ w -> parse_digits radix w acc l = Some n -> is_unsigned w n.
Proof.
  intros Hr. revert acc. induction l as [|b l IH]; intros acc Hacc; cbn [parse_digits].
  { intros [= <-]. exact Hacc. }
  destruct (to_digit radix b) as [d|] eqn:Ed; [|done]. simpl. case_match; [|done]. bool_prop.
  apply IH. assert (0 <= d); [|nia]. revert Ed. unfold to_digit, between.
  repeat case_match; intros; simplify_eq; bool_prop; lia.
Qed.

Lemma from_str_radix_range radix w l n :
  0 <= radix -> 0 < w -> from_str_radix radix w l = Some n -> is_unsigned w n.
Proof.
  intros Hr Hw. assert (0 <= 0 < 2 ^ w) by (split; [done|apply Z.pow_pos_nonneg; lia]).
  unfold from_str_radix. repeat case_match; intros E; try done; by eapply parse_digits_range in E.
Qed.
