(* ===== verification/Carver.v ===== *)
(** * The memory carver: [src/memory_carver.rs]

    Parses [/proc/<pid>/maps], reads the readable regions through
    [/proc/<pid>/mem], and packages them into the core dump blob.  Console
    output is not modelled.  Integer arithmetic is that of the release build
    [install.sh] makes: it wraps. *)

From S2P Require Import Prelude Text.

(** ** Data *)

Record VmaEntry := MkVmaEntry {
  vma_start : Z;      (* u64 *)
  vma_end : Z;        (* u64 *)
  vma_perms : bytes;
  vma_offset : Z;     (* u64 *)
  vma_dev : bytes;
  vma_inode : Z;      (* u64 *)
  vma_pathname : bytes
}.

#[export] Instance VmaEntry_eq_dec : EqDecision VmaEntry.
Proof. solve_decision. Defined.

Definition vma_size (v : VmaEntry) : Z := u64 (vma_end v - vma_start v).
Definition is_executable (v : VmaEntry) : bool := contains (bs "x") (vma_perms v).
Definition is_readable (v : VmaEntry) : bool := contains (bs "r") (vma_perms v).
Definition is_writable (v : VmaEntry) : bool := contains (bs "w") (vma_perms v).

Record CoreDumpHeader := MkHeader {
  hd_magic : bytes;            (* [u8; 8] *)
  hd_version : Z;              (* u32 *)
  hd_pid : Z;                  (* i32 *)
  hd_timestamp : Z;            (* u64 *)
  hd_vma_count : Z;            (* u32 *)
  hd_total_payload_size : Z;   (* u64 *)
  hd_checksum : Z              (* u32 *)
}.

Record CoreDumpVmaRecord := MkRecord {
  rc_start : Z;        (* u64 *)
  rc_end : Z;          (* u64 *)
  rc_perms_flags : Z;  (* u8 *)
  rc_offset : Z;       (* u64 *)
  rc_data_len : Z      (* u64 *)
}.

(** The bytes of the two [repr(C, packed)] structs on a little-endian
    machine: the fields in order, without padding. *)
Definition header_bytes (h : CoreDumpHeader) : bytes :=
  hd_magic h ++ le_bytes 4 (hd_version h) ++ le_bytes 4 (hd_pid h) ++
  le_bytes 8 (hd_timestamp h) ++ le_bytes 4 (hd_vma_count h) ++
  le_bytes 8 (hd_total_payload_size h) ++ le_bytes 4 (hd_checksum h).
Definition record_bytes (r : CoreDumpVmaRecord) : bytes :=
  le_bytes 8 (rc_start r) ++ le_bytes 8 (rc_end r) ++ le_bytes 1 (rc_perms_flags r) ++
  le_bytes 8 (rc_offset r) ++ le_bytes 8 (rc_data_len r).

(** What the carver sees of a process: the three text files of its [/proc]
    directory ([None] when [read_to_string] fails), and its memory. *)
Record proc := Proc {
  proc_maps : option bytes;
  proc_syscall : option bytes;
  proc_status : option bytes;
  proc_mem_open : bool;                    (* File::open *)
  proc_mem_seek : Z -> bool;               (* seek(SeekFrom::Start(_)) succeeds *)
  proc_mem_read : Z -> Z -> option bytes   (* read at a position into a buffer of a size *)
}.

(** read(2) returns at most as many bytes as the buffer holds. *)
Definition proc_ok (p : proc) : Prop := forall a n d,
  0 <= n -> proc_mem_read p a n = Some d -> Z.of_nat (length d) <= n /\ is_bytes d.

(** ** Parsing the memory map *)

Definition parse_hex (l : bytes) : option Z := from_str_radix 16 64 (trim_0x l).

Definition parse_maps_line (line : bytes) : outcome VmaEntry :=
  let parts := splitn 6 32 line in
  if (length parts <? 5)%nat then Err "Malformed maps line" else
  let addr_range := split 45 (nth 0 parts []) in
  if negb (length addr_range =? 2)%nat then Err "Malformed address range" else
  match parse_hex (nth 0 addr_range []) with
  | None => Err "Failed to parse start address"
  | Some start =>
      match parse_hex (nth 1 addr_range []) with
      | None => Err "Failed to parse end address"
      | Some end_ =>
          let perms := nth 1 parts [] in
          match parse_hex (nth 2 parts []) with
          | None => Err "Failed to parse offset"
          | Some offset =>
              let dev := nth 3 parts [] in
              let inode := default 0 (parse_uint 64 (nth 4 parts [])) in
              let pathname := if (length parts =? 6)%nat then trim (nth 5 parts []) else [] in
              Ok (MkVmaEntry start end_ perms offset dev inode pathname)
          end
      end
  end.

Definition parse_vma_layout (p : proc) : outcome (list VmaEntry) :=
  match proc_maps p with
  | None => Err "Failed to read maps (process may have exited)"
  | Some maps_content => outcome_map parse_maps_line (lines maps_content)
  end.

(** ** Carving *)

Definition MAX_REGION : Z := 64 * 1024 * 1024.

Fixpoint carve_regions (p : proc) (vmas : list VmaEntry) : outcome (list (VmaEntry * bytes)) :=
  match vmas with
  | [] => Ok []
  | vma :: vmas =>
      if negb (is_readable vma) then carve_regions p vmas
      else if bool_decide (starts_with (bs "[vvar") (vma_pathname vma))
              || bool_decide (starts_with (bs "[vsyscall") (vma_pathname vma))
      then carve_regions p vmas
      else
        let read_size := Z.min (vma_size vma) MAX_REGION in
        if negb (proc_mem_seek p (vma_start vma)) then Err "Failed to seek to VMA"
        else match proc_mem_read p (vma_start vma) read_size with
             | Some buffer =>
                 carved_pages ← carve_regions p vmas;
                 Ok ((vma, buffer) :: carved_pages)
             | None => carve_regions p vmas
             end
  end.

Definition carve_memory (p : proc) (vmas : list VmaEntry) : outcome (list (VmaEntry * bytes)) :=
  if proc_mem_open p then carve_regions p vmas
  else Err "Failed to open mem (requires CAP_SYS_PTRACE or root)".

Definition capture_register_state (p : proc) : bytes :=
  bs "=== SYSCALL ===" ++ [newline] ++ default [] (proc_syscall p) ++ [newline] ++
  bs "=== STATUS ===" ++ [newline] ++ default [] (proc_status p) ++ [newline].

(** ** Packaging *)

Definition fnv_step (hash byte : Z) : Z := u32 (Z.lxor hash byte * 0x01000193).
Definition compute_checksum (carved_pages : list (VmaEntry * bytes)) : Z :=
  fold_left (fun hash p => fold_left fnv_step p.2 hash) carved_pages 0x811c9dc5.

Definition perms_flags (v : VmaEntry) : Z :=
  let flags := 0 in
  let flags := if is_readable v then Z.lor flags 0x01 else flags in
  let flags := if is_writable v then Z.lor flags 0x02 else flags in
  if is_executable v then Z.lor flags 0x04 else flags.

Definition region_bytes (p : VmaEntry * bytes) : bytes :=
  record_bytes (MkRecord (vma_start p.1) (vma_end p.1) (perms_flags p.1) (vma_offset p.1)
                  (length p.2)) ++
  le_bytes 2 (length (vma_pathname p.1)) ++ vma_pathname p.1 ++ p.2.

Definition MAGIC : bytes := bs "ALPHVDR" ++ [0].

Definition core_dump_header (pid timestamp : Z) (carved_pages : list (VmaEntry * bytes)) :=
  MkHeader MAGIC 1 pid timestamp (u32 (length carved_pages))
    (u64 (fold_left Z.add (map (fun p => Z.of_nat (length p.2)) carved_pages) 0))
    (compute_checksum carved_pages).

(** The bytes of the blob file; [timestamp] is the clock. *)
Definition package_core_dump (pid timestamp : Z) (carved_pages : list (VmaEntry * bytes))
    (register_state : bytes) : bytes :=
  header_bytes (core_dump_header pid timestamp carved_pages) ++
  le_bytes 8 (length register_state) ++ register_state ++
  concat (map region_bytes carved_pages).

(** The whole pipeline; [disk_ok] tells whether the blob file can be created
    and written. *)
Definition carve_and_package (pid timestamp : Z) (disk_ok : bool) (p : proc) : outcome bytes :=
  vmas ← parse_vma_layout p;
  carved_pages ← carve_memory p vmas;
  if disk_ok then Ok (package_core_dump pid timestamp carved_pages (capture_register_state p))
  else Err "Failed to create core dump blob file".

(** ** The memory map, as the kernel prints it

    [show_map_vma] prints the two addresses and the offset in hexadecimal,
    padded with zeros to eight digits, the permissions, the device and the inode number, each
    followed by a space, then padding and the name. *)

Definition hex_field (n : Z) : bytes :=
  replicate (8 - length (show_hex n)) 48 ++ show_hex n.
Definition maps_line (pad : nat) (v : VmaEntry) : bytes :=
  (hex_field (vma_start v) ++ 45 :: hex_field (vma_end v)) ++ 32 ::
  vma_perms v ++ 32 :: hex_field (vma_offset v) ++ 32 ::
  vma_dev v ++ 32 :: show_radix 10 (vma_inode v) ++ 32 ::
  replicate pad 32 ++ vma_pathname v.

Record vma_ok (v : VmaEntry) : Prop := {
  vma_start_ok : is_unsigned 64 (vma_start v);
  vma_end_ok : is_unsigned 64 (vma_end v);
  vma_offset_ok : is_unsigned 64 (vma_offset v);
  vma_inode_ok : is_unsigned 64 (vma_inode v);
  vma_perms_ok : 32 ∉ vma_perms v;
  vma_dev_ok : 32 ∉ vma_dev v;
  vma_pathname_ok : trim (vma_pathname v) = vma_pathname v;
}.

Lemma hex_field_chars n :
  is_unsigned 64 n -> Forall (fun b => 48 <= b <= 57 \/ 97 <= b <= 102) (hex_field n).
Proof. intros [? ?]. apply show_radix_chars; lia. Qed.

Lemma parse_hex_field n : is_unsigned 64 n -> parse_hex (hex_field n) = Some n.
Proof.
  intros Hn. unfold parse_hex. rewrite trim_0x_id.
  - apply from_str_radix_padded; [lia|lia|exact Hn].
  - by apply not_in_digits; [apply hex_field_chars|].
Qed.

Lemma parse_maps_line_ok pad v : vma_ok v -> parse_maps_line (maps_line pad v) = Ok v.
Proof.
  intros [Hs He Ho Hi Hp Hd Hn]. unfold parse_maps_line, maps_line.
  assert (Hx : forall c n, is_unsigned 64 n ->
    bool_decide (c < 48 \/ 57 < c < 97 \/ 102 < c) = true -> c ∉ hex_field n)
    by (intros; apply not_in_digits; [by apply hex_field_chars|done]).
  assert (H10 : 32 ∉ show_radix 10 (vma_inode v))
    by (apply not_in_digits; [apply (digits_chars _ 10); [lia|apply Hi]|done]).
  rewrite splitn_app by (rewrite not_elem_of_app, not_elem_of_cons; split_and!; [by apply Hx|done|by apply Hx]).
  rewrite !splitn_app by first [done | by apply Hx]. cbn [splitn nth length Nat.ltb Nat.leb].
  rewrite split_app, split_one by by apply Hx. cbn [length Nat.eqb negb nth].
  rewrite !parse_hex_field by done. unfold parse_uint.
  rewrite from_str_radix_show by first [lia | apply Hi].
  rewrite trim_spaces, Hn. by destruct v.
Qed.

(** A line of the file holds no newline and does not end in a carriage
    return. *)
Definition one_line (v : VmaEntry) : Prop :=
  Forall (fun l => newline ∉ l) [vma_perms v; vma_dev v; vma_pathname v] /\
  last (vma_pathname v) <> Some 13.

Lemma last_skip (x b : byte) (a l : bytes) : last (x :: a ++ b :: l) = last (b :: l).
Proof. by rewrite app_comm_cons, last_app_cons. Qed.

Lemma last_pad n (l : bytes) : last l <> Some 13 -> last (32 :: replicate n 32 ++ l) <> Some 13.
Proof. intros Hl. induction n as [|n IH]; [by destruct l|exact IH]. Qed.

Lemma maps_line_line pad v :
  vma_ok v -> one_line v -> (newline ∉ maps_line pad v) /\ last (maps_line pad v) <> Some 13.
Proof.
  intros [Hs He Ho Hi _ _ _] [Hl Hc]. rewrite !Forall_cons in Hl. destruct Hl as (Hp & Hd & Hn & _).
  assert (Hx : forall n, is_unsigned 64 n -> newline ∉ hex_field n)
    by (intros; apply not_in_digits; [by apply hex_field_chars|done]).
  assert (H10 : newline ∉ show_radix 10 (vma_inode v))
    by (apply not_in_digits; [apply (digits_chars _ 10); [lia|apply Hi]|done]).
  unfold maps_line. split.
  - rewrite !not_elem_of_app, !not_elem_of_cons, !not_elem_of_app, !not_elem_of_cons,
      !not_elem_of_app, !not_elem_of_cons, !not_elem_of_app, !not_elem_of_cons,
      !not_elem_of_app, !not_elem_of_cons, !not_elem_of_app.
    split_and!; auto. by intros [? _]%elem_of_replicate.
  - rewrite last_app_cons, !last_skip. by apply last_pad.
Qed.

(** A file of such lines, each with its own padding. *)
Definition maps_file (vmas : list (nat * VmaEntry)) : bytes :=
  concat (map (fun x => maps_line x.1 x.2 ++ [newline]) vmas).

(** The padding of [seq_pad]: a name starts in column 73, or one space after
    a longer prefix; an anonymous area has neither name nor padding. *)
Definition kernel_pad (v : VmaEntry) : nat :=
  if decide (vma_pathname v = []) then 0%nat
  else Nat.max 1 (73 - length (maps_line 0 (MkVmaEntry (vma_start v) (vma_end v) (vma_perms v) (vma_offset v)
    (vma_dev v) (vma_inode v) []))).
Definition kernel_maps (vmas : list VmaEntry) : bytes := maps_file (map (fun v => (kernel_pad v, v)) vmas).

(** C29: the lines the kernel prints for a list of regions, each with any
    padding of its own, parse back to exactly those regions, in order:
    addresses, permissions, offset, device, inode and name.  In particular the
    file with the kernel's padding does.  (Of regions whose numbers are 64 bits
    wide, whose fields hold no space or newline, and whose names hold no
    newline and no white space at their ends.) *)
Theorem parse_vma_layout_maps_file p :
  (forall vmas, proc_maps p = Some (maps_file vmas) ->
     Forall vma_ok vmas.*2 -> Forall one_line vmas.*2 -> parse_vma_layout p = Ok vmas.*2) /\
  (forall vmas, proc_maps p = Some (kernel_maps vmas) ->
     Forall vma_ok vmas -> Forall one_line vmas -> parse_vma_layout p = Ok vmas).
Proof.
  assert (H : forall vmas, proc_maps p = Some (maps_file vmas) ->
     Forall vma_ok vmas.*2 -> Forall one_line vmas.*2 -> parse_vma_layout p = Ok vmas.*2).
  { intros vmas Hm Hok Hone. unfold parse_vma_layout. rewrite Hm. unfold maps_file.
    rewrite Forall_fmap in Hok, Hone.
    rewrite <- (map_map (fun x => maps_line x.1 x.2) (fun l => l ++ [newline])), lines_concat.
    - apply outcome_map_ok, Forall2_fmap_l, Forall2_fmap_r, Forall_Forall2_diag.
      eapply Forall_impl; [exact Hok|]. intros [pad v] Hv. by apply parse_maps_line_ok.
    - apply Forall_map, Forall_forall. intros [pad v] Hv. rewrite Forall_forall in Hok, Hone.
      apply maps_line_line; [by apply (Hok (pad, v))|by apply (Hone (pad, v))]. }
  split; [exact H|]. intros vmas Hm Hok Hone.
  assert (E : (map (fun v => (kernel_pad v, v)) vmas).*2 = vmas)
    by (rewrite <- list_fmap_compose; apply list_fmap_id).
  rewrite <- E in Hok, Hone |- *. by apply H.
Qed.

(** ** Carving *)

(** The regions the carver reads. *)
Definition carvable (v : VmaEntry) : Prop :=
  is_readable v = true /\ ~ starts_with (bs "[vvar") (vma_pathname v) /\
  ~ starts_with (bs "[vsyscall") (vma_pathname v).
#[export] Instance carvable_dec v : Decision (carvable v).
Proof. unfold carvable. apply _. Defined.

(** What it takes from one region: nothing when the read fails. *)
Definition carve_one (p : proc) (v : VmaEntry) : option (VmaEntry * bytes) :=
  d ← proc_mem_read p (vma_start v) (Z.min (vma_size v) MAX_REGION); Some (v, d).

Lemma carve_regions_cons p v vmas :
  carve_regions p (v :: vmas) =
    if decide (carvable v) then
      if proc_mem_seek p (vma_start v) then
        l ← carve_regions p vmas; Ok (option_list (carve_one p v) ++ l)
      else Err "Failed to seek to VMA"
    else carve_regions p vmas.
Proof.
  cbn [carve_regions]. unfold carve_one. destruct (is_readable v) eqn:Er; simpl;
    [|rewrite decide_False by (unfold carvable; rewrite Er; naive_solver); done].
  case_bool_decide; simpl; [rewrite decide_False by (unfold carvable; naive_solver); done|].
  case_bool_decide; simpl; [rewrite decide_False by (unfold carvable; naive_solver); done|].
  rewrite decide_True by done. destruct (proc_mem_seek _ _); simpl; [|done].
  destruct (proc_mem_read _ _ _); simpl; [done|]. by destruct (carve_regions p vmas).
Qed.

(** Every carvable region can be sought. *)
Definition seekable (p : proc) (vmas : list VmaEntry) : Prop :=
  Forall (fun v => carvable v -> proc_mem_seek p (vma_start v) = true) vmas.
#[export] Instance seekable_dec p vmas : Decision (seekable p vmas).
Proof. unfold seekable. apply _. Defined.

Lemma seekable_cons p v vmas :
  seekable p (v :: vmas) <-> (carvable v -> proc_mem_seek p (vma_start v) = true) /\ seekable p vmas.
Proof. apply Forall_cons. Qed.

Lemma carve_regions_eq p vmas :
  carve_regions p vmas =
    if decide (seekable p vmas) then Ok (omap (carve_one p) (filter carvable vmas))
    else Err "Failed to seek to VMA".
Proof.
  induction vmas as [|v vmas IH]; [by rewrite decide_True by constructor|].
  rewrite carve_regions_cons, filter_cons, IH.
  rewrite (decide_ext _ _ _ _ (seekable_cons p v vmas)).
  destruct (decide (carvable v)) as [Hv|Hv].
  - destruct (proc_mem_seek p (vma_start v)) eqn:Es; [|by rewrite decide_False by naive_solver].
    destruct (decide (seekable p vmas)); [rewrite decide_True by naive_solver|by rewrite decide_False by naive_solver].
    cbn. by destruct (carve_one p v).
  - destruct (decide (seekable p vmas)); [rewrite decide_True by naive_solver|rewrite decide_False by naive_solver]; done.
Qed.

Lemma carve_memory_ok p vmas pages :
  carve_memory p vmas = Ok pages <->
  proc_mem_open p = true /\ seekable p vmas /\ pages = omap (carve_one p) (filter carvable vmas).
Proof.
  unfold carve_memory. rewrite carve_regions_eq. destruct (proc_mem_open p), (decide (seekable p vmas)); naive_solver.
Qed.

(** C28: carving fails when the memory cannot be opened or when a carvable
    region cannot be sought; otherwise it succeeds, with exactly the carvable
    regions whose read succeeds, in the order of the map, each with the bytes
    read. *)
Theorem carve_memory_spec p vmas :
  carve_memory p vmas =
    if negb (proc_mem_open p) then Err "Failed to open mem (requires CAP_SYS_PTRACE or root)"
    else if decide (seekable p vmas) then Ok (omap (carve_one p) (filter carvable vmas))
    else Err "Failed to seek to VMA".
Proof. unfold carve_memory. rewrite carve_regions_eq. by destruct (proc_mem_open p). Qed.

(** No carved region is longer than its mapping or than 64 MiB. *)
Theorem carve_memory_bounds p vmas pages :
  proc_ok p -> carve_memory p vmas = Ok pages ->
  Forall (fun x => Z.of_nat (length x.2) <= Z.min (vma_size x.1) (64 * 2 ^ 20) /\ is_bytes x.2) pages.
Proof.
  intros Hp (_ & _ & ->)%carve_memory_ok. apply Forall_forall. intros [v d] Hin.
  apply list_elem_of_omap in Hin as (v' & _ & E). unfold carve_one in E.
  destruct (proc_mem_read p _ _) eqn:Er; [|done]. simpl in E. simplify_eq. apply Hp in Er; [done|].
  pose proof (uwrap_range 64 (vma_end v - vma_start v) ltac:(lia)) as [? _].
  unfold vma_size, MAX_REGION. lia.
Qed.

(** ** The checksum *)

(** The hash of all the carved bytes in a row. *)
Definition fnv1a (hash : Z) (l : bytes) : Z := fold_left fnv_step l hash.

Lemma compute_checksum_concat pages :
  compute_checksum pages = fnv1a 0x811c9dc5 (concat (map snd pages)).
Proof.
  unfold compute_checksum, fnv1a. generalize 0x811c9dc5.
  induction pages as [|p pages IH]; intros h; [done|]. simpl. by rewrite fold_left_app, IH.
Qed.

Lemma fnv_step_range h b : is_unsigned 32 (fnv_step h b).
Proof. apply uwrap_range. lia. Qed.

Lemma fnv1a_range h l : is_unsigned 32 h -> is_unsigned 32 (fnv1a h l).
Proof.
  revert h; induction l as [|b l IH]; intros h Hh; [done|]. apply IH, fnv_step_range.
Qed.

Lemma lxor_range h b : is_unsigned 32 h -> is_byte b -> is_unsigned 32 (Z.lxor h b).
Proof.
  unfold is_unsigned, is_byte. intros Hh Hb.
  assert (0 <= Z.lxor h b) by (apply Z.lxor_nonneg; lia). split; [done|].
  destruct (decide (Z.lxor h b = 0)) as [->|Hne]; [lia|].
  apply Z.log2_lt_pow2; [lia|].
  pose proof (Z.log2_lxor h b ltac:(lia) ltac:(lia)).
  assert (Z.log2 h < 32) by (destruct (decide (h = 0)) as [->|]; [done|apply Z.log2_lt_pow2; lia]).
  assert (Z.log2 b < 8) by (destruct (decide (b = 0)) as [->|]; [done|apply Z.log2_lt_pow2; lia]).
  lia.
Qed.

(** The FNV prime is odd: multiplying by it loses nothing. *)
Lemma fnv_mul_inj a b :
  is_unsigned 32 a -> is_unsigned 32 b -> u32 (a * 0x01000193) = u32 (b * 0x01000193) -> a = b.
Proof.
  intros Ha Hb E. apply (f_equal (fun z => u32 (z * 899433627))) in E.
  unfold uwrap in *. rewrite !Z.mul_mod_idemp_l, <- !Z.mul_assoc in E by lia.
  change (0x01000193 * 899433627) with (3513497 * 2 ^ 32 + 1) in E.
  rewrite !Z.mul_add_distr_l, !Z.mul_assoc, !Z.mul_1_r, !(Z.add_comm (_ * 2 ^ 32)), !Z.mod_add in E by lia.
  unfold is_unsigned in *. by rewrite !Z.mod_small in E by lia.
Qed.

Lemma fnv_step_inj h1 h2 b1 b2 :
  is_unsigned 32 h1 -> is_unsigned 32 h2 -> is_byte b1 -> is_byte b2 ->
  fnv_step h1 b1 = fnv_step h2 b2 -> Z.lxor h1 b1 = Z.lxor h2 b2.
Proof. intros ? ? ? ? E. apply fnv_mul_inj in E; auto using lxor_range. Qed.

Lemma lxor_cancel a b c : Z.lxor a b = Z.lxor a c -> b = c.
Proof.
  intros E%(f_equal (Z.lxor a)). by rewrite <- !Z.lxor_assoc, Z.lxor_nilpotent, !Z.lxor_0_l in E.
Qed.

Lemma fnv1a_inj l h1 h2 :
  is_bytes l -> is_unsigned 32 h1 -> is_unsigned 32 h2 -> fnv1a h1 l = fnv1a h2 l -> h1 = h2.
Proof.
  intros Hl. revert h1 h2; induction Hl as [|b l Hb Hl IH]; intros h1 h2 H1 H2 E; [done|].
  apply IH, fnv_step_inj in E; auto using fnv_step_range.
  rewrite !(Z.lxor_comm _ b) in E. by apply lxor_cancel in E.
Qed.

Lemma fnv1a_one_byte a x y r h :
  is_unsigned 32 h -> is_byte x -> is_byte y -> is_bytes r ->
  fnv1a h (a ++ x :: r) = fnv1a h (a ++ y :: r) -> x = y.
Proof.
  intros Hh Hx Hy Hr. unfold fnv1a. rewrite !fold_left_app. cbn [fold_left].
  intros E%fnv1a_inj; auto using fnv_step_range.
  apply fnv_step_inj in E; [by apply lxor_cancel in E|by apply fnv1a_range..|done|done].
Qed.

(** Changing one byte of one carved region changes the checksum of the
    blob: the header's FNV-1a value detects every single-byte corruption. *)
Theorem checksum_detects_byte pages i v d j b b' :
  Forall (fun x => is_bytes x.2) pages ->
  pages !! i = Some (v, d) -> d !! j = Some b -> is_byte b' -> b' <> b ->
  compute_checksum (<[i := (v, <[j := b']> d)]> pages) <> compute_checksum pages.
Proof.
  intros Hp Hi Hj Hb' Hne. rewrite !compute_checksum_concat.
  assert (Hd : is_bytes d) by (exact (Forall_lookup_1 _ _ _ _ Hp Hi)).
  assert (Hb : is_byte b) by (exact (Forall_lookup_1 _ _ _ _ Hd Hj)).
  pose proof (lookup_lt_Some _ _ _ Hi). pose proof (lookup_lt_Some _ _ _ Hj).
  rewrite insert_take_drop by done. rewrite <- (take_drop_middle pages i (v, d) Hi) at 3.
  rewrite insert_take_drop by done. rewrite <- (take_drop_middle d j b Hj) at 3.
  rewrite !map_app, !concat_app. cbn [map concat snd]. rewrite <- !app_assoc. cbn [app].
  rewrite !app_assoc. intros E. apply fnv1a_one_byte in E; try done.
  apply Forall_app. split; [by apply Forall_drop|]. apply Forall_concat, Forall_map, Forall_drop.
  exact Hp.
Qed.

(** ** Concrete runs *)

Module Demo.
Definition text_vma : VmaEntry :=
  MkVmaEntry 0x559f5c3a0000 0x559f5c3a1000 (bs "r-xp") 0 (bs "08:01") 12345 (bs "/usr/bin/ls").
Definition guard_vma : VmaEntry := MkVmaEntry 0x7f0000000000 0x7f0000001000 (bs "---p") 0 (bs "00:00") 0 [].
Definition heap_vma : VmaEntry := MkVmaEntry 0x1000 0x8001000 (bs "rw-p") 0 (bs "00:00") 0 (bs "[heap]").
Definition vmas : list VmaEntry := [text_vma; guard_vma; heap_vma].
(** As [cat /proc/self/maps] prints it. *)
Definition maps_text : bytes :=
  bs "559f5c3a0000-559f5c3a1000 r-xp 00000000 08:01 12345                      /usr/bin/ls" ++ [newline] ++
  bs "7f0000000000-7f0000001000 ---p 00000000 00:00 0 " ++ [newline] ++
  bs "00001000-08001000 rw-p 00000000 00:00 0                                  [heap]" ++ [newline].

(** Every read returns the first bytes of "ABCDEFGH" that fit. *)
Definition the_proc : proc :=
  Proc (Some maps_text) (Some (bs "running")) (Some (bs "Name: ls")) true (fun _ => true)
    (fun _ n => Some (take (Z.to_nat (Z.min 8 n)) (bs "ABCDEFGH"))).
End Demo.

Section witnesses.
Import Demo.

Lemma parse_vma_layout_maps_file_witness : parse_vma_layout the_proc = Ok vmas.
Proof.
  apply (proj2 (parse_vma_layout_maps_file the_proc)).
  - vm_compute. reflexivity.
  - repeat constructor; try (apply (bool_decide_unpack _); vm_compute; exact I); done.
  - repeat constructor; try (apply (bool_decide_unpack _); vm_compute; exact I); done.
Defined.

Lemma the_proc_ok : proc_ok the_proc.
Proof.
  intros a n d Hn. cbn [the_proc proc_mem_read]. intros [= <-]. split.
  - rewrite length_take. lia.
  - apply Forall_take, bs_is_bytes.
Qed.

Lemma carve_memory_bounds_witness :
  exists pages, carve_memory the_proc vmas = Ok pages /\
    Forall (fun x => Z.of_nat (length x.2) <= Z.min (vma_size x.1) (64 * 2 ^ 20) /\ is_bytes x.2) pages.
Proof.
  eexists. split; [vm_compute; reflexivity|].
  apply (carve_memory_bounds the_proc vmas); [exact the_proc_ok|vm_compute; reflexivity].
Defined.

Lemma checksum_detects_byte_witness :
  compute_checksum [(heap_vma, bs "ABDD")] <> compute_checksum [(heap_vma, bs "ABCD")].
Proof.
  refine (checksum_detects_byte [(heap_vma, bs "ABCD")] 0 heap_vma (bs "ABCD") 2 67 68 _ _ _ _ _).
  - constructor; [apply bs_is_bytes|constructor].
  - reflexivity.
  - reflexivity.
  - unfold is_byte. lia.
  - lia.
Defined.
End witnesses.
