(* ===== verification/Kp14.v ===== *)
(** * The core dump blob as KP14 reads it: [ParsedCoreDump] of [src/kp14_suite.rs]

    The parser reads the blob front to back, with an offset that it adds
    lengths to in [usize] arithmetic (64 bits, wrapping in the release build);
    a slice whose start is past its end panics.  A round-trip theorem relates
    it to the carver's writer. *)

From S2P Require Import Prelude Text Carver.

(** ** Data *)

Record MemoryRegion := MkRegion {
  mr_start : Z;
  mr_end : Z;
  mr_perms_flags : Z;
  mr_offset : Z;
  mr_pathname : bytes;
  mr_data : bytes
}.

Record ParsedCoreDump := MkDump {
  pd_pid : Z;         (* i32 *)
  pd_timestamp : Z;
  pd_vma_count : Z;
  pd_checksum : Z;
  pd_register_state : bytes;
  pd_regions : list MemoryRegion
}.

#[export] Instance MemoryRegion_eq_dec : EqDecision MemoryRegion.
Proof. solve_decision. Defined.
#[export] Instance ParsedCoreDump_eq_dec : EqDecision ParsedCoreDump.
Proof. solve_decision. Defined.

Definition region_is_executable (r : MemoryRegion) : bool := negb (Z.land (mr_perms_flags r) 0x04 =? 0).
Definition region_is_writable (r : MemoryRegion) : bool := negb (Z.land (mr_perms_flags r) 0x02 =? 0).
Definition region_is_readable (r : MemoryRegion) : bool := negb (Z.land (mr_perms_flags r) 0x01 =? 0).

(** The sizes of the two packed structs. *)
Definition HEADER_SIZE : Z := 40.
Definition VMA_RECORD_SIZE : Z := 33.

(** The fields of the structs, read at their packed offsets. *)
Definition read_header (l : bytes) : CoreDumpHeader :=
  MkHeader (load 0 8 l) (le_val (load 8 4 l)) (i32 (le_val (load 12 4 l)))
    (le_val (load 16 8 l)) (le_val (load 24 4 l)) (le_val (load 28 8 l)) (le_val (load 36 4 l)).
Definition read_record (l : bytes) : CoreDumpVmaRecord :=
  MkRecord (le_val (load 0 8 l)) (le_val (load 8 8 l)) (le_val (load 16 1 l))
    (le_val (load 17 8 l)) (le_val (load 25 8 l)).

(** [&data[a..b]] *)
Definition slice (data : bytes) (a b : Z) : outcome bytes :=
  if (a <=? b) && (b <=? length data) then Ok (load (Z.to_nat a) (Z.to_nat (b - a)) data)
  else Panic.

(** ** Parsing *)

(** One pass of the loop over the records: the region and the new offset. *)
Definition parse_region (data : bytes) (offset : Z) : outcome (MemoryRegion * Z) :=
  let len : Z := length data in
  if len <? u64 (offset + VMA_RECORD_SIZE) then Err "Truncated blob: missing VMA record" else
  let record := read_record (drop (Z.to_nat offset) data) in
  let offset := u64 (offset + VMA_RECORD_SIZE) in
  if len <? u64 (offset + 2) then Err "Truncated blob: missing pathname length for VMA" else
  pathname_len_bytes ← slice data offset (u64 (offset + 2));
  let pathname_len := le_val pathname_len_bytes in
  let offset := u64 (offset + 2) in
  pathname ←
    (if 0 <? pathname_len then
       if len <? u64 (offset + pathname_len) then Err "Truncated blob: incomplete pathname for VMA"
       else s ← slice data offset (u64 (offset + pathname_len)); Ok (from_utf8_lossy s)
     else Ok []);
  let offset := u64 (offset + pathname_len) in
  let data_len := rc_data_len record in
  if len <? u64 (offset + data_len) then Err "Truncated blob: incomplete memory data for VMA" else
  region_data ← slice data offset (u64 (offset + data_len));
  let offset := u64 (offset + data_len) in
  Ok (MkRegion (rc_start record) (rc_end record) (rc_perms_flags record) (rc_offset record)
        pathname region_data, offset).

(** [for i in 0..header.vma_count]: the regions and the final offset. *)
Fixpoint parse_regions (n : nat) (data : bytes) (offset : Z) : outcome (list MemoryRegion * Z) :=
  match n with
  | O => Ok ([], offset)
  | S n =>
      r ← parse_region data offset;
      rs ← parse_regions n data r.2;
      Ok (r.1 :: rs.1, rs.2)
  end.

(** [ParsedCoreDump::from_file]; [file] is what [fs::read] returns. *)
Definition from_file (file : option bytes) : outcome ParsedCoreDump :=
  match file with
  | None => Err "Failed to read core dump blob"
  | Some data =>
      let len : Z := length data in
      if len <? HEADER_SIZE then Err "Core dump blob too small for header" else
      let header := read_header data in
      if negb (bool_decide (hd_magic header = MAGIC)) then Err "Invalid core dump magic" else
      let offset := HEADER_SIZE in
      if len <? u64 (offset + 8) then Err "Truncated blob: missing register state length" else
      reg_len_bytes ← slice data offset (u64 (offset + 8));
      let reg_len := le_val reg_len_bytes in
      let offset := u64 (offset + 8) in
      if len <? u64 (offset + reg_len) then Err "Truncated blob: incomplete register state" else
      register_state ← slice data offset (u64 (offset + reg_len));
      let register_state := from_utf8_lossy register_state in
      let offset := u64 (offset + reg_len) in
      regions ← parse_regions (Z.to_nat (hd_vma_count header)) data offset;
      Ok (MkDump (hd_pid header) (hd_timestamp header) (hd_vma_count header)
            (hd_checksum header) register_state regions.1)
  end.

(** ** What is taken out of a dump *)

(** [extract_executable_regions]: the files it writes, name and contents, in
    order, when no write fails. *)
Definition region_file (pid : Z) (i : nat) (r : MemoryRegion) : bytes :=
  bs "pid_" ++ show pid ++ bs "_region_" ++ show i ++ bs "_" ++ show_hex (mr_start r) ++ bs ".bin".

Definition executable_files (d : ParsedCoreDump) : list (bytes * bytes) :=
  omap (fun p => if region_is_executable p.2
                 then Some (region_file (pd_pid d) p.1 p.2, mr_data p.2) else None)
       (imap pair (pd_regions d)).
Definition full_dump_file (d : ParsedCoreDump) : bytes * bytes :=
  (bs "pid_" ++ show (pd_pid d) ++ bs "_full_dump.bin", concat (map mr_data (pd_regions d))).
Definition extract_executable_regions (d : ParsedCoreDump) : list (bytes * bytes) :=
  executable_files d ++ [full_dump_file d].

(** The loop of [extract_strings] over the bytes of one region. *)
Fixpoint region_strings (min_len : Z) (current : bytes) (l : bytes) : list bytes :=
  let flush := if min_len <=? length current then [current] else [] in
  match l with
  | [] => flush
  | byte :: l =>
      if (0x20 <=? byte) && (byte <? 0x7f) then region_strings min_len (current ++ [byte]) l
      else flush ++ region_strings min_len [] l
  end.
Definition extract_strings (min_len : Z) (d : ParsedCoreDump) : list bytes :=
  concat (map (fun r => region_strings min_len [] (mr_data r)) (pd_regions d)).

(** ** Reading at a cursor *)

Lemma load_at (pre x post : bytes) (n : nat) :
  n = length x -> load (length pre) n (pre ++ x ++ post) = x.
Proof. intros ->. unfold load. by rewrite drop_app_length, take_app_length. Qed.

Lemma slice_at (pre x post : bytes) (a b : Z) :
  a = length pre -> b = length pre + length x -> slice (pre ++ x ++ post) a b = Ok x.
Proof.
  intros -> ->. unfold slice. rewrite !length_app.
  rewrite (proj2 (Z.leb_le _ _)), (proj2 (Z.leb_le _ _)) by lia. simpl.
  rewrite Nat2Z.id. f_equal. apply load_at. lia.
Qed.

Lemma not_past (data : bytes) (z : Z) :
  0 <= z <= length data -> length data < 2 ^ 63 -> (length data <? u64 z) = false.
Proof. intros. rewrite uwrap_small by (unfold is_unsigned; lia). apply Z.ltb_ge. lia. Qed.

(** Fields of a sequence of encoded integers. *)
Lemma load_skip o n (a r : bytes) : (length a <= o)%nat -> load o n (a ++ r) = load (o - length a) n r.
Proof. intros. unfold load. by rewrite drop_app_ge. Qed.

Lemma load_here n (a r : bytes) : length a = n -> load 0 n (a ++ r) = a.
Proof. intros <-. apply take_app_length. Qed.

Ltac load_field :=
  rewrite ?load_skip by (rewrite ?length_le_bytes; cbn; lia);
  rewrite ?length_le_bytes; cbn [Nat.sub length MAGIC bs];
  rewrite load_here by apply length_le_bytes.
Ltac int_field := load_field; rewrite le_val_le_bytes, uwrap_small; [done|by (unfold is_unsigned, is_byte in *; lia) || done].

(** A record reads back as it was written. *)
Lemma read_record_bytes r post :
  is_unsigned 64 (rc_start r) -> is_unsigned 64 (rc_end r) -> is_byte (rc_perms_flags r) ->
  is_unsigned 64 (rc_offset r) -> is_unsigned 64 (rc_data_len r) ->
  read_record (record_bytes r ++ post) = r.
Proof.
  intros Hs He Hp Ho Hd. unfold read_record, record_bytes. rewrite <- !app_assoc.
  destruct r as [s e p o d]; cbn [rc_start rc_end rc_perms_flags rc_offset rc_data_len] in *.
  f_equal; int_field.
Qed.

Lemma read_header_bytes h post :
  length (hd_magic h) = 8%nat -> is_unsigned 32 (hd_version h) -> is_signed 32 (hd_pid h) ->
  is_unsigned 64 (hd_timestamp h) -> is_unsigned 32 (hd_vma_count h) ->
  is_unsigned 64 (hd_total_payload_size h) -> is_unsigned 32 (hd_checksum h) ->
  read_header (header_bytes h ++ post) = h.
Proof.
  intros Hm Hv Hp Ht Hn Hs Hc. unfold read_header, header_bytes. rewrite <- !app_assoc.
  destruct h as [m v p t n s c];
    cbn [hd_magic hd_version hd_pid hd_timestamp hd_vma_count hd_total_payload_size hd_checksum] in *.
  rewrite load_here, !(load_skip _ _ m), Hm by lia. cbn [Nat.sub].
  f_equal; [int_field| |int_field..].
  load_field. rewrite le_val_le_bytes. change (8 * 4%nat) with 32.
  rewrite swrap_uwrap by lia. by apply swrap_small.
Qed.

(** ** Round trip *)

(** The region a parsed blob holds for a carved page. *)
Definition region_of (p : VmaEntry * bytes) : MemoryRegion :=
  MkRegion (vma_start p.1) (vma_end p.1) (perms_flags p.1) (vma_offset p.1) (vma_pathname p.1) p.2.

(** A page the carver can produce: 64-bit addresses, and a name that is UTF-8
    and short enough for its 16-bit length. *)
Record page_ok (p : VmaEntry * bytes) : Prop := {
  page_start : is_unsigned 64 (vma_start p.1);
  page_end : is_unsigned 64 (vma_end p.1);
  page_offset : is_unsigned 64 (vma_offset p.1);
  page_name_utf8 : valid_utf8 (vma_pathname p.1) = true;
  page_name_length : length (vma_pathname p.1) < 2 ^ 16;
}.

Lemma perms_flags_byte v : is_byte (perms_flags v).
Proof.
  unfold perms_flags, is_byte.
  destruct (is_readable v), (is_writable v), (is_executable v); by vm_compute.
Qed.

Lemma length_record_bytes r : length (record_bytes r) = 33%nat.
Proof. reflexivity. Qed.

Lemma length_region_bytes p :
  Z.of_nat (length (region_bytes p)) = 35 + length (vma_pathname p.1) + length p.2.
Proof.
  unfold region_bytes. rewrite !length_app, length_record_bytes, length_le_bytes. lia.
Qed.

(** Where the parts of a region lie in a blob. *)
Lemma region_parts pre p post :
  page_ok p -> let data := pre ++ region_bytes p ++ post in
  length data < 2 ^ 63 ->
  let name := vma_pathname p.1 in let o := length pre + 33 + 2 in
  read_record (drop (length pre) data) =
    MkRecord (vma_start p.1) (vma_end p.1) (perms_flags p.1) (vma_offset p.1) (length p.2) /\
  slice data (length pre + 33) o = Ok (le_bytes 2 (length name)) /\
  slice data o (o + length name) = Ok name /\
  slice data (o + length name) (o + length name + length p.2) = Ok p.2.
Proof.
  intros [Hs He Ho Hu Hn] data Hl name o. destruct p as [v d]; cbn [fst snd] in *.
  set (rc := MkRecord (vma_start v) (vma_end v) (perms_flags v) (vma_offset v) (length d)).
  assert (Ed : data = pre ++ record_bytes rc ++ le_bytes 2 (length name) ++ name ++ d ++ post)
    by (unfold data, region_bytes; cbn [fst snd]; by rewrite <- !app_assoc).
  rewrite Ed in Hl. rewrite !length_app in Hl. rewrite Ed. split_and!.
  - rewrite drop_app_length. apply read_record_bytes; cbn;
      [done|done|apply perms_flags_byte|done|unfold is_unsigned; lia].
  - rewrite (app_assoc pre). apply slice_at; rewrite ?length_app, ?length_le_bytes, ?length_record_bytes; lia.
  - rewrite (app_assoc pre), app_assoc.
    apply slice_at; rewrite ?length_app, ?length_le_bytes, ?length_record_bytes; lia.
  - rewrite (app_assoc pre), app_assoc, app_assoc.
    apply slice_at; rewrite ?length_app, ?length_le_bytes, ?length_record_bytes; lia.
Qed.

Lemma parse_region_at pre p post :
  page_ok p -> length (pre ++ region_bytes p ++ post) < 2 ^ 63 ->
  parse_region (pre ++ region_bytes p ++ post) (length pre) =
    Ok (region_of p, length pre + length (region_bytes p)).
Proof.
  intros Hp Hl. destruct (region_parts pre p post Hp Hl) as (Erec & S1 & S2 & S3).
  destruct Hp as [_ _ _ Hu Hn]. pose proof (length_region_bytes p) as Hr.
  set (data := pre ++ region_bytes p ++ post) in *.
  assert (Hdata : Z.of_nat (length data) = length pre + length (region_bytes p) + length post)
    by (unfold data; rewrite !length_app; lia).
  set (name := vma_pathname p.1) in *.
  unfold parse_region. rewrite Nat2Z.id, Erec. unfold VMA_RECORD_SIZE. cbn [rc_data_len].
  rewrite !(uwrap_small 64 (length pre + 33)) by (unfold is_unsigned; lia).
  rewrite !(uwrap_small 64 (length pre + 33 + 2)) by (unfold is_unsigned; lia).
  rewrite !(proj2 (Z.ltb_ge (length data) _)) by lia. rewrite S1. cbn [mbind outcome_bind].
  rewrite le_val_le_bytes_id by (unfold is_unsigned; cbn; lia).
  rewrite !(uwrap_small 64 (length pre + 33 + 2 + length name)) by (unfold is_unsigned; lia).
  rewrite (proj2 (Z.ltb_ge (length data) (length pre + 33 + 2 + length name))) by lia.
  rewrite !(uwrap_small 64 (_ + length p.2)) by (unfold is_unsigned; lia).
  rewrite (proj2 (Z.ltb_ge (length data) _)) by lia. rewrite S2, S3.
  destruct (Z.ltb_spec 0 (length name)); cbn [mbind outcome_bind].
  - rewrite from_utf8_lossy_id by done. unfold region_of. do 2 f_equal. lia.
  - assert (En : name = []) by (apply nil_length_inv; lia).
    unfold region_of. fold name. rewrite En. do 2 f_equal. rewrite En in Hr. simpl in *. lia.
Qed.

Lemma parse_regions_at pre pages post :
  Forall page_ok pages -> length (pre ++ concat (map region_bytes pages) ++ post) < 2 ^ 63 ->
  parse_regions (length pages) (pre ++ concat (map region_bytes pages) ++ post) (length pre) =
    Ok (map region_of pages, length pre + length (concat (map region_bytes pages))).
Proof.
  intros Hp. revert pre. induction Hp as [|p pages Hp Hps IH]; intros pre Hl.
  { cbn. do 2 f_equal. lia. }
  cbn [map concat length parse_regions] in *. rewrite <- app_assoc in *.
  rewrite parse_region_at by done. cbn [mbind outcome_bind snd fst].
  rewrite (app_assoc pre) in *.
  replace (length pre + length (region_bytes p))%Z with (Z.of_nat (length (pre ++ region_bytes p)))
    by (rewrite length_app; lia).
  rewrite IH by done.
  cbn [mbind outcome_bind fst snd]. do 2 f_equal. rewrite !length_app. lia.
Qed.

(** A blob with the given header. *)
Definition blob_of (h : CoreDumpHeader) (register_state : bytes)
    (pages : list (VmaEntry * bytes)) : bytes :=
  header_bytes h ++ le_bytes 8 (length register_state) ++ register_state ++
  concat (map region_bytes pages).

Record header_ok (h : CoreDumpHeader) : Prop := {
  header_magic : hd_magic h = MAGIC;
  header_version : is_unsigned 32 (hd_version h);
  header_pid : is_signed 32 (hd_pid h);
  header_timestamp : is_unsigned 64 (hd_timestamp h);
  header_vma_count : is_unsigned 32 (hd_vma_count h);
  header_size : is_unsigned 64 (hd_total_payload_size h);
  header_checksum : is_unsigned 32 (hd_checksum h);
}.

Lemma length_header_bytes h : hd_magic h = MAGIC -> length (header_bytes h) = 40%nat.
Proof. intros E. unfold header_bytes. by rewrite E. Qed.

(** The parser up to the records, for any bytes after the register state. *)
Lemma from_file_head h rs rest :
  header_ok h -> valid_utf8 rs = true ->
  let data := header_bytes h ++ le_bytes 8 (length rs) ++ rs ++ rest in
  length data < 2 ^ 63 ->
  from_file (Some data) =
    (regions ← parse_regions (Z.to_nat (hd_vma_count h)) data (48 + length rs);
     Ok (MkDump (hd_pid h) (hd_timestamp h) (hd_vma_count h) (hd_checksum h) rs regions.1)).
Proof.
  intros Hh Hu data Hl. pose proof (length_header_bytes h (header_magic _ Hh)) as Hlh.
  assert (Hlen : Z.of_nat (length data) = 40 + (8 + (length rs + length rest))).
  { unfold data. rewrite !length_app, Hlh, length_le_bytes. lia. }
  assert (Ehd : read_header data = h).
  { destruct Hh. apply read_header_bytes; try done. by rewrite header_magic0. }
  assert (S1 : slice data 40 48 = Ok (le_bytes 8 (length rs))).
  { apply slice_at; rewrite ?Hlh, ?length_le_bytes; lia. }
  assert (S2 : slice data 48 (48 + length rs) = Ok rs).
  { unfold data. rewrite app_assoc. apply slice_at; rewrite length_app, Hlh, length_le_bytes; lia. }
  unfold from_file, HEADER_SIZE. rewrite (proj2 (Z.ltb_ge _ _)) by lia. rewrite Ehd.
  rewrite bool_decide_eq_true_2 by apply Hh. cbn [negb]. change (u64 (40 + 8)) with 48.
  rewrite (proj2 (Z.ltb_ge _ 48)) by lia. rewrite S1. cbn [mbind outcome_bind].
  rewrite le_val_le_bytes_id by (unfold is_unsigned; cbn; lia).
  rewrite !(uwrap_small 64 (48 + _)) by (unfold is_unsigned; lia).
  rewrite (proj2 (Z.ltb_ge _ (48 + _))) by lia. rewrite S2. cbn [mbind outcome_bind].
  by rewrite from_utf8_lossy_id.
Qed.

Lemma blob_cursor h rs rest :
  hd_magic h = MAGIC ->
  let pre := header_bytes h ++ le_bytes 8 (length rs) ++ rs in
  header_bytes h ++ le_bytes 8 (length rs) ++ rs ++ rest = pre ++ rest /\
  48 + Z.of_nat (length rs) = length pre.
Proof.
  intros Hm pre. unfold pre. split; [by rewrite <- !app_assoc|].
  rewrite !length_app, length_header_bytes, length_le_bytes by done. lia.
Qed.

Lemma from_file_blob h rs pages post :
  header_ok h -> hd_vma_count h = length pages ->
  valid_utf8 rs = true -> Forall page_ok pages ->
  length (blob_of h rs pages ++ post) < 2 ^ 63 ->
  from_file (Some (blob_of h rs pages ++ post)) =
    Ok (MkDump (hd_pid h) (hd_timestamp h) (hd_vma_count h) (hd_checksum h) rs
          (map region_of pages)).
Proof.
  intros Hh Hn Hu Hp. unfold blob_of. rewrite <- !app_assoc. intros Hl.
  rewrite from_file_head by done. rewrite Hn at 1. rewrite Nat2Z.id.
  destruct (blob_cursor h rs (concat (map region_bytes pages) ++ post) (header_magic _ Hh)) as [E1 E2].
  rewrite E1 in *. rewrite E2, parse_regions_at by done. done.
Qed.

(** ** Truncation *)

Definition is_err {A} (m : outcome A) : Prop := exists msg, m = Err msg.

Lemma is_err_bind {A B} (m : outcome A) (f : A -> outcome B) : is_err m -> is_err (m ≫= f).
Proof. by intros [msg ->]; exists msg. Qed.

Lemma load_take o k n (l : bytes) : (o + k <= n)%nat -> load o k (take n l) = load o k l.
Proof. intros. unfold load. by rewrite !take_drop_commute, take_take, Nat.min_l by lia. Qed.

Lemma slice_take (n : nat) (data : bytes) a b x :
  slice data a b = Ok x -> 0 <= a -> b <= n -> slice (take n data) a b = Ok x.
Proof.
  unfold slice. case_match eqn:E; [|done]. bool_prop. intros [= <-] Ha Hb.
  rewrite length_take, (proj2 (Z.leb_le _ _)), (proj2 (Z.leb_le _ _)) by lia. simpl.
  by rewrite load_take by lia.
Qed.

Lemma read_record_take n l : (33 <= n)%nat -> read_record (take n l) = read_record l.
Proof. intros. unfold read_record. by rewrite !load_take by lia. Qed.

Lemma read_header_take n l : (40 <= n)%nat -> read_header (take n l) = read_header l.
Proof. intros. unfold read_header. by rewrite !load_take by lia. Qed.

(** A blob cut inside a region is refused. *)
Lemma parse_region_cut pre p post (n : nat) :
  page_ok p -> length (pre ++ region_bytes p ++ post) < 2 ^ 63 ->
  length pre <= n -> n < length pre + length (region_bytes p) ->
  is_err (parse_region (take n (pre ++ region_bytes p ++ post)) (length pre)).
Proof.
  intros Hp Hl Hn1 Hn2. destruct (region_parts pre p post Hp Hl) as (Erec & S1 & S2 & S3).
  destruct Hp as [_ _ _ Hu Hname]. pose proof (length_region_bytes p) as Hr.
  set (data := pre ++ region_bytes p ++ post) in *.
  assert (Hdata : Z.of_nat (length data) = length pre + length (region_bytes p) + length post)
    by (unfold data; rewrite !length_app; lia).
  set (name := vma_pathname p.1) in *.
  unfold parse_region, VMA_RECORD_SIZE. rewrite Nat2Z.id, length_take, Nat.min_l by lia.
  rewrite !(uwrap_small 64 (length pre + 33)) by (unfold is_unsigned; lia).
  destruct (Z.ltb_spec n (length pre + 33)); [by eexists|].
  rewrite skipn_firstn_comm, read_record_take, Erec by lia. cbn [rc_data_len].
  rewrite !(uwrap_small 64 (length pre + 33 + 2)) by (unfold is_unsigned; lia).
  destruct (Z.ltb_spec n (length pre + 33 + 2)); [by eexists|].
  rewrite (slice_take n data _ _ _ S1 ltac:(lia) ltac:(lia)). cbn [mbind outcome_bind].
  rewrite le_val_le_bytes_id by (unfold is_unsigned; cbn; lia).
  rewrite !(uwrap_small 64 (length pre + 33 + 2 + length name)) by (unfold is_unsigned; lia).
  rewrite !(uwrap_small 64 (_ + length p.2)) by (unfold is_unsigned; lia).
  rewrite (proj2 (Z.ltb_lt n (length pre + 33 + 2 + length name + length p.2))) by lia.
  destruct (Z.ltb_spec 0 (length name)); [|by eexists].
  destruct (Z.ltb_spec n (length pre + 33 + 2 + length name)); [by eexists|].
  rewrite (slice_take n data _ _ _ S2 ltac:(lia) ltac:(lia)). by eexists.
Qed.

Lemma parse_regions_cut pre pages (n : nat) :
  Forall page_ok pages -> length (pre ++ concat (map region_bytes pages)) < 2 ^ 63 ->
  (length pre <= n < length pre + length (concat (map region_bytes pages)))%nat ->
  is_err (parse_regions (length pages) (take n (pre ++ concat (map region_bytes pages))) (length pre)).
Proof.
  intros Hp. revert pre. induction Hp as [|p pages Hp Hps IH]; intros pre Hl Hn.
  { simpl in Hn. lia. }
  cbn [map concat length parse_regions] in *.
  destruct (decide (n < length pre + length (region_bytes p))%nat) as [Hc|Hc].
  { apply is_err_bind. apply parse_region_cut; [done|done|lia|lia]. }
  rewrite length_app in Hn.
  assert (Et : take n (pre ++ region_bytes p ++ concat (map region_bytes pages)) =
    pre ++ region_bytes p ++ take (n - length pre - length (region_bytes p)) (concat (map region_bytes pages))).
  { by rewrite take_app_ge, take_app_ge by lia. }
  rewrite Et at 1. rewrite !length_app in Hl.
  rewrite parse_region_at by (try done; rewrite !length_app, length_take; lia).
  cbn [mbind outcome_bind snd fst]. apply is_err_bind. rewrite app_assoc.
  replace (length pre + length (region_bytes p))%Z with (Z.of_nat (length (pre ++ region_bytes p)))
    by (rewrite length_app; lia).
  apply IH; rewrite ?length_app; lia.
Qed.

(** A cut before the records. *)
Lemma from_file_cut_head h rs rest (n : nat) :
  header_ok h -> (n < 48 + length rs)%nat ->
  let data := header_bytes h ++ le_bytes 8 (length rs) ++ rs ++ rest in
  length data < 2 ^ 63 -> is_err (from_file (Some (take n data))).
Proof.
  intros Hh Hn data Hl. pose proof (length_header_bytes h (header_magic _ Hh)) as Hlh.
  assert (Hlen : Z.of_nat (length data) = 40 + (8 + (length rs + length rest))).
  { unfold data. rewrite !length_app, Hlh, length_le_bytes. lia. }
  assert (S1 : slice data 40 48 = Ok (le_bytes 8 (length rs))).
  { apply slice_at; rewrite ?Hlh, ?length_le_bytes; lia. }
  assert (Ehd : read_header data = h).
  { destruct Hh. apply read_header_bytes; try done. by rewrite header_magic0. }
  unfold from_file, HEADER_SIZE. rewrite length_take, Nat.min_l by lia.
  destruct (Z.ltb_spec n 40); [by eexists|].
  rewrite read_header_take, Ehd by lia. rewrite bool_decide_eq_true_2 by apply Hh.
  cbn [negb]. change (u64 (40 + 8)) with 48.
  destruct (Z.ltb_spec n 48); [by eexists|].
  rewrite (slice_take n data _ _ _ S1 ltac:(lia) ltac:(lia)). cbn [mbind outcome_bind].
  rewrite le_val_le_bytes_id by (unfold is_unsigned; cbn; lia).
  rewrite !(uwrap_small 64 (48 + _)) by (unfold is_unsigned; lia).
  rewrite (proj2 (Z.ltb_lt n (48 + _))) by lia. by eexists.
Qed.

(** ** Theorems about the blob *)

Lemma core_dump_header_ok pid timestamp pages :
  is_signed 32 pid -> is_unsigned 64 timestamp -> header_ok (core_dump_header pid timestamp pages).
Proof.
  intros. split; try done; cbn; try (apply uwrap_range; lia).
  rewrite compute_checksum_concat. by apply fnv1a_range.
Qed.

(** What KP14 should read from what the carver wrote. *)
Definition dump_of (pid timestamp : Z) (pages : list (VmaEntry * bytes)) (rs : bytes) : ParsedCoreDump :=
  MkDump pid timestamp (length pages) (compute_checksum pages) rs (map region_of pages).

Lemma package_core_dump_parses pid timestamp pages rs post :
  is_signed 32 pid -> is_unsigned 64 timestamp -> length pages < 2 ^ 32 ->
  valid_utf8 rs = true -> Forall page_ok pages ->
  length (package_core_dump pid timestamp pages rs ++ post) < 2 ^ 63 ->
  from_file (Some (package_core_dump pid timestamp pages rs ++ post)) =
    Ok (dump_of pid timestamp pages rs).
Proof.
  intros Hpid Ht Hn Hu Hp Hl.
  assert (Hc : hd_vma_count (core_dump_header pid timestamp pages) = length pages)
    by (apply uwrap_small; unfold is_unsigned; lia).
  change (package_core_dump pid timestamp pages rs)
    with (blob_of (core_dump_header pid timestamp pages) rs pages) in *.
  rewrite from_file_blob; auto using core_dump_header_ok. by rewrite Hc.
Qed.

(** C12: a blob written by the carver, followed by any bytes at all (the end
    of the block device it is copied to), parses back to what was carved: the
    pid, the time, the checksum, the register state, and each region with its
    addresses, permissions, offset, name and bytes, in order. *)
Theorem core_dump_round_trip pid timestamp pages rs post :
  is_signed 32 pid -> is_unsigned 64 timestamp -> length pages < 2 ^ 32 ->
  valid_utf8 rs = true -> Forall page_ok pages ->
  length (package_core_dump pid timestamp pages rs ++ post) < 2 ^ 63 ->
  from_file (Some (package_core_dump pid timestamp pages rs ++ post)) =
    Ok (dump_of pid timestamp pages rs).
Proof. apply package_core_dump_parses. Qed.

(** C26: every proper prefix of a blob the carver writes is refused with an
    error; the parser neither accepts it nor panics. *)
Theorem core_dump_truncation_detected pid timestamp pages rs (n : nat) :
  is_signed 32 pid -> is_unsigned 64 timestamp -> length pages < 2 ^ 32 ->
  valid_utf8 rs = true -> Forall page_ok pages ->
  length (package_core_dump pid timestamp pages rs) < 2 ^ 63 ->
  (n < length (package_core_dump pid timestamp pages rs))%nat ->
  is_err (from_file (Some (take n (package_core_dump pid timestamp pages rs)))).
Proof.
  intros Hpid Ht Hcount Hu Hp Hl Hn. pose proof (core_dump_header_ok pid timestamp pages Hpid Ht) as Hh.
  assert (Hc : hd_vma_count (core_dump_header pid timestamp pages) = length pages)
    by (apply uwrap_small; unfold is_unsigned; lia).
  unfold package_core_dump in *. set (h := core_dump_header pid timestamp pages) in *.
  destruct (decide (n < 48 + length rs)%nat); [by apply from_file_cut_head|].
  destruct (blob_cursor h rs (concat (map region_bytes pages)) (header_magic _ Hh)) as [E1 E2].
  set (pre := header_bytes h ++ le_bytes 8 (length rs) ++ rs) in *. rewrite E1 in *.
  rewrite length_app in Hn.
  assert (Et : take n (pre ++ concat (map region_bytes pages)) =
    header_bytes h ++ le_bytes 8 (length rs) ++ rs ++
    take (n - length pre) (concat (map region_bytes pages))).
  { rewrite take_app_ge by lia. unfold pre. by rewrite <- !app_assoc. }
  rewrite Et, from_file_head by (try done; rewrite <- Et, length_take; lia).
  rewrite Hc, Nat2Z.id, <- Et, E2. apply is_err_bind. apply parse_regions_cut; [done|done|lia].
Qed.

(** The parser accepts a blob whatever its checksum, version and
    payload size are: none of the three is compared with the data. *)
Theorem checksum_never_verified pid timestamp pages rs version size checksum :
  is_signed 32 pid -> is_unsigned 64 timestamp -> length pages < 2 ^ 32 ->
  valid_utf8 rs = true -> Forall page_ok pages ->
  is_unsigned 32 version -> is_unsigned 64 size -> is_unsigned 32 checksum ->
  let h := MkHeader MAGIC version pid timestamp (length pages) size checksum in
  length (blob_of h rs pages) < 2 ^ 63 ->
  exists d, from_file (Some (blob_of h rs pages)) = Ok d /\
    pd_checksum d = checksum /\ pd_regions d = map region_of pages.
Proof.
  intros Hpid Ht Hn Hu Hp Hv Hs Hc h Hl.
  rewrite <- (app_nil_r (blob_of h rs pages)) in *.
  rewrite from_file_blob; [by eexists|by split; unfold is_unsigned; cbn; try lia|done..].
Qed.

(** A well-formed header followed by a register-state length of at
    least 2^64 - 48 makes the parser panic: the wrapped sum passes the length
    test and the slice then ends before it starts. *)
Theorem from_file_panics h (reg_len : Z) rest :
  header_ok h -> 2 ^ 64 - 48 <= reg_len < 2 ^ 64 -> 
  let data := header_bytes h ++ le_bytes 8 reg_len ++ rest in
  length data < 2 ^ 63 -> from_file (Some data) = Panic.
Proof.
  intros Hh Hr data Hl. pose proof (length_header_bytes h (header_magic _ Hh)) as Hlh.
  assert (Hlen : Z.of_nat (length data) = 48 + length rest).
  { unfold data. rewrite !length_app, Hlh, length_le_bytes. lia. }
  assert (Ehd : read_header data = h).
  { destruct Hh. apply read_header_bytes; try done. by rewrite header_magic0. }
  assert (S1 : slice data 40 48 = Ok (le_bytes 8 reg_len)).
  { apply slice_at; rewrite ?Hlh, ?length_le_bytes; lia. }
  unfold from_file, HEADER_SIZE. rewrite (proj2 (Z.ltb_ge _ _)) by lia. rewrite Ehd.
  rewrite bool_decide_eq_true_2 by apply Hh. cbn [negb]. change (u64 (40 + 8)) with 48.
  rewrite (proj2 (Z.ltb_ge _ 48)) by lia. rewrite S1. cbn [mbind outcome_bind].
  rewrite le_val_le_bytes_id by (unfold is_unsigned; cbn; lia).
  assert (Ew : u64 (48 + reg_len) = 48 + reg_len - 2 ^ 64).
  { unfold uwrap. rewrite <- (Z.mod_add _ (-1)) by lia. rewrite Z.mod_small; lia. }
  rewrite Ew, (proj2 (Z.ltb_ge _ _)) by lia.
  unfold slice. by rewrite (proj2 (Z.leb_gt 48 _)) by lia.
Qed.

(** *** Any input *)

Lemma slice_ok data a b x :
  slice data a b = Ok x ->
  a <= b <= length data /\ (0 <= a -> Z.of_nat (length x) = b - a) /\ (is_bytes data -> is_bytes x).
Proof.
  unfold slice. case_match; [|done]. bool_prop. intros [= <-]. split; [lia|]. split.
  - intros. rewrite length_load by lia. lia.
  - auto with alphvdr.
Qed.

(** What the parser guarantees of a region, whatever the bytes. *)
Lemma parse_region_sound data off r off' :
  is_bytes data -> 0 <= off <= length data -> length data < 2 ^ 63 ->
  parse_region data off = Ok (r, off') ->
  valid_utf8 (mr_pathname r) = true /\ off + 35 + length (mr_data r) <= off' <= length data.
Proof.
  intros Hb Ho Hl. unfold parse_region, VMA_RECORD_SIZE.
  rewrite !(uwrap_small 64 (off + 33)) by (unfold is_unsigned; lia).
  destruct (Z.ltb_spec (length data) (off + 33)); [done|].
  rewrite !(uwrap_small 64 (off + 33 + 2)) by (unfold is_unsigned; lia).
  destruct (Z.ltb_spec (length data) (off + 33 + 2)); [done|].
  rewrite outcome_bind_ok. intros (nl & E1 & E).
  apply slice_ok in E1 as (_ & _ & Hnl). specialize (Hnl Hb). apply le_val_range in Hnl as [Hnl _].
  set (o2 := u64 (off + 33 + 2 + le_val nl)) in *.
  apply outcome_bind_ok in E as (name & E2 & E).
  set (dl := rc_data_len _) in E. clearbody dl.
  destruct (Z.ltb_spec (length data) (u64 (o2 + dl))); [done|].
  apply outcome_bind_ok in E as (d & E3 & [= <- <-]). cbn [mr_pathname mr_data].
  apply slice_ok in E3 as (Hb3 & Hlen3 & _).
  pose proof (uwrap_range 64 (off + 33 + 2 + le_val nl) ltac:(lia)) as [Ho2 _]. fold o2 in Ho2.
  specialize (Hlen3 Ho2).
  destruct (Z.ltb_spec 0 (le_val nl)).
  - case_match; [done|]. apply outcome_bind_ok in E2 as (s & E2 & [= <-]).
    apply slice_ok in E2 as [Hb2 _]. split; [apply from_utf8_lossy_valid|]. lia.
  - injection E2 as <-. split; [done|].
    assert (o2 = off + 35) by (unfold o2; rewrite uwrap_small by (unfold is_unsigned; lia); lia). lia.
Qed.

Definition data_total (rs : list MemoryRegion) : Z :=
  fold_right (fun r n => Z.of_nat (length (mr_data r)) + n) 0 rs.

Lemma parse_regions_sound n data off rs off' :
  is_bytes data -> 0 <= off <= length data -> length data < 2 ^ 63 ->
  parse_regions n data off = Ok (rs, off') ->
  length rs = n /\ Forall (fun r => valid_utf8 (mr_pathname r) = true) rs /\
  off + 35 * n + data_total rs <= off' <= length data.
Proof.
  intros Hb Ho Hl. revert off rs Ho. induction n as [|n IH]; intros off rs Ho; cbn [parse_regions].
  { intros [= <- <-]. split_and!; [done|constructor|simpl; lia|lia]. }
  rewrite outcome_bind_ok. intros ([r o1] & E1 & E).
  apply outcome_bind_ok in E as ([rs' o2] & E2 & [= <- <-]). cbn [fst snd] in *.
  apply parse_region_sound in E1 as [H1 H2]; [|done..].
  apply IH in E2 as (H3 & H4 & H5); [|lia].
  split_and!; [simpl; lia|by constructor|cbn [data_total fold_right]; fold (data_total rs'); lia|lia].
Qed.

(** C27: whatever the bytes of the file, when the parser succeeds the file
    starts with the magic, there are as many regions as the header says, the
    texts are UTF-8, and the headers and the data of all regions together are
    no longer than the file. *)
Theorem from_file_sound data d :
  is_bytes data -> length data < 2 ^ 63 -> from_file (Some data) = Ok d ->
  take 8 data = MAGIC /\
  Z.of_nat (length (pd_regions d)) = pd_vma_count d /\
  valid_utf8 (pd_register_state d) = true /\
  Forall (fun r => valid_utf8 (mr_pathname r) = true) (pd_regions d) /\
  48 + 35 * pd_vma_count d + data_total (pd_regions d) <= length data.
Proof.
  intros Hb Hl. unfold from_file, HEADER_SIZE. destruct (Z.ltb_spec (length data) 40); [done|].
  case_bool_decide as Hm; [|done]. cbn [negb]. change (u64 (40 + 8)) with 48.
  destruct (Z.ltb_spec (length data) 48); [done|].
  rewrite outcome_bind_ok. intros (rl & E1 & E).
  apply slice_ok in E1 as (_ & _ & Hrl). specialize (Hrl Hb). apply le_val_range in Hrl as [Hrl _].
  case_match; [done|]. apply outcome_bind_ok in E as (rs & E2 & E).
  apply outcome_bind_ok in E as ([regions o'] & E3 & [= <-]). cbn [pd_regions pd_vma_count pd_register_state fst].
  apply slice_ok in E2 as [Hb2 _]. apply parse_regions_sound in E3 as (H3 & H4 & H5); [|done|lia|done].
  change (hd_vma_count (read_header data)) with (le_val (load 24 4 data)) in *.
  assert (0 <= le_val (load 24 4 data)) by (apply le_val_range; auto with alphvdr).
  split_and!; [exact Hm|lia|apply from_utf8_lossy_valid|done|lia].
Qed.

(** *** From the process to the dump *)

Lemma parse_hex_range l n : parse_hex l = Some n -> is_unsigned 64 n.
Proof. apply from_str_radix_range; lia. Qed.

Lemma nth_valid (ls : list bytes) i :
  Forall (fun w => valid_utf8 w = true) ls -> valid_utf8 (nth i ls []) = true.
Proof.
  intros Hls. destruct (nth_in_or_default i ls []) as [Hin| ->]; [|done].
  rewrite Forall_forall in Hls. by apply Hls, list_elem_of_In.
Qed.

Lemma parse_maps_line_range line v :
  valid_utf8 line = true -> parse_maps_line line = Ok v ->
  is_unsigned 64 (vma_start v) /\ is_unsigned 64 (vma_end v) /\ is_unsigned 64 (vma_offset v) /\
  valid_utf8 (vma_pathname v) = true.
Proof.
  intros Hv. unfold parse_maps_line.
  pose proof (valid_splitn 6 32 line ltac:(unfold ascii; lia) Hv) as Hp.
  revert Hp. generalize (splitn 6 32 line). intros parts Hp. repeat (case_match; [done|]).
  repeat match goal with
  | |- match parse_hex ?l with _ => _ end = _ -> _ => destruct (parse_hex l) eqn:?; [|done]
  end.
  intros [= <-]. cbn. split_and!; [by eapply parse_hex_range..|].
  case_match; [|done]. by apply valid_trim, nth_valid.
Qed.

Lemma length_omap_le {A B} (f : A -> option B) l : (length (omap f l) <= length l)%nat.
Proof.
  induction l as [|x l IH]; [done|]. cbn [omap list_omap length].
  destruct (f x); cbn [length]; lia.
Qed.

Lemma capture_register_state_valid p :
  valid_utf8 (default [] (proc_syscall p)) = true -> valid_utf8 (default [] (proc_status p)) = true ->
  valid_utf8 (capture_register_state p) = true.
Proof.
  intros H1 H2. unfold capture_register_state.
  repeat first [exact H1 | exact H2 | reflexivity | apply valid_utf8_app].
Qed.

Lemma parsed_vma_range p maps vmas v :
  proc_maps p = Some maps -> valid_utf8 maps = true -> parse_vma_layout p = Ok vmas -> v ∈ vmas ->
  is_unsigned 64 (vma_start v) /\ is_unsigned 64 (vma_end v) /\ is_unsigned 64 (vma_offset v) /\
  valid_utf8 (vma_pathname v) = true.
Proof.
  intros Hm Hu. unfold parse_vma_layout. rewrite Hm, outcome_map_ok. intros Hf Hin.
  apply list_elem_of_lookup_1 in Hin as [i Hi].
  destruct (Forall2_lookup_r _ _ _ _ _ Hf Hi) as (line & Hline & Hp).
  eapply parse_maps_line_range; [|exact Hp].
  exact (Forall_lookup_1 _ _ _ _ (valid_lines _ Hu) Hline).
Qed.

Lemma carve_one_in p (vmas : list VmaEntry) x : x ∈ omap (carve_one p) (filter carvable vmas) -> x.1 ∈ vmas.
Proof.
  intros (v' & Hin & E)%list_elem_of_omap. unfold carve_one in E.
  destruct (proc_mem_read _ _ _); [|done]. simpl in E. simplify_eq.
  by apply list_elem_of_filter in Hin as [_ ?].
Qed.

Lemma carved_blob_parses pid timestamp p maps vmas blob post :
  proc_maps p = Some maps -> valid_utf8 maps = true ->
  valid_utf8 (default [] (proc_syscall p)) = true -> valid_utf8 (default [] (proc_status p)) = true ->
  is_signed 32 pid -> is_unsigned 64 timestamp ->
  parse_vma_layout p = Ok vmas -> length vmas < 2 ^ 32 ->
  Forall (fun v => length (vma_pathname v) < 2 ^ 16) vmas ->
  carve_and_package pid timestamp true p = Ok blob -> length (blob ++ post) < 2 ^ 63 ->
  from_file (Some (blob ++ post)) =
    Ok (dump_of pid timestamp (omap (carve_one p) (filter carvable vmas)) (capture_register_state p)).
Proof.
  intros Hm Hu Hsys Hst Hpid Ht Hv Hn Hnames. unfold carve_and_package. rewrite Hv. cbn [mbind outcome_bind].
  intros (pages & Hc & [= <-])%outcome_bind_ok Hl. apply carve_memory_ok in Hc as (_ & _ & Hpages).
  assert (Hin : forall x, x ∈ pages -> x.1 ∈ vmas) by (intros x; rewrite Hpages; apply carve_one_in).
  rewrite <- Hpages. apply package_core_dump_parses; try done.
  - rewrite Hpages. pose proof (length_omap_le (carve_one p) (filter carvable vmas)).
    pose proof (length_filter carvable vmas). lia.
  - by apply capture_register_state_valid.
  - apply Forall_forall. intros x Hx%Hin.
    destruct (parsed_vma_range p maps vmas x.1) as (? & ? & ? & ?); [done..|].
    rewrite Forall_forall in Hnames. split; auto.
Qed.

(** C16: end to end: when the carver packages a live process, KP14 reads back
    exactly the readable regions of its memory map (but for [vvar] and
    [vsyscall]) whose read succeeded, with their bytes, and the register state
    captured. *)
Theorem carve_and_parse pid timestamp p maps vmas blob post :
  proc_maps p = Some maps -> valid_utf8 maps = true ->
  valid_utf8 (default [] (proc_syscall p)) = true -> valid_utf8 (default [] (proc_status p)) = true ->
  is_signed 32 pid -> is_unsigned 64 timestamp ->
  parse_vma_layout p = Ok vmas -> length vmas < 2 ^ 32 ->
  Forall (fun v => length (vma_pathname v) < 2 ^ 16) vmas ->
  carve_and_package pid timestamp true p = Ok blob -> length (blob ++ post) < 2 ^ 63 ->
  from_file (Some (blob ++ post)) =
    Ok (dump_of pid timestamp (omap (carve_one p) (filter carvable vmas)) (capture_register_state p)).
Proof. apply carved_blob_parses. Qed.

(** A process whose [/proc] files can be read, with a map of mappings that
    can be sought. *)
Record live_process (p : proc) (vmas : list VmaEntry) : Prop := {
  live_maps : exists maps, proc_maps p = Some maps /\ valid_utf8 maps = true;
  live_texts : valid_utf8 (default [] (proc_syscall p)) = true /\ valid_utf8 (default [] (proc_status p)) = true;
  live_sizes : length (capture_register_state p) < 2 ^ 32 /\ length vmas < 2 ^ 32;
  live_layout : parse_vma_layout p = Ok vmas;
  live_names : Forall (fun v => length (vma_pathname v) < 2 ^ 16) vmas;
  live_reads : proc_ok p;
  live_mem : proc_mem_open p = true;
  live_seek : seekable p vmas
}.

Lemma length_regions (pages : list (VmaEntry * bytes)) :
  Forall (fun x => length (vma_pathname x.1) < 2 ^ 16 /\ length x.2 <= 2 ^ 26) pages ->
  length (concat (map region_bytes pages)) <= length pages * 2 ^ 27.
Proof.
  induction 1 as [|x pages [H1 H2] _ IH]; [done|]. cbn [map concat length].
  rewrite length_app. pose proof (length_region_bytes x). lia.
Qed.

Lemma live_process_parses pid timestamp p vmas :
  live_process p vmas -> is_signed 32 pid -> is_unsigned 64 timestamp ->
  exists blob, carve_and_package pid timestamp true p = Ok blob /\
    from_file (Some blob) =
      Ok (dump_of pid timestamp (omap (carve_one p) (filter carvable vmas)) (capture_register_state p)).
Proof.
  intros [(maps & Hm & Hu) [Hsys Hst] [Hs Hn] Hv Hnames Hok Ho Hk] Hpid Ht.
  set (pages := omap (carve_one p) (filter carvable vmas)).
  assert (Hc : carve_memory p vmas = Ok pages) by (by apply carve_memory_ok).
  assert (E : carve_and_package pid timestamp true p =
    Ok (package_core_dump pid timestamp pages (capture_register_state p))).
  { unfold carve_and_package. rewrite Hv. cbn [mbind outcome_bind]. by rewrite Hc. }
  eexists. split; [exact E|]. rewrite <- (app_nil_r (package_core_dump _ _ _ _)).
  eapply carved_blob_parses; try done. rewrite app_nil_r. unfold package_core_dump.
  assert (Hl : length (concat (map region_bytes pages)) <= length pages * 2 ^ 27).
  { apply length_regions. pose proof (carve_memory_bounds p vmas pages Hok Hc) as Hb.
    rewrite Forall_forall in Hb. rewrite Forall_forall in Hnames. apply Forall_forall. intros x Hx. destruct (Hb x Hx) as [Hl _].
    split; [exact (Hnames x.1 (carve_one_in p vmas x Hx))|]. lia. }
  pose proof (length_omap_le (carve_one p) (filter carvable vmas)) as H1. fold pages in H1.
  pose proof (length_filter carvable vmas) as H2.
  rewrite !length_app, length_header_bytes, length_le_bytes by done. lia.
Qed.

(** ** What is taken out of a dump *)

Lemma perms_flags_spec v :
  (negb (Z.land (perms_flags v) 0x01 =? 0) = is_readable v) /\
  (negb (Z.land (perms_flags v) 0x02 =? 0) = is_writable v) /\
  (negb (Z.land (perms_flags v) 0x04 =? 0) = is_executable v).
Proof.
  unfold perms_flags. by destruct (is_readable v), (is_writable v), (is_executable v).
Qed.

Lemma omap_map {A B C} (h : A -> B) (f : B -> option C) l : omap f (map h l) = omap (fun x => f (h x)) l.
Proof. induction l as [|x l IH]; [done|]. cbn [map omap list_omap]. by rewrite IH. Qed.

Lemma omap_imap_map {A B C} (h : A -> B) (f : nat * B -> option C) (g : nat * A -> option C) l :
  (forall i x, f (i, h x) = g (i, x)) -> omap f (imap pair (map h l)) = omap g (imap pair l).
Proof.
  intros E. transitivity (omap f (map (fun p => (p.1, h p.2)) (imap pair l))).
  - f_equal. etrans; [apply (imap_fmap pair h l)|]. symmetry. apply (fmap_imap pair (fun p : nat * A => (p.1, h p.2))).
  - rewrite omap_map. apply list_omap_ext, Forall_Forall2_diag, Forall_true. intros [i x]. apply E.
Qed.

(** From a dump the carver wrote, the extraction writes one file per
    carved region whose mapping is executable, in order, named after the
    process, the region's position in the dump and its address, holding the
    region's bytes, and last the bytes of all regions one after the other. *)
Theorem extracted_files pid timestamp pages rs :
  extract_executable_regions (dump_of pid timestamp pages rs) =
    omap (fun p : nat * (VmaEntry * bytes) =>
            if is_executable p.2.1
            then Some (region_file pid p.1 (region_of p.2), p.2.2) else None)
         (imap pair pages) ++
    [(bs "pid_" ++ show pid ++ bs "_full_dump.bin", concat (map snd pages))].
Proof.
  unfold extract_executable_regions, executable_files, full_dump_file, dump_of.
  cbn [pd_pid pd_regions]. rewrite map_map. f_equal. apply omap_imap_map.
  intros i x. cbn [fst snd]. destruct (perms_flags_spec x.1) as (_ & _ & <-). done.
Qed.

(** A maximal run of printable ASCII characters of [l]. *)
Definition printable (b : byte) : Prop := 0x20 <= b < 0x7f.
Definition run_of (s l : bytes) : Prop :=
  exists a c, l = a ++ s ++ c /\ Forall printable s /\
    (forall x, last a = Some x -> ~ printable x) /\ (forall x, head c = Some x -> ~ printable x).

Lemma run_all_printable s l : Forall printable l -> run_of s l <-> s = l.
Proof.
  intros Hl. split.
  - intros (a & c & -> & _ & Ha & Hc). rewrite !Forall_app in Hl. destruct Hl as (Hla & _ & Hlc).
    destruct c as [|x c]; [|apply Forall_cons in Hlc as [? _]; by destruct (Hc x eq_refl)].
    destruct a as [|x a _] using rev_ind; [by rewrite app_nil_r|].
    apply Forall_app in Hla as [_ [Hx _]%Forall_cons]. destruct (Ha x); [apply last_snoc|done].
  - intros ->. exists [], []. by rewrite app_nil_r.
Qed.

Lemma run_split s cur x l :
  Forall printable cur -> ~ printable x ->
  run_of s (cur ++ x :: l) <-> s = cur \/ run_of s l.
Proof.
  intros Hcur Hx. split.
  - intros (a & c & E & Hs & Ha & Hc). destruct (app_eq_inv _ _ _ _ E) as [(k & -> & E2)|(k & -> & E2)].
    + (* [a] is inside [cur]: it is empty *)
      assert (a = []) as ->.
      { destruct a as [|y a _] using rev_ind; [done|]. destruct (Ha y); [apply last_snoc|].
        rewrite !Forall_app in Hcur. by destruct Hcur as [[_ [Hy _]%Forall_cons] _]. }
      left. cbn [app] in *. destruct (app_eq_inv _ _ _ _ E2) as [(m & -> & E3)|(m & -> & E3)].
      * destruct m as [|y m]; [by rewrite app_nil_r|]. simplify_eq/=.
        apply Forall_app in Hs as [_ [Hy _]%Forall_cons]. done.
      * destruct m as [|y m]; [by rewrite app_nil_r|].
        apply Forall_app in Hcur as [_ [Hy _]%Forall_cons]. simplify_eq/=. by destruct (Hc y eq_refl).
    + destruct k as [|y k]; cbn [app] in E2.
      * (* [a] is [cur] *)
        rewrite app_nil_r in *. assert (cur = []) as ->.
        { destruct cur as [|y cur _] using rev_ind; [done|]. destruct (Ha y); [apply last_snoc|].
          by apply Forall_app in Hcur as [_ [Hy _]%Forall_cons]. }
        left. destruct s as [|y s]; [done|]. simplify_eq/=. by apply Forall_cons in Hs as [? _].
      * right. simplify_eq. exists k, c. split_and!; try done. intros z Hz. apply Ha.
        destruct k; [done|]. by rewrite last_app_cons.
  - intros [->|(a & c & -> & Hs & Ha & Hc)].
    + exists [], (x :: l). split_and!; try done. by intros y [= <-].
    + exists (cur ++ x :: a), c. split_and!; [by rewrite <- app_assoc|done| |done].
      intros y. rewrite last_app_cons. destruct a as [|z a]; [by intros [= <-]|]. apply Ha.
Qed.

Lemma region_strings_runs min_len cur l s :
  Forall printable cur ->
  s ∈ region_strings min_len cur l <-> run_of s (cur ++ l) /\ min_len <= length s.
Proof.
  revert cur; induction l as [|b l IH]; intros cur Hcur; cbn [region_strings].
  - rewrite app_nil_r, run_all_printable by done.
    destruct (Z.leb_spec min_len (length cur)).
    + rewrite list_elem_of_singleton. naive_solver.
    + split; [by intros ?%elem_of_nil|]. intros [-> ?]. lia.
  - destruct ((32 <=? b) && (b <? 127)) eqn:E; bool_prop.
    + rewrite IH, <- app_assoc; [done|]. apply Forall_app. by repeat constructor.
    + assert (Hb : ~ printable b) by (unfold printable; destruct E; bool_prop; lia).
      rewrite elem_of_app, IH, run_split by (done || constructor).
      destruct (Z.leb_spec min_len (length cur)).
      * rewrite list_elem_of_singleton. naive_solver.
      * split; [intros [?%elem_of_nil|?]; naive_solver|]. intros [[->|?] ?]; [lia|by right].
Qed.

(** C38: the strings taken from a dump are exactly the maximal runs of
    printable ASCII (0x20 to 0x7e) of at least the minimum length in the
    memory of some region; a run never crosses from one region to the next. *)
Theorem extract_strings_spec min_len d s :
  s ∈ extract_strings min_len d <->
  min_len <= length s /\ exists r, r ∈ pd_regions d /\ run_of s (mr_data r).
Proof.
  unfold extract_strings. rewrite list_elem_of_In, in_concat. setoid_rewrite in_map_iff.
  setoid_rewrite <- list_elem_of_In. split.
  - intros (x & (r & <- & Hr) & Hs). apply region_strings_runs in Hs as [? ?]; [|constructor].
    split; [done|]. by exists r.
  - intros [Hl (r & Hr & Hs)]. exists (region_strings min_len [] (mr_data r)).
    split; [by exists r|]. by apply region_strings_runs.
Qed.

(** ** Concrete runs *)

Section witnesses.
Import Carver.Demo.

Definition demo_pages : list (VmaEntry * bytes) := [(text_vma, bs "ABCDEFGH"); (heap_vma, bs "ABCDEFGH")].

Ltac decided := apply (bool_decide_unpack _); vm_compute; exact I.

Lemma demo_pages_ok : Forall page_ok demo_pages.
Proof. repeat constructor; try done; vm_compute; split; congruence. Qed.

Lemma core_dump_round_trip_witness :
  from_file (Some (package_core_dump 42 1700000000 demo_pages (bs "regs") ++ [0; 0])) =
    Ok (dump_of 42 1700000000 demo_pages (bs "regs")).
Proof.
  apply core_dump_round_trip; [vm_compute; split; congruence|vm_compute; split; congruence|
    vm_compute; congruence|vm_compute; reflexivity|exact demo_pages_ok|vm_compute; congruence].
Defined.

Lemma core_dump_truncation_detected_witness :
  is_err (from_file (Some (take 100 (package_core_dump 42 1700000000 demo_pages (bs "regs"))))).
Proof.
  apply core_dump_truncation_detected; [vm_compute; split; congruence|vm_compute; split; congruence|
    vm_compute; congruence|vm_compute; reflexivity|exact demo_pages_ok|vm_compute; congruence|].
  apply (bool_decide_unpack _). vm_compute. exact I.
Defined.

Lemma checksum_never_verified_witness :
  exists d, from_file (Some (blob_of (MkHeader MAGIC 7 42 1700000000 2 0 0) (bs "regs") demo_pages)) = Ok d /\
    pd_checksum d = 0 /\ pd_regions d = map region_of demo_pages.
Proof.
  apply (checksum_never_verified 42 1700000000 demo_pages (bs "regs") 7 0 0);
    [vm_compute; split; congruence|vm_compute; split; congruence|vm_compute; congruence
    |vm_compute; reflexivity|exact demo_pages_ok|vm_compute; split; congruence
    |vm_compute; split; congruence|vm_compute; split; congruence|vm_compute; congruence].
Defined.

Lemma from_file_panics_witness :
  from_file (Some (header_bytes (core_dump_header 42 1700000000 []) ++ le_bytes 8 (2 ^ 64 - 1) ++ [])) = Panic.
Proof.
  apply from_file_panics.
  - apply core_dump_header_ok; vm_compute; split; congruence.
  - lia.
  - vm_compute. congruence.
Defined.

Lemma from_file_sound_witness :
  let data := package_core_dump 42 1700000000 demo_pages (bs "regs") in
  exists d, from_file (Some data) = Ok d /\
    48 + 35 * pd_vma_count d + data_total (pd_regions d) <= length data.
Proof.
  intros data. eexists. split; [vm_compute; reflexivity|].
  eapply from_file_sound; [| |vm_compute; reflexivity].
  - decided.
  - vm_compute. congruence.
Defined.

Lemma carve_and_parse_witness :
  exists blob, carve_and_package 42 1700000000 true the_proc = Ok blob /\
    from_file (Some (blob ++ [])) =
      Ok (dump_of 42 1700000000 (omap (carve_one the_proc) (filter carvable vmas))
            (capture_register_state the_proc)).
Proof.
  eexists. split; [vm_compute; reflexivity|].
  apply (carve_and_parse 42 1700000000 the_proc maps_text vmas);
    [reflexivity|vm_compute; reflexivity|vm_compute; reflexivity|vm_compute; reflexivity
    |vm_compute; split; congruence|vm_compute; split; congruence|vm_compute; reflexivity
    |vm_compute; congruence| |vm_compute; reflexivity|vm_compute; congruence].
  decided.
Defined.
End witnesses.
