(* ===== verification/Qihse.v ===== *)
(** * The event log: [src/qihse.rs]

    [QihseClient] appends one line per record to the write-ahead log that the
    dashboard shows line by line.  The log is the bytes of the file;
    [wal_ok] tells whether it can be opened and written. *)

From S2P Require Import Prelude Text.

Record QihseClient := MkQihse {
  connection_string : bytes;
  wal_ok : bool;
  wal : bytes
}.

Definition set_wal (l : bytes) (q : QihseClient) : QihseClient :=
  MkQihse (connection_string q) (wal_ok q) l.

Definition compute_qmag_vector (uid : Z) (comm filename : bytes) (ppid : Z) : list Z :=
  [ if uid =? 0 then 1 else -1;
    if bool_decide (comm = bs "sh") || bool_decide (comm = bs "bash") then 1 else 0;
    if bool_decide (starts_with (bs "/tmp/") filename)
       || bool_decide (starts_with (bs "/dev/shm/") filename) then 1 else -1;
    if (ppid =? 1) || (ppid =? 2) then 0 else 1;
    1; -1; 0; 1 ].

(** [{:?}] of an array of integers. *)
Fixpoint show_items (l : list Z) : bytes :=
  match l with
  | [] => []
  | [x] => show x
  | x :: l => show x ++ bs ", " ++ show_items l
  end.
Definition debug_array (l : list Z) : bytes := bs "[" ++ show_items l ++ bs "]".

(** ** The lines, without their newline *)

Definition event_line (pid ppid uid : Z) (comm filename : bytes) : bytes :=
  bs "VEC:" ++ debug_array (compute_qmag_vector uid comm filename ppid) ++
  bs " | PID:" ++ show pid ++ bs " PPID:" ++ show ppid ++ bs " UID:" ++ show uid ++
  bs " COMM:" ++ comm ++ bs " FILE:" ++ filename.
Definition yara_line (pid : Z) (signature region : bytes) : bytes :=
  bs "VEC:[YARA] | PID:" ++ show pid ++ bs " SIG:" ++ signature ++ bs " REGION:" ++ region.
Definition tls_line (src_ip dst_ip dport payload_len : Z) : bytes :=
  bs "VEC:[TLS] | SRC:" ++ show src_ip ++ bs " DST:" ++ show dst_ip ++
  bs " PORT:" ++ show dport ++ bs " PAYLOAD_LEN:" ++ show payload_len.
Definition edr_line (action_type target reason : bytes) : bytes :=
  bs "VEC:[EDR_ACTION] | ACTION:" ++ action_type ++ bs " TARGET:" ++ target ++
  bs " REASON:" ++ reason.
Definition intel_line (indicator_type value source : bytes) : bytes :=
  bs "VEC:[THREAT_INTEL] | TYPE:" ++ indicator_type ++ bs " VALUE:" ++ value ++
  bs " SOURCE:" ++ source.

(** ** The operations: the client after the call, and the result *)

Definition append (line : bytes) (q : QihseClient) : QihseClient * outcome unit :=
  if wal_ok q then (set_wal (wal q ++ line ++ [newline]) q, Ok tt)
  else (q, Err "Failed to open QIHSE WAL file").

Definition insert_event (pid ppid uid : Z) (comm filename : bytes) (q : QihseClient) :=
  match connection_string q with
  | [] => (q, Err "Empty connection string")
  | _ => append (event_line pid ppid uid comm filename) q
  end.
Definition insert_yara_match (pid : Z) (signature region : bytes) (q : QihseClient) :=
  append (yara_line pid signature region) q.
Definition insert_tls_telemetry (src_ip dst_ip dport payload_len : Z) (q : QihseClient) :=
  append (tls_line src_ip dst_ip dport payload_len) q.
Definition insert_edr_action (action_type target reason : bytes) (q : QihseClient) :=
  append (edr_line action_type target reason) q.
Definition insert_threat_intel (indicator_type value source : bytes) (q : QihseClient) :=
  append (intel_line indicator_type value source) q.

(** ** Reading the log back *)

(** The records a reader sees: the log cut at newlines, as
    [f.readlines()] does; a complete log ends in a newline. *)
Definition entries (l : bytes) : list bytes := removelast (split newline l).

(** The log of a list of lines. *)
Definition log_of (ls : list bytes) : bytes := concat (map (fun l => l ++ [newline]) ls).

Lemma log_of_snoc ls l : log_of (ls ++ [l]) = log_of ls ++ l ++ [newline].
Proof. unfold log_of. rewrite map_app, concat_app. cbn [map concat]. by rewrite app_nil_r. Qed.

Lemma split_log ls r :
  Forall (fun l => newline ∉ l) ls -> split newline (log_of ls ++ r) = ls ++ split newline r.
Proof.
  induction 1 as [|l ls Hl Hls IH]; [done|]. unfold log_of. cbn [map concat].
  rewrite <- !app_assoc. cbn [app]. rewrite split_app by done. by rewrite <- IH.
Qed.

Lemma entries_log ls : Forall (fun l => newline ∉ l) ls -> entries (log_of ls) = ls.
Proof.
  intros Hls. unfold entries. rewrite <- (app_nil_r (log_of ls)), split_log by done.
  apply removelast_last.
Qed.

(** Numbers and the fixed text hold no newline. *)
Lemma show_no_newline n : newline ∉ show n.
Proof.
  assert (Hr : forall k, 0 <= k -> newline ∉ show_radix 10 k)
    by (intros; apply not_in_digits; [apply (digits_chars _ 10); lia|done]).
  unfold show. destruct (Z.ltb_spec n 0); [|by apply Hr].
  apply not_elem_of_cons. split; [done|]. apply Hr. lia.
Qed.

Ltac no_newline :=
  repeat first [ assumption | apply show_no_newline
               | apply not_elem_of_app; split
               | apply (bool_decide_unpack _); vm_compute; exact I ].

Lemma show_items_no_newline l : newline ∉ show_items l.
Proof.
  induction l as [|x [|y l] IH]; [by intros ?%elem_of_nil|apply show_no_newline|].
  cbn [show_items]. no_newline.
Qed.

Lemma event_line_one pid ppid uid comm filename :
  newline ∉ comm -> newline ∉ filename -> newline ∉ event_line pid ppid uid comm filename.
Proof.
  intros. unfold event_line, debug_array.
  pose proof (show_items_no_newline (compute_qmag_vector uid comm filename ppid)). no_newline.
Qed.

Lemma edr_line_one a t r : newline ∉ a -> newline ∉ t -> newline ∉ r -> newline ∉ edr_line a t r.
Proof. intros. unfold edr_line. no_newline. Qed.

(** *** Claims *)

(** Logging an event whose process name and path hold no newline adds
    exactly one record to a log of complete records and keeps the earlier ones
    as they were; the record is the event's line, so a reader of the log sees
    the identities that were logged. *)
Theorem insert_event_appends q ls pid ppid uid comm filename :
  wal_ok q = true -> connection_string q <> [] ->
  wal q = log_of ls -> Forall (fun l => newline ∉ l) ls ->
  newline ∉ comm -> newline ∉ filename ->
  let r := insert_event pid ppid uid comm filename q in
  r.2 = Ok tt /\
  entries (wal r.1) = entries (wal q) ++ [event_line pid ppid uid comm filename].
Proof.
  intros Hok Hc Hw Hls Hcomm Hf. cbv zeta. unfold insert_event.
  destruct (connection_string q) as [|b l] eqn:E; [done|]. unfold append. rewrite Hok.
  split; [done|]. cbn [fst wal set_wal]. rewrite Hw, <- log_of_snoc, !entries_log; [done|done|].
  apply Forall_app. split; [done|]. repeat constructor. by apply event_line_one.
Qed.

(** A path may hold a newline, and then one event writes several
    records: whoever can execute a file named by a path, a newline, and any
    lines, makes a log of complete records end in exactly those lines as
    records of their own, after the event's. *)
Theorem insert_event_forgeable q ls pid ppid uid comm path forged final :
  wal_ok q = true -> connection_string q <> [] ->
  wal q = log_of ls -> Forall (fun l => newline ∉ l) ls ->
  newline ∉ comm -> newline ∉ path -> Forall (fun l => newline ∉ l) (forged ++ [final]) ->
  let filename := path ++ newline :: log_of forged ++ final in
  exists first,
    entries (wal (insert_event pid ppid uid comm filename q).1) =
      entries (wal q) ++ [first] ++ forged ++ [final].
Proof.
  intros Hok Hc Hw Hls Hcomm Hp Hforged filename. unfold insert_event.
  destruct (connection_string q) as [|b l] eqn:E; [done|]. unfold append. rewrite Hok.
  set (first := event_line pid ppid uid comm filename).
  assert (Hfirst : exists h, (newline ∉ h) /\ first = h ++ filename).
  { eexists. split; [|unfold first, event_line; by rewrite !app_assoc].
    pose proof (show_items_no_newline (compute_qmag_vector uid comm filename ppid)).
    unfold debug_array. no_newline. }
  destruct Hfirst as (h & Hh & ->). exists (h ++ path). cbn [fst wal set_wal].
  assert (El : wal q ++ (h ++ filename) ++ [newline] =
    log_of (ls ++ [h ++ path] ++ forged ++ [final])).
  { rewrite Hw. unfold filename, log_of. rewrite !map_app, !concat_app. cbn [map concat].
    rewrite <- !app_assoc. cbn [app]. by rewrite <- !app_assoc. }
  rewrite El, Hw, !entries_log; [done|done|].
  repeat (apply Forall_app; split); try done. repeat constructor. no_newline.
  all: by apply Forall_app in Hforged as [? ?].
Qed.

(** ** Concrete runs *)

Module Demo.
Definition client : QihseClient := MkQihse (bs "qihse://localhost:9090") true (log_of [bs "VEC:[TLS] | x"]).
End Demo.

Section witnesses.
Import Demo.

Lemma insert_event_appends_witness :
  entries (wal (insert_event 42 1 0 (bs "bash") (bs "/tmp/x") client).1) =
    [bs "VEC:[TLS] | x"; bs "VEC:[1, 1, 1, 0, 1, -1, 0, 1] | PID:42 PPID:1 UID:0 COMM:bash FILE:/tmp/x"].
Proof.
  apply (insert_event_appends client [bs "VEC:[TLS] | x"] 42 1 0 (bs "bash") (bs "/tmp/x"));
    first [reflexivity | done | apply (bool_decide_unpack _); vm_compute; exact I].
Defined.

Lemma insert_event_forgeable_witness :
  exists first,
    entries (wal (insert_event 42 1 1000 (bs "x") (bs "/tmp/a" ++ newline :: log_of [] ++
        bs "VEC:[EDR_ACTION] | ACTION:FREEZE TARGET:PID:1 REASON:YARA") client).1) =
      [bs "VEC:[TLS] | x"] ++ [first] ++ [] ++
      [bs "VEC:[EDR_ACTION] | ACTION:FREEZE TARGET:PID:1 REASON:YARA"].
Proof.
  apply (insert_event_forgeable client [bs "VEC:[TLS] | x"] 42 1 1000 (bs "x") (bs "/tmp/a") []
    (bs "VEC:[EDR_ACTION] | ACTION:FREEZE TARGET:PID:1 REASON:YARA"));
    first [reflexivity | done | apply (bool_decide_unpack _); vm_compute; exact I].
Defined.
End witnesses.
