(* ===== verification/Yara.v ===== *)
(** * The in-memory scanner: [src/yara.rs]

    Signature search over the regions the carver reads, then an entropy test.
    The entropy is computed in IEEE binary64 with [SpecFloat]'s operations;
    [log2] is the platform's and is a parameter. *)

From Stdlib Require Import SpecFloat.
From S2P Require Import Prelude Text Carver.

(** ** Searching a region *)

(** [&haystack[i..i + needle.len()] == needle] *)
Definition matches_at (haystack needle : bytes) (i : nat) : bool :=
  bool_decide (load i (length needle) haystack = needle).

(** [for i in from..from + n]: the first match. *)
Fixpoint first_match (haystack needle : bytes) (n from : nat) : option nat :=
  match n with
  | O => None
  | S n => if matches_at haystack needle from then Some from
           else first_match haystack needle n (S from)
  end.

Definition find_subslice (haystack needle : bytes) : option nat :=
  if bool_decide (needle = []) || (length haystack <? length needle)%nat then None
  else first_match haystack needle (S (length haystack - length needle)) 0.

Definition signatures : list (bytes * bytes) :=
  [ (bs "x86_nop_sled", replicate 8 0x90);
    (bs "x86_syscall_execve", [0x48; 0xc7; 0xc0; 0x3b; 0x00; 0x00; 0x00; 0x0f; 0x05]);
    (bs "http_post_beacon", bs "POST /beacon");
    (bs "http_get_checkin", bs "GET /checkin");
    (bs "http_c2_gate", bs "GET /gate.php");
    (bs "aes_sbox_partial", [0x63; 0x7c; 0x77; 0x7b; 0xf2; 0x6b; 0x6f; 0xc5]);
    (bs "rc4_init_pattern", bs "RC4 Key");
    (bs "apt41_keyplug_rc4_stage", [0x0d; 0x20; 0x61; 0x0a]);
    (bs "apt41_keyplug_xor_auth", [0xdd; 0x79; 0x19; 0xae]);
    (bs "apt41_keyplug_sled", [0xeb; 0xfe; 0xeb; 0xfe; 0xeb; 0xfe; 0xeb; 0xfe]);
    (bs "reverse_shell_sh", bs "/bin/sh");
    (bs "reverse_shell_bash", bs "/bin/bash -i");
    (bs "ransomware_extension", bs ".encrypted");
    (bs "ransomware_note", bs "YOUR FILES ARE ENCRYPTED");
    (bs "cryptominer_pool", bs "stratum+tcp://");
    (bs "cryptominer_xmr", bs "monero");
    (bs "tmp_exec_path", bs "/tmp/.X11");
    (bs "dev_shm_exec", bs "/dev/shm/.");
    (bs "io_uring_setup", bs "io_uring_setup");
    (bs "io_uring_enter", bs "io_uring_enter");
    (bs "liburing_init", bs "io_uring_queue_init") ].

(** ** Entropy *)

Abbreviation f64_of z := (binary_normalize 53 1024 z 0 false).
Abbreviation f64_div := (SFdiv 53 1024).
Abbreviation f64_mul := (SFmul 53 1024).
Abbreviation f64_sub := (SFsub 53 1024).

(** [freq[byte as usize] += 1] for every byte. *)
Definition count_bytes (data : bytes) : list Z :=
  fold_left (fun freq byte => alter (fun n => u64 (n + 1)) (Z.to_nat byte) freq) data
    (replicate 256 0).

Definition calculate_shannon_entropy (log2 : spec_float -> spec_float) (data : bytes) : spec_float :=
  match data with
  | [] => f64_of 0
  | _ =>
      let freq := count_bytes data in
      let len := f64_of (length data) in
      fold_left (fun entropy count =>
        if 0 <? count then
          let p := f64_div (f64_of count) len in
          f64_sub entropy (f64_mul p (log2 p))
        else entropy) freq (f64_of 0)
  end.

(** [entropy > 7.5] *)
Definition high_entropy (log2 : spec_float -> spec_float) (data : bytes) : bool :=
  SFltb (binary_normalize 53 1024 15 (-1) false) (calculate_shannon_entropy log2 data).

(** ** Scanning *)

Section scan.
Context (log2 : spec_float -> spec_float).

Fixpoint scan_signatures (sigs : list (bytes * bytes)) (data region_name : bytes)
    : option (bytes * bytes) :=
  match sigs with
  | [] => None
  | (name, pattern) :: sigs =>
      if (length pattern <=? length data)%nat then
        match find_subslice data pattern with
        | Some _ => Some (name, region_name)
        | None => scan_signatures sigs data region_name
        end
      else scan_signatures sigs data region_name
  end.

Definition scan_region_for_signatures (data region_name : bytes) : option (bytes * bytes) :=
  match scan_signatures signatures data region_name with
  | Some m => Some m
  | None =>
      if (1024 <? length data) && high_entropy log2 data
      then Some (bs "high_entropy_packed", region_name) else None
  end.

Definition scan_raw_buffer (data : bytes) : option (bytes * bytes) :=
  scan_region_for_signatures data (bs "raw_buffer").

Fixpoint scan_pages (pages : list (VmaEntry * bytes)) : option (bytes * bytes) :=
  match pages with
  | [] => None
  | (vma, data) :: pages =>
      match scan_region_for_signatures data (vma_pathname vma) with
      | Some m => Some m
      | None => scan_pages pages
      end
  end.

(** [Ok None] when the map or the memory cannot be read. *)
Definition scan_process_memory (p : proc) : option (bytes * bytes) :=
  match parse_vma_layout p with
  | Ok vmas =>
      match carve_memory p vmas with
      | Ok carved_pages => scan_pages carved_pages
      | _ => None
      end
  | _ => None
  end.
End scan.

(** ** The search *)

(** [needle] occurs in [haystack] at [i]. *)
Definition occurs_at (haystack needle : bytes) (i : nat) : Prop :=
  exists pre post, haystack = pre ++ needle ++ post /\ length pre = i.

Lemma matches_at_spec haystack needle i :
  (i + length needle <= length haystack)%nat ->
  matches_at haystack needle i = true <-> occurs_at haystack needle i.
Proof.
  intros Hi. unfold matches_at. rewrite bool_decide_eq_true. split.
  - intros E. exists (take i haystack), (drop (i + length needle) haystack). split.
    + rewrite <- E at 1. unfold load. by rewrite <- drop_drop, take_drop, take_drop.
    + rewrite length_take. lia.
  - intros (pre & post & -> & <-). unfold load. by rewrite drop_app_length, take_app_length.
Qed.

Lemma first_match_spec haystack needle n from :
  match first_match haystack needle n from with
  | Some i => (from <= i < from + n)%nat /\ matches_at haystack needle i = true /\
              forall j, (from <= j < i)%nat -> matches_at haystack needle j = false
  | None => forall j, (from <= j < from + n)%nat -> matches_at haystack needle j = false
  end.
Proof.
  revert from; induction n as [|n IH]; intros from; cbn [first_match]; [intros; lia|].
  destruct (matches_at haystack needle from) eqn:E.
  - split_and!; [lia|lia|done|intros; lia].
  - specialize (IH (S from)). destruct (first_match _ _ _ _) as [i|].
    + destruct IH as (? & ? & Hj). split_and!; [lia|lia|done|]. intros j Hj'.
      destruct (decide (j = from)) as [->|]; [done|]. apply Hj. lia.
    + intros j Hj'. destruct (decide (j = from)) as [->|]; [done|]. apply IH. lia.
Qed.

Lemma occurs_at_bound haystack needle i :
  occurs_at haystack needle i -> (i + length needle <= length haystack)%nat.
Proof. intros (pre & post & -> & <-). rewrite !length_app. lia. Qed.

(** The substring search of the scanner finds the first occurrence of a
    non-empty pattern, and reports none only when there is none. *)
Theorem find_subslice_first haystack needle :
  needle <> [] ->
  match find_subslice haystack needle with
  | Some i => occurs_at haystack needle i /\ forall j, occurs_at haystack needle j -> (i <= j)%nat
  | None => forall j, ~ occurs_at haystack needle j
  end.
Proof.
  intros Hne. unfold find_subslice. rewrite bool_decide_eq_false_2 by done. cbn [orb].
  destruct (Nat.ltb_spec (length haystack) (length needle)) as [Hl|Hl].
  { intros j Hj%occurs_at_bound. lia. }
  pose proof (first_match_spec haystack needle (S (length haystack - length needle)) 0) as Hf.
  assert (Hocc : forall j, (j < S (length haystack - length needle))%nat ->
    matches_at haystack needle j = true <-> occurs_at haystack needle j)
    by (intros; apply matches_at_spec; lia).
  destruct (first_match _ _ _ _) as [i|].
  - destruct Hf as (Hi & Hm & Hbefore). split; [apply Hocc; [lia|done]|].
    intros j Hj. destruct (decide (i <= j)%nat) as [|Hlt]; [done|].
    apply Hocc in Hj; [|lia]. by rewrite Hbefore in Hj by lia.
  - intros j Hj. pose proof (occurs_at_bound _ _ _ Hj). apply Hocc in Hj; [|lia].
    by rewrite Hf in Hj by lia.
Qed.

Definition contains_pattern (data pattern : bytes) : Prop := exists i, occurs_at data pattern i.

Lemma scan_signatures_spec sigs data region :
  Forall (fun s => s.2 <> []) sigs ->
  match scan_signatures sigs data region with
  | Some (name, r) => r = region /\ exists before pattern after,
      sigs = before ++ (name, pattern) :: after /\ contains_pattern data pattern /\
      Forall (fun s => ~ contains_pattern data s.2) before
  | None => Forall (fun s => ~ contains_pattern data s.2) sigs
  end.
Proof.
  induction 1 as [|[name pattern] sigs Hne Hs IH]; [constructor|]. cbn [scan_signatures snd] in *.
  pose proof (find_subslice_first data pattern Hne) as Hf.
  assert (Hskip : ~ contains_pattern data pattern ->
    match scan_signatures sigs data region with
    | Some (n, r) => r = region /\ exists before p after,
        (name, pattern) :: sigs = before ++ (n, p) :: after /\ contains_pattern data p /\
        Forall (fun s => ~ contains_pattern data s.2) before
    | None => Forall (fun s => ~ contains_pattern data s.2) ((name, pattern) :: sigs)
    end).
  { intros Hno. destruct (scan_signatures sigs data region) as [[n r]|]; [|by constructor].
    destruct IH as (-> & before & p & after & -> & Hc & Hb). split; [done|].
    exists ((name, pattern) :: before), p, after. split_and!; [done|done|by constructor]. }
  destruct (Nat.leb_spec (length pattern) (length data)) as [Hl|Hl].
  - destruct (find_subslice data pattern) as [i|].
    + split; [done|]. exists [], pattern, sigs. destruct Hf as [Hi _].
      split_and!; [done|by exists i|constructor].
    + apply Hskip. intros [i Hi]. by apply (Hf i).
  - apply Hskip. intros [i Hi%occurs_at_bound]. lia.
Qed.

Lemma signatures_nonempty : Forall (fun s => s.2 <> []) signatures.
Proof. repeat constructor; done. Qed.

(** C34: the verdict on a region: the first signature of the table, in its
    order, whose pattern occurs in the region; the entropy verdict only when
    none does and the region is longer than 1024 bytes; no verdict exactly
    otherwise.  The region is named as it was given. *)
Theorem scan_region_verdict log2 data region :
  match scan_region_for_signatures log2 data region with
  | Some (name, r) => r = region /\
      ((exists before pattern after, signatures = before ++ (name, pattern) :: after /\
          contains_pattern data pattern /\
          Forall (fun s => ~ contains_pattern data s.2) before) \/
       (name = bs "high_entropy_packed" /\ 1024 < length data /\ high_entropy log2 data = true /\
          Forall (fun s => ~ contains_pattern data s.2) signatures))
  | None => Forall (fun s => ~ contains_pattern data s.2) signatures /\
      (length data <= 1024 \/ high_entropy log2 data = false)
  end.
Proof.
  pose proof (scan_signatures_spec signatures data region signatures_nonempty) as Hs.
  unfold scan_region_for_signatures. destruct (scan_signatures signatures data region) as [[n r]|].
  - destruct Hs as [-> Hs]. split; [done|]. by left.
  - destruct (Z.ltb_spec 1024 (length data)); cbn [andb]; [|split; [done|by left]].
    destruct (high_entropy log2 data) eqn:E; [|split; [done|by right]].
    split; [done|]. by right.
Qed.

Lemma scan_pages_spec log2 pages :
  match scan_pages log2 pages with
  | Some (name, r) => exists before v data after,
      pages = before ++ (v, data) :: after /\ r = vma_pathname v /\
      scan_region_for_signatures log2 data r = Some (name, r) /\
      Forall (fun p => scan_region_for_signatures log2 p.2 (vma_pathname p.1) = None) before
  | None => Forall (fun p => scan_region_for_signatures log2 p.2 (vma_pathname p.1) = None) pages
  end.
Proof.
  induction pages as [|[v data] pages IH]; [constructor|]. cbn [scan_pages].
  destruct (scan_region_for_signatures log2 data (vma_pathname v)) as [[n r]|] eqn:E.
  - assert (r = vma_pathname v) as ->.
    { unfold scan_region_for_signatures in E.
      pose proof (scan_signatures_spec signatures data (vma_pathname v) signatures_nonempty) as Hs.
      destruct (scan_signatures _ _ _) as [[n' r']|]; [destruct Hs as [-> _]; by simplify_eq|].
      case_match; by simplify_eq. }
    by exists [], v, data, pages.
  - destruct (scan_pages log2 pages) as [[n r]|]; [|by constructor].
    destruct IH as (b & v' & d' & a & -> & Hr & Hs & Hb).
    exists ((v, data) :: b), v', d', a. split_and!; [done..|by constructor].
Qed.

(** Scanning a live process reads exactly what carving it would: when
    map and memory can be read, the verdict is that of the first carved region
    that has one, under that region's name; a process that cannot be read has
    no verdict. *)
Theorem scan_process_memory_spec log2 p :
  match scan_process_memory log2 p with
  | Some (name, r) => exists vmas pages before v data after,
      parse_vma_layout p = Ok vmas /\ carve_memory p vmas = Ok pages /\
      pages = before ++ (v, data) :: after /\ r = vma_pathname v /\
      scan_region_for_signatures log2 data r = Some (name, r) /\
      Forall (fun x => scan_region_for_signatures log2 x.2 (vma_pathname x.1) = None) before
  | None => forall vmas pages,
      parse_vma_layout p = Ok vmas -> carve_memory p vmas = Ok pages ->
      Forall (fun x => scan_region_for_signatures log2 x.2 (vma_pathname x.1) = None) pages
  end.
Proof.
  unfold scan_process_memory. destruct (parse_vma_layout p) as [vmas|msg|]; [|by intros..].
  destruct (carve_memory p vmas) as [pages|msg|] eqn:Ec; [|intros; simplify_eq; congruence..].
  pose proof (scan_pages_spec log2 pages) as Hs. destruct (scan_pages log2 pages) as [[n r]|].
  - destruct Hs as (b & v & d & a & Hp & Hr & Hm & Hb). by exists vmas, pages, b, v, d, a.
  - intros vmas' pages' [= <-] E. rewrite Ec in E. by injection E as <-.
Qed.

(** ** Entropy depends on the histogram alone *)

Lemma count_bytes_snoc data b :
  count_bytes (data ++ [b]) = alter (fun n => u64 (n + 1)) (Z.to_nat b) (count_bytes data).
Proof. unfold count_bytes. by rewrite fold_left_app. Qed.

Lemma alter_commute (f : Z -> Z) i j (l : list Z) : alter f i (alter f j l) = alter f j (alter f i l).
Proof.
  destruct (decide (i = j)) as [->|Hne]; [done|]. apply list_eq. intros k.
  destruct (decide (k = i)) as [-> |Hi].
  - rewrite list_lookup_alter_eq, !list_lookup_alter_ne by done. by rewrite list_lookup_alter_eq.
  - rewrite (list_lookup_alter_ne _ _ i) by done. destruct (decide (k = j)) as [-> |Hj].
    + by rewrite !list_lookup_alter_eq, list_lookup_alter_ne by done.
    + by rewrite !list_lookup_alter_ne by done.
Qed.

Lemma count_bytes_perm d1 d2 : d1 ≡ₚ d2 -> count_bytes d1 = count_bytes d2.
Proof.
  intros Hp. unfold count_bytes. generalize (replicate 256 0).
  induction Hp as [|b d1 d2 Hp IH|b c d|d1 d2 d3 _ IH1 _ IH2]; intros l; [done| | |].
  - apply IH.
  - cbn [fold_left]. by rewrite alter_commute.
  - by rewrite IH1.
Qed.

(** The entropy of a region, and so the verdict on it when no signature
    matches, depends only on how often each byte value occurs: reordering the
    bytes changes nothing, whatever the platform's [log2]. *)
Theorem entropy_histogram log2 d1 d2 :
  d1 ≡ₚ d2 ->
  calculate_shannon_entropy log2 d1 = calculate_shannon_entropy log2 d2 /\
  high_entropy log2 d1 = high_entropy log2 d2.
Proof.
  intros Hp. assert (E : calculate_shannon_entropy log2 d1 = calculate_shannon_entropy log2 d2).
  { unfold calculate_shannon_entropy. rewrite (count_bytes_perm _ _ Hp).
    rewrite (Permutation_length Hp). destruct d1, d2;
      first [done | by apply Permutation_nil_l in Hp | by apply Permutation_nil_r in Hp]. }
  unfold high_entropy. by rewrite E.
Qed.

(** ** Concrete runs *)

Section witnesses.
Import Carver.Demo.

Lemma find_subslice_first_witness :
  find_subslice (bs "run /bin/sh or /bin/sh") (bs "/bin/sh") = Some 4%nat /\
  forall j, occurs_at (bs "run /bin/sh or /bin/sh") (bs "/bin/sh") j -> (4 <= j)%nat.
Proof.
  pose proof (find_subslice_first (bs "run /bin/sh or /bin/sh") (bs "/bin/sh")
    ltac:(vm_compute; congruence)) as H.
  assert (E : find_subslice (bs "run /bin/sh or /bin/sh") (bs "/bin/sh") = Some 4%nat)
    by (vm_compute; reflexivity).
  rewrite E in H. split; [exact E|exact (proj2 H)].
Defined.

Lemma entropy_histogram_witness :
  high_entropy (fun x => x) [1; 2; 3] = high_entropy (fun x => x) [3; 2; 1].
Proof. apply (entropy_histogram (fun x => x)). apply (bool_decide_unpack _). vm_compute. exact I. Defined.

(** The scanner on concrete data, with a [log2] that is never negative enough. *)
Example scan_demo : scan_raw_buffer (fun x => x) (bs "GET /gate.php?id=/bin/sh") =
  Some (bs "http_c2_gate", bs "raw_buffer").
Proof. vm_compute. reflexivity. Qed.
End witnesses.
