(* ===== verification/Shell.v ===== *)
(** * External commands, and [src/rollback.rs]

    The agent works through [std::process::Command]: [zfs], [pvesm], [qm],
    [dd], [scp], [ssh].  Those programs are not part of the repository; a
    [world] says what a command does after the commands run before it, and a
    pipeline is a computation that runs commands in order, keeps the trace of
    them, and stops at the first error that is propagated with [?]. *)

From S2P Require Import Prelude Text.

(** A command: the program and its arguments. *)
Abbreviation command := (list bytes) (only parsing).

Record output := Output { success : bool; stdout : bytes }.

(** [None]: the program could not be started. *)
Definition world : Type := list command -> command -> option output.

Definition cmd (A : Type) : Type := world -> list command -> outcome A * list command.

#[export] Instance cmd_ret : MRet cmd := fun A a w h => (Ok a, h).
#[export] Instance cmd_bind : MBind cmd := fun A B f m w h =>
  match m w h with
  | (Ok a, h) => f a w h
  | (Err e, h) => (Err e, h)
  | (Panic, h) => (Panic, h)
  end.
Definition fail {A} (msg : string) : cmd A := fun w h => (Err msg, h).

(** [Command::new(..).status().context(msg)?], with or without the output. *)
Definition run_command (msg : string) (c : command) : cmd output := fun w h =>
  (match w h c with Some o => Ok o | None => Err msg end, h ++ [c]).
(** [let _ = Command::new(..).status();] *)
Definition run_ignored (c : command) : cmd unit := fun w h => (Ok tt, h ++ [c]).
(** [.context(msg)?] and then [bail!] when the status is not a success. *)
Definition run_checked (msg bail : string) (c : command) : cmd unit :=
  o ← run_command msg c; if success o then mret tt else fail bail.

(** A computation that runs no command. *)
Definition lift {A} (m : outcome A) : cmd A := fun w h => (m, h).

(** [fs::write(path, contents)] takes its place in the trace as a redirection
    to the file; the world answers whether it could be written. *)
Definition write_command (path contents : bytes) : command := [bs ">"; path; contents].
Definition write_file (msg : string) (path contents : bytes) : cmd unit :=
  run_checked msg msg (write_command path contents).

(** Whether a command succeeds after a history. *)
Definition succeeds (w : world) (h : list command) (c : command) : bool :=
  match w h c with Some o => success o | None => false end.

Lemma run_checked_eq msg bail c w h :
  (run_checked msg bail c w h).2 = h ++ [c] /\
  ((run_checked msg bail c w h).1 = Ok tt <-> succeeds w h c = true).
Proof.
  unfold run_checked, mbind, cmd_bind, run_command, succeeds, fail.
  destruct (w h c) as [[[|] o]|]; cbn; naive_solver.
Qed.

Lemma cmd_bind_run {A B} (m : cmd A) (f : A -> cmd B) w h :
  (m ≫= f) w h =
    match m w h with
    | (Ok a, h) => f a w h
    | (Err e, h) => (Err e, h)
    | (Panic, h) => (Panic, h)
    end.
Proof. done. Qed.

Lemma cmd_bind_ok {A B} (m : cmd A) (f : A -> cmd B) w h b h' :
  (m ≫= f) w h = (Ok b, h') <-> exists a h1, m w h = (Ok a, h1) /\ f a w h1 = (Ok b, h').
Proof.
  rewrite cmd_bind_run. destruct (m w h) as [[a|e|] h1]; split; try naive_solver.
Qed.

Lemma mret_ok {A} (a b : A) (w : world) h h' :
  mret (M := cmd) a w h = (Ok b, h') <-> a = b /\ h = h'.
Proof. unfold mret, cmd_ret. naive_solver. Qed.

Lemma run_command_ok msg c w h o h' :
  run_command msg c w h = (Ok o, h') <-> w h c = Some o /\ h' = h ++ [c].
Proof. unfold run_command. destruct (w h c); naive_solver. Qed.

Lemma run_checked_ok msg bail c w h u h' :
  run_checked msg bail c w h = (Ok u, h') <-> succeeds w h c = true /\ h' = h ++ [c].
Proof.
  destruct u, (run_checked_eq msg bail c w h) as [E1 E2].
  destruct (run_checked msg bail c w h) as [r h1]. cbn [fst snd] in *. naive_solver.
Qed.

Lemma lift_ok {A} (m : outcome A) w h a h' : lift m w h = (Ok a, h') <-> m = Ok a /\ h' = h.
Proof. unfold lift. naive_solver. Qed.

(** A computation that only adds commands to the trace, all of a kind. *)
Definition runs_only {A} (P : command -> Prop) (m : cmd A) : Prop :=
  forall w h, exists t, (m w h).2 = h ++ t /\ Forall P t.

Lemma runs_ret {A} P (a : A) : runs_only P (mret a).
Proof. intros w h. exists []. by rewrite app_nil_r. Qed.
Lemma runs_fail {A} P msg : runs_only P (fail (A := A) msg).
Proof. intros w h. exists []. by rewrite app_nil_r. Qed.
Lemma runs_bind {A B} P (m : cmd A) (f : A -> cmd B) :
  runs_only P m -> (forall a, runs_only P (f a)) -> runs_only P (m ≫= f).
Proof.
  intros Hm Hf w h. rewrite cmd_bind_run. destruct (Hm w h) as (t & Et & Ht).
  destruct (m w h) as [[a|e|] h1]; cbn [fst snd] in *; subst h1; [|by exists t..].
  destruct (Hf a w (h ++ t)) as (t' & -> & Ht'). exists (t ++ t'). rewrite app_assoc.
  split; [done|]. by apply Forall_app.
Qed.
Lemma runs_command (P : command -> Prop) msg c : P c -> runs_only P (run_command msg c).
Proof. intros Hc w h. exists [c]. split; [done|]. by constructor. Qed.
Lemma runs_ignored (P : command -> Prop) c : P c -> runs_only P (run_ignored c).
Proof. intros Hc w h. exists [c]. split; [done|]. by constructor. Qed.
Lemma runs_checked (P : command -> Prop) msg bail c : P c -> runs_only P (run_checked msg bail c).
Proof.
  intros Hc. apply runs_bind; [by apply runs_command|].
  intros o. destruct (success o); [apply runs_ret|apply runs_fail].
Qed.
Lemma runs_lift {A} P (m : outcome A) : runs_only P (lift m).
Proof. intros w h. exists []. by rewrite app_nil_r. Qed.
#[export] Hint Resolve runs_ret runs_fail runs_bind runs_command runs_ignored runs_checked : alphvdr.

(** A computation that cannot panic. *)
Definition no_panic {A} (m : cmd A) : Prop := forall w h, (m w h).1 <> Panic.

Lemma no_panic_ret {A} (a : A) : no_panic (mret a).
Proof. done. Qed.
Lemma no_panic_fail {A} msg : no_panic (fail (A := A) msg).
Proof. done. Qed.
Lemma no_panic_bind {A B} (m : cmd A) (f : A -> cmd B) :
  no_panic m -> (forall a, no_panic (f a)) -> no_panic (m ≫= f).
Proof.
  intros Hm Hf w h. rewrite cmd_bind_run. specialize (Hm w h).
  destruct (m w h) as [[a|e|] h1]; [apply Hf|done|done].
Qed.
Lemma no_panic_command msg c : no_panic (run_command msg c).
Proof. intros w h. unfold run_command. by destruct (w h c). Qed.
Lemma no_panic_checked msg bail c : no_panic (run_checked msg bail c).
Proof. apply no_panic_bind; [apply no_panic_command|]. intros o. by destruct (success o). Qed.
#[export] Hint Resolve no_panic_ret no_panic_fail no_panic_command no_panic_checked : alphvdr.

(** ** [ZfsManager] *)

Record ZfsManager := MkZfs { dataset : bytes }.

Definition rollback_command (z : ZfsManager) : command :=
  [bs "sudo"; bs "zfs"; bs "rollback"; bs "-r"; dataset z ++ bs "@edr_pre_dev_snapshot"].

Definition trigger_rollback (z : ZfsManager) : cmd unit :=
  run_checked "Failed to execute zfs rollback. Is ZFS installed and sudo configured?"
    "ZFS rollback failed! Manual forensic intervention required." (rollback_command z).

Definition daily_name (z : ZfsManager) (timestamp : Z) : bytes :=
  dataset z ++ bs "@edr_daily_" ++ show timestamp.
Definition snapshot_command (z : ZfsManager) (timestamp : Z) : command :=
  [bs "sudo"; bs "zfs"; bs "snapshot"; daily_name z timestamp].
Definition export_command (z : ZfsManager) (timestamp : Z) : command :=
  [bs "sh"; bs "-c"; bs "sudo zfs send " ++ daily_name z timestamp ++
     bs " | zstd -20 -T0 > " ++ bs "/tmp/alphvdr_backup_" ++ show timestamp ++ bs ".zst"].

Definition take_daily_snapshot (z : ZfsManager) (timestamp : Z) : cmd unit :=
  run_checked "Failed to execute zfs snapshot" "Daily ZFS snapshot creation failed."
    (snapshot_command z timestamp) ;;
  run_checked "Failed to run export shell command" "Snapshot zstd-20 compression failed."
    (export_command z timestamp).

(** The daily backup exports only the snapshot it has just taken: the
    export command runs exactly when taking the snapshot succeeded, right
    after it and of the same name; the result is a success exactly when both
    commands were. *)
Theorem daily_snapshot_trace z timestamp w h :
  let r := take_daily_snapshot z timestamp w h in
  let h1 := h ++ [snapshot_command z timestamp] in
  r.2 = (if succeeds w h (snapshot_command z timestamp) then h1 ++ [export_command z timestamp] else h1) /\
  (r.1 = Ok tt <-> succeeds w h (snapshot_command z timestamp) = true /\
                   succeeds w h1 (export_command z timestamp) = true).
Proof.
  cbv zeta. unfold take_daily_snapshot. rewrite cmd_bind_run.
  pose proof (run_checked_eq "Failed to execute zfs snapshot" "Daily ZFS snapshot creation failed."
    (snapshot_command z timestamp) w h) as [E1 E2].
  destruct (run_checked _ _ (snapshot_command z timestamp) w h) as [o h']. cbn [fst snd] in *. subst h'.
  destruct (succeeds w h (snapshot_command z timestamp)).
  - destruct E2 as [_ E2]. rewrite E2 by done.
    pose proof (run_checked_eq "Failed to run export shell command" "Snapshot zstd-20 compression failed."
      (export_command z timestamp) w (h ++ [snapshot_command z timestamp])) as [E3 E4].
    split; [exact E3|]. rewrite E4. tauto.
  - destruct o as [[]| |]; cbn; [by destruct E2 as [E2 _]; specialize (E2 eq_refl)|..];
      (split; [done|]; by split; [|intros []]).
Qed.
