(* ===== verification/Proxmox.v ===== *)
(** * The Proxmox bridge: [src/proxmox_bridge.rs]

    Routing a core-dump blob to the analysis VM: a storage volume is
    allocated, the blob is written to its device, and the volume is plugged
    into the first free SCSI slot of the VM.  The hypervisor's programs are the
    [world] of [Shell]; every operation is the sequence of commands it runs. *)

From S2P Require Import Prelude Text Shell.

Record ProxmoxBridge := MkBridge {
  storage : bytes;
  vmid : Z;
  proxmox_host : bytes;
  is_local_hypervisor : bool
}.

Definition default_kp14 : ProxmoxBridge := MkBridge (bs "local-lvm") 9211 (bs "localhost:8006") true.

(** ** Storage *)

Definition volume_name (timestamp : Z) : bytes := bs "alphvdr-coredump-" ++ show timestamp.
Definition alloc_command (b : ProxmoxBridge) (size_mb timestamp : Z) : command :=
  [bs "pvesm"; bs "alloc"; storage b; volume_name timestamp; show size_mb ++ bs "M"].
Definition volume_id (b : ProxmoxBridge) (timestamp : Z) : bytes :=
  storage b ++ bs ":" ++ volume_name timestamp.

Definition allocate_storage (b : ProxmoxBridge) (size_mb timestamp : Z) : cmd bytes :=
  (if is_local_hypervisor b
   then run_checked "Failed to execute pvesm alloc" "pvesm alloc failed" (alloc_command b size_mb timestamp)
   else mret tt) ;;
  mret (volume_id b timestamp).

Definition path_command (volume : bytes) : command := [bs "pvesm"; bs "path"; volume].
Definition device_path (o : output) : bytes := trim (from_utf8_lossy (stdout o)).

Definition get_volume_device_path (volume : bytes) : cmd bytes :=
  o ← run_command "Failed to execute pvesm path" (path_command volume);
  if negb (success o) then fail "pvesm path failed" else
  let path := device_path o in
  if bool_decide (path = []) then fail "pvesm path returned empty device path" else mret path.

Definition dd_command (blob_path device : bytes) : command :=
  [bs "dd"; bs "if=" ++ blob_path; bs "of=" ++ device; bs "bs=1M"; bs "conv=fdatasync"].
Definition scp_command (b : ProxmoxBridge) (blob_path volume : bytes) : command :=
  [bs "scp"; bs "-B"; bs "-o"; bs "StrictHostKeyChecking=yes"; blob_path;
   bs "root@" ++ proxmox_host b ++ bs ":/tmp/" ++ volume].

(** [fs::metadata(blob_path)?.len()], after the commands run so far. *)
Definition blob_metadata (blob_len : list command -> option Z) : cmd Z := fun w h =>
  (match blob_len h with Some n => Ok n | None => Err "No such file or directory" end, h).

Definition write_blob_to_volume (b : ProxmoxBridge) (blob_len : list command -> option Z)
    (blob_path volume : bytes) : cmd unit :=
  blob_metadata blob_len ;;
  if is_local_hypervisor b then
    device ← get_volume_device_path volume;
    run_checked "Failed to execute dd to write blob to volume" "Failed to write blob to volume device"
      (dd_command blob_path device)
  else
    run_checked "Failed to execute scp for blob transfer" "Failed to transfer blob to remote hypervisor"
      (scp_command b blob_path volume).

(** ** SCSI slots *)

Definition config_command (b : ProxmoxBridge) : command := [bs "qm"; bs "config"; show (vmid b)].

(** The digits after ["scsi"], when the line starts so and they are a [u32]. *)
Definition line_slot (line : bytes) : option Z :=
  if bool_decide (starts_with (bs "scsi") line)
  then parse_uint 32 (take_while (between 48 57) (drop 4 line)) else None.
Definition used_slots (config : bytes) : list Z := omap line_slot (lines config).

Definition first_free (used : list Z) : option Z :=
  List.find (fun slot => negb (bool_decide (slot ∈ used))) (seqZ 10 21).

Definition find_available_scsi_slot (b : ProxmoxBridge) : cmd Z :=
  if negb (is_local_hypervisor b) then mret 10 else
  o ← run_command "Failed to execute qm config" (config_command b);
  match first_free (used_slots (from_utf8_lossy (stdout o))) with
  | Some slot => mret slot
  | None => fail "No available SCSI slot in VM"
  end.

Definition device_name (slot : Z) : bytes := bs "scsi" ++ show slot.
Definition plug_command (b : ProxmoxBridge) (slot : Z) (volume : bytes) : command :=
  [bs "qm"; bs "set"; show (vmid b); bs "--" ++ device_name slot ++ bs "," ++ volume].

Definition hotplug_to_vm (b : ProxmoxBridge) (volume : bytes) : cmd Z :=
  scsi_slot ← find_available_scsi_slot b;
  (if is_local_hypervisor b
   then run_checked "Failed to execute qm set for hotplug" "qm set hotplug failed"
          (plug_command b scsi_slot volume)
   else mret tt) ;;
  mret scsi_slot.

Definition unplug_command (b : ProxmoxBridge) (slot : Z) : command :=
  [bs "qm"; bs "set"; show (vmid b); bs "--delete"; device_name slot].
Definition free_command (volume : bytes) : command := [bs "pvesm"; bs "free"; volume].

Definition cleanup_volume (b : ProxmoxBridge) (volume : bytes) (scsi_slot : Z) : cmd unit :=
  if is_local_hypervisor b
  then run_ignored (unplug_command b scsi_slot) ;; run_ignored (free_command volume)
  else mret tt.

(** ** The whole routing *)

Definition size_in_mb (blob_size : Z) : Z :=
  let size_mb := u64 (blob_size / (1024 * 1024) + 1) in
  u64 (size_mb + size_mb / 10).

Definition route_to_kp14 (b : ProxmoxBridge) (blob_len : list command -> option Z)
    (timestamp : Z) (blob_path : bytes) : cmd (bytes * Z) :=
  blob_size ← blob_metadata blob_len;
  volume ← allocate_storage b (size_in_mb blob_size) timestamp;
  write_blob_to_volume b blob_len blob_path volume ;;
  scsi_slot ← hotplug_to_vm b volume;
  mret (volume, scsi_slot).

(** ** The volume holds the blob *)

Lemma size_in_mb_spec n : is_unsigned 64 n ->
  n < size_in_mb n * 1048576 /\
  size_in_mb n * 10 <= 11 * (n / 1048576 + 1) < size_in_mb n * 10 + 10.
Proof.
  unfold is_unsigned. intros Hn. unfold size_in_mb. change (1024 * 1024) with 1048576.
  pose proof (Z.div_mod n 1048576 ltac:(lia)). pose proof (Z.mod_pos_bound n 1048576 ltac:(lia)).
  set (q := n / 1048576) in *. assert (0 <= q < 2 ^ 44) by lia.
  rewrite (uwrap_small 64 (q + 1)) by (unfold is_unsigned; lia).
  pose proof (Z.div_mod (q + 1) 10 ltac:(lia)). pose proof (Z.mod_pos_bound (q + 1) 10 ltac:(lia)).
  rewrite uwrap_small by (unfold is_unsigned; lia). lia.
Qed.

(** ** The slot *)

Lemma find_seqZ (p : Z -> bool) (n : nat) from slot :
  List.find p (seqZ from n) = Some slot <->
  from <= slot < from + n /\ p slot = true /\ (forall s, from <= s < slot -> p s = false).
Proof.
  revert from. induction n as [|n IH]; intros from.
  - cbn. split; [done|lia].
  - rewrite seqZ_cons by lia. cbn [List.find]. replace (Z.pred (S n)) with (Z.of_nat n) by lia.
    destruct (p from) eqn:Ep.
    + split.
      * intros [= <-]. split_and!; [lia..|done|lia].
      * intros (Hr & Hp & Hmin). f_equal. destruct (decide (from = slot)); [done|].
        rewrite Hmin in Ep by lia. done.
    + rewrite IH. split; intros (Hr & Hp & Hmin).
      * split_and!; [lia..|done|]. intros s Hs. destruct (decide (s = from)) as [->|]; [done|]. apply Hmin. lia.
      * destruct (decide (slot = from)) as [->|]; [congruence|]. split_and!; [lia..|done|].
        intros s Hs. apply Hmin. lia.
Qed.

Lemma first_free_spec used slot :
  first_free used = Some slot <->
  10 <= slot <= 30 /\ (slot ∉ used) /\ (forall s, 10 <= s < slot -> s ∈ used).
Proof.
  unfold first_free. rewrite (find_seqZ _ 21%nat 10 slot). setoid_rewrite negb_true_iff.
  setoid_rewrite bool_decide_eq_false. setoid_rewrite negb_false_iff. setoid_rewrite bool_decide_eq_true.
  split; intros (? & ? & ?); split_and!; try done; lia.
Qed.

Lemma first_free_none used :
  first_free used = None <-> forall s, 10 <= s <= 30 -> s ∈ used.
Proof.
  split.
  - intros E s Hs. unfold first_free in E.
    pose proof (List.find_none _ _ E s) as Hn. cbv beta in Hn. rewrite negb_false_iff, bool_decide_eq_true in Hn.
    apply Hn. apply list_elem_of_In, elem_of_seqZ. lia.
  - intros H. destruct (first_free used) as [s|] eqn:E; [|done].
    apply first_free_spec in E as (Hs & Hn & _). by destruct Hn; apply H.
Qed.

(** A line of the configuration that puts a disk in a slot. *)
Lemma line_slot_disk n d r : is_unsigned 32 n -> between 48 57 d = false ->
  line_slot (device_name n ++ d :: r) = Some n.
Proof.
  intros Hn Hd. unfold line_slot, device_name. rewrite <- app_assoc.
  rewrite bool_decide_eq_true_2 by done. cbn [app].
  change (drop 4 (bs "scsi" ++ show n ++ d :: r)) with (show n ++ d :: r).
  rewrite take_while_app; [by apply parse_uint_show|apply show_digits, Hn|done].
Qed.

Lemma used_slots_lines ls n :
  Forall (fun l => (newline ∉ l) /\ last l <> Some 13) ls ->
  n ∈ used_slots (concat (map (fun l => l ++ [newline]) ls)) <->
  exists l, l ∈ ls /\ line_slot l = Some n.
Proof. intros Hls. unfold used_slots. rewrite lines_concat by done. apply list_elem_of_omap. Qed.

(** ** What a routing does *)

(** The five commands of a routing on the hypervisor itself. *)
Definition route_commands (b : ProxmoxBridge) (size_mb timestamp : Z) (blob_path device : bytes)
    (slot : Z) : list command :=
  let volume := volume_id b timestamp in
  [alloc_command b size_mb timestamp; path_command volume; dd_command blob_path device;
   config_command b; plug_command b slot volume].

Lemma blob_metadata_ok blob_len w h n h' :
  blob_metadata blob_len w h = (Ok n, h') <-> blob_len h = Some n /\ h' = h.
Proof. unfold blob_metadata. destruct (blob_len h); naive_solver. Qed.

Lemma allocate_ok b size_mb timestamp w h volume h' : is_local_hypervisor b = true ->
  allocate_storage b size_mb timestamp w h = (Ok volume, h') ->
  succeeds w h (alloc_command b size_mb timestamp) = true /\
  volume = volume_id b timestamp /\ h' = h ++ [alloc_command b size_mb timestamp].
Proof.
  intros Hb. unfold allocate_storage. rewrite Hb, cmd_bind_ok. intros (u & h1 & Ha & [= <- <-]).
  by apply run_checked_ok in Ha as [Ha ->].
Qed.

Lemma device_path_ok volume w h device h' :
  get_volume_device_path volume w h = (Ok device, h') ->
  exists o, w h (path_command volume) = Some o /\ success o = true /\
    device = device_path o /\ device <> [] /\ h' = h ++ [path_command volume].
Proof.
  unfold get_volume_device_path. rewrite cmd_bind_ok. intros (o & h1 & Ho & E).
  apply run_command_ok in Ho as [Ho ->]. exists o. destruct (success o); [|done]. cbn [negb] in E.
  cbv zeta in E. case_bool_decide; [done|]. injection E as <- <-. by split_and!.
Qed.

Lemma write_blob_ok b blob_len blob_path volume w h u h' : is_local_hypervisor b = true ->
  write_blob_to_volume b blob_len blob_path volume w h = (Ok u, h') ->
  exists o, w h (path_command volume) = Some o /\ success o = true /\ device_path o <> [] /\
    succeeds w (h ++ [path_command volume]) (dd_command blob_path (device_path o)) = true /\
    h' = h ++ [path_command volume; dd_command blob_path (device_path o)].
Proof.
  intros Hb. unfold write_blob_to_volume. rewrite Hb, cmd_bind_ok. intros (n & h1 & Hn & E).
  apply blob_metadata_ok in Hn as [_ ->]. apply cmd_bind_ok in E as (device & h1 & Hd & E).
  apply device_path_ok in Hd as (o & Ho & Hs & -> & Hne & ->).
  apply run_checked_ok in E as [E ->]. exists o. rewrite <- app_assoc. by split_and!.
Qed.

Lemma hotplug_ok b volume w h slot h' : is_local_hypervisor b = true ->
  hotplug_to_vm b volume w h = (Ok slot, h') ->
  exists o, w h (config_command b) = Some o /\
    first_free (used_slots (from_utf8_lossy (stdout o))) = Some slot /\
    succeeds w (h ++ [config_command b]) (plug_command b slot volume) = true /\
    h' = h ++ [config_command b; plug_command b slot volume].
Proof.
  intros Hb. unfold hotplug_to_vm, find_available_scsi_slot. rewrite Hb. cbn [negb].
  intros (s & h1 & Hs & E)%cmd_bind_ok. apply cmd_bind_ok in Hs as (o & h2 & Ho & Hs).
  apply run_command_ok in Ho as [Ho ->]. apply cmd_bind_ok in E as (u & h3 & Hp & [= <- <-]).
  destruct (first_free (used_slots (from_utf8_lossy (stdout o)))) as [s'|] eqn:Ef; [|done].
  injection Hs as <- <-. apply run_checked_ok in Hp as [Hp ->].
  exists o. rewrite <- app_assoc. by split_and!.
Qed.

(** C30: when the bridge on the hypervisor reports a blob routed, it ran
    exactly five commands: it allocated a volume that is larger than the blob,
    wrote the blob to the device the hypervisor named for that very volume,
    and plugged the volume into a slot from 10 to 30, the lowest one that no
    disk of the VM's configuration is in; every step it depends on
    succeeded. *)
Theorem route_to_kp14_ok b blob_len timestamp blob_path w h volume slot h' n :
  is_local_hypervisor b = true -> blob_len h = Some n -> is_unsigned 64 n ->
  route_to_kp14 b blob_len timestamp blob_path w h = (Ok (volume, slot), h') ->
  exists size_mb o config,
    let alloc := alloc_command b size_mb timestamp in
    let path := path_command volume in
    let dd := dd_command blob_path (device_path o) in
    n < size_mb * 1048576 /\ volume = volume_id b timestamp /\
    h' = h ++ route_commands b size_mb timestamp blob_path (device_path o) slot /\
    succeeds w h alloc = true /\
    w (h ++ [alloc]) path = Some o /\ success o = true /\ device_path o <> [] /\
    succeeds w (h ++ [alloc; path]) dd = true /\
    w (h ++ [alloc; path; dd]) (config_command b) = Some config /\
    (10 <= slot <= 30 /\ (slot ∉ used_slots (from_utf8_lossy (stdout config))) /\
     forall s, 10 <= s < slot -> s ∈ used_slots (from_utf8_lossy (stdout config))) /\
    succeeds w (h ++ [alloc; path; dd; config_command b]) (plug_command b slot volume) = true.
Proof.
  intros Hb Hn Hr (n' & h1 & Hn' & E)%cmd_bind_ok. apply blob_metadata_ok in Hn' as [Hn' ->].
  replace n' with n in * by congruence.
  apply cmd_bind_ok in E as (v & h1 & Ha & E). apply allocate_ok in Ha as (Ha & -> & ->); [|done].
  apply cmd_bind_ok in E as (u & h1 & Hw & E).
  apply write_blob_ok in Hw as (o & Ho & Hs & Hne & Hdd & ->); [|done].
  apply cmd_bind_ok in E as (s & h1 & Hp & [= <- <- <-]).
  apply hotplug_ok in Hp as (config & Hc & Hf & Hp & ->); [|done].
  apply first_free_spec in Hf. rewrite <- !app_assoc in *. cbn [app] in *.
  exists (size_in_mb n), o, config. cbv zeta. split_and!; try done; try tauto.
  apply size_in_mb_spec, Hr.
Qed.

(** ** Which volumes are allocated

    The volumes a trace leaves allocated: a successful [pvesm alloc] adds one, a
    successful [pvesm free] removes it. *)

Definition live_step (ok : bool) (live : list bytes) (c : command) : list bytes :=
  if negb ok then live else
  match c with
  | [p; op; arg] => if bool_decide (p = bs "pvesm" /\ op = bs "free")
                    then List.filter (fun v => negb (bool_decide (v = arg))) live else live
  | [p; op; st; name; _] => if bool_decide (p = bs "pvesm" /\ op = bs "alloc")
                            then (st ++ bs ":" ++ name) :: live else live
  | _ => live
  end.
Fixpoint live_after (w : world) (past : list command) (live : list bytes) (todo : list command) :
    list bytes :=
  match todo with
  | [] => live
  | c :: todo => live_after w (past ++ [c]) (live_step (succeeds w past c) live c) todo
  end.

Lemma live_after_app w past live t1 t2 :
  live_after w past live (t1 ++ t2) =
    live_after w (past ++ t1) (live_after w past live t1) t2.
Proof.
  revert past live. induction t1 as [|c t1 IH]; intros past live; cbn [app live_after].
  - by rewrite app_nil_r.
  - by rewrite IH, <- app_assoc.
Qed.

(** The volume was plugged into the slot: the trace holds a [qm set] for them
    that succeeded. *)
Definition plugged (w : world) (h : list command) (b : ProxmoxBridge) (volume : bytes) (slot : Z) : Prop :=
  exists past rest, h = past ++ plug_command b slot volume :: rest /\
    succeeds w past (plug_command b slot volume) = true.

Lemma plugged_app w h t b volume slot : plugged w h b volume slot -> plugged w (h ++ t) b volume slot.
Proof. intros (past & rest & -> & Hp). exists past, (rest ++ t). by rewrite <- app_assoc. Qed.

(** Whether a command is [pvesm free]. *)
Definition frees (c : command) : Prop := take 2 c = [bs "pvesm"; bs "free"].

Lemma live_step_keeps ok live c v : ~ frees c -> v ∈ live -> v ∈ live_step ok live c.
Proof.
  intros Hc Hv. unfold live_step. destruct ok; [|done]. cbn [negb].
  destruct c as [|p [|op [|a [|n [|x [|]]]]]]; try done.
  - case_bool_decide as E; [|done]. destruct E as [-> ->]. by destruct Hc.
  - case_bool_decide; [by right|done].
Qed.

Lemma live_after_keeps w past live t v :
  Forall (fun c => ~ frees c) t -> v ∈ live -> v ∈ live_after w past live t.
Proof.
  intros Ht. revert past live. induction Ht as [|c t Hc Ht IH]; intros past live Hv; cbn [live_after]; [done|].
  by apply IH, live_step_keeps.
Qed.

Lemma write_frees_nothing b blob_len blob_path volume :
  runs_only (fun c => ~ frees c) (write_blob_to_volume b blob_len blob_path volume).
Proof.
  apply runs_bind; [intros w h; exists []; by rewrite app_nil_r|]. intros _.
  destruct (is_local_hypervisor b); [|by apply runs_checked].
  apply runs_bind; [|intros; by apply runs_checked].
  apply runs_bind; [by apply runs_command|]. intros o. cbv zeta.
  destruct (negb (success o)); [apply runs_fail|]. case_bool_decide; [apply runs_fail|apply runs_ret].
Qed.

Lemma hotplug_frees_nothing b volume : runs_only (fun c => ~ frees c) (hotplug_to_vm b volume).
Proof.
  apply runs_bind.
  - unfold find_available_scsi_slot. destruct (negb _); [apply runs_ret|].
    apply runs_bind; [by apply runs_command|]. intros o.
    destruct (first_free _); [apply runs_ret|apply runs_fail].
  - intros s. apply runs_bind; [|intros; apply runs_ret].
    destruct (is_local_hypervisor b); [by apply runs_checked|apply runs_ret].
Qed.

Lemma live_after_alloc w h live b size_mb timestamp :
  succeeds w h (alloc_command b size_mb timestamp) = true ->
  live_after w h live [alloc_command b size_mb timestamp] = volume_id b timestamp :: live.
Proof. intros Ha. cbn [live_after]. rewrite Ha. done. Qed.

Lemma place_frees_nothing b blob_len blob_path volume :
  runs_only (fun c => ~ frees c)
    (write_blob_to_volume b blob_len blob_path volume ;;
     scsi_slot ← hotplug_to_vm b volume; mret (volume, scsi_slot)).
Proof.
  apply runs_bind; [apply write_frees_nothing|]. intros _.
  apply runs_bind; [apply hotplug_frees_nothing|]. intros s. apply runs_ret.
Qed.

Lemma route_frees_nothing b blob_len timestamp blob_path :
  runs_only (fun c => ~ frees c) (route_to_kp14 b blob_len timestamp blob_path).
Proof.
  apply runs_bind; [intros w h; exists []; by rewrite app_nil_r|]. intros n.
  apply runs_bind; [|intros volume; apply place_frees_nothing].
  apply runs_bind; [|intros; apply runs_ret].
  destruct (is_local_hypervisor b); [by apply runs_checked|apply runs_ret].
Qed.

Lemma route_no_panic b blob_len timestamp blob_path :
  no_panic (route_to_kp14 b blob_len timestamp blob_path).
Proof.
  assert (Hm : no_panic (blob_metadata blob_len)).
  { intros w h. unfold blob_metadata. by destruct (blob_len h). }
  apply no_panic_bind; [done|]. intros n. apply no_panic_bind.
  { apply no_panic_bind; [destruct (is_local_hypervisor b)|]; auto with alphvdr. }
  intros volume. apply no_panic_bind.
  { apply no_panic_bind; [done|]. intros _. destruct (is_local_hypervisor b); [|auto with alphvdr].
    apply no_panic_bind; [|auto with alphvdr]. apply no_panic_bind; [auto with alphvdr|]. intros o. cbv zeta.
    destruct (negb (success o)); [done|]. by case_bool_decide. }
  intros u. apply no_panic_bind; [|done].
  apply no_panic_bind.
  { unfold find_available_scsi_slot. destruct (negb _); [done|].
    apply no_panic_bind; [auto with alphvdr|]. intros o. by destruct (first_free _). }
  intros s. apply no_panic_bind; [destruct (is_local_hypervisor b); auto with alphvdr|done].
Qed.

(** After a successful allocation the volume is there when the routing ends. *)
Lemma route_leaves_volume b blob_len timestamp blob_path w h n live :
  is_local_hypervisor b = true -> blob_len h = Some n ->
  succeeds w h (alloc_command b (size_in_mb n) timestamp) = true ->
  exists t, (route_to_kp14 b blob_len timestamp blob_path w h).2 = h ++ t /\
    Forall (fun c => ~ frees c) t /\ volume_id b timestamp ∈ live_after w h live t.
Proof.
  intros Hb Hn Ha.
  destruct (route_frees_nothing b blob_len timestamp blob_path w h) as (t & Et & Hf).
  exists t. split_and!; [done|done|]. revert Et. unfold route_to_kp14.
  rewrite cmd_bind_run. unfold blob_metadata at 1. rewrite Hn.
  rewrite cmd_bind_run. unfold allocate_storage. rewrite Hb, cmd_bind_run.
  rewrite (proj2 (run_checked_ok _ _ _ w h tt _) (conj Ha eq_refl)). cbn [mret cmd_ret]. intros Et.
  destruct (place_frees_nothing b blob_len blob_path (volume_id b timestamp) w
    (h ++ [alloc_command b (size_in_mb n) timestamp])) as (t' & Et' & Hf').
  pose proof (eq_trans (eq_sym Et) Et') as E. rewrite <- app_assoc in E. apply app_inv_head in E as ->.
  rewrite live_after_app, live_after_alloc by done. apply live_after_keeps; [done|]. left.
Qed.

(** A routing never frees the volume it allocates, even when it fails
    afterwards: whenever the allocation succeeded, the commands of the routing
    leave the volume allocated, whatever the other commands did and whether
    or not the caller gets the volume's name. *)
Theorem route_keeps_volume b blob_len timestamp blob_path w h n live :
  is_local_hypervisor b = true -> blob_len h = Some n ->
  succeeds w h (alloc_command b (size_in_mb n) timestamp) = true ->
  exists t, (route_to_kp14 b blob_len timestamp blob_path w h).2 = h ++ t /\
    volume_id b timestamp ∈ live_after w h live t.
Proof.
  intros Hb Hn Ha.
  destruct (route_leaves_volume b blob_len timestamp blob_path w h n live Hb Hn Ha) as (t & E & _ & Hv).
  by exists t.
Qed.

(** The clean-up deletes the slot from the VM and, when [pvesm free]
    succeeds, leaves the volume free. *)
Lemma cleanup_volume_ok b volume slot w h :
  is_local_hypervisor b = true ->
  succeeds w (h ++ [unplug_command b slot]) (free_command volume) = true ->
  cleanup_volume b volume slot w h = (Ok tt, h ++ [unplug_command b slot; free_command volume]) /\
  forall live, volume ∉ live_after w h live [unplug_command b slot; free_command volume].
Proof.
  intros Hb Hfree. split.
  - unfold cleanup_volume. rewrite Hb, cmd_bind_run. unfold run_ignored. f_equal. by rewrite <- app_assoc.
  - intros live. cbn [live_after]. rewrite Hfree. cbn [negb live_step unplug_command free_command].
    rewrite bool_decide_eq_true_2 by done.
    rewrite list_elem_of_In, filter_In. intros [_ Hn]. by rewrite bool_decide_eq_true_2 in Hn.
Qed.

(** ** A concrete routing *)

Module Demo.
Definition blob : bytes := bs "/tmp/alphvdr/carved/core_dump_42_1.bin".
Definition config_text : bytes :=
  concat (map (fun l => bs l ++ [newline])
    ["scsi0: local-lvm:vm-9211-disk-0"; "scsihw: virtio-scsi-pci"; "scsi10: local-lvm:alphvdr-coredump-1"]).
(** A hypervisor on which everything works. *)
Definition hypervisor : world := fun _ c =>
  Some (Output true
    (if bool_decide (take 2 c = [bs "pvesm"; bs "path"]) then bs "/dev/pve/vol" ++ [newline]
     else if bool_decide (take 2 c = [bs "qm"; bs "config"]) then config_text else [])).
(** One on which [dd] fails. *)
Definition full_disk : world := fun h c =>
  if bool_decide (take 1 c = [bs "dd"]) then Some (Output false []) else hypervisor h c.
Definition len : list command -> option Z := fun _ => Some 5242880.
End Demo.

Section witnesses.
Import Demo.

Lemma route_to_kp14_ok_witness :
  exists size_mb o config, 5242880 < size_mb * 1048576 /\ device_path o <> [] /\
    (route_to_kp14 default_kp14 len 2 blob hypervisor []).2 =
      route_commands default_kp14 size_mb 2 blob (device_path o) 11 /\
    11 ∉ used_slots (from_utf8_lossy (stdout config)).
Proof.
  assert (E : route_to_kp14 default_kp14 len 2 blob hypervisor [] =
    (Ok (volume_id default_kp14 2, 11), route_commands default_kp14 6 2 blob (bs "/dev/pve/vol") 11))
    by (vm_compute; reflexivity).
  destruct (route_to_kp14_ok default_kp14 len 2 blob hypervisor [] _ 11 _ 5242880 eq_refl eq_refl
    ltac:(split; [discriminate|reflexivity]) E)
    as (size_mb & o & config & Hn & _ & Hh & _ & _ & _ & Hd & _ & _ & (_ & Hs & _) & _).
  exists size_mb, o, config. split; [exact Hn|]. split; [exact Hd|]. split; [|exact Hs].
  rewrite E. exact Hh.
Defined.

Lemma route_keeps_volume_witness :
  is_ok (route_to_kp14 default_kp14 len 2 blob full_disk []).1 = false /\
  exists t, (route_to_kp14 default_kp14 len 2 blob full_disk []).2 = [] ++ t /\
    volume_id default_kp14 2 ∈ live_after full_disk [] [] t.
Proof.
  split; [vm_compute; reflexivity|].
  apply (route_keeps_volume default_kp14 len 2 blob full_disk [] 5242880 [] eq_refl eq_refl).
  vm_compute; reflexivity.
Defined.
End witnesses.
