(* ===== verification/Ioc.v ===== *)
(** * Indicators of compromise: [src/kp14_suite.rs]

    What the analysis side extracts from the text that disassemblers and the
    string extraction produce: addresses, URLs, paths, domains and MITRE
    technique numbers, found by a matcher that looks at one word at a time;
    their deduplication; and the JSON file they are written to. *)

From S2P Require Import Prelude Text.

(** ** Characters

    [char::is_alphabetic], [char::is_numeric] and [str::to_lowercase] are
    exact on ASCII; on the rest of Unicode they are the tables of the Rust
    release. *)

Class Unicode := {
  unicode_alphabetic : bytes -> bool;
  unicode_numeric : bytes -> bool;
  unicode_lowercase : bytes -> bytes
}.

Section ioc.
Context `{Unicode}.

Definition ascii_letter (b : byte) : bool := between 65 90 b || between 97 122 b.
Definition is_alphabetic (c : bytes) : bool :=
  match c with [b] => ascii_letter b | _ => unicode_alphabetic c end.
Definition is_numeric (c : bytes) : bool :=
  match c with [b] => between 48 57 b | _ => unicode_numeric c end.
Definition is_alphanumeric (c : bytes) : bool := is_alphabetic c || is_numeric c.
Definition is_whitespace (c : bytes) : bool := bool_decide (c ∈ white_space).

(** [str::split_whitespace] *)
Fixpoint words (current : bytes) (cs : list bytes) : list bytes :=
  match cs with
  | [] => if bool_decide (current = []) then [] else [current]
  | c :: cs =>
      if is_whitespace c
      then (if bool_decide (current = []) then [] else [current]) ++ words [] cs
      else words (current ++ c) cs
  end.
Definition split_whitespace (text : bytes) : list bytes := words [] (chars text).

(** [str::trim_matches(p)] *)
Definition trim_matches (p : bytes -> bool) (l : bytes) : bytes :=
  concat (reverse (drop_while p (reverse (drop_while p (chars l))))).

(** ** The word matcher *)

Definition is_valid_ipv4 (s : bytes) : bool :=
  let parts := split 46 s in
  (length parts =? 4)%nat && forallb (fun part => bool_decide (is_Some (parse_uint 8 part))) parts.

(** What [trim_matches] removes around a word. *)
Definition junk (c : bytes) : bool :=
  negb (is_alphanumeric c) && negb (bool_decide (c ∈ [bs "."; bs "/"; bs ":"; bs "-"])).
Definition clean (word : bytes) : bytes := trim_matches junk word.

(** [str::replace(p, "")] for a non-empty [p]. *)
Fixpoint remove_all (fuel : nat) (p l : bytes) : bytes :=
  match fuel with
  | O => l
  | S fuel =>
      match l with
      | [] => []
      | b :: r => if bool_decide (starts_with p l) then remove_all fuel p (drop (length p) l)
                  else b :: remove_all fuel p r
      end
  end.
Definition replace_with_nothing (p l : bytes) : bytes := remove_all (length l) p l.

Definition rfind_byte (c : byte) (l : bytes) : option nat :=
  i ← find_byte c (reverse l); mret (length l - 1 - i)%nat.

(** The text between the first ["("] and the last [")"] of a pattern; the
    slice panics when they are the other way round. *)
Definition pattern_core (pattern : bytes) : outcome (option bytes) :=
  let cleaned := replace_with_nothing (bs "(?:\.\d{2,})?") (replace_with_nothing (bs "\b") pattern) in
  match find_byte 40 cleaned, rfind_byte 41 cleaned with
  | Some start, Some end_ =>
      if (start + 1 <=? end_)%nat then Ok (Some (take (end_ - (start + 1)) (drop (start + 1) cleaned)))
      else Panic
  | _, _ => Ok None
  end.

Definition path_roots : list string :=
  ["/usr/"; "/tmp/"; "/var/"; "/etc/"; "/home/"; "/opt/"; "/dev/"; "/proc/"; "/sys/"].

Definition url_like (w : bytes) : bool :=
  bool_decide (starts_with (bs "http://") w) || bool_decide (starts_with (bs "https://") w).
Definition path_like (w : bytes) : bool :=
  existsb (fun root => bool_decide (starts_with (bs root) w)) path_roots.
Definition domain_like (w : bytes) : bool :=
  let parts := split 46 w in
  (2 <=? length parts)%nat &&
  match last parts with
  | Some t => (2 <=? length t)%nat && forallb is_alphabetic (chars t)
  | None => false
  end.
Definition technique_like (w : bytes) : bool :=
  bool_decide (starts_with (bs "T") w) && (5 <=? length w)%nat &&
  forallb (fun c => is_numeric c || bool_decide (c = bs ".")) (chars (drop 1 w)).

Definition matches_core (core clean_word : bytes) : bool :=
  if contains (bs "\d{1,3}") core && is_valid_ipv4 clean_word then true
  else if bool_decide (starts_with (bs "https?://") core) then url_like clean_word
  else if bool_decide (starts_with (bs "/") core) then path_like clean_word
  else if contains (bs "\.") core && contains (bs "[a-zA-Z]{2,}") core then
    domain_like clean_word && negb (contains (bs "localhost") clean_word)
  else if bool_decide (starts_with (bs "T") core) && contains (bs "\d{4}") core then
    technique_like clean_word
  else false.

Definition regex_simple (pattern text : bytes) : outcome (list bytes) :=
  core ← pattern_core pattern;
  match core with
  | Some core => Ok (List.filter (matches_core core) (map clean (split_whitespace text)))
  | None => Ok []
  end.

(** ** Indicators *)

Inductive IocType :=
  | IpAddress | Domain | Url | FileHash | FilePath | RegistryKey | Mutex | YaraRule | MitreTechnique.

(** The confidence is one of the literals of the code, in hundredths. *)
Record Ioc := MkIoc { ioc_type : IocType; value : bytes; confidence : Z; source : bytes }.

Definition ip_pattern : bytes := bs "\b(\d{1,3}\.\d{1,3}\.\d{1,3}\.\d{1,3})\b".
Definition url_pattern : bytes := bs "\b(https?://[^\s<>" ++ [34] ++ bs "']+)\b".
Definition path_pattern : bytes :=
  bs "\b(/(?:usr|tmp|var|etc|home|opt|dev|proc|sys)[^\s<>'" ++ [34] ++ bs "]*)\b".
Definition domain_pattern : bytes :=
  bs "\b([a-zA-Z0-9][-a-zA-Z0-9]*\.[a-zA-Z]{2,}(?:\.[a-zA-Z]{2,})?)\b".
Definition tech_pattern : bytes := bs "\b(T\d{4}(?:\.\d{3})?)\b".

Definition hunt_iocs_in_text (text : bytes) : outcome (list Ioc) :=
  let ioc t c v := MkIoc t v c (bs "string_extraction") in
  ips ← regex_simple ip_pattern text;
  urls ← regex_simple url_pattern text;
  paths ← regex_simple path_pattern text;
  domains ← regex_simple domain_pattern text;
  Ok (map (ioc IpAddress 80) (List.filter is_valid_ipv4 ips) ++
      map (ioc Url 90) urls ++
      map (ioc FilePath 60) paths ++
      map (ioc Domain 50) (List.filter (fun d => negb (contains (bs "localhost") d)
                                          && negb (bool_decide (starts_with (bs "127.") d))) domains)).

Definition capa_line (line : bytes) : outcome (list Ioc) :=
  if contains (bs "ATT&CK") line || contains (bs "attack") line then
    techs ← regex_simple tech_pattern line;
    Ok (map (fun v => MkIoc MitreTechnique v 85 (bs "capa_analysis")) techs)
  else Ok [].
Definition parse_capa_mitre (capa_output : bytes) : outcome (list Ioc) :=
  iocs ← outcome_map capa_line (lines capa_output);
  Ok (concat iocs).

(** ** Deduplication *)

(** [format!("{:?}")] of a type. *)
Definition type_name (t : IocType) : bytes :=
  match t with
  | IpAddress => bs "IpAddress" | Domain => bs "Domain" | Url => bs "Url"
  | FileHash => bs "FileHash" | FilePath => bs "FilePath" | RegistryKey => bs "RegistryKey"
  | Mutex => bs "Mutex" | YaraRule => bs "YaraRule" | MitreTechnique => bs "MitreTechnique"
  end.
Definition ioc_key (i : Ioc) : bytes := type_name (ioc_type i) ++ bs ":" ++ value i.

(** [str::to_lowercase] *)
Definition ascii_lower (b : byte) : byte := if between 65 90 b then b + 32 else b.
Definition to_lowercase (s : bytes) : bytes :=
  if forallb (between 0 127) s then map ascii_lower s else unicode_lowercase s.

(** [IocType::from_str] *)
Definition from_str (s : bytes) : option IocType :=
  let l := to_lowercase s in
  if bool_decide (l ∈ [bs "ip"; bs "ip-dst"; bs "ip-src"]) then Some IpAddress
  else if bool_decide (l ∈ [bs "domain"; bs "hostname"]) then Some Domain
  else if bool_decide (l ∈ [bs "url"; bs "uri"]) then Some Url
  else if bool_decide (l ∈ [bs "md5"; bs "sha1"; bs "sha256"; bs "hash"]) then Some FileHash
  else if bool_decide (l ∈ [bs "filename"; bs "filepath"]) then Some FilePath
  else if bool_decide (l = bs "mutex") then Some Mutex
  else if bool_decide (l = bs "yara") then Some YaraRule
  else if bool_decide (l ∈ [bs "mitre"; bs "attack"; bs "technique"]) then Some MitreTechnique
  else None.

(** [iocs.retain(..)] with the set of the keys seen. *)
Fixpoint retain_new (seen : list bytes) (l : list Ioc) : list Ioc :=
  match l with
  | [] => []
  | i :: l => if bool_decide (ioc_key i ∈ seen) then retain_new seen l
              else i :: retain_new (ioc_key i :: seen) l
  end.
Definition deduplicate (iocs : list Ioc) : list Ioc := retain_new [] iocs.

(** ** The JSON file *)

(** [{}] of the [f32] literals that occur, from hundredths. *)
Definition show_confidence (c : Z) : bytes :=
  if c mod 100 =? 0 then show (c / 100)
  else if c mod 10 =? 0 then show (c / 100) ++ bs "." ++ show (c / 10 mod 10)
  else show (c / 100) ++ bs "." ++ show (c / 10 mod 10) ++ show (c mod 10).

Definition QUOTE : bytes := [34].
Definition ioc_json (i : Ioc) : bytes :=
  bs "{" ++ QUOTE ++ bs "type" ++ QUOTE ++ bs ":" ++ QUOTE ++ type_name (ioc_type i) ++ QUOTE ++ bs "," ++
  QUOTE ++ bs "value" ++ QUOTE ++ bs ":" ++ QUOTE ++ value i ++ QUOTE ++ bs "," ++
  QUOTE ++ bs "confidence" ++ QUOTE ++ bs ":" ++ show_confidence (confidence i) ++ bs "," ++
  QUOTE ++ bs "source" ++ QUOTE ++ bs ":" ++ QUOTE ++ source i ++ QUOTE ++ bs "}".

Fixpoint json_items (l : list Ioc) : bytes :=
  match l with
  | [] => []
  | [i] => ioc_json i
  | i :: l => ioc_json i ++ bs "," ++ json_items l
  end.
(** What [push_iocs_to_misp] writes; [None] when there is nothing to write. *)
Definition iocs_json (iocs : list Ioc) : option bytes :=
  match iocs with [] => None | _ => Some (bs "[" ++ json_items iocs ++ bs "]") end.

(** ** What the word matcher amounts to *)

Definition clean_words (text : bytes) : list bytes := map clean (split_whitespace text).

(** Evaluate the tests of [matches_core] on a pattern. *)
Ltac eval_core :=
  unfold matches_core;
  repeat match goal with
  | |- context [contains ?p ?c] =>
      let v := eval vm_compute in (contains p c) in
      match v with true => idtac | false => idtac end; change (contains p c) with v
  | |- context [bool_decide (starts_with ?p ?c)] =>
      let v := eval vm_compute in (bool_decide (starts_with p c)) in
      match v with true => idtac | false => idtac end;
      change (bool_decide (starts_with p c)) with v
  end.

Lemma regex_simple_as pattern core (p : bytes -> bool) text :
  pattern_core pattern = Ok (Some core) -> (forall w, matches_core core w = p w) ->
  regex_simple pattern text = Ok (List.filter p (clean_words text)).
Proof. intros E Hp. unfold regex_simple. rewrite E. cbn. f_equal. by apply List.filter_ext. Qed.

Lemma regex_ip text : regex_simple ip_pattern text = Ok (List.filter is_valid_ipv4 (clean_words text)).
Proof.
  eapply regex_simple_as; [vm_compute; reflexivity|]. intros w. eval_core. by destruct (is_valid_ipv4 w).
Qed.
Lemma regex_url text : regex_simple url_pattern text = Ok (List.filter url_like (clean_words text)).
Proof. eapply regex_simple_as; [vm_compute; reflexivity|]. intros w. by eval_core. Qed.
Lemma regex_path text : regex_simple path_pattern text = Ok (List.filter path_like (clean_words text)).
Proof. eapply regex_simple_as; [vm_compute; reflexivity|]. intros w. by eval_core. Qed.
Lemma regex_domain text : regex_simple domain_pattern text =
  Ok (List.filter (fun w => domain_like w && negb (contains (bs "localhost") w)) (clean_words text)).
Proof. eapply regex_simple_as; [vm_compute; reflexivity|]. intros w. by eval_core. Qed.
Lemma regex_tech text : regex_simple tech_pattern text = Ok (List.filter technique_like (clean_words text)).
Proof. eapply regex_simple_as; [vm_compute; reflexivity|]. intros w. by eval_core. Qed.

(** What a cleaned word has to look like for an indicator of a type, and the
    confidence it gets. *)
Definition word_indicates (w : bytes) (t : IocType) (c : Z) : Prop :=
  match t with
  | IpAddress => is_valid_ipv4 w = true /\ c = 80
  | Url => url_like w = true /\ c = 90
  | FilePath => path_like w = true /\ c = 60
  | Domain => domain_like w = true /\ contains (bs "localhost") w = false /\
              ~ starts_with (bs "127.") w /\ c = 50
  | _ => False
  end.

Lemma elem_filter (p : bytes -> bool) w l : w ∈ List.filter p l <-> w ∈ l /\ p w = true.
Proof. rewrite !list_elem_of_In. apply filter_In. Qed.

(** C31: hunting never panics, and the indicators it returns are exactly the
    words of the text that, stripped of the punctuation around them, look
    like an address, a URL, a path below one of the nine roots or a domain
    name other than a loopback one. *)
Theorem hunt_iocs_spec text : exists l, hunt_iocs_in_text text = Ok l /\
  forall i, i ∈ l <->
    value i ∈ clean_words text /\ word_indicates (value i) (ioc_type i) (confidence i) /\
    source i = bs "string_extraction".
Proof.
  unfold hunt_iocs_in_text. rewrite regex_ip, regex_url, regex_path, regex_domain.
  eexists. split; [reflexivity|]. intros [t v c src].
  rewrite !elem_of_app. setoid_rewrite list_elem_of_In at 1 2 3 4. rewrite !in_map_iff.
  setoid_rewrite <- list_elem_of_In. repeat setoid_rewrite elem_filter.
  cbn [ioc_type value confidence source]. split.
  - intros [(w & [= <- <- <- <-] & H1 & H2)|[(w & [= <- <- <- <-] & H1)|[(w & [= <- <- <- <-] & H1)
      |(w & [= <- <- <- <-] & H1 & H2)]]]; cbn [word_indicates]; try (by destruct H1).
    destruct H1 as [H1 H3]. bool_prop. by split_and!.
  - intros (Hw & Ht & ->). destruct t; cbn [word_indicates] in Ht; try done.
    + destruct Ht as [Hv ->]. left. by exists v.
    + destruct Ht as (Hd & Hl & Hs & ->). do 3 right. exists v. rewrite Hd, Hl.
      by rewrite (bool_decide_eq_false_2 _ Hs).
    + destruct Ht as [Hv ->]. right. left. by exists v.
    + destruct Ht as [Hv ->]. do 2 right. left. by exists v.
Qed.

(** ** An address in a text is found *)

Lemma words_app cur cs1 c cs2 :
  is_whitespace c = true -> words cur (cs1 ++ c :: cs2) = words cur cs1 ++ words [] cs2.
Proof.
  intros Hc. revert cur. induction cs1 as [|d cs1 IH]; intros cur; cbn [app words].
  - by rewrite Hc.
  - destruct (is_whitespace d); [|apply IH]. by rewrite IH, app_assoc.
Qed.

Lemma words_one cur cs :
  Forall (fun c => is_whitespace c = false) cs -> cur ++ concat cs <> [] ->
  words cur cs = [cur ++ concat cs].
Proof.
  intros Hcs. revert cur. induction Hcs as [|c cs Hc Hcs IH]; intros cur Hne; cbn [words concat] in *.
  - rewrite app_nil_r in *. by rewrite bool_decide_eq_false_2.
  - rewrite Hc, app_assoc. apply IH. by rewrite <- app_assoc.
Qed.

Lemma split_whitespace_mid pre w post :
  valid_utf8 pre = true -> valid_utf8 w = true -> w <> [] ->
  Forall (fun c => is_whitespace c = false) (chars w) ->
  w ∈ split_whitespace (pre ++ 32 :: w ++ 32 :: post).
Proof.
  intros Hp Hw Hne Hns. unfold split_whitespace. rewrite chars_app by done.
  change (32 :: w ++ 32 :: post) with ([32] ++ w ++ [32] ++ post).
  rewrite !chars_app by done. change (chars [32]) with [[32]]. cbn [app].
  rewrite words_app, words_app by done. rewrite (words_one [] (chars w)); cbn [app]; rewrite ?concat_chars; try done.
  apply elem_of_app. right. left.
Qed.

Lemma concat_singletons (l : bytes) : concat (map (fun b => [b]) l) = l.
Proof. induction l as [|b l IH]; [done|]. cbn [map concat app]. by rewrite IH. Qed.

Lemma trim_matches_ascii p x w y :
  Forall ascii x -> Forall ascii w -> Forall ascii y ->
  Forall (fun b => p [b] = true) x -> Forall (fun b => p [b] = true) y ->
  (if head w is Some b then p [b] = false else False) ->
  (if last w is Some b then p [b] = false else False) ->
  trim_matches p (x ++ w ++ y) = w.
Proof.
  intros Hx Hw Hy Px Py Hh Hl. unfold trim_matches.
  rewrite chars_ascii by (by rewrite !Forall_app). rewrite !map_app.
  destruct w as [|b w]; [done|]. cbn [head] in Hh.
  rewrite drop_while_app; [|by apply Forall_map|done].
  rewrite reverse_app. rewrite drop_while_app.
  - by rewrite reverse_involutive, concat_singletons.
  - apply Forall_reverse. by apply Forall_map.
  - destruct (exists_last (l := b :: w)) as (w' & c & E); [done|]. rewrite E in *.
    rewrite last_snoc in Hl. rewrite map_app, reverse_app. cbn. exact Hl.
Qed.

(** Punctuation: ASCII, not white space, and not a part of an indicator. *)
Definition punctuation (b : byte) : Prop :=
  ascii b /\ is_whitespace [b] = false /\ junk [b] = true.

Lemma dotted_chars a b c d :
  is_bytes [a; b; c; d] -> Forall (fun x => x = 46 \/ between 48 57 x = true) (dotted a b c d).
Proof.
  intros [Ha [Hb [Hc [Hd _]%Forall_cons]%Forall_cons]%Forall_cons]%Forall_cons.
  assert (Hs : forall n, is_byte n -> Forall (fun x => x = 46 \/ between 48 57 x = true) (show n)).
  { intros n Hn. unfold is_byte in Hn. eapply Forall_impl; [apply show_digits; lia|]. cbn. tauto. }
  unfold dotted. repeat (apply Forall_app; split; [by apply Hs|]; constructor; [by left|]). by apply Hs.
Qed.

Lemma dotted_valid a b c d : is_bytes [a; b; c; d] -> is_valid_ipv4 (dotted a b c d) = true.
Proof.
  intros [Ha [Hb [Hc [Hd _]%Forall_cons]%Forall_cons]%Forall_cons]%Forall_cons. unfold is_byte in *.
  unfold is_valid_ipv4. rewrite split_dotted by lia. cbn [length Nat.eqb forallb].
  by rewrite !parse_uint_show by (unfold is_unsigned; lia).
Qed.

Lemma digit_plain x : x = 46 \/ between 48 57 x = true ->
  ascii x /\ is_whitespace [x] = false /\ junk [x] = false.
Proof.
  intros Hx. assert (H46 : 46 <= x <= 57 /\ x <> 47 \/ x = 46).
  { destruct Hx as [->|Hx]; [by right|]. unfold between in Hx. bool_prop. lia. }
  assert (x = 46 \/ x = 48 \/ x = 49 \/ x = 50 \/ x = 51 \/ x = 52 \/ x = 53 \/ x = 54 \/ x = 55
    \/ x = 56 \/ x = 57) as E by lia.
  destruct_or! E; subst x; done.
Qed.

Lemma show_not_nil n : 0 <= n -> show n <> [].
Proof.
  intros Hn. unfold show. rewrite (proj2 (Z.ltb_ge n 0)) by lia. unfold show_radix. apply digits_nonempty.
Qed.

Lemma clean_word_mid pre post x w y :
  valid_utf8 pre = true -> Forall punctuation x -> Forall punctuation y -> w <> [] ->
  Forall (fun b => ascii b /\ is_whitespace [b] = false /\ junk [b] = false) w ->
  w ∈ clean_words (pre ++ 32 :: (x ++ w ++ y) ++ 32 :: post).
Proof.
  intros Hpre Hx Hy Hne Hw. unfold punctuation in *. rewrite !Forall_and in *.
  destruct Hx as (Ax & Wx & Jx), Hy as (Ay & Wy & Jy), Hw as (Aw & Ww & Jw).
  assert (Aall : Forall ascii (x ++ w ++ y)) by (by rewrite !Forall_app).
  unfold clean_words. apply list_elem_of_In, in_map_iff. exists (x ++ w ++ y). split.
  - apply trim_matches_ascii; try done.
    + destruct w as [|b w]; [done|]. by apply Forall_cons in Jw as [Jw _].
    + destruct (exists_last Hne) as (w' & c & ->). rewrite last_snoc.
      apply Forall_app in Jw as [_ Jw]. by apply Forall_cons in Jw as [Jw _].
  - apply list_elem_of_In, split_whitespace_mid; [done|by apply valid_utf8_ascii| |].
    + destruct x; [by destruct w|done].
    + rewrite chars_ascii by done. apply Forall_map. by rewrite !Forall_app.
Qed.

(** No address in a text escapes: an IPv4 address in dotted decimal that
    stands between two spaces anywhere in a text, possibly with punctuation
    on either side, is among the indicators hunted from the text. *)
Theorem hunt_finds_address pre post x y a b c d :
  valid_utf8 pre = true -> Forall punctuation x -> Forall punctuation y -> is_bytes [a; b; c; d] ->
  exists l, hunt_iocs_in_text (pre ++ 32 :: (x ++ dotted a b c d ++ y) ++ 32 :: post) = Ok l /\
    MkIoc IpAddress (dotted a b c d) 80 (bs "string_extraction") ∈ l.
Proof.
  intros Hpre Hx Hy Hb.
  assert (Hin : dotted a b c d ∈ clean_words (pre ++ 32 :: (x ++ dotted a b c d ++ y) ++ 32 :: post)).
  { apply clean_word_mid; try done.
    - unfold dotted. by intros [_ E]%app_eq_nil.
    - eapply Forall_impl; [by apply dotted_chars|]. apply digit_plain. }
  pose proof (dotted_valid a b c d Hb) as Hv.
  unfold hunt_iocs_in_text. rewrite regex_ip, regex_url, regex_path, regex_domain.
  eexists. split; [reflexivity|]. apply elem_of_app. left.
  apply list_elem_of_In, in_map_iff. eexists. split; [reflexivity|].
  apply list_elem_of_In. by rewrite !elem_filter.
Qed.
End ioc.

(** ** Deduplication keeps the first of each indicator *)

Lemma type_name_no_colon t : 58 ∉ type_name t.
Proof. apply (bool_decide_eq_false_1 (58 ∈ type_name t)). by destruct t. Qed.

Lemma type_name_inj t1 t2 : type_name t1 = type_name t2 -> t1 = t2.
Proof. destruct t1, t2; done. Qed.

(** The key of the set names the type and the value. *)
Lemma ioc_key_inj i j : ioc_key i = ioc_key j <-> ioc_type i = ioc_type j /\ value i = value j.
Proof.
  split; [|by unfold ioc_key; intros [-> ->]]. intros E.
  assert (El : forall k, find_byte 58 (ioc_key k) = Some (length (type_name (ioc_type k)))).
  { intros k. apply (find_byte_app 58), type_name_no_colon. }
  assert (length (type_name (ioc_type i)) = length (type_name (ioc_type j))) as Hl.
  { pose proof (El i) as Hi. rewrite E, El in Hi. congruence. }
  unfold ioc_key in E. apply app_inj_1 in E as [Et Ev]; [|done]. split; [by apply type_name_inj|by apply app_inv_head in Ev].
Qed.

Definition same_ioc (i j : Ioc) : Prop := ioc_type i = ioc_type j /\ value i = value j.

Lemma retain_new_spec seen l :
  retain_new seen l `sublist_of` l /\
  NoDup (map ioc_key (retain_new seen l)) /\
  (forall i, i ∈ retain_new seen l -> ioc_key i ∉ seen) /\
  (forall i, i ∈ l -> ioc_key i ∉ seen -> exists l1 j l2, l = l1 ++ j :: l2 /\
     j ∈ retain_new seen l /\ ioc_key j = ioc_key i /\ Forall (fun k => ioc_key k <> ioc_key i) l1).
Proof.
  revert seen. induction l as [|x l IH]; intros seen; cbn [retain_new].
  { split_and!; [done|constructor|by intros ? ?%elem_of_nil..]. }
  case_bool_decide as Hx.
  - destruct (IH seen) as (I1 & I2 & I3 & I4). split_and!; [by constructor|done|done|].
    intros i Hi Hn. apply elem_of_cons in Hi as [->|Hi]; [done|].
    destruct (I4 i Hi Hn) as (l1 & j & l2 & -> & Hj & Ek & Hl1). exists (x :: l1), j, l2.
    split_and!; [done|done|done|]. constructor; [|done]. intros E. by rewrite E in Hx.
  - destruct (IH (ioc_key x :: seen)) as (I1 & I2 & I3 & I4). split_and!.
    + by constructor.
    + cbn [map]. constructor; [|done]. rewrite list_elem_of_In, in_map_iff. intros (i & Ei & Hi%list_elem_of_In).
      apply I3 in Hi. rewrite Ei in Hi. apply Hi. left.
    + intros i [->|Hi]%elem_of_cons; [done|]. apply I3 in Hi. intros Hin. apply Hi. by right.
    + intros i Hi Hn. destruct (decide (ioc_key x = ioc_key i)) as [E|E].
      { exists [], x, l. split_and!; [done|left|done|constructor]. }
      apply elem_of_cons in Hi as [->|Hi]; [done|].
      destruct (I4 i Hi) as (l1 & j & l2 & -> & Hj & Ek & Hl1); [by intros [?|?]%elem_of_cons|].
      exists (x :: l1), j, l2. split_and!; [done|by right|done|by constructor].
Qed.

(** C32: deduplication keeps, in order, exactly the first indicator of every
    type and value: no two that are kept agree in both, and each indicator
    given is represented by the first one that agrees with it. *)
Theorem deduplicate_spec iocs :
  deduplicate iocs `sublist_of` iocs /\
  (forall n m i j, deduplicate iocs !! n = Some i -> deduplicate iocs !! m = Some j -> same_ioc i j -> n = m) /\
  (forall i, i ∈ iocs -> exists l1 j l2, iocs = l1 ++ j :: l2 /\ j ∈ deduplicate iocs /\
     same_ioc j i /\ Forall (fun k => ~ same_ioc k i) l1).
Proof.
  unfold deduplicate, same_ioc. destruct (retain_new_spec [] iocs) as (I1 & I2 & _ & I4). split_and!; [done|..].
  - intros n m i j Hn Hm Hs%ioc_key_inj.
    apply (NoDup_lookup _ _ _ (ioc_key j) I2); rewrite list_lookup_fmap; [by rewrite Hn, <- Hs|by rewrite Hm].
  - intros i Hi. destruct (I4 i Hi) as (l1 & j & l2 & E & Hj & Ek & Hl1); [by intros ?%elem_of_nil|].
    exists l1, j, l2. split_and!; [done|done|by apply ioc_key_inj..|].
    eapply Forall_impl; [exact Hl1|]. cbn. intros k Hk Hs. by apply Hk, ioc_key_inj.
Qed.

(** ** Reading the JSON file back

    A reader of JSON strings (RFC 8259), from after the opening quote: the
    characters up to the closing quote and what follows it, or an error at a
    control character or a wrong escape.  An escaped code unit is read as a
    character of the basic plane. *)

Definition hex4 (a b c d : byte) : option Z :=
  a ← to_digit 16 a; b ← to_digit 16 b; c ← to_digit 16 c; d ← to_digit 16 d;
  Some (((a * 16 + b) * 16 + c) * 16 + d).
Definition utf8_of (n : Z) : bytes :=
  if n <? 0x80 then [n]
  else if n <? 0x800 then [0xC0 + n / 64; 0x80 + n mod 64]
  else [0xE0 + n / 4096; 0x80 + n / 64 mod 64; 0x80 + n mod 64].
Definition escape (e : byte) : option byte :=
  snd <$> List.find (fun p => p.1 =? e)
    [(34, 34); (92, 92); (47, 47); (98, 8); (102, 12); (110, 10); (114, 13); (116, 9)].

Fixpoint json_string (l : bytes) : option (bytes * bytes) :=
  match l with
  | [] => None
  | b :: r =>
      if b =? 34 then Some ([], r)
      else if b =? 92 then
        match r with
        | [] => None
        | e :: r =>
            if e =? 117 then
              match r with
              | a :: b :: c :: d :: r =>
                  n ← hex4 a b c d; p ← json_string r; Some (utf8_of n ++ p.1, p.2)
              | _ => None
              end
            else c ← escape e; p ← json_string r; Some (c :: p.1, p.2)
        end
      else if b <? 32 then None
      else p ← json_string r; Some (b :: p.1, p.2)
  end.

(** A character that stands for itself in a JSON string. *)
Definition json_plain (b : byte) : Prop := 32 <= b /\ b <> 34 /\ b <> 92.

(** [ioc_json i] is this text, the value, and a closing quote and the rest. *)
Definition ioc_json_before (i : Ioc) : bytes :=
  bs "{" ++ QUOTE ++ bs "type" ++ QUOTE ++ bs ":" ++ QUOTE ++ type_name (ioc_type i) ++ QUOTE ++ bs "," ++
  QUOTE ++ bs "value" ++ QUOTE ++ bs ":" ++ QUOTE.

Lemma json_string_plain v r : Forall json_plain v -> json_string (v ++ 34 :: r) = Some (v, r).
Proof.
  induction 1 as [|b v (Hb & H34 & H92) Hv IH]; [done|]. cbn [app json_string].
  rewrite (proj2 (Z.eqb_neq b 34)), (proj2 (Z.eqb_neq b 92)), (proj2 (Z.ltb_ge b 32)) by done. by rewrite IH.
Qed.

(** Reading a string never gives more than it consumed, and less after an
    escape. *)
Lemma json_string_length l s r : json_string l = Some (s, r) ->
  (length s + length r + (if bool_decide (head l = Some 92%Z) then 2 else 1) <= length l)%nat.
Proof.
  remember (length l) as n eqn:Hn. revert l s r Hn.
  induction (lt_wf n) as [n _ IH]. intros l s r ->.
  assert (IH' : forall l' s r, (length l' < length l)%nat -> json_string l' = Some (s, r) ->
    (length s + length r < length l')%nat).
  { intros l' s' r' Hl E. pose proof (IH _ Hl l' s' r' eq_refl E). case_bool_decide; lia. }
  clear IH. destruct l as [|b l]; [done|]. cbn [json_string head].
  assert (E92 : bool_decide (Some b = Some 92) = true -> b = 92) by (intros ?%bool_decide_eq_true; congruence).
  destruct (Z.eqb_spec b 34) as [->|]; [intros [= <- <-]; rewrite bool_decide_eq_false_2 by done; cbn [length]; lia|].
  destruct (Z.eqb_spec b 92) as [->|Hb].
  - destruct l as [|e l]; [done|]. destruct (e =? 117).
    + destruct l as [|h1 [|h2 [|h3 [|h4 l]]]]; try done.
      intros (u & _ & E)%bind_Some. apply bind_Some in E as ([s' r'] & E & [= <- <-]).
      apply IH' in E; [|cbn; lia]. cbn [fst snd]. rewrite length_app.
      assert (length (utf8_of u) <= 3)%nat by (unfold utf8_of; repeat case_match; simpl; lia).
      cbn [length] in *. case_bool_decide; lia.
    + intros (c & _ & E)%bind_Some. apply bind_Some in E as ([s' r'] & E & [= <- <-]).
      apply IH' in E; [|cbn; lia]. cbn [fst snd length] in *. case_bool_decide; lia.
  - destruct (b <? 32); [done|]. intros ([s' r'] & E & [= <- <-])%bind_Some.
    apply IH' in E; [|cbn; lia]. cbn [fst snd length] in *.
    destruct (bool_decide _); [by specialize (E92 eq_refl)|lia].
Qed.

Lemma json_string_same v r : json_string (v ++ 34 :: r) = Some (v, r) -> Forall json_plain v.
Proof.
  induction v as [|b v IH]; [done|]. intros E.
  pose proof (json_string_length _ _ _ E) as Hl. cbn [app head] in Hl.
  assert (b <> 92).
  { intros ->. rewrite bool_decide_eq_true_2 in Hl by done. cbn [length] in Hl.
    rewrite length_app in Hl. cbn [length] in Hl. lia. }
  cbn [app json_string] in E. destruct (Z.eqb_spec b 34) as [->|]; [done|].
  rewrite (proj2 (Z.eqb_neq b 92)) in E by done.
  destruct (Z.ltb_spec b 32); [done|]. apply bind_Some in E as ([s' r'] & E & [= -> ->]).
  constructor; [done|by apply IH].
Qed.

(** The value of an indicator is written into the JSON file as it is,
    without escaping: a reader of the file gets the value back exactly when
    it has no quote, no backslash and no control character. *)
Theorem ioc_json_value i : exists rest,
  ioc_json i = ioc_json_before i ++ value i ++ 34 :: rest /\
  (json_string (value i ++ 34 :: rest) = Some (value i, rest) <-> Forall json_plain (value i)).
Proof.
  eexists. split.
  - unfold ioc_json, ioc_json_before, QUOTE. rewrite <- !app_assoc. cbn [app]. reflexivity.
  - split; [apply json_string_same|apply json_string_plain].
Qed.

(** ** Reading a type's name *)

Lemma ascii_lower_idem b : ascii_lower (ascii_lower b) = ascii_lower b.
Proof. unfold ascii_lower, between. repeat case_match; bool_prop; lia. Qed.

(** The names are read in any case, and no name is read as a registry key. *)
Theorem from_str_case `{Unicode} s :
  (forallb (between 0 127) s = true -> from_str (map ascii_lower s) = from_str s) /\
  from_str s <> Some RegistryKey.
Proof.
  split; [|unfold from_str; repeat case_bool_decide; done].
  intros Ha. assert (E : to_lowercase (map ascii_lower s) = to_lowercase s); [|by unfold from_str; rewrite E].
  unfold to_lowercase. rewrite Ha, (proj2 (forallb_forall _ _)).
  - rewrite map_map. apply map_ext. intros b. apply ascii_lower_idem.
  - intros x (b & <- & Hb)%in_map_iff. rewrite forallb_forall in Ha. specialize (Ha b Hb).
    unfold ascii_lower, between in *. repeat case_match; bool_prop; apply andb_true_iff; split; apply Z.leb_le; lia.
Qed.

(** ** Concrete runs *)

Module Demo.
(** No letters or digits beyond ASCII. *)
Definition ascii_only : Unicode := Build_Unicode (fun _ => false) (fun _ => false) (fun s => s).
Definition registry_ioc : Ioc :=
  MkIoc RegistryKey (bs "HKLM\Software\Microsoft\Windows\CurrentVersion\Run") 50 (bs "mock_reg").
End Demo.

Section witnesses.
Import Demo.
#[local] Existing Instance ascii_only.

Example hunt_demo :
  hunt_iocs_in_text (bs "see http://c2.example/x, (10.0.0.1)!") =
    Ok [MkIoc IpAddress (bs "10.0.0.1") 80 (bs "string_extraction");
        MkIoc Url (bs "http://c2.example/x") 90 (bs "string_extraction")].
Proof. vm_compute. reflexivity. Qed.

Lemma hunt_finds_address_witness :
  exists l, hunt_iocs_in_text (bs "call " ++ 32 :: (bs "(" ++ dotted 203 0 113 9 ++ bs "),") ++ 32 :: bs "now") = Ok l /\
    MkIoc IpAddress (dotted 203 0 113 9) 80 (bs "string_extraction") ∈ l.
Proof.
  apply (hunt_finds_address (bs "call ") (bs "now") (bs "(") (bs "),") 203 0 113 9);
    [reflexivity| | |]; repeat constructor; discriminate.
Defined.

(** The value with backslashes that the daemon always adds cannot be read
    back: the file is not JSON. *)
Example registry_not_json r : json_string (value registry_ioc ++ 34 :: r) = None.
Proof. reflexivity. Qed.
End witnesses.
