(* ===== verification/Pipeline.v ===== *)
(** * The analysis pipeline: [src/kp14_suite.rs]

    The client that hands a blob to the analysis VM over SSH, runs the
    disassembly pipeline there, reads its four reports back, extracts
    indicators from them and writes the JSON file.  [scp], [ssh] and the
    pipeline itself are the [world] of [Shell]; the files the local mode reads
    are a parameter. *)

From S2P Require Import Prelude Text Shell Ioc.

(** ** The client *)

Record Kp14Client := MkClient {
  ssh_host : bytes;
  pipeline_path : bytes;
  output_base : bytes;
  is_local : bool
}.

Definition KP14_SSH_HOST : bytes := bs "kp14".
Definition KP14_PIPELINE_PATH : bytes :=
  bs "/home/debian/KP14/src/kp14/analysis/pipeline/disasm_pipeline.py".
Definition KP14_OUTPUT_BASE : bytes := bs "/home/debian/KP14/kp14_output".

(** [Kp14Client::new]; the argument is what reading [/etc/hostname] gives. *)
Definition new_client (hostname : option bytes) : Kp14Client :=
  MkClient KP14_SSH_HOST KP14_PIPELINE_PATH KP14_OUTPUT_BASE
    (bool_decide (trim (default [] hostname) = bs "kp14-suite")).
Definition with_ssh_host (host : bytes) : Kp14Client :=
  MkClient host KP14_PIPELINE_PATH KP14_OUTPUT_BASE false.

(** ** Running the pipeline *)

Definition project_of (project_name : bytes) (timestamp : Z) : bytes :=
  if bool_decide (project_name = []) then bs "alphvdr_carved_" ++ show timestamp else project_name.
Definition output_dir_of (c : Kp14Client) (project : bytes) : bytes :=
  output_base c ++ bs "/" ++ project.

Definition disasm_command (c : Kp14Client) (binary_path project : bytes) : command :=
  if is_local c then
    [bs "python3"; pipeline_path c; bs "run"; bs "--binary"; binary_path; bs "--project-name"; project;
     bs "--output-dir"; output_dir_of c project]
  else
    [bs "ssh"; ssh_host c;
     bs "python3 " ++ pipeline_path c ++ bs " run --binary " ++ binary_path ++ bs " --project-name " ++
     project ++ bs " --output-dir " ++ output_dir_of c project].

Definition run_disassembly_pipeline (c : Kp14Client) (timestamp : Z) (binary_path project_name : bytes) :
    cmd bytes :=
  let project := project_of project_name timestamp in
  run_checked "Failed to execute disasm_pipeline.py" "disasm_pipeline.py failed"
    (disasm_command c binary_path project) ;;
  mret (output_dir_of c project).

(** ** Its reports *)

Definition report_path (output_dir file_type : bytes) : bytes :=
  output_dir ++ bs "/" ++ file_type ++ bs ".txt".
Definition cat_command (c : Kp14Client) (path : bytes) : command :=
  [bs "ssh"; ssh_host c; bs "cat " ++ path ++ bs " 2>/dev/null || true"].

Section pipeline.
Context `{Unicode}.
(** [fs::read_to_string] of a report, in local mode. *)
Context (read_file : bytes -> option bytes).

Definition read_pipeline_output (c : Kp14Client) (output_dir file_type : bytes) : cmd bytes :=
  let path := report_path output_dir file_type in
  if is_local c then mret (default [] (read_file path))
  else
    o ← run_command "Failed to read pipeline output via SSH" (cat_command c path);
    mret (from_utf8_lossy (stdout o)).

Definition extract_iocs_from_output (c : Kp14Client) (output_dir : bytes) : cmd (list Ioc) :=
  strings_output ← read_pipeline_output c output_dir (bs "strings");
  iocs1 ← lift (hunt_iocs_in_text strings_output);
  r2_output ← read_pipeline_output c output_dir (bs "r2_analysis");
  iocs2 ← lift (hunt_iocs_in_text r2_output);
  ghidra_output ← read_pipeline_output c output_dir (bs "ghidra_decompilation");
  iocs3 ← lift (hunt_iocs_in_text ghidra_output);
  capa_output ← read_pipeline_output c output_dir (bs "capa");
  iocs4 ← lift (parse_capa_mitre capa_output);
  mret (deduplicate (iocs1 ++ iocs2 ++ iocs3 ++ iocs4)).

Definition IOC_JSON_PATH : bytes := bs "/tmp/alphvdr/extracted_iocs.json".
Definition push_iocs_to_misp (iocs : list Ioc) : cmd unit :=
  match iocs_json iocs with
  | None => mret tt
  | Some json => write_file "Failed to write IOC JSON file" IOC_JSON_PATH json
  end.

(** ** Remote analysis *)

Definition remote_path (timestamp : Z) : bytes := bs "/tmp/alphvdr_core_dump_" ++ show timestamp ++ bs ".bin".
Definition transfer_command (c : Kp14Client) (blob_path : bytes) (timestamp : Z) : command :=
  [bs "scp"; bs "-B"; blob_path; ssh_host c ++ bs ":" ++ remote_path timestamp].
Definition remove_command (c : Kp14Client) (timestamp : Z) : command :=
  [bs "ssh"; ssh_host c; bs "rm -f " ++ remote_path timestamp].

(** The clock is read for the remote path and for the project name. *)
Definition run_remote_analysis (c : Kp14Client) (ts1 ts2 : Z) (blob_path : bytes) : cmd (list Ioc) :=
  run_checked "Failed to SCP blob to KP14-SUITE" "Failed to transfer blob to KP14-SUITE"
    (transfer_command c blob_path ts1) ;;
  output_dir ← run_disassembly_pipeline c ts2 (remote_path ts1) (bs "remote_carved_" ++ show ts2);
  iocs ← extract_iocs_from_output c output_dir;
  push_iocs_to_misp iocs ;;
  run_ignored (remove_command c ts1) ;;
  mret iocs.

(** ** What a successful analysis did *)

Lemma read_output_ok c output_dir file_type w h text h' : is_local c = false ->
  read_pipeline_output c output_dir file_type w h = (Ok text, h') <->
  exists o, w h (cat_command c (report_path output_dir file_type)) = Some o /\
    text = from_utf8_lossy (stdout o) /\ h' = h ++ [cat_command c (report_path output_dir file_type)].
Proof.
  intros Hl. unfold read_pipeline_output. rewrite Hl. cbv zeta. rewrite cmd_bind_ok.
  setoid_rewrite run_command_ok. unfold mret, cmd_ret. naive_solver.
Qed.

(** The commands that read the four reports of an output directory. *)
Definition report_commands (c : Kp14Client) (output_dir : bytes) : list command :=
  map (fun name => cat_command c (report_path output_dir (bs name)))
    ["strings"; "r2_analysis"; "ghidra_decompilation"; "capa"].

(** What the indicators of four reports are. *)
Definition iocs_of_reports (r1 r2 r3 r4 : bytes) (iocs : list Ioc) : Prop :=
  exists l1 l2 l3 l4, hunt_iocs_in_text r1 = Ok l1 /\ hunt_iocs_in_text r2 = Ok l2 /\
    hunt_iocs_in_text r3 = Ok l3 /\ parse_capa_mitre r4 = Ok l4 /\
    iocs = deduplicate (l1 ++ l2 ++ l3 ++ l4).

Lemma extract_ok c dir w h iocs h' : is_local c = false ->
  extract_iocs_from_output c dir w h = (Ok iocs, h') ->
  exists o1 o2 o3 o4, let cat name := cat_command c (report_path dir (bs name)) in
    w h (cat "strings") = Some o1 /\ w (h ++ [cat "strings"]) (cat "r2_analysis") = Some o2 /\
    w (h ++ [cat "strings"; cat "r2_analysis"]) (cat "ghidra_decompilation") = Some o3 /\
    w (h ++ [cat "strings"; cat "r2_analysis"; cat "ghidra_decompilation"]) (cat "capa") = Some o4 /\
    h' = h ++ report_commands c dir /\
    iocs_of_reports (from_utf8_lossy (stdout o1)) (from_utf8_lossy (stdout o2))
      (from_utf8_lossy (stdout o3)) (from_utf8_lossy (stdout o4)) iocs.
Proof.
  intros Hl. pose proof (fun name w h t h' => read_output_ok c dir name w h t h' Hl) as Hread.
  pose proof (fun A m h a h' => @lift_ok A m w h a h') as Hlift.
  unfold extract_iocs_from_output.
  repeat setoid_rewrite cmd_bind_ok. repeat setoid_rewrite Hlift. repeat setoid_rewrite Hread.
  intros (t1 & h1 & (o1 & H1 & -> & ->) & l1 & h2 & [E1 ->] & t2 & h3 & (o2 & H2 & -> & ->) & l2 & h4 & [E2 ->]
    & t3 & h5 & (o3 & H3 & -> & ->) & l3 & h6 & [E3 ->] & t4 & h7 & (o4 & H4 & -> & ->) & l4 & h8 & [E4 ->] & [= <-] & ->).
  rewrite <- !app_assoc in *. cbn [app] in *. exists o1, o2, o3, o4. cbv zeta. split_and!; try done.
  by exists l1, l2, l3, l4.
Qed.

Lemma push_ok iocs w h u h' : push_iocs_to_misp iocs w h = (Ok u, h') ->
  match iocs_json iocs with
  | Some json => succeeds w h (write_command IOC_JSON_PATH json) = true /\ h' = h ++ [write_command IOC_JSON_PATH json]
  | None => h' = h
  end.
Proof.
  unfold push_iocs_to_misp, write_file. destruct (iocs_json iocs); [by apply run_checked_ok|by intros [= _ <-]].
Qed.

(** When a remote analysis returns indicators, it copied the blob to the
    analysis machine, ran the pipeline on that copy, read the four reports of
    the pipeline's own output directory, wrote the JSON file of the indicators
    if there are any and removed the copy, in this order and nothing else; the
    indicators are those hunted in the first three reports and the techniques
    of the fourth, deduplicated. *)
Theorem run_remote_analysis_ok c ts1 ts2 blob_path w h iocs h' :
  is_local c = false ->
  run_remote_analysis c ts1 ts2 blob_path w h = (Ok iocs, h') ->
  let project := bs "remote_carved_" ++ show ts2 in
  let dir := output_dir_of c project in
  let transfer := transfer_command c blob_path ts1 in
  let disasm := disasm_command c (remote_path ts1) project in
  let write := match iocs_json iocs with
               | Some json => [write_command IOC_JSON_PATH json] | None => [] end in
  h' = h ++ [transfer; disasm] ++ report_commands c dir ++ write ++ [remove_command c ts1] /\
  succeeds w h transfer = true /\ succeeds w (h ++ [transfer]) disasm = true /\
  exists reports, length reports = 4%nat /\
    (forall k c', report_commands c dir !! k = Some c' -> exists o,
       w (h ++ [transfer; disasm] ++ take k (report_commands c dir)) c' = Some o /\
       reports !! k = Some (from_utf8_lossy (stdout o))) /\
    iocs_of_reports (nth 0 reports []) (nth 1 reports []) (nth 2 reports []) (nth 3 reports []) iocs.
Proof.
  intros Hl E. cbv zeta. unfold run_remote_analysis in E.
  apply cmd_bind_ok in E as (u & h1 & Ht & E). apply run_checked_ok in Ht as [Ht ->].
  apply cmd_bind_ok in E as (dir & h1 & Hd & E). unfold run_disassembly_pipeline in Hd.
  assert (Hp : project_of (bs "remote_carved_" ++ show ts2) ts2 = bs "remote_carved_" ++ show ts2).
  { unfold project_of. by rewrite bool_decide_eq_false_2. }
  rewrite Hp in Hd. apply cmd_bind_ok in Hd as (v & h2 & Hd & [= <- <-]). apply run_checked_ok in Hd as [Hd ->].
  apply cmd_bind_ok in E as (l & h1 & He & E). apply extract_ok in He; [|done].
  destruct He as (o1 & o2 & o3 & o4 & H1 & H2 & H3 & H4 & -> & Hi).
  apply cmd_bind_ok in E as (x & h1 & Hj & E). apply push_ok in Hj.
  apply cmd_bind_ok in E as (y & h2 & Hr & [= <- <-]). injection Hr as _ <-.
  rewrite <- !app_assoc in *. cbn [app] in *. split_and!.
  - destruct (iocs_json l); [destruct Hj as [_ ->]|subst h1]; by rewrite <- !app_assoc.
  - done.
  - done.
  - exists (map (fun o => from_utf8_lossy (stdout o)) [o1; o2; o3; o4]). split_and!; [done| |exact Hi].
    intros k c' Hk. destruct k as [|[|[|[|k]]]]; cbn in Hk; try discriminate Hk; injection Hk as <-;
      [exists o1|exists o2|exists o3|exists o4]; done.
Qed.

(** ** The copy on the analysis machine *)

(** A computation whose commands include [c] exactly when it succeeds. *)
Definition runs_iff_ok {A} (c : command) (m : cmd A) : Prop :=
  forall w h, exists t, (m w h).2 = h ++ t /\ (c ∈ t <-> is_ok (m w h).1 = true).

Lemma runs_iff_ok_bind {A B} c (m : cmd A) (f : A -> cmd B) :
  runs_only (fun c' => c' <> c) m -> (forall a, runs_iff_ok c (f a)) -> runs_iff_ok c (m ≫= f).
Proof.
  intros Hm Hf w h. rewrite cmd_bind_run. destruct (Hm w h) as (t & Et & Ht).
  assert (Hn : c ∉ t) by (rewrite Forall_forall in Ht; intros Hc; by apply (Ht c Hc)).
  destruct (m w h) as [[a|e|] h1]; cbn [fst snd] in *; subst h1; [|by exists t..].
  destruct (Hf a w (h ++ t)) as (t' & -> & Ht'). exists (t ++ t'). rewrite app_assoc.
  split; [done|]. rewrite elem_of_app. tauto.
Qed.

Lemma read_runs_no_remove c ts output_dir file_type :
  runs_only (fun c' => c' <> remove_command c ts) (read_pipeline_output c output_dir file_type).
Proof.
  unfold read_pipeline_output. cbv zeta. destruct (is_local c); [apply runs_ret|].
  apply runs_bind; [by apply runs_command|intros; apply runs_ret].
Qed.

Lemma extract_runs_no_remove c ts output_dir :
  runs_only (fun c' => c' <> remove_command c ts) (extract_iocs_from_output c output_dir).
Proof.
  unfold extract_iocs_from_output.
  repeat first [apply runs_ret | apply runs_lift | apply read_runs_no_remove | apply runs_bind; [|intros ?]].
Qed.

(** The copy of the blob on the analysis machine is removed exactly when
    the analysis returns its result: after an error in the transfer, the
    pipeline, a report or the JSON file no [rm] is run. *)
Theorem remote_copy_removed_iff_ok c ts1 ts2 blob_path w h :
  let r := run_remote_analysis c ts1 ts2 blob_path w h in
  exists t, r.2 = h ++ t /\ (remove_command c ts1 ∈ t <-> is_ok r.1 = true).
Proof.
  cbv zeta. revert w h. change (runs_iff_ok (remove_command c ts1) (run_remote_analysis c ts1 ts2 blob_path)).
  unfold run_remote_analysis. apply runs_iff_ok_bind; [by apply runs_checked|]. intros _.
  apply runs_iff_ok_bind.
  { apply runs_bind; [|intros; apply runs_ret]. apply runs_checked. unfold disasm_command. by destruct (is_local c). }
  intros dir. apply runs_iff_ok_bind; [apply extract_runs_no_remove|]. intros iocs. apply runs_iff_ok_bind.
  { unfold push_iocs_to_misp. destruct (iocs_json iocs); [by apply runs_checked|apply runs_ret]. }
  intros _ w h. exists [remove_command c ts1]. split; [done|]. split; [done|]. intros _. left.
Qed.
End pipeline.

(** ** A concrete analysis *)

Section witnesses.
#[local] Existing Instance Ioc.Demo.ascii_only.

(** A machine whose reports all hold one address. *)
Definition one_address : world := fun _ _ => Some (Output true (bs "beacon 10.1.2.3")).
Definition agent_client : Kp14Client := new_client (Some (bs "workstation")).

Lemma run_remote_analysis_ok_witness :
  exists h, run_remote_analysis (fun _ => None) agent_client 1 2 (bs "/tmp/b.bin") one_address [] =
    (Ok [MkIoc IpAddress (bs "10.1.2.3") 80 (bs "string_extraction")], h) /\
  succeeds one_address [] (transfer_command agent_client (bs "/tmp/b.bin") 1) = true /\
  length h = 8%nat.
Proof.
  eexists. split; [vm_compute; reflexivity|].
  match goal with |- _ /\ length ?h = _ =>
    destruct (run_remote_analysis_ok (fun _ => None) agent_client 1 2 (bs "/tmp/b.bin") one_address []
      [MkIoc IpAddress (bs "10.1.2.3") 80 (bs "string_extraction")] h eq_refl ltac:(vm_compute; reflexivity))
      as (_ & Ht & _) end.
  split; [exact Ht|reflexivity].
Defined.
End witnesses.
