(* ===== verification/Daemon.v ===== *)
(** * The analysis daemon: [src/kp14_suite.rs]

    The other mode of the client: wait for a hot-plugged disk, mount it, find
    a core dump on it, extract its binaries, run the analysers on them and
    write the indicators.  Programs are the [world] of [Shell]; what the file
    system and the clock answer is a record. *)

From S2P Require Import Prelude Text Shell Carver Kp14 Ioc Pipeline.

Definition KP14_MOUNT_BASE : bytes := bs "/mnt/alphvdr".
Definition GHIDRA_HEADLESS : bytes := bs "/opt/ghidra/support/analyzeHeadless".

(** ** Waiting for a disk *)

Definition is_disk_name (name : bytes) : bool :=
  bool_decide (starts_with (bs "sd") name) || bool_decide (starts_with (bs "vd") name) ||
  bool_decide (starts_with (bs "nvme") name).

(** Whether a name is listed.  The names are compared after a
    lossy conversion ([to_string_lossy]), and a name that is not UTF-8 is
    skipped ([to_str]). *)
Definition is_listed (name : bytes) : bool := is_disk_name (from_utf8_lossy name) && valid_utf8 name.

(** The argument is what reading [/dev] gives. *)
Definition list_block_devices (listing : option (list bytes)) : outcome (list bytes) :=
  match listing with
  | None => Err "Failed to read /dev"
  | Some names => Ok (map (fun n => bs "/dev/" ++ n) (List.filter is_listed names))
  end.

Definition new_devices (initial current : list bytes) : list bytes :=
  List.filter (fun d => negb (bool_decide (d ∈ initial))) current.

Section watch.
(** The listings of [/dev], first the initial one and then one per poll, each
    in the order in which the hash set yields it, and the seconds elapsed at
    the start of each turn of the loop. *)
Context (dev_listing : nat -> option (list bytes)) (elapsed : nat -> Z).

Fixpoint watch (fuel k : nat) (initial : list bytes) (timeout_secs : Z) : option (outcome bytes) :=
  match fuel with
  | O => None
  | S fuel =>
      if timeout_secs <=? elapsed k then Some (Err "Timed out waiting for hotplugged device")
      else
        match list_block_devices (dev_listing (S k)) with
        | Ok current =>
            match new_devices initial current with
            | d :: _ => Some (Ok d)
            | [] => watch fuel (S k) initial timeout_secs
            end
        | Err e => Some (Err e)
        | Panic => Some Panic
        end
  end.

Definition watch_for_hotplugged_device (fuel : nat) (timeout_secs : Z) : option (outcome bytes) :=
  match list_block_devices (dev_listing 0%nat) with
  | Ok initial => watch fuel 0 initial timeout_secs
  | Err e => Some (Err e)
  | Panic => Some Panic
  end.
End watch.

(** ** Finding the blob *)

(** What a walk over a mounted file system meets. *)
Inductive node := NFile | NDir (readable : bool) (entries : list (bytes * node)).

Definition is_blob_name (name : bytes) : bool :=
  bool_decide (starts_with (bs "core_dump_") name) && bool_decide (ends_with (bs ".bin") name).
Definition join (dir name : bytes) : bytes := dir ++ bs "/" ++ name.

Fixpoint find_blob_recursive (dir : bytes) (n : node) : outcome (option bytes) :=
  match n with
  | NDir true entries =>
      (fix go (es : list (bytes * node)) : outcome (option bytes) :=
         match es with
         | [] => Ok None
         | (name, child) :: es =>
             match child with
             | NDir _ _ =>
                 found ← find_blob_recursive (join dir name) child;
                 match found with Some p => Ok (Some p) | None => go es end
             | NFile => if is_blob_name name then Ok (Some (join dir name)) else go es
             end
         end) entries
  | _ => Err "Failed to read directory"
  end.

(** The first look is at the entries of the mount point itself, whatever
    they are. *)
Definition find_blob (dir : bytes) (n : node) : outcome bytes :=
  match n with
  | NDir true entries =>
      match List.find (fun e => is_blob_name e.1) entries with
      | Some (name, _) => Ok (join dir name)
      | None =>
          found ← find_blob_recursive dir n;
          match found with Some p => Ok p | None => Err "No core dump blob found on mounted device" end
      end
  | _ => Err "Failed to read directory"
  end.

(** ** Mounting *)

Definition mount_command (device : bytes) : command :=
  [bs "mount"; bs "-o"; bs "ro"; device; KP14_MOUNT_BASE].
Definition umount_command : command := [bs "umount"; KP14_MOUNT_BASE].

(** [if let Ok(x) = ..]: an error is dropped, a panic is not. *)
Definition attempt {A} (m : cmd A) : cmd (option A) := fun w h =>
  match m w h with
  | (Ok a, h) => (Ok (Some a), h)
  | (Err _, h) => (Ok None, h)
  | (Panic, h) => (Panic, h)
  end.

Section daemon.
Context `{Unicode}.
Context (read_file : bytes -> option bytes).   (* reports, in local mode *)
(** Whether a directory can be created, the tree below the mount point and the
    contents of a file on it, after the commands run so far. *)
Context (mkdir_ok : bytes -> bool) (tree : list command -> node)
        (read_blob : list command -> bytes -> option bytes).

Definition create_dir (msg : string) (dir : bytes) : cmd unit :=
  if mkdir_ok dir then mret tt else fail msg.

Definition locate_blob : cmd bytes := fun w h => (find_blob KP14_MOUNT_BASE (tree h), h).
Definition load_dump (blob_path : bytes) : cmd ParsedCoreDump := fun w h =>
  (from_file (read_blob h blob_path), h).

Definition mount_and_ingest (device : bytes) : cmd bytes :=
  create_dir "Failed to create mount point" KP14_MOUNT_BASE ;;
  status ← run_command "Failed to execute mount command" (bs "sudo" :: mount_command device);
  (if success status then mret tt
   else run_checked "Failed to execute mount" "Failed to mount device" (mount_command device)) ;;
  locate_blob.

Definition cleanup_mount : cmd unit := fun w h =>
  if succeeds w h (bs "sudo" :: umount_command) then (Ok tt, h ++ [bs "sudo" :: umount_command])
  else (Ok tt, h ++ [bs "sudo" :: umount_command; umount_command]).

(** ** The analysers *)

Definition triage_command (c : Kp14Client) (binary_path : bytes) : command :=
  if is_local c then [bs "r2"; bs "-q"; bs "-c"; bs "aaa; afl; iI; iz; iC"; binary_path]
  else [bs "ssh"; ssh_host c; bs "r2 -q -c 'aaa; afl; iI; iz~; iC' " ++ binary_path].
Definition run_radare2_triage (c : Kp14Client) (binary_path : bytes) : cmd bytes :=
  output ← run_command "Failed to execute radare2" (triage_command c binary_path);
  if success output then mret (from_utf8_lossy (stdout output)) else fail "radare2 triage failed".

Definition ghidra_command (c : Kp14Client) (binary_path project_dir project_name : bytes) : command :=
  let project := project_dir ++ bs "/" ++ project_name ++ bs "_ghidra" in
  if is_local c then [GHIDRA_HEADLESS; project; project_name; bs "-import"; binary_path; bs "-deleteProject"]
  else [bs "ssh"; ssh_host c; GHIDRA_HEADLESS ++ bs " " ++ project ++ bs " " ++ project_name ++
        bs " -import " ++ binary_path ++ bs " -postScript ExtractIOCs.java -deleteProject"].
Definition run_ghidra_headless (c : Kp14Client) (binary_path project_dir project_name : bytes) : cmd bytes :=
  run_checked "Failed to execute Ghidra headless" "Ghidra headless analysis failed"
    (ghidra_command c binary_path project_dir project_name) ;;
  mret (project_dir ++ bs "/" ++ project_name ++ bs "_ghidra").

(** Writing the extracted files; their paths. *)
Fixpoint write_files (dir : bytes) (files : list (bytes * bytes)) : cmd (list bytes) :=
  match files with
  | [] => mret []
  | (name, contents) :: files =>
      write_file "Failed to write extracted region" (join dir name) contents ;;
      paths ← write_files dir files;
      mret (join dir name :: paths)
  end.
Definition extract_to (dir : bytes) (dump : ParsedCoreDump) : cmd (list bytes) :=
  create_dir "Failed to create extraction dir" dir ;;
  write_files dir (extract_executable_regions dump).

Definition hunt (text : option bytes) : cmd (list Ioc) :=
  match text with Some text => lift (hunt_iocs_in_text text) | None => mret [] end.

(** radare2 and Ghidra on every extracted file. *)
Fixpoint triage_all (c : Kp14Client) (project_name : bytes) (binaries : list bytes) : cmd (list Ioc) :=
  match binaries with
  | [] => mret []
  | binary :: binaries =>
      radare_out ← attempt (run_radare2_triage c binary);
      iocs ← hunt radare_out;
      attempt (run_ghidra_headless c binary (output_base c) project_name) ;;
      rest ← triage_all c project_name binaries;
      mret (iocs ++ rest)
  end.

(** [strings.join("\n")] *)
Fixpoint join_lines (l : list bytes) : bytes :=
  match l with
  | [] => []
  | [s] => s
  | s :: l => s ++ newline :: join_lines l
  end.

(** The indicators that are added to every result. *)
Definition mock_iocs : list Ioc :=
  [MkIoc FileHash (bs "e3b0c44298fc1c149afbf4c8996fb92427ae41e4649b934ca495991b7852b855") 100 (bs "mock_hash");
   MkIoc RegistryKey (bs "HKLM\Software\Microsoft\Windows\CurrentVersion\Run") 50 (bs "mock_reg");
   MkIoc Mutex (bs "Global\MalwareMutex") 90 (bs "mock_mutex");
   MkIoc YaraRule (bs "apt41_keyplug") 100 (bs "mock_yara")].

(** radare2 and the pipeline on the last file, the full dump. *)
Definition analyse_full_dump (c : Kp14Client) (pid timestamp : Z) (binaries : list bytes) : cmd (list Ioc) :=
  match last binaries with
  | None => mret []
  | Some dump_path =>
      r2_output ← attempt (run_radare2_triage c dump_path);
      iocs1 ← hunt r2_output;
      iocs2 ← attempt (output_dir ← run_disassembly_pipeline c timestamp dump_path (bs "carved_pid_" ++ show pid);
                       extract_iocs_from_output read_file c output_dir);
      mret (iocs1 ++ default [] iocs2)
  end.

(** [run_daemon_pipeline], from the device the watch returned. *)
Definition run_daemon_pipeline (c : Kp14Client) (timestamp : Z) (device : outcome bytes) : cmd (list Ioc) :=
  device ← lift device;
  blob_path ← mount_and_ingest device;
  core_dump ← load_dump blob_path;
  let pid := pd_pid core_dump in
  binaries ← extract_to (output_base c ++ bs "/pid_" ++ show pid ++ bs "_extracted") core_dump;
  iocs1 ← triage_all c (bs "pid_" ++ show pid) binaries;
  iocs2 ← lift (hunt_iocs_in_text (join_lines (extract_strings 6 core_dump)));
  cleanup_mount ;;
  iocs3 ← analyse_full_dump c pid timestamp binaries;
  let all_iocs := deduplicate (iocs1 ++ iocs2 ++ mock_iocs ++ iocs3) in
  push_iocs_to_misp all_iocs ;;
  cleanup_mount ;;
  mret all_iocs.
End daemon.

(** ** The wait ends *)

Section watch_correct.
Context (dev_listing : nat -> option (list bytes)) (elapsed : nat -> Z).

(** The turns before turn [k] found the time not over and no new disk. *)
Definition quiet_until (initial : list bytes) (timeout_secs : Z) (k : nat) : Prop :=
  forall j, (j < k)%nat -> elapsed j < timeout_secs /\
    exists current, list_block_devices (dev_listing (S j)) = Ok current /\ new_devices initial current = [].

(** How a wait may end. *)
Definition watch_result (initial : list bytes) (timeout_secs : Z) (r : outcome bytes) : Prop :=
  exists k, quiet_until initial timeout_secs k /\
    match r with
    | Ok d => elapsed k < timeout_secs /\
        exists current, list_block_devices (dev_listing (S k)) = Ok current /\ d ∈ current /\ d ∉ initial
    | Err _ => timeout_secs <= elapsed k \/ dev_listing (S k) = None
    | Panic => False
    end.

Lemma watch_ends fuel k initial timeout_secs :
  quiet_until initial timeout_secs k ->
  (exists j, (k <= j < k + fuel)%nat /\ timeout_secs <= elapsed j) ->
  exists r, watch dev_listing elapsed fuel k initial timeout_secs = Some r /\
    watch_result initial timeout_secs r.
Proof.
  revert k. induction fuel as [|fuel IH]; intros k Hq (j & Hj & Ht); [lia|]. cbn [watch].
  destruct (Z.leb_spec timeout_secs (elapsed k)) as [Hle|Hlt].
  { eexists. split; [done|]. exists k. split; [done|by left]. }
  destruct (list_block_devices (dev_listing (S k))) as [current|e|] eqn:E.
  - destruct (new_devices initial current) as [|d l] eqn:En.
    + apply IH.
      * intros i Hi. destruct (decide (i = k)) as [->|]; [by eauto|]. apply Hq. lia.
      * exists j. split; [|done]. destruct (decide (j = k)) as [->|]; lia.
    + eexists. split; [done|]. exists k. split; [done|]. split; [done|]. exists current. split; [done|].
      assert (Hd : d ∈ new_devices initial current) by (rewrite En; left).
      unfold new_devices in Hd. apply list_elem_of_In, filter_In in Hd as [Hd Hn].
      apply negb_true_iff, bool_decide_eq_false in Hn. split; [by apply list_elem_of_In|done].
  - eexists. split; [done|]. exists k. split; [done|]. right. by destruct (dev_listing (S k)).
  - by destruct (dev_listing (S k)).
Qed.
End watch_correct.

(** C33: the wait for a disk always ends: when the clock advances by at least
    the two seconds that each turn sleeps, at most half as many turns as the
    time-out has seconds, and one more, are taken, and the result is a disk
    that was not there at the start and appeared before the time-out, or an
    error because the time is over or [/dev] cannot be read. *)
Theorem watch_terminates dev_listing elapsed timeout_secs :
  (forall k : nat, 2 * k <= elapsed k) -> 0 <= timeout_secs ->
  exists r, watch_for_hotplugged_device dev_listing elapsed (S (Z.to_nat ((timeout_secs + 1) / 2))) timeout_secs
              = Some r /\
    match list_block_devices (dev_listing 0%nat) with
    | Ok initial => watch_result dev_listing elapsed initial timeout_secs r
    | _ => r = Err "Failed to read /dev"
    end.
Proof.
  intros Hclock Ht. unfold watch_for_hotplugged_device.
  destruct (dev_listing 0%nat) as [names|]; cbn [list_block_devices]; [|by eexists].
  apply watch_ends; [intros j Hj; lia|].
  exists (Z.to_nat ((timeout_secs + 1) / 2)). split; [lia|].
  pose proof (Hclock (Z.to_nat ((timeout_secs + 1) / 2))) as Hc.
  pose proof (Z.div_mod (timeout_secs + 1) 2 ltac:(lia)). pose proof (Z.mod_pos_bound (timeout_secs + 1) 2 ltac:(lia)).
  lia.
Qed.

(** ** The walk finds a blob when there is one *)

(** The blob files below a directory. *)
Inductive blob_below : bytes -> node -> bytes -> Prop :=
  | blob_here dir entries name :
      (name, NFile) ∈ entries -> is_blob_name name = true ->
      blob_below dir (NDir true entries) (join dir name)
  | blob_deeper dir entries name child p :
      (name, child) ∈ entries -> blob_below (join dir name) child p ->
      blob_below dir (NDir true entries) p.

(** Every directory of the tree can be read. *)
Fixpoint readable (n : node) : Prop :=
  match n with
  | NFile => True
  | NDir r entries => r = true /\ (fix all (es : list (bytes * node)) : Prop :=
      match es with [] => True | (_, child) :: es => readable child /\ all es end) entries
  end.

Fixpoint node_rect' (P : node -> Prop) (Hf : P NFile)
    (Hd : forall r entries, Forall (fun e => P e.2) entries -> P (NDir r entries)) (n : node) : P n :=
  match n with
  | NFile => Hf
  | NDir r entries => Hd r entries
      ((fix go (es : list (bytes * node)) : Forall (fun e => P e.2) es :=
          match es with
          | [] => Forall_nil_2 _
          | e :: es => Forall_cons_2 _ e es (node_rect' P Hf Hd e.2) (go es)
          end) entries)
  end.

Lemma blob_below_cons dir name child es p :
  blob_below dir (NDir true ((name, child) :: es)) p <->
  (child = NFile /\ is_blob_name name = true /\ p = join dir name) \/
  blob_below (join dir name) child p \/ blob_below dir (NDir true es) p.
Proof.
  split.
  - intros Hb. inversion Hb as [d es' name' Hin Hn|d es' name' child' p' Hin Hc]; subst.
    + apply elem_of_cons in Hin as [[= -> <-]|Hin]; [by left|]. right. right. by constructor.
    + apply elem_of_cons in Hin as [[= -> ->]|Hin]; [by right; left|]. right. right. by econstructor.
  - intros [(-> & Hn & ->)|[Hb|Hb]].
    + by constructor; [left|].
    + econstructor; [left|done].
    + inversion Hb; subst; [constructor; [by right|done]|econstructor; [by right|done]].
Qed.

Lemma nothing_below_nil dir p : ~ blob_below dir (NDir true []) p.
Proof. inversion 1; by eapply not_elem_of_nil. Qed.

Lemma nothing_below_file dir p : ~ blob_below dir NFile p.
Proof. inversion 1. Qed.

(** What a search of a directory returns. *)
Definition search_ok (dir : bytes) (n : node) (r : outcome (option bytes)) : Prop :=
  exists o, r = Ok o /\
    match o with Some p => blob_below dir n p | None => forall p, ~ blob_below dir n p end.

Lemma search_all n dir : readable n -> n <> NFile -> search_ok dir n (find_blob_recursive dir n).
Proof.
  revert dir. induction n as [|r es IH] using node_rect'; [done|]. intros dir [-> Hr] _.
  cbn [find_blob_recursive]. induction IH as [|[name child] es Hc _ IHes].
  { exists None. split; [done|]. apply nothing_below_nil. }
  destruct Hr as [Hrc Hr]. specialize (IHes Hr) as (o & -> & Ho). cbn [snd] in Hc.
  assert (Hlift : forall (Hno : forall p, ~ blob_below (join dir name) child p)
    (Hfile : child = NFile -> is_blob_name name = false),
    search_ok dir (NDir true ((name, child) :: es)) (Ok o)).
  { intros Hno Hfile. exists o. split; [done|]. destruct o as [p|].
    - rewrite blob_below_cons. auto.
    - intros p. rewrite blob_below_cons. intros [(-> & Hn & _)|[Hb|Hb]];
        [by rewrite (Hfile eq_refl) in Hn|by eapply Hno|by eapply Ho]. }
  destruct child as [|rc esc].
  - destruct (is_blob_name name) eqn:En; [|apply Hlift; auto using nothing_below_file].
    exists (Some (join dir name)). split; [done|]. rewrite blob_below_cons. auto.
  - destruct (Hc (join dir name) Hrc ltac:(done)) as (o' & -> & Ho'). cbn.
    destruct o' as [p|]; [|by apply Hlift]. exists (Some p). split; [done|]. rewrite blob_below_cons. auto.
Qed.

(** The search for a blob is sound and complete: over a tree whose
    directories can all be read it ends without an error, with the path of a
    [core_dump_*.bin] file somewhere below, and with none only when there is
    no such file at any depth. *)
Theorem find_blob_recursive_spec dir r entries :
  readable (NDir r entries) ->
  exists o, find_blob_recursive dir (NDir r entries) = Ok o /\
    match o with
    | Some p => blob_below dir (NDir r entries) p
    | None => forall p, ~ blob_below dir (NDir r entries) p
    end.
Proof. intros Hr. by apply (search_all (NDir r entries) dir Hr). Qed.

(** ** What the daemon leaves behind *)

Section daemon_correct.
Context `{Unicode}.
Context (read_file : bytes -> option bytes) (mkdir_ok : bytes -> bool) (tree : list command -> node)
        (read_blob : list command -> bytes -> option bytes).

Lemma cleanup_mount_runs w h : exists c, (c = umount_command \/ c = bs "sudo" :: umount_command) /\
  exists t, cleanup_mount w h = (Ok tt, h ++ t) /\ last t = Some c.
Proof.
  unfold cleanup_mount. destruct (succeeds _ _ _).
  - eexists. split; [by right|]. eexists. by split.
  - eexists. split; [by left|]. eexists. by split.
Qed.

Lemma last_app_some {A} (l t : list A) x : last t = Some x -> last (l ++ t) = Some x.
Proof. intros Ht. apply last_Some in Ht as [t' ->]. by rewrite app_assoc, last_snoc. Qed.

Lemma deduplicate_keeps i iocs : i ∈ iocs -> exists j, j ∈ deduplicate iocs /\ same_ioc j i.
Proof.
  intros Hi. destruct (retain_new_spec [] iocs) as (_ & _ & _ & I4).
  destruct (I4 i Hi) as (l1 & j & l2 & _ & Hj & Ek & _); [by apply not_elem_of_nil|].
  exists j. split; [done|]. by apply ioc_key_inj.
Qed.

Lemma pushed i iocs w h u h' : i ∈ iocs -> push_iocs_to_misp iocs w h = (Ok u, h') ->
  exists json, iocs_json iocs = Some json /\ write_command IOC_JSON_PATH json ∈ h'.
Proof.
  intros Hi Hp%push_ok. destruct iocs as [|j l]; [by apply not_elem_of_nil in Hi|].
  cbn [iocs_json] in Hp. destruct Hp as [_ ->]. eexists. split; [reflexivity|]. apply elem_of_app. right. left.
Qed.

Definition registry_value : bytes := bs "HKLM\Software\Microsoft\Windows\CurrentVersion\Run".

Lemma registry_value_not_plain : ~ Forall json_plain registry_value.
Proof.
  intros Hp. rewrite Forall_forall in Hp.
  assert (Hin : 92 ∈ registry_value) by (apply (bool_decide_eq_true_1 (92 ∈ registry_value)); reflexivity).
  by destruct (Hp 92 Hin) as (_ & _ & Hne).
Qed.

(** Whenever the daemon returns indicators it has written them to the
    JSON file and unmounted the disk last; and among them there always is the
    registry key whose backslashes are not escaped, so the file it has
    written holds a value that no JSON reader gives back. *)
Theorem daemon_json_unreadable c timestamp device w h iocs h' :
  run_daemon_pipeline read_file mkdir_ok tree read_blob c timestamp device w h = (Ok iocs, h') ->
  (exists json, iocs_json iocs = Some json /\ write_command IOC_JSON_PATH json ∈ h') /\
  (exists u, (u = umount_command \/ u = bs "sudo" :: umount_command) /\ last h' = Some u) /\
  (exists i, i ∈ iocs /\ ioc_type i = RegistryKey /\ value i = registry_value /\
     forall rest, json_string (value i ++ 34 :: rest) <> Some (value i, rest)).
Proof.
  unfold run_daemon_pipeline. intros E.
  apply cmd_bind_ok in E as (dev & h1 & _ & E). apply cmd_bind_ok in E as (path & h2 & _ & E).
  apply cmd_bind_ok in E as (dump & h3 & _ & E). cbv zeta in E.
  apply cmd_bind_ok in E as (bins & h4 & _ & E). apply cmd_bind_ok in E as (l1 & h5 & _ & E).
  apply cmd_bind_ok in E as (l2 & h6 & _ & E). apply cmd_bind_ok in E as (u & h7 & _ & E).
  apply cmd_bind_ok in E as (l3 & h8 & _ & E). apply cmd_bind_ok in E as (v & h9 & Hp & E).
  apply cmd_bind_ok in E as (x & h10 & Hc & E). apply mret_ok in E as [<- <-].
  destruct (cleanup_mount_runs w h9) as (um & Hum & t & Et & Hl). rewrite Et in Hc. injection Hc as _ <-.
  set (all := l1 ++ l2 ++ mock_iocs ++ l3) in *.
  destruct (deduplicate_keeps (MkIoc RegistryKey registry_value 50 (bs "mock_reg")) all) as (i & Hi & Ht & Hv).
  { unfold all. apply elem_of_app. right. apply elem_of_app. right. apply elem_of_app. left. right. left. }
  split_and!.
  - destruct (pushed _ _ _ _ _ _ Hi Hp) as (json & Ej & Hw). exists json. split; [done|].
    apply elem_of_app. by left.
  - exists um. split; [done|]. by apply last_app_some.
  - exists i. split_and!; [done|done|done|]. intros rest Hr%json_string_same. cbn [value] in Hv. rewrite Hv in Hr.
    by apply registry_value_not_plain.
Qed.
End daemon_correct.

(** ** Concrete runs *)

Section witnesses.
#[local] Existing Instance Ioc.Demo.ascii_only.

(** A second disk appears at the third poll. *)
Definition plug_in : nat -> option (list bytes) :=
  fun k => Some ([bs "tty0"; bs "sda"] ++ if (3 <=? k)%nat then [bs "sdb"] else []).

Lemma watch_terminates_witness :
  exists r, watch_for_hotplugged_device plug_in (fun k => 2 * Z.of_nat k) (S (Z.to_nat ((60 + 1) / 2))) 60 = Some r /\
    r = Ok (bs "/dev/sdb").
Proof.
  destruct (watch_terminates plug_in (fun k => 2 * Z.of_nat k) 60 (fun k => Z.le_refl _) ltac:(discriminate))
    as (r & E & _).
  exists r. split; [exact E|]. vm_compute in E. injection E as <-. reflexivity.
Defined.

Definition demo_tree : node :=
  NDir true [(bs "lost+found", NDir true []); (bs "notes.txt", NFile);
             (bs "dumps", NDir true [(bs "core_dump_42_7.bin", NFile)])].

Lemma find_blob_recursive_spec_witness :
  exists p, find_blob_recursive KP14_MOUNT_BASE demo_tree = Ok (Some p) /\
    blob_below KP14_MOUNT_BASE demo_tree p.
Proof.
  destruct (find_blob_recursive_spec KP14_MOUNT_BASE true
    [(bs "lost+found", NDir true []); (bs "notes.txt", NFile);
     (bs "dumps", NDir true [(bs "core_dump_42_7.bin", NFile)])]
    ltac:(repeat split)) as (o & E & Ho).
  vm_compute in E. injection E as <-. eexists. split; [vm_compute; reflexivity|exact Ho].
Defined.

Definition disk_blob : list command -> bytes -> option bytes :=
  fun _ _ => Some (package_core_dump 42 7 [] (bs "regs")).
Definition all_works : world := fun _ _ => Some (Output true []).

Lemma daemon_json_unreadable_witness :
  exists iocs h, run_daemon_pipeline (fun _ => None) (fun _ => true) (fun _ => demo_tree) disk_blob
      (new_client None) 9 (Ok (bs "/dev/sdb")) all_works [] = (Ok iocs, h) /\
    length iocs = 4%nat /\ exists i, i ∈ iocs /\ value i = registry_value.
Proof.
  eexists _, _. split; [vm_compute; reflexivity|]. split; [reflexivity|].
  destruct (daemon_json_unreadable (fun _ => None) (fun _ => true) (fun _ => demo_tree) disk_blob
    (new_client None) 9 (Ok (bs "/dev/sdb")) all_works [] _ _ ltac:(vm_compute; reflexivity))
    as (_ & _ & i & Hi & _ & Hv & _).
  exists i. split; [exact Hi|exact Hv].
Defined.
End witnesses.
