(* ===== verification/Main.v ===== *)
(** * The command line: [src/main.rs]

    What [main] does with its arguments before it starts the protection: the
    two modes that run one operation and exit. *)

From S2P Require Import Prelude Text Yara Shell Pipeline Daemon.

Inductive mode :=
  | Kp14Remote (host : bytes)
  | YaraRaw (path : bytes)
  | Protect.

(** The tests on [args]; [args[0]] is the program. *)
Definition mode_of (args : list bytes) : mode :=
  match args with
  | _ :: a :: b :: _ =>
      if bool_decide (a = bs "--kp14-remote") then Kp14Remote b
      else if bool_decide (a = bs "--yara-raw") then YaraRaw b
      else Protect
  | _ => Protect
  end.

Section main.
(** The machine: the listings of [/dev] and the clock, as in [Daemon], the
    files, and [f64::log2]. *)
Context (dev_listing : nat -> option (list bytes)) (elapsed : nat -> Z)
        (read_file : bytes -> option bytes) (log2 : SpecFloat.spec_float -> SpecFloat.spec_float).

(** How a mode that exits ends, given fuel for its wait; [None] inside: the
    protection starts. *)
Definition run_mode (fuel : nat) (m : mode) : option (option (outcome unit)) :=
  match m with
  | Kp14Remote host =>
      let _ := with_ssh_host host in
      r ← watch_for_hotplugged_device dev_listing elapsed fuel 1;
      Some (Some (_ ← r; Ok tt))
  | YaraRaw path =>
      match read_file path with
      | Some data => let _ := scan_raw_buffer log2 data in Some (Some (Ok tt))
      | None => Some (Some (Ok tt))
      end
  | Protect => Some None
  end.

(** The disks that appear between two listings. *)
Definition appeared (before after : list bytes) : list bytes :=
  List.filter (fun n => is_listed n && negb (bool_decide (n ∈ before))) after.

Lemma new_devices_appeared before after :
  new_devices (map (fun n => bs "/dev/" ++ n) (List.filter is_listed before))
    (map (fun n => bs "/dev/" ++ n) (List.filter is_listed after)) =
  map (fun n => bs "/dev/" ++ n) (appeared before after).
Proof.
  unfold new_devices, appeared. induction after as [|n after IH]; [done|]. cbn [List.filter].
  destruct (is_listed n) eqn:Ed; cbn [andb List.filter map]; [|done].
  assert (E : bool_decide (bs "/dev/" ++ n ∈ map (fun n => bs "/dev/" ++ n) (List.filter is_listed before)) =
    bool_decide (n ∈ before)).
  { apply bool_decide_ext. rewrite list_elem_of_In, in_map_iff. setoid_rewrite filter_In.
    setoid_rewrite <- list_elem_of_In. split.
    - intros (x & E & Hx & _). by apply app_inv_head in E as ->.
    - intros Hn. by exists n. }
  rewrite E. destruct (bool_decide (n ∈ before)); cbn [negb map]; by rewrite <- IH.
Qed.

(** The remote test looks once: with a clock on which the two seconds of
    sleep take at least one, it succeeds exactly when a disk appears on this
    machine in that time; the host it is given plays no part. *)
Theorem kp14_remote_looks_once fuel host before :
  elapsed 0%nat < 1 -> 1 <= elapsed 1%nat -> dev_listing 0%nat = Some before ->
  run_mode (2 + fuel) (Kp14Remote host) = Some (Some
    match dev_listing 1%nat with
    | Some after => if bool_decide (appeared before after = [])
                    then Err "Timed out waiting for hotplugged device" else Ok tt
    | None => Err "Failed to read /dev"
    end).
Proof.
  intros H0 H1 Hb. cbn [run_mode]. unfold watch_for_hotplugged_device. rewrite Hb.
  cbn [list_block_devices Nat.add watch]. rewrite (proj2 (Z.leb_gt _ _)) by done.
  destruct (dev_listing 1%nat) as [after|]; cbn [list_block_devices]; [|done].
  rewrite new_devices_appeared. destruct (appeared before after) as [|n l]; cbn [map].
  - by rewrite (proj2 (Z.leb_le _ _)) by done.
  - by rewrite bool_decide_eq_false_2 by done.
Qed.

(** The raw scan exits with success whatever the file holds and even when it
    cannot be read: its verdict is not reported. *)
Theorem yara_raw_succeeds fuel path : run_mode fuel (YaraRaw path) = Some (Some (Ok tt)).
Proof. cbn. by destruct (read_file path). Qed.
End main.

Lemma kp14_remote_looks_once_witness :
  run_mode (fun k => Some (replicate k (bs "sdb"))) (fun k => 2 * k) (fun _ => None) (fun x => x) 2
    (mode_of [bs "alphvdr"; bs "--kp14-remote"; bs "10.0.0.9"]) = Some (Some (Ok tt)).
Proof.
  refine (kp14_remote_looks_once (fun k => Some (replicate k (bs "sdb"))) (fun k => 2 * k) (fun _ => None)
    (fun x => x) 0 (bs "10.0.0.9") [] _ _ _); [lia|lia|reflexivity].
Defined.
