(* ===== verification/Agent.v ===== *)
(** * The agent: [src/main.rs]

    The ring-buffer callbacks of the event loop, the research-mode switch, the
    bounded channel of freeze orders to the responder, and the deception state
    the agent puts into the kernel maps when it starts. *)

From stdpp Require Import gmap.
From Stdlib Require SpecFloat.
From S2P Require Import Prelude CTypes Vmlinux Bpf Sensor Text Carver Qihse Yara Shell.

(** ** The records the kernel sends

    [repr(C)] gives a Rust struct the layout of the C struct with the same
    members. *)

Definition Event : ctype :=
  CStruct "Event" [
    fld "pid" (CInt true 4); fld "ppid" (CInt true 4); fld "uid" (CInt true 4);
    fld "comm" (CArr (CInt false 1) 16); fld "filename" (CArr (CInt false 1) 256)
  ].
Definition TlsHelloEvent : ctype :=
  CStruct "TlsHelloEvent" [
    fld "saddr" (CInt false 4); fld "daddr" (CInt false 4); fld "dport" (CInt false 2);
    fld "payload_len" (CInt false 2); fld "payload" (CArr (CInt false 1) 128)
  ].

(** [&*(data.as_ptr() as *const Event)], field by field. *)
Definition event_pid (data : bytes) : Z := i32 (le_val (get_field Event "pid" data)).
Definition event_ppid (data : bytes) : Z := i32 (le_val (get_field Event "ppid" data)).
Definition event_uid (data : bytes) : Z := i32 (le_val (get_field Event "uid" data)).

(** [String::from_utf8_lossy(field).trim_end_matches('\0').to_string()] *)
Definition field_string (l : bytes) : bytes := trim_end_byte 0 (from_utf8_lossy l).
Definition event_comm (data : bytes) : bytes := field_string (get_field Event "comm" data).
Definition event_filename (data : bytes) : bytes := field_string (get_field Event "filename" data).

(** ** State *)

Record agent := MkAgent {
  research_mode : bool;
  db : QihseClient;
  channel : list Z;      (* freeze orders in the mpsc channel, oldest first *)
  rx_alive : bool;       (* the responder still holds the receiver *)
  trace : list command   (* commands run, oldest first *)
}.

Definition CHANNEL_CAPACITY : nat := 1000.
Arguments CHANNEL_CAPACITY : simpl never.

Definition set_db (q : QihseClient) (a : agent) : agent :=
  MkAgent (research_mode a) q (channel a) (rx_alive a) (trace a).
Definition set_channel (l : list Z) (a : agent) : agent :=
  MkAgent (research_mode a) (db a) l (rx_alive a) (trace a).
Definition set_trace (h : list command) (a : agent) : agent :=
  MkAgent (research_mode a) (db a) (channel a) (rx_alive a) h.

(** The log is written whether or not the write succeeds; a failure is only
    printed. *)
Definition log_with (f : QihseClient -> QihseClient * outcome unit) (a : agent) : agent :=
  set_db (f (db a)).1 a.
Definition log_action (action target reason : bytes) : agent -> agent :=
  log_with (insert_edr_action action target reason).

(** [tx_exec.try_send(pid)]: refused when the channel is full or closed. *)
Definition try_send (pid : Z) (a : agent) : agent :=
  if rx_alive a && (length (channel a) <? CHANNEL_CAPACITY)%nat
  then set_channel (channel a ++ [pid]) a else a.

Definition pid_target (pid : Z) : bytes := bs "PID:" ++ show pid.

(** ** The ring-buffer callbacks *)

(** [if filename == name { .. insert_edr_action(..); .. try_send(pid) }] *)
Definition deception_trigger (name action : string) (pid : Z) (filename : bytes) (a : agent) : agent :=
  if bool_decide (filename = bs name)
  then try_send pid (log_action (bs action) (pid_target pid) (bs name) a)
  else a.

Definition yara_trigger (scan : Z -> option (bytes * bytes)) (pid : Z) (a : agent) : agent :=
  match scan pid with
  | Some (sig_name, region) =>
      let a := log_with (insert_yara_match pid sig_name region) a in
      let a := log_action (bs "FREEZE") (pid_target pid) (bs "YARA_MATCH:" ++ sig_name) a in
      try_send pid a
  | None => a
  end.

Definition heuristic_trigger (pid : Z) (comm filename : bytes) (a : agent) : agent :=
  if bool_decide (comm = bs "malware") || contains (bs "/tmp/pwn") filename
  then try_send pid (log_action (bs "FREEZE") (pid_target pid) (bs "HEURISTIC_MOCK_THREAT") a)
  else a.

Definition home_dataset : ZfsManager := MkZfs (bs "rpool/home").

Definition ransomware_trigger (w : world) (pid : Z) (comm filename : bytes) (a : agent) : agent :=
  if bool_decide (comm = bs "ransomware") || bool_decide (ends_with (bs ".enc") filename) then
    let a := log_action (bs "FREEZE") (pid_target pid) (bs "RANSOMWARE_ENCRYPTION_BURST") a in
    let a := log_action (bs "ZFS_ROLLBACK") (bs "rpool/home") (bs "RANSOMWARE_ENCRYPTION_BURST") a in
    let a := try_send pid a in
    set_trace (trigger_rollback home_dataset w (trace a)).2 a
  else a.

(** The closure registered for [skel.maps.events]; [scan] is
    [yara_engine.scan_process_memory] of the process with that id, now. *)
Definition handle_event (w : world) (scan : Z -> option (bytes * bytes)) (data : bytes) (a : agent)
    : agent :=
  if research_mode a then a else
  if negb (length data =? size Event)%nat then a else
  let pid := event_pid data in
  let comm := event_comm data in
  let filename := event_filename data in
  let a := log_with (insert_event pid (event_ppid data) (event_uid data) comm filename) a in
  let a := deception_trigger "HONEYTOKEN_TRIGGERED" "FREEZE" pid filename a in
  let a := deception_trigger "GHOST_PROCESS_TRAP" "FREEZE" pid filename a in
  let a := deception_trigger "PRIVILEGE_ESCALATION_TRAP" "SIGSTOP" pid filename a in
  let a := deception_trigger "UNAUTHORIZED_EXEC_TRAP" "SIGSTOP" pid filename a in
  let a := deception_trigger "SELF_DEFENSE_TRAP" "SIGSTOP" pid filename a in
  let a := deception_trigger "INODE_EXHAUSTION_TRAP" "SIGSTOP" pid filename a in
  let a := deception_trigger "JOURNALD_EXHAUSTION_TRAP" "SIGSTOP" pid filename a in
  let a := yara_trigger scan pid a in
  let a := heuristic_trigger pid comm filename a in
  ransomware_trigger w pid comm filename a.

(** [handle_tls_event]: its client writes the same log file. *)
Definition handle_tls_event (data : bytes) (a : agent) : agent :=
  if negb (length data =? size TlsHelloEvent)%nat then a else
  log_with (insert_tls_telemetry
    (le_val (get_field TlsHelloEvent "saddr" data)) (le_val (get_field TlsHelloEvent "daddr" data))
    (le_val (get_field TlsHelloEvent "dport" data))
    (le_val (get_field TlsHelloEvent "payload_len" data))) a.

(** The scan of a process by its id, over the processes of the machine. *)
Definition scan_with (log2 : SpecFloat.spec_float -> SpecFloat.spec_float) (procs : Z -> proc)
    (pid : Z) : option (bytes * bytes) :=
  scan_process_memory log2 (procs pid).

(** ** Layout agreement *)

(** The agent reads the kernel's records with the kernel's layout: both
    structs have the C structs' sizes, and for every block of bytes the five
    fields of an event, and the fields of a TLS report, read the same on both
    sides. *)
Theorem layouts_agree data :
  size Event = size struct_event /\ size TlsHelloEvent = size struct_tls_hello_event /\
  decode_event data = EventFields (event_pid data) (event_ppid data) (event_uid data)
    (get_field Event "comm" data) (get_field Event "filename" data) /\
  Forall (fun f => get_field TlsHelloEvent f data = get_field struct_tls_hello_event f data)
    ["saddr"; "daddr"; "dport"; "payload_len"; "payload"]%string.
Proof. split_and!; [reflexivity..|]. repeat constructor; reflexivity. Qed.

(** ** Specification of the event callback

    The callback is a fixed sequence of effects, computed from the record and
    the scan before any of them happens. *)

Inductive effect :=
  | Log (f : QihseClient -> QihseClient * outcome unit)
  | Order (pid : Z)
  | Rollback.

Definition do_effect (w : world) (a : agent) (e : effect) : agent :=
  match e with
  | Log f => log_with f a
  | Order pid => try_send pid a
  | Rollback => set_trace (trace a ++ [rollback_command home_dataset]) a
  end.

(** The trap names and the action each is logged with. *)
Definition trap_table : list (string * string) :=
  [ ("HONEYTOKEN_TRIGGERED", "FREEZE"); ("GHOST_PROCESS_TRAP", "FREEZE");
    ("PRIVILEGE_ESCALATION_TRAP", "SIGSTOP"); ("UNAUTHORIZED_EXEC_TRAP", "SIGSTOP");
    ("SELF_DEFENSE_TRAP", "SIGSTOP"); ("INODE_EXHAUSTION_TRAP", "SIGSTOP");
    ("JOURNALD_EXHAUSTION_TRAP", "SIGSTOP") ]%string.
Definition trap_of (filename : bytes) : option (string * string) :=
  snd <$> list_find (fun t => filename = bs t.1) trap_table.

Definition order_for (pid : Z) (action reason : bytes) : list effect :=
  [Log (insert_edr_action action (pid_target pid) reason); Order pid].

Definition looks_malicious (comm filename : bytes) : bool :=
  bool_decide (comm = bs "malware") || contains (bs "/tmp/pwn") filename.
Definition looks_ransomware (comm filename : bytes) : bool :=
  bool_decide (comm = bs "ransomware") || bool_decide (ends_with (bs ".enc") filename).

Definition trap_effects (pid : Z) (filename : bytes) : list effect :=
  match trap_of filename with
  | Some (name, action) => order_for pid (bs action) (bs name)
  | None => []
  end.
Definition yara_effects (scan : Z -> option (bytes * bytes)) (pid : Z) : list effect :=
  match scan pid with
  | Some (sig_name, region) =>
      Log (insert_yara_match pid sig_name region) ::
      order_for pid (bs "FREEZE") (bs "YARA_MATCH:" ++ sig_name)
  | None => []
  end.
Definition heuristic_effects (pid : Z) (comm filename : bytes) : list effect :=
  if looks_malicious comm filename
  then order_for pid (bs "FREEZE") (bs "HEURISTIC_MOCK_THREAT") else [].
Definition ransomware_effects (pid : Z) (comm filename : bytes) : list effect :=
  if looks_ransomware comm filename then
    [ Log (insert_edr_action (bs "FREEZE") (pid_target pid) (bs "RANSOMWARE_ENCRYPTION_BURST"));
      Log (insert_edr_action (bs "ZFS_ROLLBACK") (bs "rpool/home") (bs "RANSOMWARE_ENCRYPTION_BURST"));
      Order pid; Rollback ]
  else [].

Definition effects (scan : Z -> option (bytes * bytes)) (data : bytes) : list effect :=
  let pid := event_pid data in
  let comm := event_comm data in
  let filename := event_filename data in
  Log (insert_event pid (event_ppid data) (event_uid data) comm filename) ::
  trap_effects pid filename ++ yara_effects scan pid ++
  heuristic_effects pid comm filename ++ ransomware_effects pid comm filename.

Definition accepted (data : bytes) (a : agent) : Prop :=
  research_mode a = false /\ length data = size Event.

Lemma triggers_silent table pid filename a :
  Forall (fun t : string * string => filename <> bs t.1) table ->
  fold_left (fun a t => deception_trigger t.1 t.2 pid filename a) table a = a.
Proof.
  induction 1 as [|t table Ht Hts IH]; [done|]. cbn [fold_left].
  unfold deception_trigger at 2. by rewrite bool_decide_eq_false_2.
Qed.

(** At most one trigger of a table of distinct names fires. *)
Lemma triggers_table w table pid filename a :
  NoDup (map (fun t : string * string => bs t.1) table) ->
  fold_left (fun a t => deception_trigger t.1 t.2 pid filename a) table a =
  match snd <$> list_find (fun t => filename = bs t.1) table with
  | Some (name, action) => fold_left (do_effect w) (order_for pid (bs action) (bs name)) a
  | None => a
  end.
Proof.
  induction table as [|[name action] table IH]; [done|]. cbn [map fst].
  rewrite NoDup_cons. intros [Hnew Hnd]. cbn [fold_left fst snd list_find].
  unfold deception_trigger at 2. destruct (decide (filename = bs name)) as [Hf|Hf].
  - rewrite bool_decide_eq_true_2 by done. cbn. apply triggers_silent, Forall_forall.
    intros t Ht ->. apply Hnew. rewrite <- Hf. apply list_elem_of_fmap. by exists t.
  - rewrite bool_decide_eq_false_2 by done. rewrite IH by done.
    by destruct (list_find _ table) as [[i [n' a']]|].
Qed.

Lemma trap_table_nodup : NoDup (map (fun t : string * string => bs t.1) trap_table).
Proof. apply (bool_decide_unpack _). vm_compute. exact I. Qed.

(** The callback performs the effects in order. *)
Lemma handle_event_effects w scan data a :
  accepted data a ->
  handle_event w scan data a = fold_left (do_effect w) (effects scan data) a.
Proof.
  intros [Hr Hl]. unfold handle_event. rewrite Hr, Hl, Nat.eqb_refl. cbn [negb].
  unfold effects. cbn [fold_left]. rewrite !fold_left_app. cbn [do_effect].
  set (a1 := log_with _ a). set (pid := event_pid data). set (filename := event_filename data).
  transitivity (ransomware_trigger w pid (event_comm data) filename
    (heuristic_trigger pid (event_comm data) filename
      (yara_trigger scan pid
        (fold_left (fun a t => deception_trigger t.1 t.2 pid filename a) trap_table a1)))); [done|].
  rewrite (triggers_table w) by apply trap_table_nodup. fold (trap_of filename).
  assert (Et : match trap_of filename with
    | Some (name, action) => fold_left (do_effect w) (order_for pid (bs action) (bs name)) a1
    | None => a1 end = fold_left (do_effect w) (trap_effects pid filename) a1)
    by (unfold trap_effects; by destruct (trap_of filename) as [[n act]|]).
  rewrite Et. set (a2 := fold_left _ (trap_effects _ _) _).
  unfold yara_trigger, yara_effects, heuristic_trigger, heuristic_effects,
    ransomware_trigger, ransomware_effects, looks_malicious, looks_ransomware.
  assert (Ew : forall w h, (trigger_rollback home_dataset w h).2 = h ++ [rollback_command home_dataset])
    by (intros; apply run_checked_eq).
  destruct (scan pid) as [[s r]|]; destruct (_ || contains _ _); destruct (_ || bool_decide (ends_with _ _));
    cbn [fold_left order_for do_effect]; by rewrite ?Ew.
Qed.

(** *** What effects do to each part of the state *)

Definition orders (l : list effect) : list Z :=
  omap (fun e => if e is Order pid then Some pid else None) l.
Definition log_effects (l : list effect) : list (QihseClient -> QihseClient * outcome unit) :=
  omap (fun e => if e is Log f then Some f else None) l.

Lemma take_take_app (n : nat) (l r s : list Z) : take n (take n (l ++ r) ++ s) = take n (l ++ r ++ s).
Proof.
  rewrite app_assoc. destruct (decide (length (l ++ r) <= n)%nat).
  - by rewrite (take_ge (l ++ r)).
  - rewrite (take_app_le (take n (l ++ r))) by (rewrite length_take; lia).
    rewrite take_take, Nat.min_id. by rewrite (take_app_le (l ++ r)) by lia.
Qed.

Lemma try_send_spec pid a :
  (length (channel a) <= CHANNEL_CAPACITY)%nat ->
  channel (try_send pid a) =
    (if rx_alive a then take CHANNEL_CAPACITY (channel a ++ [pid]) else channel a) /\
  rx_alive (try_send pid a) = rx_alive a /\ db (try_send pid a) = db a /\
  trace (try_send pid a) = trace a /\ research_mode (try_send pid a) = research_mode a.
Proof.
  intros Hl. unfold try_send. destruct (rx_alive a) eqn:E; cbn [andb]; [|done].
  destruct (Nat.ltb_spec (length (channel a)) CHANNEL_CAPACITY); cbn; rewrite ?E.
  - split_and!; try done. rewrite take_ge; [done|]. rewrite length_app. cbn [length]. lia.
  - split_and!; try done. rewrite take_app_le by lia. by rewrite take_ge by lia.
Qed.

Lemma length_channel_bound (b : bool) (c r : list Z) :
  (length c <= CHANNEL_CAPACITY)%nat ->
  (length (if b then take CHANNEL_CAPACITY (c ++ r) else c) <= CHANNEL_CAPACITY)%nat.
Proof. intros. destruct b; [rewrite length_take|]; lia. Qed.

Lemma fold_effects_spec w l a :
  (length (channel a) <= CHANNEL_CAPACITY)%nat ->
  let a' := fold_left (do_effect w) l a in
  rx_alive a' = rx_alive a /\ research_mode a' = research_mode a /\
  channel a' = (if rx_alive a then take CHANNEL_CAPACITY (channel a ++ orders l) else channel a) /\
  db a' = fold_left (fun q f => (f q).1) (log_effects l) (db a).
Proof.
  revert a; induction l as [|e l IH]; intros a Hl; cbv zeta.
  { cbn. split_and!; try done. rewrite app_nil_r, take_ge by lia. by destruct (rx_alive a). }
  cbn [fold_left]. unfold orders, log_effects. cbn [omap list_omap].
  fold (orders l) (log_effects l).
  destruct e as [f|pid|].
  - apply (IH (log_with f a)). exact Hl.
  - cbn [do_effect]. destruct (try_send_spec pid a Hl) as (E1 & E2 & E3 & E4 & E5).
    destruct (IH (try_send pid a)) as (I1 & I2 & I3 & I4); [rewrite E1; by apply length_channel_bound|].
    rewrite I1, I2, I3, I4, E1, E2, E3, E5. split_and!; try done.
    destruct (rx_alive a); [|done]. by rewrite take_take_app.
  - apply (IH (set_trace _ a)). exact Hl.
Qed.

Lemma fold_effects_trace w l a :
  Forall (fun e => e <> Rollback) l -> trace (fold_left (do_effect w) l a) = trace a.
Proof.
  intros Hl. revert a; induction Hl as [|e l He Hl IH]; intros a; [done|]. cbn [fold_left].
  rewrite IH. destruct e; [done| |done]. cbn. unfold try_send. by case_match.
Qed.

(** *** Orders *)

Definition trap_fires (filename : bytes) : bool := bool_decide (is_Some (trap_of filename)).
Definition yara_fires (scan : Z -> option (bytes * bytes)) (pid : Z) : bool :=
  bool_decide (is_Some (scan pid)).

(** How many of the four tests fire on an event. *)
Definition order_count (scan : Z -> option (bytes * bytes)) (data : bytes) : nat :=
  Nat.b2n (trap_fires (event_filename data)) + Nat.b2n (yara_fires scan (event_pid data)) +
  Nat.b2n (looks_malicious (event_comm data) (event_filename data)) +
  Nat.b2n (looks_ransomware (event_comm data) (event_filename data)).

Lemma orders_app l1 l2 : orders (l1 ++ l2) = orders l1 ++ orders l2.
Proof. apply omap_app. Qed.

Lemma orders_effects scan data :
  orders (effects scan data) = replicate (order_count scan data) (event_pid data).
Proof.
  unfold effects, order_count. set (pid := event_pid data).
  change (orders (Log ?f :: ?l)) with (orders l). rewrite !orders_app, !replicate_add, <- !app_assoc.
  f_equal; [|f_equal; [|f_equal]].
  - unfold trap_effects, trap_fires. by destruct (trap_of _) as [[n act]|].
  - unfold yara_effects, yara_fires. by destruct (scan pid) as [[s r]|].
  - unfold heuristic_effects. by destruct (looks_malicious _ _).
  - unfold ransomware_effects. by destruct (looks_ransomware _ _).
Qed.

(** Only a ransomware verdict runs a command, once and last. *)
Lemma trace_effects w scan data a :
  trace (fold_left (do_effect w) (effects scan data) a) =
    trace a ++ (if looks_ransomware (event_comm data) (event_filename data)
                then [rollback_command home_dataset] else []).
Proof.
  set (pid := event_pid data). set (f := event_filename data). set (c := event_comm data).
  set (l := Log (insert_event pid (event_ppid data) (event_uid data) c f) ::
    trap_effects pid f ++ yara_effects scan pid ++ heuristic_effects pid c f).
  assert (E : effects scan data = l ++ ransomware_effects pid c f)
    by (unfold effects, l; cbn [app]; by rewrite <- !app_assoc).
  assert (Hl : Forall (fun e => e <> Rollback) l).
  { constructor; [done|]. rewrite !Forall_app.
    unfold trap_effects, yara_effects, heuristic_effects, order_for.
    split_and!; repeat case_match; repeat constructor; done. }
  rewrite E, fold_left_app, <- (fold_effects_trace w l a Hl).
  set (a1 := fold_left _ l a). unfold ransomware_effects. destruct (looks_ransomware c f).
  - cbn. unfold try_send. by case_match.
  - by rewrite app_nil_r.
Qed.

(** C11: a record of the wrong size, and every record while research mode is
    on, changes nothing.  Otherwise the callback queues the event's process,
    and no other, once for each test that fires (a trap name, a signature
    match, the heuristic, the ransomware rule), as far as the channel's 1000
    places reach; and it runs one command, the rollback, exactly on a
    ransomware verdict. *)
Theorem handle_event_orders w scan data a :
  (length (channel a) <= CHANNEL_CAPACITY)%nat ->
  let a' := handle_event w scan data a in
  (research_mode a = true \/ length data <> size Event -> a' = a) /\
  (research_mode a = false -> length data = size Event ->
    channel a' = (if rx_alive a
      then take CHANNEL_CAPACITY (channel a ++ replicate (order_count scan data) (event_pid data))
      else channel a) /\
    trace a' = trace a ++ (if looks_ransomware (event_comm data) (event_filename data)
                           then [rollback_command home_dataset] else [])).
Proof.
  intros Hc a'. split.
  - unfold a', handle_event. intros [-> |Hl]; [done|]. apply Nat.eqb_neq in Hl.
    rewrite Hl. by destruct (research_mode a).
  - intros Hr Hl. unfold a'. rewrite handle_event_effects by done.
    destruct (fold_effects_spec w (effects scan data) a Hc) as (_ & _ & -> & _).
    by rewrite orders_effects, trace_effects.
Qed.

(** *** The log *)

Definition action_line (action : bytes) (pid : Z) (reason : bytes) : bytes :=
  edr_line action (pid_target pid) reason.

(** The lines an event adds to the log. *)
Definition log_lines (scan : Z -> option (bytes * bytes)) (data : bytes) : list bytes :=
  let pid := event_pid data in
  let comm := event_comm data in
  let filename := event_filename data in
  [event_line pid (event_ppid data) (event_uid data) comm filename] ++
  (if trap_of filename is Some (name, action) then [action_line (bs action) pid (bs name)] else []) ++
  (if scan pid is Some (s, r)
   then [yara_line pid s r; action_line (bs "FREEZE") pid (bs "YARA_MATCH:" ++ s)] else []) ++
  (if looks_malicious comm filename
   then [action_line (bs "FREEZE") pid (bs "HEURISTIC_MOCK_THREAT")] else []) ++
  (if looks_ransomware comm filename
   then [action_line (bs "FREEZE") pid (bs "RANSOMWARE_ENCRYPTION_BURST");
         edr_line (bs "ZFS_ROLLBACK") (bs "rpool/home") (bs "RANSOMWARE_ENCRYPTION_BURST")]
   else []).

Definition writable (q : QihseClient) : Prop := wal_ok q = true /\ connection_string q <> [].

(** A call that appends a line to a log that can be written. *)
Definition writes (f : QihseClient -> QihseClient * outcome unit) (line : bytes) : Prop :=
  forall q, writable q -> (f q).1 = set_wal (wal q ++ line ++ [newline]) q.

Lemma append_writes line : writes (append line) line.
Proof. intros q [Hok _]. unfold append. by rewrite Hok. Qed.

Lemma insert_event_writes pid ppid uid comm filename :
  writes (insert_event pid ppid uid comm filename) (event_line pid ppid uid comm filename).
Proof.
  intros q Hw. unfold insert_event. destruct (connection_string q) eqn:E; [by destruct Hw|].
  by apply append_writes.
Qed.

Lemma fold_writes fs ls q :
  Forall2 writes fs ls -> writable q ->
  fold_left (fun q f => (f q).1) fs q = set_wal (wal q ++ log_of ls) q.
Proof.
  intros Hf. revert q. induction Hf as [|f l fs ls Hw Hf IH]; intros q Hq.
  { cbn. rewrite app_nil_r. by destruct q. }
  cbn [fold_left]. rewrite Hw by done. rewrite IH by done.
  unfold log_of. cbn. by rewrite <- !app_assoc.
Qed.

Lemma log_effects_lines scan data : Forall2 writes (log_effects (effects scan data)) (log_lines scan data).
Proof.
  unfold effects, log_lines, log_effects. cbn [omap list_omap app].
  constructor; [apply insert_event_writes|].
  change (list_omap _ _ ?f ?l) with (omap f l). rewrite !omap_app.
  repeat apply Forall2_app.
  - unfold trap_effects. destruct (trap_of _) as [[n act]|]; repeat constructor; apply append_writes.
  - unfold yara_effects. destruct (scan _) as [[s r]|]; repeat constructor; apply append_writes.
  - unfold heuristic_effects. destruct (looks_malicious _ _); repeat constructor; apply append_writes.
  - unfold ransomware_effects. destruct (looks_ransomware _ _); repeat constructor; apply append_writes.
Qed.

(** C25: while the switch is off and the log can be written, an event appends
    to the log exactly its own line, then one action line if its file name is a
    trap's, the match and the action of the scanner, the heuristic's action and
    the two ransomware actions, each when it applies, in this order. *)
Theorem handle_event_log w scan data a :
  (length (channel a) <= CHANNEL_CAPACITY)%nat ->
  research_mode a = false -> length data = size Event -> writable (db a) ->
  wal (db (handle_event w scan data a)) = wal (db a) ++ log_of (log_lines scan data).
Proof.
  intros Hc Hr Hl Hw. rewrite handle_event_effects by done.
  destruct (fold_effects_spec w (effects scan data) a Hc) as (_ & _ & _ & ->).
  by rewrite (fold_writes _ (log_lines scan data)) by auto using log_effects_lines.
Qed.

(** ** The kernel's trap reaches the responder *)

(** A trap name is seven-bit text without a NUL, so a field that holds it and
    NULs decodes to it. *)
Lemma trap_field_string name n :
  name ∈ map fst trap_table ->
  field_string (c_str name ++ replicate n 0) = bs name.
Proof.
  intros Hin. assert (Hall : Forall (fun name => Forall (fun b => 0 < b < 128) (bs name) /\ bs name <> [])
    (map fst trap_table)) by (apply (bool_decide_unpack _); vm_compute; exact I).
  rewrite Forall_forall in Hall. destruct (Hall name Hin) as [Hb Hne].
  unfold field_string, c_str. rewrite from_utf8_lossy_id.
  - destruct (bs name) as [|b l _] using rev_ind; [done|].
    apply Forall_app in Hb as [_ [Hb _]%Forall_cons].
    rewrite <- !app_assoc. change ([0] ++ replicate n 0) with (replicate (S n) 0).
    apply trim_end_byte_app. lia.
  - apply valid_utf8_ascii. rewrite !Forall_app. split_and!.
    + eapply Forall_impl; [exact Hb|]. simpl. lia.
    + repeat constructor; lia.
    + apply Forall_replicate. lia.
Qed.

Lemma agent_event_size : size Event = 284%nat.
Proof. vm_compute. reflexivity. Qed.

(** The record a trap submits over a cleared reservation. *)
Definition trap_record (pid ppid uid : Z) (comm : bytes) (name : string) : bytes :=
  fill_trap pid ppid uid comm name (replicate 284 0).

Lemma trap_record_decode pid ppid uid comm name :
  length comm = 16%nat -> name ∈ map fst trap_table ->
  length (trap_record pid ppid uid comm name) = size Event /\
  event_pid (trap_record pid ppid uid comm name) = i32 pid /\
  event_filename (trap_record pid ppid uid comm name) = bs name.
Proof.
  intros Hc Hin. assert (Hl : (length (c_str name) <= 256)%nat).
  { assert (H : Forall (fun name => length (c_str name) <= 256)%nat (map fst trap_table))
      by (apply (bool_decide_unpack _); vm_compute; exact I).
    rewrite Forall_forall in H. by apply H. }
  pose proof (fill_trap_decode pid ppid uid comm name (replicate 284 0) eq_refl Hc Hl) as Hd.
  split.
  { rewrite agent_event_size. unfold trap_record. apply fill_trap_length; [apply length_replicate|done|done]. }
  unfold trap_record, event_filename.
  change (event_pid (fill_trap pid ppid uid comm name (replicate 284 0)))
    with (ev_pid (decode_event (fill_trap pid ppid uid comm name (replicate 284 0)))).
  change (get_field Event "filename" (fill_trap pid ppid uid comm name (replicate 284 0)))
    with (ev_filename (decode_event (fill_trap pid ppid uid comm name (replicate 284 0)))).
  rewrite Hd. split; [done|]. cbn [ev_filename].
  rewrite drop_replicate. by apply trap_field_string.
Qed.

(** ** The agent as a state machine

    The event loop, the research-mode monitor and the responder run
    concurrently; between them they share the channel and the switch.  A step
    is one callback, one tick of the monitor, or one order taken by the
    responder; any interleaving is a sequence of steps. *)

Definition set_research (b : bool) (a : agent) : agent :=
  MkAgent b (db a) (channel a) (rx_alive a) (trace a).

Record system := MkSystem {
  sys_agent : agent;
  sys_seen : list (bool * bytes);  (* event records delivered, with the switch then *)
  sys_stopped : list Z             (* pids the responder sent SIGSTOP to *)
}.

Inductive step : system -> system -> Prop :=
  | step_event w scan data a seen stopped :
      step (MkSystem a seen stopped)
           (MkSystem (handle_event w scan data a) (seen ++ [(research_mode a, data)]) stopped)
  | step_tls data a seen stopped :
      step (MkSystem a seen stopped) (MkSystem (handle_tls_event data a) seen stopped)
  | step_monitor active a seen stopped :
      step (MkSystem a seen stopped) (MkSystem (set_research active a) seen stopped)
  | step_respond pid rest a seen stopped :
      channel a = pid :: rest ->
      step (MkSystem a seen stopped) (MkSystem (set_channel rest a) seen (stopped ++ [pid])).

Inductive steps : system -> system -> Prop :=
  | steps_refl s : steps s s
  | steps_step s1 s2 s3 : step s1 s2 -> steps s2 s3 -> steps s1 s3.

(** The records that count: of the right size, delivered with the switch off. *)
Definition counted (x : bool * bytes) : bool := negb x.1 && (length x.2 =? size Event)%nat.
Definition reported (seen : list (bool * bytes)) : list Z :=
  map (fun x => event_pid x.2) (List.filter counted seen).

Definition system_inv (s : system) : Prop :=
  (length (channel (sys_agent s)) <= CHANNEL_CAPACITY)%nat /\
  (forall pid, pid ∈ sys_stopped s ++ channel (sys_agent s) -> pid ∈ reported (sys_seen s)) /\
  (length (sys_stopped s ++ channel (sys_agent s)) <= 4 * length (reported (sys_seen s)))%nat.

Lemma order_count_le scan data : (order_count scan data <= 4)%nat.
Proof.
  unfold order_count, Nat.b2n. repeat match goal with |- context [if ?b then 1%nat else 0%nat] => destruct b end; lia.
Qed.

Lemma handle_event_channel w scan data a :
  (length (channel a) <= CHANNEL_CAPACITY)%nat ->
  exists n, (n <= (if counted (research_mode a, data) then 4 else 0))%nat /\
    channel (handle_event w scan data a) = channel a ++ replicate n (event_pid data) /\
    (length (channel (handle_event w scan data a)) <= CHANNEL_CAPACITY)%nat.
Proof.
  intros Hc. unfold counted. cbn [fst snd].
  destruct (research_mode a) eqn:Er.
  { exists 0%nat. unfold handle_event. rewrite Er. rewrite app_nil_r. by split_and!. }
  destruct (Nat.eqb_spec (length data) (size Event)) as [El|El].
  2:{ exists 0%nat. unfold handle_event. rewrite Er, (proj2 (Nat.eqb_neq _ _) El), app_nil_r. by split_and!. }
  rewrite handle_event_effects by done.
  destruct (fold_effects_spec w (effects scan data) a Hc) as (_ & _ & -> & _).
  rewrite orders_effects. pose proof (order_count_le scan data). destruct (rx_alive a).
  - exists (order_count scan data `min` (CHANNEL_CAPACITY - length (channel a)))%nat.
    cbn [negb andb]. split; [lia|]. split; [|rewrite length_take; lia].
    rewrite take_app_ge, take_replicate by lia. do 2 f_equal. lia.
  - exists 0%nat. rewrite app_nil_r. split_and!; [lia|done|done].
Qed.

Lemma handle_tls_channel data a : channel (handle_tls_event data a) = channel a.
Proof. unfold handle_tls_event. by case_match. Qed.

Lemma reported_snoc seen x :
  reported (seen ++ [x]) = reported seen ++ (if counted x then [event_pid x.2] else []).
Proof.
  unfold reported. rewrite List.filter_app, map_app. f_equal. simpl. by destruct (counted x).
Qed.

Lemma step_inv s s' : step s s' -> system_inv s -> system_inv s'.
Proof.
  intros Hs (Hc & Hin & Hlen). destruct Hs as [w scan data a seen stopped|data a seen stopped
    |active a seen stopped|pid rest a seen stopped Hch]; unfold system_inv in *;
    cbn [sys_agent sys_seen sys_stopped] in *.
  - destruct (handle_event_channel w scan data a Hc) as (n & Hn & E & Hc').
    rewrite reported_snoc. split; [done|]. rewrite E, app_assoc. cbn [snd] in *.
    destruct (counted (research_mode a, data)).
    + split.
      * intros pid [H|[-> _]%elem_of_replicate]%elem_of_app; set_solver.
      * rewrite !length_app, length_replicate in *. cbn [length]. lia.
    + replace n with 0%nat by lia. by rewrite !app_nil_r.
  - by rewrite handle_tls_channel.
  - done.
  - rewrite Hch in *. cbn [channel set_channel]. rewrite <- app_assoc. cbn [app].
    split_and!; [cbn [length] in Hc; lia|done|done].
Qed.

Definition initial (a : agent) : system := MkSystem a [] [].

Lemma steps_inv s s' : steps s s' -> system_inv s -> system_inv s'.
Proof. induction 1; eauto using step_inv. Qed.

(** In every interleaving of kernel records, research-mode switches and
    responder turns, a process is queued for or sent SIGSTOP only when a
    record of the right size naming it arrived while research mode was off;
    there are at most four orders per record, and never more than 1000
    waiting. *)
Theorem freezes_only_reported a s :
  channel a = [] -> steps (initial a) s ->
  (forall pid, pid ∈ sys_stopped s ++ channel (sys_agent s) ->
     exists data, (false, data) ∈ sys_seen s /\ length data = size Event /\ pid = event_pid data) /\
  (length (sys_stopped s ++ channel (sys_agent s)) <= 4 * length (sys_seen s))%nat /\
  (length (channel (sys_agent s)) <= 1000)%nat.
Proof.
  intros Ha Hs. apply steps_inv in Hs as (Hc & Hin & Hlen).
  2:{ split_and!; cbn; rewrite Ha; [simpl; lia|by intros ? ?%elem_of_nil|simpl; lia]. }
  split_and!; [|etrans; [exact Hlen|]|exact Hc].
  - intros pid Hp%Hin. unfold reported in Hp. apply list_elem_of_In, in_map_iff in Hp as ([b data] & <- & Hp).
    apply filter_In in Hp as [Hp Hk]. unfold counted in Hk. cbn [fst snd] in *. bool_prop.
    destruct b; [done|]. exists data. split_and!; [by apply list_elem_of_In|by apply Nat.eqb_eq|done].
  - unfold reported. rewrite length_map. pose proof (List.filter_length_le counted (sys_seen s)). lia.
Qed.

(** ** Concrete runs *)

Module Demo.
Definition the_agent : agent := MkAgent false Qihse.Demo.client [7] true [].
Definition no_scan : Z -> option (bytes * bytes) := fun _ => None.
Definition idle_world : world := fun _ _ => Some (Output true []).
(** A trap event of process 42, and an encryption burst of process 43. *)
Definition trap_data : bytes :=
  trap_record 42 (-1) 1000 (Sensor.Demo.comm "bash") "HONEYTOKEN_TRIGGERED".
Definition enc_data : bytes :=
  fill_trap 43 1 1000 (Sensor.Demo.comm "ransomware") "/home/john/a.enc" (replicate 284 0).
End Demo.

Section witnesses.
Import Demo.

Lemma handle_event_orders_witness :
  channel (handle_event idle_world no_scan trap_data the_agent) = [7; 42] /\
  channel (handle_event idle_world no_scan enc_data the_agent) = [7; 43] /\
  trace (handle_event idle_world no_scan enc_data the_agent) = [rollback_command home_dataset].
Proof.
  destruct (handle_event_orders idle_world no_scan trap_data the_agent ltac:(vm_compute; lia)) as [_ H1].
  destruct (handle_event_orders idle_world no_scan enc_data the_agent ltac:(vm_compute; lia)) as [_ H2].
  destruct (H1 eq_refl eq_refl) as [H1c _]. destruct (H2 eq_refl eq_refl) as [H2c H2t].
  split; [rewrite H1c; vm_compute; reflexivity|].
  split; [rewrite H2c; vm_compute; reflexivity|rewrite H2t; vm_compute; reflexivity].
Defined.

Lemma handle_event_log_witness :
  wal (db (handle_event idle_world no_scan trap_data the_agent)) =
    wal Qihse.Demo.client ++ log_of (log_lines no_scan trap_data).
Proof.
  apply (handle_event_log idle_world no_scan trap_data the_agent);
    [vm_compute; lia|reflexivity|vm_compute; reflexivity|split; [reflexivity|vm_compute; congruence]].
Defined.

Lemma freezes_only_reported_witness :
  exists s, steps (initial (set_channel [] the_agent)) s /\ sys_stopped s = [42] /\
    exists data, (false, data) ∈ sys_seen s /\ length data = size Event /\ 42 = event_pid data.
Proof.
  assert (E : channel (handle_event idle_world no_scan trap_data (set_channel [] the_agent)) = [42])
    by (vm_compute; reflexivity).
  set (a1 := handle_event idle_world no_scan trap_data (set_channel [] the_agent)) in *.
  set (s := MkSystem (set_channel [] a1) ([] ++ [(false, trap_data)]) ([] ++ [42])).
  assert (Hs : steps (initial (set_channel [] the_agent)) s).
  { eapply steps_step; [apply (step_event idle_world no_scan trap_data)|].
    eapply steps_step; [apply (step_respond 42 []); exact E|apply steps_refl]. }
  exists s. split; [exact Hs|]. split; [reflexivity|].
  apply (freezes_only_reported (set_channel [] the_agent) s eq_refl Hs). left.
Defined.
End witnesses.
