(* ===== verification/Responder.v ===== *)
(** * The responder: [src/main.rs]

    The task that takes freeze orders from the channel: it stops the process,
    carves its memory, routes the blob to the analysis VM and schedules the
    analysis and the clean-up.  The second part states the contract between
    the event loop and the responder, a bounded first-in first-out queue, as
    an abstract machine that the agent refines, and shows that every accepted
    order is served. *)

From S2P Require Import Prelude CTypes Vmlinux Text Carver Yara Shell Proxmox Ioc Pipeline Agent.

(** ** One order *)

(** What the machine answers while an order is served: whether
    [kill(pid, SIGSTOP)] returns 0, the process as the carver sees it, whether
    the blob can be written, the clock when the blob and the volume are named,
    and the size of the blob file. *)
Record order_env := MkOrder {
  kill_ok : bool;
  carve_time : Z;
  disk_ok : bool;
  target : proc;
  route_time : Z;
  blob_len : list command -> option Z
}.

(** The tasks the responder spawns and does not wait for. *)
Inductive job :=
  | Analyse (client : Kp14Client) (blob_path : bytes)
  | CleanUp (delay : Z) (bridge : ProxmoxBridge) (volume : bytes) (scsi_slot : Z).

Record responder := MkResponder {
  frozen : list Z;                 (* pids stopped, oldest first *)
  blobs : list (bytes * bytes);    (* blob files written: path and contents *)
  resp_trace : list command;       (* commands run *)
  tasks : list job                (* tasks spawned *)
}.

Definition freeze (pid : Z) (r : responder) : responder :=
  MkResponder (frozen r ++ [pid]) (blobs r) (resp_trace r) (tasks r).
Definition store_blob (path blob : bytes) (r : responder) : responder :=
  MkResponder (frozen r) (blobs r ++ [(path, blob)]) (resp_trace r) (tasks r).
Definition spawn (ts : list job) (h : list command) (r : responder) : responder :=
  MkResponder (frozen r) (blobs r) h (tasks r ++ ts).

Definition blob_path_of (pid timestamp : Z) : bytes :=
  bs "/tmp/alphvdr/carved/core_dump_" ++ show pid ++ bs "_" ++ show timestamp ++ bs ".bin".

(** The body of [while let Some(pid) = rx.recv().await]; [client] is
    [Kp14Client::new()]. *)
Definition respond (w : world) (client : Kp14Client) (pid : Z) (e : order_env) (r : responder) :
    outcome responder :=
  if negb (kill_ok e) then Ok r else
  let r := freeze pid r in
  match carve_and_package pid (carve_time e) (disk_ok e) (target e) with
  | Ok blob =>
      let blob_path := blob_path_of pid (carve_time e) in
      let r := store_blob blob_path blob r in
      match route_to_kp14 default_kp14 (blob_len e) (route_time e) blob_path w (resp_trace r) with
      | (Ok (volume, scsi_slot), h) =>
          Ok (spawn [Analyse client blob_path; CleanUp 300 default_kp14 volume scsi_slot] h r)
      | (Err _, h) => Ok (spawn [Analyse client blob_path] h r)
      | (Panic, _) => Panic
      end
  | Err _ => Ok r
  | Panic => Panic
  end.

(** The orders it takes, one after another. *)
Fixpoint serve (w : world) (client : Kp14Client) (orders : list (Z * order_env)) (r : responder) :
    outcome responder :=
  match orders with
  | [] => Ok r
  | o :: orders => r ← respond w client o.1 o.2 r; serve w client orders r
  end.

Definition idle_responder : responder := MkResponder [] [] [] [].

(** ** The responder never dies *)

Lemma outcome_map_no_panic {A B} (f : A -> outcome B) l :
  (forall a, f a <> Panic) -> outcome_map f l <> Panic.
Proof.
  intros Hf. induction l as [|a l IH]; [done|]. cbn [outcome_map]. specialize (Hf a).
  destruct (f a); [|done..]. cbn. by destruct (outcome_map f l).
Qed.

Lemma parse_maps_line_no_panic line : parse_maps_line line <> Panic.
Proof. unfold parse_maps_line. repeat case_match; done. Qed.

Lemma carve_regions_no_panic p vmas : carve_regions p vmas <> Panic.
Proof.
  induction vmas as [|v vmas IH]; [done|]. cbn [carve_regions].
  repeat case_match; try done. by destruct (carve_regions p vmas).
Qed.

Lemma carve_and_package_no_panic pid timestamp disk p : carve_and_package pid timestamp disk p <> Panic.
Proof.
  unfold carve_and_package, parse_vma_layout, carve_memory.
  destruct (proc_maps p) as [m|]; [|done].
  pose proof (outcome_map_no_panic parse_maps_line (lines m) parse_maps_line_no_panic) as H1.
  destruct (outcome_map parse_maps_line (lines m)) as [vmas| |]; [|done..]. cbn.
  destruct (proc_mem_open p); [|done]. pose proof (carve_regions_no_panic p vmas).
  destruct (carve_regions p vmas); [|done..]. cbn. by destruct disk.
Qed.

(** ** What the responder has done, after any orders *)

Definition analysed (l : list job) : list bytes :=
  omap (fun t => match t with Analyse _ p => Some p | _ => None end) l.
Definition clean_ups (l : list job) : list (Z * ProxmoxBridge * bytes * Z) :=
  omap (fun t => match t with CleanUp d b v s => Some (d, b, v, s) | _ => None end) l.

(** A volume that the commands have left allocated, and have plugged in. *)
Definition in_use (w : world) (h : list command) (b : ProxmoxBridge) (v : bytes) (s : Z) : Prop :=
  v ∈ live_after w [] [] h /\ plugged w h b v s.

(** Every blob is analysed, and every clean-up is of a volume that the bridge
    has left allocated and plugged in. *)
Record responder_ok (w : world) (r : responder) : Prop := {
  ok_analysed : analysed (tasks r) = map fst (blobs r);
  ok_clean_ups : forall d b v s, (d, b, v, s) ∈ clean_ups (tasks r) ->
    d = 300 /\ b = default_kp14 /\ 10 <= s <= 30 /\ in_use w (resp_trace r) b v s;
  ok_counts : (length (clean_ups (tasks r)) <= length (blobs r) <= length (frozen r))%nat
}.

Lemma idle_ok w : responder_ok w idle_responder.
Proof. split; [done| |done]. cbn. by intros ? ? ? ? ?%elem_of_nil. Qed.

(** One more process stopped, its blob stored and the tasks for it spawned. *)
Lemma routed_ok w pid path blob ts h r :
  responder_ok w r -> analysed ts = [path] -> (length (clean_ups ts) <= 1)%nat ->
  (forall b v s, in_use w (resp_trace r) b v s -> in_use w h b v s) ->
  (forall d b v s, (d, b, v, s) ∈ clean_ups ts ->
     d = 300 /\ b = default_kp14 /\ 10 <= s <= 30 /\ in_use w h b v s) ->
  responder_ok w (spawn ts h (store_blob path blob (freeze pid r))).
Proof.
  intros [H1 H2 H3] Ha Hc Hh Hts. unfold spawn, store_blob, freeze.
  split; cbn [tasks blobs frozen resp_trace].
  - unfold analysed in *. by rewrite omap_app, map_app, H1, Ha.
  - intros d b v s. unfold clean_ups in *. rewrite omap_app. intros [Hin|Hin]%elem_of_app; [|by apply Hts].
    destruct (H2 _ _ _ _ Hin) as (Hd & Hb & Hs & Hv). auto.
  - unfold clean_ups in *. rewrite omap_app, !length_app. cbn [length]. lia.
Qed.

(** A successful routing leaves its volume allocated and plugged in. *)
Lemma route_volume_live bl ts path w h volume slot h' :
  route_to_kp14 default_kp14 bl ts path w h = (Ok (volume, slot), h') ->
  in_use w h' default_kp14 volume slot /\ 10 <= slot <= 30.
Proof.
  intros E. pose proof E as E'. unfold route_to_kp14 in E'.
  apply cmd_bind_ok in E' as (n & h1 & Hn & E'). apply blob_metadata_ok in Hn as [Hn ->].
  apply cmd_bind_ok in E' as (v & h1 & Ha & E'). apply allocate_ok in Ha as (Ha & -> & ->); [|done].
  apply cmd_bind_ok in E' as (u & h1 & _ & E').
  apply cmd_bind_ok in E' as (s & h2 & Hp & [= <- <- <-]).
  apply hotplug_ok in Hp as (config & _ & Hf & Hs & ->); [|done]. apply first_free_spec in Hf as [Hf _].
  destruct (route_leaves_volume default_kp14 bl ts path w h n (live_after w [] [] h) eq_refl Hn Ha) as (t & Et & _ & Hl).
  rewrite E in Et. cbn [snd] in Et. split; [|done]. split; [rewrite Et; by rewrite live_after_app|].
  eexists _, []. split; [|exact Hs]. by rewrite <- app_assoc.
Qed.

Lemma route_extends bl ts path w h r h' b v s :
  route_to_kp14 default_kp14 bl ts path w h = (r, h') -> in_use w h b v s -> in_use w h' b v s.
Proof.
  intros E [Hv Hp]. destruct (route_frees_nothing default_kp14 bl ts path w h) as (t & Et & Ht).
  rewrite E in Et. cbn [snd] in Et. subst h'. split; [|by apply plugged_app].
  rewrite live_after_app. by apply live_after_keeps.
Qed.

Lemma respond_total w client pid e r :
  responder_ok w r -> exists r', respond w client pid e r = Ok r' /\ responder_ok w r' /\
    frozen r' = frozen r ++ (if kill_ok e then [pid] else []).
Proof.
  intros Hr. unfold respond. destruct (kill_ok e); cbn [negb].
  2:{ exists r. by rewrite app_nil_r. }
  assert (Hf : responder_ok w (freeze pid r)).
  { destruct Hr as [H1 H2 H3]. split; [done|done|]. unfold freeze. cbn [frozen blobs tasks].
    rewrite length_app. lia. }
  pose proof (carve_and_package_no_panic pid (carve_time e) (disk_ok e) (target e)) as Hc.
  destruct (carve_and_package _ _ _ _) as [blob|msg|]; [|by exists (freeze pid r)|done].
  cbv zeta. set (path := blob_path_of pid (carve_time e)).
  change (resp_trace (store_blob path blob (freeze pid r))) with (resp_trace r).
  pose proof (route_no_panic default_kp14 (blob_len e) (route_time e) path w (resp_trace r)) as Hn.
  destruct (route_to_kp14 default_kp14 (blob_len e) (route_time e) path w (resp_trace r))
    as [[[volume slot]|msg|] h] eqn:E; [| |done]; (eexists; split; [reflexivity|]); (split; [|done]);
    (apply routed_ok; [done|done|cbn; lia|intros b v s; eapply route_extends, E|]).
  - intros d b v s [= -> -> -> ->]%list_elem_of_singleton.
    by apply route_volume_live in E as [Hv Hs].
  - by intros d b v s ?%elem_of_nil.
Qed.

Lemma serve_total w client orders r :
  responder_ok w r -> exists r', serve w client orders r = Ok r' /\ responder_ok w r' /\
    frozen r' = frozen r ++ map fst (List.filter (fun o => kill_ok o.2) orders).
Proof.
  revert r. induction orders as [|[pid e] orders IH]; intros r Hr; cbn [serve].
  - exists r. by rewrite app_nil_r.
  - destruct (respond_total w client pid e r Hr) as (r1 & E & H1 & F1). cbn [fst snd]. rewrite E. cbn [mbind outcome_bind].
    destruct (IH r1 H1) as (r' & E' & H' & F'). exists r'. rewrite F', F1, <- app_assoc.
    split_and!; [done|done|]. f_equal. cbn [List.filter snd]. by destruct (kill_ok e).
Qed.

(** The responder only adds to what it has done. *)
Definition grows (r r' : responder) : Prop :=
  frozen r `prefix_of` frozen r' /\ blobs r `prefix_of` blobs r' /\ tasks r `prefix_of` tasks r'.

#[export] Instance grows_preorder : PreOrder grows.
Proof.
  split; [by intros r; split_and!|]. intros r1 r2 r3 (H1 & H2 & H3) (H4 & H5 & H6).
  split_and!; by etrans.
Qed.

Lemma respond_grows w client pid e r r' : respond w client pid e r = Ok r' -> grows r r'.
Proof.
  assert (Hs : forall ts h r, grows r (spawn ts h r)) by (intros; split_and!; cbn; first [reflexivity|by apply prefix_app_r]).
  assert (Hb : forall p b r, grows r (store_blob p b r)) by (intros; split_and!; cbn; first [reflexivity|by apply prefix_app_r]).
  assert (Hf : grows r (freeze pid r)) by (split_and!; cbn; first [reflexivity|by apply prefix_app_r]).
  unfold respond. intros E. repeat case_match; simplify_eq; try done; (etrans; [exact Hf|]); try done;
    (etrans; [apply Hb|apply Hs]).
Qed.

Lemma serve_grows w client orders r r' : serve w client orders r = Ok r' -> grows r r'.
Proof.
  revert r; induction orders as [|[pid e] orders IH]; intros r; cbn [serve fst snd]; [by intros [= <-]|].
  intros (r1 & H1 & H2)%outcome_bind_ok. etrans; [by eapply respond_grows|by apply IH].
Qed.

(** What one order that can be served leaves behind. *)
Definition served_order (client : Kp14Client) (pid : Z) (e : order_env) (blob : bytes) (r : responder) : Prop :=
  pid ∈ frozen r /\ (blob_path_of pid (carve_time e), blob) ∈ blobs r /\
  Analyse client (blob_path_of pid (carve_time e)) ∈ tasks r.

Lemma served_order_grows client pid e blob r r' :
  grows r r' -> served_order client pid e blob r -> served_order client pid e blob r'.
Proof.
  intros ([? E1] & [? E2] & [? E3]) (H1 & H2 & H3). unfold served_order. rewrite E1, E2, E3.
  split_and!; apply elem_of_app; by left.
Qed.

Lemma respond_serves_order w client pid e r r' blob :
  respond w client pid e r = Ok r' -> kill_ok e = true ->
  carve_and_package pid (carve_time e) (disk_ok e) (target e) = Ok blob ->
  served_order client pid e blob r'.
Proof.
  intros E Hk Hc. unfold respond in E. rewrite Hk, Hc in E. cbn [negb] in E. unfold served_order.
  destruct (route_to_kp14 _ _ _ _ _ _) as [[[v s]|msg|] h]; simplify_eq;
    cbn [spawn store_blob freeze frozen blobs tasks]; rewrite !elem_of_app, !elem_of_cons; tauto.
Qed.

Lemma serve_serves_order w client orders r r' pid e blob :
  serve w client orders r = Ok r' -> (pid, e) ∈ orders -> kill_ok e = true ->
  carve_and_package pid (carve_time e) (disk_ok e) (target e) = Ok blob ->
  served_order client pid e blob r'.
Proof.
  revert r; induction orders as [|o orders IH]; intros r; [by intros _ ?%elem_of_nil|].
  cbn [serve]. intros (r1 & H1 & H2)%outcome_bind_ok [<-|Hin]%elem_of_cons Hk Hc; [|by eapply IH].
  eapply served_order_grows; [by eapply serve_grows|]. by eapply respond_serves_order.
Qed.

(** C9: whatever the orders and whatever the machine answers, the responder
    serves them all and never panics: it has stopped exactly the processes
    that could be stopped, in the order given; each blob it wrote has its
    analysis scheduled, in the same order, even when routing failed; and each
    clean-up it scheduled is, five minutes later, for a volume that its own
    commands have left allocated and that a [qm set] among them, which
    succeeded, has plugged into the very slot, from 10 to 30, that the
    clean-up names; at most one for each blob. *)
Theorem responder_serves w client orders :
  exists r, serve w client orders idle_responder = Ok r /\
    frozen r = map fst (List.filter (fun o => kill_ok o.2) orders) /\
    analysed (tasks r) = map fst (blobs r) /\
    (length (clean_ups (tasks r)) <= length (blobs r) <= length (frozen r))%nat /\
    forall d b v s, (d, b, v, s) ∈ clean_ups (tasks r) ->
      d = 300 /\ b = default_kp14 /\ 10 <= s <= 30 /\
      v ∈ live_after w [] [] (resp_trace r) /\ plugged w (resp_trace r) b v s.
Proof.
  destruct (serve_total w client orders idle_responder (idle_ok w)) as (r & E & [H1 H2 H3] & F).
  by exists r.
Qed.

(** ** The contract: a bounded queue

    Between the event loop and the responder there is a queue.  The abstract
    machine says what the agent promises about it: reports are ignored when
    the shield is down or when they have the wrong size, otherwise the process
    is queued as often as tests fire, what does not fit is dropped, and orders
    are served first come, first served. *)

Inductive label :=
  | Report (w : world) (scan : Z -> option (bytes * bytes)) (data : bytes)
  | Telemetry (data : bytes)
  | Monitor (active : bool)
  | Serve (pid : Z).

Record queue := MkQueue { shield : bool; waiting : list Z; served : list Z }.

Definition queue_do (l : label) (q : queue) : option queue :=
  match l with
  | Report _ scan data =>
      Some (if shield q && (length data =? size Event)%nat
            then MkQueue (shield q)
                   (take CHANNEL_CAPACITY (waiting q ++ replicate (order_count scan data) (event_pid data)))
                   (served q)
            else q)
  | Telemetry _ => Some q
  | Monitor active => Some (MkQueue (negb active) (waiting q) (served q))
  | Serve pid =>
      match waiting q with
      | p :: rest => if bool_decide (p = pid) then Some (MkQueue (shield q) rest (served q ++ [p])) else None
      | [] => None
      end
  end.

(** The agent's own transitions, with the same labels. *)
Definition system_do (l : label) (s : system) : option system :=
  let a := sys_agent s in
  match l with
  | Report w scan data =>
      Some (MkSystem (handle_event w scan data a) (sys_seen s ++ [(research_mode a, data)]) (sys_stopped s))
  | Telemetry data => Some (MkSystem (handle_tls_event data a) (sys_seen s) (sys_stopped s))
  | Monitor active => Some (MkSystem (set_research active a) (sys_seen s) (sys_stopped s))
  | Serve pid =>
      match channel a with
      | p :: rest => if bool_decide (p = pid)
                     then Some (MkSystem (set_channel rest a) (sys_seen s) (sys_stopped s ++ [p])) else None
      | [] => None
      end
  end.

(** They are the steps of [Agent.step]. *)
Lemma system_do_step s s' : step s s' <-> exists l, system_do l s = Some s'.
Proof.
  split.
  - intros [w scan data a seen stopped|data a seen stopped|active a seen stopped|pid rest a seen stopped Hc].
    + by exists (Report w scan data).
    + by exists (Telemetry data).
    + by exists (Monitor active).
    + exists (Serve pid). cbn [system_do sys_agent]. rewrite Hc. by rewrite bool_decide_eq_true_2.
  - intros [l E]. destruct s as [a seen stopped], l as [w scan data|data|active|pid];
      cbn [system_do sys_agent sys_seen sys_stopped] in E.
    + injection E as <-. constructor.
    + injection E as <-. constructor.
    + injection E as <-. constructor.
    + destruct (channel a) as [|p rest] eqn:Ec; [done|]. case_bool_decide; [|done].
      injection E as <-. by constructor.
Qed.

(** What the abstract machine sees of the agent. *)
Definition queue_of (s : system) : queue :=
  MkQueue (negb (research_mode (sys_agent s))) (channel (sys_agent s)) (sys_stopped s).

(** The responder holds the receiver and the channel is within its capacity. *)
Definition queue_ok (s : system) : Prop :=
  rx_alive (sys_agent s) = true /\ (length (channel (sys_agent s)) <= CHANNEL_CAPACITY)%nat.

Lemma handle_event_queue w scan data a :
  rx_alive a = true -> (length (channel a) <= CHANNEL_CAPACITY)%nat ->
  let a' := handle_event w scan data a in
  rx_alive a' = true /\ research_mode a' = research_mode a /\
  channel a' = (if negb (research_mode a) && (length data =? size Event)%nat
                then take CHANNEL_CAPACITY (channel a ++ replicate (order_count scan data) (event_pid data))
                else channel a).
Proof.
  intros Ha Hc. cbv zeta. destruct (research_mode a) eqn:Er.
  { unfold handle_event. rewrite Er. by cbn. }
  destruct (Nat.eqb_spec (length data) (size Event)) as [El|El].
  - rewrite handle_event_effects by done.
    destruct (fold_effects_spec w (effects scan data) a Hc) as (-> & -> & -> & _).
    by rewrite Ha, orders_effects.
  - unfold handle_event. rewrite Er, (proj2 (Nat.eqb_neq _ _) El). by cbn.
Qed.

Lemma system_do_refines l s : queue_ok s ->
  (forall s', system_do l s = Some s' -> queue_ok s') /\
  queue_of <$> system_do l s = queue_do l (queue_of s).
Proof.
  intros [Ha Hc]. destruct s as [a seen stopped]. unfold queue_of, queue_ok in *.
  cbn [sys_agent sys_stopped] in *. destruct l as [w scan data|data|active|pid]; cbn [system_do queue_do].
  - destruct (handle_event_queue w scan data a Ha Hc) as (E1 & E2 & E3). split.
    + intros s' [= <-]. cbn [sys_agent]. rewrite E1, E3. split; [done|].
      destruct (_ && _); [rewrite length_take; lia|done].
    + cbn. rewrite E2, E3. cbn [shield waiting]. by destruct (_ && _).
  - rewrite <- (handle_tls_channel data a) in *. unfold handle_tls_event in *.
    split; [intros s' [= <-]|]; cbn [sys_agent fmap option_fmap option_map sys_stopped]; by case_match.
  - by split; [intros s' [= <-]|].
  - cbn [sys_agent]. destruct (channel a) as [|p rest] eqn:Ec; [done|].
    cbn [waiting]. case_bool_decide; [|done]. split; [intros s' [= <-]|done].
    cbn [sys_agent rx_alive set_channel channel length] in *. split; [done|lia].
Qed.

(** A sequence of labelled transitions. *)
Fixpoint run_labels {S} (do : label -> S -> option S) (ls : list label) (s : S) : option S :=
  match ls with
  | [] => Some s
  | l :: ls => s' ← do l s; run_labels do ls s'
  end.

(** C8: the agent implements the bounded queue exactly: for every sequence
    of kernel records, switches of research mode and turns of the responder,
    in any interleaving, the agent can take the sequence exactly when the
    abstract queue can, and what is waiting, what was served and the shield
    agree at its end. *)
Theorem agent_refines_queue ls s : queue_ok s ->
  queue_of <$> run_labels system_do ls s = run_labels queue_do ls (queue_of s).
Proof.
  revert s. induction ls as [|l ls IH]; intros s Hs; [done|]. cbn [run_labels].
  destruct (system_do_refines l s Hs) as [Hok <-].
  destruct (system_do l s) as [s'|]; [|done]. cbn. by apply IH, Hok.
Qed.

(** ** Every accepted order is served *)

(** An infinite execution, and its fairness: as long as orders wait, the
    responder gets a turn some day. *)
Definition execution (exec : nat -> system) (labels : nat -> label) : Prop :=
  forall n, system_do (labels n) (exec n) = Some (exec (S n)).
Definition fair (exec : nat -> system) (labels : nat -> label) : Prop :=
  forall n, channel (sys_agent (exec n)) <> [] ->
    exists m pid, (n <= m)%nat /\ labels m = Serve pid.

(** Served and waiting orders in one list: it only grows at its end, and its
    served part only grows. *)
Definition all_orders (s : system) : list Z := sys_stopped s ++ channel (sys_agent s).

Lemma take_keeps_prefix (n : nat) (c r : list Z) : (length c <= n)%nat -> c `prefix_of` take n (c ++ r).
Proof. intros Hc. rewrite take_app_ge by done. by eexists. Qed.

Lemma system_do_orders l s s' : queue_ok s -> system_do l s = Some s' ->
  all_orders s `prefix_of` all_orders s' /\
  length (sys_stopped s') = (length (sys_stopped s) + (if l is Serve _ then 1 else 0))%nat.
Proof.
  intros Hs E. destruct Hs as [Ha Hc]. destruct s as [a seen stopped]. unfold all_orders.
  cbn [sys_agent sys_stopped] in *. destruct l as [w scan data|data|active|pid]; cbn [system_do sys_agent] in E.
  - injection E as <-. cbn [sys_agent sys_stopped]. split; [|lia].
    destruct (handle_event_queue w scan data a Ha Hc) as (_ & _ & ->).
    apply prefix_app. destruct (_ && _); [by apply take_keeps_prefix|done].
  - injection E as <-. cbn [sys_agent sys_stopped]. rewrite handle_tls_channel. split; [done|lia].
  - injection E as <-. cbn. split; [done|lia].
  - destruct (channel a) as [|p rest] eqn:Ec; [done|]. case_bool_decide; [|done]. injection E as <-.
    cbn [sys_agent sys_stopped set_channel channel]. rewrite <- app_assoc, length_app. by split.
Qed.

Section run.
Context (exec : nat -> system) (labels : nat -> label).
Context (Hexec : execution exec labels) (Hstart : queue_ok (exec 0%nat)).

Lemma exec_ok n : queue_ok (exec n).
Proof.
  induction n as [|n IH]; [done|]. destruct (system_do_refines (labels n) (exec n) IH) as [Hok _]. apply Hok, Hexec.
Qed.

Lemma exec_orders n m : (n <= m)%nat ->
  all_orders (exec n) `prefix_of` all_orders (exec m) /\
  (length (sys_stopped (exec n)) <= length (sys_stopped (exec m)))%nat.
Proof.
  induction 1 as [|m Hm [IH1 IH2]]; [done|].
  destruct (system_do_orders (labels m) (exec m) (exec (S m)) (exec_ok m) (Hexec m)) as [E1 E2].
  split; [by etrans|lia].
Qed.

Lemma stopped_grows n k : fair exec labels ->
  (k <= length (all_orders (exec n)))%nat -> exists m, (n <= m)%nat /\ (k <= length (sys_stopped (exec m)))%nat.
Proof.
  intros Hf. revert n. induction k as [|k IH]; intros n Hk; [exists n; lia|].
  destruct (IH n) as (m & Hm & Hk'); [lia|].
  destruct (decide (S k <= length (sys_stopped (exec m)))%nat) as [|Hne]; [by exists m|].
  destruct (Hf m) as (j & pid & Hj & El).
  { intros E. destruct (exec_orders n m Hm) as [[r E1] _]. apply (f_equal length) in E1.
    unfold all_orders in *. rewrite E, app_nil_r, !length_app in E1. rewrite length_app in Hk. lia. }
  destruct (exec_orders m j Hj) as [_ Hl].
  destruct (system_do_orders (labels j) (exec j) (exec (S j)) (exec_ok j) (Hexec j)) as [_ E].
  rewrite El in E. exists (S j). lia.
Qed.
End run.

(** No accepted order is lost: in every infinite execution in which the
    responder keeps getting turns while orders wait, each order that is in
    the channel is served, at the place in the sequence of stopped processes
    that its place in the queue gives it. *)
Theorem orders_eventually_served exec labels n k pid :
  execution exec labels -> queue_ok (exec 0%nat) -> fair exec labels ->
  channel (sys_agent (exec n)) !! k = Some pid ->
  exists m, (n <= m)%nat /\ sys_stopped (exec m) !! (length (sys_stopped (exec n)) + k)%nat = Some pid.
Proof.
  intros He Hq Hf Hk.
  assert (Hin : all_orders (exec n) !! (length (sys_stopped (exec n)) + k)%nat = Some pid).
  { unfold all_orders. rewrite lookup_app_r by lia. rewrite <- Hk. f_equal. lia. }
  pose proof (lookup_lt_Some _ _ _ Hin) as Hlt.
  destruct (stopped_grows exec labels He Hq n (S (length (sys_stopped (exec n)) + k)) Hf) as (m & Hm & Hl); [lia|].
  exists m. split; [done|]. destruct (exec_orders exec labels He Hq n m Hm) as [Hp _].
  pose proof (prefix_lookup_Some _ _ _ _ Hin Hp) as E. unfold all_orders in E.
  by rewrite lookup_app_l in E by lia.
Qed.

(** ** Concrete runs *)

Section witnesses.
Definition start : system := MkSystem Agent.Demo.the_agent [] [].
Definition demo_labels : list label :=
  [Report Agent.Demo.idle_world Agent.Demo.no_scan Agent.Demo.trap_data; Serve 7; Monitor true;
   Report Agent.Demo.idle_world Agent.Demo.no_scan Agent.Demo.trap_data].

Lemma start_ok : queue_ok start.
Proof. split; [done|]. vm_compute. lia. Qed.

Lemma agent_refines_queue_witness :
  queue_ok start /\
  queue_of <$> run_labels system_do demo_labels start = run_labels queue_do demo_labels (queue_of start).
Proof. split; [exact start_ok|]. apply agent_refines_queue, start_ok. Defined.

(** One order, served at once, and then nothing but records of no size. *)
Definition demo_exec (n : nat) : system :=
  match n with O => start | _ => MkSystem (set_channel [] Agent.Demo.the_agent) [] [7] end.
Definition demo_schedule (n : nat) : label := match n with O => Serve 7 | _ => Telemetry [] end.

Lemma demo_execution : execution demo_exec demo_schedule.
Proof. by intros [|n]. Qed.
Lemma demo_fair : fair demo_exec demo_schedule.
Proof. intros [|n]; [by exists 0%nat, 7|done]. Qed.

Lemma orders_eventually_served_witness :
  exists m, (0 <= m)%nat /\ sys_stopped (demo_exec m) !! 0%nat = Some 7.
Proof.
  exact (orders_eventually_served demo_exec demo_schedule 0 0 7 demo_execution start_ok demo_fair eq_refl).
Defined.
End witnesses.
