(* ===== verification/Deploy.v ===== *)
(** * What the agent puts into the kernel maps: [src/main.rs]

    At startup the agent registers its own process id, the honeytokens and the
    decoy processes; while it runs, it moves the addresses that the sidecar
    ([Misp]) sends into the blocklist of the XDP program. *)

From stdpp Require Import gmap.
From S2P Require Import Prelude CTypes Vmlinux Bpf Maps Sensor Xdp Text Qihse.

(** ** Map updates from user space *)

Section maps.
Context {M R : Type} `{HBM : BpfMap M}.
Implicit Types s : sensor M R.

Definition set_honeytokens (m : M) s : sensor M R :=
  Sensor (c2_blocklist s) m (ghost_pids s) (agent_pid s)
    (file_creation_counts s) (journal_spam_counts s) (events s) (tls_events s) (signals s).
Definition set_ghost_pids (m : M) s : sensor M R :=
  Sensor (c2_blocklist s) (honeytokens s) m (agent_pid s)
    (file_creation_counts s) (journal_spam_counts s) (events s) (tls_events s) (signals s).
Definition set_agent_pid (m : M) s : sensor M R :=
  Sensor (c2_blocklist s) (honeytokens s) (ghost_pids s) m
    (file_creation_counts s) (journal_spam_counts s) (events s) (tls_events s) (signals s).
Definition set_c2_blocklist (m : M) s : sensor M R :=
  Sensor m (honeytokens s) (ghost_pids s) (agent_pid s)
    (file_creation_counts s) (journal_spam_counts s) (events s) (tls_events s) (signals s).

(** ** Startup

    What the file system and the process table answer: inode numbers of the
    files the agent writes or finds ([None] when the file operation fails),
    and the pids of the decoys it could start. *)

Record environment := MkEnv {
  my_pid : Z;
  aws_inode : option Z;
  kube_inode : option Z;
  ssh_inode : option Z;
  hw_inodes : list (option Z);  (* /dev/mei0, /dev/mem, /dev/kmem, /dev/port *)
  decoy_pids : list (option Z)  (* keepassxc, mongod, mysqld *)
}.

(** [map.update(..).context(msg)?] and [map.update(..).unwrap_or_default()] *)
Definition update_required (msg : string) (m : M) (k v : Z) : outcome M :=
  let r := bpf_map_update_elem m k v in
  if r.2 =? 0 then Ok r.1 else Err msg.
Definition update_ignored (m : M) (k v : Z) : M := (bpf_map_update_elem m k v).1.

Definition update_optional (v : Z) (m : M) (k : option Z) : M :=
  match k with Some k => update_ignored m k v | None => m end.

Definition required {A} (msg : string) (o : option A) : outcome A :=
  match o with Some a => Ok a | None => Err msg end.

Definition startup (env : environment) s : outcome (sensor M R) :=
  pids ← update_required "Failed to register self-defense PID" (agent_pid s) 0 (my_pid env);
  inode ← required "Failed to write AWS honeytoken" (aws_inode env);
  tokens ← update_required "Failed to register honeytoken in eBPF map" (honeytokens s) inode 1;
  kube_inode ← required "Failed to write Kubernetes honeytoken" (kube_inode env);
  tokens ← update_required "Failed to register K8s honeytoken in eBPF map" tokens kube_inode 1;
  let tokens := update_optional 2 tokens (ssh_inode env) in
  let tokens := fold_left (update_optional 2) (hw_inodes env) tokens in
  let ghosts := fold_left (update_optional 1) (decoy_pids env) (ghost_pids s) in
  Ok (set_ghost_pids ghosts (set_honeytokens tokens (set_agent_pid pids s))).

(** ** The blocklist *)

(** The loop that drains the sidecar's channel: failures are printed. *)
Definition drain_misp (ips : list Z) s : sensor M R :=
  set_c2_blocklist (fold_left (fun m c2_ip => update_ignored m c2_ip 1) ips (c2_blocklist s)) s.
End maps.

Lemma update_required_ok `{HBM : BpfMap M} `{HBL : !BpfMapLaws M} msg (m : M) k v m' :
  update_required msg m k v = Ok m' -> bpf_map_lookup_elem m' k = Some v.
Proof.
  unfold update_required. destruct (Z.eqb_spec (bpf_map_update_elem m k v).2 0); [|done].
  intros [= <-]. by apply map_update_same.
Qed.

(** The files guarded against writing only. *)
Definition write_traps (env : environment) : list (option Z) := ssh_inode env :: hw_inodes env.

(** ** The maps are large enough, and keep their types *)

Section sized.
Context {M R : Type} `{HKM : KernelMap M, HBL : !BpfMapLaws M, HKL : !KernelMapLaws M}.
Implicit Types (m : M) (s : sensor M R).

(** The maps as the kernel creates them when the programs are loaded. *)
Record loaded s : Prop := {
  loaded_blocklist : definition (c2_blocklist s) = decl.c2_blocklist /\ keys (c2_blocklist s) = ∅;
  loaded_honeytokens : definition (honeytokens s) = decl.honeytokens /\ keys (honeytokens s) = ∅;
  loaded_ghosts : definition (ghost_pids s) = decl.ghost_pids /\ keys (ghost_pids s) = ∅;
  loaded_agent : definition (agent_pid s) = decl.agent_pid
}.

Lemma no_keys m k : keys m = ∅ -> bpf_map_lookup_elem m k = None.
Proof. intros E. apply eq_None_not_Some. rewrite <- keys_lookup, E. set_solver. Qed.

(** One update of a hash map with room. *)
Lemma hash_update_lookup m k v k' :
  is_hash m -> 0 < room m ->
  bpf_map_lookup_elem (bpf_map_update_elem m k v).1 k' =
    if decide (k' = k) then Some v else bpf_map_lookup_elem m k'.
Proof.
  intros Hh Hr. case_decide as E; [subst k'|by apply hash_other].
  apply map_update_same, hash_room; auto.
Qed.

(** A run of optional updates with room for all of them. *)
Lemma updates_room v os m k :
  is_hash m -> length os <= room m ->
  bpf_map_lookup_elem (fold_left (update_optional v) os m) k =
    if decide (Some k ∈ os) then Some v else bpf_map_lookup_elem m k.
Proof.
  revert m; induction os as [|[q|] os IH]; intros m Hh Hr; cbn [fold_left update_optional].
  - by rewrite decide_False by apply not_elem_of_nil.
  - cbn [length] in Hr. pose proof (hash_room_update m q v Hh ltac:(lia)). unfold update_ignored.
    rewrite IH by (try apply update_is_hash; (done || lia)).
    rewrite hash_update_lookup by (done || lia). repeat case_decide; try done; set_solver.
  - cbn [length] in Hr. rewrite IH by (done || lia). repeat case_decide; try done; set_solver.
Qed.

Lemma update_required_room msg m k v : is_hash m -> 0 < room m ->
  update_required msg m k v = Ok (bpf_map_update_elem m k v).1.
Proof. intros Hh Hr. unfold update_required. by rewrite (hash_room m k v Hh (or_intror Hr)). Qed.

(** C19: the declared maps are large enough for the start-up: on the maps as
    the kernel creates them, it fails exactly when one of the two credential
    files cannot be placed; otherwise no update is refused, and afterwards the
    maps hold the agent's process, the files with their modes (a file that is
    trapped both ways only against writing), the decoys, and nothing else. *)
Theorem startup_exact env s :
  loaded s -> (length (hw_inodes env) <= 4)%nat -> (length (decoy_pids env) <= 3)%nat ->
  match aws_inode env, kube_inode env with
  | Some aws, Some kube => exists s', startup env s = Ok s' /\
      bpf_map_lookup_elem (agent_pid s') 0 = Some (my_pid env) /\
      (forall i, bpf_map_lookup_elem (honeytokens s') i =
         if decide (Some i ∈ write_traps env) then Some 2
         else if decide (i = aws \/ i = kube) then Some 1 else None) /\
      (forall pid, bpf_map_lookup_elem (ghost_pids s') pid =
         if decide (Some pid ∈ decoy_pids env) then Some 1 else None)
  | _, _ => exists msg, startup env s = Err msg
  end.
Proof.
  intros [_ [Ht Et] [Hg Eg] Ha] Hhw Hd.
  assert (Hgh : is_hash (ghost_pids s)) by (unfold is_hash; by rewrite Hg).
  assert (Hth : is_hash (honeytokens s)) by (unfold is_hash; by rewrite Ht).
  assert (Hgr : room (ghost_pids s) = 256) by (unfold room; by rewrite Hg, Eg, size_empty).
  assert (Htr : room (honeytokens s) = 256) by (unfold room; by rewrite Ht, Et, size_empty).
  assert (Hag : (bpf_map_update_elem (agent_pid s) 0 (my_pid env)).2 = 0).
  { apply array_update; rewrite Ha; [done|]. cbn. lia. }
  assert (Hpid : update_required "Failed to register self-defense PID" (agent_pid s) 0 (my_pid env) =
    Ok (bpf_map_update_elem (agent_pid s) 0 (my_pid env)).1) by (unfold update_required; by rewrite Hag).
  unfold startup. rewrite Hpid. cbn [outcome_bind mbind required].
  destruct (aws_inode env) as [aws|]; cbn [required]; [|by eexists].
  cbn. rewrite update_required_room by (done || lia). cbn.
  destruct (kube_inode env) as [kube|]; cbn; [|by eexists].
  set (t1 := (bpf_map_update_elem (honeytokens s) aws 1).1).
  assert (Ht1 : is_hash t1 /\ 255 <= room t1).
  { split; [by apply update_is_hash|]. pose proof (hash_room_update _ aws 1 Hth). unfold t1. lia. }
  destruct Ht1 as [Ht1 Hr1]. rewrite update_required_room by (done || lia). cbn.
  set (t2 := (bpf_map_update_elem t1 kube 1).1).
  assert (Ht2 : is_hash t2 /\ 254 <= room t2).
  { split; [by apply update_is_hash|]. pose proof (hash_room_update _ kube 1 Ht1). unfold t2. lia. }
  destruct Ht2 as [Ht2 Hr2]. eexists. split; [reflexivity|]. cbn. split_and!.
  - by apply map_update_same.
  - intros i. change (fold_left (update_optional 2) (hw_inodes env) (update_optional 2 t2 (ssh_inode env)))
      with (fold_left (update_optional 2) (write_traps env) t2).
    rewrite updates_room by (done || (cbn; lia)). case_decide; [done|]. unfold t2.
    rewrite hash_update_lookup by (done || lia). unfold t1. rewrite hash_update_lookup by (done || lia).
    rewrite no_keys by done. repeat case_decide; naive_solver.
  - intros pid. rewrite updates_room by (done || lia). by rewrite no_keys.
Qed.

(** *** The blocklist fills up *)

(** The elements of [l] that are new, in order. *)
Fixpoint distinct (seen : gset Z) (l : list Z) : list Z :=
  match l with
  | [] => []
  | k :: l => if decide (k ∈ seen) then distinct seen l else k :: distinct ({[k]} ∪ seen) l
  end.

Definition block_all (ips : list Z) m : M := fold_left (fun m c2_ip => update_ignored m c2_ip 1) ips m.

Lemma block_all_keys ips m : is_hash m ->
  keys (block_all ips m) = keys m ∪ list_to_set (take (Z.to_nat (room m)) (distinct (keys m) ips)).
Proof.
  unfold block_all. revert m; induction ips as [|k ips IH]; intros m Hh; cbn [fold_left distinct].
  { rewrite take_nil. set_solver. }
  rewrite IH by by apply update_is_hash. unfold update_ignored.
  pose proof (hash_keys m k 1 Hh) as E. unfold room. rewrite update_definition, E. unfold room in *.
  set (cap := max_entries (definition m)) in *. clearbody cap. clear E.
  destruct (decide (k ∈ keys m)) as [Hk|Hk].
  - rewrite decide_True by (by left). replace ({[k]} ∪ keys m) with (keys m) by set_solver. done.
  - destruct (decide (0 < cap - base.size (keys m))) as [Hr|Hr].
    + rewrite decide_True by (by right). rewrite size_union, size_singleton by set_solver.
      replace (Z.to_nat (cap - base.size (keys m))) with (S (Z.to_nat (cap - (1 + base.size (keys m))%nat))) by lia.
      cbn [take list_to_set]. set_solver.
    + rewrite decide_False by tauto. replace (Z.to_nat (cap - base.size (keys m))) with 0%nat by lia.
      cbn [take list_to_set]. done.
Qed.

Lemma block_all_ones ips m k v :
  is_hash m -> (forall k v, bpf_map_lookup_elem m k = Some v -> v = 1) ->
  bpf_map_lookup_elem (block_all ips m) k = Some v -> v = 1.
Proof.
  unfold block_all. revert m; induction ips as [|q ips IH]; intros m Hh H1; cbn [fold_left]; [apply H1|].
  apply IH; [by apply update_is_hash|]. intros k' v' E. unfold update_ignored in E.
  destruct (decide (k' = q)) as [->|Hne]; [|rewrite hash_other in E by done; by eapply H1].
  destruct (decide ((bpf_map_update_elem m q 1).2 = 0)) as [E0|E0].
  - rewrite map_update_same in E by done. by injection E.
  - rewrite map_update_failed in E by done. by eapply H1.
Qed.

Lemma block_all_app ips ips' m : block_all (ips ++ ips') m = block_all ips' (block_all ips m).
Proof. apply fold_left_app. Qed.
Lemma block_all_definition ips m : definition (block_all ips m) = definition m.
Proof.
  unfold block_all. revert m; induction ips as [|q ips IH]; intros m; cbn [fold_left]; [done|].
  rewrite IH. apply update_definition.
Qed.

(** An address that is blocked stays so, and the others are untouched. *)
Lemma block_all_blocked ips m k :
  is_hash m -> bpf_map_lookup_elem m k = Some 1 -> bpf_map_lookup_elem (block_all ips m) k = Some 1.
Proof.
  unfold block_all. revert m; induction ips as [|q ips IH]; intros m Hh Hk; cbn [fold_left]; [done|].
  apply IH; [by apply update_is_hash|]. unfold update_ignored.
  destruct (decide (k = q)) as [->|Hne]; [|by rewrite hash_other].
  destruct (decide ((bpf_map_update_elem m q 1).2 = 0)) as [E0|E0];
    [by rewrite map_update_same|by rewrite map_update_failed].
Qed.
Lemma block_all_other ips m k :
  is_hash m -> k ∉ ips -> bpf_map_lookup_elem (block_all ips m) k = bpf_map_lookup_elem m k.
Proof.
  unfold block_all. revert m; induction ips as [|q ips IH]; intros m Hh Hk; cbn [fold_left]; [done|].
  apply not_elem_of_cons in Hk as [Hq Hk]. rewrite IH by (done || by apply update_is_hash). by apply hash_other.
Qed.

(** While the addresses fit, none is refused. *)
Lemma block_all_fits ips m k :
  is_hash m -> base.size (keys m ∪ list_to_set ips : gset Z) <= max_entries (definition m) -> k ∈ ips ->
  bpf_map_lookup_elem (block_all ips m) k = Some 1.
Proof.
  revert m; induction ips as [|q ips IH]; intros m Hh Hr Hk; [by apply elem_of_nil in Hk|].
  assert (Hq : q ∈ keys m \/ 0 < room m).
  { destruct (decide (q ∈ keys m)) as [|Hn]; [by left|right]. unfold room.
    pose proof (subseteq_size ({[q]} ∪ keys m) (keys m ∪ list_to_set (q :: ips)) ltac:(set_solver)) as Hs.
    rewrite size_union, size_singleton in Hs by set_solver. lia. }
  change (block_all (q :: ips) m) with (block_all ips (bpf_map_update_elem m q 1).1).
  assert (Hh' : is_hash (bpf_map_update_elem m q 1).1) by by apply update_is_hash.
  destruct (decide (k = q)) as [->|Hne].
  - apply block_all_blocked; [done|]. by apply map_update_same, hash_room.
  - apply elem_of_cons in Hk as [?|Hk]; [done|]. apply IH; [done| |done].
    rewrite update_definition, hash_keys, decide_True by done.
    replace ({[q]} ∪ keys m ∪ list_to_set ips : gset Z) with (keys m ∪ list_to_set (q :: ips) : gset Z) by set_solver.
    done.
Qed.

Lemma block_all_one_iff ips m k :
  is_hash m -> base.size (keys m ∪ list_to_set ips : gset Z) <= max_entries (definition m) ->
  bpf_map_lookup_elem (block_all ips m) k = Some 1 <-> bpf_map_lookup_elem m k = Some 1 \/ k ∈ ips.
Proof.
  intros Hh Hr. split.
  - intros E. destruct (decide (k ∈ ips)) as [|Hn]; [by right|left]. by rewrite block_all_other in E.
  - intros [E|Hk]; [by apply block_all_blocked|by apply block_all_fits].
Qed.

(** C20: the blocklist holds 100000 addresses: whatever the sidecar sends
    after start-up, an address is blocked exactly when it is one of the first
    100000 different ones; later addresses are refused, and nothing is ever
    pushed out to make room for them. *)
Theorem blocklist_capacity s ips k :
  loaded s ->
  bpf_map_lookup_elem (c2_blocklist (drain_misp ips s)) k =
    if decide (k ∈ take (Z.to_nat 100000) (distinct ∅ ips)) then Some 1 else None.
Proof.
  intros [[Hb Eb] _ _ _]. unfold drain_misp. cbn [c2_blocklist set_c2_blocklist]. fold (block_all ips (c2_blocklist s)).
  assert (Hh : is_hash (c2_blocklist s)) by (unfold is_hash; by rewrite Hb).
  pose proof (block_all_keys ips _ Hh) as Ek. unfold room in Ek. rewrite Hb, Eb, size_empty in Ek.
  change (Z.to_nat (max_entries decl.c2_blocklist - 0%nat)) with (Z.to_nat 100000) in Ek.
  assert (Hk : is_Some (bpf_map_lookup_elem (block_all ips (c2_blocklist s)) k) <->
    k ∈ take (Z.to_nat 100000) (distinct ∅ ips)).
  { rewrite <- keys_lookup, Ek. rewrite elem_of_union, elem_of_list_to_set. set_solver. }
  case_decide as Hin.
  - apply Hk in Hin as [v E]. rewrite E. f_equal. eapply block_all_ones; [exact Hh| |exact E].
    intros k' v' E'. by rewrite no_keys in E'.
  - apply eq_None_not_Some. tauto.
Qed.
End sized.

(** *** What the agent writes has the declared types *)

Section typed.
Context {M R : Type} `{HBM : BpfMap M, HBL : !BpfMapLaws M}.
Implicit Types (m : M) (s : sensor M R).

(** Process ids and inode numbers as the system calls give them. *)
Record environment_typed (env : environment) : Prop := {
  my_pid_typed : is_unsigned 32 (my_pid env);
  inodes_typed : forall i, Some i ∈ aws_inode env :: kube_inode env :: write_traps env -> is_unsigned 64 i;
  decoys_typed : forall p, Some p ∈ decoy_pids env -> is_unsigned 32 p
}.

Lemma update_required_typed d msg m k v m' :
  update_required msg m k v = Ok m' -> has_type (map_key d) k -> has_type (map_value d) v ->
  typed_map d m -> typed_map d m'.
Proof. unfold update_required. case_match; [|done]. intros [= <-]. apply typed_map_update. Qed.

Lemma updates_typed d v os m :
  (forall k, Some k ∈ os -> has_type (map_key d) k) -> has_type (map_value d) v ->
  typed_map d m -> typed_map d (fold_left (update_optional v) os m).
Proof.
  intros Hk Hv. revert m; induction os as [|[k|] os IH]; intros m Hm; cbn [fold_left]; [done|..].
  - apply IH; [set_solver|]. apply typed_map_update; [apply Hk; left|done..].
  - apply IH; [set_solver|done].
Qed.

Lemma startup_typed env s s' :
  startup env s = Ok s' -> environment_typed env -> typed_maps s -> typed_maps s'.
Proof.
  intros E [Hp Hi Hd] [].
  unfold startup in E. apply outcome_bind_ok in E as (pids & E1 & E). apply outcome_bind_ok in E as (aws & E2 & E).
  apply outcome_bind_ok in E as (t1 & E3 & E). apply outcome_bind_ok in E as (kube & E4 & E).
  apply outcome_bind_ok in E as (t2 & E5 & [= <-]).
  assert (Ha : aws_inode env = Some aws) by (unfold required in E2; case_match; congruence).
  assert (Hk : kube_inode env = Some kube) by (unfold required in E4; case_match; congruence).
  assert (V1 : has_type (map_value decl.honeytokens) 1 /\ has_type (map_value decl.honeytokens) 2 /\
    has_type (map_value decl.ghost_pids) 1 /\ has_type (map_key decl.agent_pid) 0)
    by (split_and!; vm_compute; split; congruence).
  destruct V1 as (V1 & V2 & V3 & V4).
  split; cbn [c2_blocklist honeytokens ghost_pids agent_pid file_creation_counts journal_spam_counts
    set_ghost_pids set_honeytokens set_agent_pid]; try done.
  - change (fold_left (update_optional 2) (hw_inodes env) (update_optional 2 t2 (ssh_inode env)))
      with (fold_left (update_optional 2) (write_traps env) t2).
    apply updates_typed; [intros k Hin; apply Hi; set_solver|done|].
    eapply update_required_typed; [exact E5|apply Hi; set_solver|done|].
    eapply update_required_typed; [exact E3|apply Hi; set_solver|done|done].
  - by apply updates_typed.
  - by eapply update_required_typed.
Qed.

Lemma drain_typed ips s : Forall (is_unsigned 32) ips -> typed_maps s -> typed_maps (drain_misp ips s).
Proof.
  intros Hips []. split; cbn [c2_blocklist honeytokens ghost_pids agent_pid file_creation_counts journal_spam_counts
    drain_misp set_c2_blocklist]; try done.
  assert (V : has_type (map_value decl.c2_blocklist) 1) by (vm_compute; split; congruence).
  revert typed_blocklist. generalize (c2_blocklist s) as m.
  induction Hips as [|k ips Hk _ IH]; intros m Hm; cbn [fold_left]; [done|]. apply IH. by apply typed_map_update.
Qed.
End typed.

(** ** Concrete runs *)

Section witnesses.

Definition demo_env : environment := MkEnv 77 (Some 99) (Some 100) (Some 101) [None; Some 102] [Some 55; None].

(** The maps as the kernel creates them. *)
Definition loaded_sensor : sensor kmap ring :=
  Sensor (KMap decl.c2_blocklist ∅ ∅) (KMap decl.honeytokens ∅ ∅) (KMap decl.ghost_pids ∅ ∅)
    (KMap decl.agent_pid {[0 := 0]} ∅) (KMap decl.file_creation_counts ∅ ∅)
    (KMap decl.journal_spam_counts ∅ ∅)
    (Ring [] []) (Ring [] []) [].
Lemma loaded_sensor_ok : loaded loaded_sensor.
Proof. by repeat split. Qed.

Lemma startup_exact_witness :
  exists s', startup demo_env loaded_sensor = Ok s' /\
    bpf_map_lookup_elem (honeytokens s') 101 = Some 2 /\ bpf_map_lookup_elem (honeytokens s') 103 = None.
Proof.
  destruct (startup_exact demo_env loaded_sensor loaded_sensor_ok) as (s' & E & _ & H & _);
    [apply Nat.leb_le; reflexivity..|].
  exists s'. split; [exact E|]. rewrite !H. split; vm_compute; reflexivity.
Defined.

Lemma blocklist_capacity_witness :
  bpf_map_lookup_elem (c2_blocklist (drain_misp [7; 9; 7] loaded_sensor)) 9 = Some 1 /\
  bpf_map_lookup_elem (c2_blocklist (drain_misp [7; 9; 7] loaded_sensor)) 8 = None.
Proof.
  rewrite !(blocklist_capacity loaded_sensor [7; 9; 7] _ loaded_sensor_ok). split; vm_compute; reflexivity.
Defined.

End witnesses.
