(* ===== verification/Misp.v ===== *)
(** * The threat-intelligence sidecar: [src/misp.rs]

    A task polls a MISP server with [curl] every five minutes, sends the
    addresses of the reply to the event loop, which blocks them in the kernel,
    and logs what it learned.  [curl] is the [world] of [Shell]; the request's
    body and the decoding of the reply are [serde_json]'s and are parameters. *)

From stdpp Require Import gmap.
From S2P Require Import Prelude CTypes Vmlinux Bpf Maps Sensor Xdp Text Qihse Shell Deploy.

(** ** Addresses *)

(** [Ipv4Addr::from_str]: four decimal numbers of one to three digits, at most
    255, without leading zeros, between dots. *)
Definition parse_octet (l : bytes) : option Z :=
  match l with
  | 48 :: _ :: _ => None
  | _ => if (length l <=? 3)%nat && forallb (between 48 57) l then parse_uint 8 l else None
  end.
Definition parse_ipv4 (l : bytes) : option bytes :=
  if (15 <? length l)%nat then None else
  let parts := split 46 l in
  if (length parts =? 4)%nat then mapM parse_octet parts else None.

(** [u32::from(ip)] takes the octets most significant first; [to_be] swaps
    them on a little-endian machine. *)
Definition u32_from_ip (ip : bytes) : Z := be_val ip.
Definition to_be (n : Z) : Z := bswap 4 n.

(** What [serde] reads of an attribute. *)
Record MispAttribute := MkAttr { attr_type : bytes; attr_value : bytes }.

(** ** The sidecar *)

(** The addresses it has sent, oldest first, and its client of the log. *)
Record sidecar := MkSidecar { tx : list Z; misp_db : QihseClient }.

(** A part of the loop's body goes on, or returns from the task. *)
Inductive turn := Continue (m : sidecar) | Shutdown (m : sidecar).
Definition final (t : turn) : sidecar := match t with Continue m | Shutdown m => m end.

Definition log_intel (indicator_type value source : bytes) (m : sidecar) : sidecar :=
  MkSidecar (tx m) (insert_threat_intel indicator_type value source (misp_db m)).1.

Section sidecar.
(** The body of the request, the decoder of the reply
    ([serde_json::from_str::<MispSearchResponse>]), and whether the event loop
    takes one more address after those it was sent: [tx.send] waits for a free
    place and fails only when the receiver is gone. *)
Context (payload_str : bytes) (decode : bytes -> option (list MispAttribute)) (receives : list Z -> bool).

(** The body of [for attr in misp_data.response.attributes]. *)
Definition process_attribute (a : MispAttribute) (m : sidecar) : turn :=
  if bool_decide (attr_type a = bs "ip-dst") then
    match parse_ipv4 (attr_value a) with
    | Some ip =>
        let ip_u32 := to_be (u32_from_ip ip) in
        if receives (tx m)
        then Continue (log_intel (bs "IP_DST") (attr_value a) (bs "MISP_LIVE")
               (MkSidecar (tx m ++ [ip_u32]) (misp_db m)))
        else Shutdown m
    | None => Continue m
    end
  else if bool_decide (attr_type a = bs "yara") then
    Continue (log_intel (bs "YARA_RULE") (attr_value a) (bs "MISP_LIVE") m)
  else Continue m.

Fixpoint process_attributes (l : list MispAttribute) (m : sidecar) : turn :=
  match l with
  | [] => Continue m
  | a :: l =>
      match process_attribute a m with
      | Continue m => process_attributes l m
      | Shutdown m => Shutdown m
      end
  end.

Definition search_command : command :=
  [bs "curl"; bs "-k"; bs "-s"; bs "-X"; bs "POST";
   bs "-H"; bs "Authorization: " ++ bs "DEMO_AUTH_KEY_REPLACE_ME";
   bs "-H"; bs "Accept: application/json"; bs "-H"; bs "Content-Type: application/json";
   bs "-d"; payload_str; bs "https://localhost:8443" ++ bs "/attributes/restSearch"].
Definition feed_command : command :=
  [bs "curl"; bs "-s";
   bs "https://raw.githubusercontent.com/Yara-Rules/rules/master/malware/APT_APT29.yar"].

(** What a successful [curl] printed. *)
Definition fetched (w : world) (h : list command) (c : command) : option bytes :=
  match w h c with
  | Some o => if success o then Some (from_utf8_lossy (stdout o)) else None
  | None => None
  end.

Definition poll_misp (w : world) (h : list command) (m : sidecar) : turn :=
  match fetched w h search_command with
  | Some json_str =>
      match decode json_str with Some attributes => process_attributes attributes m | None => Continue m end
  | None => Continue m
  end.
Definition poll_feed (w : world) (h : list command) (m : sidecar) : sidecar :=
  match fetched w h feed_command with
  | Some yara_content =>
      if contains (bs "rule ") yara_content
      then log_intel (bs "YARA_FEED_SYNC") (bs "APT_APT29.yar") (bs "OSINT_GITHUB") m else m
  | None => m
  end.

(** One turn of the loop, from one sleep to the next. *)
Definition sidecar_turn (w : world) (m : sidecar) (h : list command) : turn * list command :=
  match poll_misp w h m with
  | Continue m => (Continue (poll_feed w (h ++ [search_command]) m), h ++ [search_command; feed_command])
  | Shutdown m => (Shutdown m, h ++ [search_command])
  end.

(** [run_misp_sidecar], for [n] turns or until it returns. *)
Fixpoint run_misp_sidecar (n : nat) (w : world) (m : sidecar) (h : list command) : turn * list command :=
  match n with
  | O => (Continue m, h)
  | S n =>
      match sidecar_turn w m h with
      | (Continue m, h) => run_misp_sidecar n w m h
      | (Shutdown m, h) => (Shutdown m, h)
      end
  end.

(** ** Specification

    What the turns learn, from the replies alone. *)

Inductive intel :=
  | Address (ip value : bytes)
  | Rule (value : bytes)
  | Feed.

Definition intel_of (a : MispAttribute) : option intel :=
  if bool_decide (attr_type a = bs "ip-dst")
  then (fun ip => Address ip (attr_value a)) <$> parse_ipv4 (attr_value a)
  else if bool_decide (attr_type a = bs "yara") then Some (Rule (attr_value a)) else None.

(** The attributes of the reply to the request after [h]; none when [curl]
    fails or the reply is not of the form expected. *)
Definition reply (w : world) (h : list command) : list MispAttribute :=
  default [] (fetched w h search_command ≫= decode).
Definition feed_news (w : world) (h : list command) : list intel :=
  match fetched w h feed_command with
  | Some text => if contains (bs "rule ") text then [Feed] else []
  | None => []
  end.

(** The trace after [n] turns, and what they learn. *)
Definition polls (n : nat) : list command := concat (replicate n [search_command; feed_command]).
Definition turn_news (w : world) (h : list command) : list intel :=
  omap intel_of (reply w h) ++ feed_news w (h ++ [search_command]).
Definition news (n : nat) (w : world) (h : list command) : list intel :=
  concat (map (fun k => turn_news w (h ++ polls k)) (seq 0 n)).

(** What is done with one item, and when it needs the receiver. *)
Definition learn (m : sidecar) (i : intel) : sidecar :=
  match i with
  | Address ip value => log_intel (bs "IP_DST") value (bs "MISP_LIVE")
                          (MkSidecar (tx m ++ [to_be (u32_from_ip ip)]) (misp_db m))
  | Rule value => log_intel (bs "YARA_RULE") value (bs "MISP_LIVE") m
  | Feed => log_intel (bs "YARA_FEED_SYNC") (bs "APT_APT29.yar") (bs "OSINT_GITHUB") m
  end.

(** A turn has learned a prefix of what there was to learn: all of it when it
    goes on, and all up to the first address that nobody receives when it
    stops. *)
Definition learned (l : list intel) (m : sidecar) (t : turn) : Prop :=
  match t with
  | Continue m' => m' = fold_left learn l m
  | Shutdown m' => exists done ip value rest,
      l = done ++ Address ip value :: rest /\ m' = fold_left learn done m /\ receives (tx m') = false
  end.

(** ** Every turn learns what there is to learn *)

Lemma learned_app l1 l2 m m1 t : learned l1 m (Continue m1) -> learned l2 m1 t -> learned (l1 ++ l2) m t.
Proof.
  intros ->. destruct t as [m2|m2]; cbn; [by rewrite fold_left_app|].
  intros (d & ip & v & rest & -> & -> & Hr). exists (l1 ++ d), ip, v, rest.
  by rewrite fold_left_app, <- app_assoc.
Qed.
Lemma learned_shutdown l1 l2 m m1 : learned l1 m (Shutdown m1) -> learned (l1 ++ l2) m (Shutdown m1).
Proof. intros (d & ip & v & rest & -> & E & Hr). exists d, ip, v, (rest ++ l2). by rewrite <- app_assoc. Qed.

Lemma process_attributes_learned l m : learned (omap intel_of l) m (process_attributes l m).
Proof.
  revert m; induction l as [|a l IH]; intros m; [done|].
  change (a :: l) with ([a] ++ l). rewrite omap_app. cbn [app process_attributes].
  unfold process_attribute. cbn [omap list_omap]. unfold intel_of at 1. case_bool_decide.
  - destruct (parse_ipv4 (attr_value a)) as [ip|]; [|apply IH].
    destruct (receives (tx m)) eqn:Er; [by eapply learned_app, IH|].
    by exists [], ip, (attr_value a), (omap intel_of l).
  - case_bool_decide; [|apply IH]. by eapply learned_app, IH.
Qed.

Lemma poll_feed_learned w h m : poll_feed w h m = fold_left learn (feed_news w h) m.
Proof. unfold poll_feed, feed_news. by repeat case_match. Qed.

Lemma poll_misp_learned w h m : learned (omap intel_of (reply w h)) m (poll_misp w h m).
Proof.
  unfold poll_misp, reply. destruct (fetched w h search_command) as [text|]; [|done]. cbn.
  destruct (decode text) as [l|]; [|done]. apply process_attributes_learned.
Qed.

Lemma sidecar_turn_learned w m h :
  learned (turn_news w h) m (sidecar_turn w m h).1 /\
  forall m', (sidecar_turn w m h).1 = Continue m' -> (sidecar_turn w m h).2 = h ++ [search_command; feed_command].
Proof.
  unfold sidecar_turn, turn_news. pose proof (poll_misp_learned w h m) as H.
  destruct (poll_misp w h m) as [m1|m1]; cbn [fst snd]; (split; [|done]).
  - eapply learned_app; [exact H|]. apply poll_feed_learned.
  - by apply learned_shutdown.
Qed.

Lemma news_S n w h : news (S n) w h = turn_news w h ++ news n w (h ++ [search_command; feed_command]).
Proof.
  unfold news. cbn [seq map concat]. unfold polls at 1. cbn [replicate concat]. rewrite app_nil_r.
  f_equal. rewrite <- seq_shift, map_map. f_equal. apply map_ext. intros k. f_equal.
  rewrite <- app_assoc. f_equal.
Qed.

Lemma run_misp_sidecar_learned n w m h :
  let r := run_misp_sidecar n w m h in
  learned (news n w h) m r.1 /\ (forall m', r.1 = Continue m' -> r.2 = h ++ polls n).
Proof.
  cbv zeta. revert m h; induction n as [|n IH]; intros m h; cbn [run_misp_sidecar].
  { cbn. split; [done|]. intros _ _. by rewrite app_nil_r. }
  rewrite news_S. destruct (sidecar_turn_learned w m h) as [H1 H2].
  destruct (sidecar_turn w m h) as [[m1|m1] h1]; cbn [fst snd] in *.
  - rewrite (H2 m1 eq_refl) in *. destruct (IH m1 (h ++ [search_command; feed_command])) as [H3 H4].
    split; [by eapply learned_app|]. intros m' E. rewrite (H4 m' E), <- app_assoc. done.
  - split; [by apply learned_shutdown|done].
Qed.

(** What an item adds to the channel and to the log. *)
Definition key_of (i : intel) : option Z :=
  match i with Address ip _ => Some (to_be (u32_from_ip ip)) | _ => None end.
Definition line_of (i : intel) : bytes :=
  match i with
  | Address _ value => intel_line (bs "IP_DST") value (bs "MISP_LIVE")
  | Rule value => intel_line (bs "YARA_RULE") value (bs "MISP_LIVE")
  | Feed => intel_line (bs "YARA_FEED_SYNC") (bs "APT_APT29.yar") (bs "OSINT_GITHUB")
  end.

Lemma tx_learn l m : tx (fold_left learn l m) = tx m ++ omap key_of l.
Proof.
  revert m; induction l as [|i l IH]; intros m; cbn [fold_left omap list_omap]; [by rewrite app_nil_r|].
  rewrite IH. destruct i; cbn; [by rewrite <- app_assoc|done..].
Qed.

Lemma wal_learn l m :
  wal_ok (misp_db m) = true ->
  wal (misp_db (fold_left learn l m)) = wal (misp_db m) ++ log_of (map line_of l).
Proof.
  revert m; induction l as [|i l IH]; intros m Hw; cbn [fold_left map]; [by rewrite app_nil_r|].
  assert (E : misp_db (learn m i) = set_wal (wal (misp_db m) ++ line_of i ++ [newline]) (misp_db m)).
  { destruct i; cbn -[intel_line]; unfold insert_threat_intel, append; by rewrite Hw. }
  rewrite IH, E by (by rewrite E). unfold log_of. cbn [wal set_wal map concat]. by rewrite <- !app_assoc.
Qed.

(** C23: the sidecar loses nothing, repeats nothing and invents nothing:
    after any number of turns, whatever [curl] answered in them, it has sent
    and logged, in order, exactly the addresses, rules and feed of the replies
    that arrived and could be read.  It stops early only at an address that
    nobody receives, which it does not log; otherwise it has run its two
    commands once in every turn. *)
Theorem run_misp_sidecar_spec n w m h :
  wal_ok (misp_db m) = true ->
  let r := run_misp_sidecar n w m h in
  exists done rest, news n w h = done ++ rest /\
    tx (final r.1) = tx m ++ omap key_of done /\
    wal (misp_db (final r.1)) = wal (misp_db m) ++ log_of (map line_of done) /\
    match r.1 with
    | Continue _ => rest = [] /\ r.2 = h ++ polls n
    | Shutdown m' => (exists ip value rest', rest = Address ip value :: rest') /\ receives (tx m') = false
    end.
Proof.
  intros Hw. cbv zeta. destruct (run_misp_sidecar_learned n w m h) as [H1 H2].
  destruct (run_misp_sidecar n w m h) as [[m'|m'] h']; cbn [fst snd final learned] in *.
  - exists (news n w h), []. subst m'. rewrite app_nil_r, tx_learn, wal_learn by done.
    split_and!; [done..|by apply (H2 _ eq_refl)].
  - destruct H1 as (d & ip & v & rest & E & -> & Hr). exists d, (Address ip v :: rest).
    rewrite wal_learn by done. split_and!; [done|apply tx_learn|done|by eauto|done].
Qed.
End sidecar.

(** ** From an attribute to a dropped packet *)

Lemma parse_octet_byte l n : parse_octet l = Some n -> is_byte n.
Proof.
  unfold parse_octet, parse_uint. intros E.
  assert (Hr : from_str_radix 10 8 l = Some n) by (repeat case_match; by simplify_eq).
  by apply from_str_radix_range in Hr.
Qed.

Lemma parse_ipv4_bytes l ip : parse_ipv4 l = Some ip -> length ip = 4%nat /\ is_bytes ip.
Proof.
  unfold parse_ipv4. case_match; [done|]. destruct (Nat.eqb_spec (length (split 46 l)) 4) as [E|]; [|done].
  intros Hm%mapM_Some. split; [by rewrite <- E, (Forall2_length _ _ _ Hm)|].
  eapply Forall2_Forall_r; [exact Hm|]. apply Forall_true. intros x y. apply parse_octet_byte.
Qed.

(** The key of an address is its four bytes as they stand in a packet. *)
Lemma to_be_u32 ip : length ip = 4%nat -> is_bytes ip -> to_be (u32_from_ip ip) = le_val ip.
Proof.
  intros Hl Hb. unfold to_be, u32_from_ip, be_val, bswap.
  pose proof (le_bytes_le_val (reverse ip) (is_bytes_reverse _ Hb)) as E.
  rewrite length_reverse, Hl in E. by rewrite E, reverse_involutive.
Qed.

(** An address is among the keys of the blocklist when it was learned. *)
Lemma address_key (l : list intel) ip :
  (forall ip v, Address ip v ∈ l -> length ip = 4%nat /\ is_bytes ip) -> length ip = 4%nat -> is_bytes ip ->
  le_val ip ∈ omap key_of l <-> exists v, Address ip v ∈ l.
Proof.
  intros Hok Hl Hb. rewrite list_elem_of_omap. split.
  - intros ([ip' v| |] & Hi & E); [|done..]. injection E as E. destruct (Hok ip' v Hi) as [Hl' Hb'].
    rewrite to_be_u32 in E by done. exists v. apply le_val_inj in E; [by subst ip'|congruence..].
  - intros [v Hv]. exists (Address ip v). split; [done|]. cbn [key_of]. by rewrite to_be_u32.
Qed.

Lemma address_of_attr ip value a :
  intel_of a = Some (Address ip value) <->
  attr_type a = bs "ip-dst" /\ parse_ipv4 (attr_value a) = Some ip /\ attr_value a = value.
Proof.
  unfold intel_of. case_bool_decide; [|case_bool_decide; naive_solver].
  destruct (parse_ipv4 (attr_value a)); naive_solver.
Qed.

(** The addresses that [n] turns learn, as the keys of the blocklist. *)
Lemma elem_of_news payload_str decode n w h ip value :
  Address ip value ∈ news payload_str decode n w h <->
  exists k a, (k < n)%nat /\ a ∈ reply payload_str decode w (h ++ polls payload_str k) /\
    attr_type a = bs "ip-dst" /\ parse_ipv4 (attr_value a) = Some ip /\ attr_value a = value.
Proof.
  unfold news. rewrite list_elem_of_In, in_concat. setoid_rewrite in_map_iff. split.
  - intros (x & (k & <- & Hk%in_seq) & Hx%list_elem_of_In). unfold turn_news in Hx.
    apply elem_of_app in Hx as [(a & Ha & E%address_of_attr)%list_elem_of_omap|Hx].
    + exists k, a. split_and!; [lia|done|apply E..].
    + unfold feed_news in Hx. repeat case_match; set_solver.
  - intros (k & a & Hk & Ha & E). eexists. split; [exists k; split; [done|]; apply in_seq; lia|].
    apply list_elem_of_In, elem_of_app. left. apply list_elem_of_omap. exists a. split; [done|]. by apply address_of_attr.
Qed.

Lemma learned_addresses {l : list MispAttribute} ip v :
  Address ip v ∈ omap intel_of l -> length ip = 4%nat /\ is_bytes ip.
Proof. intros (a & _ & (_ & Ep & _)%address_of_attr)%list_elem_of_omap. by apply parse_ipv4_bytes in Ep. Qed.

Section blocklist.
Context {M R : Type} `{HKM : KernelMap M, HBL : !BpfMapLaws M, HKL : !KernelMapLaws M,
  HRB : !RingBuf R, HRL : !RingBufLaws R}.
Implicit Types s : sensor M R.

(** After any number of turns of the sidecar, once the event loop has
    drained its channel, an IPv4 packet is dropped exactly when its destination
    was blocked before or is the address of an "ip-dst" attribute of one of
    the replies: the byte order of the map's keys is that of the packet.  (While
    the addresses fit into the declared blocklist.) *)
Theorem misp_to_xdp payload_str decode receives pkt n w m m' h h' s :
  is_bytes pkt -> 34 <= length pkt -> load 12 2 pkt = [8; 0] ->
  definition (c2_blocklist s) = decl.c2_blocklist ->
  base.size (keys (c2_blocklist s) ∪ list_to_set (tx m') : gset Z) <= 100000 ->
  tx m = [] -> run_misp_sidecar payload_str decode receives n w m h = (Continue m', h') ->
  fst <$> xdp_c2_inspector pkt (drain_misp (tx m') s) = Some XDP_DROP <->
  bpf_map_lookup_elem (c2_blocklist s) (le_val (load 30 4 pkt)) = Some 1 \/
  exists k a, (k < n)%nat /\ a ∈ reply payload_str decode w (h ++ polls payload_str k) /\
    attr_type a = bs "ip-dst" /\ parse_ipv4 (attr_value a) = Some (load 30 4 pkt).
Proof.
  intros Hb Hl Hip Hd Hs Htx Hrun. rewrite ipv4_drop_iff by done.
  unfold drain_misp. cbn [c2_blocklist set_c2_blocklist]. fold (block_all (tx m') (c2_blocklist s)).
  rewrite block_all_one_iff by (unfold is_hash; rewrite Hd; done). clear Hs.
  destruct (run_misp_sidecar_learned payload_str decode receives n w m h) as [Hlearn _].
  rewrite Hrun in Hlearn. cbn in Hlearn. subst m'. rewrite tx_learn, Htx. cbn [app].
  assert (Hlen : length (load 30 4 pkt) = 4%nat) by (apply length_load; lia).
  assert (Hin : le_val (load 30 4 pkt) ∈ omap key_of (news payload_str decode n w h) <->
    exists k a, (k < n)%nat /\ a ∈ reply payload_str decode w (h ++ polls payload_str k) /\
      attr_type a = bs "ip-dst" /\ parse_ipv4 (attr_value a) = Some (load 30 4 pkt)).
  { rewrite address_key; [|intros ip v (k & a & _ & _ & _ & Ep & _)%elem_of_news; by apply parse_ipv4_bytes in Ep
      |done|auto with alphvdr]. setoid_rewrite elem_of_news. naive_solver. }
  by rewrite Hin.
Qed.
End blocklist.

Lemma show_octet a :
  is_byte a -> parse_octet (show a) = Some a /\ (length (show a) <= 3)%nat /\ 46 ∉ show a.
Proof.
  intros Ha. set (ok := fun n => bool_decide (parse_octet (show n) = Some n /\
    (length (show n) <= 3)%nat /\ 46 ∉ show n)).
  assert (H : forallb ok (Z.of_nat <$> seq 0 256) = true) by (vm_compute; reflexivity).
  rewrite forallb_forall in H. apply (bool_decide_unpack _).
  apply Is_true_true, (H a), list_elem_of_In, list_elem_of_fmap. unfold is_byte in Ha.
  exists (Z.to_nat a). split; [lia|]. apply elem_of_seq. lia.
Qed.

(** Every address written in dotted decimal is read as its four octets. *)
Theorem parse_ipv4_dotted a b c d :
  is_bytes [a; b; c; d] -> parse_ipv4 (dotted a b c d) = Some [a; b; c; d].
Proof.
  intros [Ha [Hb [Hc [Hd _]%Forall_cons]%Forall_cons]%Forall_cons]%Forall_cons.
  destruct (show_octet a Ha) as (Pa & La & Na), (show_octet b Hb) as (Pb & Lb & Nb),
    (show_octet c Hc) as (Pc & Lc & Nc), (show_octet d Hd) as (Pd & Ld & Nd).
  unfold parse_ipv4, dotted. rewrite (proj2 (Nat.ltb_ge 15 _))
    by (repeat (rewrite !length_app; cbn [length]); lia).
  rewrite !split_app, split_one by done. cbn [length Nat.eqb mapM].
  by rewrite Pa, Pb, Pc, Pd.
Qed.

(** ** Concrete runs *)

Section witnesses.
Import Deploy.

Definition demo_reply : list MispAttribute :=
  [MkAttr (bs "yara") (bs "rule x"); MkAttr (bs "ip-dst") (bs "198.51.100.7"); MkAttr (bs "ip-dst") (bs "010.0.0.1")].

(** A server that is down for the first request and then always gives the
    same reply; the feed cannot be reached. *)
Definition demo_misp : world := fun h c =>
  if (length h =? 0)%nat then None
  else if (length c =? 3)%nat then Some (Output false [])
  else Some (Output true (bs "{}")).
Definition demo_decode (text : bytes) : option (list MispAttribute) :=
  if bool_decide (text = bs "{}") then Some demo_reply else None.
Definition demo_sidecar : sidecar := MkSidecar [] Qihse.Demo.client.
Definition two_turns (receives : list Z -> bool) : turn * list command :=
  run_misp_sidecar (bs "{}") demo_decode receives 2 demo_misp demo_sidecar [].

Lemma run_misp_sidecar_spec_witness :
  (exists done rest, news (bs "{}") demo_decode 2 demo_misp [] = done ++ rest /\
    tx (final (two_turns (fun _ => false)).1) = omap key_of done) /\
  news (bs "{}") demo_decode 2 demo_misp [] =
    [Rule (bs "rule x"); Address [198; 51; 100; 7] (bs "198.51.100.7")].
Proof.
  split; [|vm_compute; reflexivity].
  destruct (run_misp_sidecar_spec (bs "{}") demo_decode (fun _ => false) 2 demo_misp demo_sidecar [])
    as (d & rest & E1 & E2 & _); [reflexivity|]. exists d, rest. exact (conj E1 E2).
Defined.

Lemma misp_to_xdp_witness :
  fst <$> xdp_c2_inspector (demo_packet [198; 51; 100; 7] [])
    (drain_misp (tx (final (two_turns (fun _ => true)).1)) loaded_sensor) = Some XDP_DROP.
Proof.
  assert (E : exists m' h', two_turns (fun _ => true) = (Continue m', h')) by (do 2 eexists; vm_compute; reflexivity).
  destruct E as (m' & h' & E). rewrite E. cbn [fst final].
  assert (Em : tx m' = [le_val [198; 51; 100; 7]]) by (unfold two_turns in E; vm_compute in E; injection E as <- _; reflexivity).
  refine (proj2 (misp_to_xdp (bs "{}") demo_decode (fun _ => true) (demo_packet [198; 51; 100; 7] []) 2 demo_misp
    demo_sidecar m' [] h' loaded_sensor _ _ _ _ _ _ E) _).
  - apply (bool_decide_unpack _). vm_compute. exact I.
  - vm_compute. congruence.
  - vm_compute. reflexivity.
  - reflexivity.
  - rewrite Em. vm_compute. congruence.
  - reflexivity.
  - right. exists 1%nat, (MkAttr (bs "ip-dst") (bs "198.51.100.7")).
    split; [lia|]. split; [right; left|]. split; vm_compute; reflexivity.
Defined.

Lemma parse_ipv4_dotted_witness : parse_ipv4 (bs "203.0.113.9") = Some [203; 0; 113; 9].
Proof.
  change (bs "203.0.113.9") with (dotted 203 0 113 9). apply parse_ipv4_dotted.
  apply (bool_decide_unpack _). vm_compute. exact I.
Defined.
End witnesses.
