(* ===== verification/Steps.v ===== *)
(** * The whole system in motion

    The kernel programs on their processors, the ring buffers, the event loop,
    the research-mode monitor, the sidecar, the daily backup and the responder
    all run at once on shared state.  A step of this machine is one helper call or load
    of a program, one record read, one effect of the callback that is running,
    one address moved to the blocklist, one request of the sidecar, one address
    sent or one line logged by it, one tick of the monitor, one order taken or
    answered; any interleaving is a sequence of steps.  The log is one file:
    every component that writes it appends to what the others have written. *)

From stdpp Require Import gmap relations.
From S2P Require Import Prelude CTypes Vmlinux Bpf Maps Sensor Xdp Kernel Smp Text Qihse Shell Carver Pipeline Agent Responder Deploy Misp.

Section whole.
Context {M R : Type} `{HBM : BpfMap M, HBL : !BpfMapLaws M, HRB : !RingBuf R, HRL : !RingBufLaws R,
  HKM : KernelMemory, HKL : !KernelMemoryLaws}.
Implicit Types (s : sensor M R).

(** ** State *)

(** A record as the loop got it: the switch then, and what the scan of its
    process found. *)
Record delivery := Delivery {
  research : bool;
  del_data : bytes;
  del_scan : option (bytes * bytes)
}.

(** What the callback has to do for a record, decided when it starts; it is
    done one effect at a time. *)
Definition callback (scan : Z -> option (bytes * bytes)) (data : bytes) (on : bool) : list effect :=
  if on then [] else if negb (length data =? size Event)%nat then [] else effects scan data.

(** The loop: [ringbuf.poll], which runs the callbacks, then
    [while let Ok(c2_ip) = rx_misp.try_recv()], and again. *)
Inductive loop_phase := Polling | Draining.
Record event_loop := MkLoop {
  at_phase : loop_phase;
  ev_read : nat;          (* event records it has consumed *)
  tls_read : nat;         (* TLS records it has consumed *)
  todo : list effect;     (* what is left of the callback that is running *)
  drained : nat;          (* addresses taken out of the sidecar's channel *)
  seen : list delivery    (* event records delivered *)
}.

(** What the sidecar does with an item: [tx.send] and the line in the log are
    two steps. *)
Inductive chore := Send (key : Z) | Note (i : intel).
Definition chores_of (i : intel) : list chore :=
  match i with Address ip _ => [Send (to_be (u32_from_ip ip)); Note i] | _ => [Note i] end.
Definition do_chore (m : sidecar) (c : chore) : sidecar :=
  match c with
  | Send key => MkSidecar (tx m ++ [key]) (misp_db m)
  | Note (Address _ value) => log_intel (bs "IP_DST") value (bs "MISP_LIVE") m
  | Note (Rule value) => log_intel (bs "YARA_RULE") value (bs "MISP_LIVE") m
  | Note Feed => log_intel (bs "YARA_FEED_SYNC") (bs "APT_APT29.yar") (bs "OSINT_GITHUB") m
  end.

Record misp_task := MkMisp {
  side : sidecar;
  pending : list chore;               (* what its last reply leaves to do *)
  at_feed : bool;                     (* its next request is that of the feed *)
  curls : list command;               (* commands it has run *)
  learned_attrs : list MispAttribute  (* attributes of the replies it could read *)
}.

Record server := MkServer {
  resp : responder;
  in_hand : option Z;   (* the order it is answering *)
  taken : list Z        (* orders it has taken *)
}.

Record whole := MkWhole {
  cpus : machine (M := M) (R := R);  (* kernel state and running programs *)
  evloop : event_loop;
  the_agent : agent;                 (* callbacks' state, the channel; [db] holds the log file *)
  misp : misp_task;
  serving : server
}.

Definition kernel_state (x : whole) : sensor M R := shared (cpus x).
Definition set_cpus (m : machine) (x : whole) : whole := MkWhole m (evloop x) (the_agent x) (misp x) (serving x).
Definition set_kernel s (x : whole) : whole := set_cpus (Machine s (threads (cpus x))) x.
Definition set_loop (l : event_loop) (x : whole) : whole := MkWhole (cpus x) l (the_agent x) (misp x) (serving x).
Definition set_agent (a : agent) (x : whole) : whole := MkWhole (cpus x) (evloop x) a (misp x) (serving x).
Definition set_misp (t : misp_task) (x : whole) : whole := MkWhole (cpus x) (evloop x) (the_agent x) t (serving x).
Definition set_serving (r : server) (x : whole) : whole := MkWhole (cpus x) (evloop x) (the_agent x) (misp x) r.

(** ** Steps *)

(** The parameters of the sidecar and of the responder. *)
Context {payload_str : bytes} {decode : bytes -> option (list MispAttribute)} {client : Kp14Client}.

(** The loop takes a record: the callback starts.  The kernel reuses the
    ring's space as it likes. *)
Definition read_record (scan : Z -> option (bytes * bytes)) (data : bytes) (r : R) (x : whole) : whole :=
  let l := evloop x in
  let on := research_mode (the_agent x) in
  set_kernel (set_events r (kernel_state x))
    (set_loop (MkLoop (at_phase l) (S (ev_read l)) (tls_read l) (callback scan data on) (drained l)
      (seen l ++ [Delivery on data (scan (event_pid data))])) x).
(** The callback performs its next effect. *)
Definition perform (w : world) (e : effect) (rest : list effect) (x : whole) : whole :=
  let l := evloop x in
  set_agent (do_effect w (the_agent x) e)
    (set_loop (MkLoop (at_phase l) (ev_read l) (tls_read l) rest (drained l) (seen l)) x).
Definition read_tls (data : bytes) (r : R) (x : whole) : whole :=
  let l := evloop x in
  set_kernel (set_tls_events r (kernel_state x)) (set_agent (handle_tls_event data (the_agent x))
    (set_loop (MkLoop (at_phase l) (ev_read l) (S (tls_read l)) (todo l) (drained l) (seen l)) x)).
Definition set_phase (p : loop_phase) (x : whole) : whole :=
  let l := evloop x in set_loop (MkLoop p (ev_read l) (tls_read l) (todo l) (drained l) (seen l)) x.
(** It takes an address out of the channel and blocks it. *)
Definition block_address (c2_ip : Z) (x : whole) : whole :=
  let l := evloop x in
  set_kernel (drain_misp [c2_ip] (kernel_state x))
    (set_loop (MkLoop (at_phase l) (ev_read l) (tls_read l) (todo l) (S (drained l)) (seen l)) x).

(** The places in the sidecar's channel; [tx.send] waits for a free one. *)
Definition MISP_CAPACITY : nat := 100.
Definition may_do (c : chore) (x : whole) : Prop :=
  match c with
  | Send _ => (length (tx (side (misp x))) < drained (evloop x) + MISP_CAPACITY)%nat
  | Note _ => True
  end.
#[global] Instance may_do_dec c x : Decision (may_do c x).
Proof. destruct c; unfold may_do; apply _. Defined.
(** The sidecar, with the log file as it is now. *)
Definition side_now (x : whole) : sidecar :=
  MkSidecar (tx (side (misp x))) (set_wal (wal (db (the_agent x))) (misp_db (side (misp x)))).
Definition ask_misp (w : world) (x : whole) : whole :=
  let t := misp x in
  let l := reply payload_str decode w (curls t) in
  set_misp (MkMisp (side t) (omap intel_of l ≫= chores_of) true (curls t ++ [search_command payload_str])
    (learned_attrs t ++ l)) x.
Definition ask_feed (w : world) (x : whole) : whole :=
  let t := misp x in
  set_misp (MkMisp (side t) (feed_news w (curls t) ≫= chores_of) false (curls t ++ [feed_command]) (learned_attrs t)) x.
Definition deal_with (c : chore) (rest : list chore) (x : whole) : whole :=
  let t := misp x in
  let m := do_chore (side_now x) c in
  set_agent (set_db (set_wal (wal (misp_db m)) (db (the_agent x))) (the_agent x))
    (set_misp (MkMisp m rest (at_feed t) (curls t) (learned_attrs t)) x).

(** [rx.recv()], and then what the responder does with the order. *)
Definition take_order (pid : Z) (rest : list Z) (x : whole) : whole :=
  set_agent (set_channel rest (the_agent x))
    (set_serving (MkServer (resp (serving x)) (Some pid) (taken (serving x) ++ [pid])) x).
Definition answered (r : responder) (x : whole) : whole :=
  set_serving (MkServer r None (taken (serving x))) x.

(** What can happen, and how. *)
Inductive action :=
  | Kernel | Read | Effect | ReadTls | PollReturns | Drain | ChannelEmpty   (* programs, loop *)
  | Switch | Backup | Search | AskFeed | Chore | Receive | Answer | Nothing.

Inductive does : action -> whole -> whole -> Prop :=
  (** one helper call of a program, or a program that starts *)
  | w_kernel m x : smp_step (cpus x) m -> does Kernel x (set_cpus m x)
  (** [poll]: a record, the effects of its callback, a record of the other ring *)
  | w_read scan data r x :
      at_phase (evloop x) = Polling -> todo (evloop x) = [] ->
      records (events (kernel_state x)) !! ev_read (evloop x) = Some data ->
      records r = records (events (kernel_state x)) -> does Read x (read_record scan data r x)
  | w_effect w e rest x : todo (evloop x) = e :: rest -> does Effect x (perform w e rest x)
  | w_tls data r x :
      at_phase (evloop x) = Polling -> todo (evloop x) = [] ->
      records (tls_events (kernel_state x)) !! tls_read (evloop x) = Some data ->
      records r = records (tls_events (kernel_state x)) -> does ReadTls x (read_tls data r x)
  | w_return x :
      at_phase (evloop x) = Polling -> todo (evloop x) = [] -> does PollReturns x (set_phase Draining x)
  (** one address into the blocklist; none left *)
  | w_drain c2_ip x :
      at_phase (evloop x) = Draining -> tx (side (misp x)) !! drained (evloop x) = Some c2_ip ->
      does Drain x (block_address c2_ip x)
  | w_empty x :
      at_phase (evloop x) = Draining -> tx (side (misp x)) !! drained (evloop x) = None ->
      does ChannelEmpty x (set_phase Polling x)
  (** the monitor stores whether the lock file exists *)
  | w_monitor active x : does Switch x (set_agent (set_research active (the_agent x)) x)
  (** a turn of the daily backup *)
  | w_backup w timestamp x :
      does Backup x
        (set_agent (set_trace (take_daily_snapshot home_dataset timestamp w (trace (the_agent x))).2 (the_agent x)) x)
  (** the two requests of a turn of the sidecar, and what a reply leaves to do *)
  | w_search w x : pending (misp x) = [] -> at_feed (misp x) = false -> does Search x (ask_misp w x)
  | w_feed w x : pending (misp x) = [] -> at_feed (misp x) = true -> does AskFeed x (ask_feed w x)
  | w_chore c rest x : pending (misp x) = c :: rest -> may_do c x -> does Chore x (deal_with c rest x)
  (** the responder takes the oldest order, and answers it *)
  | w_receive pid rest x :
      in_hand (serving x) = None -> channel (the_agent x) = pid :: rest -> does Receive x (take_order pid rest x)
  | w_answer w e pid r x :
      in_hand (serving x) = Some pid -> respond w client pid e (resp (serving x)) = Ok r ->
      does Answer x (answered r x)
  | w_nothing x : does Nothing x x.

Definition wstep (x y : whole) : Prop := exists a, does a x y.

(** Before anything has happened: the maps are deployed, the rings and the
    channels are empty, nobody has been stopped. *)
Definition at_start s (a : agent) (m : sidecar) : whole :=
  MkWhole (Machine s []) (MkLoop Polling 0 0 [] 0 []) a (MkMisp m [] false [] []) (MkServer idle_responder None []).
Definition fresh_start s (a : agent) (m : sidecar) : Prop :=
  records (events s) = [] /\ records (tls_events s) = [] /\ signals s = [] /\
  channel a = [] /\ rx_alive a = true /\ tx m = [].
(** The addresses that have been moved to the blocklist. *)
Definition moved (x : whole) : list Z := take (drained (evloop x)) (tx (side (misp x))).
End whole.

Arguments does {M R HBM HRB HKM} payload_str decode client _ _ _.
Arguments wstep {M R HBM HRB HKM} payload_str decode client _ _.
Arguments ask_misp {M R} payload_str decode w x.

(** A step, seen in each part of the state. *)
Ltac open_step :=
  unfold set_phase, block_address, read_record, perform, read_tls, ask_misp, ask_feed, deal_with,
    take_order, answered, set_kernel, set_cpus, set_loop, set_agent, set_misp, set_serving, kernel_state, moved in *;
  cbn [cpus shared threads evloop the_agent misp serving at_phase ev_read tls_read todo drained seen side pending at_feed
    curls learned_attrs resp in_hand taken set_events set_tls_events events tls_events signals honeytokens ghost_pids
    agent_pid c2_blocklist set_db set_channel channel rx_alive db] in *.
