(* ===== verification/Whole.v ===== *)
(** * What holds in every execution

    The invariant of the machine of [Steps], what it gives for the orders, the
    signals, the records, the log and the blocklist, and the operations of the
    components as executions of the machine. *)

From stdpp Require Import gmap relations.
From S2P Require Import Prelude CTypes Vmlinux Bpf Maps Sensor Xdp Kernel Smp Text Qihse Shell Carver Pipeline Agent Responder Deploy Misp Steps.

(** The log only grows, and its client stays what it is. *)
Definition same_client (q q' : QihseClient) : Prop :=
  wal q `prefix_of` wal q' /\ wal_ok q' = wal_ok q /\ connection_string q' = connection_string q.
Definition appends (f : QihseClient -> QihseClient * outcome unit) : Prop := forall q, same_client q (f q).1.

#[export] Instance same_client_preorder : PreOrder same_client.
Proof.
  split; [by intros q|]. intros q1 q2 q3 (H1 & H2 & H3) (H4 & H5 & H6).
  split_and!; [by etrans|congruence..].
Qed.

Section whole.
Context {M R : Type} `{HBM : BpfMap M, HBL : !BpfMapLaws M, HRB : !RingBuf R, HRL : !RingBufLaws R,
  HKM : KernelMemory, HKL : !KernelMemoryLaws}.
Implicit Types (s : sensor M R).
Context (payload_str : bytes) (decode : bytes -> option (list MispAttribute)) (client : Kp14Client).
#[local] Notation whole := (whole (M := M) (R := R)).
#[local] Notation wstep := (wstep (M := M) (R := R) payload_str decode client).
#[local] Notation does := (does (M := M) (R := R) payload_str decode client).
#[local] Notation ask_misp := (ask_misp payload_str decode).

(** ** The invariant *)

(** The orders a delivery calls for: one for each of the four tests that fires. *)
Definition orders_of (d : delivery) : list Z :=
  if negb (research d) && (length (del_data d) =? size Event)%nat
  then replicate (order_count (fun _ => del_scan d) (del_data d)) (event_pid (del_data d)) else [].
(** The keys of the attributes learned, and those of what is left to do. *)
Definition keys_of (l : list MispAttribute) : list Z := omap key_of (omap intel_of l).
Definition sent_key (c : chore) : option Z := if c is Send key then Some key else None.

(** What is true of every state, [who] being the processes at the hooks. *)
Record invariant (who : Z -> Prop) s0 (a0 : agent) (x : whole) : Prop := {
  inv_threads : Forall (fun t => typed_conc who t.2) (threads (cpus x));
  inv_events : Forall (typed_event who) (records (events (kernel_state x)));
  inv_tls : Forall typed_tls_event (records (tls_events (kernel_state x)));
  inv_signals : Forall (typed_signal who) (signals (kernel_state x));
  inv_maps : honeytokens (kernel_state x) = honeytokens s0 /\ ghost_pids (kernel_state x) = ghost_pids s0 /\
             agent_pid (kernel_state x) = agent_pid s0;
  inv_read : (ev_read (evloop x) <= length (records (events (kernel_state x))))%nat;
  inv_seen : del_data <$> seen (evloop x) = take (ev_read (evloop x)) (records (events (kernel_state x)));
  inv_todo : (at_phase (evloop x) = Draining -> todo (evloop x) = []) /\ Forall appends (log_effects (todo (evloop x)));
  inv_channel : rx_alive (the_agent x) = true /\ (length (channel (the_agent x)) <= CHANNEL_CAPACITY)%nat;
  inv_orders : Forall who (taken (serving x) ++ channel (the_agent x) ++ orders (todo (evloop x)));
  inv_due : taken (serving x) ++ channel (the_agent x) ++ orders (todo (evloop x))
            `sublist_of` (seen (evloop x) ≫= orders_of);
  inv_frozen : frozen (resp (serving x)) ++ option_list (in_hand (serving x)) `sublist_of` taken (serving x);
  inv_count : (drained (evloop x) <= length (tx (side (misp x))) <= drained (evloop x) + MISP_CAPACITY)%nat;
  inv_tx : tx (side (misp x)) ++ omap sent_key (pending (misp x)) = keys_of (learned_attrs (misp x));
  inv_blocklist : c2_blocklist (kernel_state x) = block_all (moved x) (c2_blocklist s0);
  inv_typed : typed_maps s0 -> typed_maps (kernel_state x);
  inv_log : same_client (db a0) (db (the_agent x))
}.

(** ** The steps together are what the components do *)

Lemma callback_effects w scan data a :
  fold_left (do_effect w) (callback scan data (research_mode a)) a = handle_event w scan data a.
Proof.
  unfold callback. destruct (research_mode a) eqn:Er; [unfold handle_event; by rewrite Er|].
  destruct (Nat.eqb_spec (length data) (size Event)) as [Hl|Hl]; cbn [negb]; [by rewrite handle_event_effects|].
  unfold handle_event. apply Nat.eqb_neq in Hl. by rewrite Er, Hl.
Qed.

Lemma callback_orders d : orders (callback (fun _ => del_scan d) (del_data d) (research d)) = orders_of d.
Proof.
  unfold callback, orders_of. destruct (research d), (_ =? _)%nat; cbn [negb andb]; try done. apply orders_effects.
Qed.

Lemma fold_chores l m : fold_left do_chore (l ≫= chores_of) m = fold_left learn l m.
Proof.
  revert m; induction l as [|i l IH]; intros m; [done|]. cbn [mbind list_bind fold_left].
  rewrite fold_left_app, IH. by destruct i.
Qed.

(** ** The log only grows *)

Lemma append_appends line : appends (append line).
Proof. intros q. unfold append. case_match; [|done]. split; [by apply prefix_app_r|done]. Qed.
Lemma insert_event_appends_only pid ppid uid comm filename : appends (insert_event pid ppid uid comm filename).
Proof. intros q. unfold insert_event. case_match; [done|]. apply append_appends. Qed.

Lemma effects_append scan data : Forall appends (log_effects (effects scan data)).
Proof.
  unfold effects, log_effects. cbn [omap list_omap app]. constructor; [apply insert_event_appends_only|].
  change (list_omap _ _ ?f ?l) with (omap f l). rewrite !omap_app, !Forall_app.
  unfold trap_effects, yara_effects, heuristic_effects, ransomware_effects, order_for.
  split_and!; repeat case_match; repeat constructor; apply append_appends.
Qed.
Lemma callback_append scan data on : Forall appends (log_effects (callback scan data on)).
Proof. unfold callback. repeat case_match; [constructor..|apply effects_append]. Qed.

(** ** The parts of a step *)

(** One effect leaves the switch and the receiver; it queues what it orders,
    room permitting. *)
Lemma effect_spec w e a :
  rx_alive a = true -> (length (channel a) <= CHANNEL_CAPACITY)%nat -> Forall appends (log_effects [e]) ->
  let a' := do_effect w a e in
  rx_alive a' = true /\ channel a' = take CHANNEL_CAPACITY (channel a ++ orders [e]) /\ same_client (db a) (db a').
Proof.
  intros Ha Hc Hf. cbv zeta. destruct (fold_effects_spec w [e] a Hc) as (E1 & _ & E3 & E4).
  cbn [fold_left] in *. rewrite E1, E3, Ha, E4. split_and!; try done.
  destruct e as [f| |]; [|by cbn..]. apply Forall_cons in Hf as [Hf _]. apply Hf.
Qed.

Lemma log_effects_cons e l : log_effects (e :: l) = log_effects [e] ++ log_effects l.
Proof. apply (omap_app _ [e]). Qed.
Lemma orders_cons e l : orders (e :: l) = orders [e] ++ orders l.
Proof. apply (orders_app [e]). Qed.

Lemma handle_tls_event_keeps data a :
  rx_alive (handle_tls_event data a) = rx_alive a /\ channel (handle_tls_event data a) = channel a /\
  same_client (db a) (db (handle_tls_event data a)).
Proof. unfold handle_tls_event. case_match; [done|]. split_and!; [done..|]. apply append_appends. Qed.

Lemma keys_app l1 l2 : keys_of (l1 ++ l2) = keys_of l1 ++ keys_of l2.
Proof. unfold keys_of. by rewrite !omap_app. Qed.

Lemma keys_typed l : Forall (is_unsigned 32) (keys_of l).
Proof.
  apply Forall_forall. intros k ([ip v| |] & Hi & E)%list_elem_of_omap; [|done..]. injection E as <-.
  apply learned_addresses in Hi as [Hl Hb]. rewrite to_be_u32 by done.
  pose proof (le_val_range ip Hb) as H. by rewrite Hl in H.
Qed.

Lemma chores_keys l : omap sent_key (l ≫= chores_of) = omap key_of l.
Proof. induction l as [|[] l IH]; cbn; by rewrite ?IH. Qed.
Lemma feed_keys w h : omap sent_key (feed_news w h ≫= chores_of) = [].
Proof. rewrite chores_keys. unfold feed_news. by repeat case_match. Qed.

(** A chore sends its address, if it is one, and writes what it notes. *)
Lemma chore_spec c m :
  tx (do_chore m c) = tx m ++ omap sent_key [c] /\
  misp_db (do_chore m c) = (if c is Note i then (append (line_of i) (misp_db m)).1 else misp_db m).
Proof. split; [destruct c as [|[]]; cbn; by rewrite ?app_nil_r|by destruct c as [|[]]]. Qed.

Lemma chore_log c (x : whole) : wal (db (the_agent x)) `prefix_of` wal (misp_db (do_chore (side_now x) c)).
Proof.
  rewrite (proj2 (chore_spec c _)). destruct c as [|i]; [done|].
  apply (append_appends (line_of i) (misp_db (side_now x))).
Qed.

(** Serving an order stops its process, or nobody. *)
Lemma respond_frozen w pid e r r' :
  respond w client pid e r = Ok r' -> frozen r' = frozen r \/ frozen r' = frozen r ++ [pid].
Proof. unfold respond. intros E. repeat case_match; simplify_eq; auto. Qed.

(** ** Every step keeps the invariant *)

Section preservation.
Context (who : Z -> Prop).
#[local] Notation invariant := (invariant who).

Lemma added_forall {A} (P : A -> Prop) (l l' : list A) :
  Forall P l -> (exists r, l' = l ++ r /\ Forall P r) -> Forall P l' /\ l `prefix_of` l'.
Proof. intros Hl (r & -> & Hr). split; [by apply Forall_app|by apply prefix_app_r]. Qed.

Lemma take_prefix {A} n (l l' : list A) : l `prefix_of` l' -> (n <= length l)%nat -> take n l' = take n l.
Proof. intros [r ->] Hn. by rewrite take_app_le. Qed.

Lemma inv_evolve s0 a0 x m :
  invariant s0 a0 x -> evolves who (kernel_state x) (shared m) ->
  Forall (fun t => typed_conc who t.2) (threads m) -> invariant s0 a0 (set_cpus m x).
Proof.
  intros [] Hev; pose proof (evolves_typed _ _ _ Hev) as Htm; destruct Hev as [(Em1 & Em2 & Em3 & Em4) He Ht Hs _ _]; intros Hth.
  apply (added_forall _ _ _ inv_events0) in He as [He Hpre]. apply (added_forall _ _ _ inv_tls0) in Ht as [Ht _].
  apply (added_forall _ _ _ inv_signals0) in Hs as [Hs _].
  split; open_step; rewrite ?Em1, ?Em2, ?Em3, ?Em4; try done.
  - apply prefix_length in Hpre. lia.
  - by rewrite (take_prefix _ _ _ Hpre).
  - auto.
Qed.

Lemma kernel_evolves s0 a0 m x :
  invariant s0 a0 x -> smp_step (cpus x) m -> Forall (hook_actor who) (fired m) ->
  evolves who (kernel_state x) (shared m) /\ Forall (fun t => typed_conc who t.2) (threads m).
Proof.
  intros Hi Hs Hwho. pose proof (inv_threads _ _ _ _ Hi) as Hth.
  apply (smp_threads (fun _ c => typed_conc who c) (evolves who) (cpus x) m _ (rtc_once _ _ Hs)).
  - intros h Hh. apply typed_conc_of. rewrite Forall_forall in Hwho. by apply Hwho.
  - intros h X op k s1 H. apply H.
  - done.
Qed.

Lemma inv_kernel s0 a0 m x :
  invariant s0 a0 x -> smp_step (cpus x) m -> Forall (hook_actor who) (fired m) -> invariant s0 a0 (set_cpus m x).
Proof. intros Hi Hs Hw. destruct (kernel_evolves _ _ _ _ Hi Hs Hw). by apply inv_evolve. Qed.

(** The kernel only adds records. *)
Lemma events_grow s0 a0 x x' :
  invariant s0 a0 x -> wstep x x' -> Forall (hook_actor who) (fired (cpus x')) ->
  records (events (kernel_state x)) `prefix_of` records (events (kernel_state x')).
Proof.
  intros Hi [b Hd] Hw. revert Hi Hw.
  destruct Hd as [m x Hs|scan data r x _ _ _ E| | | | | | | | | | | | |]; intros Hi Hw; try done.
  - destruct (kernel_evolves _ _ _ _ Hi Hs Hw) as [[_ He _ _ _ _] _].
    apply (added_forall _ _ _ (inv_events _ _ _ _ Hi)) in He as [_ He]. exact He.
  - open_step. by rewrite E.
Qed.

(** The rings are not maps. *)
Lemma rings_typed s s' :
  c2_blocklist s' = c2_blocklist s -> honeytokens s' = honeytokens s -> ghost_pids s' = ghost_pids s ->
  agent_pid s' = agent_pid s -> file_creation_counts s' = file_creation_counts s ->
  journal_spam_counts s' = journal_spam_counts s -> typed_maps s -> typed_maps s'.
Proof. intros E1 E2 E3 E4 E5 E6 []. split; rewrite ?E1, ?E2, ?E3, ?E4, ?E5, ?E6; done. Qed.

Lemma event_who data : typed_event who data -> length data = size Event /\ who (event_pid data).
Proof. intros [[Hl _] Hw]. by split. Qed.

Lemma inv_read_step s0 a0 scan data r x :
  invariant s0 a0 x -> at_phase (evloop x) = Polling -> todo (evloop x) = [] ->
  records (events (kernel_state x)) !! ev_read (evloop x) = Some data ->
  records r = records (events (kernel_state x)) -> invariant s0 a0 (read_record scan data r x).
Proof.
  intros [] Hp Ht Hd Hr. destruct (event_who data (Forall_lookup_1 _ _ _ _ inv_events0 Hd)) as [Hlen Hw].
  set (d := Delivery (research_mode (the_agent x)) data (scan (event_pid data))).
  assert (Eo : orders (callback scan data (research_mode (the_agent x))) = orders_of d) by apply (callback_orders d).
  rewrite Ht in *. change (orders []) with (@nil Z) in *. rewrite app_nil_r in *.
  split; open_step; rewrite ?Hr; try done.
  - apply lookup_lt_Some in Hd. lia.
  - rewrite fmap_app, inv_seen0. cbn. by rewrite (take_S_r _ _ _ Hd).
  - rewrite Hp. split; [done|]. apply callback_append.
  - rewrite Eo, app_assoc. apply Forall_app. split; [done|]. unfold orders_of. case_match; [by apply Forall_replicate|done].
  - rewrite Eo, bind_app, app_assoc. cbn [mbind list_bind]. rewrite app_nil_r. by apply sublist_app.
  - intros Hm. by apply (rings_typed (shared (cpus x))); auto.
Qed.

Lemma inv_effect s0 a0 w e rest x :
  invariant s0 a0 x -> todo (evloop x) = e :: rest -> invariant s0 a0 (perform w e rest x).
Proof.
  intros [] Ht. destruct inv_channel0 as [Ha Hc], inv_todo0 as [Hp Hf].
  rewrite Ht, log_effects_cons, Forall_app in Hf. destruct Hf as [Hf1 Hf2].
  destruct (effect_spec w e (the_agent x) Ha Hc Hf1) as (E1 & E2 & E3).
  rewrite Ht, orders_cons in inv_orders0, inv_due0.
  split; open_step; rewrite ?E1, ?E2; try done.
  - split; [|done]. intros H%Hp. congruence.
  - split; [done|]. rewrite length_take. lia.
  - rewrite !Forall_app in *. destruct inv_orders0 as (H1 & H2 & H3 & H4). split_and!; [done| |done].
    apply Forall_take, Forall_app. by split.
  - etrans; [|exact inv_due0]. apply sublist_app; [done|]. rewrite (app_assoc (channel _)).
    apply sublist_app; [apply sublist_take|done].
  - by etrans.
Qed.

Lemma inv_tls_step s0 a0 data r x :
  invariant s0 a0 x -> records r = records (tls_events (kernel_state x)) -> invariant s0 a0 (read_tls data r x).
Proof.
  intros [] Hr. destruct (handle_tls_event_keeps data (the_agent x)) as (E1 & E2 & E3).
  split; open_step; rewrite ?Hr, ?E1, ?E2; try done; [|by etrans].
  intros Hm. by apply (rings_typed (shared (cpus x))); auto.
Qed.

Lemma inv_phase s0 a0 p x : invariant s0 a0 x -> todo (evloop x) = [] -> invariant s0 a0 (set_phase p x).
Proof. intros [] Ht. split; open_step; try done. by rewrite Ht. Qed.

(** A step of the agent alone that leaves the channel and the log. *)
Lemma inv_agent s0 a0 a x :
  invariant s0 a0 x -> rx_alive a = rx_alive (the_agent x) -> channel a = channel (the_agent x) ->
  db a = db (the_agent x) -> invariant s0 a0 (set_agent a x).
Proof. intros [] E1 E2 E3. split; open_step; rewrite ?E1, ?E2, ?E3; done. Qed.

Lemma inv_search s0 a0 w x : invariant s0 a0 x -> pending (misp x) = [] -> invariant s0 a0 (ask_misp w x).
Proof.
  intros [] Hp. rewrite Hp in *. cbn [omap list_omap] in inv_tx0. rewrite app_nil_r in inv_tx0.
  split; open_step; try done. by rewrite keys_app, chores_keys, inv_tx0.
Qed.

Lemma inv_feed s0 a0 w x : invariant s0 a0 x -> pending (misp x) = [] -> invariant s0 a0 (ask_feed w x).
Proof. intros [] Hp. rewrite Hp in *. split; open_step; try done. by rewrite feed_keys. Qed.

Lemma inv_chore s0 a0 c rest x :
  invariant s0 a0 x -> pending (misp x) = c :: rest -> may_do c x -> invariant s0 a0 (deal_with c rest x).
Proof.
  intros [] Hp Hs. pose proof (proj1 (chore_spec c (side_now x))) as Htx. pose proof (chore_log c x) as Hlog.
  change (tx (side_now x)) with (tx (side (misp x))) in Htx.
  change (c :: rest) with ([c] ++ rest) in Hp. rewrite Hp, omap_app, app_assoc in inv_tx0.
  assert (Et : take (drained (evloop x)) (tx (do_chore (side_now x) c)) = take (drained (evloop x)) (tx (side (misp x))))
    by (by rewrite Htx, take_app_le by lia).
  split; open_step; rewrite ?Et; try done.
  - rewrite Htx, length_app. unfold may_do in Hs. destruct c; cbn; lia.
  - by rewrite Htx.
  - destruct inv_log0 as (H1 & H2 & H3). split_and!; [by etrans|done..].
Qed.

Lemma inv_drain s0 a0 c2_ip x :
  invariant s0 a0 x -> tx (side (misp x)) !! drained (evloop x) = Some c2_ip -> invariant s0 a0 (block_address c2_ip x).
Proof.
  intros [] Hip. pose proof (take_S_r _ _ _ Hip) as Et.
  split; open_step; cbn [drain_misp set_c2_blocklist c2_blocklist events tls_events signals honeytokens ghost_pids
    agent_pid fold_left] in *; rewrite ?Et; try done.
  - apply lookup_lt_Some in Hip. lia.
  - by rewrite block_all_app, <- inv_blocklist0.
  - intros Hm. apply drain_typed; [|auto]. constructor; [|done].
    pose proof (keys_typed (learned_attrs (misp x))) as Hk. rewrite <- inv_tx0, Forall_app, Forall_forall in Hk.
    by eapply (proj1 Hk), list_elem_of_lookup_2.
Qed.

Lemma inv_receive s0 a0 pid rest x :
  invariant s0 a0 x -> in_hand (serving x) = None -> channel (the_agent x) = pid :: rest ->
  invariant s0 a0 (take_order pid rest x).
Proof.
  intros [] Hn Hc. rewrite Hc, Hn in *. split; open_step; cbn [app option_list length] in *; rewrite <- ?app_assoc; try done.
  - split; [apply inv_channel0|]. lia.
  - rewrite app_nil_r in inv_frozen0. by apply sublist_app.
Qed.

Lemma inv_answer s0 a0 w e pid r x :
  invariant s0 a0 x -> in_hand (serving x) = Some pid -> respond w client pid e (resp (serving x)) = Ok r ->
  invariant s0 a0 (answered r x).
Proof.
  intros [] Hp Hr. rewrite Hp in *. split; open_step; try done. cbn [option_list] in *. rewrite app_nil_r.
  etrans; [|exact inv_frozen0]. destruct (respond_frozen _ _ _ _ _ Hr) as [-> | ->]; [by apply sublist_inserts_r|done].
Qed.

Lemma inv_step s0 a0 x x' :
  wstep x x' -> Forall (hook_actor who) (fired (cpus x')) -> invariant s0 a0 x -> invariant s0 a0 x'.
Proof.
  intros [b Hd] Hw Hi. destruct Hd as [m x0 Hs|scan data r x0|w e rest x0|data r x0|x0|c2_ip x0|x0 Hp|active x0|w ts x0|w x0|w x0
    |c rest x0|pid rest x0|w e pid r x0|x0].
  - by apply inv_kernel.
  - by apply inv_read_step.
  - by apply inv_effect.
  - by apply inv_tls_step.
  - by apply inv_phase.
  - by apply inv_drain.
  - apply inv_phase; [done|]. by apply (inv_todo _ _ _ _ Hi).
  - by apply inv_agent.
  - by apply inv_agent.
  - by apply inv_search.
  - by apply inv_feed.
  - by apply inv_chore.
  - by apply inv_receive.
  - by eapply inv_answer.
  - done.
Qed.

Lemma inv_start s0 a0 m : fresh_start s0 a0 m -> invariant s0 a0 (at_start s0 a0 m).
Proof.
  intros (He & Ht & Hs & Hc & Ha & Hm). split; unfold at_start; open_step; rewrite ?He, ?Ht, ?Hs, ?Hc, ?Hm; try done.
  - split; [done|]. cbn. lia.
  - cbn. unfold MISP_CAPACITY. lia.
Qed.
End preservation.

(** ** Executions *)

Lemma wstep_fired x x' : wstep x x' -> fired (cpus x) `prefix_of` fired (cpus x').
Proof. intros [b Hd]. destruct Hd; try done. by apply fired_grows, rtc_once. Qed.

Lemma inv_run who s0 a0 x x' :
  invariant who s0 a0 x -> rtc wstep x x' -> Forall (hook_actor who) (fired (cpus x')) -> invariant who s0 a0 x'.
Proof.
  intros Hi Hrun. revert x' Hrun. refine (rtc_ind_r _ _ _ _); [done|]. intros x1 x2 _ Hs IH Hw.
  apply (inv_step who s0 a0 x1); [done..|]. apply IH.
  destruct (wstep_fired _ _ Hs) as [l E]. rewrite E in Hw. by apply Forall_app in Hw as [Hw _].
Qed.

Lemma inv_reachable s0 a0 m x :
  fresh_start s0 a0 m -> rtc wstep (at_start s0 a0 m) x -> Forall hook_wf (fired (cpus x)) ->
  invariant (actors (fired (cpus x))) s0 a0 x.
Proof.
  intros Hf Hrun Hw. apply (inv_run _ _ _ (at_start s0 a0 m)); [by apply inv_start|done|by apply actors_hooks].
Qed.

(** What has been moved stays moved. *)
Lemma moved_grows x x' :
  (drained (evloop x) <= length (tx (side (misp x))))%nat -> wstep x x' -> moved x `prefix_of` moved x'.
Proof.
  intros Hl [b Hd]. revert Hl. destruct Hd as [| | | | |c2_ip x _ Hip| | | | | |c rest x| | |]; intros Hl; try done; open_step.
  - rewrite (take_S_r _ _ _ Hip). by apply prefix_app_r.
  - rewrite (proj1 (chore_spec c _)). by rewrite take_app_le.
Qed.

Lemma moved_run who s0 a0 x x' :
  invariant who s0 a0 x -> rtc wstep x x' -> Forall (hook_actor who) (fired (cpus x')) -> moved x `prefix_of` moved x'.
Proof.
  intros Hi Hrun. revert x' Hrun. refine (rtc_ind_r _ _ _ _); [done|]. intros x1 x2 Hr Hs IH Hw.
  destruct (wstep_fired _ _ Hs) as [l E]. rewrite E in Hw. apply Forall_app in Hw as [Hw _].
  etrans; [by apply IH|]. apply moved_grows; [|done].
  by apply (inv_count who s0 a0), (inv_run who s0 a0 x).
Qed.

(** One step, and then others. *)
Lemma does_then b x y z : does b x y -> rtc wstep y z -> rtc wstep x z.
Proof. intros Hd. apply rtc_l. by exists b. Qed.

(** ** The components' operations are executions *)

(** An execution of the programs is one of the system. *)
Lemma kernel_run m x : rtc smp_step (cpus x) m -> rtc wstep x (set_cpus m x).
Proof.
  intros H. revert m H. refine (rtc_ind_r _ _ _ _); [by destruct x|]. intros m1 m2 _ Hs IH.
  eapply rtc_r; [exact IH|]. exists Kernel. apply (w_kernel m2 (set_cpus m1 x)). exact Hs.
Qed.

Lemma program_run h x :
  exists y, rtc wstep x y /\ kernel_state y = (collapse (conc_of h) (kernel_state x)).2 /\ the_agent y = the_agent x.
Proof.
  eexists. split; [apply kernel_run; eapply rtc_l; [|apply (run_thread (threads (cpus x)) h (conc_of h) (kernel_state x))]|done].
  destruct x as [[s ts] l a t r]. apply (smp_enter h).
Qed.

(** The effects of a callback, one after the other. *)
Lemma effects_run w l x : todo (evloop x) = l ->
  exists y, rtc wstep x y /\ the_agent y = fold_left (do_effect w) l (the_agent x) /\ todo (evloop y) = [] /\
    at_phase (evloop y) = at_phase (evloop x) /\ cpus y = cpus x /\ misp y = misp x /\ drained (evloop y) = drained (evloop x).
Proof.
  revert x; induction l as [|e l IH]; intros x Hl; [by exists x|].
  destruct (IH (perform w e l x) eq_refl) as (y & Hy & H). exists y. split; [|exact H].
  eapply does_then; [by apply (w_effect w e l)|done].
Qed.

Lemma callback_run w scan data x :
  at_phase (evloop x) = Polling -> todo (evloop x) = [] ->
  records (events (kernel_state x)) !! ev_read (evloop x) = Some data ->
  exists y, rtc wstep x y /\ the_agent y = handle_event w scan data (the_agent x) /\ todo (evloop y) = [].
Proof.
  intros Hp Ht Hd. destruct (effects_run w _ (read_record scan data (events (kernel_state x)) x) eq_refl)
    as (y & Hy & Ha & Hn & _). exists y. split_and!; [|by rewrite Ha; apply callback_effects|done].
  by eapply does_then; [apply (w_read scan data)|].
Qed.

(** The addresses of the channel, one after the other. *)
Lemma drain_run l x : at_phase (evloop x) = Draining -> drop (drained (evloop x)) (tx (side (misp x))) = l ->
  exists y, rtc wstep x y /\ kernel_state y = drain_misp l (kernel_state x) /\ at_phase (evloop y) = Draining /\
    todo (evloop y) = todo (evloop x) /\ the_agent y = the_agent x /\ misp y = misp x /\
    drained (evloop y) = (drained (evloop x) + length l)%nat.
Proof.
  revert x; induction l as [|c2_ip l IH]; intros x Hp Hl.
  { exists x. split_and!; try done. by destruct (kernel_state x). }
  assert (Hip : tx (side (misp x)) !! drained (evloop x) = Some c2_ip)
    by (by rewrite <- (Nat.add_0_r (drained _)), <- lookup_drop, Hl).
  pose proof (drop_S _ _ _ Hip) as Ed. rewrite Hl in Ed. injection Ed as Ed.
  destruct (IH (block_address c2_ip x) Hp (eq_sym Ed)) as (y & Hy & Hk & H1 & H2 & H3 & H4 & H5). exists y. split_and!; try done.
  - by eapply does_then; [apply (w_drain c2_ip)|].
  - rewrite H5. cbn [block_address evloop drained length set_kernel set_cpus set_loop]. lia.
Qed.

(** What a reply leaves to do, one after the other. *)
Lemma chores_run l x :
  pending (misp x) = l -> (length (tx (side (misp x))) + length (omap sent_key l) <= drained (evloop x) + MISP_CAPACITY)%nat ->
  exists y, rtc wstep x y /\ side_now y = fold_left do_chore l (side_now x) /\ pending (misp y) = [] /\
    at_feed (misp y) = at_feed (misp x) /\ curls (misp y) = curls (misp x) /\ drained (evloop y) = drained (evloop x).
Proof.
  revert x; induction l as [|c l IH]; intros x El Hr; [by exists x|].
  change (c :: l) with ([c] ++ l) in Hr. rewrite omap_app, length_app in Hr.
  assert (Hs : may_do c x) by (destruct c; [cbn in Hr; unfold may_do; lia|exact I]).
  destruct (IH (deal_with c l x) eq_refl) as (z & Hz & E & H).
  { cbn [deal_with set_agent set_misp misp side evloop]. rewrite (proj1 (chore_spec c _)), length_app.
    change (tx (side_now x)) with (tx (side (misp x))). lia. }
  exists z. split; [by eapply does_then; [apply (w_chore c l)|]|]. split; [|exact H]. rewrite E. cbn [fold_left]. f_equal.
  assert (Em : forall m, MkSidecar (tx m) (set_wal (wal (misp_db m)) (misp_db m)) = m) by by intros [? []].
  apply (Em (do_chore (side_now x) c)).
Qed.

(** With room for its addresses, a turn of the sidecar as [Misp] defines it. *)
Lemma turn_run w x :
  pending (misp x) = [] -> at_feed (misp x) = false ->
  (length (tx (side (misp x))) + length (keys_of (reply payload_str decode w (curls (misp x)))) <=
    drained (evloop x) + MISP_CAPACITY)%nat ->
  exists y, rtc wstep x y /\
    sidecar_turn payload_str decode (fun _ => true) w (side_now x) (curls (misp x)) = (Continue (side_now y), curls (misp y)) /\
    pending (misp y) = [] /\ at_feed (misp y) = false.
Proof.
  intros Hp Hf Hr. destruct (chores_run _ (ask_misp w x) eq_refl) as (x2 & R2 & E2 & P2 & F2 & C2 & D2).
  { cbn [ask_misp set_misp misp side pending evloop]. by rewrite chores_keys. }
  destruct (chores_run _ (ask_feed w x2) eq_refl) as (y & R4 & E4 & P4 & F4 & C4 & _).
  { cbn [ask_feed set_misp misp side pending evloop]. rewrite feed_keys, D2. cbn [length].
    change (tx (side (misp x2))) with (tx (side_now x2)).
    rewrite E2. cbn [ask_misp set_misp misp pending evloop]. rewrite fold_chores, tx_learn, length_app. unfold keys_of in Hr. cbn in *. lia. }
  exists y. split_and!; [| |done..].
  { eapply does_then; [by apply (w_search w)|]. etrans; [exact R2|]. by eapply does_then; [apply (w_feed w)|]. }
  change (side_now (ask_feed w x2)) with (side_now x2) in E4. rewrite E2 in E4.
  change (side_now (ask_misp w x)) with (side_now x) in E4. cbn [ask_feed ask_misp set_misp misp pending curls] in E4, C2, C4.
  rewrite !fold_chores, C2 in E4. rewrite C2 in C4.
  destruct (sidecar_turn_learned payload_str decode (fun _ => true) w (side_now x) (curls (misp x))) as [Hl Hc].
  destruct (sidecar_turn _ _ _ w (side_now x) (curls (misp x))) as [[m'|m'] h'] eqn:Et; cbn [fst snd learned] in *.
  - rewrite (Hc _ eq_refl), C4, <- app_assoc, Hl, E4. unfold turn_news. by rewrite fold_left_app.
  - by destruct Hl as (d & ip & v & rest & _ & _ & ?).
Qed.

Lemma order_run w e pid rest r x :
  in_hand (serving x) = None -> channel (the_agent x) = pid :: rest -> respond w client pid e (resp (serving x)) = Ok r ->
  exists y, rtc wstep x y /\ resp (serving y) = r /\ in_hand (serving y) = None /\ channel (the_agent y) = rest.
Proof.
  intros Hh Hc Hr. exists (answered r (take_order pid rest x)). split_and!; try done.
  eapply does_then; [by apply (w_receive pid rest)|]. eapply does_then; [by apply (w_answer w e pid r)|done].
Qed.

(** Taking the steps one at a time loses none of what the components
    do: from every state, a program that starts can run to its end, with the
    effect of its sequential definition; the loop can handle the next record,
    with the effect of [handle_event], and empty the sidecar's channel into
    the blocklist; the sidecar, given room, can take a whole turn with the
    effect of [sidecar_turn]; and the responder can take and serve the oldest
    order with the effect of [respond]. *)
Theorem components_are_steps x w :
  let able P := exists y, rtc wstep x y /\ P y in
  (forall h, able (fun y => kernel_state y = (collapse (conc_of h) (kernel_state x)).2)) /\
  (forall scan data, at_phase (evloop x) = Polling -> todo (evloop x) = [] ->
    records (events (kernel_state x)) !! ev_read (evloop x) = Some data ->
    able (fun y => the_agent y = handle_event w scan data (the_agent x) /\ todo (evloop y) = [])) /\
  (at_phase (evloop x) = Draining ->
    able (fun y => kernel_state y = drain_misp (drop (drained (evloop x)) (tx (side (misp x)))) (kernel_state x) /\
                   at_phase (evloop y) = Draining)) /\
  (pending (misp x) = [] -> at_feed (misp x) = false ->
    (length (tx (side (misp x))) + length (keys_of (reply payload_str decode w (curls (misp x)))) <=
      drained (evloop x) + MISP_CAPACITY)%nat ->
    able (fun y => sidecar_turn payload_str decode (fun _ => true) w (side_now x) (curls (misp x)) =
                     (Continue (side_now y), curls (misp y)) /\
                   pending (misp y) = [] /\ at_feed (misp y) = false)) /\
  (forall e pid rest r, in_hand (serving x) = None -> channel (the_agent x) = pid :: rest ->
    respond w client pid e (resp (serving x)) = Ok r ->
    able (fun y => resp (serving y) = r /\ in_hand (serving y) = None /\ channel (the_agent y) = rest)).
Proof.
  cbv zeta. split_and!.
  - intros h. destruct (program_run h x) as (y & Hy & Hk & _). by exists y.
  - intros scan data Hp Ht Hd. by apply callback_run.
  - intros Hp. destruct (drain_run _ x Hp eq_refl) as (y & Hy & Hk & Hq & _). by exists y.
  - apply turn_run.
  - intros e pid rest r. apply order_run.
Qed.

(** C2: however the parts of the system interleave, only processes that
    acted at a hook are ever signalled by the kernel, stopped by the responder
    or queued for it; every signal is SIGSTOP.  The event loop has been given
    exactly the records that the kernel submitted, in order and whole, as far
    as it has read; every order taken or queued is for the process of one of
    those records for which one of the agent's tests fired, at most once for
    each test and in the order of the records, and only processes of orders
    taken are stopped, in that order; neither channel ever overflows; the
    programs and the loop keep the traps, the decoys and the agent's id as
    they are, and whatever is in a map has the types that the map declares;
    and the log file only grows. *)
Theorem whole_system_safe s a m x :
  fresh_start s a m -> rtc wstep (at_start s a m) x -> Forall hook_wf (fired (cpus x)) ->
  let who := actors (fired (cpus x)) in
  Forall who (taken (serving x) ++ channel (the_agent x)) /\
  Forall (fun p => who (i32 p.1) /\ p.2 = 19) (signals (kernel_state x)) /\
  del_data <$> seen (evloop x) = take (ev_read (evloop x)) (records (events (kernel_state x))) /\
  Forall (fun d => length (del_data d) = size Event) (seen (evloop x)) /\
  taken (serving x) ++ channel (the_agent x) `sublist_of` (seen (evloop x) ≫= orders_of) /\
  frozen (resp (serving x)) `sublist_of` taken (serving x) /\
  (length (channel (the_agent x)) <= CHANNEL_CAPACITY)%nat /\
  (length (tx (side (misp x))) <= drained (evloop x) + MISP_CAPACITY)%nat /\
  (honeytokens (kernel_state x) = honeytokens s /\ ghost_pids (kernel_state x) = ghost_pids s /\
   agent_pid (kernel_state x) = agent_pid s) /\
  (typed_maps s -> typed_maps (kernel_state x)) /\
  wal (db a) `prefix_of` wal (db (the_agent x)).
Proof.
  intros Hf Hrun Hw who. destruct (inv_reachable _ _ _ _ Hf Hrun Hw). rewrite app_assoc in inv_orders0, inv_due0.
  split_and!; try done.
  - by apply Forall_app in inv_orders0 as [? _].
  - eapply Forall_impl; [exact inv_signals0|]. by intros p (_ & Hp & H19).
  - apply (Forall_fmap del_data (fun d => length d = size Event)). rewrite inv_seen0. apply Forall_take.
    eapply Forall_impl; [exact inv_events0|]. intros d Hd. apply (event_who _ _ Hd).
  - etrans; [|exact inv_due0]. by apply sublist_inserts_r.
  - etrans; [|exact inv_frozen0]. by apply sublist_inserts_r.
  - apply inv_channel0.
  - apply inv_count0.
  - apply inv_maps0.
  - apply inv_maps0.
  - apply inv_maps0.
  - apply inv_log0.
Qed.

(** The address of an attribute that the sidecar has received. *)
Definition reported_address (ip : bytes) (x : whole) : Prop :=
  exists a, a ∈ learned_attrs (misp x) /\ attr_type a = bs "ip-dst" /\ parse_ipv4 (attr_value a) = Some ip.

Lemma reported_key ip x :
  length ip = 4%nat -> is_bytes ip -> le_val ip ∈ keys_of (learned_attrs (misp x)) <-> reported_address ip x.
Proof.
  intros Hl Hb. unfold keys_of, reported_address.
  rewrite address_key by (try done; intros; by eapply learned_addresses). split.
  - intros (v & (a & Ha & (H1 & H2 & _)%address_of_attr)%list_elem_of_omap). by exists a.
  - intros (a & Ha & H1 & H2). exists (attr_value a). apply list_elem_of_omap. exists a.
    split; [done|]. by apply address_of_attr.
Qed.

(** The sidecar has dealt with every item, and the loop with every address. *)
Definition settled (x : whole) : Prop := pending (misp x) = [] /\ drained (evloop x) = length (tx (side (misp x))).

(** The loop can always get to the end of its draining. *)
Lemma can_drain x : (drained (evloop x) <= length (tx (side (misp x))))%nat ->
  exists y, rtc wstep x y /\ drained (evloop y) = length (tx (side (misp y))) /\ misp y = misp x.
Proof.
  intros Hd. destruct (effects_run (fun _ _ => None) _ x eq_refl) as (y & Hy & _ & Ht & Hp & _ & Hm & Hr).
  assert (Hz : exists z, rtc wstep y z /\ at_phase (evloop z) = Draining /\ misp z = misp y /\
    drained (evloop z) = drained (evloop y)).
  { destruct (at_phase (evloop y)) eqn:E; [|by exists y]. exists (set_phase Draining y).
    split; [|done]. by eapply does_then; [apply w_return|]. }
  destruct Hz as (z & Hz & Hpz & Hmz & Hrz).
  destruct (drain_run _ z Hpz eq_refl) as (t & Ht' & _ & _ & _ & _ & Hmt & Hrt). exists t. split_and!.
  - etrans; [exact Hy|]. by etrans; [exact Hz|].
  - rewrite Hrt, length_drop, Hmt, Hrz, Hr, Hmz, Hm. lia.
  - by rewrite Hmt, Hmz.
Qed.

(** The bounded channel blocks nobody for ever. *)
Lemma can_settle x : (drained (evloop x) <= length (tx (side (misp x))))%nat ->
  exists y, rtc wstep x y /\ settled y /\ learned_attrs (misp y) = learned_attrs (misp x).
Proof.
  remember (pending (misp x)) as l eqn:El. revert x El; induction l as [|c l IH]; intros x El Hd;
    destruct (can_drain x Hd) as (y & Hy & H1 & H2).
  { exists y. unfold settled. by rewrite H1, H2. }
  assert (Hs : may_do c y) by (destruct c; cbn; unfold MISP_CAPACITY; lia).
  destruct (IH (deal_with c l y) eq_refl) as (z & Hz & Hset & Hz2).
  { cbn [deal_with set_agent set_misp misp side evloop]. rewrite (proj1 (chore_spec c _)), length_app.
    change (tx (side_now y)) with (tx (side (misp y))). lia. }
  exists z. split; [etrans; [exact Hy|]|].
  { eapply does_then; [apply (w_chore c l y)|exact Hz]; [by rewrite H2|done]. }
  split; [done|]. rewrite Hz2. cbn [deal_with set_agent set_misp misp learned_attrs]. by rewrite H2.
Qed.

(** *** The declared blocklist *)

Section blocking.
Context {HKD : KernelMap M} {HKDL : KernelMapLaws M}.

(** The addresses blocked at the start and those that the sidecar has received
    fit into the blocklist. *)
Definition all_fit s (x : whole) : Prop :=
  base.size (keys (c2_blocklist s) ∪ list_to_set (keys_of (learned_attrs (misp x))) : gset Z) <= 100000.

(** C3: however the parts of the system interleave, with the blocklist as
    declared (a hash map of 100000 entries), an IPv4 packet is dropped only if
    its destination was blocked at the start or is the address of an "ip-dst"
    attribute of a reply that the sidecar received; it is dropped if so, once
    the sidecar has sent what it read and the loop has emptied the channel,
    provided that the keys at the start and the addresses received so far are
    together at most 100000 different ones; once packets to an address are
    dropped they always are, however many addresses follow; and from every
    state the sidecar and the loop can get that far: the bounded channel
    between them never blocks both. *)
Theorem whole_blocks s a m x x' pkt :
  let dst := load 30 4 pkt in
  let dropped y := (fst <$> xdp_c2_inspector pkt (kernel_state y)) = Some XDP_DROP in
  let hostile := bpf_map_lookup_elem (c2_blocklist s) (le_val dst) = Some 1 \/ reported_address dst x in
  definition (c2_blocklist s) = decl.c2_blocklist ->
  fresh_start s a m -> rtc wstep (at_start s a m) x -> rtc wstep x x' -> Forall hook_wf (fired (cpus x')) ->
  is_bytes pkt -> 34 <= length pkt -> load 12 2 pkt = [8; 0] ->
  (dropped x -> hostile) /\
  (hostile -> settled x -> all_fit s x -> dropped x) /\
  (dropped x -> dropped x') /\
  exists y, rtc wstep x y /\ settled y /\ learned_attrs (misp y) = learned_attrs (misp x).
Proof.
  cbv zeta. intros Hdef Hf H1 H2 Hw Hb Hl Hip. rewrite !ipv4_drop_iff by done.
  assert (Hh : is_hash (c2_blocklist s)) by (unfold is_hash; by rewrite Hdef).
  pose proof (inv_reachable _ _ _ _ Hf (transitivity H1 H2) Hw) as Hi'.
  assert (Hi : invariant (actors (fired (cpus x'))) s a x).
  { apply (inv_run _ _ _ (at_start s a m)); [by apply inv_start|done|]. apply actors_hooks in Hw.
    assert (Hpre : fired (cpus x) `prefix_of` fired (cpus x')).
    { clear -H2. induction H2 as [|x1 x2 x3 Hs _ IH]; [done|]. etrans; [by apply wstep_fired|done]. }
    destruct Hpre as [l E]. rewrite E in Hw at 2. by apply Forall_app in Hw as [Hw _]. }
  assert (Hkey := reported_key (load 30 4 pkt) x ltac:(apply length_load; lia) ltac:(auto with alphvdr)).
  pose proof (inv_tx _ _ _ _ Hi) as Htx.
  rewrite (inv_blocklist _ _ _ _ Hi), (inv_blocklist _ _ _ _ Hi'). split_and!.
  - intros Hk. destruct (decide (le_val (load 30 4 pkt) ∈ moved x)) as [Hm|Hm]; [right|left].
    + apply Hkey. rewrite <- Htx. apply elem_of_app. left. by apply (subseteq_take (drained (evloop x))).
    + by rewrite block_all_other in Hk.
  - intros Hk [Hp Hd] Hfit. unfold all_fit in Hfit. rewrite Hp, app_nil_r in Htx. rewrite <- Htx in Hkey, Hfit.
    unfold moved. rewrite Hd, firstn_all. apply block_all_one_iff; [done|by rewrite Hdef|]. by rewrite Hkey.
  - destruct (moved_run _ _ _ _ _ Hi H2 (actors_hooks _ Hw)) as [l ->]. rewrite block_all_app.
    apply block_all_blocked. unfold is_hash. by rewrite block_all_definition.
  - apply can_settle, (inv_count _ _ _ _ Hi).
Qed.
End blocking.
End whole.

(** ** A concrete run

    A process opens a honeytoken; the loop reads the record and its callback
    logs it and queues the process; the responder stops the process; the
    sidecar learns an address; the loop blocks it. *)

Module Demo.
Section demo.
Import Sensor.Demo.
#[local] Notation W := (whole (M := kmap) (R := ring)).

Definition trap : hook := VfsOpen (task_of 42 1000 "cat") 0 12288.
Definition machines : world := fun _ c => demo_misp [c] c.
Definition order : order_env :=
  MkOrder true 1700000000 true Carver.Demo.the_proc 1700000001 (fun _ => Some 5000).
Definition listening : agent := set_channel [] Agent.Demo.the_agent.
Definition served : outcome responder := respond machines (new_client None) 42 order idle_responder.

Definition next_effect (x : W) : W :=
  match todo (evloop x) with e :: rest => perform Agent.Demo.idle_world e rest x | [] => x end.
Definition next_chore (x : W) : W :=
  match pending (misp x) with c :: rest => deal_with c rest x | [] => x end.

Definition x0 : W := at_start declared_sensor listening demo_sidecar.
Definition x1 : W := set_cpus (Machine (collapse (conc_of trap) declared_sensor).2
  [(trap, Ret (collapse (conc_of trap) declared_sensor).1)]) x0.
Definition record : bytes := nth 0 (records (events (kernel_state x1))) [].
Definition x2 : W := read_record Agent.Demo.no_scan record (events (kernel_state x1)) x1.
Definition x3 : W := next_effect x2.
Definition x4 : W := next_effect x3.
Definition x5 : W := next_effect x4.
Definition x6 : W := take_order 42 [] x5.
Definition x7 : W := answered (if served is Ok r then r else idle_responder) x6.
Definition x8 : W := ask_misp (bs "{}") demo_decode machines x7.
Definition x9 : W := next_chore x8.
Definition x10 : W := next_chore x9.
Definition x11 : W := next_chore x10.
Definition x12 : W := set_phase Draining x11.
Definition x13 : W := block_address (le_val [198; 51; 100; 7]) x12.
Definition x14 : W := set_phase Polling x13.
#[local] Notation does := (does (bs "{}") demo_decode (new_client None)).

Lemma next_effect_does x : (0 <? length (todo (evloop x)))%nat = true -> does Effect x (next_effect x).
Proof. unfold next_effect. destruct (todo (evloop x)) eqn:E; [done|]. intros _. by apply w_effect. Qed.
Lemma next_chore_does x :
  (0 <? length (pending (misp x)))%nat = true ->
  (length (tx (side (misp x))) <? drained (evloop x) + MISP_CAPACITY)%nat = true -> does Chore x (next_chore x).
Proof.
  intros Hp Hr%Nat.ltb_lt. unfold next_chore. destruct (pending (misp x)) as [|c rest] eqn:E; [done|].
  apply w_chore; [done|]. by destruct c.
Qed.

Lemma does_read : does Read x1 x2.
Proof. apply w_read; [reflexivity..|vm_compute; reflexivity|reflexivity]. Qed.
Lemma does_effects : does Effect x2 x3 /\ does Effect x3 x4 /\ does Effect x4 x5.
Proof.
  split; [apply (next_effect_does x2)|split; [apply (next_effect_does x3)|apply (next_effect_does x4)]];
    vm_compute; reflexivity.
Qed.
Lemma does_order : does Receive x5 x6 /\ does Answer x6 x7.
Proof.
  split; [apply (w_receive 42 [] x5); vm_compute; reflexivity|].
  assert (Hr : exists r, served = Ok r) by (eexists; vm_compute; reflexivity). destruct Hr as [r Hr].
  unfold x7. rewrite Hr. apply (w_answer machines order 42); [vm_compute; reflexivity|exact Hr].
Qed.
Lemma does_search : does Search x7 x8.
Proof. apply (w_search machines x7); vm_compute; reflexivity. Qed.
Lemma does_chores : does Chore x8 x9 /\ does Chore x9 x10 /\ does Chore x10 x11.
Proof.
  split; [apply (next_chore_does x8)|split; [apply (next_chore_does x9)|apply (next_chore_does x10)]];
    vm_compute; reflexivity.
Qed.
Lemma does_drain : does PollReturns x11 x12 /\ does Drain x12 x13 /\ does ChannelEmpty x13 x14.
Proof.
  split; [apply (w_return x11)|split; [apply (w_drain (le_val [198; 51; 100; 7]) x12)|apply (w_empty x13)]];
    vm_compute; reflexivity.
Qed.

#[local] Notation run := (rtc (wstep (bs "{}") demo_decode (new_client None))).

Lemma x1_runs : run x0 x1.
Proof.
  apply (kernel_run _ _ _ (cpus x1) x0); eapply rtc_l;
    [apply (smp_enter trap)|apply (run_thread [] trap (conc_of trap) declared_sensor)].
Qed.
Lemma x13_runs : run x0 x13.
Proof.
  etrans; [exact x1_runs|].
  destruct does_effects as (E1 & E2 & E3), does_order as [O1 O2], does_chores as (C1 & C2 & C3), does_drain as (D1 & D2 & _).
  eapply does_then; [exact does_read|]. eapply does_then; [exact E1|]. eapply does_then; [exact E2|].
  eapply does_then; [exact E3|]. eapply does_then; [exact O1|]. eapply does_then; [exact O2|].
  eapply does_then; [exact does_search|]. eapply does_then; [exact C1|]. eapply does_then; [exact C2|].
  eapply does_then; [exact C3|]. eapply does_then; [exact D1|]. eapply does_then; [exact D2|done].
Qed.
Lemma x0_fresh : fresh_start declared_sensor listening demo_sidecar.
Proof. by repeat split. Qed.
Lemma trap_hooks : Forall hook_wf [trap].
Proof. apply Forall_cons. split; [apply task_of_wf; vm_compute; reflexivity|by apply Forall_nil]. Qed.
End demo.
End Demo.

Section witnesses.
Import Sensor.Demo Demo.

Lemma whole_system_safe_witness :
  frozen (resp (serving x13)) = [42] /\ Forall (actors [trap]) (taken (serving x13)) /\
  del_data <$> seen (evloop x13) = records (events (kernel_state x13)).
Proof.
  split; [vm_compute; reflexivity|].
  destruct (whole_system_safe _ _ _ declared_sensor listening demo_sidecar x13 x0_fresh x13_runs trap_hooks) as (H & _ & E & _).
  split; [exact (proj1 (proj1 (Forall_app _ _ _) H))|].
  rewrite E. vm_compute. reflexivity.
Defined.

Lemma whole_blocks_witness :
  fst <$> xdp_c2_inspector (demo_packet [198; 51; 100; 7] []) (kernel_state x13) = Some XDP_DROP.
Proof.
  refine (proj1 (proj2 (whole_blocks _ _ _ declared_sensor listening demo_sidecar x13 x13 (demo_packet [198; 51; 100; 7] [])
    eq_refl x0_fresh x13_runs (rtc_refl _ _) trap_hooks _ _ _)) _ _ _).
  - apply (bool_decide_unpack _). vm_compute. exact I.
  - vm_compute. congruence.
  - vm_compute. reflexivity.
  - right. exists (MkAttr (bs "ip-dst") (bs "198.51.100.7")).
    split; [apply (list_elem_of_lookup_2 _ 1); vm_compute; reflexivity|]. split; vm_compute; reflexivity.
  - split; vm_compute; reflexivity.
  - vm_compute. congruence.
Defined.

Lemma components_are_steps_witness :
  exists y, rtc (wstep (bs "{}") demo_decode (new_client None)) x1 y /\
    the_agent y = handle_event Agent.Demo.idle_world Agent.Demo.no_scan record (the_agent x1) /\ todo (evloop y) = [].
Proof.
  refine (proj1 (proj2 (components_are_steps (bs "{}") demo_decode (new_client None) x1 Agent.Demo.idle_world))
    Agent.Demo.no_scan record _ _ _); vm_compute; reflexivity.
Defined.
End witnesses.
