(* ===== verification/Fair.v ===== *)
(** * Fair executions

    What the whole system does in the long run.  An execution is an infinite
    sequence of steps of [Whole]; it is fair when [poll] hands over the records
    there are and returns, and when the loop, the sidecar and the responder go
    on as long as they can.  Then every record reaches its callback, every
    order the responder, and every address the firewall. *)

From stdpp Require Import gmap relations.
From S2P Require Import Prelude CTypes Vmlinux Bpf Maps Sensor Xdp Kernel Smp Text Qihse Shell Carver Pipeline Agent Responder Deploy Misp Steps Whole.

(** ** Some day *)

Definition later (Q : nat -> Prop) (n : nat) : Prop := exists m, (n <= m)%nat /\ Q m.

Lemma later_now (Q : nat -> Prop) n : Q n -> later Q n.
Proof. by exists n. Qed.
Lemma later_mono (P Q : nat -> Prop) n : (forall m, (n <= m)%nat -> P m -> Q m) -> later P n -> later Q n.
Proof. intros H (m & Hm & Hp). exists m. auto. Qed.
Lemma later_then (P Q : nat -> Prop) n : later P n -> (forall m, (n <= m)%nat -> P m -> later Q m) -> later Q n.
Proof. intros (m & Hm & Hp) H. destruct (H m Hm Hp) as (k & Hk & Hq). exists k. split; [lia|done]. Qed.
Lemma later_from (Q : nat -> Prop) n k : (k <= n)%nat -> later Q n -> later Q k.
Proof. intros Hk (m & Hm & Hq). exists m. split; [lia|done]. Qed.

(** What lasts until a step, and an action that must be that step, lead to it. *)
Lemma until (P Q A : nat -> Prop) n :
  P n -> (forall j, (n <= j)%nat -> P j -> P (S j) \/ Q j) -> (forall j, (n <= j)%nat -> P j -> A j -> Q j) ->
  later A n -> later Q n.
Proof.
  intros Hp Hstep Hact (m & Hm & Ha).
  assert (H : P m \/ exists j, (n <= j)%nat /\ Q j).
  { clear Ha. induction Hm as [|m Hm [IH|IH]]; [by left| |by right].
    destruct (Hstep m Hm IH); [by left|]. right. by exists m. }
  destruct H as [H|H]; [|done]. exists m. auto.
Qed.

(** A count that grows as long as it is below a bound reaches it. *)
Lemma reaches (f : nat -> nat) k n :
  (forall j, (n <= j)%nat -> (f j < k)%nat -> later (fun m => f j < f m)%nat j) -> later (fun m => k <= f m)%nat n.
Proof.
  remember (k - f n)%nat as g eqn:Eg. revert n Eg. induction (lt_wf g) as [g _ IH]. intros n -> Hf.
  destruct (decide (k <= f n)%nat) as [|Hn]; [by apply later_now|].
  eapply later_then; [apply (Hf n); lia|]. intros m Hnm Hm. cbn in Hm.
  apply (IH (k - f m)%nat); [lia|done|]. intros j Hj. apply Hf. lia.
Qed.

(** A count that grows by at most one passes every number on its way. *)
Lemma crossing (f : nat -> nat) i n m :
  (forall j, (f (S j) <= S (f j))%nat) -> (n <= m)%nat -> (f n <= i < f m)%nat ->
  exists j, (n <= j)%nat /\ f j = i /\ f (S j) = S i.
Proof.
  intros Hf. induction 1 as [|m Hm IH]; intros Hi; [lia|].
  destruct (decide (i < f m)%nat); [apply IH; lia|]. exists m. pose proof (Hf m). lia.
Qed.

Section fair.
Context {M R : Type} `{HBM : BpfMap M, HBL : !BpfMapLaws M, HRB : !RingBuf R, HRL : !RingBufLaws R,
  HKM : KernelMemory, HKL : !KernelMemoryLaws}.
Implicit Types (s : sensor M R).
Context (payload_str : bytes) (decode : bytes -> option (list MispAttribute)) (client : Kp14Client).
#[local] Notation whole := (whole (M := M) (R := R)).
#[local] Notation does := (does (M := M) (R := R) payload_str decode client).
#[local] Notation wstep := (wstep (M := M) (R := R) payload_str decode client).

Definition of_loop (b : action) : Prop :=
  match b with Read | Effect | ReadTls | PollReturns | Drain | ChannelEmpty => True | _ => False end.

(** ** One step *)

Section one_step.
Context (b : action) (x y : whole) (Hd : does b x y).

(** The loop goes on with the callback that runs. *)
Lemma todo_kept e rest : todo (evloop x) = e :: rest ->
  todo (evloop y) = e :: rest \/ exists w, y = perform w e rest x.
Proof. destruct Hd; open_step; intros Ht; try (left; congruence). right. exists w. congruence. Qed.
Lemma todo_next e rest : todo (evloop x) = e :: rest -> (at_phase (evloop x) = Draining -> todo (evloop x) = []) ->
  of_loop b -> exists w, y = perform w e rest x.
Proof.
  destruct Hd as [| |w e' rest' x0 Ht| | |? ? Hp|? Hp| | | | | | | |]; cbn [of_loop]; intros Hx Hn Hb; try done; try congruence.
  - exists w. congruence.
  - rewrite Hn in Hx by done. done.
  - rewrite Hn in Hx by done. done.
Qed.

Lemma read_one : (ev_read (evloop y) <= S (ev_read (evloop x)))%nat.
Proof. destruct Hd; open_step; lia. Qed.
Lemma read_step : (ev_read (evloop x) <= ev_read (evloop y))%nat /\ (b = Read -> ev_read (evloop y) = S (ev_read (evloop x))).
Proof. destruct Hd; open_step; split; done || lia. Qed.
Lemma read_is : ev_read (evloop y) = S (ev_read (evloop x)) -> exists scan data r,
  records (events (kernel_state x)) !! ev_read (evloop x) = Some data /\ y = read_record scan data r x.
Proof. destruct Hd; open_step; intros E; try lia. by exists scan, data, r. Qed.

(** The orders taken and waiting only grow, at their end. *)
Lemma orders_step :
  rx_alive (the_agent x) = true -> (length (channel (the_agent x)) <= CHANNEL_CAPACITY)%nat ->
  taken (serving x) ++ channel (the_agent x) `prefix_of` taken (serving y) ++ channel (the_agent y) /\
  taken (serving x) `prefix_of` taken (serving y).
Proof.
  intros Ha Hc. destruct Hd as [| |w e rest x0 Ht|data r x0| | | | | | | | |pid rest x0 Hh Hp| |]; open_step; try done.
  - split; [|done]. destruct (fold_effects_spec w [e] (the_agent x0) Hc) as (_ & _ & E & _). cbn [fold_left] in E.
    rewrite E, Ha. by apply prefix_app, take_keeps_prefix.
  - by rewrite (proj1 (proj2 (handle_tls_event_keeps _ _))).
  - rewrite <- app_assoc. split; [by rewrite Hp|by apply prefix_app_r].
Qed.

(** The responder answers the order in hand, and then takes the next. *)
Lemma answer_kept pid : in_hand (serving x) = Some pid ->
  (in_hand (serving y) = Some pid /\ taken (serving y) = taken (serving x)) \/
  exists w e r, respond w client pid e (resp (serving x)) = Ok r /\ y = answered r x.
Proof. destruct Hd; open_step; intros E; try (left; split; congruence). right. exists w, e, r. split; congruence. Qed.
Lemma answer_next pid : in_hand (serving x) = Some pid -> b = Receive \/ b = Answer ->
  exists w e r, respond w client pid e (resp (serving x)) = Ok r /\ y = answered r x.
Proof.
  destruct Hd as [| | | | | | | | | | | |p rest x0 Hn|w e p r x0 Hh Hr|]; intros E Hb; try (by destruct Hb); [congruence|].
  exists w, e, r. split; congruence.
Qed.

Lemma receive_kept : in_hand (serving x) = None ->
  (in_hand (serving y) = None /\ taken (serving y) = taken (serving x)) \/
  exists pid rest, y = take_order pid rest x.
Proof. destruct Hd; open_step; intros E; try (left; split; congruence). right. by exists pid, rest. Qed.
Lemma receive_next : in_hand (serving x) = None -> b = Receive \/ b = Answer -> exists pid rest, y = take_order pid rest x.
Proof.
  destruct Hd as [| | | | | | | | | | | |p rest x0|w e p r x0 Hh Hr|]; intros E Hb; try (by destruct Hb); [|congruence].
  by exists p, rest.
Qed.

Lemma taken_one : (length (taken (serving y)) <= S (length (taken (serving x))))%nat.
Proof. destruct Hd; open_step; rewrite ?length_app; cbn; lia. Qed.
Lemma taken_is : length (taken (serving y)) = S (length (taken (serving x))) -> exists pid rest, y = take_order pid rest x.
Proof. destruct Hd; open_step; intros E; try lia. by exists pid, rest. Qed.

(** The sidecar sends in order, and the loop takes in order. *)
Lemma tx_step : tx (side (misp x)) `prefix_of` tx (side (misp y)).
Proof. destruct Hd; open_step; try done. rewrite (proj1 (chore_spec c _)). by apply prefix_app_r. Qed.
Lemma keys_step : keys_of (learned_attrs (misp x)) `prefix_of` keys_of (learned_attrs (misp y)).
Proof. destruct Hd; open_step; try done. rewrite keys_app. by apply prefix_app_r. Qed.
Lemma drained_step : (drained (evloop x) <= drained (evloop y))%nat.
Proof. destruct Hd; open_step; lia. Qed.

Lemma chore_kept c rest : pending (misp x) = c :: rest ->
  (pending (misp y) = c :: rest /\ tx (side (misp y)) = tx (side (misp x))) \/ y = deal_with c rest x.
Proof. destruct Hd; open_step; intros E; try (left; split; congruence). right. congruence. Qed.
Lemma chore_next c rest : pending (misp x) = c :: rest -> b = Chore -> y = deal_with c rest x.
Proof. destruct Hd; intros E Hb; try done. congruence. Qed.
Lemma room_kept c : tx (side (misp y)) = tx (side (misp x)) -> may_do c x -> may_do c y.
Proof. intros E. destruct c; unfold may_do; [|done]. rewrite E. pose proof drained_step. lia. Qed.

(** While it drains, the loop takes addresses until there are none. *)
Lemma drain_kept : at_phase (evloop x) = Draining -> (drained (evloop x) < length (tx (side (misp x))))%nat ->
  (at_phase (evloop y) = Draining /\ drained (evloop y) = drained (evloop x)) \/ drained (evloop y) = S (drained (evloop x)).
Proof.
  destruct Hd as [| | | | | |x0 Hp Hn| | | | | | | |]; open_step; intros Hx Hl; auto.
  apply lookup_ge_None in Hn. lia.
Qed.
Lemma drain_next : at_phase (evloop x) = Draining -> (drained (evloop x) < length (tx (side (misp x))))%nat ->
  todo (evloop x) = [] -> of_loop b -> drained (evloop y) = S (drained (evloop x)).
Proof.
  destruct Hd as [| | | | | |x0 Hp Hn| | | | | | | |]; open_step; cbn [of_loop]; intros Hx Hl Ht Hb; try done; try congruence.
  apply lookup_ge_None in Hn. lia.
Qed.
Lemma poll_next : b = PollReturns -> at_phase (evloop y) = Draining.
Proof. by destruct Hd. Qed.
Lemma log_step : Forall appends (log_effects (todo (evloop x))) -> same_client (db (the_agent x)) (db (the_agent y)).
Proof.
  destruct Hd as [| |w e rest x0 Ht|data r x0| | | | | | | |c rest x0| | |]; open_step; try done.
  - rewrite Ht, log_effects_cons, Forall_app. intros [Hf _]. destruct e as [f| |]; [|cbn; unfold try_send; by case_match|done].
    apply Forall_cons in Hf as [Hf _]. apply Hf.
  - intros _. apply handle_tls_event_keeps.
  - intros _. split; [apply (chore_log c x0)|done].
Qed.
End one_step.

(** ** Executions *)

(** The responder runs [respond] for an order. *)
Definition answers (exec : nat -> whole) (pid : Z) (j : nat) : Prop :=
  exists w e r, in_hand (serving (exec j)) = Some pid /\ respond w client pid e (resp (serving (exec j))) = Ok r /\
    exec (S j) = answered r (exec j).
(** A line of the log. *)
Definition logged (line : bytes) (x : whole) : Prop :=
  exists before after, wal (db (the_agent x)) = before ++ line ++ [newline] ++ after.
Definition channel_full (x : whole) : Prop := (CHANNEL_CAPACITY <= length (channel (the_agent x)))%nat.

Record execution s (a : agent) (m : sidecar) (exec : nat -> whole) (acts : nat -> action) : Prop := {
  ex_fresh : fresh_start s a m;
  ex_start : exec 0%nat = at_start s a m;
  ex_step n : does (acts n) (exec n) (exec (S n));
  ex_hooks n : Forall hook_wf (fired (cpus (exec n)))
}.

Definition unread (x : whole) : Prop :=
  (ev_read (evloop x) < length (records (events (kernel_state x))))%nat.
Record fair (exec : nat -> whole) (acts : nat -> action) : Prop := {
  (** [poll] hands over what there is, and returns *)
  poll_delivers n : unread (exec n) -> later (fun j => acts j = Read) n;
  poll_returns n : at_phase (evloop (exec n)) = Polling -> later (fun j => acts j = PollReturns) n;
  (** every task gets its turns *)
  loop_runs n : later (fun j => of_loop (acts j)) n;
  sidecar_runs n c rest :
    pending (misp (exec n)) = c :: rest -> may_do c (exec n) -> later (fun j => acts j = Chore) n;
  responder_runs n :
    in_hand (serving (exec n)) <> None \/ channel (the_agent (exec n)) <> [] ->
    later (fun j => acts j = Receive \/ acts j = Answer) n
}.

Section run.
Context s (a : agent) (m : sidecar) (exec : nat -> whole) (acts : nat -> action).
Context (Hex : execution s a m exec acts).

Lemma step_at n : does (acts n) (exec n) (exec (S n)).
Proof. apply (ex_step _ _ _ _ _ Hex). Qed.

Lemma exec_runs n : rtc wstep (at_start s a m) (exec n).
Proof.
  induction n as [|n IH]; [by rewrite (ex_start _ _ _ _ _ Hex)|].
  eapply rtc_r; [exact IH|]. exists (acts n). apply step_at.
Qed.
Lemma exec_inv n : invariant (actors (fired (cpus (exec n)))) s a (exec n).
Proof. eapply inv_reachable; [apply (ex_fresh _ _ _ _ _ Hex)|apply exec_runs|apply (ex_hooks _ _ _ _ _ Hex)]. Qed.

(** What every step increases, the execution does. *)
Lemma exec_grows {B} (P : B -> B -> Prop) `{!PreOrder P} (f : whole -> B) n k :
  (forall j, P (f (exec j)) (f (exec (S j)))) -> (n <= k)%nat -> P (f (exec n)) (f (exec k)).
Proof. intros Hs. induction 1 as [|k _ IH]; [done|]. etrans; [exact IH|]. apply Hs. Qed.

(** The invariant, with the hooks of a later state. *)
Lemma exec_inv_before n k : (n <= k)%nat -> invariant (actors (fired (cpus (exec k)))) s a (exec n).
Proof.
  intros Hk. eapply (inv_run payload_str decode client); [apply inv_start, (ex_fresh _ _ _ _ _ Hex)|apply exec_runs|].
  destruct (exec_grows prefix (fun x => fired (cpus x)) n k) as [l E]; [|done|].
  - intros j. eapply wstep_fired. eexists. apply step_at.
  - pose proof (actors_hooks _ (ex_hooks _ _ _ _ _ Hex k)) as Hw. rewrite E in Hw at 2. by apply Forall_app in Hw as [Hw _].
Qed.

Lemma orders_grow n k : (n <= k)%nat ->
  taken (serving (exec n)) ++ channel (the_agent (exec n)) `prefix_of` taken (serving (exec k)) ++ channel (the_agent (exec k)).
Proof.
  apply (exec_grows prefix (fun x => taken (serving x) ++ channel (the_agent x))). intros j.
  eapply orders_step; [apply step_at|apply (inv_channel _ _ _ _ (exec_inv j))..].
Qed.
Lemma records_grow n k : (n <= k)%nat ->
  records (events (kernel_state (exec n))) `prefix_of` records (events (kernel_state (exec k))).
Proof.
  apply (exec_grows prefix (fun x => records (events (kernel_state x)))). intros j.
  eapply (events_grow payload_str decode client (actors (fired (cpus (exec (S j)))))); [|eexists; apply step_at|].
  - apply (exec_inv_before j (S j)). lia.
  - apply actors_hooks, (ex_hooks _ _ _ _ _ Hex).
Qed.
Lemma log_grows n k : (n <= k)%nat -> same_client (db (the_agent (exec n))) (db (the_agent (exec k))).
Proof.
  apply (exec_grows same_client (fun x => db (the_agent x))). intros j.
  eapply log_step; [apply step_at|]. apply (inv_todo _ _ _ _ (exec_inv j)).
Qed.

Context (Hfair : fair exec acts).

(** ** The callback *)

(** The next effect of a callback that runs is performed. *)
Lemma effect_later n e rest : todo (evloop (exec n)) = e :: rest ->
  later (fun j => exists w, exec (S j) = perform w e rest (exec j)) n.
Proof.
  intros Ht. apply (until (fun j => todo (evloop (exec j)) = e :: rest) _ (fun j => of_loop (acts j)));
    [done| | |apply (loop_runs _ _ Hfair)].
  - intros j _. eapply todo_kept, step_at.
  - intros j _ Hj. eapply todo_next; [apply step_at|done|]. apply (inv_todo _ _ _ _ (exec_inv j)).
Qed.
(** So is every other. *)
Lemma effects_later n l1 e l2 : todo (evloop (exec n)) = l1 ++ e :: l2 ->
  later (fun j => exists w, exec (S j) = perform w e l2 (exec j)) n.
Proof.
  revert n; induction l1 as [|e1 l1 IH]; intros n Ht; [by apply effect_later|].
  eapply later_then; [apply (effect_later n _ _ Ht)|]. intros j Hj [w E].
  apply (later_from _ (S j)); [lia|]. apply IH. by rewrite E.
Qed.

(** ** Orders *)

(** As long as orders wait, the responder takes one some day. *)
Lemma free_takes n : in_hand (serving (exec n)) = None -> channel (the_agent (exec n)) <> [] ->
  later (fun j => length (taken (serving (exec n))) < length (taken (serving (exec j))))%nat n.
Proof.
  intros Hh Hc.
  assert (H : later (fun j => taken (serving (exec j)) = taken (serving (exec n)) /\
    exists pid rest, exec (S j) = take_order pid rest (exec j)) n).
  { apply (until (fun j => in_hand (serving (exec j)) = None /\ taken (serving (exec j)) = taken (serving (exec n))) _
      (fun j => acts j = Receive \/ acts j = Answer)).
    - done.
    - intros j _ [Hj Ht]. destruct (receive_kept _ _ _ (step_at j) Hj) as [[H1 H2]|H]; [left; split; congruence|by right].
    - intros j _ [Hj Ht] Ha. split; [done|]. by eapply receive_next; [apply step_at|..].
    - apply (responder_runs _ _ Hfair). by right. }
  destruct H as (j & Hj & E & pid & rest & Es). exists (S j). split; [lia|].
  rewrite Es, <- E. cbn [take_order serving set_agent set_serving taken]. rewrite length_app. cbn. lia.
Qed.

(** The order in hand is answered. *)
Lemma in_hand_answered n pid : in_hand (serving (exec n)) = Some pid ->
  later (fun j => taken (serving (exec j)) = taken (serving (exec n)) /\ answers exec pid j) n.
Proof.
  intros Hh.
  apply (until (fun j => in_hand (serving (exec j)) = Some pid /\ taken (serving (exec j)) = taken (serving (exec n))) _
    (fun j => acts j = Receive \/ acts j = Answer)).
  - done.
  - intros j _ [Hj Ht]. destruct (answer_kept _ _ _ (step_at j) pid Hj) as [[H1 H2]|(w & e & r & H)];
      [left; split; congruence|right]. split; [done|]. by exists w, e, r.
  - intros j _ [Hj Ht] Ha. split; [done|]. destruct (answer_next _ _ _ (step_at j) pid Hj Ha) as (w & e & r & H).
    by exists w, e, r.
  - apply (responder_runs _ _ Hfair). left. by rewrite Hh.
Qed.

Lemma waiting_taken n : channel (the_agent (exec n)) <> [] ->
  later (fun j => length (taken (serving (exec n))) < length (taken (serving (exec j))))%nat n.
Proof.
  intros Hc. destruct (in_hand (serving (exec n))) as [pid|] eqn:Eh; [|by apply free_takes].
  eapply later_then; [by apply in_hand_answered|]. intros j Hj (Et & w & e & r & _ & _ & Es).
  assert (Et' : taken (serving (exec (S j))) = taken (serving (exec n))) by (by rewrite Es, <- Et).
  apply (later_from _ (S j)); [lia|]. rewrite <- Et'. apply free_takes; [by rewrite Es|].
  destruct (orders_grow n (S j)) as [l E]; [lia|]. rewrite Et', <- app_assoc in E. apply app_inv_head in E.
  rewrite E. by destruct (channel (the_agent (exec n))).
Qed.

(** An order in the channel is answered. *)
Lemma queued_answered n pid : pid ∈ channel (the_agent (exec n)) -> later (answers exec pid) n.
Proof.
  intros [i Hi]%list_elem_of_lookup. set (k := (length (taken (serving (exec n))) + i)%nat).
  assert (Hk : (taken (serving (exec n)) ++ channel (the_agent (exec n))) !! k = Some pid)
    by (rewrite lookup_app_r by lia; rewrite <- Hi; f_equal; lia).
  assert (Hr : later (fun j => S k <= length (taken (serving (exec j))))%nat n).
  { apply reaches. intros j Hj Hl. apply waiting_taken. intros Ec. destruct (orders_grow n j Hj) as [l E].
    apply lookup_lt_Some in Hk. apply (f_equal length) in E. rewrite Ec, app_nil_r, length_app in E. lia. }
  destruct Hr as (m' & Hm & Hl).
  destruct (crossing (fun j => length (taken (serving (exec j)))) k n m') as (j & Hj & E1 & E2);
    [intros j; eapply taken_one, step_at|done|lia|]. cbn beta in E1, E2.
  destruct (taken_is _ _ _ (step_at j)) as (pid' & rest & Es); [congruence|].
  assert (Ep : taken (serving (exec (S j))) = taken (serving (exec j)) ++ [pid']) by by rewrite Es.
  assert (pid' = pid) as ->.
  { pose proof (orders_grow n (S j) ltac:(lia)) as Hp. pose proof (prefix_lookup_Some _ _ _ _ Hk Hp) as E.
    rewrite Ep, <- app_assoc, lookup_app_r, E1, Nat.sub_diag in E by lia. by injection E. }
  apply (later_from _ (S j)); [lia|]. eapply later_mono; [|apply (in_hand_answered (S j) pid); by rewrite Es].
  by intros i' _ [_ ?].
Qed.

(** ** Records *)

Lemma read_later n i data : records (events (kernel_state (exec n))) !! i = Some data ->
  exists j scan r, ev_read (evloop (exec j)) = i /\ exec (S j) = read_record scan data r (exec j).
Proof.
  intros Hi. assert (Hr : later (fun j => S i <= ev_read (evloop (exec j)))%nat n).
  { apply reaches. intros j Hj Hl. destruct (poll_delivers _ _ Hfair j) as (k & Hk & Ha).
    - pose proof (prefix_length _ _ (records_grow n j Hj)). apply lookup_lt_Some in Hi. unfold unread. lia.
    - exists (S k). split; [lia|]. rewrite (proj2 (read_step _ _ _ (step_at k)) Ha).
      pose proof (exec_grows le (fun x => ev_read (evloop x)) j k (fun i => proj1 (read_step _ _ _ (step_at i))) Hk).
      cbn in *. lia. }
  destruct Hr as (k & Hk & Hl).
  destruct (crossing (fun j => ev_read (evloop (exec j))) i 0 k) as (j & _ & E1 & E2).
  - intros j. eapply read_one, step_at.
  - lia.
  - rewrite (ex_start _ _ _ _ _ Hex). cbn [at_start evloop ev_read]. lia.
  - cbn beta in *. destruct (read_is _ _ _ (step_at j)) as (scan & data' & r & Hd & Es); [congruence|].
    exists j, scan, r. split; [done|]. rewrite Es. f_equal. rewrite E1 in Hd.
    destruct (decide (n <= j)%nat) as [Hle|Hle].
    + pose proof (prefix_lookup_Some _ _ _ _ Hi (records_grow n j Hle)). congruence.
    + pose proof (prefix_lookup_Some _ _ _ _ Hd (records_grow j n ltac:(lia))). congruence.
Qed.

(** What a callback orders is answered, unless the channel is full when it is
    sent. *)
Lemma order_answered n l pid : todo (evloop (exec n)) = l -> pid ∈ orders l ->
  later (answers exec pid) n \/ later (fun j => channel_full (exec j)) n.
Proof.
  intros Ht (e & He & Ee)%list_elem_of_omap. destruct e as [|p|]; simplify_eq.
  apply list_elem_of_split in He as (l1 & l2 & E).
  destruct (effects_later n l1 (Order pid) l2 E) as (j & Hj & w & Es).
  destruct (inv_channel _ _ _ _ (exec_inv j)) as [Ha Hc].
  destruct (decide (channel_full (exec j))) as [Hfull|Hroom]; [right; by exists j|left].
  apply (later_from _ (S j)); [lia|]. apply queued_answered.
  rewrite Es. cbn [perform set_agent the_agent do_effect]. rewrite (proj1 (try_send_spec pid _ Hc)), Ha.
  unfold channel_full in Hroom. rewrite take_ge by (rewrite length_app; cbn; lia). set_solver.
Qed.

(** ** Addresses *)

Lemma tx_grow i j : (i <= j)%nat -> tx (side (misp (exec i))) `prefix_of` tx (side (misp (exec j))).
Proof. apply (exec_grows prefix (fun x => tx (side (misp x)))). intros k. eapply tx_step, step_at. Qed.
Lemma sent_grow i j : (i <= j)%nat -> (length (tx (side (misp (exec i)))) <= length (tx (side (misp (exec j)))))%nat.
Proof. intros Hj. by apply prefix_length, tx_grow. Qed.

(** The loop takes the next address some day: it returns from [poll], and
    leaves the draining only when the channel is empty. *)
Lemma drained_later n : (drained (evloop (exec n)) < length (tx (side (misp (exec n)))))%nat ->
  later (fun j => drained (evloop (exec n)) < drained (evloop (exec j)))%nat n.
Proof.
  pose proof sent_grow as Htx.
  assert (Hd : forall k, at_phase (evloop (exec k)) = Draining -> (drained (evloop (exec k)) < length (tx (side (misp (exec k)))))%nat ->
    later (fun j => drained (evloop (exec k)) < drained (evloop (exec j)))%nat k).
  { intros k Hp Hl.
    assert (H : later (fun j => drained (evloop (exec (S j))) = S (drained (evloop (exec k)))) k).
    { apply (until (fun j => at_phase (evloop (exec j)) = Draining /\ drained (evloop (exec j)) = drained (evloop (exec k))) _
        (fun j => of_loop (acts j))); [done| | |apply (loop_runs _ _ Hfair)].
      - intros j Hj [Hpj Hdj]. specialize (Htx k j Hj).
        destruct (drain_kept _ _ _ (step_at j) Hpj) as [[H1 H2]|H]; [lia|left; split; [done|lia]|right; lia].
      - intros j Hj [Hpj Hdj] Ha. specialize (Htx k j Hj). rewrite <- Hdj.
        eapply drain_next; [apply step_at|done|lia| |done]. by apply (inv_todo _ _ _ _ (exec_inv j)). }
    destruct H as (j & Hj & E). exists (S j). split; lia. }
  intros Hl. destruct (at_phase (evloop (exec n))) eqn:Hp; [|by apply Hd].
  destruct (poll_returns _ _ Hfair n Hp) as (k & Hk & Ha).
  pose proof (poll_next _ _ _ (step_at k) Ha) as Hp'.
  pose proof (exec_grows le (fun x => drained (evloop x)) n (S k) (fun i => drained_step _ _ _ (step_at i)) ltac:(lia)) as Hg.
  cbn beta in Hg. specialize (Htx n (S k) ltac:(lia)).
  destruct (decide (drained (evloop (exec n)) < drained (evloop (exec (S k))))%nat) as [|He]; [exists (S k); split; [lia|done]|].
  assert (E : drained (evloop (exec (S k))) = drained (evloop (exec n))) by lia.
  apply (later_from _ (S k)); [lia|]. rewrite <- E. apply Hd; [done|]. rewrite E. lia.
Qed.

(** The sidecar deals with the next item some day: the loop makes room. *)
Lemma chore_later n c rest : pending (misp (exec n)) = c :: rest ->
  later (fun j => exec (S j) = deal_with c rest (exec j)) n.
Proof.
  assert (Hready : forall k, pending (misp (exec k)) = c :: rest -> may_do c (exec k) ->
    later (fun j => exec (S j) = deal_with c rest (exec j)) k).
  { intros k Hp Hm. apply (until (fun j => pending (misp (exec j)) = c :: rest /\ may_do c (exec j)) _ (fun j => acts j = Chore)).
    - done.
    - intros j _ [Hpj Hmj]. destruct (chore_kept _ _ _ (step_at j) c rest Hpj) as [[H1 H2]|H]; [left|by right].
      split; [done|]. by eapply room_kept; [apply step_at|..].
    - intros j _ [Hpj _] Ha. by eapply chore_next; [apply step_at|..].
    - by eapply (sidecar_runs _ _ Hfair). }
  intros Hp.   destruct (decide (may_do c (exec n))) as [Hm|Hm]; [by apply Hready|].
  pose proof (inv_count _ _ _ _ (exec_inv n)) as Hc.
  assert (H : later (fun j => (pending (misp (exec j)) = c :: rest /\ may_do c (exec j)) \/ exec (S j) = deal_with c rest (exec j)) n).
  { apply (until (fun j => pending (misp (exec j)) = c :: rest /\ tx (side (misp (exec j))) = tx (side (misp (exec n)))) _
      (fun j => drained (evloop (exec n)) < drained (evloop (exec j)))%nat).
    - done.
    - intros j _ [Hpj Htj]. destruct (chore_kept _ _ _ (step_at j) c rest Hpj) as [[H1 H2]|H]; [left; split; congruence|by right; right].
    - intros j _ [Hpj Htj] Hdj. left. split; [done|]. destruct c; [|done]. unfold may_do. rewrite Htj. lia.
    - apply drained_later. destruct c; [|by destruct Hm]. unfold may_do, MISP_CAPACITY in *. lia. }
  eapply later_then; [exact H|]. intros j Hj [[Hpj Hmj]|E]; [by apply Hready|by apply later_now].
Qed.

Lemma send_later l n : pending (misp (exec n)) = l -> omap sent_key l <> [] ->
  later (fun j => length (tx (side (misp (exec n)))) < length (tx (side (misp (exec j)))))%nat n.
Proof.
  pose proof sent_grow as Htx.
  revert n; induction l as [|c l IH]; intros n Hp Hk; [done|].
  destruct (chore_later n c l Hp) as (j & Hj & E). specialize (Htx n j Hj).
  destruct c as [key|i].
  - exists (S j). split; [lia|]. rewrite E. cbn [deal_with set_agent set_misp misp side].
    rewrite (proj1 (chore_spec _ _)), length_app. change (tx (side_now (exec j))) with (tx (side (misp (exec j)))). cbn. lia.
  - destruct (IH (S j)) as (k & Hjk & Hl); [by rewrite E|done|]. exists k. split; [lia|].
    pose proof (prefix_length _ _ (tx_step _ _ _ (step_at j))). lia.
Qed.

Lemma address_sent n k key : keys_of (learned_attrs (misp (exec n))) !! k = Some key ->
  later (fun j => tx (side (misp (exec j))) !! k = Some key) n.
Proof.
  intros Hk. assert (Hg : forall j, (n <= j)%nat -> keys_of (learned_attrs (misp (exec j))) !! k = Some key).
  { intros j Hj. eapply prefix_lookup_Some; [exact Hk|].
    apply (exec_grows prefix (fun x => keys_of (learned_attrs (misp x)))); [|done]. intros i. eapply keys_step, step_at. }
  assert (H : later (fun j => S k <= length (tx (side (misp (exec j)))))%nat n).
  { apply reaches. intros j Hj Hl. apply (send_later _ j eq_refl). intros E.
    pose proof (Hg j Hj) as Hkj. rewrite <- (inv_tx _ _ _ _ (exec_inv j)), E, app_nil_r in Hkj.
    apply lookup_lt_Some in Hkj. lia. }
  eapply later_mono; [|exact H]. intros j Hj Hl. cbn beta in *. pose proof (Hg j Hj) as Hkj.
  rewrite <- (inv_tx _ _ _ _ (exec_inv j)) in Hkj. by rewrite lookup_app_l in Hkj by lia.
Qed.

(** The addresses received so far are moved to the blocklist, in order. *)
Lemma addresses_moved n : later (fun j => keys_of (learned_attrs (misp (exec n))) `prefix_of` moved (exec j)) n.
Proof.
  set (l := keys_of (learned_attrs (misp (exec n)))).
  assert (Hsent : later (fun j => l `prefix_of` tx (side (misp (exec j)))) n).
  { assert (H : later (fun j => length l <= length (tx (side (misp (exec j)))))%nat n).
    { destruct (decide (l = [])) as [->|Hne]; [apply later_now; cbn; lia|].
      destruct (last l) as [key|] eqn:El; [|by apply last_None in El].
      rewrite last_lookup in El. eapply later_mono; [|by apply (address_sent n _ key El)].
      intros j _ Hj%lookup_lt_Some. cbn beta. lia. }
    eapply later_mono; [|exact H]. intros j Hj Hl. cbn beta in Hl |- *.
    assert (Hg : l `prefix_of` keys_of (learned_attrs (misp (exec j)))).
    { apply (exec_grows prefix (fun x => keys_of (learned_attrs (misp x)))); [|done]. intros i. eapply keys_step, step_at. }
    rewrite <- (inv_tx _ _ _ _ (exec_inv j)) in Hg.
    destruct Hg as [r E]. apply (f_equal (take (length l))) in E. rewrite take_app_length, take_app_le in E by done.
    rewrite <- E. apply prefix_take. }
  eapply later_then; [exact Hsent|]. intros j Hj Htx.
  eapply later_mono; [|apply (reaches (fun i => drained (evloop (exec i))) (length l) j)].
  - intros i Hi Hl. cbn beta in Hl |- *. pose proof (transitivity Htx (tx_grow j i Hi)) as [r E].
    unfold moved. rewrite E, take_app_ge by done. by apply prefix_app_r.
  - intros i Hi Hl. apply drained_later. pose proof (prefix_length _ _ (transitivity Htx (tx_grow j i Hi))). lia.
Qed.
End run.

(** C4: in every fair execution, each record that the kernel submits reaches
    the event loop's callback.  If the shield is up then, the record's line
    gets into the log, provided that the log can be written; and each process
    that one of the agent's tests fires for is answered by the responder
    afterwards, unless the channel is found full. *)
Theorem records_answered s a m exec acts n i data :
  execution s a m exec acts -> fair exec acts ->
  records (events (kernel_state (exec n))) !! i = Some data ->
  exists j d, seen (evloop (exec (S j))) = seen (evloop (exec j)) ++ [d] /\ length (seen (evloop (exec j))) = i /\
    del_data d = data /\
    (research d = false -> wal_ok (db a) = true -> connection_string (db a) <> [] ->
      later (fun k => logged (event_line (event_pid data) (event_ppid data) (event_uid data) (event_comm data)
        (event_filename data)) (exec k)) j) /\
    (forall pid, pid ∈ orders_of d -> later (answers exec pid) j \/ later (fun k => channel_full (exec k)) j).
Proof.
  intros Hex Hf Hi. destruct (read_later _ _ _ _ _ Hex Hf n i data Hi) as (j & scan & r & E & Es).
  exists j, (Delivery (research_mode (the_agent (exec j))) data (scan (event_pid data))). rewrite Es.
  pose proof (exec_inv _ _ _ _ _ Hex j) as Hinv.
  assert (Hlen : length data = size Event).
  { pose proof (inv_events _ _ _ _ (exec_inv _ _ _ _ _ Hex n)) as He.
    apply (event_who _ _ (Forall_lookup_1 _ _ _ _ He Hi)). }
  assert (Et : todo (evloop (exec (S j))) = callback scan data (research_mode (the_agent (exec j)))) by by rewrite Es.
  split_and!; [done| |done| |].
  - rewrite <- E, <- (length_fmap del_data), (inv_seen _ _ _ _ Hinv), length_take.
    pose proof (inv_read _ _ _ _ Hinv). lia.
  - cbn [research]. intros Hr Hw Hc. rewrite Hr in Et. unfold callback in Et. rewrite Hlen, Nat.eqb_refl in Et.
    destruct (effect_later _ _ _ _ _ Hex Hf (S j) _ _ Et) as (k & Hk & w & Ek).
    exists (S k). split; [lia|]. rewrite Ek. unfold logged. cbn [perform set_agent the_agent do_effect log_with set_db db].
    destruct (inv_log _ _ _ _ (exec_inv _ _ _ _ _ Hex k)) as (_ & Hw' & Hc').
    exists (wal (db (the_agent (exec k)))), []. unfold insert_event, append. rewrite Hw', Hw, Hc'.
    by destruct (connection_string (db a)).
  - intros pid Hp. rewrite <- callback_orders in Hp. cbn [del_scan del_data research] in Hp.
    destruct (order_answered _ _ _ _ _ Hex Hf (S j) _ pid Et Hp) as [H|H]; [left|right];
      by eapply (later_from _ (S j)); [lia|].
Qed.

Section blocking.
Context {HKD : KernelMap M} {HKDL : KernelMapLaws M}.

(** C5: in every fair execution, with the blocklist as declared (a hash map
    of 100000 entries), once the sidecar has received the address of an IPv4
    packet's destination in an "ip-dst" attribute, and if by then the keys at
    the start and the addresses received are together at most 100000 different
    ones, the packet is dropped from some moment on, for ever, whatever is
    received later: the loop leaves its [try_recv] only when the channel is
    empty, so it makes room for a sidecar that waits. *)
Theorem reports_block s a m exec acts n pkt :
  let dst := load 30 4 pkt in
  definition (c2_blocklist s) = decl.c2_blocklist ->
  execution s a m exec acts -> fair exec acts ->
  is_bytes pkt -> 34 <= length pkt -> load 12 2 pkt = [8; 0] ->
  reported_address dst (exec n) -> all_fit s (exec n) ->
  later (fun j => forall k, (j <= k)%nat -> (fst <$> xdp_c2_inspector pkt (kernel_state (exec k))) = Some XDP_DROP) n.
Proof.
  cbv zeta. intros Hdef Hex Hf Hb Hl Hip Hr%reported_key Hfit; [|apply length_load; lia|auto with alphvdr].
  assert (Hh : is_hash (c2_blocklist s)) by (unfold is_hash; by rewrite Hdef).
  eapply later_mono; [|by apply (addresses_moved _ _ _ _ _ Hex Hf n)]. intros j _ Hj k Hk. cbn beta in Hj.
  apply ipv4_drop_iff; [done..|]. rewrite (inv_blocklist _ _ _ _ (exec_inv _ _ _ _ _ Hex k)).
  assert (Hp : moved (exec j) `prefix_of` moved (exec k)).
  { apply (exec_grows _ prefix moved); [|done]. intros i.
    eapply moved_grows; [apply (inv_count _ _ _ _ (exec_inv _ _ _ _ _ Hex i))|]. eexists. apply (step_at _ _ _ _ _ Hex). }
  destruct (transitivity Hj Hp) as [l ->]. rewrite block_all_app. apply block_all_blocked.
  - unfold is_hash. by rewrite block_all_definition.
  - apply block_all_fits; [done|by rewrite Hdef|done].
Qed.
End blocking.
End fair.

(** ** A concrete fair execution

    The run of [Whole], and then a loop that polls and drains with nothing to
    do. *)

Section witnesses.
Import Sensor.Demo Whole.Demo.
#[local] Notation W := (whole (M := kmap) (R := ring)).
#[local] Notation does := (does (M := kmap) (R := ring) (bs "{}") demo_decode (new_client None)).
#[local] Notation fair := (fair (M := kmap) (R := ring)).

Definition idle (k : nat) : W := if Nat.even k then x14 else set_phase Draining x14.
Definition demo_exec (n : nat) : W :=
  match n with
  | 0 => x1 | 1 => x2 | 2 => x3 | 3 => x4 | 4 => x5 | 5 => x6 | 6 => x7 | 7 => x8 | 8 => x9 | 9 => x10
  | 10 => x11 | 11 => x12 | 12 => x13 | S (S (S (S (S (S (S (S (S (S (S (S (S k)))))))))))) => idle k
  end%nat.
Definition demo_acts (n : nat) : action :=
  match n with
  | 0 => Read | 1 | 2 | 3 => Effect | 4 => Receive | 5 => Answer | 6 => Search | 7 | 8 | 9 => Chore
  | 10 => PollReturns | 11 => Drain | 12 => ChannelEmpty
  | S (S (S (S (S (S (S (S (S (S (S (S (S k)))))))))))) => if Nat.even k then PollReturns else ChannelEmpty
  end%nat.

Lemma idle_does k : does (if Nat.even k then PollReturns else ChannelEmpty) (idle k) (idle (S k)).
Proof.
  unfold idle. rewrite Nat.even_succ, <- Nat.negb_even. destruct (Nat.even k); cbn [negb].
  - apply (w_return x14); vm_compute; reflexivity.
  - assert (E : forall x : W, at_phase (evloop x) = Polling -> set_phase Polling (set_phase Draining x) = x)
      by (intros [? [] ? ? ?]; cbn; by intros ->).
    rewrite <- (E x14) at 2 by (vm_compute; reflexivity). apply (w_empty (set_phase Draining x14)); vm_compute; reflexivity.
Qed.

Lemma demo_does n : does (demo_acts n) (demo_exec n) (demo_exec (S n)).
Proof.
  destruct does_effects as (E1 & E2 & E3), does_order as [O1 O2], does_chores as (C1 & C2 & C3), does_drain as (D1 & D2 & D3).
  destruct n as [|[|[|[|[|[|[|[|[|[|[|[|[|k]]]]]]]]]]]]];
    [exact does_read|exact E1|exact E2|exact E3|exact O1|exact O2|exact does_search|exact C1|exact C2|exact C3|exact D1
    |exact D2|exact D3|apply idle_does].
Qed.

(** What is still to do in a state, as a test. *)
Definition has_unread (x : W) : bool := (ev_read (evloop x) <? length (records (events (kernel_state x))))%nat.
Definition has_chores (x : W) : bool := negb (length (pending (misp x)) =? 0)%nat.
Definition has_orders (x : W) : bool :=
  negb (bool_decide (in_hand (serving x) = None) && (length (channel (the_agent x)) =? 0)%nat).

Lemma from_idle (f : W -> bool) k : f x14 = false -> f (set_phase Draining x14) = false -> f (idle k) = false.
Proof. unfold idle. by destruct (Nat.even k). Qed.

Lemma all_read n : has_unread (demo_exec (S n)) = false.
Proof.
  destruct n as [|[|[|[|[|[|[|[|[|[|[|[|k]]]]]]]]]]]];
    [vm_compute; reflexivity..|apply from_idle; vm_compute; reflexivity].
Qed.
Lemma all_done n : has_chores (demo_exec (10 + n)) = false.
Proof. destruct n as [|[|[|k]]]; [vm_compute; reflexivity..|apply from_idle; vm_compute; reflexivity]. Qed.
Lemma all_answered n : has_orders (demo_exec (6 + n)) = false.
Proof.
  destruct n as [|[|[|[|[|[|[|k]]]]]]]; [vm_compute; reflexivity..|apply from_idle; vm_compute; reflexivity].
Qed.
Lemma loop_for_ever n : later (fun j => demo_acts j = PollReturns) n.
Proof.
  exists (13 + 2 * n)%nat. split; [lia|]. cbn [demo_acts plus]. by rewrite Nat.even_mul.
Qed.

Lemma tail_fair : fair demo_exec demo_acts.
Proof.
  split.
  - intros [|n] Hu; [by apply later_now|]. exfalso. pose proof (all_read n) as E. apply Nat.ltb_ge in E. unfold unread in Hu. lia.
  - intros n _. apply loop_for_ever.
  - intros n. eapply later_mono; [|apply loop_for_ever]. by intros j _ ->.
  - intros n c rest Hp _. destruct (decide (n <= 9)%nat) as [|Hn]; [by exists 9%nat|].
    pose proof (all_done (n - 10)) as E. replace (10 + (n - 10))%nat with n in E by lia. unfold has_chores in E. by rewrite Hp in E.
  - intros n Ho. destruct (decide (n <= 5)%nat) as [|Hn]; [by exists 5%nat; split; [|right]|].
    pose proof (all_answered (n - 6)) as E. replace (6 + (n - 6))%nat with n in E by lia. unfold has_orders in E.
    apply negb_false_iff, andb_true_iff in E as [E1%bool_decide_eq_true E2%Nat.eqb_eq].
    destruct Ho as [Ho|Ho]; [done|]. by destruct (channel (the_agent (demo_exec n))).
Qed.
Lemma demo_hooks n : fired (cpus (demo_exec n)) = [trap].
Proof.
  destruct n as [|[|[|[|[|[|[|[|[|[|[|[|[|k]]]]]]]]]]]]]; [reflexivity..|]. cbn [demo_exec]. unfold idle.
  destruct (Nat.even k); reflexivity.
Qed.

(** The steps of the program come before. *)
Lemma prepend x (exec : nat -> W) acts :
  rtc (wstep (bs "{}") demo_decode (new_client None)) x (exec 0%nat) -> (forall n, does (acts n) (exec n) (exec (S n))) ->
  exists N exec' acts', exec' 0%nat = x /\ (forall n, does (acts' n) (exec' n) (exec' (S n))) /\
    forall n, exec' (N + n)%nat = exec n /\ acts' (N + n)%nat = acts n.
Proof.
  intros Hr Hs. remember (exec 0%nat) as y eqn:Ey. induction Hr as [y|x z y [b Hb] _ IH]; [by exists 0%nat, exec, acts|].
  destruct (IH Ey) as (N & exec' & acts' & E0 & Hs' & Ht).
  exists (S N), (fun n => match n with O => x | S n => exec' n end), (fun n => match n with O => b | S n => acts' n end).
  split_and!; [done| |done]. intros [|n]; [by rewrite E0|apply Hs'].
Qed.

Lemma fair_run_exists : exists N exec acts,
  execution (bs "{}") demo_decode (new_client None) declared_sensor listening demo_sidecar exec acts /\ fair exec acts /\
  forall n, exec (N + n)%nat = demo_exec n /\ acts (N + n)%nat = demo_acts n.
Proof.
  destruct (prepend x0 demo_exec demo_acts x1_runs demo_does) as (N & exec & acts & E0 & Hs & Ht). exists N, exec, acts.
  assert (Hacts : forall (Q : action -> Prop) n k, (n <= N + k)%nat -> Q (demo_acts k) -> later (fun j => Q (acts j)) n).
  { intros Q n k Hn Hq. exists (N + k)%nat. split; [lia|]. by rewrite (proj2 (Ht k)). }
  assert (Hlift : forall (Q : action -> Prop) n, (N <= n)%nat ->
    later (fun j => Q (demo_acts j)) (n - N) -> later (fun j => Q (acts j)) n).
  { intros Q n Hn (j & Hj & Hq). apply (Hacts _ _ j); [lia|done]. }
  assert (Hat : forall n, (N <= n)%nat -> exec n = demo_exec (n - N))
    by (intros n Hn; rewrite <- (proj1 (Ht _)); f_equal; lia).
  split_and!; [|split|done].
  - split; [exact x0_fresh|exact E0|exact Hs|]. intros n.
    assert (Hg : forall k, fired (cpus (exec n)) `prefix_of` fired (cpus (exec (n + k)%nat))).
    { induction k as [|k IH]; [by rewrite Nat.add_0_r|]. etrans; [exact IH|]. rewrite Nat.add_succ_r.
      eapply wstep_fired. eexists. apply Hs. }
    destruct (Hg N) as [l E]. rewrite Nat.add_comm, (proj1 (Ht n)), demo_hooks in E.
    pose proof trap_hooks as Hw. rewrite E in Hw. by apply Forall_app in Hw as [Hw _].
  - intros n Hu. destruct (decide (n <= N)%nat); [by apply (Hacts (fun b => b = Read) n 0%nat); [lia|]|].
    apply (Hlift (fun b => b = Read)); [lia|]. apply tail_fair. by rewrite <- Hat by lia.
  - intros n _. eapply later_mono; [intros j _ H; exact H|]. destruct (loop_for_ever n) as (k & Hk & E).
    apply (Hacts (fun b => b = PollReturns) n k); [lia|done].
  - intros n. destruct (loop_for_ever n) as (k & Hk & E). apply (Hacts of_loop n k); [lia|by rewrite E].
  - intros n c rest Hp Hm. destruct (decide (n <= N)%nat); [by apply (Hacts (fun b => b = Chore) n 7%nat); [lia|]|].
    apply (Hlift (fun b => b = Chore)); [lia|]. rewrite Hat in Hp, Hm by lia. by apply (sidecar_runs _ _ tail_fair _ c rest).
  - intros n Ho. destruct (decide (n <= N)%nat);
      [apply (Hacts (fun b => b = Receive \/ b = Answer) n 5%nat); [lia|by right]|].
    apply (Hlift (fun b => b = Receive \/ b = Answer)); [lia|]. rewrite Hat in Ho by lia. by apply tail_fair.
Qed.

Lemma records_answered_witness : exists exec acts,
  execution (bs "{}") demo_decode (new_client None) declared_sensor listening demo_sidecar exec acts /\ fair exec acts /\
  exists j d, del_data d = record /\
    forall pid, pid ∈ orders_of d ->
      later (answers (new_client None) exec pid) j \/ later (fun k => channel_full (exec k)) j.
Proof.
  destruct fair_run_exists as (N & exec & acts & Hex & Hf & Ht). exists exec, acts. split; [exact Hex|]. split; [exact Hf|].
  assert (Hi : records (events (kernel_state (exec (N + 0)%nat))) !! 0%nat = Some record)
    by (rewrite (proj1 (Ht 0%nat)); vm_compute; reflexivity).
  destruct (records_answered _ _ _ _ _ _ _ _ (N + 0) 0 record Hex Hf Hi) as (j & d & _ & _ & Hd & _ & Ho).
  exists j, d. split; [exact Hd|exact Ho].
Defined.

Lemma reports_block_witness : exists exec acts,
  execution (bs "{}") demo_decode (new_client None) declared_sensor listening demo_sidecar exec acts /\ fair exec acts /\
  exists j, (fst <$> xdp_c2_inspector (demo_packet [198; 51; 100; 7] []) (kernel_state (exec j))) = Some XDP_DROP.
Proof.
  destruct fair_run_exists as (N & exec & acts & Hex & Hf & Ht). exists exec, acts. split; [exact Hex|]. split; [exact Hf|].
  assert (Hdef : definition (c2_blocklist declared_sensor) = decl.c2_blocklist) by reflexivity.
  edestruct (reports_block (bs "{}") demo_decode (new_client None) declared_sensor listening demo_sidecar exec acts (N + 12)
    (demo_packet [198; 51; 100; 7] []) Hdef Hex Hf) as (j & _ & Hj); [| | | | |exists j; by apply Hj].
  - apply (bool_decide_unpack _). vm_compute. exact I.
  - vm_compute. congruence.
  - vm_compute. reflexivity.
  - rewrite (proj1 (Ht 12%nat)). exists (MkAttr (bs "ip-dst") (bs "198.51.100.7")).
    split; [apply (list_elem_of_lookup_2 _ 1); vm_compute; reflexivity|]. split; vm_compute; reflexivity.
  - rewrite (proj1 (Ht 12%nat)). vm_compute. congruence.
Defined.
End witnesses.
