(* ===== verification/System.v ===== *)
(** * The kernel and the agent together

    The theorems of this file run a BPF program, the agent's callback on the
    record it submitted, and the responder on the orders that the callback
    sent. *)

From stdpp Require Import gmap.
From S2P Require Import Prelude CTypes Vmlinux Bpf Maps Sensor Kernel Text Shell Carver Kp14 Agent Pipeline Responder Deploy.

(** ** What is left in a record

    [bpf_ringbuf_reserve] does not clear the record, and a trap writes only
    its name and one NUL into the 256 bytes of the file name.  [cleared] says
    that what the record held after them was only NULs. *)

Definition cleared (name : string) (stale : bytes) : Prop :=
  Forall (fun b => b = 0) (drop (28 + length (c_str name)) stale).
#[export] Instance cleared_dec name stale : Decision (cleared name stale).
Proof. unfold cleared. apply _. Defined.

Lemma last_nonzero (l : bytes) :
  (exists b, b ∈ l /\ b <> 0) -> exists r b n, l = r ++ [b] ++ replicate n 0 /\ b <> 0.
Proof.
  induction l as [|x l IH] using rev_ind; [by intros (b & ?%elem_of_nil & _)|].
  intros (b & Hin & Hb). destruct (decide (x = 0)) as [->|Hx].
  - destruct IH as (r & c & n & -> & Hc).
    { exists b. split; [|done]. apply elem_of_app in Hin as [?|Hx%list_elem_of_singleton]; [done|congruence]. }
    exists r, c, (S n). split; [|done]. by rewrite replicate_S_end, <- !app_assoc.
  - exists l, x, 0%nat. by rewrite app_nil_r.
Qed.

(** The names of the traps are seven-bit text, and fit. *)
Lemma trap_names name : name ∈ map fst trap_table ->
  (length (c_str name) <= 256)%nat /\ Forall (fun b => 0 < b < 128) (bs name).
Proof.
  assert (Hn : Forall (fun name => (length (c_str name) <= 256)%nat /\
      Forall (fun b => 0 < b < 128) (bs name)) (map fst trap_table))
    by (apply (bool_decide_unpack _); vm_compute; exact I).
  rewrite Forall_forall in Hn. apply Hn.
Qed.

(** The file name of a record, as the agent reads it, over what was there:
    only trailing NULs are trimmed, so over anything else the name keeps the
    NUL and the old bytes. *)
Lemma field_cleared name stale :
  name ∈ map fst trap_table -> cleared name stale ->
  field_string (c_str name ++ drop (28 + length (c_str name)) stale) = bs name.
Proof.
  intros Hin Hc.
  assert (E : drop (28 + length (c_str name)) stale = replicate (length (drop (28 + length (c_str name)) stale)) 0).
  { symmetry. apply replicate_as_Forall_2; [done|]. eapply Forall_impl; [exact Hc|]. by intros b ->. }
  rewrite E. by apply trap_field_string.
Qed.
Lemma field_stale name stale :
  name ∈ map fst trap_table -> ~ cleared name stale ->
  trap_fires (field_string (c_str name ++ drop (28 + length (c_str name)) stale)) = false.
Proof.
  intros Hin Hb. destruct (trap_names name Hin) as [_ Hname].
  apply not_Forall_Exists in Hb; [|apply _]. apply Exists_exists in Hb.
  apply from_utf8_lossy_nonzero, last_nonzero in Hb as (r & b & n & E & Hb0).
  unfold field_string. rewrite from_utf8_lossy_ascii_app, E.
  2:{ unfold c_str. apply Forall_app. split; [eapply Forall_impl; [exact Hname|]; simpl; lia|by repeat constructor]. }
  rewrite app_assoc, trim_end_byte_app by done.
  apply bool_decide_eq_false_2. unfold trap_of. rewrite fmap_is_Some. intros [[i t] Ht].
  apply list_find_Some in Ht as (Hi & Heq & _). apply list_elem_of_lookup_2 in Hi.
  destruct (trap_names t.1) as [_ Ht0]; [apply list_elem_of_fmap; by exists t|].
  rewrite <- Heq in Ht0. unfold c_str in Ht0. rewrite !Forall_app in Ht0.
  destruct Ht0 as [[[_ [H0 _]%Forall_cons] _] _]. lia.
Qed.

Section system.
Context {M R : Type} `{HBM : BpfMap M, HBL : !BpfMapLaws M, HRB : !RingBuf R, HRL : !RingBufLaws R,
  HKM : KernelMemory, HKL : !KernelMemoryLaws}.
Implicit Types (tk : task) (s : sensor M R).

(** The agent takes events and has room for an order. *)
Definition ready (a : agent) : Prop :=
  research_mode a = false /\ rx_alive a = true /\ (length (channel a) < CHANNEL_CAPACITY)%nat.

(** What the ring hands out when the program asks for a record. *)
Definition reserved s : option bytes := (bpf_ringbuf_reserve (events s) (size struct_event)).1.

(** The event of a trap decoded by the agent: it has the trap's name if the
    record was clear after it, and no trap's name otherwise; there is none
    when the ring is full. *)
Lemma trapped_event tk freeze ppid uid name s s' :
  trapped tk freeze ppid uid name s s' -> name ∈ map fst trap_table ->
  match reserved s with
  | None => records (events s') = records (events s)
  | Some stale => exists e, records (events s') = records (events s) ++ [e] /\ length e = size Event /\
      event_pid e = i32 (tgid tk) /\ (cleared name stale -> event_filename e = bs name) /\
      (~ cleared name stale -> trap_fires (event_filename e) = false)
  end.
Proof.
  intros [_ He] Hin. unfold emitted, reserved in *.
  destruct (bpf_ringbuf_reserve (events s) (size struct_event)) as [[stale|] r]; cbn [fst] in *; [|done].
  destruct He as (e & Hr & Hl & Hd). exists e. split; [done|]. split; [by rewrite Hl|].
  change (event_pid e) with (ev_pid (decode_event e)).
  unfold event_filename. change (get_field Event "filename" e) with (ev_filename (decode_event e)).
  rewrite Hd. cbn [ev_pid ev_filename]. split; [done|]. split; [by apply field_cleared|by apply field_stale].
Qed.

(** An event whose file name is a trap's queues its process. *)
Lemma trap_event_order w scan e a name :
  ready a -> length e = size Event -> name ∈ map fst trap_table -> event_filename e = bs name ->
  exists more, channel (handle_event w scan e a) = channel a ++ event_pid e :: more.
Proof.
  intros (Hr & Hx & Hc) Hl Hin Hf. rewrite handle_event_effects by done.
  destruct (fold_effects_spec w (effects scan e) a ltac:(lia)) as (_ & _ & -> & _).
  rewrite Hx, orders_effects. assert (Ht : trap_fires (event_filename e) = true).
  { assert (H : Forall (fun name => trap_fires (bs name) = true) (map fst trap_table))
      by (apply (bool_decide_unpack _); vm_compute; exact I).
    rewrite Hf. rewrite Forall_forall in H. by apply H. }
  unfold order_count. rewrite Ht. cbn [Nat.b2n Nat.add replicate].
  rewrite take_app_ge by lia.
  destruct (CHANNEL_CAPACITY - length (channel a))%nat as [|n] eqn:En; [lia|]. cbn [take]. by eexists.
Qed.

(** A trap that the kernel reports reaches the channel of the agent, if the
    record was clear after the trap's name; if not, the agent does not take
    the record for a trap. *)
Lemma trap_to_queue tk freeze ppid uid name s s' w scan a :
  trapped tk freeze ppid uid name s s' -> name ∈ map fst trap_table -> ready a ->
  match reserved s with
  | None => records (events s') = records (events s)
  | Some stale => exists e, records (events s') = records (events s) ++ [e] /\
      if decide (cleared name stale)
      then exists more, channel (handle_event w scan e a) = channel a ++ i32 (tgid tk) :: more
      else trap_fires (event_filename e) = false
  end.
Proof.
  intros Ht Hin Ha. pose proof (trapped_event _ _ _ _ _ _ _ Ht Hin) as He. destruct (reserved s) as [stale|]; [|done].
  destruct He as (e & Hr & Hl & Hp & Hf & Hn). exists e. split; [done|]. case_decide as Hc; [|auto].
  rewrite <- Hp. by apply (trap_event_order w scan e a name), Hf.
Qed.

(** Only processes that acted are stopped.  Take any sequence of hooks,
    with well-formed tasks, on a sensor with an empty event ring, and then any
    execution of the agent, from an empty channel, whose records come from
    that ring: every process that the programs signalled, that the responder
    stopped or that still waits in the channel is the current process of one
    of the hooks, and no record was refused for its size. *)
Theorem only_actors_stopped hs s s' a sys :
  Forall hook_wf hs -> records (events s) = [] -> signals s = [] -> run_hooks hs s = Some s' ->
  channel a = [] -> steps (initial a) sys -> (forall x, x ∈ sys_seen sys -> x.2 ∈ records (events s')) ->
  Forall (fun p => actors hs (i32 p.1) /\ p.2 = 19) (signals s') /\
  Forall (actors hs) (sys_stopped sys ++ channel (sys_agent sys)) /\
  Forall (fun x => length x.2 = size Event) (sys_seen sys).
Proof.
  intros Hhs Hr Hsig Hrun Ha Hsteps Hseen.
  destruct (run_hooks_typed (actors hs) hs s (actors_hooks hs Hhs)) as (s1 & E & [_ Hev _ Hsg _ _]).
  rewrite Hrun in E. injection E as <-.
  destruct Hev as (l & El & Hl). rewrite Hr in El. cbn [app] in El.
  destruct Hsg as (sg & Esg & Hsg). rewrite Hsig in Esg. cbn [app] in Esg.
  assert (Hev : forall x, x ∈ sys_seen sys -> length x.2 = size Event /\ actors hs (event_pid x.2)).
  { intros x Hx%Hseen. rewrite El in Hx. rewrite Forall_forall in Hl. by destruct (Hl _ Hx) as [[Hlen _] Hw]. }
  split_and!.
  - rewrite Esg. eapply Forall_impl; [exact Hsg|]. by intros p (_ & Hw & H19).
  - destruct (steps_inv _ _ Hsteps) as (_ & Hin & _).
    { split_and!; cbn; rewrite Ha; [simpl; lia|by intros ? ?%elem_of_nil|simpl; lia]. }
    apply Forall_forall. intros pid Hp%Hin. unfold reported in Hp.
    apply list_elem_of_In, in_map_iff in Hp as (x & <- & Hx). apply filter_In in Hx as [Hx _].
    by apply Hev, list_elem_of_In.
  - apply Forall_forall. intros x Hx. by apply Hev.
Qed.

(** A process that opens a honeytoken against its mode is reported. *)
Lemma honeytoken_trapped tk path file s :
  task_wf tk -> honey_breach s file ->
  trapped tk false (-1) (tk_uid_gid tk) "HONEYTOKEN_TRIGGERED" s (kprobe_vfs_open tk path file s).2.
Proof.
  intros Hwf Hb. unfold kprobe_vfs_open. run. fold (file_ino file) (file_flags file).
  destruct Hb as [Hb|[Hb Hw]]; rewrite Hb; run; [|rewrite (proj2 (write_access_bits _)) by done; run];
    (apply emit_trap_ok; [done|apply tgid_i32|simpl; lia]).
Qed.

(** C1: from a honeytoken to a core dump: a process opens a honeytoken
    against its mode, while the agent is not in research mode and its channel
    has room.  If the ring is full, there is no record.  Otherwise the
    kernel submits one; if the bytes that the ring left in the record after
    the trap's name are all NUL, the agent's callback on it queues the
    process, and when the responder serves the queue, then, if that process
    can be stopped and read and the disk takes the blob, it is stopped and its
    blob is written and given to the analysis, which parses it back to the
    memory and the registers of that very process; nothing that happens with
    the other orders, or with the commands, prevents it.  If there is anything
    else in those bytes, which the kernel does not clear, the agent does not
    recognise the trap. *)
Theorem honeytoken_to_core_dump tk path file s w scan a client :
  task_wf tk -> honey_breach s file -> ready a ->
  let pid := i32 (tgid tk) in
  let s' := (kprobe_vfs_open tk path file s).2 in
  match reserved s with
  | None => records (events s') = records (events s)
  | Some stale => exists event, records (events s') = records (events s) ++ [event] /\
      if decide (cleared "HONEYTOKEN_TRIGGERED" stale) then
        exists more, channel (handle_event w scan event a) = channel a ++ pid :: more /\
        forall orders, map fst orders = channel (handle_event w scan event a) ->
        exists env r,
          orders !! length (channel a) = Some (pid, env) /\
          serve w client orders idle_responder = Ok r /\
          forall vmas, kill_ok env = true -> disk_ok env = true -> is_unsigned 64 (carve_time env) ->
            live_process (target env) vmas ->
            exists blob, served_order client pid env blob r /\
              from_file (Some blob) = Ok (dump_of pid (carve_time env)
                (omap (carve_one (target env)) (filter carvable vmas)) (capture_register_state (target env)))
      else trap_fires (event_filename event) = false
  end.
Proof.
  intros Hwf Hb Ha pid s'.
  pose proof (trap_to_queue _ _ _ _ _ _ _ w scan a (honeytoken_trapped tk path file s Hwf Hb) ltac:(by left) Ha) as Hq.
  destruct (reserved s) as [stale|]; [|exact Hq]. destruct Hq as (e & Hr & Hq). exists e. split; [exact Hr|].
  case_decide; [|exact Hq]. destruct Hq as [more Hch]. exists more. split; [done|].
  intros orders Ho. rewrite Hch in Ho. fold pid in Ho.
  assert (Hlook : map fst orders !! length (channel a) = Some pid) by (rewrite Ho; by apply list_lookup_middle).
  assert (Hpid : is_signed 32 pid) by (apply swrap_range; lia). clearbody pid.
  rewrite list_lookup_fmap in Hlook. apply fmap_Some in Hlook as ([p env] & Hlook & ->).
  destruct (serve_total w client orders idle_responder (idle_ok w)) as (r & Hs & _).
  exists env, r. split; [done|]. split; [done|]. intros vmas Hk Hd Ht Hl.
  destruct (live_process_parses p (carve_time env) (target env) vmas Hl) as (blob & Hcarve & Hparse);
    [done|done|].
  exists blob. split; [|done].
  eapply serve_serves_order; [exact Hs|by eapply list_elem_of_lookup_2|done|by rewrite Hd].
Qed.

(** C24: after a startup that succeeded, and whatever has happened since as
    long as the map of the agent's pid is as the startup left it, a process
    that sends any signal to the agent is stopped by the kernel, in the same
    call.  If the ring is not full, the kernel also submits a record, and, with
    the agent not in research mode and room in its channel, if
    the bytes left in it after the trap's name are all NUL, the agent queues
    the process for memory carving; otherwise it does not recognise the trap. *)
Theorem kill_agent_to_freeze env s0 s1 s tk ctx w scan a :
  startup env s0 = Ok s1 -> agent_pid s = agent_pid s1 ->
  task_wf tk -> u32 (args ctx 0) = my_pid env -> ready a ->
  let s' := (handle_kill tk ctx s).2 in
  signals s' = signals s ++ [(tgid tk, 19)] /\
  match reserved s with
  | None => records (events s') = records (events s)
  | Some stale => exists e, records (events s') = records (events s) ++ [e] /\
      if decide (cleared "SELF_DEFENSE_TRAP" stale)
      then exists more, channel (handle_event w scan e a) = channel a ++ i32 (tgid tk) :: more
      else trap_fires (event_filename e) = false
  end.
Proof.
  intros Hs Hmap Hwf Hpid Ha s'.
  assert (Hreg : bpf_map_lookup_elem (agent_pid s) 0 = Some (my_pid env)).
  { rewrite Hmap. unfold startup in Hs. apply outcome_bind_ok in Hs as (pids & E & Hs).
    repeat (apply outcome_bind_ok in Hs as (? & ? & Hs)). injection Hs as <-.
    by eapply update_required_ok. }
  assert (Ht : trapped tk true (my_pid env) (tk_uid_gid tk) "SELF_DEFENSE_TRAP" s s').
  { unfold s', handle_kill. run. rewrite Hreg, bool_decide_eq_true_2 by by rewrite Hpid. run.
    rewrite Hpid. apply frozen_trap_ok; [done|apply tgid_i32|simpl; lia]. }
  split; [by destruct Ht as [-> _]|].
  apply (trap_to_queue _ _ _ _ _ _ _ w scan a Ht); [|done].
  apply (bool_decide_unpack _). vm_compute. exact I.
Qed.

(** C40: a trap is recognised by the file name of its record alone, and the file
    name of an ordinary execution is what the caller passed: a process that
    executes a file with the name of a trap, by a relative path, is queued for
    SIGSTOP although no trap was touched, and the log says it was.  (When what
    the ring left in the record after the name is only NULs.) *)
Theorem exec_name_forges_trap tk ctx s w scan a name stale :
  task_wf tk -> exec_verdict tk = Observed -> user_cstr (args ctx 0) = Some (bs name) ->
  name ∈ map fst trap_table -> reserved s = Some stale -> cleared name stale -> ready a ->
  exists e more, records (events (handle_execve tk ctx s).2) = records (events s) ++ [e] /\
    event_filename e = bs name /\
    channel (handle_event w scan e a) = channel a ++ i32 (tgid tk) :: more.
Proof.
  intros Hwf Hv Hp Hin Hs Hc Ha. pose proof (handle_execve_fields tk ctx s (bs name) Hwf Hv Hp) as He.
  unfold emitted in He. fold (reserved s) in He. rewrite Hs in He. destruct He as (e & Hr & Hl & Hd).
  destruct (trap_names name Hin) as [Hlen _]. unfold c_str in Hlen. rewrite length_app in Hlen. cbn [length] in Hlen.
  assert (Hf : event_filename e = bs name).
  { unfold event_filename. change (get_field Event "filename" e) with (ev_filename (decode_event e)).
    rewrite Hd. cbn [ev_filename]. etrans; [|apply (field_cleared name stale Hin Hc)]. f_equal.
    rewrite take_ge by lia. unfold c_str. rewrite length_app, drop_drop, <- app_assoc. cbn [length app].
    do 3 f_equal. lia. }
  assert (Hpid : event_pid e = i32 (tgid tk)).
  { change (event_pid e) with (ev_pid (decode_event e)). by rewrite Hd. }
  destruct (trap_event_order w scan e a name Ha) as [more Hm]; [by rewrite Hl|done|done|].
  exists e, more. by rewrite <- Hpid.
Qed.

(** When the reserved record still holds anything but NULs after the place of
    the trap name's NUL, the agent does not recognise the trap, whichever it
    is: only trailing NULs are trimmed, so the file name it compares keeps the
    NUL and what was there. *)
Theorem stale_record_hides_trap pid ppid uid comm name stale :
  length comm = 16%nat -> length stale = 284%nat -> name ∈ map fst trap_table -> ~ cleared name stale ->
  trap_fires (event_filename (fill_trap pid ppid uid comm name stale)) = false.
Proof.
  intros Hc Hl Hin Hb. unfold event_filename.
  change (get_field Event "filename" (fill_trap pid ppid uid comm name stale))
    with (ev_filename (decode_event (fill_trap pid ppid uid comm name stale))).
  rewrite fill_trap_decode by (done || by apply trap_names). by apply field_stale.
Qed.
End system.

(** ** Concrete runs *)

Section witnesses.
Import Sensor.Demo.

Definition idle : agent := Agent.Demo.the_agent.

Definition cat_env : order_env := MkOrder true 1700000000 true Carver.Demo.the_proc 1700000001 (fun _ => Some 5000).
Definition cat_agent : agent := set_channel [] idle.

Lemma the_proc_live : live_process Carver.Demo.the_proc Carver.Demo.vmas.
Proof.
  split; [by exists Carver.Demo.maps_text|by vm_compute|split; by vm_compute|by vm_compute| |exact the_proc_ok|done|].
  - apply (bool_decide_unpack _). vm_compute. exact I.
  - apply (bool_decide_unpack _). vm_compute. exact I.
Qed.

Lemma honeytoken_to_core_dump_witness :
  exists r blob, served_order (new_client None) 42 cat_env blob r /\
    from_file (Some blob) = Ok (dump_of 42 1700000000
      (omap (carve_one Carver.Demo.the_proc) (filter carvable Carver.Demo.vmas)) (capture_register_state Carver.Demo.the_proc)).
Proof.
  assert (Hb : honey_breach declared_sensor 12288)
    by (right; split; [vm_compute; reflexivity|left; vm_compute; reflexivity]).
  assert (Ha : ready cat_agent)
    by (split; [reflexivity|]; split; [reflexivity|]; apply (bool_decide_unpack _); vm_compute; exact I).
  assert (Hs : reserved declared_sensor = Some (replicate 284 0)) by (vm_compute; reflexivity).
  pose proof (honeytoken_to_core_dump (task_of 42 1000 "cat") 0 12288 declared_sensor
    Agent.Demo.idle_world Agent.Demo.no_scan cat_agent (new_client None) ltac:(auto with alphvdr) Hb Ha) as Hmain.
  cbv zeta in Hmain. rewrite Hs in Hmain. destruct Hmain as (e & _ & H). rewrite decide_True in H.
  - destruct H as (more & Hch & H). cbn [cat_agent set_channel channel length app] in Hch.
    destruct (H ((42, cat_env) :: map (fun p => (p, cat_env)) more)) as (env & r & E & _ & Hr).
    + rewrite Hch. cbn [map fst]. f_equal. rewrite map_map. apply map_id.
    + injection E as <-. destruct (Hr Carver.Demo.vmas) as (blob & Hb1 & Hb2);
        [reflexivity|reflexivity|vm_compute; split; congruence|exact the_proc_live|].
      exists r, blob. exact (conj Hb1 Hb2).
  - apply (bool_decide_unpack _). vm_compute. exact I.
Defined.

(** One honeytoken opened, one record handled, one process stopped. *)
Definition opened : sensor (gmap Z Z) ring := (kprobe_vfs_open (task_of 42 1000 "cat") 0 12288 sensor0).2.
Definition record : bytes := nth 0 (records (events opened)) [].
Definition listening : agent := set_channel [] idle.
Definition handled : agent := handle_event Agent.Demo.idle_world Agent.Demo.no_scan record listening.
Definition stopped_system : system := MkSystem (set_channel [] handled) [(false, record)] [42].

Lemma only_actors_stopped_witness :
  steps (initial listening) stopped_system /\
  Forall (actors [VfsOpen (task_of 42 1000 "cat") 0 12288]) (sys_stopped stopped_system).
Proof.
  assert (Hs : steps (initial listening) stopped_system).
  { eapply steps_step; [apply (step_event Agent.Demo.idle_world Agent.Demo.no_scan record)|].
    eapply steps_step; [apply (step_respond 42 [])|apply steps_refl]. vm_compute. reflexivity. }
  split; [exact Hs|].
  destruct (only_actors_stopped [VfsOpen (task_of 42 1000 "cat") 0 12288] sensor0 opened listening stopped_system)
    as (_ & H & _).
  - apply Forall_cons. split; [apply task_of_wf; vm_compute; reflexivity|by apply Forall_nil].
  - reflexivity.
  - reflexivity.
  - reflexivity.
  - reflexivity.
  - exact Hs.
  - intros x [-> | []%elem_of_nil]%elem_of_cons. apply (bool_decide_unpack _). vm_compute. exact I.
  - apply Forall_app in H. exact (proj1 H).
Defined.

(** The maps as the kernel creates them, and a ring of one record that still
    holds an old path. *)
Definition used_sensor : sensor kmap ring := set_events (Ring [replicate 283 0 ++ [97]] []) loaded_sensor.

Lemma kill_agent_to_freeze_witness :
  exists s, startup demo_env used_sensor = Ok s /\
    signals (handle_kill (task_of 42 1000 "sh") (ctx_of [77; 9]) s).2 = [(42, 19)] /\
    exists e, records (events (handle_kill (task_of 42 1000 "sh") (ctx_of [77; 9]) s).2) = [e] /\
      trap_fires (event_filename e) = false.
Proof.
  assert (E : exists s, startup demo_env used_sensor = Ok s /\ signals s = [] /\ events s = events used_sensor)
    by (eexists; split; [reflexivity|split; reflexivity]).
  destruct E as (s & E & Es & Ee). exists s. split; [exact E|].
  assert (Ha : ready idle)
    by (split; [reflexivity|]; split; [reflexivity|]; apply (bool_decide_unpack _); vm_compute; exact I).
  destruct (kill_agent_to_freeze demo_env used_sensor s s (task_of 42 1000 "sh") (ctx_of [77; 9])
    Agent.Demo.idle_world Agent.Demo.no_scan idle E eq_refl ltac:(auto with alphvdr) ltac:(vm_compute; reflexivity) Ha)
    as [H1 H2].
  split; [rewrite H1, Es; vm_compute; reflexivity|].
  assert (Hs : reserved s = Some (replicate 283 0 ++ [97])) by (unfold reserved; rewrite Ee; vm_compute; reflexivity).
  rewrite Hs in H2. destruct H2 as (e & Hr & H2). exists e. split; [rewrite Hr, Ee; vm_compute; reflexivity|].
  rewrite decide_False in H2; [exact H2|]. apply (bool_decide_unpack _). vm_compute. exact I.
Defined.

Lemma exec_name_forges_trap_witness :
  exists e more, records (events (handle_execve (task_of 42 1000 "bash") (ctx_of [600]) sensor0).2) = records (events sensor0) ++ [e] /\
    event_filename e = bs "HONEYTOKEN_TRIGGERED" /\
    channel (handle_event Agent.Demo.idle_world Agent.Demo.no_scan e idle) =
      channel idle ++ i32 (tgid (task_of 42 1000 "bash")) :: more.
Proof.
  apply (exec_name_forges_trap (task_of 42 1000 "bash") (ctx_of [600]) sensor0
    Agent.Demo.idle_world Agent.Demo.no_scan idle "HONEYTOKEN_TRIGGERED" (replicate 284 0)).
  - apply task_of_wf. vm_compute. reflexivity.
  - vm_compute. reflexivity.
  - vm_compute. reflexivity.
  - apply (bool_decide_unpack _). vm_compute. exact I.
  - vm_compute. reflexivity.
  - apply (bool_decide_unpack _). vm_compute. exact I.
  - split; [reflexivity|]. split; [reflexivity|]. apply (bool_decide_unpack _). vm_compute. exact I.
Defined.

Lemma stale_record_hides_trap_witness :
  trap_fires (event_filename (fill_trap 42 (-1) 1000 (comm "cat") "HONEYTOKEN_TRIGGERED"
    (replicate 283 0 ++ [97]))) = false.
Proof.
  apply stale_record_hides_trap.
  - reflexivity.
  - vm_compute. reflexivity.
  - left.
  - apply (bool_decide_unpack _). vm_compute. exact I.
Defined.
End witnesses.
